(* ===== verification/_CoqProject ===== *)
-Q . S2P
Prelude.v
Umem.v
Mmu.v
MmuInv.v
MmuSpec.v
Dport.v
Timg.v
Printf.v
PrintfSim.v
PrintfSpec.v
Console.v
Text.v
Hexdump.v
Task.v
TaskSpec.v
Scheduler.v
SchedSpec.v
SchedThm.v
Syscall.v
SyscallSpec.v
Interrupts.v
Layout.v
InterruptsSpec.v
Loader.v
LoaderSpec.v
Vm.v
Running.v
RunningSpec.v
Progress.v
Xtensa.v
Entry.v
EntrySave.v
EntryRestore.v
EntrySpec.v
EntryThm.v
Vectors.v
Preempt.v
User.v
UserSpec.v
Initrd.v
BootLoader.v
RomTrace.v
Boot.v
BootSpec.v
Headers.v
BootLoaderSpec.v
