(* ===== verification/Prelude.v ===== *)
(** * The ESP32 microkernel: a verification development

    The program is a small microkernel for the Xtensa cores of the ESP32, with the boot loader
    that starts it (paths below are under src/; kernel/ stands for kernel/src/). The boot
    loader reads the kernel and a ramdisk from flash. The kernel sets up the hardware, loads
    every application of the ramdisk into user pages of its own and runs them in turn: each
    task has an address space, each active space a hardware PID, and the watchdog timer takes
    the CPU away when a time slice is over. User code enters the kernel by system calls,
    interrupts and exceptions.

    ** The parts, and where they are

    - Umem.v: the two allocators of physical user pages (kernel/mem/umem.c, mem.h). [umem] is
      the two bit masks; the class [PageAllocator] is what clients see, the set of free pages.
    - Mmu.v: address spaces, the hardware page tables, the bindings of spaces to PIDs
      (the MMU half of kernel/drivers/dport.c, kernel/drivers/pid.c). [mmu_state] is the spaces
      in the heap, the bindings of the CPU and the registers. MmuInv.v has the invariant
      [mmu_wf], MmuSpec.v the theorems.
    - Dport.v: system registers and the allocator of interrupt lines (the rest of dport.c).
    - Timg.v: the watchdog (kernel/drivers/timg.c), registers and the log of writes to them.
    - Printf.v: the printf family (kernel/util/printf.c), generic in the output function.
      PrintfSim.v relates two runs with different outputs, PrintfSpec.v has the reference
      [render] and the theorems, Text.v the texts of the formats that the kernel uses.
    - Console.v: the serial port and the log macros (kernel/drivers/uart.c, util/trace.h,
      util/except.h). Hexdump.v: trace_hex of util/trace.c, over the class [Printer] of what
      can print; RomTrace.v: the same of the boot loader (loader/src/trace.c), over the ROM.
    - Task.v: the state of the whole kernel, [kernel], and the tasks (kernel/task/task.c,
      task.h, the per-CPU context of arch/cpu.h). TaskSpec.v ties tasks, spaces and pages
      together in [memory_wf].
    - Scheduler.v: kernel/task/scheduler.c, on the intrusive run queue. SchedSpec.v has the
      invariant [sched_wf] and the lemma of each entry point, SchedThm.v the theorems.
    - Syscall.v, SyscallSpec.v: the system call handler (kernel/task/syscall.c), on the kernel
      and the console ([machine]).
    - Interrupts.v, InterruptsSpec.v: the interrupt and exception handlers
      (kernel/arch/interrupts.c) and what they print.
    - Layout.v: what the entries into the kernel leave alone (the contexts' places, their
      stacks and names, the pages).
    - Loader.v, LoaderSpec.v: loading one application (kernel/task/loader.c), on the machine and
      the bytes of the user pages ([system]).
    - Vm.v: the abstract machine that tasks see. Running.v: arbitrary user code on the kernel,
      its writes checked by the hardware tables, system calls and interrupts in any order
      ([run_step]). RunningSpec.v: the invariant [running], the simulation of [run_step] by
      Vm.v, and what follows from it for a task. Progress.v: how each entry from a running
      state ends.
    - Xtensa.v: the windowed registers, the special registers and the memory of a core, and the
      instructions that the assembly uses ([cpu]). Entry.v: the vector of user exceptions, the
      entries and the routines that save and restore the windows (kernel/arch/interrupts.S,
      kernel/vdso/vectors.S), an operation per block of instructions. EntrySave.v and
      EntryRestore.v have their effect word by word, EntrySpec.v ties the frame in memory to
      [task_regs] of Task.v, EntryThm.v has the theorems. Vectors.v: the vectors that move
      windows to the stack and back, the other vectors, and the start of the kernel
      (kernel/main.S). Preempt.v puts the entries around the kernel of Running.v.
    - User.v, UserSpec.v: user programs (apps/shared/syscall.h, kernel/vdso/vdso.c,
      apps/init/main.c), each run as one task among others that do anything ([user_step]).
    - Initrd.v: the layout of the ramdisk (kernel/initrd.h). Boot.v, BootSpec.v: kmain and all
      it calls (kernel/main.c, mem/mem.c, init_pid), on the whole [board].
    - BootLoader.v, BootLoaderSpec.v: the boot loader (loader/src/main.c).
    - Headers.v: enumerations, registers with bit fields (those of the real time clock too, for
      which there is no more in the source), tables of constants and static assertions of the
      headers, against the numbers that the model uses.

    This file has what they share: machine integers and C operators, the compiler's ffs, error
    codes, lists, and the monad of routines. [M S A] is a routine on the state [S]: it returns
    [Ok a s], or stops in the state it has reached ([Stop]) because an assertion failed, a
    loop does not end, or an access has no defined behaviour. A component's routine runs on a
    larger state through a [Lens], with [zoom]: the state of each file is a part of the state
    of the files above it, and [zoom_ok] carries a component's lemma to the whole.

    ** What the theorems show

    - Isolation: over every reachable state of the address spaces the hardware grants a bound
      PID exactly the pages of its space and any other PID nothing; pages are never handed out
      twice; activating a space switches to it.
    - Scheduling: the intrusive queue is a first-in first-out list; yield, park, wake and drop
      do what they should on every branch; over every reachable state the queue, the
      statuses, the current task and the spaces agree; the registers of a task survive
      whatever the others do; every runnable task has its turn.
    - Tasks on the running kernel: from the state that booting ends in, every step refines
      the abstract machine; a task keeps registers, pages and bytes while others run; an
      interrupt is invisible, a yield returns; who parks never runs again; the demonstration
      application prints its greeting, whatever others do.
    - Entries: the system calls return to their caller and are the scheduler's operations; the
      interrupt of the watchdog preempts; an exception never returns. From a running state
      every interrupt and system call ends, and those that do not return are known: drop, park
      of the only task that can run, log of what is not there.
    - The way in and out: the entries save every live register of all frames and give the C
      function a pointer to [task_regs]; the exit gives the processor what the frame says; a
      window that is moved to the stack comes back. The exit takes the window base from a
      register that nothing has set ([leftover]). If the code that was stopped last ran in the
      same window, nothing is switched and the number is right. Otherwise it depends on what
      the register holds, and the theorems have both cases: if it agrees with the window of the task ([fits]), code that was
      interrupted goes on and does not see it, also when other tasks ran in between, a task that
      yields finds zero in a2 and all else unchanged, and a new task starts; if it does not
      ([clashes]), the exit goes astray. So does the exit when the oldest frame is right above
      the current one.
    - Loading and booting: an image with enough pages is loaded into fresh pages of a new
      task and nothing else changes; a ramdisk is loaded application by application; from
      reset kmain ends with the first application running and the others queued; the boot
      loader leaves in memory the ramdisk that kmain reads. Each with its error paths.
    - Output: the text of a format is written to a buffer truncated and terminated, never
      beyond it; integers read back from their text; the dump of a buffer is the reference
      dump.
    - Behaviours the code does not intend are theorems as well, stated as the code behaves:
      the stale binding of an evicted space, preemption that is never enabled again, the
      offset that user pointers lose, the sizes that the loaders do not check, and others.

    ** Bounds and fuel

    Loops that end by themselves are structural or run over a fixed list. The others have
    fuel, and a theorem says how much is enough or that none is: format strings take their
    length plus one ([vsnprintf_loop]), digits at most 65 rounds, FOR_EACH_BIT 65 rounds (one
    for each bit and one to see that none is left; it is shown to be stuck on masks on which
    more would not help either), the polling of a status register or of the flush of a cache
    the number of polls that a hypothesis says suffices ([drains] and the like), the
    compare-and-swap the rounds within which it stops failing spuriously ([cas_ends]), the idle
    loop of the scheduler the number of sleeps it is given. The loops over the register
    windows take 16 rounds, one for each window.

    ** The environment

    What is not in the repository is an argument of the definitions: umm_malloc and littlefs
    (git submodules; what littlefs promises is the class [LittlefsLaws] of BootLoaderSpec.v,
    with an instance), the functions of the ROM, spurious failures of the compare-and-swap,
    the fill level of the FIFO, the interrupts that arrive while the CPU sleeps, park
    callbacks, linker symbols, the paths that the compiler puts in for __FILE__, and the
    contents of uninitialised memory where the code reads it. The C functions that the entries
    call are compiled code: what they do to the frame in memory is a hypothesis ([turns],
    [ends_in]), which is what Task.v to Interrupts.v define for the frame of the kernel's
    state; it says nothing about the registers that they leave behind. User code is not given: where
    it runs it may change every register and every byte that the hardware lets it write.

    ** Not modelled

    Exceptions inside the entries, which run with interrupts and window checks off (but for the
    end of the exit of a new task). The second CPU, which the kernel never starts. The
    contents of the page of the vDSO, to which the tables give every PID access. Faults
    of user code and its exceptions on the running system: they never return
    ([exception_stops]). The preprocessor library of util/cpp_magic.h. Memory is not aliased:
    that SRAM1 is seen both as code and as data is left out, and so are caches. A failed ASSERT of the kernel
    is the outcome [Stop AssertFailed]: the message that it prints before it loops is not in
    the console's state (the boot loader's is, in its log). Nor is the message of the check in
    mmu_map, whose model returns the error silently: it is about page numbers that no caller
    passes. Build files and scripts. *)
From Stdlib Require Import ZArith Lia.
From stdpp Require Import base tactics numbers list gmap.

(** ** Machine integers *)

Open Scope Z_scope.

(** Conversion to an unsigned, respectively a signed, [w]-bit integer. *)
Definition wrapu (w z : Z) : Z := z mod 2 ^ w.
Definition wraps (w z : Z) : Z := (z + 2 ^ (w - 1)) mod 2 ^ w - 2 ^ (w - 1).

Declare Scope kernel_scope.
Delimit Scope kernel_scope with kernel.
Abbreviation u8 := (wrapu 8).
Abbreviation u16 := (wrapu 16).
Abbreviation u32 := (wrapu 32).
Abbreviation u64 := (wrapu 64).
Abbreviation s8 := (wraps 8).
Abbreviation s32 := (wraps 32).

(** The C shifts and masks, written as the code writes them. *)
Notation "x '.<<' n" := (Z.shiftl x n) (at level 39, left associativity) : kernel_scope.
Notation "x '.>>' n" := (Z.shiftr x n) (at level 39, left associativity) : kernel_scope.
Notation "x '.&' y" := (Z.land x y) (at level 40, left associativity) : kernel_scope.
Notation "x '.|' y" := (Z.lor x y) (at level 50, left associativity) : kernel_scope.
Notation "'.~' x" := (Z.lnot x) (at level 30, right associativity) : kernel_scope.
Open Scope kernel_scope.

Create HintDb kernel discriminated.
#[export] Hint Constants Opaque : kernel.
#[export] Hint Variables Opaque : kernel.

Lemma wrapu_small w z : 0 <= z < 2 ^ w -> wrapu w z = z.
Proof. apply Z.mod_small. Qed.

Lemma wrapu_range w z : 0 <= w -> 0 <= wrapu w z < 2 ^ w.
Proof. intros Hw. apply Z.mod_pos_bound. lia. Qed.

Lemma wraps_range w z : 1 <= w -> - 2 ^ (w - 1) <= wraps w z < 2 ^ (w - 1).
Proof.
  intros Hw. unfold wraps.
  pose proof (Z.mod_pos_bound (z + 2 ^ (w - 1)) (2 ^ w) ltac:(lia)) as Hb.
  assert (2 ^ w = 2 * 2 ^ (w - 1)) as Hp
    by (rewrite <- Z.pow_succ_r by lia; f_equal; lia).
  lia.
Qed.

Lemma wraps_small w z : 1 <= w -> - 2 ^ (w - 1) <= z < 2 ^ (w - 1) -> wraps w z = z.
Proof.
  intros Hw Hz. unfold wraps.
  assert (2 ^ w = 2 * 2 ^ (w - 1)) as Hp
    by (rewrite <- Z.pow_succ_r by lia; f_equal; lia).
  rewrite Z.mod_small; lia.
Qed.

Lemma wrapu_testbit w z i :
  0 <= w -> Z.testbit (wrapu w z) i = (i <? w) && Z.testbit z i.
Proof.
  intros Hw. unfold wrapu.
  destruct (Z.ltb_spec i w) as [Hi|Hi]; simpl.
  - destruct (decide (0 <= i)) as [Hp|Hn].
    + apply Z.mod_pow2_bits_low; lia.
    + rewrite !Z.testbit_neg_r by lia. done.
  - apply Z.mod_pow2_bits_high; lia.
Qed.

(** A non-negative number fits in [w] bits exactly when its high bits are clear. *)
Lemma range_of_testbit w z :
  0 <= w -> (forall i, w <= i -> Z.testbit z i = false) -> 0 <= z < 2 ^ w.
Proof.
  intros Hw Hz.
  assert (z = wrapu w z) as ->.
  { apply Z.bits_inj'. intros i Hi. rewrite wrapu_testbit by done.
    destruct (Z.ltb_spec i w); [done|]. by apply Hz. }
  by apply wrapu_range.
Qed.

Lemma testbit_of_range w z i : 0 <= z < 2 ^ w -> w <= i -> Z.testbit z i = false.
Proof.
  intros Hz Hi. destruct (decide (w < 0)) as [Hn|Hn].
  { rewrite Z.pow_neg_r in Hz by done. lia. }
  rewrite <- (wrapu_small w z) by done.
  rewrite wrapu_testbit by lia. destruct (Z.ltb_spec i w); [lia|done].
Qed.

Lemma testbit_1_shiftl i j : 0 <= i -> Z.testbit (1 .<< i) j = (i =? j).
Proof.
  intros Hi. rewrite Z.shiftl_1_l. by apply Z.pow2_bits_eqb.
Qed.

(** Clearing, setting and testing one bit of a mask: [m & ~(1 << i)], [m | 1 << i]. *)
Lemma testbit_clear m i j :
  0 <= i -> 0 <= j -> Z.testbit (m .& .~ (1 .<< i)) j = Z.testbit m j && negb (i =? j).
Proof.
  intros Hi Hj. rewrite Z.land_spec, Z.lnot_spec, testbit_1_shiftl by lia. done.
Qed.

Lemma testbit_set m i j :
  0 <= i -> Z.testbit (m .| 1 .<< i) j = Z.testbit m j || (i =? j).
Proof. intros Hi. rewrite Z.lor_spec, testbit_1_shiftl by lia. done. Qed.

Lemma clear_range w m i :
  0 <= w -> 0 <= i -> 0 <= m < 2 ^ w -> 0 <= m .& .~ (1 .<< i) < 2 ^ w.
Proof.
  intros Hw Hi Hm. apply range_of_testbit; [done|]. intros j Hj.
  rewrite testbit_clear by lia. by rewrite (testbit_of_range w m).
Qed.

Lemma set_range w m i :
  0 <= i < w -> 0 <= m < 2 ^ w -> 0 <= m .| 1 .<< i < 2 ^ w.
Proof.
  intros Hi Hm. apply range_of_testbit; [lia|]. intros j Hj.
  rewrite testbit_set by lia. rewrite (testbit_of_range w m) by done.
  simpl. apply Z.eqb_neq. lia.
Qed.

(** A mask is non-zero exactly when some bit of it is set. *)
Lemma nonzero_testbit w m :
  0 <= m < 2 ^ w -> m <> 0 -> exists i, 0 <= i < w /\ Z.testbit m i = true.
Proof.
  intros Hm Hnz. exists (Z.log2 m). split; [|apply Z.bit_log2; lia].
  split; [apply Z.log2_nonneg|]. apply Z.log2_lt_pow2; lia.
Qed.

(** ** The compiler's [__builtin_ffs] on a 32-bit [int]

    One plus the index of the least significant set bit, zero when there is none. *)
Definition ffs (x : Z) : Z :=
  match list_find (fun i => Z.testbit x i = true) (seqZ 0 32) with
  | Some (_, i) => i + 1
  | None => 0
  end.

Lemma ffs_cases x :
  (ffs x = 0 /\ forall i, 0 <= i < 32 -> Z.testbit x i = false) \/
  (1 <= ffs x <= 32 /\ Z.testbit x (ffs x - 1) = true /\
   forall i, 0 <= i < ffs x - 1 -> Z.testbit x i = false).
Proof.
  unfold ffs. destruct (list_find _ _) as [[k i]|] eqn:E.
  - right. apply list_find_Some in E as (Hk & Hb & Hlow).
    apply lookup_seqZ in Hk as [-> Hk]. replace (0 + Z.of_nat k + 1 - 1) with (0 + Z.of_nat k) by lia.
    split; [lia|]. split; [done|]. intros i Hi.
    assert (Z.testbit x i <> true) as Hn.
    { apply (Hlow (Z.to_nat i)); [|lia]. apply lookup_seqZ. lia. }
    by destruct (Z.testbit x i).
  - left. apply list_find_None in E. split; [done|]. intros i Hi.
    rewrite Forall_forall in E.
    assert (Z.testbit x i <> true) as Hn by (apply E, elem_of_seqZ; lia).
    by destruct (Z.testbit x i).
Qed.

Lemma ffs_range x : 0 <= ffs x <= 32.
Proof. destruct (ffs_cases x) as [[-> _]|[? _]]; lia. Qed.

(** On a non-zero mask of at most 32 bits it finds the lowest set bit. *)
Lemma ffs_spec w m :
  w <= 32 -> 0 <= m < 2 ^ w -> m <> 0 ->
  0 <= ffs m - 1 < w /\ Z.testbit m (ffs m - 1) = true /\
  forall i, 0 <= i < ffs m - 1 -> Z.testbit m i = false.
Proof.
  intros Hw Hm Hnz. destruct (nonzero_testbit w m Hm Hnz) as (i & Hi & Hb).
  destruct (ffs_cases m) as [[_ Hz]|(Hr & Ht & Hl)].
  - rewrite Hz in Hb by lia. done.
  - split; [|done]. split; [lia|].
    destruct (Z.ltb_spec (ffs m - 1) w) as [?|Hge]; [done|].
    rewrite (testbit_of_range w m) in Ht by done. done.
Qed.

(** A single bit: [ffs] is its position plus one when it is in the low word. *)
Lemma ffs_pow2 k : 0 <= k < 32 -> ffs (2 ^ k) = k + 1.
Proof.
  intros Hk. destruct (ffs_cases (2 ^ k)) as [[_ Hz]|(Hr & Ht & _)].
  - specialize (Hz k Hk). rewrite Z.pow2_bits_true in Hz by lia. done.
  - rewrite Z.pow2_bits_eqb in Ht by lia. apply Z.eqb_eq in Ht. lia.
Qed.

(** ** Effects: state, assertions, divergence and undefined behaviour

    A routine of the kernel is a state transformer that either returns or stops:
    an [ASSERT] that fails prints and spins, a loop of the code may never leave,
    and an access outside of an object (a null pointer, an index out of an array)
    has no defined behaviour. *)
Inductive stop : Set :=
  | AssertFailed
  | Spin
  | Fault.

#[export] Instance stop_eq_dec : EqDecision stop.
Proof. solve_decision. Defined.

Inductive outcome (S A : Type) : Type :=
  | Ok (a : A) (s : S)
  | Stop (w : stop) (s : S).
Arguments Ok {S A} a s.
Arguments Stop {S A} w s.

Definition outcome_state {S A} (o : outcome S A) : S :=
  match o with Ok _ s | Stop _ s => s end.
Definition outcome_value {S A} (o : outcome S A) : option A :=
  match o with Ok a _ => Some a | Stop _ _ => None end.

Lemma outcome_value_ok {S A} (o : outcome S A) a :
  outcome_value o = Some a -> o = Ok a (outcome_state o).
Proof. destruct o; simpl; congruence. Qed.

Definition M (S A : Type) : Type := S -> outcome S A.

#[export] Instance M_ret S : MRet (M S) := fun A a s => Ok a s.
#[export] Instance M_bind S : MBind (M S) := fun A B f m s =>
  match m s with
  | Ok a s' => f a s'
  | Stop w s' => Stop w s'
  end.

Definition get {S} : M S S := fun s => Ok s s.
Definition gets {S A} (f : S -> A) : M S A := fun s => Ok (f s) s.
Definition modify {S} (f : S -> S) : M S unit := fun s => Ok tt (f s).
Definition stop_with {S A} (w : stop) : M S A := fun s => Stop w s.

(** [ASSERT(b)] of util/trace.h. *)
Definition ASSERT {S} (b : bool) : M S unit :=
  if b then mret tt else stop_with AssertFailed.

(** Following a pointer, or indexing an array, that may be invalid. *)
Definition deref {S A} (o : option A) : M S A :=
  match o with Some a => mret a | None => stop_with Fault end.

Definition when {S} (b : bool) (m : M S unit) : M S unit :=
  if b then m else mret tt.

(** [for] over a fixed list of values of the loop variable. *)
Fixpoint mfor {S A} (l : list A) (body : A -> M S unit) : M S unit :=
  match l with
  | [] => mret tt
  | x :: l' => body x;; mfor l' body
  end.

(** The state of a component inside the state of the machine. *)
Class Lens (S T : Type) := {
  view : S -> T;
  update : T -> S -> S;
  view_update : forall t s, view (update t s) = t;
  update_view : forall s, update (view s) s = s;
  update_update : forall t t' s, update t (update t' s) = update t s;
}.

(** Two components that share nothing. *)
Class LensDisjoint (S T U : Type) `{Lens S T} `{Lens S U} := {
  view_other_l : forall (u : U) s, view (T := T) (update u s) = view s;
  view_other_r : forall (t : T) s, view (T := U) (update t s) = view s;
}.

(** The two halves of a pair. *)
Definition lens_fst {A B} : Lens (A * B) A.
Proof. refine {| view := fst; update := fun a s => (a, s.2) |}; [done|by intros []|done]. Defined.
Definition lens_snd {A B} : Lens (A * B) B.
Proof. refine {| view := snd; update := fun b s => (s.1, b) |}; [done|by intros []|done]. Defined.
Definition lens_pair_disjoint {A B} : @LensDisjoint (A * B) A B lens_fst lens_snd.
Proof. by constructor. Defined.

(** Running a component's routine on the machine. *)
Definition zoom {S T A} `{Lens S T} (m : M T A) : M S A := fun s =>
  match m (view s) with
  | Ok a t => Ok a (update t s)
  | Stop w t => Stop w (update t s)
  end.

(** ** Error codes (util/except.h): the constructors in order, numbered from zero *)
Inductive err : Set :=
  | NO_ERROR
  | ERROR_CHECK_FAILED
  | ERROR_OUT_OF_RESOURCES
  | ERROR_INVALID_PTR
  | ERROR_INVALID_SYSCALL.

#[export] Instance err_eq_dec : EqDecision err.
Proof. solve_decision. Defined.

Definition err_code (e : err) : Z :=
  match e with
  | NO_ERROR => 0
  | ERROR_CHECK_FAILED => 1
  | ERROR_OUT_OF_RESOURCES => 2
  | ERROR_INVALID_PTR => 3
  | ERROR_INVALID_SYSCALL => 4
  end.

Definition IS_ERROR (e : err) : bool := negb (err_code e =? 0).

(** Objects of the kernel heap are named by locations; a pointer that may be null is an
    [option loc]. *)
Abbreviation loc := positive (only parsing).

(** ** Weakest preconditions: [wp m Q s] holds when [m] returns from [s] and [Q] holds *)
Definition wp {S A} (m : M S A) (Q : A -> S -> Prop) (s : S) : Prop :=
  match m s with Ok a s' => Q a s' | Stop _ _ => False end.

Section Wp.
Context {S : Type}.

Lemma wp_ret {A} (a : A) (Q : A -> S -> Prop) s : Q a s -> wp (mret a) Q s.
Proof. done. Qed.

Lemma wp_bind {A B} (m : M S A) (f : A -> M S B) Q s :
  wp m (fun a => wp (f a) Q) s -> wp (m ≫= f) Q s.
Proof. unfold wp, mbind, M_bind. by destruct (m s). Qed.

Lemma wp_mono {A} (m : M S A) (Q Q' : A -> S -> Prop) s :
  wp m Q s -> (forall a s', Q a s' -> Q' a s') -> wp m Q' s.
Proof. unfold wp. destruct (m s); naive_solver. Qed.

Lemma wp_ok {A} (m : M S A) (Q : A -> S -> Prop) s :
  wp m Q s <-> exists a s', m s = Ok a s' /\ Q a s'.
Proof. unfold wp. destruct (m s); naive_solver. Qed.

Lemma wp_mfor {A} (l : list A) (body : A -> M S unit) (I : list A -> S -> Prop) s :
  I [] s ->
  (forall done x rest s', l = done ++ x :: rest -> I done s' ->
    wp (body x) (fun _ => I (done ++ [x])) s') ->
  wp (mfor l body) (fun _ => I l) s.
Proof.
  intros H0 Hstep.
  enough (forall rest done s', l = done ++ rest -> I done s' ->
    wp (mfor rest body) (fun _ => I l) s') as H by (apply (H l []); done).
  induction rest as [|x rest IH]; intros done0 s' Hl HI; simpl.
  - apply wp_ret. rewrite app_nil_r in Hl. by subst.
  - apply wp_bind. eapply wp_mono; [by eapply Hstep|].
    intros [] s'' HI'. apply (IH (done0 ++ [x])); [|done].
    by rewrite <- app_assoc.
Qed.

Lemma bind_ok {A B} (m : M S A) (f : A -> M S B) a s s' :
  m s = Ok a s' -> (m ≫= f) s = f a s'.
Proof. intros H. unfold mbind, M_bind. by rewrite H. Qed.

Lemma bind_stop {A B} (m : M S A) (f : A -> M S B) w s s' :
  m s = Stop w s' -> (m ≫= f) s = Stop w s'.
Proof. intros H. unfold mbind, M_bind. by rewrite H. Qed.

Lemma bind_ok_inv {A B} (m : M S A) (f : A -> M S B) b s s'' :
  (m ≫= f) s = Ok b s'' -> exists a s', m s = Ok a s' /\ f a s' = Ok b s''.
Proof. unfold mbind, M_bind. destruct (m s); naive_solver. Qed.
End Wp.

Lemma zoom_ok {S T A} `{Lens S T} (m : M T A) s a t :
  m (view s) = Ok a t -> zoom m s = Ok a (update t s).
Proof. intros E. unfold zoom. by rewrite E. Qed.

Lemma zoom_stop {S T A} `{Lens S T} (m : M T A) s w t :
  m (view s) = Stop w t -> zoom m s = Stop w (update t s).
Proof. intros E. unfold zoom. by rewrite E. Qed.

(** Unfold the primitive operations of the monad, not the routines built on them. *)
Ltac unfold_monad :=
  unfold get, gets, modify, stop_with, ASSERT, deref, when, zoom,
    mret, M_ret, mbind, M_bind.

(** Run the first statement of a sequence: its result is known by a lemma, or by
    computation or a hypothesis. *)
Tactic Notation "mrun" uconstr(E) :=
  etransitivity; [eapply bind_ok; eapply E|]; cbv beta.
Tactic Notation "mrun" :=
  etransitivity; [eapply bind_ok; first [eassumption | reflexivity]|]; cbv beta.

(** The same, leaving the first statement as a goal. *)
Ltac mfirst := etransitivity; [eapply bind_ok|]; cbv beta.

(** ** Lists: replacing and reading array cells *)
Section Arrays.
Context {A : Type}.
Implicit Types (l : list A).

Lemma lookup_insert_decide l i j x :
  (i < length l)%nat -> <[i:=x]> l !! j = if decide (i = j) then Some x else l !! j.
Proof.
  intros Hi. case_decide; subst.
  - by apply list_lookup_insert_eq.
  - by apply list_lookup_insert_ne.
Qed.

(** Writing the first cell after a prefix. *)
Lemma insert_middle l1 l2 x y : <[length l1 := y]> (l1 ++ x :: l2) = l1 ++ y :: l2.
Proof. induction l1 as [|z l1 IH]; simpl; [done|]. by f_equal. Qed.

Lemma insert_at j l1 l2 x y : length l1 = j -> <[j := y]> (l1 ++ x :: l2) = l1 ++ y :: l2.
Proof. intros <-. apply insert_middle. Qed.
End Arrays.

(** A property kept by every step holds in every reachable state. *)
Lemma rtc_invariant {A} (R : relation A) (P : A -> Prop) x y :
  (forall a b, R a b -> P a -> P b) -> rtc R x y -> P x -> P y.
Proof. intros Hstep. induction 1; eauto. Qed.

(** ** [while (cond) body] on the variables [a], at most [fuel - 1] rounds *)
Fixpoint mwhile {S A} (fuel : nat) (cond : A -> M S bool) (body : A -> M S A) (a : A) : M S A :=
  match fuel with
  | O => stop_with Spin
  | Datatypes.S fuel' =>
      b ← cond a;
      if (b : bool) then a' ← body a; mwhile fuel' cond body a' else mret a
  end.

Lemma mwhile_step {S A} fuel cond (body : A -> M S A) a b s :
  cond a s = Ok b s ->
  mwhile (Datatypes.S fuel) cond body a s =
    (if (b : bool) then a' ← body a; mwhile fuel cond body a' else mret a) s.
Proof. intros H. simpl. by rewrite (bind_ok _ _ _ _ _ H). Qed.
