(* ===== verification/Umem.v ===== *)
(** * User pages: kernel/src/mem/umem.c, umem.h and the layout of mem.h

    The two allocators of physical user pages, one 16-bit mask each ([m_code_pages] and
    [m_data_pages], a set bit is a free page), the macros between a page index and its
    address, and an interface [PageAllocator] that both allocators implement: clients
    reason about the finite set of free pages instead of the mask. *)
From Stdlib Require Import ZArith Lia.
From stdpp Require Import base tactics numbers list gmap.
From S2P Require Import Prelude.

(** ** Layout (mem/mem.h) *)
Definition USER_CODE_BASE : Z := 0x40080000.
Definition USER_DATA_BASE : Z := 0x3FFC0000.
Definition USER_PAGE_SIZE : Z := 0x2000.
Definition VDSO_PAGE_INDEX : Z := 15.
Definition UCTX_PAGE_INDEX : Z := 15.
Definition MAX_PAGE_COUNT : Z := 16.

(** ** Addresses (mem/umem.h): the arithmetic is done on 32-bit unsigned values *)
Definition CODE_PAGE_INDEX (x : Z) : Z := u32 (x - USER_CODE_BASE) / USER_PAGE_SIZE.
Definition DATA_PAGE_INDEX (x : Z) : Z := u32 (x - USER_DATA_BASE) / USER_PAGE_SIZE.
Definition CODE_PAGE_ADDR (x : Z) : Z := u32 (x * USER_PAGE_SIZE + USER_CODE_BASE).
Definition DATA_PAGE_ADDR (x : Z) : Z := u32 (x * USER_PAGE_SIZE + USER_DATA_BASE).
Definition INVALID_PAGE : Z := -1.

(** ** State and operations (mem/umem.c) *)
Record umem := Umem { m_code_pages : Z; m_data_pages : Z }.

Definition umem_init : umem := {| m_code_pages := 0x7fff; m_data_pages := 0xFFFF |}.

Definition set_code_pages (m : Z) (u : umem) : umem :=
  {| m_code_pages := u16 m; m_data_pages := m_data_pages u |}.
Definition set_data_pages (m : Z) (u : umem) : umem :=
  {| m_code_pages := m_code_pages u; m_data_pages := u16 m |}.

Definition umem_alloc_code_page : M umem Z :=
  m ← gets m_code_pages;
  if m =? 0 then mret INVALID_PAGE
  else
    let index := ffs m - 1 in
    modify (set_code_pages (m .& .~ (1 .<< index)));;
    mret index.

Definition umem_alloc_data_page : M umem Z :=
  m ← gets m_data_pages;
  if m =? 0 then mret INVALID_PAGE
  else
    let index := ffs m - 1 in
    modify (set_data_pages (m .& .~ (1 .<< index)));;
    mret index.

Definition umem_free_code_page (index : Z) : M umem unit :=
  modify (fun u => set_code_pages (m_code_pages u .| 1 .<< index) u).

Definition umem_free_data_page (index : Z) : M umem unit :=
  modify (fun u => set_data_pages (m_data_pages u .| 1 .<< index) u).

(** ** The set of pages a mask stands for *)
Definition page_set (m : Z) : gset Z :=
  list_to_set (filter (fun i => Z.testbit m i = true) (seqZ 0 16)).

Definition umem_wf (u : umem) : Prop :=
  0 <= m_code_pages u < 2 ^ 16 /\ 0 <= m_data_pages u < 2 ^ 16.

Lemma elem_of_page_set m i : i ∈ page_set m <-> 0 <= i < 16 /\ Z.testbit m i = true.
Proof.
  unfold page_set. rewrite elem_of_list_to_set, list_elem_of_filter, elem_of_seqZ.
  naive_solver lia.
Qed.

Lemma page_set_empty m : 0 <= m < 2 ^ 16 -> page_set m = ∅ <-> m = 0.
Proof.
  intros Hm. split.
  - intros He. destruct (decide (m = 0)) as [|Hnz]; [done|].
    destruct (nonzero_testbit 16 m Hm Hnz) as (i & Hi & Hb).
    assert (i ∈ page_set m) as Hin by (by apply elem_of_page_set). set_solver.
  - intros ->. apply set_eq. intros i. rewrite elem_of_page_set, Z.bits_0. set_solver.
Qed.

(** Taking the lowest set bit out of a mask, and putting a bit back. *)
Lemma mask_take m :
  0 <= m < 2 ^ 16 -> m <> 0 ->
  let i := ffs m - 1 in
  i ∈ page_set m /\ (forall j, j ∈ page_set m -> i <= j) /\
  0 <= u16 (m .& .~ (1 .<< i)) < 2 ^ 16 /\
  page_set (u16 (m .& .~ (1 .<< i))) = page_set m ∖ {[i]}.
Proof.
  intros Hm Hnz i. destruct (ffs_spec 16 m ltac:(lia) Hm Hnz) as (Hr & Ht & Hl).
  fold i in Hr, Ht, Hl. split; [by apply elem_of_page_set|]. split.
  { intros j [Hj Hb]%elem_of_page_set. destruct (Z.ltb_spec j i) as [Hlt|]; [|lia].
    rewrite Hl in Hb by lia. done. }
  split; [by apply wrapu_range|].
  apply set_eq. intros j. rewrite elem_of_difference, elem_of_singleton, !elem_of_page_set.
  rewrite wrapu_testbit by lia.
  destruct (decide (0 <= j < 16)) as [Hj|Hj]; [|naive_solver].
  rewrite testbit_clear by lia. destruct (Z.ltb_spec j 16); [|lia].
  destruct (Z.eqb_spec i j); destruct (Z.testbit m j); naive_solver.
Qed.

Lemma mask_put m i :
  0 <= i < 16 ->
  page_set (u16 (m .| 1 .<< i)) = {[i]} ∪ page_set m.
Proof.
  intros Hi. apply set_eq. intros j.
  rewrite elem_of_union, elem_of_singleton, !elem_of_page_set, wrapu_testbit by lia.
  destruct (decide (0 <= j < 16)) as [Hj|Hj]; [|naive_solver lia].
  rewrite testbit_set by lia. destruct (Z.ltb_spec j 16); [|lia].
  destruct (Z.eqb_spec i j); destruct (Z.testbit m j); naive_solver.
Qed.

(** ** The interface of a page allocator

    [pa_free_pages] abstracts the mask: allocation returns the lowest free page and takes
    it out of the set, or reports [INVALID_PAGE] and changes nothing; freeing puts a page
    back; neither touches what the other allocator owns ([pa_frame]). *)
Class PageAllocator := {
  pa_alloc : M umem Z;
  pa_free : Z -> M umem unit;
  pa_free_pages : umem -> gset Z;
  pa_frame : umem -> Z;
  pa_bounded : forall u i, i ∈ pa_free_pages u -> 0 <= i < MAX_PAGE_COUNT;
  pa_alloc_none : forall u, umem_wf u -> pa_free_pages u = ∅ ->
    pa_alloc u = Ok INVALID_PAGE u;
  pa_alloc_some : forall u, umem_wf u -> pa_free_pages u <> ∅ ->
    exists i u', pa_alloc u = Ok i u' /\ i ∈ pa_free_pages u /\
      (forall j, j ∈ pa_free_pages u -> i <= j) /\ umem_wf u' /\
      pa_free_pages u' = pa_free_pages u ∖ {[i]} /\ pa_frame u' = pa_frame u;
  pa_free_spec : forall u i, umem_wf u -> 0 <= i < MAX_PAGE_COUNT ->
    exists u', pa_free i u = Ok tt u' /\ umem_wf u' /\
      pa_free_pages u' = {[i]} ∪ pa_free_pages u /\ pa_frame u' = pa_frame u;
}.

#[export] Program Instance code_pages : PageAllocator := {|
  pa_alloc := umem_alloc_code_page;
  pa_free := umem_free_code_page;
  pa_free_pages u := page_set (m_code_pages u);
  pa_frame := m_data_pages;
|}.
Next Obligation. intros u i. rewrite elem_of_page_set. unfold MAX_PAGE_COUNT. lia. Qed.
Next Obligation.
  intros u [Hc _] He. apply page_set_empty in He; [|done].
  unfold umem_alloc_code_page, mbind, M_bind, gets. by rewrite He.
Qed.
Next Obligation.
  intros u [Hc Hd] He. destruct (Z.eqb_spec (m_code_pages u) 0) as [Hz|Hz].
  { rewrite page_set_empty in He by done. done. }
  destruct (mask_take _ Hc Hz) as (Hin & Hmin & Hr & Hs).
  eexists _, _. split.
  { unfold umem_alloc_code_page, mbind, M_bind, gets.
    rewrite (proj2 (Z.eqb_neq _ _) Hz). done. }
  done.
Qed.
Next Obligation.
  intros u i [Hc Hd] Hi. eexists. split; [done|]. split.
  { split; [by apply wrapu_range|done]. }
  split; [by apply mask_put|done].
Qed.

#[export] Program Instance data_pages : PageAllocator := {|
  pa_alloc := umem_alloc_data_page;
  pa_free := umem_free_data_page;
  pa_free_pages u := page_set (m_data_pages u);
  pa_frame := m_code_pages;
|}.
Next Obligation. intros u i. rewrite elem_of_page_set. unfold MAX_PAGE_COUNT. lia. Qed.
Next Obligation.
  intros u [_ Hd] He. apply page_set_empty in He; [|done].
  unfold umem_alloc_data_page, mbind, M_bind, gets. by rewrite He.
Qed.
Next Obligation.
  intros u [Hc Hd] He. destruct (Z.eqb_spec (m_data_pages u) 0) as [Hz|Hz].
  { rewrite page_set_empty in He by done. done. }
  destruct (mask_take _ Hd Hz) as (Hin & Hmin & Hr & Hs).
  eexists _, _. split.
  { unfold umem_alloc_data_page, mbind, M_bind, gets.
    rewrite (proj2 (Z.eqb_neq _ _) Hz). done. }
  done.
Qed.
Next Obligation.
  intros u i [Hc Hd] Hi. eexists. split; [done|]. split.
  { split; [done|by apply wrapu_range]. }
  split; [by apply mask_put|done].
Qed.

(** ** Clients of an allocator: allocation and release in any order

    [owned] is what the clients hold. They only give back what they hold. *)
Section Clients.
Context (pa : PageAllocator).

Inductive pa_step : gset Z * umem -> gset Z * umem -> Prop :=
  | pa_step_alloc o u i u' :
      pa_alloc u = Ok i u' -> i <> INVALID_PAGE -> pa_step (o, u) ({[i]} ∪ o, u')
  | pa_step_exhausted o u u' :
      pa_alloc u = Ok INVALID_PAGE u' -> pa_step (o, u) (o, u')
  | pa_step_free o u i u' :
      i ∈ o -> pa_free i u = Ok tt u' -> pa_step (o, u) (o ∖ {[i]}, u').

(** Every page is owned by a client or free, never both. *)
Definition pa_inv (pages : gset Z) (c : gset Z * umem) : Prop :=
  umem_wf c.2 /\ c.1 ## pa_free_pages c.2 /\ c.1 ∪ pa_free_pages c.2 = pages /\
  (forall i, i ∈ pages -> 0 <= i < MAX_PAGE_COUNT).

Lemma pa_alloc_cases u :
  umem_wf u ->
  (pa_free_pages u = ∅ /\ pa_alloc u = Ok INVALID_PAGE u) \/
  (exists i u', pa_alloc u = Ok i u' /\ i <> INVALID_PAGE /\ i ∈ pa_free_pages u /\
    (forall j, j ∈ pa_free_pages u -> i <= j) /\ umem_wf u' /\
    pa_free_pages u' = pa_free_pages u ∖ {[i]} /\ pa_frame u' = pa_frame u).
Proof.
  intros Hwf. destruct (decide (pa_free_pages u = ∅)) as [He|Hne].
  - left. split; [done|]. by apply pa_alloc_none.
  - right. destruct (pa_alloc_some u Hwf Hne) as (i & u' & Ha & Hi & Hrest).
    exists i, u'. split; [done|]. split; [|done].
    pose proof (pa_bounded u i Hi). unfold INVALID_PAGE. lia.
Qed.

Lemma pa_step_inv pages c c' : pa_inv pages c -> pa_step c c' -> pa_inv pages c'.
Proof.
  intros (Hwf & Hd & Hu & Hb) Hs. destruct Hs as [o u i u' Ha Hi|o u u' Ha|o u i u' Hi Hf];
    simpl in *.
  - destruct (pa_alloc_cases u Hwf) as [[_ E]|(k & v & E & _ & Hk & _ & Hwf' & Hp & _)];
      rewrite Ha in E; simplify_eq.
    unfold pa_inv; simpl. rewrite Hp. split; [done|]. split; [set_solver|].
    split; [|done]. apply set_eq. intros j. destruct (decide (j = k)); set_solver.
  - destruct (pa_alloc_cases u Hwf) as [[_ E]|(k & v & E & Hk & _)];
      rewrite Ha in E; simplify_eq. done.
  - assert (0 <= i < MAX_PAGE_COUNT) as Hr by (apply Hb; set_solver).
    destruct (pa_free_spec u i Hwf Hr) as (v & E & Hwf' & Hp & _).
    rewrite Hf in E. simplify_eq.
    unfold pa_inv; simpl. rewrite Hp. split; [done|]. split; [set_solver|].
    split; [|done]. apply set_eq. intros j. destruct (decide (j = i)); set_solver.
Qed.

Lemma pa_reachable_inv u0 c :
  umem_wf u0 -> rtc pa_step (∅, u0) c -> pa_inv (pa_free_pages u0) c.
Proof.
  intros Hwf Hs.
  enough (forall c0, rtc pa_step c0 c -> pa_inv (pa_free_pages u0) c0 ->
    pa_inv (pa_free_pages u0) c) as H.
  { apply (H _ Hs). split; [done|]. simpl. split; [set_solver|]. split; [set_solver|].
    apply pa_bounded. }
  clear Hs. intros c0 Hs. induction Hs; eauto using pa_step_inv.
Qed.
End Clients.

Lemma umem_init_wf : umem_wf umem_init.
Proof. done. Qed.

Lemma umem_init_code_pages i :
  i ∈ @pa_free_pages code_pages umem_init <-> 0 <= i < VDSO_PAGE_INDEX.
Proof.
  change (i ∈ page_set (Z.ones 15) <-> 0 <= i < 15). rewrite elem_of_page_set. split.
  - intros [Hi Hb]. destruct (decide (i < 15)); [lia|].
    rewrite Z.ones_spec_high in Hb by lia. done.
  - intros Hi. split; [lia|]. apply Z.ones_spec_low. lia.
Qed.

Lemma umem_init_data_pages i :
  i ∈ @pa_free_pages data_pages umem_init <-> 0 <= i < MAX_PAGE_COUNT.
Proof.
  change (i ∈ page_set (Z.ones 16) <-> 0 <= i < 16).
  rewrite elem_of_page_set. split; [tauto|].
  intros Hi. split; [done|]. apply Z.ones_spec_low. lia.
Qed.

(** ** Properties *)

(** C23: However the clients interleave allocations and releases of code pages, no page is
    handed out twice: the owned pages and the free pages partition the pages 0 to 14 at
    all times, so in particular the page that holds the vDSO is never given to a task, and
    an allocation fails only when all fifteen pages are owned. *)
Theorem code_pages_exclusive o u :
  rtc (pa_step code_pages) (∅, umem_init) (o, u) ->
  (forall i, i ∈ o -> i ∉ page_set (m_code_pages u) /\ 0 <= i < VDSO_PAGE_INDEX) /\
  (exists i u', umem_alloc_code_page u = Ok i u' /\
     ((i = INVALID_PAGE /\ u' = u /\ size o = 15%nat) \/
      (0 <= i < VDSO_PAGE_INDEX /\ i ∉ o /\ m_data_pages u' = m_data_pages u))).
Proof.
  intros Hs. apply pa_reachable_inv in Hs as (Hwf & Hd & Hu & _); [|apply umem_init_wf].
  simpl in Hwf, Hd, Hu. split.
  { intros i Hi. split; [set_solver|]. apply umem_init_code_pages. simpl. rewrite <- Hu.
    set_solver. }
  destruct (pa_alloc_cases code_pages u Hwf)
    as [[He E]|(i & u' & E & _ & Hi & _ & _ & _ & Hf)]; simpl in *.
  - exists INVALID_PAGE, u. split; [done|]. left. split; [done|]. split; [done|].
    rewrite He, (right_id_L ∅ (∪)) in Hu. subst o. by vm_compute.
  - exists i, u'. split; [done|]. right. split; [|set_solver].
    apply umem_init_code_pages. simpl. rewrite <- Hu. set_solver.
Qed.

Lemma code_pages_exclusive_witness :
  exists u, rtc (pa_step code_pages) (∅, umem_init) ({[0]} ∪ ∅, u) /\
    0 ∉ page_set (m_code_pages u).
Proof.
  eexists.
  match goal with |- ?P /\ _ => assert P as Hs end.
  { eapply rtc_once, pa_step_alloc; [vm_compute; reflexivity|discriminate]. }
  split; [exact Hs|].
  apply (proj1 (code_pages_exclusive _ _ Hs) 0). set_solver.
Defined.

(** A byte of page [i] has page index [i], and a 32-bit address has the index of a user
    data page exactly when it lies in the user data area; user pages never reach into the
    kernel's data (from 0x3FFE0000) or code (from 0x400A0000). *)
Theorem page_addresses i off :
  0 <= i < MAX_PAGE_COUNT -> 0 <= off < USER_PAGE_SIZE ->
  DATA_PAGE_INDEX (DATA_PAGE_ADDR i + off) = i /\
  CODE_PAGE_INDEX (CODE_PAGE_ADDR i + off) = i /\
  USER_DATA_BASE <= DATA_PAGE_ADDR i + off < 0x3FFE0000 /\
  USER_CODE_BASE <= CODE_PAGE_ADDR i + off < 0x400A0000 /\
  (forall x, 0 <= x < 2 ^ 32 ->
     (DATA_PAGE_INDEX x < MAX_PAGE_COUNT <-> USER_DATA_BASE <= x < 0x3FFE0000)).
Proof.
  unfold MAX_PAGE_COUNT, USER_PAGE_SIZE, DATA_PAGE_INDEX, CODE_PAGE_INDEX, DATA_PAGE_ADDR,
    CODE_PAGE_ADDR, USER_DATA_BASE, USER_CODE_BASE, USER_PAGE_SIZE, wrapu.
  intros Hi Hoff. repeat split; Z.div_mod_to_equations; lia.
Qed.

Lemma page_addresses_witness :
  DATA_PAGE_INDEX (DATA_PAGE_ADDR 15 + 4096) = 15 /\ DATA_PAGE_ADDR 15 + 4096 = 0x3FFDF000.
Proof.
  split; [|reflexivity].
  apply (page_addresses 15 4096); unfold MAX_PAGE_COUNT, USER_PAGE_SIZE; lia.
Defined.
