(* ===== verification/Mmu.v ===== *)
(** * Address spaces: the MMU part of kernel/src/drivers/dport.c and kernel/src/drivers/pid.c

    An address space ([mmu_t]) maps sixteen virtual code pages and sixteen virtual data
    pages to physical ones. The hardware has one table entry per physical page, holding
    the virtual page it answers to and the PID that may use it. Six PIDs (2 to 7) are
    bound to address spaces, the least recently used binding being recycled. The two C
    files call each other (mmu_activate uses pid_binding_bind, which uses mmu_load), so
    they are one module of state here. The state is the one of the CPU that runs the
    kernel: kmain asserts that it is the PRO CPU. *)
From Stdlib Require Import ZArith Lia.
From stdpp Require Import base tactics numbers list gmap.
From S2P Require Import Prelude Umem.

(** ** Data (drivers/dport.h, drivers/pid.h, arch/cpu.h) *)
Inductive page_entry_type : Set := PAGE_UNMAPPED | PAGE_MAPPED | PAGE_SWAPPED.

#[export] Instance page_entry_type_eq_dec : EqDecision page_entry_type.
Proof. solve_decision. Defined.

Record page_entry := PageEntry { phys : Z; type : page_entry_type }.

#[export] Instance page_entry_eq_dec : EqDecision page_entry.
Proof. solve_decision. Defined.

Definition PAGE_ENTRY (page : Z) : page_entry :=
  {| phys := u8 page; type := PAGE_MAPPED |}.

Inductive mmu_space_type : Set := MMU_SPACE_CODE | MMU_SPACE_DATA.

(** [mmu_t]; [binding] points into the array of PID bindings. *)
Record mmu_t := Mmu {
  immu : list page_entry;
  dmmu : list page_entry;
  mpu_peripheral : Z;
  binding : option nat;
}.

(** A freshly zeroed [mmu_t], as memset in create_task leaves it. *)
Definition mmu_zero : mmu_t := {|
  immu := replicate 16 {| phys := 0; type := PAGE_UNMAPPED |};
  dmmu := replicate 16 {| phys := 0; type := PAGE_UNMAPPED |};
  mpu_peripheral := 0;
  binding := None;
|}.

Definition PID_BINDING_COUNT : nat := 6.

Record pid_binding := PidBinding {
  primary_stamp : Z;
  bound_space : option loc;
  pid : Z;
}.

(** One entry of DPORT_IMMU_TABLE or DPORT_DMMU_TABLE: two bit fields. *)
Record table_reg := TableReg { address : Z; access_rights : Z }.

#[export] Instance table_reg_eq_dec : EqDecision table_reg.
Proof. solve_decision. Defined.

Definition MPU_LAST : nat := 47.

(** The address spaces in the kernel heap, the PID part of the per-CPU context, and the
    hardware registers. *)
Record mmu_state := MmuState {
  spaces : gmap loc mmu_t;
  next_stamp : Z;
  pid_bindings : list pid_binding;
  primary_binding : option nat;
  immu_page_mode : Z;
  dmmu_page_mode : Z;
  immu_table : list table_reg;
  dmmu_table : list table_reg;
  ahb_mpu_table : list Z;
  ahblite_mpu_table : list Z;
  pid_new_reg : Z;
}.

(** *** Field updates *)
Definition set_binding (b : option nat) (sp : mmu_t) : mmu_t :=
  Mmu (immu sp) (dmmu sp) (mpu_peripheral sp) b.
Definition set_peripheral (m : Z) (sp : mmu_t) : mmu_t :=
  Mmu (immu sp) (dmmu sp) m (binding sp).
Definition set_entry (ty : mmu_space_type) (virt : nat) (e : page_entry) (sp : mmu_t) : mmu_t :=
  match ty with
  | MMU_SPACE_CODE => Mmu (<[virt:=e]> (immu sp)) (dmmu sp) (mpu_peripheral sp) (binding sp)
  | MMU_SPACE_DATA => Mmu (immu sp) (<[virt:=e]> (dmmu sp)) (mpu_peripheral sp) (binding sp)
  end.
Definition set_bound (o : option loc) (b : pid_binding) : pid_binding :=
  PidBinding (primary_stamp b) o (pid b).
Definition set_stamp (t : Z) (b : pid_binding) : pid_binding :=
  PidBinding t (bound_space b) (pid b).

Definition put_space (p : loc) (sp : mmu_t) (s : mmu_state) : mmu_state :=
  MmuState (<[p:=sp]> (spaces s)) (next_stamp s) (pid_bindings s) (primary_binding s)
    (immu_page_mode s) (dmmu_page_mode s) (immu_table s) (dmmu_table s)
    (ahb_mpu_table s) (ahblite_mpu_table s) (pid_new_reg s).
Definition put_bindings (bs : list pid_binding) (s : mmu_state) : mmu_state :=
  MmuState (spaces s) (next_stamp s) bs (primary_binding s)
    (immu_page_mode s) (dmmu_page_mode s) (immu_table s) (dmmu_table s)
    (ahb_mpu_table s) (ahblite_mpu_table s) (pid_new_reg s).
Definition put_primary (stamp : Z) (i : nat) (s : mmu_state) : mmu_state :=
  MmuState (spaces s) stamp (pid_bindings s) (Some i)
    (immu_page_mode s) (dmmu_page_mode s) (immu_table s) (dmmu_table s)
    (ahb_mpu_table s) (ahblite_mpu_table s) (pid_new_reg s).
Definition put_tables (it dt : list table_reg) (s : mmu_state) : mmu_state :=
  MmuState (spaces s) (next_stamp s) (pid_bindings s) (primary_binding s)
    (immu_page_mode s) (dmmu_page_mode s) it dt
    (ahb_mpu_table s) (ahblite_mpu_table s) (pid_new_reg s).
Definition put_ahblite (t : list Z) (s : mmu_state) : mmu_state :=
  MmuState (spaces s) (next_stamp s) (pid_bindings s) (primary_binding s)
    (immu_page_mode s) (dmmu_page_mode s) (immu_table s) (dmmu_table s)
    (ahb_mpu_table s) t (pid_new_reg s).
Definition put_pid_new (v : Z) (s : mmu_state) : mmu_state :=
  MmuState (spaces s) (next_stamp s) (pid_bindings s) (primary_binding s)
    (immu_page_mode s) (dmmu_page_mode s) (immu_table s) (dmmu_table s)
    (ahb_mpu_table s) (ahblite_mpu_table s) v.

(** *** Memory accesses *)
Definition get_space (p : loc) : M mmu_state mmu_t :=
  s ← get; deref (spaces s !! p).
Definition upd_space (p : loc) (f : mmu_t -> mmu_t) : M mmu_state unit :=
  sp ← get_space p; modify (put_space p (f sp)).
Definition get_binding (i : nat) : M mmu_state pid_binding :=
  s ← get; deref (pid_bindings s !! i).
Definition upd_binding (i : nat) (f : pid_binding -> pid_binding) : M mmu_state unit :=
  b ← get_binding i; modify (fun s => put_bindings (<[i:=f b]> (pid_bindings s)) s).

(** Writing the two bit fields ([address : 4], [access_rights : 3]) of table entry [q];
    the tables have sixteen entries. *)
Definition table_set (q : Z) (virt rights : Z) (t : list table_reg) : list table_reg :=
  <[Z.to_nat q := TableReg (virt .& 15) (rights .& 7)]> t.

Definition write_immu_table (q virt rights : Z) : M mmu_state unit :=
  s ← get;
  _ ← deref (immu_table s !! Z.to_nat q);
  modify (fun s => put_tables (table_set q virt rights (immu_table s)) (dmmu_table s) s).

Definition write_dmmu_table (q virt rights : Z) : M mmu_state unit :=
  s ← get;
  _ ← deref (dmmu_table s !! Z.to_nat q);
  modify (fun s => put_tables (immu_table s) (table_set q virt rights (dmmu_table s)) s).

Definition upd_ahblite (i : Z) (f : Z -> Z) : M mmu_state unit :=
  s ← get;
  v ← deref (ahblite_mpu_table s !! Z.to_nat i);
  modify (put_ahblite (<[Z.to_nat i := u32 (f v)]> (ahblite_mpu_table s))).

(** ** FOR_EACH_BIT (util/defs.h) over the peripheral mask of a space

    The macro runs on the mask itself: each round calls the body with [it], clears the
    bits of the number [it] in the mask and takes [ffs] of what is left, as an [int]. *)
Definition FOR_EACH_BIT_FUEL : nat := 65.

Fixpoint for_each_bit_loop (fuel : nat) (p : loc) (it : Z) (body : Z -> M mmu_state unit)
    : M mmu_state unit :=
  match fuel with
  | O => stop_with Spin
  | S fuel' =>
      sp ← get_space p;
      if mpu_peripheral sp =? 0 then mret tt
      else
        body it;;
        upd_space p (fun sp => set_peripheral (u64 (mpu_peripheral sp .& .~ it)) sp);;
        sp' ← get_space p;
        for_each_bit_loop fuel' p (ffs (mpu_peripheral sp')) body
  end.

Definition for_each_bit (p : loc) (body : Z -> M mmu_state unit) : M mmu_state unit :=
  sp ← get_space p;
  if mpu_peripheral sp =? 0 then mret tt
  else for_each_bit_loop FOR_EACH_BIT_FUEL p (ffs (mpu_peripheral sp)) body.

(** ** Loading and unloading a space (mmu_load, mmu_unload) *)
Definition mmu_load (space : loc) : M mmu_state unit :=
  sp ← get_space space;
  i ← deref (binding sp);
  b ← get_binding i;
  mfor (seq 0 16) (fun virt =>
    e ← deref (immu sp !! virt);
    when (bool_decide (type e = PAGE_MAPPED))
      (write_immu_table (phys e) (Z.of_nat virt) (pid b));;
    e ← deref (dmmu sp !! virt);
    when (bool_decide (type e = PAGE_MAPPED))
      (write_dmmu_table (phys e) (Z.of_nat virt) (pid b)));;
  for_each_bit space (fun it => upd_ahblite (1 .<< it) (fun _ => 1 .<< pid b)).

(** Writing zero to the access rights of an entry that carries the PID. *)
Definition revoke (pid : Z) (r : table_reg) : table_reg :=
  if access_rights r =? pid then TableReg (address r) 0 else r.

Definition mmu_unload (space : loc) : M mmu_state unit :=
  sp ← get_space space;
  i ← deref (binding sp);
  b ← get_binding i;
  mfor (seq 0 16) (fun q =>
    s ← get;
    r ← deref (immu_table s !! q);
    modify (fun s => put_tables (<[q := revoke (pid b) r]> (immu_table s)) (dmmu_table s) s);;
    s ← get;
    r ← deref (dmmu_table s !! q);
    modify (fun s => put_tables (immu_table s) (<[q := revoke (pid b) r]> (dmmu_table s)) s));;
  for_each_bit space (fun it => upd_ahblite (1 .<< it) (fun v => v .& .~ (1 .<< pid b))).

(** ** PID bindings (pid.c) *)
Definition pid_binding_is_primary (b : option nat) : M mmu_state bool :=
  s ← get;
  mret (bool_decide (b <> None) && bool_decide (primary_binding s = b)).

(** [binding->primary_stamp = context->next_stamp++; context->primary_binding = binding] *)
Definition make_primary (i : nat) : M mmu_state unit :=
  s ← get;
  upd_binding i (set_stamp (next_stamp s));;
  modify (put_primary (u64 (next_stamp s + 1)) i).

Definition pid_binding_rebind (i : nat) : M mmu_state unit := make_primary i.

Definition pid_binding_bind (i : nat) (space : loc) : M mmu_state unit :=
  b ← get_binding i;
  let unbound_space := bound_space b in
  upd_binding i (set_bound (Some space));;
  match unbound_space with
  | Some old => mmu_unload old
  | None => mret tt
  end;;
  upd_space space (set_binding (Some i));;
  mmu_load space;;
  make_primary i.

Definition pid_binding_unbind (i : nat) : M mmu_state unit :=
  b ← get_binding i;
  old ← deref (bound_space b);
  mmu_unload old;;
  upd_space old (set_binding None);;
  upd_binding i (set_bound None).

(** [pid_prepare]: the exception exit switches to the PID written here. *)
Definition pid_prepare : M mmu_state unit :=
  s ← get;
  i ← deref (primary_binding s);
  b ← get_binding i;
  modify (put_pid_new (pid b)).

(** ** Activation and mapping (dport.c) *)
Fixpoint mmu_activate_loop (space : loc) (is_ : list nat) (lru_pid : nat) : M mmu_state unit :=
  match is_ with
  | [] => pid_binding_bind lru_pid space
  | i :: is' =>
      b ← get_binding i;
      if bool_decide (bound_space b = Some space) then
        prim ← pid_binding_is_primary (Some i);
        if (prim : bool) then mret tt else pid_binding_rebind i
      else
        bl ← get_binding lru_pid;
        mmu_activate_loop space is' (if primary_stamp b <? primary_stamp bl then i else lru_pid)
  end.

Definition mmu_activate (space : option loc) : M mmu_state unit :=
  ASSERT (bool_decide (space <> None));;
  p ← deref space;
  mmu_activate_loop p (seq 0 PID_BINDING_COUNT) 0.

(** The C code also computes [1 << virt] into a variable that it never reads. Whatever the
    kind of space, it is the table of the code pages that is updated. *)
(** The check is silent here: its message would go to the console, which is not part of this
    state, and no caller fails it. create_task maps the page 15, and the loader maps as many
    pages as it has got from the allocator, which has no more than 16. *)
Definition mmu_map (mmu : loc) (ty : mmu_space_type) (virt : Z) (entry : page_entry)
    : M mmu_state err :=
  if negb (virt <? MAX_PAGE_COUNT) then mret ERROR_CHECK_FAILED
  else
    upd_space mmu (set_entry ty (Z.to_nat virt) entry);;
    sp ← get_space mmu;
    prim ← pid_binding_is_primary (binding sp);
    when (bool_decide (type entry = PAGE_MAPPED) && prim)
      (i ← deref (binding sp);
       b ← get_binding i;
       write_immu_table (phys entry) virt (pid b));;
    mret NO_ERROR.

(** ** Initialisation (init_mmu, and the bindings of init_pid) *)
Definition init_mmu : M mmu_state err :=
  modify (fun s => MmuState (spaces s) (next_stamp s) (pid_bindings s) (primary_binding s)
    0 0 (immu_table s) (dmmu_table s) (ahb_mpu_table s) (ahblite_mpu_table s) (pid_new_reg s));;
  write_immu_table 15 15 1;;
  mfor (seq 0 2) (fun i => modify (fun s =>
    MmuState (spaces s) (next_stamp s) (pid_bindings s) (primary_binding s)
      (immu_page_mode s) (dmmu_page_mode s) (immu_table s) (dmmu_table s)
      (<[i:=0]> (ahb_mpu_table s)) (ahblite_mpu_table s) (pid_new_reg s)));;
  mret NO_ERROR.

Definition init_pid_bindings : M mmu_state unit :=
  mfor (seq 0 PID_BINDING_COUNT) (fun i =>
    upd_binding i (fun b => PidBinding (primary_stamp b) (bound_space b) (u8 (Z.of_nat i + 2)))).

(** ** What loading and unloading do to a table *)
Definition mapped (e : page_entry) : bool := bool_decide (type e = PAGE_MAPPED).

(** The table after the entries of virtual pages [v], [v + 1], ... have been loaded. *)
Fixpoint load_entries (v : nat) (pid : Z) (es : list page_entry) (t : list table_reg)
    : list table_reg :=
  match es with
  | [] => t
  | e :: es' =>
      load_entries (S v) pid es'
        (if mapped e then table_set (phys e) (Z.of_nat v) pid t else t)
  end.

(** Every mapped entry names a page that the tables have. *)
Definition entries_fit (n : nat) (es : list page_entry) : Prop :=
  Forall (fun e => mapped e = true -> (Z.to_nat (phys e) < n)%nat) es.

Lemma length_table_set q v r t : length (table_set q v r t) = length t.
Proof. apply length_insert. Qed.

Lemma length_load_entries es v pid t : length (load_entries v pid es t) = length t.
Proof.
  revert v t. induction es as [|e es IH]; intros v t; simpl; [done|].
  rewrite IH. destruct (mapped e); [apply length_table_set|done].
Qed.

Lemma put_tables_put it dt it' dt' s :
  put_tables it dt (put_tables it' dt' s) = put_tables it dt s.
Proof. done. Qed.

Lemma put_tables_id s : put_tables (immu_table s) (dmmu_table s) s = s.
Proof. by destruct s. Qed.

Lemma write_immu_table_ok s q v r :
  (Z.to_nat q < length (immu_table s))%nat ->
  write_immu_table q v r s = Ok tt (put_tables (table_set q v r (immu_table s)) (dmmu_table s) s).
Proof.
  intros Hq. apply lookup_lt_is_Some in Hq as [x Hx].
  unfold write_immu_table. unfold_monad. by rewrite Hx.
Qed.

Lemma write_dmmu_table_ok s q v r :
  (Z.to_nat q < length (dmmu_table s))%nat ->
  write_dmmu_table q v r s = Ok tt (put_tables (immu_table s) (table_set q v r (dmmu_table s)) s).
Proof.
  intros Hq. apply lookup_lt_is_Some in Hq as [x Hx].
  unfold write_dmmu_table. unfold_monad. by rewrite Hx.
Qed.

(** One round of the loop of mmu_load. *)
Lemma load_round sp pid virt ei ed s :
  immu sp !! virt = Some ei -> dmmu sp !! virt = Some ed ->
  (mapped ei = true -> (Z.to_nat (phys ei) < length (immu_table s))%nat) ->
  (mapped ed = true -> (Z.to_nat (phys ed) < length (dmmu_table s))%nat) ->
  (e ← deref (immu sp !! virt);
   when (bool_decide (type e = PAGE_MAPPED)) (write_immu_table (phys e) (Z.of_nat virt) pid);;
   e ← deref (dmmu sp !! virt);
   when (bool_decide (type e = PAGE_MAPPED)) (write_dmmu_table (phys e) (Z.of_nat virt) pid)) s
  = Ok tt (put_tables
      (if mapped ei then table_set (phys ei) (Z.of_nat virt) pid (immu_table s)
       else immu_table s)
      (if mapped ed then table_set (phys ed) (Z.of_nat virt) pid (dmmu_table s)
       else dmmu_table s) s).
Proof.
  intros Hi Hd Hbi Hbd. rewrite Hi, Hd.
  mrun. assert (when (mapped ei) (write_immu_table (phys ei) (Z.of_nat virt) pid) s =
    Ok tt (put_tables (if mapped ei then table_set (phys ei) (Z.of_nat virt) pid (immu_table s)
       else immu_table s) (dmmu_table s) s)) as E1.
  { destruct (mapped ei); simpl; [by rewrite write_immu_table_ok by auto|].
    by rewrite put_tables_id. }
  mrun E1. mrun.
  fold (mapped ed). destruct (mapped ed); simpl; [|done].
  rewrite write_dmmu_table_ok by (simpl; auto). done.
Qed.

Lemma load_loop sp pid ies des v s :
  length ies = length des ->
  (forall k, ies !! k = immu sp !! (v + k)%nat) -> (forall k, des !! k = dmmu sp !! (v + k)%nat) ->
  entries_fit (length (immu_table s)) ies -> entries_fit (length (dmmu_table s)) des ->
  mfor (seq v (length ies)) (fun virt =>
    e ← deref (immu sp !! virt);
    when (bool_decide (type e = PAGE_MAPPED)) (write_immu_table (phys e) (Z.of_nat virt) pid);;
    e ← deref (dmmu sp !! virt);
    when (bool_decide (type e = PAGE_MAPPED)) (write_dmmu_table (phys e) (Z.of_nat virt) pid)) s
  = Ok tt (put_tables (load_entries v pid ies (immu_table s))
                      (load_entries v pid des (dmmu_table s)) s).
Proof.
  revert des v s. induction ies as [|ei ies IH]; intros [|ed des] v s Hlen Hi Hd Fi Fd; try done.
  { simpl. by rewrite put_tables_id. }
  simpl in Hlen. apply Forall_cons in Fi as [Fi1 Fi], Fd as [Fd1 Fd].
  pose proof (Hi 0%nat) as Hi0. pose proof (Hd 0%nat) as Hd0.
  rewrite Nat.add_0_r in Hi0, Hd0. simpl in Hi0, Hd0.
  cbn [seq length mfor load_entries].
  mrun (load_round sp pid v ei ed s (eq_sym Hi0) (eq_sym Hd0) Fi1 Fd1).
  rewrite (IH des); [by rewrite put_tables_put| lia | | | |].
  - intros k. rewrite Nat.add_succ_l, <- Nat.add_succ_r. apply (Hi (S k)).
  - intros k. rewrite Nat.add_succ_l, <- Nat.add_succ_r. apply (Hd (S k)).
  - simpl. destruct (mapped ei); by rewrite ?length_table_set.
  - simpl. destruct (mapped ed); by rewrite ?length_table_set.
Qed.

(** The peripheral loop is skipped for a space with no peripheral. *)
Lemma for_each_bit_none p body s sp :
  spaces s !! p = Some sp -> mpu_peripheral sp = 0 -> for_each_bit p body s = Ok tt s.
Proof.
  intros Hp Hm. unfold for_each_bit, get_space. unfold_monad. by rewrite Hp, Hm.
Qed.

(** A space as create_task and mmu_map leave it. *)
Definition space_shape (sp : mmu_t) : Prop :=
  length (immu sp) = 16%nat /\ length (dmmu sp) = 16%nat /\ mpu_peripheral sp = 0.

(** Loading a space: both tables receive its mapped entries and nothing else changes. *)
Lemma mmu_load_ok p s sp i b :
  spaces s !! p = Some sp -> binding sp = Some i -> pid_bindings s !! i = Some b ->
  space_shape sp ->
  entries_fit (length (immu_table s)) (immu sp) -> entries_fit (length (dmmu_table s)) (dmmu sp) ->
  mmu_load p s = Ok tt (put_tables (load_entries 0 (pid b) (immu sp) (immu_table s))
                                   (load_entries 0 (pid b) (dmmu sp) (dmmu_table s)) s).
Proof.
  intros Hp Hi Hb (Li & Ld & Hm) Fi Fd. unfold mmu_load.
  assert (get_space p s = Ok sp s) as E1 by (unfold get_space; unfold_monad; by rewrite Hp).
  mrun E1. rewrite Hi. mrun.
  assert (get_binding i s = Ok b s) as E2 by (unfold get_binding; unfold_monad; by rewrite Hb).
  mrun E2.
  pose proof (load_loop sp (pid b) (immu sp) (dmmu sp) 0 s ltac:(congruence)
    ltac:(done) ltac:(done) Fi Fd) as E3.
  rewrite Li in E3. mrun E3.
  by rewrite (for_each_bit_none p _ _ sp).
Qed.

Lemma unload_loop pid ti ti' td td' s :
  length ti = length td -> length ti' = length td' ->
  immu_table s = ti ++ ti' -> dmmu_table s = td ++ td' ->
  mfor (seq (length ti) (length ti')) (fun q =>
    s ← get;
    r ← deref (immu_table s !! q);
    modify (fun s => put_tables (<[q := revoke pid r]> (immu_table s)) (dmmu_table s) s);;
    s ← get;
    r ← deref (dmmu_table s !! q);
    modify (fun s => put_tables (immu_table s) (<[q := revoke pid r]> (dmmu_table s)) s)) s
  = Ok tt (put_tables (ti ++ (revoke pid <$> ti')) (td ++ (revoke pid <$> td')) s).
Proof.
  revert ti td td' s. induction ti' as [|r ti' IH]; intros ti td [|r' td'] s Hl Hl' Hi Hd; try done.
  { simpl. rewrite <- Hi, <- Hd. by rewrite put_tables_id. }
  cbn [length seq mfor].
  mfirst.
  { unfold_monad. rewrite Hi, list_lookup_middle by done. simpl.
    rewrite Hd, list_lookup_middle by done. simpl.
    rewrite Hi, insert_middle, Hl, insert_middle, put_tables_put. reflexivity. }
  specialize (IH (ti ++ [revoke pid r]) (td ++ [revoke pid r']) td'
    (put_tables (ti ++ revoke pid r :: ti') (td ++ revoke pid r' :: td') s)).
  rewrite length_app, Nat.add_1_r in IH. rewrite IH; simpl.
  - rewrite put_tables_put. by rewrite <- !(assoc_L (++)).
  - rewrite !length_app. simpl. lia.
  - simpl in Hl'. lia.
  - by rewrite <- (assoc_L (++)).
  - by rewrite <- (assoc_L (++)).
Qed.

(** Unloading a space: both tables lose every entry that carries its PID. *)
Lemma mmu_unload_ok p s sp i b :
  spaces s !! p = Some sp -> binding sp = Some i -> pid_bindings s !! i = Some b ->
  mpu_peripheral sp = 0 -> length (immu_table s) = 16%nat -> length (dmmu_table s) = 16%nat ->
  mmu_unload p s = Ok tt (put_tables (revoke (pid b) <$> immu_table s)
                                     (revoke (pid b) <$> dmmu_table s) s).
Proof.
  intros Hp Hi Hb Hm Li Ld. unfold mmu_unload.
  assert (get_space p s = Ok sp s) as E1 by (unfold get_space; unfold_monad; by rewrite Hp).
  mrun E1. rewrite Hi. mrun.
  assert (get_binding i s = Ok b s) as E2 by (unfold get_binding; unfold_monad; by rewrite Hb).
  mrun E2.
  pose proof (unload_loop (pid b) [] (immu_table s) [] (dmmu_table s) s eq_refl
    ltac:(congruence) eq_refl eq_refl) as E3.
  rewrite Li in E3. mrun E3. by rewrite (for_each_bit_none p _ _ sp).
Qed.
