(* ===== verification/MmuInv.v ===== *)
(** * Isolation: the invariant of the address spaces and of the hardware tables

    The well-formedness of the MMU state ([mmu_wf]), its preservation by every operation
    the kernel performs (creating a space, mapping a page of a space that is not bound,
    activating a space), and the theorems that follow: the hardware tables grant a PID
    exactly the pages of the space bound to it, bindings are recycled in least recently
    used order, and the behaviours of the code outside of the invariant. *)
From Stdlib Require Import ZArith Lia.
From stdpp Require Import base tactics numbers list gmap.
From S2P Require Import Prelude Umem Mmu.

(** ** Lookups in loaded tables *)

(** Virtual page [v] is mapped to physical page [q]. *)
Definition maps (es : list page_entry) (v : nat) (q : Z) : Prop :=
  es !! v = Some {| phys := q; type := PAGE_MAPPED |}.

(** Distinct virtual pages are mapped to distinct physical pages below [n]. *)
Definition entries_wf (n : Z) (es : list page_entry) : Prop :=
  length es = 16%nat /\
  (forall v q, maps es v q -> 0 <= q < n) /\
  (forall v w q, maps es v q -> maps es w q -> v = w).

(** The table entry of physical page [q] grants PID [pid] access at virtual page [v]. *)
Definition grants (t : list table_reg) (pid : Z) (v : nat) (q : Z) : Prop :=
  0 <= q /\ t !! Z.to_nat q = Some (TableReg (Z.of_nat v) pid).

Lemma mapped_spec e : mapped e = true <-> type e = PAGE_MAPPED.
Proof. unfold mapped. by rewrite bool_decide_eq_true. Qed.

Lemma maps_lookup es v e : es !! v = Some e -> mapped e = true -> maps es v (phys e).
Proof. intros He Hm%mapped_spec. unfold maps. rewrite He. destruct e; simpl in *. by subst. Qed.

Lemma entries_wf_fit n es k : entries_wf n es -> n <= Z.of_nat k -> entries_fit k es.
Proof.
  intros (_ & Hr & _) Hk. apply Forall_lookup. intros v e He Hm.
  pose proof (Hr v (phys e) (maps_lookup es v e He Hm)). lia.
Qed.

Lemma table_set_lookup q v r t j :
  (Z.to_nat q < length t)%nat ->
  table_set q v r t !! j =
    if decide (Z.to_nat q = j) then Some (TableReg (v .& 15) (r .& 7)) else t !! j.
Proof. intros Hq. by apply lookup_insert_decide. Qed.

Lemma land_low n z : 0 <= n -> 0 <= z < 2 ^ n -> z .& Z.ones n = z.
Proof. intros Hn Hz. rewrite Z.land_ones by done. by apply Z.mod_small. Qed.

Lemma address_field v : 0 <= v < 16 -> v .& 15 = v.
Proof. intros Hv. by apply (land_low 4). Qed.

Lemma rights_field pid : 0 <= pid < 8 -> pid .& 7 = pid.
Proof. intros Hp. by apply (land_low 3). Qed.

(** Loading entries numbered from [v]: a page that they map gets its entry, a page that
    they do not map keeps its own. *)
Lemma load_entries_lookup es v pid t n j :
  0 <= pid < 8 -> (v + length es <= 16)%nat -> (length t = 16)%nat -> n <= 16 ->
  (forall w q, maps es w q -> 0 <= q < n) ->
  (forall w w' q, maps es w q -> maps es w' q -> w = w') ->
  (forall w, maps es w (Z.of_nat j) ->
     load_entries v pid es t !! j = Some (TableReg (Z.of_nat (v + w)) pid)) /\
  ((forall w, ~ maps es w (Z.of_nat j)) -> load_entries v pid es t !! j = t !! j).
Proof.
  intros Hp. revert v t. induction es as [|e es IH]; intros v t Hv Ht Hn Hr Hi; simpl.
  { split; [|done]. intros w Hw. unfold maps in Hw. by rewrite lookup_nil in Hw. }
  simpl in Hv.
  set (t' := if mapped e then table_set (phys e) (Z.of_nat v) pid t else t).
  assert (length t' = 16%nat) as Ht'.
  { unfold t'. destruct (mapped e); [by rewrite length_table_set|done]. }
  destruct (IH (S v) t' ltac:(lia) Ht' Hn (fun w q H => Hr (S w) q H)
    (fun w w' q H H' => Nat.succ_inj _ _ (Hi (S w) (S w') q H H'))) as [IH1 IH2]. clear IH.
  split.
  - intros [|w] Hw.
    + unfold maps in Hw. simpl in Hw. simplify_eq. rewrite IH2.
      * unfold t'. simpl. rewrite table_set_lookup, Nat2Z.id, decide_True by (rewrite ?Ht; 
          pose proof (Hr 0%nat (Z.of_nat j) eq_refl); lia).
        rewrite address_field, rights_field by lia. by rewrite Nat.add_0_r.
      * intros w Hw. by pose proof (Hi 0%nat (S w) (Z.of_nat j) eq_refl Hw).
    + rewrite (IH1 w Hw). do 3 f_equal. lia.
  - intros Hno. rewrite IH2 by (intros w Hw; by apply (Hno (S w))).
    unfold t'. destruct (mapped e) eqn:He; [|done].
    pose proof (maps_lookup (e :: es) 0 e eq_refl He) as H0. pose proof (Hr _ _ H0).
    rewrite table_set_lookup by lia. rewrite decide_False; [done|].
    intros <-. apply (Hno 0%nat). rewrite Z2Nat.id by lia. done.
Qed.

(** ** Well-formed states *)
Record space_wf (sp : mmu_t) : Prop := {
  sw_immu : entries_wf VDSO_PAGE_INDEX (immu sp);
  sw_dmmu : entries_wf MAX_PAGE_COUNT (dmmu sp);
  sw_peripheral : mpu_peripheral sp = 0;
}.

(** Sixteen entries, whose fields have their widths. *)
Definition table_wf (t : list table_reg) : Prop :=
  length t = 16%nat /\ Forall (fun r => 0 <= address r < 16 /\ 0 <= access_rights r < 8) t.

(** The table of one kind of pages, against the space bound to a PID (or none). *)
Definition table_agrees (t : list table_reg) (pid : Z) (es : option (list page_entry)) : Prop :=
  forall v q, grants t pid v q <-> exists l, es = Some l /\ maps l v q.

(** The entries of the space bound by a binding. *)
Definition bound_entries (field : mmu_t -> list page_entry) (s : mmu_state) (b : pid_binding)
    : option (list page_entry) :=
  p ← bound_space b; sp ← spaces s !! p; Some (field sp).

Record mmu_wf (s : mmu_state) : Prop := {
  mw_immu_table : table_wf (immu_table s);
  mw_dmmu_table : table_wf (dmmu_table s);
  mw_bindings : length (pid_bindings s) = PID_BINDING_COUNT;
  mw_pid : forall i b, pid_bindings s !! i = Some b -> pid b = Z.of_nat i + 2;
  mw_space : forall p sp, spaces s !! p = Some sp -> space_wf sp;
  mw_code_disjoint : forall p p' sp sp' v v' q, spaces s !! p = Some sp ->
    spaces s !! p' = Some sp' -> maps (immu sp) v q -> maps (immu sp') v' q -> p = p';
  mw_data_disjoint : forall p p' sp sp' v v' q, spaces s !! p = Some sp ->
    spaces s !! p' = Some sp' -> maps (dmmu sp) v q -> maps (dmmu sp') v' q -> p = p';
  mw_bound : forall i b p, pid_bindings s !! i = Some b -> bound_space b = Some p ->
    exists sp, spaces s !! p = Some sp /\ binding sp = Some i;
  mw_primary : forall i, primary_binding s = Some i ->
    exists b p, pid_bindings s !! i = Some b /\ bound_space b = Some p;
  mw_code_table : forall i b, pid_bindings s !! i = Some b ->
    table_agrees (immu_table s) (pid b) (bound_entries immu s b);
  mw_data_table : forall i b, pid_bindings s !! i = Some b ->
    table_agrees (dmmu_table s) (pid b) (bound_entries dmmu s b);
  mw_vdso : immu_table s !! 15%nat = Some (TableReg 15 1);
}.

Lemma wf_pid_range s i b :
  mmu_wf s -> pid_bindings s !! i = Some b -> 2 <= pid b < 8.
Proof.
  intros Hwf Hb. rewrite (mw_pid s Hwf i b Hb).
  apply lookup_lt_Some in Hb. rewrite (mw_bindings s Hwf) in Hb. unfold PID_BINDING_COUNT in Hb.
  lia.
Qed.

(** A space is bound at most once. *)
Lemma wf_bound_unique s i j b b' p :
  mmu_wf s -> pid_bindings s !! i = Some b -> bound_space b = Some p ->
  pid_bindings s !! j = Some b' -> bound_space b' = Some p -> i = j.
Proof.
  intros Hwf Hi Hp Hj Hp'.
  destruct (mw_bound s Hwf i b p Hi Hp) as (sp & Hs & Hb).
  destruct (mw_bound s Hwf j b' p Hj Hp') as (sp' & Hs' & Hb'). congruence.
Qed.

Lemma space_wf_shape sp : space_wf sp -> space_shape sp.
Proof. intros [(Hi & _) (Hd & _) Hm]. done. Qed.

(** ** Tables under loading and unloading *)
Lemma table_set_wf q v r t : table_wf t -> table_wf (table_set q v r t).
Proof.
  intros [Hl Hf]. split; [by rewrite length_table_set|].
  apply Forall_insert; [done|]. simpl.
  change 15 with (Z.ones 4). change 7 with (Z.ones 3). rewrite !Z.land_ones by lia.
  split; apply Z.mod_pos_bound; lia.
Qed.

Lemma load_entries_wf es v pid t : table_wf t -> table_wf (load_entries v pid es t).
Proof.
  revert v t. induction es as [|e es IH]; intros v t Ht; simpl; [done|].
  apply IH. destruct (mapped e); [by apply table_set_wf|done].
Qed.

Lemma revoke_wf pid t : table_wf t -> table_wf (revoke pid <$> t).
Proof.
  intros [Hl Hf]. split; [by rewrite length_fmap|].
  apply Forall_fmap. eapply Forall_impl; [done|]. intros r Hr. simpl in Hr |- *.
  unfold revoke. destruct (_ =? _); simpl; lia.
Qed.

(** A revoked PID is granted nothing; the other PIDs keep what they had. *)
Lemma grants_revoke pid t pid' v q :
  pid' <> 0 ->
  grants (revoke pid <$> t) pid' v q <-> pid' <> pid /\ grants t pid' v q.
Proof.
  intros Hz. unfold grants. rewrite list_lookup_fmap.
  destruct (t !! Z.to_nat q) as [[a r]|]; simpl; [|naive_solver].
  unfold revoke; simpl. destruct (Z.eqb_spec r pid); naive_solver.
Qed.

Lemma maps_dec es q : {v | maps es v q} + {forall v, ~ maps es v q}.
Proof.
  destruct (list_find (fun e => e = {| phys := q; type := PAGE_MAPPED |}) es) as [[v e]|] eqn:E.
  - left. exists v. apply list_find_Some in E as (Hv & -> & _). done.
  - right. intros v Hv. apply list_find_None in E. rewrite Forall_lookup in E. by eapply E.
Qed.

(** After loading, the PID is granted the pages of the entries at their virtual pages; a
    page they do not use is granted to whom it was. *)
Lemma grants_load es pid t n pid' v q :
  0 <= pid < 8 -> length t = 16%nat -> entries_wf n es -> n <= 16 ->
  grants (load_entries 0 pid es t) pid' v q <->
    (pid' = pid /\ maps es v q) \/ ((forall w, ~ maps es w q) /\ grants t pid' v q).
Proof.
  intros Hp Ht (Hl & Hr & Hi) Hn. unfold grants.
  destruct (decide (0 <= q)) as [Hq|Hq].
  2: { split; [naive_solver|]. intros [[_ Hm]|[_ Hg]]; [|tauto]. pose proof (Hr _ _ Hm). lia. }
  destruct (load_entries_lookup es 0 pid t n (Z.to_nat q) Hp ltac:(lia) Ht Hn Hr Hi) as [H1 H2].
  rewrite Z2Nat.id in H1, H2 by done.
  destruct (maps_dec es q) as [[w Hw]|Hno].
  - rewrite (H1 w Hw). simpl. split.
    + intros [_ E]. left. simplify_eq. done.
    + intros [[-> Hv]|[Hno _]]; [|by destruct (Hno w)].
      split; [done|]. by rewrite (Hi v w q Hv Hw).
  - rewrite H2 by done. naive_solver.
Qed.

(** ** Running the binding operations on well-formed states *)

(** A table once the space bound before has been unloaded. *)
Definition evict (b : pid_binding) (t : list table_reg) : list table_reg :=
  match bound_space b with Some _ => revoke (pid b) <$> t | None => t end.

(** What pid_binding_bind makes of the state. *)
Definition bind_result (i : nat) (p : loc) (sp : mmu_t) (b : pid_binding) (s : mmu_state)
    : mmu_state :=
  MmuState (<[p := set_binding (Some i) sp]> (spaces s)) (u64 (next_stamp s + 1))
    (<[i := PidBinding (next_stamp s) (Some p) (pid b)]> (pid_bindings s)) (Some i)
    (immu_page_mode s) (dmmu_page_mode s)
    (load_entries 0 (pid b) (immu sp) (evict b (immu_table s)))
    (load_entries 0 (pid b) (dmmu sp) (evict b (dmmu_table s)))
    (ahb_mpu_table s) (ahblite_mpu_table s) (pid_new_reg s).

Definition rebind_result (i : nat) (b : pid_binding) (s : mmu_state) : mmu_state :=
  put_primary (u64 (next_stamp s + 1)) i
    (put_bindings (<[i := set_stamp (next_stamp s) b]> (pid_bindings s)) s).

Lemma make_primary_ok i b s :
  pid_bindings s !! i = Some b -> make_primary i s = Ok tt (rebind_result i b s).
Proof.
  intros Hb. unfold make_primary, upd_binding, get_binding. unfold_monad. by rewrite Hb.
Qed.

Lemma evict_length b t : length (evict b t) = length t.
Proof. unfold evict. destruct (bound_space b); [by rewrite length_fmap|done]. Qed.

Lemma evict_wf b t : table_wf t -> table_wf (evict b t).
Proof. unfold evict. destruct (bound_space b); [apply revoke_wf|done]. Qed.

Lemma upd_binding_ok i f b s :
  pid_bindings s !! i = Some b ->
  upd_binding i f s = Ok tt (put_bindings (<[i := f b]> (pid_bindings s)) s).
Proof. intros Hb. unfold upd_binding, get_binding. unfold_monad. by rewrite Hb. Qed.

Lemma upd_space_ok p f sp s :
  spaces s !! p = Some sp -> upd_space p f s = Ok tt (put_space p (f sp) s).
Proof. intros Hp. unfold upd_space, get_space. unfold_monad. by rewrite Hp. Qed.

(** The first half of pid_binding_bind: the old space, if any, leaves the tables. *)
Lemma evict_step s i b (o : option loc) :
  pid_bindings s !! i = Some b -> table_wf (immu_table s) -> table_wf (dmmu_table s) ->
  (forall p, bound_space b = Some p ->
     exists sp, spaces s !! p = Some sp /\ binding sp = Some i /\ mpu_peripheral sp = 0) ->
  (match bound_space b with Some old => mmu_unload old | None => mret tt end)
    (put_bindings (<[i := set_bound o b]> (pid_bindings s)) s) =
  Ok tt (put_tables (evict b (immu_table s)) (evict b (dmmu_table s))
    (put_bindings (<[i := set_bound o b]> (pid_bindings s)) s)).
Proof.
  intros Hb [Hi _] [Hd _] Hold. unfold evict. destruct (bound_space b) as [old|] eqn:E; [|done].
  destruct (Hold old eq_refl) as (sp & Hs & Hbi & Hm).
  rewrite (mmu_unload_ok old _ sp i (set_bound o b)); try done.
  simpl. by apply list_lookup_insert_eq, (lookup_lt_Some _ _ b).
Qed.

(** What well-formedness gives about the space bound by a binding. *)
Lemma wf_bound_space s i b p :
  mmu_wf s -> pid_bindings s !! i = Some b -> bound_space b = Some p ->
  exists sp, spaces s !! p = Some sp /\ binding sp = Some i /\ mpu_peripheral sp = 0.
Proof.
  intros Hwf Hb Hp. destruct (mw_bound s Hwf i b p Hb Hp) as (sp & Hs & Hbi).
  exists sp. split; [done|]. split; [done|]. apply (mw_space s Hwf p sp Hs).
Qed.

Lemma space_wf_fits sp (t t' : list table_reg) :
  space_wf sp -> length t = 16%nat -> length t' = 16%nat ->
  entries_fit (length t) (immu sp) /\ entries_fit (length t') (dmmu sp).
Proof.
  intros [Hi Hd _] -> ->.
  split; [apply (entries_wf_fit VDSO_PAGE_INDEX)|apply (entries_wf_fit MAX_PAGE_COUNT)];
    done || unfold VDSO_PAGE_INDEX, MAX_PAGE_COUNT; lia.
Qed.

Lemma pid_binding_bind_ok s i p sp b :
  mmu_wf s -> spaces s !! p = Some sp -> pid_bindings s !! i = Some b ->
  pid_binding_bind i p s = Ok tt (bind_result i p sp b s).
Proof.
  intros Hwf Hp Hb.
  assert (i < length (pid_bindings s))%nat as Hlt by (by eapply lookup_lt_Some).
  unfold pid_binding_bind.
  mfirst. { unfold get_binding. unfold_monad. rewrite Hb. reflexivity. }
  mrun (upd_binding_ok i _ b s Hb).
  mrun (evict_step s i b (Some p) Hb (mw_immu_table s Hwf) (mw_dmmu_table s Hwf)
    (fun q => wf_bound_space s i b q Hwf Hb)).
  mfirst. { apply upd_space_ok. exact Hp. }
  destruct (space_wf_fits sp (evict b (immu_table s)) (evict b (dmmu_table s))
    (mw_space s Hwf p sp Hp)) as [Fi Fd].
  { by rewrite evict_length, (proj1 (mw_immu_table s Hwf)). }
  { by rewrite evict_length, (proj1 (mw_dmmu_table s Hwf)). }
  mfirst.
  { apply (mmu_load_ok p _ (set_binding (Some i) sp) i (set_bound (Some p) b)); simpl; try done.
    - apply lookup_insert_eq.
    - by apply list_lookup_insert_eq.
    - apply (space_wf_shape sp), (mw_space s Hwf p sp Hp). }
  rewrite (make_primary_ok i (set_bound (Some p) b)); simpl.
  - unfold rebind_result, bind_result. simpl. by rewrite list_insert_insert_eq.
  - by apply list_lookup_insert_eq.
Qed.

(** *** The tables after binding: the PID that is bound, and the others *)
Lemma agrees_bind_self es n b t es' :
  2 <= pid b < 8 -> length t = 16%nat -> entries_wf n es -> n <= 16 ->
  table_agrees t (pid b) es' -> (bound_space b = None -> es' = None) ->
  table_agrees (load_entries 0 (pid b) es (evict b t)) (pid b) (Some es).
Proof.
  intros Hp Ht Hes Hn Ha Hnone v q.
  rewrite (grants_load es (pid b) _ n); [|lia|by rewrite evict_length|done|done].
  split; [|naive_solver].
  intros [[_ Hm]|[Hno Hg]]; [naive_solver|]. exfalso.
  unfold evict in Hg. destruct (bound_space b) as [p|] eqn:E.
  - apply grants_revoke in Hg as [? _]; [done|lia].
  - apply Ha in Hg as (l & Hl & _). rewrite (Hnone eq_refl) in Hl. done.
Qed.

Lemma agrees_bind_other es n b t pid' es' :
  2 <= pid b < 8 -> 2 <= pid' -> pid' <> pid b -> length t = 16%nat -> entries_wf n es ->
  n <= 16 -> table_agrees t pid' es' ->
  (forall l v w q, es' = Some l -> maps l v q -> ~ maps es w q) ->
  table_agrees (load_entries 0 (pid b) es (evict b t)) pid' es'.
Proof.
  intros Hp Hp' Hne Ht Hes Hn Ha Hd v q.
  rewrite (grants_load es (pid b) _ n); [|lia|by rewrite evict_length|done|done].
  assert (grants (evict b t) pid' v q <-> grants t pid' v q) as Hev.
  { unfold evict. destruct (bound_space b); [|done]. rewrite grants_revoke by lia. naive_solver. }
  rewrite Hev, (Ha v q). split; [naive_solver|].
  intros (l & -> & Hm). right. split; [|eauto]. intros w. by apply (Hd l v w q).
Qed.

(** *** Binding preserves well-formedness *)
Section BindWf.
Context (s : mmu_state) (i : nat) (p : loc) (sp : mmu_t) (b : pid_binding).
Context (Hwf : mmu_wf s) (Hp : spaces s !! p = Some sp) (Hb : pid_bindings s !! i = Some b).
Context (Hfree : forall j bj, pid_bindings s !! j = Some bj -> bound_space bj <> Some p).

Lemma bind_lookup_space q sp' :
  spaces (bind_result i p sp b s) !! q = Some sp' ->
  exists sp0, spaces s !! q = Some sp0 /\ immu sp' = immu sp0 /\ dmmu sp' = dmmu sp0 /\
    mpu_peripheral sp' = mpu_peripheral sp0 /\ (q <> p -> sp' = sp0).
Proof using Hp.
  simpl. destruct (decide (q = p)) as [->|Hne].
  - rewrite lookup_insert_eq. intros [= <-]. exists sp. done.
  - rewrite lookup_insert_ne by done. naive_solver.
Qed.

Lemma bind_lookup_binding j bj :
  pid_bindings (bind_result i p sp b s) !! j = Some bj ->
  (j = i /\ bj = PidBinding (next_stamp s) (Some p) (pid b)) \/
  (j <> i /\ pid_bindings s !! j = Some bj).
Proof using Hb.
  simpl. destruct (decide (j = i)) as [->|Hne].
  - rewrite list_lookup_insert_eq by (by eapply lookup_lt_Some). naive_solver.
  - rewrite list_lookup_insert_ne by done. naive_solver.
Qed.

Lemma bind_bound_entries field j bj :
  pid_bindings s !! j = Some bj ->
  bound_entries field (bind_result i p sp b s) bj = bound_entries field s bj.
Proof using Hfree Hp.
  intros Hj. unfold bound_entries. destruct (bound_space bj) as [p'|] eqn:E; [|done].
  simpl. rewrite lookup_insert_ne; [done|]. intros ->. by destruct (Hfree j bj Hj).
Qed.

(** A page of the space being bound belongs to no space that another PID is bound to. *)
Lemma bind_disjoint field j bj l v w q :
  (forall p p' sp sp' v v' q, spaces s !! p = Some sp -> spaces s !! p' = Some sp' ->
     maps (field sp) v q -> maps (field sp') v' q -> p = p') ->
  pid_bindings s !! j = Some bj -> bound_entries field s bj = Some l -> maps l v q ->
  ~ maps (field sp) w q.
Proof using Hfree Hp.
  intros Hd Hj Hl Hv Hw. unfold bound_entries in Hl.
  destruct (bound_space bj) as [p'|] eqn:E; [|done]. simpl in Hl.
  destruct (spaces s !! p') as [sp'|] eqn:Hp'; [|done]. simpl in Hl. simplify_eq.
  pose proof (Hd p' p sp' sp v w q Hp' Hp Hv Hw). subst. by apply (Hfree j bj Hj).
Qed.

Lemma bind_table_agrees field n t j bj :
  field (set_binding (Some i) sp) = field sp ->
  (forall p p' sp sp' v v' q, spaces s !! p = Some sp -> spaces s !! p' = Some sp' ->
     maps (field sp) v q -> maps (field sp') v' q -> p = p') ->
  entries_wf n (field sp) -> n <= 16 -> length t = 16%nat ->
  (forall j bj, pid_bindings s !! j = Some bj ->
     table_agrees t (pid bj) (bound_entries field s bj)) ->
  pid_bindings (bind_result i p sp b s) !! j = Some bj ->
  table_agrees (load_entries 0 (pid b) (field sp) (evict b t)) (pid bj)
    (bound_entries field (bind_result i p sp b s) bj).
Proof using Hwf Hp Hb Hfree.
  intros Hf Hd Hes Hn Ht Ha [[-> ->]|[Hne Hj]]%bind_lookup_binding.
  - unfold bound_entries at 1. simpl. rewrite lookup_insert_eq. simpl. rewrite Hf.
    apply (agrees_bind_self _ n b t (bound_entries field s b));
      eauto using wf_pid_range. intros E. unfold bound_entries. by rewrite E.
  - rewrite (bind_bound_entries field j bj Hj).
    pose proof (wf_pid_range s j bj Hwf Hj).
    apply (agrees_bind_other _ n); eauto using wf_pid_range, bind_disjoint; [lia|].
    rewrite (mw_pid s Hwf j bj Hj), (mw_pid s Hwf i b Hb). lia.
Qed.

Lemma bind_vdso :
  load_entries 0 (pid b) (immu sp) (evict b (immu_table s)) !! 15%nat = Some (TableReg 15 1).
Proof using Hwf Hp Hb.
  destruct (sw_immu sp (mw_space s Hwf p sp Hp)) as (Hl & Hr & Hi).
  pose proof (wf_pid_range s i b Hwf Hb).
  destruct (load_entries_lookup (immu sp) 0 (pid b) (evict b (immu_table s)) VDSO_PAGE_INDEX 15)
    as [_ ->]; try done.
  - lia.
  - lia.
  - by rewrite evict_length, (proj1 (mw_immu_table s Hwf)).
  - unfold evict. destruct (bound_space b); [|apply (mw_vdso s Hwf)].
    rewrite list_lookup_fmap, (mw_vdso s Hwf).
    assert (revoke (pid b) (TableReg 15 1) = TableReg 15 1) as Hrv; [|simpl; by rewrite Hrv].
    unfold revoke. rewrite (proj2 (Z.eqb_neq _ _)); [done|simpl; lia].
  - intros w Hw. apply Hr in Hw. unfold VDSO_PAGE_INDEX in Hw. lia.
Qed.

Lemma bind_wf : mmu_wf (bind_result i p sp b s).
Proof using Hwf Hp Hb Hfree.
  pose proof (mw_space s Hwf p sp Hp) as Hsp.
  constructor.
  - apply load_entries_wf, evict_wf, (mw_immu_table s Hwf).
  - apply load_entries_wf, evict_wf, (mw_dmmu_table s Hwf).
  - simpl. rewrite length_insert. apply (mw_bindings s Hwf).
  - intros j bj [[-> ->]|[_ Hj]]%bind_lookup_binding; [exact (mw_pid s Hwf i b Hb)|].
    by apply (mw_pid s Hwf).
  - intros q sp' (sp0 & H0 & E1 & E2 & E3 & _)%bind_lookup_space.
    destruct (mw_space s Hwf q sp0 H0). constructor; congruence.
  - intros q q' sp1 sp2 v v' r (? & H1 & E1 & _)%bind_lookup_space
      (? & H2 & E2 & _)%bind_lookup_space. rewrite E1, E2. by apply (mw_code_disjoint s Hwf).
  - intros q q' sp1 sp2 v v' r (? & H1 & _ & E1 & _)%bind_lookup_space
      (? & H2 & _ & E2 & _)%bind_lookup_space. rewrite E1, E2. by apply (mw_data_disjoint s Hwf).
  - intros j bj p' [[-> ->]|[Hne Hj]]%bind_lookup_binding Hbound; simpl in *.
    + simplify_eq. rewrite lookup_insert_eq. eauto.
    + rewrite lookup_insert_ne by (intros <-; by apply (Hfree j bj Hj)).
      by apply (mw_bound s Hwf j bj).
  - simpl. intros j [= <-].
    rewrite list_lookup_insert_eq by (by eapply lookup_lt_Some). eauto.
  - intros j bj. apply (bind_table_agrees immu VDSO_PAGE_INDEX);
      [done|apply (mw_code_disjoint s Hwf)|apply Hsp|done|apply (mw_immu_table s Hwf)|
       apply (mw_code_table s Hwf)].
  - intros j bj. apply (bind_table_agrees dmmu MAX_PAGE_COUNT);
      [done|apply (mw_data_disjoint s Hwf)|apply Hsp|done|apply (mw_dmmu_table s Hwf)|
       apply (mw_data_table s Hwf)].
  - apply bind_vdso.
Qed.
End BindWf.

(** *** Moving to a binding that is already loaded *)
Lemma rebind_wf s i b p :
  mmu_wf s -> pid_bindings s !! i = Some b -> bound_space b = Some p ->
  mmu_wf (rebind_result i b s).
Proof.
  intros Hwf Hb Hp.
  assert (i < length (pid_bindings s))%nat as Hlt by (by eapply lookup_lt_Some).
  assert (forall j bj, <[i := set_stamp (next_stamp s) b]> (pid_bindings s) !! j = Some bj ->
    exists b0, pid_bindings s !! j = Some b0 /\ pid bj = pid b0 /\ bound_space bj = bound_space b0)
    as Hback.
  { intros j bj. rewrite lookup_insert_decide by done. case_decide; subst; [|naive_solver].
    intros [= <-]. exists b. done. }
  constructor; try apply Hwf.
  - simpl. rewrite length_insert. apply (mw_bindings s Hwf).
  - intros j bj (b0 & H0 & E1 & E2)%Hback. rewrite E1. by apply (mw_pid s Hwf).
  - intros j bj q (b0 & H0 & E1 & E2)%Hback. rewrite E2. by apply (mw_bound s Hwf).
  - simpl. intros j [= <-]. rewrite list_lookup_insert_eq by done. eauto.
  - intros j bj (b0 & H0 & E1 & E2)%Hback. unfold bound_entries. rewrite E1, E2.
    by apply (mw_code_table s Hwf j b0).
  - intros j bj (b0 & H0 & E1 & E2)%Hback. unfold bound_entries. rewrite E1, E2.
    by apply (mw_data_table s Hwf j b0).
Qed.

(** ** The scan of mmu_activate *)

(** The stamp of a binding, and the binding the scan has chosen so far. *)
Definition stamp (s : mmu_state) (i : nat) : Z :=
  match pid_bindings s !! i with Some b => primary_stamp b | None => 0 end.

Definition lru_choice (s : mmu_state) (is_ : list nat) (lru : nat) : nat :=
  foldl (fun l i => if stamp s i <? stamp s l then i else l) lru is_.

(** When the space is bound, the scan finds its binding. *)
Lemma activate_loop_bound s p is_ lru i b :
  (forall j, j ∈ lru :: is_ -> (j < length (pid_bindings s))%nat) ->
  pid_bindings s !! i = Some b -> bound_space b = Some p -> i ∈ is_ ->
  (forall j bj, pid_bindings s !! j = Some bj -> bound_space bj = Some p -> j = i) ->
  mmu_activate_loop p is_ lru s =
    if decide (primary_binding s = Some i) then Ok tt s else Ok tt (rebind_result i b s).
Proof.
  intros Hr Hb Hp Hin Hu. revert lru Hr. induction is_ as [|j is_ IH]; intros lru Hr.
  { by apply elem_of_nil in Hin. }
  destruct (lookup_lt_is_Some_2 (pid_bindings s) j) as [bj Hj]; [apply Hr; set_solver|].
  destruct (lookup_lt_is_Some_2 (pid_bindings s) lru) as [bl Hl]; [apply Hr; set_solver|].
  cbn [mmu_activate_loop].
  mfirst. { unfold get_binding. unfold_monad. rewrite Hj. reflexivity. }
  destruct (decide (bound_space bj = Some p)) as [Hbj|Hbj].
  - rewrite bool_decide_eq_true_2 by done.
    pose proof (Hu j bj Hj Hbj) as ->. unfold pid_binding_is_primary.
    mfirst. { unfold_monad. reflexivity. }
    rewrite (bool_decide_eq_true_2 (Some i <> None)) by done. simpl.
    case_decide as Hd; [by rewrite bool_decide_eq_true_2|].
    rewrite bool_decide_eq_false_2 by done. by apply make_primary_ok.
  - rewrite bool_decide_eq_false_2 by done.
    mfirst. { unfold get_binding. unfold_monad. rewrite Hl. reflexivity. }
    apply IH; [set_solver by congruence|].
    intros k Hk. apply Hr. destruct (_ <? _); set_solver.
Qed.

(** When it is not, the scan binds it to the least recently used binding. *)
Lemma activate_loop_unbound s p is_ lru :
  (forall j, j ∈ lru :: is_ -> (j < length (pid_bindings s))%nat) ->
  (forall j bj, pid_bindings s !! j = Some bj -> bound_space bj <> Some p) ->
  mmu_activate_loop p is_ lru s = pid_binding_bind (lru_choice s is_ lru) p s.
Proof.
  intros Hr Hu. revert lru Hr. induction is_ as [|j is_ IH]; intros lru Hr; [done|].
  destruct (lookup_lt_is_Some_2 (pid_bindings s) j) as [bj Hj]; [apply Hr; set_solver|].
  destruct (lookup_lt_is_Some_2 (pid_bindings s) lru) as [bl Hl]; [apply Hr; set_solver|].
  cbn [mmu_activate_loop lru_choice foldl].
  mfirst. { unfold get_binding. unfold_monad. rewrite Hj. reflexivity. }
  rewrite bool_decide_eq_false_2 by (by apply (Hu j)).
  mfirst. { unfold get_binding. unfold_monad. rewrite Hl. reflexivity. }
  unfold stamp. rewrite Hj, Hl. apply IH.
  intros k Hk. apply Hr. destruct (_ <? _); set_solver.
Qed.

(** The choice is the first binding with the least stamp. *)
Lemma lru_choice_spec s n :
  let r := lru_choice s (seq 0 (S n)) 0 in
  (r <= n)%nat /\ (forall j, (j <= n)%nat -> stamp s r <= stamp s j) /\
  (forall j, (j < r)%nat -> stamp s r < stamp s j).
Proof.
  induction n as [|n IH].
  - unfold lru_choice; cbn [seq foldl]. rewrite Z.ltb_irrefl. cbv zeta.
    split; [lia|]. split; intros j Hj; [|lia]. replace j with 0%nat by lia. lia.
  - rewrite seq_S. unfold lru_choice in *. rewrite foldl_app. cbn [foldl].
    change (0 + S n)%nat with (S n).
    set (r := foldl _ _ (seq 0 (S n))) in *. cbv zeta in IH |- *.
    destruct IH as (Hr & Hmin & Hfirst).
    destruct (Z.ltb_spec (stamp s (S n)) (stamp s r)) as [Hlt|Hge].
    + split; [lia|]. split; intros j Hj.
      * destruct (decide (j = S n)) as [->|]; [lia|]. specialize (Hmin j ltac:(lia)). lia.
      * specialize (Hmin j ltac:(lia)). lia.
    + split; [lia|]. split; intros j Hj; [|by apply Hfirst].
      destruct (decide (j = S n)) as [->|]; [lia|]. apply Hmin. lia.
Qed.

(** ** mmu_activate *)

(** The cases of mmu_activate on a well-formed state. *)
Lemma mmu_activate_cases s p sp :
  mmu_wf s -> spaces s !! p = Some sp ->
  (exists i b, pid_bindings s !! i = Some b /\ bound_space b = Some p /\
     mmu_activate (Some p) s =
       if decide (primary_binding s = Some i) then Ok tt s else Ok tt (rebind_result i b s)) \/
  (exists b, let i := lru_choice s (seq 0 PID_BINDING_COUNT) 0 in
     (forall j bj, pid_bindings s !! j = Some bj -> bound_space bj <> Some p) /\
     pid_bindings s !! i = Some b /\
     mmu_activate (Some p) s = Ok tt (bind_result i p sp b s)).
Proof.
  intros Hwf Hp.
  assert (forall j, j ∈ 0%nat :: seq 0 PID_BINDING_COUNT -> (j < length (pid_bindings s))%nat)
    as Hrange.
  { intros j. rewrite (mw_bindings s Hwf), elem_of_cons, elem_of_seq.
    unfold PID_BINDING_COUNT. lia. }
  destruct (list_find (fun b => bound_space b = Some p) (pid_bindings s)) as [[i b]|] eqn:E.
  - left. apply list_find_Some in E as (Hb & Hbound & _). exists i, b.
    split; [done|]. split; [done|].
    apply (activate_loop_bound s p _ _ i b); try done.
    + apply elem_of_seq. rewrite <- (mw_bindings s Hwf). apply lookup_lt_Some in Hb. lia.
    + intros j bj Hj Hbj. by eapply wf_bound_unique.
  - right. apply list_find_None in E. rewrite Forall_lookup in E.
    destruct (lru_choice_spec s 5) as (Hle & _).
    destruct (lookup_lt_is_Some_2 (pid_bindings s) (lru_choice s (seq 0 PID_BINDING_COUNT) 0))
      as [b Hb].
    { rewrite (mw_bindings s Hwf). unfold PID_BINDING_COUNT in *. lia. }
    exists b. cbv zeta. split; [done|]. split; [done|].
    unfold mmu_activate. etransitivity.
    { apply (activate_loop_unbound s p _ 0 Hrange). done. }
    by apply pid_binding_bind_ok.
Qed.

(** ** Creating a space and mapping a page *)

(** Adding a location to the heap, or changing a space no PID is bound to, leaves what the
    bindings refer to alone. *)
Lemma put_unbound_wf s p sp :
  mmu_wf s ->
  (forall j bj, pid_bindings s !! j = Some bj -> bound_space bj <> Some p) ->
  space_wf sp ->
  (forall p' sp' v v' q, p' <> p -> spaces s !! p' = Some sp' ->
     maps (immu sp) v q -> maps (immu sp') v' q -> False) ->
  (forall p' sp' v v' q, p' <> p -> spaces s !! p' = Some sp' ->
     maps (dmmu sp) v q -> maps (dmmu sp') v' q -> False) ->
  mmu_wf (put_space p sp s).
Proof.
  intros Hwf Hfree Hsp Hc Hd.
  assert (forall field j bj, pid_bindings s !! j = Some bj ->
    bound_entries field (put_space p sp s) bj = bound_entries field s bj) as Hbe.
  { intros field j bj Hj. unfold bound_entries. destruct (bound_space bj) eqn:E; [|done].
    simpl. rewrite lookup_insert_ne; [done|]. intros <-. by apply (Hfree j bj). }
  constructor; try apply Hwf; simpl.
  - intros p' sp' [[<- <-]|[_ H]]%lookup_insert_Some; [done|]. by apply (mw_space s Hwf p').
  - intros p1 p2 s1 s2 v v' q [[<- <-]|[H1 E1]]%lookup_insert_Some
      [[<- <-]|[H2 E2]]%lookup_insert_Some M1 M2; try done.
    + by destruct (Hc p2 s2 v v' q).
    + by destruct (Hc p1 s1 v' v q).
    + by apply (mw_code_disjoint s Hwf p1 p2 s1 s2 v v' q).
  - intros p1 p2 s1 s2 v v' q [[<- <-]|[H1 E1]]%lookup_insert_Some
      [[<- <-]|[H2 E2]]%lookup_insert_Some M1 M2; try done.
    + by destruct (Hd p2 s2 v v' q).
    + by destruct (Hd p1 s1 v' v q).
    + by apply (mw_data_disjoint s Hwf p1 p2 s1 s2 v v' q).
  - intros j bj p' Hj Hb. rewrite lookup_insert_ne by (intros <-; by apply (Hfree j bj Hj)).
    by apply (mw_bound s Hwf j bj).
  - intros j bj Hj. rewrite (Hbe immu j bj Hj). by apply (mw_code_table s Hwf j).
  - intros j bj Hj. rewrite (Hbe dmmu j bj Hj). by apply (mw_data_table s Hwf j).
Qed.

Lemma mmu_zero_maps field v q :
  (field = immu \/ field = dmmu) -> ~ maps (field mmu_zero) v q.
Proof.
  intros [-> | ->] H; unfold maps in H; simpl in H;
    do 16 (destruct v as [|v]; [done|simpl in H]); done.
Qed.

Lemma mmu_zero_wf : space_wf mmu_zero.
Proof.
  split; [| |done]; (split; [done|]).
  - split; intros v q; [|intros q']; intros H; destruct (mmu_zero_maps immu _ _ (or_introl eq_refl) H).
  - split; intros v q; [|intros q']; intros H; destruct (mmu_zero_maps dmmu _ _ (or_intror eq_refl) H).
Qed.

Lemma create_space_wf s p :
  mmu_wf s -> spaces s !! p = None -> mmu_wf (put_space p mmu_zero s).
Proof.
  intros Hwf Hp. apply put_unbound_wf; [done| |apply mmu_zero_wf| |].
  - intros j bj Hj Hb. destruct (mw_bound s Hwf j bj p Hj Hb) as (sp & Hs & _). congruence.
  - intros p' sp' v v' q _ _ H _. by destruct (mmu_zero_maps immu v q (or_introl eq_refl)).
  - intros p' sp' v v' q _ _ H _. by destruct (mmu_zero_maps dmmu v q (or_intror eq_refl)).
Qed.

(** Replacing one entry by a mapping to a page that no entry maps. *)
Lemma entries_wf_insert n es v q :
  entries_wf n es -> (v < 16)%nat -> 0 <= q < n -> (forall w, ~ maps es w q) ->
  entries_wf n (<[v := {| phys := q; type := PAGE_MAPPED |}]> es) /\
  (forall w r, maps (<[v := {| phys := q; type := PAGE_MAPPED |}]> es) w r ->
     (w = v /\ r = q) \/ maps es w r).
Proof.
  intros (Hl & Hr & Hi) Hv Hq Hno.
  assert (forall w r, maps (<[v := {| phys := q; type := PAGE_MAPPED |}]> es) w r ->
     (w = v /\ r = q) \/ (w <> v /\ maps es w r)) as Hm.
  { intros w r. unfold maps. rewrite lookup_insert_decide by lia.
    case_decide; naive_solver. }
  split; [split; [by rewrite length_insert|]|naive_solver]. split.
  - intros w r [[_ ->]|[_ H]]%Hm; [done|]. by apply (Hr w).
  - intros w w' r [[-> ->]|[Hne H]]%Hm [[-> H2]|[Hne' H']]%Hm; try done; subst.
    + by destruct (Hno w').
    + by destruct (Hno w).
    + by apply (Hi w w' r).
Qed.

(** The pages of a kind. *)
Definition space_entries (ty : mmu_space_type) (sp : mmu_t) : list page_entry :=
  match ty with MMU_SPACE_CODE => immu sp | MMU_SPACE_DATA => dmmu sp end.
Definition page_limit (ty : mmu_space_type) : Z :=
  match ty with MMU_SPACE_CODE => VDSO_PAGE_INDEX | MMU_SPACE_DATA => MAX_PAGE_COUNT end.

Lemma mmu_map_unbound s p sp ty virt q :
  spaces s !! p = Some sp -> binding sp = None -> 0 <= virt < MAX_PAGE_COUNT ->
  mmu_map p ty virt (PAGE_ENTRY q) s =
    Ok NO_ERROR (put_space p (set_entry ty (Z.to_nat virt) (PAGE_ENTRY q) sp) s).
Proof.
  intros Hp Hb Hv. unfold mmu_map. rewrite (proj2 (Z.ltb_lt _ _)) by lia. simpl.
  mfirst. { apply upd_space_ok. exact Hp. }
  mfirst. { unfold get_space. unfold_monad. simpl. rewrite lookup_insert_eq. reflexivity. }
  unfold pid_binding_is_primary. mfirst. { unfold_monad. reflexivity. }
  by destruct ty; simpl; rewrite Hb.
Qed.

Lemma map_space_wf s p sp ty virt q :
  mmu_wf s -> spaces s !! p = Some sp -> binding sp = None ->
  0 <= virt < MAX_PAGE_COUNT -> 0 <= q < page_limit ty ->
  (forall p' sp' w, spaces s !! p' = Some sp' -> ~ maps (space_entries ty sp') w q) ->
  mmu_wf (put_space p (set_entry ty (Z.to_nat virt) (PAGE_ENTRY q) sp) s).
Proof.
  intros Hwf Hp Hb Hv Hq Hfresh. destruct (mw_space s Hwf p sp Hp) as [Si Sd Sm].
  assert (PAGE_ENTRY q = {| phys := q; type := PAGE_MAPPED |}) as ->.
  { unfold PAGE_ENTRY. f_equal. apply wrapu_small.
    destruct ty; simpl in Hq; unfold VDSO_PAGE_INDEX, MAX_PAGE_COUNT in Hq; lia. }
  unfold MAX_PAGE_COUNT in Hv.
  assert (forall j bj, pid_bindings s !! j = Some bj -> bound_space bj <> Some p) as Hfree.
  { intros j bj Hj Hbj. destruct (mw_bound s Hwf j bj p Hj Hbj) as (sp' & H' & E). congruence. }
  destruct ty; simpl in *.
  - destruct (entries_wf_insert _ _ (Z.to_nat virt) q Si) as [Si' Hm];
      [lia|done|intros w; by apply (Hfresh p sp w)|].
    apply put_unbound_wf; [done|done|done| |].
    + intros p' sp' v v' r Hne H' [[-> ->]|M]%Hm M'; [by apply (Hfresh p' sp' v')|].
      by apply Hne, (mw_code_disjoint s Hwf p' p sp' sp v' v r).
    + intros p' sp' v v' r Hne H' M M'.
      by apply Hne, (mw_data_disjoint s Hwf p' p sp' sp v' v r).
  - destruct (entries_wf_insert _ _ (Z.to_nat virt) q Sd) as [Sd' Hm];
      [lia|done|intros w; by apply (Hfresh p sp w)|].
    apply put_unbound_wf; [done|done|done| |].
    + intros p' sp' v v' r Hne H' M M'.
      by apply Hne, (mw_code_disjoint s Hwf p' p sp' sp v' v r).
    + intros p' sp' v v' r Hne H' [[-> ->]|M]%Hm M'; [by apply (Hfresh p' sp' v')|].
      by apply Hne, (mw_data_disjoint s Hwf p' p sp' sp v' v r).
Qed.
