(* ===== verification/MmuSpec.v ===== *)
(** * What the address spaces promise

    The abstract view of the memory protection, and the theorems that the code implements
    it: activation switches to a space and grants its PID exactly its pages, reachable
    states keep every bound space isolated, bindings are recycled in least recently used
    order; then the behaviours of mmu_map, pid_binding_bind and FOR_EACH_BIT on states the
    present kernel does not reach, or reaches once. *)
From Stdlib Require Import ZArith Lia.
From stdpp Require Import base tactics numbers list gmap.
From S2P Require Import Prelude Umem Mmu MmuInv.

(** ** The kernel's use of the module, as steps *)

(** The state at boot: the bindings are in zeroed memory, the tables hold their reset
    values, which the hardware documents as granting no PID above one. *)
Definition boot_state (it dt : list table_reg) (amt alt : list Z) : mmu_state := {|
  spaces := ∅;
  next_stamp := 0;
  pid_bindings := replicate PID_BINDING_COUNT (PidBinding 0 None 0);
  primary_binding := None;
  immu_page_mode := 0;
  dmmu_page_mode := 0;
  immu_table := it;
  dmmu_table := dt;
  ahb_mpu_table := amt;
  ahblite_mpu_table := alt;
  pid_new_reg := 0;
|}.

Definition reset_table (t : list table_reg) : Prop :=
  table_wf t /\ Forall (fun r => access_rights r < 2) t.

(** kmain calls init_mmu and init_pid before anything else here runs. *)
Definition init_address_spaces : M mmu_state unit := init_mmu;; init_pid_bindings.

(** A space is created zeroed (create_task), pages are mapped while it is not bound
    (create_task, loader_load_app) and no page is given out twice (umem.c), spaces are
    activated by the scheduler. *)
Inductive mmu_step : mmu_state -> mmu_state -> Prop :=
  | step_create s p :
      spaces s !! p = None -> mmu_step s (put_space p mmu_zero s)
  | step_map s s' p sp ty virt q :
      spaces s !! p = Some sp -> binding sp = None ->
      0 <= virt < MAX_PAGE_COUNT -> 0 <= q < page_limit ty ->
      (forall p' sp' w, spaces s !! p' = Some sp' -> ~ maps (space_entries ty sp') w q) ->
      mmu_map p ty virt (PAGE_ENTRY q) s = Ok NO_ERROR s' -> mmu_step s s'
  | step_activate s s' p :
      is_Some (spaces s !! p) -> mmu_activate (Some p) s = Ok tt s' -> mmu_step s s'.

(** ** Booting *)
Lemma table_reset_grants t pid v q :
  reset_table t -> 2 <= pid -> ~ grants t pid v q.
Proof.
  intros [_ Hf] Hp [_ Hg]. rewrite Forall_lookup in Hf. specialize (Hf _ _ Hg). simpl in Hf. lia.
Qed.

(** The state once init_mmu and init_pid_bindings have run. *)
Definition booted (it dt : list table_reg) (amt alt : list Z) : mmu_state := {|
  spaces := ∅;
  next_stamp := 0;
  pid_bindings := (fun i => PidBinding 0 None (Z.of_nat i + 2)) <$> seq 0 PID_BINDING_COUNT;
  primary_binding := None;
  immu_page_mode := 0;
  dmmu_page_mode := 0;
  immu_table := <[15%nat := TableReg 15 1]> it;
  dmmu_table := dt;
  ahb_mpu_table := <[1%nat := 0]> (<[0%nat := 0]> amt);
  ahblite_mpu_table := alt;
  pid_new_reg := 0;
|}.

Lemma init_address_spaces_ok it dt amt alt :
  length it = 16%nat ->
  init_address_spaces (boot_state it dt amt alt) = Ok tt (booted it dt amt alt).
Proof.
  intros Hl. unfold init_address_spaces, init_mmu.
  mfirst.
  { mrun. mfirst. { apply write_immu_table_ok. simpl. rewrite Hl. lia. } reflexivity. }
  reflexivity.
Qed.

Lemma booted_binding it dt amt alt i b :
  pid_bindings (booted it dt amt alt) !! i = Some b ->
  (i < 6)%nat /\ b = PidBinding 0 None (Z.of_nat i + 2).
Proof.
  intros H. apply list_lookup_fmap_Some in H as (k & -> & Hk).
  apply lookup_seq in Hk as [-> Hk]. done.
Qed.

Lemma booted_wf it dt amt alt :
  reset_table it -> reset_table dt -> mmu_wf (booted it dt amt alt).
Proof.
  intros Hi Hd.
  assert (reset_table (<[15%nat := TableReg 15 1]> it)) as Hi'.
  { destruct Hi as [[Hl Hf] Hr]. split; [split|].
    - by rewrite length_insert.
    - apply Forall_insert; [done|]. simpl. lia.
    - apply Forall_insert; [done|]. simpl. lia. }
  constructor; simpl.
  - apply Hi'.
  - apply Hd.
  - done.
  - intros i b Hb. by destruct (booted_binding it dt amt alt i b Hb) as [_ ->].
  - intros p sp H. by rewrite lookup_empty in H.
  - intros p p' sp sp' v v' q H. by rewrite lookup_empty in H.
  - intros p p' sp sp' v v' q H. by rewrite lookup_empty in H.
  - intros i b p Hb. by destruct (booted_binding it dt amt alt i b Hb) as [_ ->].
  - done.
  - intros i b Hb. destruct (booted_binding it dt amt alt i b Hb) as [_ ->]. intros v q.
    split; [|by intros (? & ? & _)]. intros Hg. by apply table_reset_grants in Hg; [|done|simpl; lia].
  - intros i b Hb. destruct (booted_binding it dt amt alt i b Hb) as [_ ->]. intros v q.
    split; [|by intros (? & ? & _)]. intros Hg. by apply table_reset_grants in Hg; [|done|simpl; lia].
  - apply list_lookup_insert_eq. destruct Hi as [[Hl _] _]. lia.
Qed.

(** ** Every step preserves well-formedness *)
Lemma mmu_activate_wf s p s' :
  mmu_wf s -> is_Some (spaces s !! p) -> mmu_activate (Some p) s = Ok tt s' -> mmu_wf s'.
Proof.
  intros Hwf [sp Hp] E.
  destruct (mmu_activate_cases s p sp Hwf Hp)
    as [(i & b & Hb & Hbound & Ea)|(b & Hfree & Hb & Ea)]; rewrite E in Ea.
  - case_decide; simplify_eq; [done|]. by eapply rebind_wf.
  - simplify_eq. by apply bind_wf.
Qed.

Lemma mmu_step_wf s s' : mmu_step s s' -> mmu_wf s -> mmu_wf s'.
Proof.
  intros [s0 p Hp|s0 s1 p sp ty virt q Hp Hb Hv Hq Hfresh E|s0 s1 p Hp E] Hwf.
  - by apply create_space_wf.
  - rewrite (mmu_map_unbound s0 p sp) in E by done. simplify_eq. by apply map_space_wf.
  - by eapply mmu_activate_wf.
Qed.

Lemma mmu_reachable_wf s0 s : mmu_wf s0 -> rtc mmu_step s0 s -> mmu_wf s.
Proof. intros Hwf Hs. induction Hs; eauto using mmu_step_wf. Qed.

(** ** Properties *)

(** The page tables of a space. *)
Definition page_tables (sp : mmu_t) : list page_entry * list page_entry := (immu sp, dmmu sp).

(** Where pages are looked up: the pages a PID is granted in a space's bound binding. *)
Lemma wf_grants s i b p sp v q :
  mmu_wf s -> pid_bindings s !! i = Some b -> bound_space b = Some p ->
  spaces s !! p = Some sp ->
  (grants (immu_table s) (pid b) v q <-> maps (immu sp) v q) /\
  (grants (dmmu_table s) (pid b) v q <-> maps (dmmu sp) v q).
Proof.
  intros Hwf Hb Hbound Hp.
  pose proof (mw_code_table s Hwf i b Hb v q) as Hc.
  pose proof (mw_data_table s Hwf i b Hb v q) as Hd.
  unfold bound_entries in Hc, Hd. rewrite Hbound in Hc, Hd. simpl in Hc, Hd.
  rewrite Hp in Hc, Hd. simpl in Hc, Hd. naive_solver.
Qed.

(** What activating a space changes, on a well-formed state: the bindings and the tables,
    but the entries of no space. *)
Lemma mmu_activate_switches s p :
  mmu_wf s -> is_Some (spaces s !! p) ->
  exists s' i b,
    mmu_activate (Some p) s = Ok tt s' /\ mmu_wf s' /\
    primary_binding s' = Some i /\ pid_bindings s' !! i = Some b /\ bound_space b = Some p /\
    (forall r, page_tables <$> spaces s' !! r = page_tables <$> spaces s !! r).
Proof.
  intros Hwf [sp Hp].
  enough (exists s' i b, mmu_activate (Some p) s = Ok tt s' /\
    primary_binding s' = Some i /\ pid_bindings s' !! i = Some b /\ bound_space b = Some p /\
    (forall r, page_tables <$> spaces s' !! r = page_tables <$> spaces s !! r))
    as (s' & i & b & E & ?).
  { exists s', i, b. split; [done|]. split; [|done]. by eapply mmu_activate_wf. }
  destruct (mmu_activate_cases s p sp Hwf Hp)
    as [(i & b & Hb & Hbound & Ea)|(b & Hfree & Hb & Ea)].
  - case_decide.
    + exists s, i, b. auto.
    + eexists _, i, _. split; [done|]. simpl.
      rewrite list_lookup_insert_eq by (by eapply lookup_lt_Some). auto.
  - eexists _, _, _. split; [done|]. simpl. split; [done|].
    rewrite list_lookup_insert_eq by (by eapply lookup_lt_Some). split; [done|]. split; [done|].
    intros r. destruct (decide (r = p)) as [->|Hne].
    + by rewrite lookup_insert_eq, Hp.
    + by rewrite lookup_insert_ne.
Qed.

(** C17: Activating a space always succeeds and switches to it: afterwards the primary
    binding is one whose space is the activated one, pid_prepare will hand its PID to the
    exception exit, and the hardware tables grant that PID exactly the code and data pages
    the space maps, each at its virtual page; in particular no page of any other space. The
    entries of all spaces are unchanged and the state stays well formed. *)
Theorem mmu_activate_isolates s p sp :
  mmu_wf s -> spaces s !! p = Some sp ->
  exists s' i b,
    mmu_activate (Some p) s = Ok tt s' /\ mmu_wf s' /\
    primary_binding s' = Some i /\ pid_bindings s' !! i = Some b /\ bound_space b = Some p /\
    pid_prepare s' = Ok tt (put_pid_new (pid b) s') /\
    (forall v q, grants (immu_table s') (pid b) v q <-> maps (immu sp) v q) /\
    (forall v q, grants (dmmu_table s') (pid b) v q <-> maps (dmmu sp) v q) /\
    (forall p' sp' v w q, p' <> p -> spaces s !! p' = Some sp' ->
       (maps (immu sp') v q -> ~ grants (immu_table s') (pid b) w q) /\
       (maps (dmmu sp') v q -> ~ grants (dmmu_table s') (pid b) w q)) /\
    (forall r, page_tables <$> spaces s' !! r = page_tables <$> spaces s !! r).
Proof.
  intros Hwf Hp.
  destruct (mmu_activate_switches s p Hwf) as (s' & i & b & E & Hwf' & Hprim & Hb & Hbound & Hent);
    [by eexists|].
  assert (exists sp', spaces s' !! p = Some sp' /\ immu sp' = immu sp /\ dmmu sp' = dmmu sp)
    as (sp' & Hp' & Ei & Ed).
  { specialize (Hent p). rewrite Hp in Hent. destruct (spaces s' !! p) as [sp'|]; [|done].
    injection Hent as Ei Ed. eauto. }
  assert (forall v q, (grants (immu_table s') (pid b) v q <-> maps (immu sp) v q) /\
    (grants (dmmu_table s') (pid b) v q <-> maps (dmmu sp) v q)) as Hg.
  { intros v q. rewrite <- Ei, <- Ed. by eapply wf_grants. }
  exists s', i, b. do 5 (split; [done|]). split.
  { unfold pid_prepare, get_binding. unfold_monad. by rewrite Hprim, Hb. }
  split; [intros; apply Hg|]. split; [intros; apply Hg|]. split; [|done].
  intros p' sp'' v w q Hne H'. split; intros Hm Hgr; apply Hg in Hgr; apply Hne.
  - by eapply (mw_code_disjoint s Hwf p' p sp'' sp v w q).
  - by eapply (mw_data_disjoint s Hwf p' p sp'' sp v w q).
Qed.

(** C5: From boot, however spaces are created, filled and activated, the hardware tables
    implement the bound spaces: the PID of a bound space is granted exactly what the space
    maps, a PID that is not bound is granted nothing, and the vDSO page stays mapped for
    everyone at the last page of the code area. *)
Theorem mmu_reachable_isolation it dt amt alt s1 s :
  reset_table it -> reset_table dt ->
  init_address_spaces (boot_state it dt amt alt) = Ok tt s1 -> rtc mmu_step s1 s ->
  (forall i b p sp v q, pid_bindings s !! i = Some b -> bound_space b = Some p ->
     spaces s !! p = Some sp ->
     (grants (immu_table s) (pid b) v q <-> maps (immu sp) v q) /\
     (grants (dmmu_table s) (pid b) v q <-> maps (dmmu sp) v q)) /\
  (forall i b v q, pid_bindings s !! i = Some b -> bound_space b = None ->
     ~ grants (immu_table s) (pid b) v q /\ ~ grants (dmmu_table s) (pid b) v q) /\
  immu_table s !! 15%nat = Some (TableReg 15 1).
Proof.
  intros Hi Hd E Hs. rewrite init_address_spaces_ok in E by apply Hi. simplify_eq.
  apply mmu_reachable_wf in Hs; [|by apply booted_wf]. split; [by eauto using wf_grants|].
  split; [|apply (mw_vdso s Hs)].
  intros i b v q Hb Hn. unfold not.
  rewrite (mw_code_table s Hs i b Hb v q), (mw_data_table s Hs i b Hb v q).
  unfold bound_entries. rewrite Hn. simpl. naive_solver.
Qed.

(** A space that no PID is bound to takes the first of the bindings with the least
    stamp; the other bindings keep their spaces, and the chosen one gets the next stamp. *)
Theorem mmu_activate_lru s p sp s' :
  mmu_wf s -> spaces s !! p = Some sp ->
  (forall j bj, pid_bindings s !! j = Some bj -> bound_space bj <> Some p) ->
  mmu_activate (Some p) s = Ok tt s' ->
  exists i b, pid_bindings s !! i = Some b /\
    (forall j bj, pid_bindings s !! j = Some bj ->
       primary_stamp b <= primary_stamp bj /\ ((j < i)%nat -> primary_stamp b < primary_stamp bj)) /\
    pid_bindings s' = <[i := PidBinding (next_stamp s) (Some p) (pid b)]> (pid_bindings s) /\
    primary_binding s' = Some i /\ next_stamp s' = u64 (next_stamp s + 1).
Proof.
  intros Hwf Hp Hfree E.
  destruct (mmu_activate_cases s p sp Hwf Hp)
    as [(i & b & Hb & Hbound & _)|(b & _ & Hb & Ea)]; [by destruct (Hfree i b Hb)|].
  rewrite E in Ea. simplify_eq. eexists _, b. split; [done|]. split; [|done].
  destruct (lru_choice_spec s 5) as (_ & Hmin & Hfirst).
  change (seq 0 6) with (seq 0 PID_BINDING_COUNT) in Hmin, Hfirst.
  set (i := lru_choice s (seq 0 PID_BINDING_COUNT) 0) in *.
  assert (forall j bj, pid_bindings s !! j = Some bj -> stamp s j = primary_stamp bj) as Hst.
  { intros j bj Hj. unfold stamp. by rewrite Hj. }
  intros j bj Hj. rewrite <- (Hst i b Hb), <- (Hst j bj Hj). split.
  - apply Hmin. apply lookup_lt_Some in Hj. rewrite (mw_bindings s Hwf) in Hj.
    unfold PID_BINDING_COUNT in Hj. lia.
  - apply Hfirst.
Qed.

(** The stamps of the bindings: once two activations have been stamped, the primary
    binding carries the greatest stamp, alone. *)
Definition stamps_ordered (s : mmu_state) : Prop :=
  (forall j bj, pid_bindings s !! j = Some bj ->
     primary_stamp bj <= 0 \/ primary_stamp bj < next_stamp s) /\ 0 <= next_stamp s /\
  (2 <= next_stamp s -> exists i b, primary_binding s = Some i /\ pid_bindings s !! i = Some b /\
     primary_stamp b = next_stamp s - 1 /\
     forall j bj, j <> i -> pid_bindings s !! j = Some bj -> primary_stamp bj < primary_stamp b).

(** Giving a binding the next stamp. *)
Lemma restamp_ordered s i o pd s' :
  stamps_ordered s -> next_stamp s + 1 < 2 ^ 64 -> (i < length (pid_bindings s))%nat ->
  next_stamp s' = u64 (next_stamp s + 1) -> primary_binding s' = Some i ->
  pid_bindings s' = <[i := PidBinding (next_stamp s) o pd]> (pid_bindings s) ->
  stamps_ordered s'.
Proof.
  intros (Ha & H0 & _) Hlt Hi En Ep Eb. unfold stamps_ordered.
  rewrite En, wrapu_small by lia. rewrite Ep, Eb. split; [|split; [lia|]].
  - intros j bj. rewrite lookup_insert_decide by done. case_decide.
    + intros [= <-]. simpl. lia.
    + intros Hj. destruct (Ha j bj Hj); lia.
  - intros H2. eexists i, _. split; [done|]. rewrite list_lookup_insert_eq by done.
    split; [done|]. simpl. split; [lia|]. intros j bj Hne.
    rewrite list_lookup_insert_ne by done. intros Hj. destruct (Ha j bj Hj); lia.
Qed.

(** After the second activation, activating any space never takes the binding of the
    space that is running: it stays bound, with its pages loaded, and the order of the
    stamps that guarantees it is preserved (until the 64-bit stamp wraps around). *)
Theorem running_space_kept s p sp i b s' :
  mmu_wf s -> stamps_ordered s -> spaces s !! p = Some sp ->
  2 <= next_stamp s -> next_stamp s + 1 < 2 ^ 64 ->
  primary_binding s = Some i -> pid_bindings s !! i = Some b ->
  mmu_activate (Some p) s = Ok tt s' ->
  stamps_ordered s' /\
  exists b', pid_bindings s' !! i = Some b' /\ bound_space b' = bound_space b /\ pid b' = pid b.
Proof.
  intros Hwf Hso Hp H2 Hlt Hprim Hb E.
  assert (i < length (pid_bindings s))%nat as Hi by (by eapply lookup_lt_Some).
  destruct (mmu_activate_cases s p sp Hwf Hp)
    as [(k & bk & Hk & Hbound & Ea)|(bk & Hfree & Hk & Ea)]; rewrite E in Ea.
  - case_decide; simplify_eq; [by eauto|]. split.
    + eapply (restamp_ordered s k); try done. by eapply lookup_lt_Some.
    + simpl. rewrite lookup_insert_decide by (by eapply lookup_lt_Some).
      case_decide; naive_solver.
  - simplify_eq.
    destruct (mmu_activate_lru s p sp _ Hwf Hp Hfree E) as (k & b0 & Hk0 & Hmin & Eb & Ep & En).
    split; [by eapply (restamp_ordered s k); eauto using lookup_lt_Some|].
    destruct Hso as (_ & _ & Hord). destruct (Hord H2) as (i' & b1 & Hp1 & Hb1 & Est & Hlow).
    rewrite Hprim in Hp1. simplify_eq.
    destruct (decide (k = i')) as [->|Hne].
    + (* the primary binding can not have the least stamp *)
      exfalso. simplify_eq.
      destruct (lookup_lt_is_Some_2 (pid_bindings s) (if decide (i' = 0%nat) then 1%nat else 0%nat))
        as [bj Hj].
      { rewrite (mw_bindings s Hwf). unfold PID_BINDING_COUNT. case_decide; lia. }
      pose proof (Hmin _ bj Hj) as [Hle _].
      assert ((if decide (i' = 0%nat) then 1%nat else 0%nat) <> i') as Hneq by (case_decide; lia).
      pose proof (Hlow _ bj Hneq Hj). lia.
    + exists b. rewrite Eb, list_lookup_insert_ne by done. done.
Qed.

(** *** The first eviction *)
Definition bindings_fresh (s : mmu_state) : Prop :=
  next_stamp s = 0 /\
  forall j b, pid_bindings s !! j = Some b -> bound_space b = None /\ primary_stamp b = 0.

(** With equal stamps the scan stops at the first binding. *)
Lemma lru_choice_equal s : (forall j, stamp s j = 0) -> lru_choice s (seq 0 PID_BINDING_COUNT) 0 = 0%nat.
Proof.
  intros H0. destruct (lru_choice_spec s 5) as (_ & _ & Hfirst).
  change (seq 0 6) with (seq 0 PID_BINDING_COUNT) in Hfirst.
  destruct (lru_choice s (seq 0 PID_BINDING_COUNT) 0) as [|k]; [done|].
  specialize (Hfirst 0%nat ltac:(lia)). rewrite !H0 in Hfirst. lia.
Qed.

(** Activating an unbound space when all stamps are zero takes binding 0. *)
Lemma activate_equal_stamps s p sp :
  mmu_wf s -> spaces s !! p = Some sp -> (forall j, stamp s j = 0) ->
  (forall j bj, pid_bindings s !! j = Some bj -> bound_space bj <> Some p) ->
  exists b, pid_bindings s !! 0%nat = Some b /\
    mmu_activate (Some p) s = Ok tt (bind_result 0 p sp b s).
Proof.
  intros Hwf Hp H0 Hfree.
  destruct (mmu_activate_cases s p sp Hwf Hp)
    as [(i & b & Hb & Hbound & _)|(b & _ & Hb & Ea)]; [by destruct (Hfree i b Hb)|].
  rewrite lru_choice_equal in Hb, Ea by done. eauto.
Qed.

(** The second space that is activated evicts the first one although the five other
    PIDs are still free: the first activation is stamped 0, which is also the stamp of the
    bindings that were never used, and the scan prefers the lower index. *)
Theorem second_activation_evicts s p r sp sr :
  mmu_wf s -> bindings_fresh s -> p <> r -> spaces s !! p = Some sp -> spaces s !! r = Some sr ->
  exists s', (mmu_activate (Some p);; mmu_activate (Some r)) s = Ok tt s' /\
    (exists b, pid_bindings s' !! 0%nat = Some b /\ bound_space b = Some r) /\
    (forall j b, (0 < j)%nat -> pid_bindings s' !! j = Some b -> bound_space b = None).
Proof.
  intros Hwf [Hn Hf] Hne Hp Hr.
  assert (forall j, stamp s j = 0) as H0.
  { intros j. unfold stamp. destruct (pid_bindings s !! j) as [b|] eqn:E; [|done].
    apply (Hf j b E). }
  destruct (activate_equal_stamps s p sp Hwf Hp H0) as (b & Hb & E1).
  { intros j bj Hj Hbj. destruct (Hf j bj Hj). congruence. }
  set (s1 := bind_result 0 p sp b s) in *.
  pose proof (mmu_activate_wf s p s1 Hwf ltac:(eauto) E1) as Hwf1.
  assert (0 < length (pid_bindings s))%nat as Hlen by (by eapply lookup_lt_Some).
  assert (forall j bj, pid_bindings s1 !! j = Some bj ->
    (j = 0%nat /\ bj = PidBinding 0 (Some p) (pid b)) \/
    ((0 < j)%nat /\ bound_space bj = None /\ primary_stamp bj = 0)) as Hb1.
  { intros j bj. simpl. rewrite Hn, lookup_insert_decide by done.
    case_decide; subst; [naive_solver|]. intros Hj. right. split; [lia|]. by apply (Hf j). }
  destruct (activate_equal_stamps s1 r sr Hwf1) as (b1 & Hb1' & E2).
  { simpl. by rewrite lookup_insert_ne by done. }
  { intros j. unfold stamp. destruct (pid_bindings s1 !! j) as [bj|] eqn:E; [|done].
    destruct (Hb1 j bj E) as [[_ ->]|(_ & _ & ?)]; done. }
  { intros j bj Hj. destruct (Hb1 j bj Hj) as [[_ ->]|(_ & -> & _)]; simpl; congruence. }
  exists (bind_result 0 r sr b1 s1). split; [by mrun E1|].
  assert (0 < length (pid_bindings s1))%nat as Hlen1 by (by eapply lookup_lt_Some).
  split.
  - eexists. unfold bind_result at 1. cbn [pid_bindings].
    by rewrite list_lookup_insert_eq by done.
  - intros j b' Hj. unfold bind_result at 1. cbn [pid_bindings].
    rewrite list_lookup_insert_ne by lia. intros E.
    destruct (Hb1 j b' E) as [[-> _]|(_ & ? & _)]; [lia|done].
Qed.

(** *** mmu_map on spaces that have a binding *)

(** Mapping a page of a space whose binding is the primary one. *)
Lemma mmu_map_primary s p sp i b ty virt q :
  spaces s !! p = Some sp -> binding sp = Some i -> pid_bindings s !! i = Some b ->
  primary_binding s = Some i -> 0 <= virt < MAX_PAGE_COUNT ->
  0 <= q < 16 -> length (immu_table s) = 16%nat ->
  mmu_map p ty virt (PAGE_ENTRY q) s = Ok NO_ERROR
    (put_tables (table_set q virt (pid b) (immu_table s)) (dmmu_table s)
      (put_space p (set_entry ty (Z.to_nat virt) (PAGE_ENTRY q) sp) s)).
Proof.
  intros Hp Hbi Hb Hprim Hv Hq Hl.
  assert (binding (set_entry ty (Z.to_nat virt) (PAGE_ENTRY q) sp) = Some i) as Hbi'.
  { by destruct ty. }
  assert (phys (PAGE_ENTRY q) = q) as Hphys by (apply wrapu_small; lia).
  unfold mmu_map. rewrite (proj2 (Z.ltb_lt _ _)) by lia. cbn [negb].
  mfirst. { apply upd_space_ok. exact Hp. }
  mfirst. { unfold get_space. unfold_monad. simpl. rewrite lookup_insert_eq. reflexivity. }
  rewrite Hbi'. unfold pid_binding_is_primary. mfirst. { unfold_monad. reflexivity. }
  simpl primary_binding. rewrite Hprim, !bool_decide_eq_true_2 by done. cbn [andb when].
  mfirst.
  { mrun. mfirst. { unfold get_binding. unfold_monad. simpl. rewrite Hb. reflexivity. }
    rewrite Hphys. apply write_immu_table_ok. simpl. rewrite Hl. lia. }
  done.
Qed.

(** Whatever the kind of the page, mmu_map programs the table of the code pages when
    the space is running. Mapping a data page therefore does not make it accessible, and it
    grants the running PID the code page with the same physical number, even one of another
    space. *)
Theorem mmu_map_data_hits_code_table s p sp i b virt q :
  mmu_wf s -> spaces s !! p = Some sp -> binding sp = Some i ->
  pid_bindings s !! i = Some b -> bound_space b = Some p -> primary_binding s = Some i ->
  0 <= virt < MAX_PAGE_COUNT -> 0 <= q < MAX_PAGE_COUNT ->
  (forall w, ~ maps (dmmu sp) w q) ->
  exists s' sp', mmu_map p MMU_SPACE_DATA virt (PAGE_ENTRY q) s = Ok NO_ERROR s' /\
    spaces s' !! p = Some sp' /\ maps (dmmu sp') (Z.to_nat virt) q /\ immu sp' = immu sp /\
    (forall v, ~ grants (dmmu_table s') (pid b) v q) /\
    grants (immu_table s') (pid b) (Z.to_nat virt) q.
Proof.
  intros Hwf Hp Hbi Hb Hbound Hprim Hv Hq Hno. unfold MAX_PAGE_COUNT in *.
  rewrite (mmu_map_primary s p sp i b MMU_SPACE_DATA virt q); try done;
    [|apply (mw_immu_table s Hwf)].
  eexists _, _. split; [done|]. simpl. rewrite lookup_insert_eq. split; [done|].
  destruct (sw_dmmu sp (mw_space s Hwf p sp Hp)) as (Hl & _).
  split.
  { unfold maps. simpl. rewrite list_lookup_insert_eq by lia. unfold PAGE_ENTRY.
    by rewrite wrapu_small by lia. }
  split; [done|]. split.
  - intros v Hg. apply (wf_grants s i b p sp v q) in Hg; [|done..]. by apply (Hno v).
  - pose proof (wf_pid_range s i b Hwf Hb). split; [lia|].
    rewrite table_set_lookup by (rewrite (proj1 (mw_immu_table s Hwf)); lia).
    rewrite decide_True by done. rewrite rights_field by lia.
    rewrite address_field by lia. by rewrite Z2Nat.id by lia.
Qed.

(** C40: Evicting a space does not clear its pointer to the binding (pid_binding_unbind
    does, pid_binding_bind does not). When such a space [p] gets a page while the space [r]
    that replaced it is running, mmu_map takes [p] for the running space: the hardware then
    grants [p]'s new page to [r], which does not map it. *)
Theorem mmu_map_stale_binding s p r sp sr i b virt q :
  mmu_wf s -> spaces s !! p = Some sp -> binding sp = Some i ->
  pid_bindings s !! i = Some b -> bound_space b = Some r -> r <> p ->
  spaces s !! r = Some sr -> primary_binding s = Some i ->
  0 <= virt < MAX_PAGE_COUNT -> 0 <= q < VDSO_PAGE_INDEX ->
  (forall w, ~ maps (immu sr) w q) ->
  exists s' sr', mmu_map p MMU_SPACE_CODE virt (PAGE_ENTRY q) s = Ok NO_ERROR s' /\
    spaces s' !! r = Some sr' /\ (forall w, ~ maps (immu sr') w q) /\
    grants (immu_table s') (pid b) (Z.to_nat virt) q /\ ~ mmu_wf s'.
Proof.
  intros Hwf Hp Hbi Hb Hbound Hne Hr Hprim Hv Hq Hno.
  unfold MAX_PAGE_COUNT, VDSO_PAGE_INDEX in *.
  rewrite (mmu_map_primary s p sp i b MMU_SPACE_CODE virt q); try done;
    [|lia|apply (mw_immu_table s Hwf)].
  match goal with |- exists s' sr', Ok _ ?st = _ /\ _ => set (s' := st) end.
  assert (spaces s' !! r = Some sr) as Hr'.
  { simpl. by rewrite lookup_insert_ne by done. }
  pose proof (wf_pid_range s i b Hwf Hb).
  assert (grants (immu_table s') (pid b) (Z.to_nat virt) q) as Hg.
  { split; [lia|]. simpl.
    rewrite table_set_lookup by (rewrite (proj1 (mw_immu_table s Hwf)); lia).
    rewrite decide_True by done. rewrite rights_field by lia.
    rewrite address_field by lia. by rewrite Z2Nat.id by lia. }
  exists s', sr. split; [done|]. split; [done|]. split; [done|]. split; [done|].
  intros Hwf'. apply (wf_grants s' i b r sr) in Hg; [|done..]. by apply (Hno (Z.to_nat virt)).
Qed.

(** *** FOR_EACH_BIT *)
Section ForEachBit.
Context (p : loc) (body : Z -> M mmu_state unit).
Context (body_frame : forall it s s', body it s = Ok tt s' -> spaces s' = spaces s).

(** The mask of the space, 64 bits wide. *)
Definition mask_is (m : Z) (s : mmu_state) : Prop :=
  exists sp, spaces s !! p = Some sp /\ mpu_peripheral sp = m.

Lemma mask_is_put m sp s : mask_is m (put_space p (set_peripheral m sp) s).
Proof using. eexists. simpl. rewrite lookup_insert_eq. done. Qed.

(** One round of the loop. *)
Lemma loop_round fuel m s s' :
  mask_is m s -> m <> 0 ->
  for_each_bit_loop (S fuel) p (ffs m) body s = Ok tt s' ->
  exists s1, mask_is (u64 (m .& .~ (ffs m))) s1 /\
    for_each_bit_loop fuel p (ffs (u64 (m .& .~ (ffs m)))) body s1 = Ok tt s' /\
    forall fuel', for_each_bit_loop (S fuel') p (ffs m) body s =
      for_each_bit_loop fuel' p (ffs (u64 (m .& .~ (ffs m)))) body s1.
Proof using body_frame.
  intros (sp & Hp & Hm) Hnz.
  assert (forall f, for_each_bit_loop (S f) p (ffs m) body s =
    (body (ffs m);;
     upd_space p (fun sp => set_peripheral (u64 (mpu_peripheral sp .& .~ (ffs m))) sp);;
     sp' ← get_space p;
     for_each_bit_loop f p (ffs (mpu_peripheral sp')) body) s) as Hunf.
  { intros f. cbn [for_each_bit_loop].
    mfirst. { unfold get_space. unfold_monad. rewrite Hp. reflexivity. }
    rewrite Hm, (proj2 (Z.eqb_neq _ _)) by done. done. }
  rewrite Hunf. destruct (body (ffs m) s) as [[] s0|w s0] eqn:Eb;
    [|by rewrite (bind_stop _ _ _ _ _ Eb)].
  rewrite (bind_ok _ _ _ _ _ Eb).
  assert (spaces s0 !! p = Some sp) as Hp0 by (by rewrite (body_frame _ _ _ Eb)).
  set (s1 := put_space p (set_peripheral (u64 (m .& .~ (ffs m))) sp) s0).
  assert (forall f, (upd_space p (fun sp => set_peripheral (u64 (mpu_peripheral sp .& .~ (ffs m))) sp);;
     sp' ← get_space p;
     for_each_bit_loop f p (ffs (mpu_peripheral sp')) body) s0 =
     for_each_bit_loop f p (ffs (u64 (m .& .~ (ffs m)))) body s1) as Htail.
  { intros f. mfirst. { apply upd_space_ok. exact Hp0. } cbv beta. rewrite Hm. fold s1.
    mfirst. { unfold get_space. unfold_monad. simpl. rewrite lookup_insert_eq. reflexivity. }
    done. }
  rewrite Htail. intros E. exists s1. split; [apply mask_is_put|]. split; [done|].
  intros f. rewrite Hunf, (bind_ok _ _ _ _ _ Eb). apply Htail.
Qed.

Lemma loop_done fuel s : mask_is 0 s -> for_each_bit_loop (S fuel) p (ffs 0) body s = Ok tt s.
Proof using.
  intros (sp & Hp & Hm). cbn [for_each_bit_loop].
  mfirst. { unfold get_space. unfold_monad. rewrite Hp. reflexivity. }
  by rewrite Hm.
Qed.

(** A round that clears nothing repeats for ever. *)
Lemma loop_stuck fuel m s s' :
  mask_is m s -> m <> 0 -> u64 (m .& .~ (ffs m)) = m ->
  for_each_bit_loop fuel p (ffs m) body s <> Ok tt s'.
Proof using body_frame.
  intros Hmask Hnz Hsame. revert s Hmask. induction fuel as [|fuel IH]; intros s Hmask E; [done|].
  apply loop_round in E as (s1 & Hmask1 & E & _); [|done|done].
  rewrite Hsame in Hmask1, E. by apply (IH s1).
Qed.

(** The number of bits set in a 64-bit mask. *)
Definition popcount (m : Z) : nat :=
  length (filter (fun i => Z.testbit m i = true) (seqZ 0 64)).

Lemma filter_length_lt (P Q : Z -> Prop) `{!forall x, Decision (P x), !forall x, Decision (Q x)} l x :
  (forall y, P y -> Q y) -> x ∈ l -> Q x -> ~ P x ->
  (length (filter P l) < length (filter Q l))%nat.
Proof using.
  intros HPQ Hin HQ HP.
  assert (forall l : list Z, (length (filter P l) <= length (filter Q l))%nat) as Hle.
  { intros l'. induction l' as [|y l' IH]; [done|]. rewrite !filter_cons.
    repeat case_decide; simpl; try lia. exfalso. auto. }
  induction l as [|y l IH]; [by apply elem_of_nil in Hin|].
  apply elem_of_cons in Hin as [<-|Hin].
  - rewrite !filter_cons, decide_False, decide_True by done. simpl. specialize (Hle l). lia.
  - specialize (IH Hin). rewrite !filter_cons. repeat case_decide; simpl; try lia.
    exfalso. auto.
Qed.

Lemma popcount_lt m x :
  0 <= m < 2 ^ 64 -> u64 (m .& x) <> m -> (popcount (u64 (m .& x)) < popcount m)%nat.
Proof using.
  intros Hm Hne.
  assert (forall i, Z.testbit (u64 (m .& x)) i = (i <? 64) && (Z.testbit m i && Z.testbit x i))
    as Hbits.
  { intros i. by rewrite wrapu_testbit, Z.land_spec by lia. }
  destruct (decide (Exists (fun i => Z.testbit m i = true /\ Z.testbit x i = false) (seqZ 0 64)))
    as [(i & Hi & Hmi & Hxi)%Exists_exists|Hno].
  - apply (filter_length_lt _ _ _ i); [|done|done|].
    + intros j. rewrite Hbits. intros [_ [? _]%andb_prop]%andb_prop. done.
    + rewrite Hbits, Hmi, Hxi, !andb_false_r. done.
  - exfalso. apply Hne, Z.bits_inj'. intros i Hi. rewrite Hbits.
    destruct (Z.ltb_spec i 64) as [Hlt|Hge]; simpl; [|by rewrite (testbit_of_range 64 m)].
    destruct (Z.testbit m i) eqn:Hmi; [|done]. destruct (Z.testbit x i) eqn:Hxi; [done|].
    exfalso. apply Hno, Exists_exists. exists i. rewrite elem_of_seqZ. split; [lia|done].
Qed.

Lemma loop_fuel c : forall n m s s',
  mask_is m s -> 0 <= m < 2 ^ 64 -> (popcount m <= c)%nat ->
  for_each_bit_loop n p (ffs m) body s = Ok tt s' ->
  for_each_bit_loop (S c) p (ffs m) body s = Ok tt s'.
Proof using body_frame.
  induction c as [|c IH]; intros [|n] m s s' Hmask Hm Hc E; try done;
    (destruct (decide (m = 0)) as [->|Hnz]; [by rewrite loop_done in E |- * by done|]);
    destruct (loop_round _ _ _ _ Hmask Hnz E) as (s1 & Hmask1 & E1 & Hany).
  - destruct (decide (u64 (m .& .~ (ffs m)) = m)) as [Heq|Hneq].
    + by destruct (loop_stuck (S n) m s s' Hmask Hnz Heq).
    + pose proof (popcount_lt m _ Hm Hneq). lia.
  - destruct (decide (u64 (m .& .~ (ffs m)) = m)) as [Heq|Hneq].
    + by destruct (loop_stuck (S n) m s s' Hmask Hnz Heq).
    + rewrite Hany. apply (IH n); try done; [by apply wrapu_range|].
      pose proof (popcount_lt m _ Hm Hneq). lia.
Qed.
End ForEachBit.

Lemma popcount_64 m : (popcount m <= 64)%nat.
Proof.
  unfold popcount. etransitivity; [apply length_filter|]. by rewrite length_seqZ.
Qed.

(** What mmu_load does for each peripheral of a space. *)
Definition load_peripheral (pid it : Z) : M mmu_state unit :=
  upd_ahblite (1 .<< it) (fun _ => 1 .<< pid).

Lemma load_peripheral_frame pid it s s' :
  load_peripheral pid it s = Ok tt s' -> spaces s' = spaces s.
Proof.
  unfold load_peripheral, upd_ahblite. unfold_monad.
  destruct (ahblite_mpu_table s !! _); [|done]. by intros [= <-].
Qed.

(** The macro's rounds, counted: whenever the loop of the code ends at all, the fuel of
    [for_each_bit] is enough for it, since each round that does not repeat itself for ever
    clears at least one of 64 bits. *)
Lemma for_each_bit_complete p pid n m s s' :
  mask_is p m s -> 0 < m < 2 ^ 64 ->
  for_each_bit_loop n p (ffs m) (load_peripheral pid) s = Ok tt s' ->
  for_each_bit p (load_peripheral pid) s = Ok tt s'.
Proof.
  intros Hmask Hm E. pose proof Hmask as (sp & Hp & Hsp).
  unfold for_each_bit. mfirst. { unfold get_space. unfold_monad. rewrite Hp. reflexivity. }
  rewrite Hsp, (proj2 (Z.eqb_neq _ _)) by lia.
  apply (loop_fuel p _ (load_peripheral_frame pid) 64 n); try done; [lia|apply popcount_64].
Qed.

Lemma single_bit_stuck k :
  2 <= k < 64 -> u64 (2 ^ k .& .~ (ffs (2 ^ k))) = 2 ^ k.
Proof.
  intros Hk. apply Z.bits_inj'. intros i Hi.
  rewrite wrapu_testbit, Z.land_spec, Z.lnot_spec, !Z.pow2_bits_eqb by lia.
  destruct (Z.eqb_spec k i) as [<-|]; [|by rewrite andb_false_r].
  rewrite (proj2 (Z.ltb_lt k 64)) by lia. simpl. apply negb_true_iff.
  destruct (ffs_cases (2 ^ k)) as [[-> _]|(_ & Ht & _)]; [apply Z.bits_0|].
  rewrite Z.pow2_bits_eqb in Ht by (pose proof (ffs_range (2 ^ k)); lia).
  apply Z.eqb_eq in Ht. replace (ffs (2 ^ k)) with (k + 1) by lia.
  apply (testbit_of_range k); [|done].
  assert (k + 1 < 2 ^ k); [|lia].
  destruct (decide (k = 2)) as [->|]; [done|].
  assert (2 * k <= 2 ^ k) as H2; [|lia].
  replace k with (1 + (k - 1)) at 2 by lia. rewrite Z.pow_add_r by lia.
  pose proof (Z.pow_gt_lin_r 2 (k - 1) ltac:(lia) ltac:(lia)). lia.
Qed.

(** A mask that the first round empties: the body runs once. *)
Lemma for_each_bit_once p body m sp s s0 :
  spaces s !! p = Some sp -> mpu_peripheral sp = m -> m <> 0 -> u64 (m .& .~ (ffs m)) = 0 ->
  body (ffs m) s = Ok tt s0 -> spaces s0 = spaces s ->
  for_each_bit p body s = Ok tt (put_space p (set_peripheral 0 sp) s0).
Proof.
  intros Hp Hm Hnz Hz Hb Hs. unfold for_each_bit.
  mfirst. { unfold get_space. unfold_monad. rewrite Hp. reflexivity. }
  rewrite Hm, (proj2 (Z.eqb_neq _ _)) by done. unfold FOR_EACH_BIT_FUEL.
  cbn [for_each_bit_loop].
  mfirst. { unfold get_space. unfold_monad. rewrite Hp. reflexivity. }
  rewrite Hm, (proj2 (Z.eqb_neq _ _)) by done. mrun Hb.
  mfirst. { apply upd_space_ok. rewrite Hs. exact Hp. }
  cbv beta. rewrite Hm, Hz.
  mfirst. { unfold get_space. unfold_monad. simpl. rewrite lookup_insert_eq. reflexivity. }
  mfirst. { unfold get_space. unfold_monad. simpl. rewrite lookup_insert_eq. reflexivity. }
  done.
Qed.

Lemma load_peripheral_ok pid it s :
  0 <= it -> (Z.to_nat (1 .<< it) < length (ahblite_mpu_table s))%nat ->
  load_peripheral pid it s =
    Ok tt (put_ahblite (<[Z.to_nat (1 .<< it) := u32 (1 .<< pid)]> (ahblite_mpu_table s)) s).
Proof.
  intros Hit Hl. apply lookup_lt_is_Some in Hl as [x Hx].
  unfold load_peripheral, upd_ahblite. unfold_monad. by rewrite Hx.
Qed.

(** FOR_EACH_BIT does not visit the bits of the mask. For a space that may use exactly
    one peripheral [k], loading it returns only for [k = 0] and [k = 1], and then grants
    the wrong entry of the peripheral table (2 or 4 instead of [k]) and erases the
    permission from the space; for every other peripheral no number of rounds makes the
    loop end. *)
Theorem for_each_bit_single p pid k s :
  mask_is p (2 ^ k) s -> 0 <= k < Z.of_nat MPU_LAST ->
  length (ahblite_mpu_table s) = MPU_LAST ->
  (2 <= k -> forall fuel s',
     for_each_bit_loop fuel p (ffs (2 ^ k)) (load_peripheral pid) s <> Ok tt s') /\
  (k < 2 -> exists s', for_each_bit p (load_peripheral pid) s = Ok tt s' /\ mask_is p 0 s' /\
     ahblite_mpu_table s' = <[Z.to_nat (2 * (k + 1)) := u32 (1 .<< pid)]> (ahblite_mpu_table s)).
Proof.
  unfold MPU_LAST. intros Hmask Hk Hl. split.
  - intros H2 fuel s'. apply (loop_stuck p _ (load_peripheral_frame pid)); [done|lia|].
    apply single_bit_stuck. lia.
  - intros H2. destruct Hmask as (sp & Hp & Hsp).
    assert (k = 0 \/ k = 1) as [-> | ->] by lia; (eexists; split; [|split]);
      [eapply for_each_bit_once; [done|done|done|done|apply load_peripheral_ok;
          [apply ffs_range|rewrite Hl; vm_compute; lia]|done]
      |apply mask_is_put|done
      |eapply for_each_bit_once; [done|done|done|done|apply load_peripheral_ok;
          [apply ffs_range|rewrite Hl; vm_compute; lia]|done]
      |apply mask_is_put|done].
Qed.

(** ** Witnesses: the theorems at a booted machine with two spaces *)
Definition ex_table : list table_reg := replicate 16 (TableReg 0 0).
Definition ex_boot : mmu_state := booted ex_table ex_table [0; 0] (replicate 47 0).
Definition ex_two : mmu_state := put_space 2 mmu_zero (put_space 1 mmu_zero ex_boot).
Definition run_or {A} (m : M mmu_state A) (s : mmu_state) : mmu_state :=
  match m s with Ok _ s' => s' | Stop _ s' => s' end.
(** Space 1 has code page 3 at virtual page 0. *)
Definition ex_mapped : mmu_state := run_or (mmu_map 1 MMU_SPACE_CODE 0 (PAGE_ENTRY 3)) ex_two.
(** Space 1 runs, then space 2 takes its binding. *)
Definition ex_one_active : mmu_state := run_or (mmu_activate (Some 1%positive)) ex_two.
Definition ex_evicted : mmu_state := run_or (mmu_activate (Some 2%positive)) ex_one_active.

Lemma ex_table_reset : reset_table ex_table.
Proof.
  split; [split; [done|]|]; apply Forall_replicate; simpl; lia.
Qed.

Lemma ex_two_steps : rtc mmu_step ex_boot ex_two.
Proof. eapply rtc_l; [by apply step_create|]. eapply rtc_once. by apply step_create. Qed.

Lemma ex_two_wf : mmu_wf ex_two.
Proof.
  apply (mmu_reachable_wf ex_boot); [|apply ex_two_steps].
  apply booted_wf; apply ex_table_reset.
Qed.

Lemma ex_two_spaces p sp : spaces ex_two !! p = Some sp -> sp = mmu_zero.
Proof.
  simpl. intros [[_ <-]|[_ [[_ <-]|[_ H]]%lookup_insert_Some]]%lookup_insert_Some; try done.
Qed.

Lemma ex_mapped_wf : mmu_wf ex_mapped.
Proof.
  apply (mmu_step_wf ex_two); [|apply ex_two_wf].
  apply (step_map _ _ 1%positive mmu_zero MMU_SPACE_CODE 0 3); try done.
  intros p sp w ->%ex_two_spaces. apply (mmu_zero_maps immu). by left.
Qed.

Lemma ex_one_active_run : mmu_activate (Some 1%positive) ex_two = Ok tt ex_one_active.
Proof. by vm_compute. Qed.
Lemma ex_evicted_run : mmu_activate (Some 2%positive) ex_one_active = Ok tt ex_evicted.
Proof. by vm_compute. Qed.

Lemma ex_one_active_wf : mmu_wf ex_one_active.
Proof. eapply mmu_activate_wf, ex_one_active_run; [apply ex_two_wf|]. by eexists. Qed.
Lemma ex_evicted_wf : mmu_wf ex_evicted.
Proof. eapply mmu_activate_wf, ex_evicted_run; [apply ex_one_active_wf|]. by eexists. Qed.

Lemma ex_evicted_bindings :
  pid_bindings ex_evicted = PidBinding 1 (Some 2%positive) 2 ::
    ((fun i => PidBinding 0 None (Z.of_nat i + 2)) <$> seq 1 5).
Proof. reflexivity. Qed.

Lemma ex_evicted_binding j bj :
  pid_bindings ex_evicted !! j = Some bj ->
  (j = 0%nat /\ primary_stamp bj = 1) \/ (j <> 0%nat /\ primary_stamp bj = 0).
Proof.
  rewrite ex_evicted_bindings. destruct j as [|j].
  - intros [= <-]. by left.
  - rewrite lookup_cons. intros (k & -> & _)%list_lookup_fmap_Some. by right.
Qed.

Lemma ex_evicted_ordered : stamps_ordered ex_evicted.
Proof.
  assert (next_stamp ex_evicted = 2) as En by done. split; [|split].
  - intros j bj [[_ Hj]|[_ Hj]]%ex_evicted_binding; rewrite En, Hj; lia.
  - by rewrite En.
  - intros _. exists 0%nat, (PidBinding 1 (Some 2%positive) 2).
    split; [done|]. split; [by rewrite ex_evicted_bindings|]. split; [done|].
    intros j bj Hne [[? _]|[_ Hj]]%ex_evicted_binding; [done|]. by rewrite Hj.
Qed.

Lemma ex_two_unbound j bj o : pid_bindings ex_two !! j = Some bj -> bound_space bj <> Some o.
Proof. intros Hj. by destruct (booted_binding ex_table ex_table [0; 0] (replicate 47 0) j bj Hj) as [_ ->]. Qed.

Lemma mmu_activate_isolates_witness :
  exists s' i b, mmu_activate (Some 1%positive) ex_mapped = Ok tt s' /\
    pid_bindings s' !! i = Some b /\ grants (immu_table s') (pid b) 0 3.
Proof.
  destruct (mmu_activate_isolates ex_mapped 1%positive
    (set_entry MMU_SPACE_CODE 0 (PAGE_ENTRY 3) mmu_zero) ex_mapped_wf eq_refl)
    as (s' & i & b & E & _ & _ & Hb & _ & _ & Hg & _).
  exists s', i, b. split; [exact E|]. split; [exact Hb|]. apply Hg. reflexivity.
Defined.

Lemma mmu_reachable_isolation_witness : immu_table ex_two !! 15%nat = Some (TableReg 15 1).
Proof.
  apply (mmu_reachable_isolation ex_table ex_table [0; 0] (replicate 47 0) ex_boot ex_two).
  - apply ex_table_reset.
  - apply ex_table_reset.
  - reflexivity.
  - apply ex_two_steps.
Defined.

Lemma mmu_activate_lru_witness :
  exists i b, pid_bindings ex_two !! i = Some b /\ primary_binding ex_one_active = Some i.
Proof.
  destruct (mmu_activate_lru ex_two 1%positive mmu_zero ex_one_active ex_two_wf eq_refl)
    as (i & b & Hb & _ & _ & Hp & _).
  - intros j bj. apply ex_two_unbound.
  - apply ex_one_active_run.
  - exists i, b. split; [exact Hb|exact Hp].
Defined.

Lemma running_space_kept_witness :
  exists s' b', mmu_activate (Some 1%positive) ex_evicted = Ok tt s' /\
    pid_bindings s' !! 0%nat = Some b' /\ bound_space b' = Some 2%positive.
Proof.
  destruct (mmu_activate (Some 1%positive) ex_evicted) as [[] s'|w s'] eqn:E;
    [|vm_compute in E; discriminate].
  destruct (running_space_kept ex_evicted 1%positive (set_binding (Some 0%nat) mmu_zero) 0
    (PidBinding 1 (Some 2%positive) 2) s' ex_evicted_wf ex_evicted_ordered)
    as (_ & b' & Hb & Hbound & _);
    [reflexivity|apply Z.leb_le; reflexivity|apply Z.ltb_lt; reflexivity|reflexivity|reflexivity
    |exact E|].
  - exists s', b'. split; [reflexivity|]. split; [exact Hb|exact Hbound].
Defined.

Lemma second_activation_evicts_witness :
  exists s', (mmu_activate (Some 1%positive);; mmu_activate (Some 2%positive)) ex_two = Ok tt s' /\
    exists b, pid_bindings s' !! 0%nat = Some b /\ bound_space b = Some 2%positive.
Proof.
  destruct (second_activation_evicts ex_two 1%positive 2%positive mmu_zero mmu_zero ex_two_wf)
    as (s' & E & Hb & _); try reflexivity.
  - split; [reflexivity|]. intros j b Hj.
    destruct (booted_binding ex_table ex_table [0; 0] (replicate 47 0) j b Hj) as [_ ->].
    split; reflexivity.
  - discriminate.
  - exists s'. split; [exact E|exact Hb].
Defined.

Lemma mmu_map_data_hits_code_table_witness :
  exists s', mmu_map 1 MMU_SPACE_DATA 2 (PAGE_ENTRY 5) ex_one_active = Ok NO_ERROR s' /\
    grants (immu_table s') 2 2 5.
Proof.
  destruct (mmu_map_data_hits_code_table ex_one_active 1%positive (set_binding (Some 0%nat) mmu_zero)
    0 (PidBinding 0 (Some 1%positive) 2) 2 5 ex_one_active_wf)
    as (s' & sp' & E & _ & _ & _ & _ & Hg); try reflexivity; try (vm_compute; split; congruence).
  - intros w. apply (mmu_zero_maps dmmu). right. reflexivity.
  - exists s'. split; [exact E|exact Hg].
Defined.

Lemma mmu_map_stale_binding_witness :
  exists s', mmu_map 1 MMU_SPACE_CODE 2 (PAGE_ENTRY 5) ex_evicted = Ok NO_ERROR s' /\
    grants (immu_table s') 2 2 5 /\ ~ mmu_wf s'.
Proof.
  destruct (mmu_map_stale_binding ex_evicted 1%positive 2%positive
    (set_binding (Some 0%nat) mmu_zero) (set_binding (Some 0%nat) mmu_zero)
    0 (PidBinding 1 (Some 2%positive) 2) 2 5 ex_evicted_wf)
    as (s' & sr & E & _ & _ & Hg & Hn); try reflexivity; try (vm_compute; split; congruence).
  - discriminate.
  - intros w. apply (mmu_zero_maps immu). left. reflexivity.
  - exists s'. split; [exact E|]. split; [exact Hg|exact Hn].
Defined.

Lemma for_each_bit_single_witness :
  ~ exists s', for_each_bit_loop 100 1 (ffs 8) (load_peripheral 2)
    (put_space 1 (set_peripheral 8 mmu_zero) ex_two) = Ok tt s'.
Proof.
  intros [s' E]. revert E.
  apply (for_each_bit_single 1 2 3 (put_space 1 (set_peripheral 8 mmu_zero) ex_two)).
  - apply (mask_is_put 1 8 mmu_zero ex_two).
  - unfold MPU_LAST. lia.
  - reflexivity.
  - lia.
Defined.
