(* ===== verification/Dport.v ===== *)
(** * DPORT: system registers and the interrupt matrix (kernel/src/drivers/dport.c)

    init_dport (boot remap, caches, interrupt maps, vector base), dport_map_interrupt (the
    allocator of CPU interrupt lines) and the scan of dport_log_interrupt. The MMU part of
    the same file is in Mmu.v. *)
From Stdlib Require Import ZArith Lia.
From stdpp Require Import base tactics numbers list gmap.
From S2P Require Import Prelude.

(** ** State: the registers written here and the mask of free interrupt lines *)
Record dport := Dport {
  boot_remap : Z * Z;
  cache_ctrl : Z * Z;
  cache_mux_mode : Z;
  intr_from_cpu : list Z;
  pro_int_map : list Z;
  app_int_map : list Z;
  vecbase_set : Z * Z;
  vecbase_ctrl : Z * Z;
  m_free_peripheral_interrupt : Z;
}.

Definition INTERRUPT_SOURCE_MAX : Z := 69.

(** BIT10 | BIT22 | BIT28 | BIT30 *)
Definition PERIPHERALS_EDGE_TRIGGERED : Z :=
  0x400 .| 0x400000 .| 0x10000000 .| 0x40000000.

(** BIT0 ... BIT5, BIT8, BIT9, BIT10, BIT12, BIT13, BIT17, BIT18 *)
Definition free_peripheral_interrupt_init : Z :=
  0x1 .| 0x2 .| 0x4 .| 0x8 .| 0x10 .| 0x20 .| 0x100 .|
  0x200 .| 0x400 .| 0x1000 .| 0x2000 .| 0x20000 .| 0x40000.

(** *** Field updates *)
Definition put_int_map (m : list Z) (free : Z) (d : dport) : dport :=
  Dport (boot_remap d) (cache_ctrl d) (cache_mux_mode d) (intr_from_cpu d) m (app_int_map d)
    (vecbase_set d) (vecbase_ctrl d) free.
Definition put_cache (c : Z * Z) (d : dport) : dport :=
  Dport (boot_remap d) c (cache_mux_mode d) (intr_from_cpu d) (pro_int_map d) (app_int_map d)
    (vecbase_set d) (vecbase_ctrl d) (m_free_peripheral_interrupt d).
Definition put_matrix (from pro app : list Z) (d : dport) : dport :=
  Dport (boot_remap d) (cache_ctrl d) (cache_mux_mode d) from pro app
    (vecbase_set d) (vecbase_ctrl d) (m_free_peripheral_interrupt d).
Definition put_vecbase (st ct : Z * Z) (d : dport) : dport :=
  Dport (boot_remap d) (cache_ctrl d) (cache_mux_mode d) (intr_from_cpu d) (pro_int_map d)
    (app_int_map d) st ct (m_free_peripheral_interrupt d).

(** ** init_dport *)

(** The fields of DPORT_CACHE_CTRL that are written: cache_enable (bit 3) and
    cache_flush_ena (bit 4). *)
Definition CACHE_ENABLE : Z := 1 .<< 3.
Definition CACHE_FLUSH_ENA : Z := 1 .<< 4.

(** [while (!REG.cache_flush_done);] The flag is raised by the hardware: [flag i] is what
    the [i]-th read of it returns. *)
Fixpoint wait_flag (flag : nat -> bool) (i fuel : nat) : M dport unit :=
  match fuel with
  | O => stop_with Spin
  | S fuel' => if flag i then mret tt else wait_flag flag (S i) fuel'
  end.

Section Init.
(** The address of the exception vectors (a linker symbol) and the two flush flags. *)
Context (vecbase : Z) (pro_flush_done app_flush_done : nat -> bool).

Definition init_dport (fuel : nat) : M dport unit :=
  modify (fun d => Dport (0, 0) (0, 0) 0 (intr_from_cpu d) (pro_int_map d) (app_int_map d)
    (vecbase_set d) (vecbase_ctrl d) (m_free_peripheral_interrupt d));;
  modify (fun d => put_cache ((cache_ctrl d).1 .| CACHE_FLUSH_ENA, (cache_ctrl d).2) d);;
  modify (fun d => put_cache ((cache_ctrl d).1, (cache_ctrl d).2 .| CACHE_FLUSH_ENA) d);;
  wait_flag pro_flush_done 0 fuel;;
  wait_flag app_flush_done 0 fuel;;
  modify (fun d => put_cache ((cache_ctrl d).1 .| CACHE_ENABLE, (cache_ctrl d).2) d);;
  modify (fun d => put_cache ((cache_ctrl d).1, (cache_ctrl d).2 .| CACHE_ENABLE) d);;
  mfor (seq 0 (Z.to_nat INTERRUPT_SOURCE_MAX)) (fun i =>
    modify (fun d => put_matrix (intr_from_cpu d) (<[i := 16]> (pro_int_map d))
      (<[i := 16]> (app_int_map d)) d));;
  mfor (seq 0 4) (fun i =>
    modify (fun d => put_matrix (<[i := 0]> (intr_from_cpu d)) (pro_int_map d) (app_int_map d) d));;
  ASSERT (u32 vecbase .& ((1 .<< 10) - 1) =? 0);;
  modify (fun d => put_vecbase (u32 vecbase .>> 10, (vecbase_set d).2) (vecbase_ctrl d) d);;
  modify (fun d => put_vecbase (vecbase_set d) ((vecbase_ctrl d).1 .| 3, (vecbase_ctrl d).2) d);;
  modify (fun d => put_vecbase ((vecbase_set d).1, u32 vecbase .>> 10) (vecbase_ctrl d) d);;
  modify (fun d => put_vecbase (vecbase_set d) ((vecbase_ctrl d).1, (vecbase_ctrl d).2 .| 3) d).
End Init.

(** ** dport_map_interrupt *)

(** The lines of the requested kind among the free ones. *)
Definition class_mask (edge_triggered : bool) (free : Z) : Z :=
  if edge_triggered then free .& PERIPHERALS_EDGE_TRIGGERED
  else free .& u32 (.~ PERIPHERALS_EDGE_TRIGGERED).

(** What the drivers print. The console is another part of the state: a client that has one
    says how a message gets there (Boot.v). *)
Inductive driver_message :=
  | Mapping (source free : Z)
  | CheckFailed (error : err) (line : Z)
  | Rethrown (line : Z).

Section Map.
Context {S : Type} (on_dport : forall A, M dport A -> M S A) (say : driver_message -> M S unit).
Arguments on_dport {A}.

Definition dport_check_failed (error : err) (line : Z) : M S err :=
  say (CheckFailed error line);; mret error.

Definition dport_map_interrupt_on (source : Z) (edge_triggered : bool) : M S err :=
  if negb (0 <=? source) then dport_check_failed ERROR_CHECK_FAILED 158
  else if negb (source <=? 68) then dport_check_failed ERROR_CHECK_FAILED 159
  else
    d ← on_dport get;
    let free_peripheral_interrupt := class_mask edge_triggered (m_free_peripheral_interrupt d) in
    if free_peripheral_interrupt =? 0 then dport_check_failed ERROR_OUT_OF_RESOURCES 168
    else
      let free := ffs free_peripheral_interrupt - 1 in
      let mask := u32 (m_free_peripheral_interrupt d .& .~ (1 .<< free)) in
      on_dport (modify (put_int_map (pro_int_map d) mask));;
      say (Mapping source free);;
      _ ← on_dport (deref (pro_int_map d !! Z.to_nat source));
      on_dport (modify (fun d => put_int_map (<[Z.to_nat source := free]> (pro_int_map d)) mask d));;
      mret NO_ERROR.
End Map.

(** What it does to the DPORT alone. *)
Definition quietly {S} : driver_message -> M S unit := fun _ => mret tt.
Definition dport_map_interrupt : Z -> bool -> M dport err := dport_map_interrupt_on (fun _ m => m) quietly.

(** ** dport_log_interrupt: the sources it reports, in order

    [status] is DPORT_PRO_INTR_STATUS; the code prints one line per source found. *)
Definition dport_log_interrupt (status : list Z) : option (list Z) :=
  foldr (fun i acc =>
    w ← status !! Z.to_nat (i / 32);
    l ← acc;
    Some (if negb (w .& (1 .<< (i mod 32)) =? 0) then i :: l else l))
    (Some []) (seqZ 0 INTERRUPT_SOURCE_MAX).

(** ** Lines of a kind *)
Definition is_edge (line : Z) : bool := Z.testbit PERIPHERALS_EDGE_TRIGGERED line.

Lemma class_mask_testbit e free i :
  0 <= i < 32 -> Z.testbit (class_mask e free) i = Z.testbit free i && eqb (is_edge i) e.
Proof.
  intros Hi. unfold class_mask, is_edge. destruct e; rewrite Z.land_spec.
  - by destruct (Z.testbit PERIPHERALS_EDGE_TRIGGERED i).
  - rewrite wrapu_testbit, Z.lnot_spec by lia. rewrite (proj2 (Z.ltb_lt i 32)) by lia. simpl.
    by destruct (Z.testbit PERIPHERALS_EDGE_TRIGGERED i).
Qed.

Lemma land_range w x y : 0 <= w -> 0 <= x < 2 ^ w -> 0 <= x .& y < 2 ^ w.
Proof.
  intros Hw Hx. apply range_of_testbit; [done|]. intros i Hi.
  rewrite Z.land_spec, (testbit_of_range w x) by done. done.
Qed.

Lemma class_mask_range e free : 0 <= free < 2 ^ 32 -> 0 <= class_mask e free < 2 ^ 32.
Proof. intros Hf. unfold class_mask. destruct e; by apply land_range. Qed.

(** ** The allocator of interrupt lines *)

(** The mask fits its type and names only lines that were free at boot; the map has an
    entry per source. *)
Definition dport_wf (d : dport) : Prop :=
  0 <= m_free_peripheral_interrupt d < 2 ^ 32 /\ length (pro_int_map d) = 69%nat.

(** Every allocation a caller has obtained, most recent first: source and line. *)
Inductive int_step : list (Z * Z) * dport -> list (Z * Z) * dport -> Prop :=
  | int_step_ok h d source e d' line :
      dport_map_interrupt source e d = Ok NO_ERROR d' ->
      pro_int_map d' !! Z.to_nat source = Some line ->
      int_step (h, d) ((source, line) :: h, d')
  | int_step_err h d source e d' r :
      dport_map_interrupt source e d = Ok r d' -> r <> NO_ERROR -> int_step (h, d) (h, d').

Lemma map_interrupt_invalid source e d :
  ~ 0 <= source < INTERRUPT_SOURCE_MAX ->
  dport_map_interrupt source e d = Ok ERROR_CHECK_FAILED d.
Proof.
  unfold dport_map_interrupt, dport_map_interrupt_on, INTERRUPT_SOURCE_MAX. intros Hs.
  destruct (Z.leb_spec 0 source); [|done]. simpl.
  destruct (Z.leb_spec source 68); [lia|done].
Qed.

Section Valid.
Context (source : Z) (e : bool) (d : dport).
Hypothesis (Hd : dport_wf d) (Hs : 0 <= source < INTERRUPT_SOURCE_MAX).

Lemma map_interrupt_valid :
  dport_map_interrupt source e d =
    (let free_peripheral_interrupt := class_mask e (m_free_peripheral_interrupt d) in
     if free_peripheral_interrupt =? 0 then Ok ERROR_OUT_OF_RESOURCES d
     else
       let free := ffs free_peripheral_interrupt - 1 in
       Ok NO_ERROR (put_int_map (<[Z.to_nat source := free]> (pro_int_map d))
         (u32 (m_free_peripheral_interrupt d .& .~ (1 .<< free))) d)).
Proof using Hd Hs.
  destruct Hd as [Hm Hl]. unfold dport_map_interrupt, dport_map_interrupt_on, INTERRUPT_SOURCE_MAX in *.
  rewrite (proj2 (Z.leb_le _ _)), (proj2 (Z.leb_le source _)) by lia. simpl.
  mrun. destruct (_ =? 0); [done|].
  destruct (lookup_lt_is_Some_2 (pro_int_map d) (Z.to_nat source)) as [old Hold]; [lia|].
  mrun. mrun. rewrite Hold. mrun. mrun. reflexivity.
Qed.

Lemma map_interrupt_exhausted :
  (forall i, 0 <= i < 32 -> is_edge i = e -> Z.testbit (m_free_peripheral_interrupt d) i = false) ->
  dport_map_interrupt source e d = Ok ERROR_OUT_OF_RESOURCES d.
Proof using Hd Hs.
  intros Hno. rewrite map_interrupt_valid. cbv zeta.
  destruct (Z.eqb_spec (class_mask e (m_free_peripheral_interrupt d)) 0) as [|Hnz]; [done|].
  destruct (nonzero_testbit 32 _ (class_mask_range e _ (proj1 Hd)) Hnz) as (i & Hi & Hb).
  rewrite class_mask_testbit in Hb by done. apply andb_prop in Hb as [Hb He%eqb_prop].
  by rewrite (Hno i Hi He) in Hb.
Qed.

(** A successful call: the line is the lowest free one of the kind and leaves the mask. *)
Definition granted (line mask : Z) : Prop :=
  dport_map_interrupt source e d =
    Ok NO_ERROR (put_int_map (<[Z.to_nat source := line]> (pro_int_map d)) mask d) /\
  0 <= line < 32 /\ is_edge line = e /\
  Z.testbit (m_free_peripheral_interrupt d) line = true /\
  0 <= mask < 2 ^ 32 /\
  forall j, 0 <= j -> Z.testbit mask j =
    Z.testbit (m_free_peripheral_interrupt d) j && negb (line =? j).

Lemma map_interrupt_found i :
  0 <= i < 32 -> is_edge i = e -> Z.testbit (m_free_peripheral_interrupt d) i = true ->
  exists line mask, granted line mask /\ line <= i.
Proof using Hd Hs.
  intros Hi He Hb. pose proof (class_mask_range e _ (proj1 Hd)) as Hc.
  assert (Z.testbit (class_mask e (m_free_peripheral_interrupt d)) i = true) as Hbit.
  { rewrite class_mask_testbit, Hb, He by done. by destruct e. }
  assert (class_mask e (m_free_peripheral_interrupt d) <> 0) as Hnz.
  { intros E. by rewrite E, Z.bits_0 in Hbit. }
  destruct (ffs_spec 32 _ ltac:(lia) Hc Hnz) as (Hr & Ht & Hlow).
  unfold granted. rewrite map_interrupt_valid. cbv zeta. rewrite (proj2 (Z.eqb_neq _ _)) by done.
  set (line := ffs (class_mask e (m_free_peripheral_interrupt d)) - 1) in *.
  rewrite class_mask_testbit in Ht by lia. apply andb_prop in Ht as [Ht Hte%eqb_prop].
  exists line, (u32 (m_free_peripheral_interrupt d .& .~ (1 .<< line))).
  split_and!; try done; try lia; [|..|].
  - by apply wrapu_range.
  - by apply wrapu_range.
  - intros j Hj. rewrite wrapu_testbit, testbit_clear by lia.
    destruct (Z.ltb_spec j 32); [done|].
    by rewrite (testbit_of_range 32 _ j (proj1 Hd)) by lia.
  - destruct (Z.leb_spec line i); [lia|]. rewrite Hlow in Hbit by lia. done.
Qed.
End Valid.

(** Quietly in a larger state it is that, on its part. *)
Lemma map_interrupt_zoom {S} `{Lens S dport} source e (s : S) :
  dport_map_interrupt_on (fun A => zoom) quietly source e s = zoom (dport_map_interrupt source e) s.
Proof.
  unfold dport_map_interrupt, dport_map_interrupt_on, dport_check_failed, quietly, zoom. unfold_monad.
  repeat (case_match; simplify_eq; cbn in *; rewrite ?view_update, ?update_update, ?update_view; try done).
Qed.

(** dport_map_interrupt, on every branch. A source out of range is refused; when no
    line of the kind is left the caller is told; otherwise the lowest free line of the kind
    is taken out of the mask and the source is routed to it on the PRO CPU. Nothing else
    changes. *)
Theorem dport_map_interrupt_spec source e d :
  dport_wf d ->
  (~ 0 <= source < INTERRUPT_SOURCE_MAX ->
     dport_map_interrupt source e d = Ok ERROR_CHECK_FAILED d) /\
  (0 <= source < INTERRUPT_SOURCE_MAX ->
     (forall i, 0 <= i < 32 -> is_edge i = e -> Z.testbit (m_free_peripheral_interrupt d) i = false) ->
     dport_map_interrupt source e d = Ok ERROR_OUT_OF_RESOURCES d) /\
  (0 <= source < INTERRUPT_SOURCE_MAX -> forall i, 0 <= i < 32 -> is_edge i = e ->
     Z.testbit (m_free_peripheral_interrupt d) i = true ->
     exists line mask, granted source e d line mask /\ line <= i).
Proof.
  intros Hd. split_and!.
  - apply map_interrupt_invalid.
  - intros Hs. by apply map_interrupt_exhausted.
  - intros Hs i. by apply map_interrupt_found.
Qed.

Lemma dport_map_interrupt_cases source e d :
  dport_wf d ->
  (exists r, dport_map_interrupt source e d = Ok r d /\ r <> NO_ERROR) \/
  (0 <= source < INTERRUPT_SOURCE_MAX /\ exists line mask, granted source e d line mask).
Proof.
  intros Hd.
  destruct (decide (0 <= source < INTERRUPT_SOURCE_MAX)) as [Hs|Hs];
    [|left; exists ERROR_CHECK_FAILED; split; [by apply map_interrupt_invalid|done]].
  destruct (decide (Exists (fun i => is_edge i = e /\
    Z.testbit (m_free_peripheral_interrupt d) i = true) (seqZ 0 32))) as [Hex|Hno].
  - apply Exists_exists in Hex as (i & Hi%elem_of_seqZ & He & Hb).
    destruct (map_interrupt_found source e d Hd Hs i ltac:(lia) He Hb) as (line & mask & ? & _).
    eauto.
  - left. exists ERROR_OUT_OF_RESOURCES. split; [|done].
    apply (map_interrupt_exhausted source e d Hd Hs).
    intros i Hi He. destruct (Z.testbit _ i) eqn:Hb; [|done]. exfalso. apply Hno.
    apply Exists_exists. exists i. split; [apply elem_of_seqZ; lia|done].
Qed.

(** The DPORT as init_dport leaves the interrupt matrix. *)
Definition dport_booted (d : dport) : Prop :=
  m_free_peripheral_interrupt d = free_peripheral_interrupt_init /\
  pro_int_map d = replicate 69 16.

(** What holds of the lines handed out so far. *)
Definition lines_inv (hd : list (Z * Z) * dport) : Prop :=
  let (h, d) := hd in
  dport_wf d /\ NoDup h.*2 /\
  (forall line, line ∈ h.*2 -> 0 <= line < 32 /\
     Z.testbit free_peripheral_interrupt_init line = true /\
     Z.testbit (m_free_peripheral_interrupt d) line = false) /\
  (forall j, 0 <= j -> Z.testbit (m_free_peripheral_interrupt d) j = true ->
     Z.testbit free_peripheral_interrupt_init j = true) /\
  (forall s line, pro_int_map d !! s = Some line -> line = 16 \/ (Z.of_nat s, line) ∈ h).

Lemma lines_inv_init d : dport_booted d -> lines_inv ([], d).
Proof.
  intros [Hm Hp]. unfold lines_inv, dport_wf. rewrite Hm, Hp. split_and!; try done.
  - constructor.
  - intros line Hl. by apply not_elem_of_nil in Hl.
  - intros s line [-> _]%lookup_replicate. by left.
Qed.

Lemma lines_inv_step hd hd' : int_step hd hd' -> lines_inv hd -> lines_inv hd'.
Proof.
  intros Hstep. destruct Hstep as [h d source e d' line Hok Hline|h d source e d' r Hr Hne].
  - intros (Hd & Hnd & Hin & Hsub & Hmap).
    destruct (dport_map_interrupt_cases source e d Hd) as [(r & Hr & Hrn)|(Hs & line' & mask & Hg)];
      [congruence|].
    destruct Hg as (Hg & Hl & He & Hb & Hmr & Hmb). rewrite Hg in Hok. injection Hok as <-.
    unfold INTERRUPT_SOURCE_MAX in Hs. destruct Hd as [Hdm Hdl].
    cbn in Hline |- *. rewrite list_lookup_insert_eq in Hline by lia. injection Hline as ->.
    split; [split; [done|cbn; by rewrite length_insert]|]. split_and!.
    + constructor; [|done]. intros Hold%Hin. destruct Hold as (_ & _ & Hf). congruence.
    + intros l [->|Hl']%elem_of_cons.
      * split; [done|]. split; [apply Hsub; [lia|done]|].
        rewrite Hmb, Hb by lia. by rewrite Z.eqb_refl.
      * destruct (Hin l Hl') as (? & ? & Hf). split; [done|]. split; [done|].
        by rewrite Hmb, Hf by lia.
    + intros j Hj Hjb. rewrite Hmb in Hjb by done. apply andb_prop in Hjb as [Hjb _].
      by apply Hsub.
    + intros s l. rewrite lookup_insert_decide by lia. case_decide as Hsd.
      * intros [= <-]. right. rewrite <- Hsd, Z2Nat.id by lia. constructor.
      * intros Hsl. destruct (Hmap s l Hsl) as [->|?]; [by left|right]. by constructor.
  - intros Hinv. destruct Hinv as (Hd & Hinv).
    destruct (dport_map_interrupt_cases source e d Hd) as [(r' & Hr' & _)|(_ & line & mask & Hg)].
    + rewrite Hr' in Hr. injection Hr as -> ->. by split.
    + destruct Hg as [Hg _]. rewrite Hg in Hr. injection Hr as <-. done.
Qed.

(** The lines the kernel owns. *)
Definition kernel_lines : list Z := [0; 1; 2; 3; 4; 5; 8; 9; 10; 12; 13; 17; 18].

Lemma kernel_lines_spec line :
  0 <= line < 32 -> Z.testbit free_peripheral_interrupt_init line = true -> line ∈ kernel_lines.
Proof.
  intros Hl Hb.
  assert (Forall (fun i => Z.testbit free_peripheral_interrupt_init i = true -> i ∈ kernel_lines)
    (seqZ 0 32)) as Hall.
  { apply (bool_decide_unpack _). vm_compute. exact I. }
  rewrite Forall_forall in Hall. apply Hall; [apply elem_of_seqZ; lia|done].
Qed.

(** C26: From boot, whatever sequence of requests is made, the CPU interrupt lines handed
    out are pairwise distinct and all among the thirteen level-1 lines the kernel owns (so
    at most thirteen requests succeed, and of the lines only line 10 is edge triggered),
    and two sources of the interrupt matrix are never routed to the same line, the
    unusable internal line 16 apart. *)
Theorem interrupt_lines_exclusive d h d' :
  dport_booted d -> rtc int_step ([], d) (h, d') ->
  NoDup h.*2 /\ Forall (fun line => line ∈ kernel_lines) h.*2 /\ (length h <= 13)%nat /\
  (forall line, line ∈ h.*2 -> is_edge line = true -> line = 10) /\
  (forall s s' line, pro_int_map d' !! s = Some line -> pro_int_map d' !! s' = Some line ->
     line <> 16 -> s = s').
Proof.
  intros Hb Hrtc.
  assert (lines_inv (h, d')) as (_ & Hnd & Hin & _ & Hmap).
  { apply (rtc_invariant int_step lines_inv _ _ lines_inv_step Hrtc). by apply lines_inv_init. }
  assert (Forall (fun line => line ∈ kernel_lines) h.*2) as Hall.
  { apply Forall_forall. intros line Hl. destruct (Hin line Hl) as (? & ? & _).
    by apply kernel_lines_spec. }
  split_and!; try done.
  - rewrite <- (length_fmap snd). apply (submseteq_length _ kernel_lines).
    apply NoDup_submseteq; [done|]. by apply Forall_forall.
  - intros line Hl He. rewrite Forall_forall in Hall. specialize (Hall line Hl).
    unfold kernel_lines in Hall. rewrite !elem_of_cons, elem_of_nil in Hall.
    destruct_or! Hall; subst; done.
  - intros s s' line Hs Hs' Hne.
    destruct (Hmap s line Hs) as [|H1]; [done|]. destruct (Hmap s' line Hs') as [|H2]; [done|].
    apply list_elem_of_lookup in H1 as [i Hi], H2 as [j Hj].
    assert (i = j) as -> by (eapply (NoDup_lookup h.*2); [done| |]; rewrite list_lookup_fmap, ?Hi, ?Hj; done).
    rewrite Hi in Hj. injection Hj. lia.
Qed.

(** A DPORT as it is when the kernel starts, its matrix initialised. *)
Definition ex_dport : dport :=
  Dport (0, 0) (0, 0) 0 (replicate 4 0) (replicate 69 16) (replicate 69 16) (0, 0) (0, 0)
    free_peripheral_interrupt_init.

(** The first level request gets line 0, an edge request line 10, and a second edge
    request is refused. *)
Lemma dport_map_interrupt_spec_witness :
  (exists line mask, granted 16 false ex_dport line mask /\ line <= 0) /\
  (exists line mask, granted 22 true ex_dport line mask /\ line <= 10) /\
  dport_map_interrupt 69 false ex_dport = Ok ERROR_CHECK_FAILED ex_dport.
Proof.
  assert (dport_wf ex_dport) as Hd by (split; [vm_compute; split; [discriminate|reflexivity]|reflexivity]).
  split_and!.
  - apply (dport_map_interrupt_spec 16 false ex_dport Hd); [unfold INTERRUPT_SOURCE_MAX; lia|lia|done..].
  - apply (dport_map_interrupt_spec 22 true ex_dport Hd); [unfold INTERRUPT_SOURCE_MAX; lia|lia|done..].
  - apply (dport_map_interrupt_spec 69 false ex_dport Hd). unfold INTERRUPT_SOURCE_MAX. lia.
Defined.

Definition ex_dport_1 : dport :=
  put_int_map (<[16%nat := 0]> (pro_int_map ex_dport)) 0x6373e ex_dport.

Lemma interrupt_lines_exclusive_witness :
  rtc int_step ([], ex_dport) ([(16, 0)], ex_dport_1) /\
  NoDup [(16, 0)].*2 /\ (length [(16, 0)] <= 13)%nat.
Proof.
  assert (rtc int_step ([], ex_dport) ([(16, 0)], ex_dport_1)) as Hr.
  { apply rtc_once. apply (int_step_ok [] ex_dport 16 false); reflexivity. }
  pose proof (interrupt_lines_exclusive ex_dport [(16, 0)] ex_dport_1
    ltac:(by split) Hr) as (H1 & _ & H2 & _).
  split; [exact Hr|]. by split.
Defined.

(** ** init_dport *)

Lemma mfor_modify {S A} (l : list A) (f : A -> S -> S) (s : S) :
  mfor l (fun i => modify (f i)) s = Ok tt (foldl (fun s i => f i s) s l).
Proof. revert s. induction l as [|x l IH]; intros s; simpl; [done|]. mrun. apply IH. Qed.

Lemma wait_flag_ends flag i n fuel d :
  flag (i + n)%nat = true -> (n < fuel)%nat -> wait_flag flag i fuel d = Ok tt d.
Proof.
  revert i n. induction fuel as [|fuel IH]; intros i n Hf Hn; [lia|]. simpl.
  destruct (flag i) eqn:E; [done|].
  destruct n as [|n]; [rewrite Nat.add_0_r in Hf; congruence|].
  apply (IH (Datatypes.S i) n); [by rewrite Nat.add_succ_comm|lia].
Qed.

Lemma wait_flag_spins flag i fuel d :
  (forall n, flag n = false) -> wait_flag flag i fuel d = Stop Spin d.
Proof. intros Hf. revert i. induction fuel as [|fuel IH]; intros i; simpl; [done|]. by rewrite Hf. Qed.

(** The matrix after both loops, whatever it held. *)
Lemma matrix_reset d :
  length (pro_int_map d) = 69%nat -> length (app_int_map d) = 69%nat ->
  length (intr_from_cpu d) = 4%nat ->
  foldl (fun d i => put_matrix (<[i := 0]> (intr_from_cpu d)) (pro_int_map d) (app_int_map d) d)
    (foldl (fun d i => put_matrix (intr_from_cpu d) (<[i := 16]> (pro_int_map d))
      (<[i := 16]> (app_int_map d)) d) d (seq 0 69)) (seq 0 4) =
  put_matrix (replicate 4 0) (replicate 69 16) (replicate 69 16) d.
Proof.
  assert (forall k d0,
    foldl (fun d i => put_matrix (intr_from_cpu d) (<[i := 16]> (pro_int_map d))
      (<[i := 16]> (app_int_map d)) d) d0 (seq 0 k) =
    put_matrix (intr_from_cpu d0) (foldl (fun m i => <[i := 16]> m) (pro_int_map d0) (seq 0 k))
      (foldl (fun m i => <[i := 16]> m) (app_int_map d0) (seq 0 k)) d0) as H1.
  { induction k as [|k IH]; intros d0; [by destruct d0|].
    rewrite seq_S, !foldl_app, IH. done. }
  assert (forall k d0,
    foldl (fun d i => put_matrix (<[i := 0]> (intr_from_cpu d)) (pro_int_map d) (app_int_map d) d)
      d0 (seq 0 k) =
    put_matrix (foldl (fun m i => <[i := 0]> m) (intr_from_cpu d0) (seq 0 k))
      (pro_int_map d0) (app_int_map d0) d0) as H2.
  { induction k as [|k IH]; intros d0; [by destruct d0|].
    rewrite seq_S, !foldl_app, IH. done. }
  assert (forall (x : Z) k m, (k <= length m)%nat ->
    foldl (fun m i => <[i := x]> m) m (seq 0 k) = replicate k x ++ drop k m) as H3.
  { intros x. induction k as [|k IH]; intros m Hk; [done|].
    rewrite seq_S, foldl_app, IH by lia. simpl.
    destruct (lookup_lt_is_Some_2 m k) as [y Hy]; [lia|].
    rewrite (drop_S m y k Hy).
    pose proof (insert_middle (replicate k x) (drop (Datatypes.S k) m) y x) as E.
    rewrite length_replicate in E. rewrite E.
    rewrite (cons_middle x), app_assoc, <- replicate_S_end. done. }
  intros Hp Ha Hf. rewrite H1, H2. cbn [put_matrix intr_from_cpu pro_int_map app_int_map].
  rewrite !H3 by lia.
  rewrite (drop_ge (pro_int_map d)), (drop_ge (app_int_map d)), (drop_ge (intr_from_cpu d)) by lia.
  rewrite !app_nil_r. done.
Qed.

(** init_dport. When the hardware raises both flush flags it resets the matrix: every
    source of both CPUs on the unusable line 16, no cross-core interrupt; both caches are
    enabled, and the vector base of both CPUs is set to the kernel's vectors and locked. A
    vector base that is not aligned to 1 KiB fails the assertion before it is programmed,
    and when a flush flag is never raised the kernel waits for ever. *)
Theorem init_dport_spec vecbase pro app d fuel :
  length (pro_int_map d) = 69%nat -> length (app_int_map d) = 69%nat ->
  length (intr_from_cpu d) = 4%nat ->
  let cache := CACHE_FLUSH_ENA .| CACHE_ENABLE in
  let base := u32 vecbase .>> 10 in
  let ready n := (n < fuel)%nat /\ pro n = true /\ exists m, (m < fuel)%nat /\ app m = true in
  (forall n, ready n -> vecbase mod 2 ^ 10 = 0 ->
     init_dport vecbase pro app fuel d =
       Ok tt (Dport (0, 0) (cache, cache) 0 (replicate 4 0) (replicate 69 16) (replicate 69 16)
         (base, base) ((vecbase_ctrl d).1 .| 3, (vecbase_ctrl d).2 .| 3)
         (m_free_peripheral_interrupt d))) /\
  (forall n, ready n -> vecbase mod 2 ^ 10 <> 0 ->
     exists d', init_dport vecbase pro app fuel d = Stop AssertFailed d' /\
       vecbase_set d' = vecbase_set d) /\
  ((forall n, pro n = false) ->
     exists d', init_dport vecbase pro app fuel d = Stop Spin d').
Proof.
  intros Hp Ha Hf cache base ready.
  assert (u32 vecbase .& ((1 .<< 10) - 1) = vecbase mod 2 ^ 10) as Halign.
  { change ((1 .<< 10) - 1) with (Z.ones 10). rewrite Z.land_ones by lia.
    unfold wrapu. rewrite <- Znumtheory.Zmod_div_mod; [done|lia|lia|].
    exists (2 ^ 22). reflexivity. }
  split_and!.
  - intros n (Hn & Hpn & m & Hm & Ham) Hz. unfold init_dport. mrun. mrun. mrun.
    mrun wait_flag_ends; [apply Hpn|done|]. mrun wait_flag_ends; [apply Ham|done|].
    mrun. mrun. mrun mfor_modify. mrun mfor_modify.
    change (Z.to_nat INTERRUPT_SOURCE_MAX) with 69%nat. rewrite matrix_reset by done.
    rewrite Halign, Hz. mrun. mrun. mrun. mrun. reflexivity.
  - intros n (Hn & Hpn & m & Hm & Ham) Hz. eexists. split.
    + unfold init_dport. mrun. mrun. mrun.
      mrun wait_flag_ends; [apply Hpn|done|]. mrun wait_flag_ends; [apply Ham|done|].
      mrun. mrun. mrun mfor_modify. mrun mfor_modify.
      change (Z.to_nat INTERRUPT_SOURCE_MAX) with 69%nat. rewrite matrix_reset by done.
      rewrite Halign, (proj2 (Z.eqb_neq _ _) Hz). apply bind_stop. reflexivity.
    + done.
  - intros Hno. eexists. unfold init_dport. mrun. mrun. mrun.
    apply bind_stop. by apply wait_flag_spins.
Qed.

Lemma init_dport_spec_witness :
  init_dport 0x40080400 (fun n => bool_decide (n = 2)%nat) (fun n => true) 3 ex_dport =
    Ok tt (Dport (0, 0) (0x18, 0x18) 0 (replicate 4 0) (replicate 69 16) (replicate 69 16)
      (0x100201, 0x100201) (3, 3) free_peripheral_interrupt_init).
Proof.
  destruct (init_dport_spec 0x40080400 (fun n => bool_decide (n = 2)%nat) (fun n => true)
    ex_dport 3 eq_refl eq_refl eq_refl) as [H _].
  apply (H 2%nat); [|reflexivity]. split; [lia|]. split; [reflexivity|]. exists 0%nat. split; [lia|done].
Defined.
