(* ===== verification/Timg.v ===== *)
(** * The watchdog timer (kernel/src/drivers/timg.c)

    The kernel uses the watchdog of timer group 0 as its time slice: stage 0 raises an
    interrupt, stage 1 resets the system. The routines are modelled on the memory-mapped
    registers, with the log of the writes they make: the watchdog's own registers may only
    be written between an unlock and a lock of the write protection. *)
From Stdlib Require Import ZArith Lia.
From stdpp Require Import base tactics numbers list gmap.
From S2P Require Import Prelude Dport.

(** ** Registers *)
Inductive timg_reg : Set :=
  | TIMG0_WDTCONFIG
  | TIMG0_WDTCONFIG1
  | TIMG0_WDTCONFIG2
  | TIMG0_WDTCONFIG3
  | TIMG0_WDTFEED
  | TIMG0_WDTWPROTECT
  | TIMG0_INT_ENA
  | TIMG0_INT_ST
  | TIMG0_INT_CLR.

#[export] Instance timg_reg_eq_dec : EqDecision timg_reg.
Proof. solve_decision. Defined.

(** What each register holds, and the writes made, most recent last. *)
Record timg := Timg {
  reg : timg_reg -> Z;
  mmio_log : list (timg_reg * Z);
}.

Definition read_reg (r : timg_reg) : M timg Z := gets (fun t => reg t r).
Definition write_reg (r : timg_reg) (v : Z) : M timg unit :=
  modify (fun t => Timg (fun r' => if decide (r' = r) then u32 v else reg t r')
    (mmio_log t ++ [(r, u32 v)])).

(** Assigning the field of [w] bits at bit [lo] of a register: read, replace, write. *)
Definition field_set (lo w v old : Z) : Z :=
  old .& .~ (Z.ones w .<< lo) .| (v .& Z.ones w) .<< lo.
Definition write_field (r : timg_reg) (lo w v : Z) : M timg unit :=
  old ← read_reg r; write_reg r (field_set lo w v old).
Definition get_field (lo w x : Z) : Z := (x .>> lo) .& Z.ones w.

(** TIMG_WDTCONFIG_REG: position and width of the fields the code uses. *)
Definition WDTCONFIG_level_int_en : Z * Z := (21, 1).
Definition WDTCONFIG_stg1 : Z * Z := (27, 2).
Definition WDTCONFIG_stg0 : Z * Z := (29, 2).
Definition WDTCONFIG_en : Z * Z := (31, 1).
(** TIMG_INT_REG *)
Definition INT_wdt_int : Z * Z := (2, 1).

(** ** Operations *)
Definition wdt_unlock : M timg unit := write_reg TIMG0_WDTWPROTECT 0x050D83AA1.
Definition wdt_lock : M timg unit := write_reg TIMG0_WDTWPROTECT 0xDEADBEEF.

(** [{ .level_int_en = 1, .stg0 = 1, .stg1 = 3 }] *)
Definition wdtconfig : Z :=
  field_set WDTCONFIG_stg1.1 WDTCONFIG_stg1.2 3
    (field_set WDTCONFIG_stg0.1 WDTCONFIG_stg0.2 1
      (field_set WDTCONFIG_level_int_en.1 WDTCONFIG_level_int_en.2 1 0)).

(** [init_wdt] after the interrupt has been mapped. *)
Definition wdt_configure : M timg unit :=
  wdt_unlock;;
  write_reg TIMG0_WDTCONFIG wdtconfig;;
  write_reg TIMG0_WDTCONFIG1 (40000 .<< 16);;
  write_reg TIMG0_WDTCONFIG2 10;;
  write_reg TIMG0_WDTCONFIG3 10;;
  write_field TIMG0_WDTCONFIG WDTCONFIG_en.1 WDTCONFIG_en.2 1;;
  wdt_lock;;
  write_field TIMG0_INT_ENA INT_wdt_int.1 INT_wdt_int.2 1;;
  write_field TIMG0_INT_CLR INT_wdt_int.1 INT_wdt_int.2 1.

Definition TG_WDT_LEVEL_INT : Z := 16.

Definition init_wdt {S} `{Lens S dport} `{Lens S timg} (say : driver_message -> M S unit) : M S err :=
  err ← dport_map_interrupt_on (fun A => zoom) say TG_WDT_LEVEL_INT false;
  if IS_ERROR err then say (Rethrown 106);; mret err
  else
    zoom wdt_configure;;
    mret NO_ERROR.

Definition wdt_enable : M timg unit :=
  wdt_unlock;;
  write_field TIMG0_WDTCONFIG WDTCONFIG_en.1 WDTCONFIG_en.2 1;;
  wdt_lock.

Definition wdt_disable : M timg unit :=
  wdt_unlock;;
  write_field TIMG0_WDTCONFIG WDTCONFIG_en.1 WDTCONFIG_en.2 0;;
  wdt_lock.

Definition wdt_feed : M timg unit :=
  wdt_unlock;;
  write_reg TIMG0_WDTFEED 1;;
  wdt_lock.

Definition wdt_handle : M timg bool :=
  st ← read_reg TIMG0_INT_ST;
  if get_field INT_wdt_int.1 INT_wdt_int.2 st =? 0 then mret false
  else
    wdt_feed;;
    write_field TIMG0_INT_CLR INT_wdt_int.1 INT_wdt_int.2 1;;
    mret true.

(** ** The write-protection protocol *)
Definition protected (r : timg_reg) : bool :=
  match r with
  | TIMG0_WDTCONFIG | TIMG0_WDTCONFIG1 | TIMG0_WDTCONFIG2 | TIMG0_WDTCONFIG3 | TIMG0_WDTFEED => true
  | _ => false
  end.

Definition WDT_KEY : Z := 0x050D83AA1.

(** [protocol locked log]: run over the writes; [Some locked'] when no protected register is
    written while locked. *)
Fixpoint protocol (locked : bool) (log : list (timg_reg * Z)) : option bool :=
  match log with
  | [] => Some locked
  | (r, v) :: log' =>
      if decide (r = TIMG0_WDTWPROTECT) then protocol (negb (v =? WDT_KEY)) log'
      else if protected r && locked then None
      else protocol locked log'
  end.

Lemma protocol_app locked l1 l2 :
  protocol locked (l1 ++ l2) = protocol locked l1 ≫= (fun b => protocol b l2).
Proof.
  revert locked. induction l1 as [|[r v] l1 IH]; intros locked; simpl; [done|].
  case_decide; [apply IH|]. destruct (protected r && locked); [done|apply IH].
Qed.

(** ** Fields *)
Lemma field_set_testbit lo w v old i :
  0 <= lo -> 0 <= w -> 0 <= i ->
  Z.testbit (field_set lo w v old) i =
    if (lo <=? i) && (i <? lo + w) then Z.testbit v (i - lo) else Z.testbit old i.
Proof.
  intros Hlo Hw Hi. unfold field_set.
  rewrite Z.lor_spec, Z.land_spec, Z.lnot_spec, !Z.shiftl_spec, Z.land_spec by lia.
  destruct (Z.leb_spec lo i); simpl.
  - rewrite Z.testbit_ones_nonneg by lia.
    destruct (Z.ltb_spec (i - lo) w), (Z.ltb_spec i (lo + w)); try lia; simpl;
      rewrite ?andb_true_r, ?andb_false_r, ?orb_false_r; done.
  - rewrite !(Z.testbit_neg_r _ (i - lo)) by lia.
    by rewrite andb_true_r, orb_false_r.
Qed.

(** Reading a field after writing it or another one. *)
Lemma get_field_testbit lo w x i :
  0 <= lo -> 0 <= w -> 0 <= i -> Z.testbit (get_field lo w x) i = (i <? w) && Z.testbit x (i + lo).
Proof.
  intros Hlo Hw Hi. unfold get_field. rewrite Z.land_spec, Z.shiftr_spec, Z.testbit_ones_nonneg by lia.
  apply andb_comm.
Qed.

Lemma get_field_same lo w v old :
  0 <= lo -> 0 <= w -> get_field lo w (field_set lo w v old) = v .& Z.ones w.
Proof.
  intros Hlo Hw. apply Z.bits_inj'. intros i Hi.
  rewrite get_field_testbit, field_set_testbit, Z.land_spec, Z.testbit_ones_nonneg by lia.
  destruct (Z.ltb_spec i w); [|by rewrite andb_false_r].
  rewrite (proj2 (Z.leb_le lo (i + lo))), (proj2 (Z.ltb_lt (i + lo) (lo + w))) by lia.
  cbn [andb]. replace (i + lo - lo) with i by lia. by rewrite andb_true_r.
Qed.

Lemma get_field_other lo w lo' w' v old :
  0 <= lo -> 0 <= w -> 0 <= lo' -> 0 <= w' -> lo + w <= lo' \/ lo' + w' <= lo ->
  get_field lo w (field_set lo' w' v old) = get_field lo w old.
Proof.
  intros. apply Z.bits_inj'. intros i Hi. rewrite !get_field_testbit, field_set_testbit by lia.
  destruct (Z.ltb_spec i w); [|done].
  destruct (Z.leb_spec lo' (i + lo)), (Z.ltb_spec (i + lo) (lo' + w')); try done. lia.
Qed.

(** What a register holds after a write of one of its fields. *)
Definition with_field (r : timg_reg) (f : Z * Z) (v : Z) (t : timg) : Z :=
  u32 (field_set f.1 f.2 v (reg t r)).

Lemma write_reg_ok r v t :
  write_reg r v t =
    Ok tt (Timg (fun r' => if decide (r' = r) then u32 v else reg t r') (mmio_log t ++ [(r, u32 v)])).
Proof. done. Qed.

Lemma write_field_ok r f v t :
  write_field r f.1 f.2 v t =
    Ok tt (Timg (fun r' => if decide (r' = r) then with_field r f v t else reg t r')
      (mmio_log t ++ [(r, with_field r f v t)])).
Proof. done. Qed.

(** Read a register through the writes made to the others. *)
Ltac reg_simpl :=
  cbn -[Z.testbit field_set wdtconfig get_field wrapu];
  repeat first [rewrite decide_True by done | rewrite decide_False by done].

(** ** Properties *)

(** What a call of the driver appends to the log, from any state. *)
Definition appends {A} (m : M timg A) (t : timg) (l : list (timg_reg * Z)) : Prop :=
  exists a t', m t = Ok a t' /\ mmio_log t' = mmio_log t ++ l.

(** Every routine of the watchdog driver returns, writes the protected registers of the
    watchdog only between an unlock and a lock, whatever state the protection was in, and
    (wdt_handle with no interrupt pending apart, which writes nothing) leaves them locked. *)
Theorem wdt_protocol t locked :
  (forall m, m = wdt_configure \/ m = wdt_enable \/ m = wdt_disable \/ m = wdt_feed ->
     exists l, appends m t l /\ protocol locked l = Some true) /\
  (exists l, appends wdt_handle t l /\
     (l = [] \/ protocol locked l = Some true)).
Proof.
  split.
  - intros m Hm. destruct_or! Hm; subst m; eexists; (split; [eexists _, _; split;
      [reflexivity|]; cbn [mmio_log]; by rewrite <- !(assoc_L (++))|]); reflexivity.
  - unfold appends, wdt_handle, read_reg. unfold_monad.
    destruct (_ =? 0); [exists []|].
    + split; [|by left]. eexists _, _. split; [reflexivity|]. by rewrite app_nil_r.
    + eexists. split; [|right].
      * eexists _, _. split; [reflexivity|]. cbn [mmio_log]. by rewrite <- !(assoc_L (++)).
      * reflexivity.
Qed.

(** The watchdog runs with a time slice of [ticks] ticks. *)
Definition wdt_enabled (t : timg) : bool := Z.testbit (reg t TIMG0_WDTCONFIG) 31.

Lemma en_bit v old i :
  0 <= i < 32 ->
  Z.testbit (u32 (field_set 31 1 v old)) i =
    if i =? 31 then Z.testbit v 0 else Z.testbit old i.
Proof.
  intros Hi. rewrite wrapu_testbit, field_set_testbit by (simpl; lia).
  rewrite (proj2 (Z.ltb_lt i 32)) by lia. cbn [andb].
  destruct (Z.eqb_spec i 31) as [->|]; [done|].
  destruct (Z.leb_spec 31 i); [lia|done].
Qed.

Lemma wdt_enable_on t : exists t', wdt_enable t = Ok tt t' /\ wdt_enabled t' = true.
Proof.
  eexists. split; [reflexivity|]. unfold wdt_enabled. reg_simpl. by rewrite en_bit.
Qed.

Lemma wdt_disable_off t : exists t', wdt_disable t = Ok tt t' /\ wdt_enabled t' = false.
Proof.
  eexists. split; [reflexivity|]. unfold wdt_enabled. reg_simpl. by rewrite en_bit.
Qed.

Lemma wdt_feed_ok t : exists t', wdt_feed t = Ok tt t'.
Proof. eexists. reflexivity. Qed.

(** wdt_enable and wdt_disable set and clear the enable bit of the watchdog and leave
    every other bit of its configuration, and every other register but the write
    protection, as it was; wdt_feed resets the counter and leaves the configuration. *)
Theorem wdt_enable_disable t t' (on : bool) :
  (if on then wdt_enable else wdt_disable) t = Ok tt t' ->
  wdt_enabled t' = on /\
  (forall i, 0 <= i < 31 -> Z.testbit (reg t' TIMG0_WDTCONFIG) i = Z.testbit (reg t TIMG0_WDTCONFIG) i) /\
  (forall r, r <> TIMG0_WDTCONFIG -> r <> TIMG0_WDTWPROTECT -> reg t' r = reg t r) /\
  exists t'', wdt_feed t' = Ok tt t'' /\ wdt_enabled t'' = on /\
    (TIMG0_WDTFEED, 1) ∈ drop (length (mmio_log t')) (mmio_log t'').
Proof.
  intros E. split_and!.
  - unfold wdt_enabled. destruct on; injection E as <-; reg_simpl; by rewrite en_bit.
  - intros i Hi. destruct on; injection E as <-; reg_simpl; rewrite en_bit by lia;
      (destruct (Z.eqb_spec i 31); [lia|done]).
  - intros r H1 H2. destruct on; injection E as <-; cbn; by repeat case_decide.
  - eexists. split; [reflexivity|]. split.
    + unfold wdt_enabled. destruct on; injection E as <-; reg_simpl; by rewrite en_bit.
    + cbn [mmio_log]. rewrite <- !(assoc_L (++)), drop_app_length. set_solver.
Qed.

(** Ticks to nanoseconds: the prescaler is the high half of WDTCONFIG1, in units of
    12.5 ns, the period of the clock the comment of init_wdt names. *)
Definition stage_tenths_ns (t : timg) (stage : timg_reg) : Z :=
  reg t stage * ((reg t TIMG0_WDTCONFIG1 .>> 16) * 125).

(** init_wdt leaves the watchdog running: stage 0 raises an interrupt and stage 1 resets
    the system, level interrupts are on, and the interrupt is routed to a level line. Each
    stage lasts 5 ms, half of the 10 ms its comment announces. When no line is left it
    fails and touches no register of the watchdog. *)
Theorem init_wdt_spec {S} `{LensDisjoint S dport timg} (s s' : S) r :
  dport_wf (view s) ->
  init_wdt quietly s = Ok r s' ->
  let t' : timg := view s' in
  (r = NO_ERROR /\ wdt_enabled t' = true /\
   get_field 29 2 (reg t' TIMG0_WDTCONFIG) = 1 /\ get_field 27 2 (reg t' TIMG0_WDTCONFIG) = 3 /\
   get_field 21 1 (reg t' TIMG0_WDTCONFIG) = 1 /\
   stage_tenths_ns t' TIMG0_WDTCONFIG2 = 5 * 10 ^ 7 /\
   stage_tenths_ns t' TIMG0_WDTCONFIG3 = 5 * 10 ^ 7 /\
   Z.testbit (reg t' TIMG0_INT_ENA) 2 = true /\
   exists line, pro_int_map (view s') !! 16%nat = Some line /\ is_edge line = false) \/
  (r = ERROR_OUT_OF_RESOURCES /\ t' = view s).
Proof.
  intros Hd E t'. unfold init_wdt in E. unfold mbind at 1, M_bind at 1 in E. rewrite map_interrupt_zoom in E.
  pose proof (dport_map_interrupt_cases TG_WDT_LEVEL_INT false (view s) Hd) as Hcases.
  pose proof (map_interrupt_valid TG_WDT_LEVEL_INT false (view s) Hd
    ltac:(unfold TG_WDT_LEVEL_INT, INTERRUPT_SOURCE_MAX; lia)) as Hval.
  cbv zeta in Hval.
  destruct (class_mask false (m_free_peripheral_interrupt (view s)) =? 0).
  - right. unfold zoom, quietly, mbind, M_bind in E. rewrite Hval in E. injection E as <- <-.
    split; [done|]. apply (view_other_r (T := dport) (U := timg)).
  - left. destruct Hcases as [(r' & Hr' & Hne)|(_ & line & mask & Hg)]; [congruence|].
    destruct Hg as (Hg & Hl & He & _). destruct Hd as [_ Hlen].
    unfold zoom, mbind, M_bind in E. rewrite Hg in E.
    cbn -[wdt_configure] in E. injection E as <- <-. subst t'.
    rewrite !view_update, !(view_other_l (T := dport) (U := timg)), !view_update, !(view_other_r (T := dport) (U := timg)). split; [done|].
    reg_simpl.
    split; [unfold wdt_enabled; reg_simpl; by rewrite en_bit|].
    do 5 (split; [vm_compute; reflexivity|]). split.
    + rewrite wrapu_testbit, field_set_testbit by lia. done.
    + exists line. split; [|done]. change (Z.to_nat TG_WDT_LEVEL_INT) with 16%nat.
      apply list_lookup_insert_eq. rewrite Hlen. lia.
Qed.

Lemma wdt_int_field t :
  get_field INT_wdt_int.1 INT_wdt_int.2 (reg t TIMG0_INT_ST) =
    Z.b2z (Z.testbit (reg t TIMG0_INT_ST) 2).
Proof.
  unfold get_field. cbn [INT_wdt_int fst snd]. rewrite Z.land_ones by lia.
  change (2 ^ 1) with 2. rewrite <- Z.bit0_mod, Z.shiftr_spec by lia. done.
Qed.

(** It always returns, and does nothing when it answers no. *)
Lemma wdt_handle_run t :
  exists t', wdt_handle t = Ok (Z.testbit (reg t TIMG0_INT_ST) 2) t' /\
    (Z.testbit (reg t TIMG0_INT_ST) 2 = false -> t' = t).
Proof.
  unfold wdt_handle, read_reg. unfold_monad. rewrite wdt_int_field.
  destruct (Z.testbit _ 2); cbn [Z.b2z Z.eqb]; eexists; (split; [reflexivity|done]).
Qed.

(** wdt_handle answers whether the watchdog raised the interrupt: with its status bit
    clear it does nothing; with the bit set it feeds the watchdog and acknowledges the
    interrupt, without disabling it. *)
Theorem wdt_handle_spec t :
  (Z.testbit (reg t TIMG0_INT_ST) 2 = false -> wdt_handle t = Ok false t) /\
  (Z.testbit (reg t TIMG0_INT_ST) 2 = true ->
     exists t' v, wdt_handle t = Ok true t' /\ Z.testbit v 2 = true /\
       mmio_log t' = mmio_log t ++ [(TIMG0_WDTWPROTECT, WDT_KEY); (TIMG0_WDTFEED, 1);
         (TIMG0_WDTWPROTECT, 0xDEADBEEF); (TIMG0_INT_CLR, v)] /\
       reg t' TIMG0_WDTCONFIG = reg t TIMG0_WDTCONFIG).
Proof.
  split; intros Hb; unfold wdt_handle, read_reg; unfold_monad; rewrite wdt_int_field, Hb; cbn [Z.b2z Z.eqb].
  - done.
  - eexists _, _. split; [reflexivity|]. split.
    2:{ split; [|reflexivity]. cbn [mmio_log]. by rewrite <- !(assoc_L (++)). }
    rewrite wrapu_testbit, field_set_testbit by (simpl; lia). done.
Qed.

(** ** Examples: the driver on the registers at reset, all zero *)
Definition ex_timg : timg := Timg (fun _ => 0) [].

Lemma wdt_enable_disable_witness :
  exists t', wdt_enable ex_timg = Ok tt t' /\ wdt_enabled t' = true.
Proof.
  eexists. split; [reflexivity|]. by apply (wdt_enable_disable ex_timg _ true).
Defined.

Definition ex_init_wdt : outcome (dport * timg) err :=
  @init_wdt (dport * timg) lens_fst lens_snd quietly (ex_dport, ex_timg).
Definition ex_watchdog : dport * timg := outcome_state ex_init_wdt.

Lemma ex_init_wdt_ok : ex_init_wdt = Ok NO_ERROR ex_watchdog.
Proof. unfold ex_watchdog. assert (outcome_value ex_init_wdt = Some NO_ERROR) as H by reflexivity.
  by apply outcome_value_ok. Qed.

Lemma ex_dport_wf : dport_wf ex_dport.
Proof. split; [by vm_compute|reflexivity]. Qed.

Lemma init_wdt_spec_witness :
  ex_init_wdt = Ok NO_ERROR ex_watchdog /\
  wdt_enabled ex_watchdog.2 = true /\ stage_tenths_ns ex_watchdog.2 TIMG0_WDTCONFIG2 = 5 * 10 ^ 7.
Proof.
  split; [exact ex_init_wdt_ok|].
  destruct (@init_wdt_spec (dport * timg) lens_fst lens_snd lens_pair_disjoint
    (ex_dport, ex_timg) ex_watchdog NO_ERROR ex_dport_wf ex_init_wdt_ok)
    as [(_ & H1 & _ & _ & _ & H2 & _)|[H _]].
  - exact (conj H1 H2).
  - discriminate H.
Defined.

Lemma wdt_handle_spec_witness : wdt_handle ex_timg = Ok false ex_timg.
Proof. apply (wdt_handle_spec ex_timg). reflexivity. Defined.
