(* ===== verification/Printf.v ===== *)
(** * Formatted output (kernel/src/util/printf.c)

    The kernel's printf family, from the conversion of one number to the interpreter of
    format strings. Every character goes through an output function, called with the
    position it has in the whole output: into a buffer of bounded size, to the console, or
    nowhere. The routines are generic in that function, as the code is.

    Characters are bytes ([char] is unsigned on Xtensa). A pointer into a string is the list
    of the bytes from there to the end of its object, the terminating zero included: reading
    past the end is a fault. Arguments are a list of machine words, double words and
    strings. The digit buffer of a conversion, [buf[0 .. len - 1]], is the list of its
    cells from [buf[len - 1]] down to [buf[0]]. *)
From Stdlib Require Import ZArith Lia Ascii String.
From stdpp Require Import base tactics numbers list gmap.
From S2P Require Import Prelude.

(** ** Flags *)
Definition PRINTF_NTOA_BUFFER_SIZE : Z := 65.

Definition FLAGS_ZEROPAD : Z := 1 .<< 0.
Definition FLAGS_LEFT : Z := 1 .<< 1.
Definition FLAGS_PLUS : Z := 1 .<< 2.
Definition FLAGS_SPACE : Z := 1 .<< 3.
Definition FLAGS_HASH : Z := 1 .<< 4.
Definition FLAGS_UPPERCASE : Z := 1 .<< 5.
Definition FLAGS_CHAR : Z := 1 .<< 6.
Definition FLAGS_SHORT : Z := 1 .<< 7.
Definition FLAGS_LONG : Z := 1 .<< 8.
Definition FLAGS_LONG_LONG : Z := 1 .<< 9.
Definition FLAGS_PRECISION : Z := 1 .<< 10.

(** [flags & f], as a condition. *)
Definition has (flags f : Z) : bool := negb (flags .& f =? 0).

(** The bytes of a string literal, its terminating zero included. *)
Definition cstr (s : string) : list Z :=
  ((fun c => Z.of_N (N_of_ascii c)) <$> list_ascii_of_string s) ++ [0].

(** ** Arguments *)
Inductive va_value : Type :=
  | VWord (w : Z)
  | VLongLong (z : Z)
  | VStr (addr : Z) (mem : list Z).

Section Printf.
Context {W : Type}.

Definition out_fct_type : Type := Z -> Z -> Z -> M W unit.

(** [*p] *)
Definition load (p : list Z) : M W Z := deref (head p).

Definition va_arg_word (va : list va_value) : M W (Z * list va_value) :=
  match va with
  | VWord w :: va' => mret (u32 w, va')
  | VStr addr _ :: va' => mret (u32 addr, va')
  | _ => stop_with Fault
  end.

Definition va_arg_long_long (va : list va_value) : M W (Z * list va_value) :=
  match va with
  | VLongLong z :: va' => mret (u64 z, va')
  | _ => stop_with Fault
  end.

(** A string, [None] when the pointer is null. *)
Definition va_arg_str (va : list va_value) : M W (option (list Z) * list va_value) :=
  match va with
  | VStr addr mem :: va' => mret (if u32 addr =? 0 then None else Some mem, va')
  | VWord w :: va' => if u32 w =? 0 then mret (None, va') else stop_with Fault
  | _ => stop_with Fault
  end.

(** ** Strings *)

(** The length of the string, at most [maxsize]; the byte is read before the bound is tested. *)
Fixpoint _strnlen_s (str : list Z) (maxsize : Z) : M W Z :=
  match str with
  | [] => stop_with Fault
  | c :: str' =>
      if (c =? 0) || (maxsize =? 0) then mret 0
      else n ← _strnlen_s str' (maxsize - 1); mret (u32 (n + 1))
  end.

Definition _is_digit (ch : Z) : bool := (48 <=? ch) && (ch <=? 57).

Fixpoint atoi_loop (i : Z) (str : list Z) : M W (Z * list Z) :=
  match str with
  | [] => stop_with Fault
  | c :: str' =>
      if _is_digit c then atoi_loop (u32 (u32 (i * 10) + u32 (c - 48))) str' else mret (i, str)
  end.

Definition _atoi (str : list Z) : M W (Z * list Z) := atoi_loop 0 str.

(** ** Numbers *)
Section Out.
Context (out : out_fct_type) (maxlen : Z).

(** [out(c, buffer, idx++, maxlen)] *)
Definition emit (c idx : Z) : M W Z :=
  out c idx maxlen;; mret (u32 (idx + 1)).

(** [for (i = from; i < width; i++) out(' ', ...)], also written [while (l++ < width)]. *)
Definition pad_from (from width idx : Z) : M W Z :=
  r ← mwhile (S (Z.to_nat (width - from))) (fun '(i, _) => mret (i <? width))
        (fun '(i, idx) => idx ← emit 32 idx; mret (u32 (i + 1), idx)) (from, idx);
  mret r.2.

Definition len (buf : list Z) : Z := Z.of_nat (length buf).

(** [while (len) out(buf[--len], ...)] *)
Fixpoint out_reversed (buf : list Z) (idx : Z) : M W Z :=
  match buf with
  | [] => mret idx
  | c :: buf' => idx ← emit c idx; out_reversed buf' idx
  end.

Definition _out_rev (idx : Z) (buf : list Z) (width flags : Z) : M W Z :=
  let start_idx := idx in
  idx ← (if negb (has flags FLAGS_LEFT) && negb (has flags FLAGS_ZEROPAD)
         then pad_from (len buf) width idx else mret idx);
  idx ← out_reversed buf idx;
  if has flags FLAGS_LEFT then
    mwhile (S (Z.to_nat width)) (fun idx => mret (u32 (idx - start_idx) <? width))
      (fun idx => emit 32 idx) idx
  else mret idx.

(** [buf[len++] = c], within the buffer. *)
Definition push (c : Z) (buf : list Z) : M W (list Z) :=
  if len buf <? PRINTF_NTOA_BUFFER_SIZE then mret (u8 c :: buf) else stop_with Fault.

(** [while (b && (len < bound) && (len < PRINTF_NTOA_BUFFER_SIZE)) buf[len++] = '0';] *)
Definition push_zeros (b : bool) (bound : Z) (buf : list Z) : M W (list Z) :=
  mwhile (S (Z.to_nat PRINTF_NTOA_BUFFER_SIZE))
    (fun buf => mret (b && (len buf <? bound) && (len buf <? PRINTF_NTOA_BUFFER_SIZE)))
    (push 48) buf.

(** The prefix of FLAGS_HASH. *)
Definition ntoa_hash (buf : list Z) (base prec width flags : Z) : M W (list Z) :=
  let buf :=
    if negb (has flags FLAGS_PRECISION) && negb (len buf =? 0) &&
       ((len buf =? prec) || (len buf =? width)) then
      let buf := tail buf in
      if negb (len buf =? 0) && (base =? 16) then tail buf else buf
    else buf in
  buf ← (if (base =? 16) && negb (has flags FLAGS_UPPERCASE) &&
            (len buf <? PRINTF_NTOA_BUFFER_SIZE) then push 120 buf
         else if (base =? 16) && has flags FLAGS_UPPERCASE &&
            (len buf <? PRINTF_NTOA_BUFFER_SIZE) then push 88 buf
         else if (base =? 2) && (len buf <? PRINTF_NTOA_BUFFER_SIZE) then push 98 buf
         else mret buf);
  if len buf <? PRINTF_NTOA_BUFFER_SIZE then push 48 buf else mret buf.

Definition _ntoa_format (idx : Z) (buf : list Z) (negative : bool) (base prec width flags : Z)
    : M W Z :=
  '(buf, width) ← (if negb (has flags FLAGS_LEFT) then
       let width :=
         if negb (width =? 0) && has flags FLAGS_ZEROPAD &&
            (negative || has flags (FLAGS_PLUS .| FLAGS_SPACE)) then u32 (width - 1)
         else width in
       buf ← push_zeros true prec buf;
       buf ← push_zeros (has flags FLAGS_ZEROPAD) width buf;
       mret (buf, width)
     else mret (buf, width));
  buf ← (if has flags FLAGS_HASH then ntoa_hash buf base prec width flags else mret buf);
  buf ← (if len buf <? PRINTF_NTOA_BUFFER_SIZE then
           if negative then push 45 buf
           else if has flags FLAGS_PLUS then push 43 buf
           else if has flags FLAGS_SPACE then push 32 buf
           else mret buf
         else mret buf);
  _out_rev idx buf width flags.

Definition ntoa_digit (flags digit : Z) : Z :=
  if digit <? 10 then 48 + digit
  else (if has flags FLAGS_UPPERCASE then 65 else 97) + digit - 10.

(** [do ... while (value && (len < PRINTF_NTOA_BUFFER_SIZE))] *)
Fixpoint ntoa_loop (fuel : nat) (flags base value : Z) (buf : list Z) : M W (list Z) :=
  match fuel with
  | O => stop_with Spin
  | S fuel' =>
      let digit := u8 (value mod base) in
      buf ← push (ntoa_digit flags digit) buf;
      let value := value / base in
      if negb (value =? 0) && (len buf <? PRINTF_NTOA_BUFFER_SIZE)
      then ntoa_loop fuel' flags base value buf else mret buf
  end.

(** The common text of _ntoa_long and _ntoa_long_long, which differ in the type of [value]. *)
Definition ntoa (idx value : Z) (negative : bool) (base prec width flags : Z) : M W Z :=
  let flags := if value =? 0 then flags .& u32 (.~ FLAGS_HASH) else flags in
  buf ← (if negb (has flags FLAGS_PRECISION) || negb (value =? 0)
         then ntoa_loop (Z.to_nat PRINTF_NTOA_BUFFER_SIZE) flags base value [] else mret []);
  _ntoa_format idx buf negative base prec width flags.

Definition _ntoa_long (idx value : Z) := ntoa idx (u32 value).
Definition _ntoa_long_long (idx value : Z) := ntoa idx (u64 value).

(** ** Format strings *)

Fixpoint parse_flags (flags : Z) (format : list Z) : M W (Z * list Z) :=
  match format with
  | [] => stop_with Fault
  | c :: format' =>
      if c =? 48 then parse_flags (flags .| FLAGS_ZEROPAD) format'
      else if c =? 45 then parse_flags (flags .| FLAGS_LEFT) format'
      else if c =? 43 then parse_flags (flags .| FLAGS_PLUS) format'
      else if c =? 32 then parse_flags (flags .| FLAGS_SPACE) format'
      else if c =? 35 then parse_flags (flags .| FLAGS_HASH) format'
      else mret (flags, format)
  end.

Definition parse_width (flags : Z) (format : list Z) (va : list va_value)
    : M W (Z * Z * list Z * list va_value) :=
  c ← load format;
  if _is_digit c then
    '(width, format) ← _atoi format;
    mret (width, flags, format, va)
  else if c =? 42 then
    '(w, va) ← va_arg_word va;
    let w := s32 w in
    mret (if w <? 0 then (u32 (- w), flags .| FLAGS_LEFT, tail format, va)
          else (u32 w, flags, tail format, va))
  else mret (0, flags, format, va).

Definition parse_precision (flags : Z) (format : list Z) (va : list va_value)
    : M W (Z * Z * list Z * list va_value) :=
  c ← load format;
  if c =? 46 then
    let flags := flags .| FLAGS_PRECISION in
    let format := tail format in
    c ← load format;
    if _is_digit c then
      '(precision, format) ← _atoi format;
      mret (precision, flags, format, va)
    else if c =? 42 then
      '(prec, va) ← va_arg_word va;
      mret (if 0 <? s32 prec then u32 (s32 prec) else 0, flags, tail format, va)
    else mret (0, flags, format, va)
  else mret (0, flags, format, va).

(** [sizeof(ptrdiff_t)] and [sizeof(size_t)] are those of [long], [sizeof(intmax_t)] is not. *)
Definition parse_length (flags : Z) (format : list Z) : M W (Z * list Z) :=
  c ← load format;
  if c =? 108 then
    c ← load (tail format);
    mret (if c =? 108 then (flags .| FLAGS_LONG .| FLAGS_LONG_LONG, tail (tail format))
          else (flags .| FLAGS_LONG, tail format))
  else if c =? 104 then
    c ← load (tail format);
    mret (if c =? 104 then (flags .| FLAGS_SHORT .| FLAGS_CHAR, tail (tail format))
          else (flags .| FLAGS_SHORT, tail format))
  else if c =? 116 then mret (flags .| FLAGS_LONG, tail format)
  else if c =? 106 then mret (flags .| FLAGS_LONG_LONG, tail format)
  else if c =? 122 then mret (flags .| FLAGS_LONG, tail format)
  else mret (flags, format).

(** [value > 0 ? value : 0 - value], on [w] bits. *)
Definition magnitude (w value : Z) : Z := wrapu w (if 0 <? value then value else 0 - value).

Definition is_signed (c : Z) : bool := (c =? 105) || (c =? 100).

(** The base of the specifier and the flags it leaves. *)
Definition int_base (c : Z) : Z :=
  if (c =? 120) || (c =? 88) then 16 else if c =? 111 then 8 else if c =? 98 then 2 else 10.

Definition int_flags (c flags : Z) : Z :=
  let flags := if int_base c =? 10 then flags .& u32 (.~ FLAGS_HASH) else flags in
  let flags := if c =? 88 then flags .| FLAGS_UPPERCASE else flags in
  let flags := if is_signed c then flags else flags .& u32 (.~ (FLAGS_PLUS .| FLAGS_SPACE)) in
  if has flags FLAGS_PRECISION then flags .& u32 (.~ FLAGS_ZEROPAD) else flags.

Definition conv_int (c flags width precision idx : Z) (va : list va_value)
    : M W (Z * list va_value) :=
  let base := int_base c in
  let flags := int_flags c flags in
  if is_signed c then
    if has flags FLAGS_LONG_LONG then
      '(v, va) ← va_arg_long_long va;
      let value := wraps 64 v in
      idx ← _ntoa_long_long idx (magnitude 64 value) (value <? 0) base precision width flags;
      mret (idx, va)
    else if has flags FLAGS_LONG then
      '(v, va) ← va_arg_word va;
      let value := s32 v in
      idx ← _ntoa_long idx (magnitude 32 value) (value <? 0) base precision width flags;
      mret (idx, va)
    else
      '(v, va) ← va_arg_word va;
      let value := if has flags FLAGS_CHAR then u8 v
                   else if has flags FLAGS_SHORT then wraps 16 v else s32 v in
      idx ← _ntoa_long idx (magnitude 32 value) (value <? 0) base precision width flags;
      mret (idx, va)
  else
    if has flags FLAGS_LONG_LONG then
      '(v, va) ← va_arg_long_long va;
      idx ← _ntoa_long_long idx v false base precision width flags;
      mret (idx, va)
    else if has flags FLAGS_LONG then
      '(v, va) ← va_arg_word va;
      idx ← _ntoa_long idx v false base precision width flags;
      mret (idx, va)
    else
      '(v, va) ← va_arg_word va;
      let value := if has flags FLAGS_CHAR then u8 v
                   else if has flags FLAGS_SHORT then u16 v else v in
      idx ← _ntoa_long idx value false base precision width flags;
      mret (idx, va).

Definition conv_char (flags width idx : Z) (va : list va_value) : M W (Z * list va_value) :=
  idx ← (if negb (has flags FLAGS_LEFT) then pad_from 1 width idx else mret idx);
  '(v, va) ← va_arg_word va;
  idx ← emit (u8 v) idx;
  idx ← (if has flags FLAGS_LEFT then pad_from 1 width idx else mret idx);
  mret (idx, va).

(** The loop that prints a string: up to its terminating zero or, with FLAGS_PRECISION, up to
    [precision] characters. *)
Fixpoint out_string (flags precision : Z) (p : list Z) (idx : Z) : M W Z :=
  match p with
  | [] => stop_with Fault
  | c :: p' =>
      if negb (c =? 0) && (negb (has flags FLAGS_PRECISION) || negb (precision =? 0)) then
        idx ← emit c idx;
        out_string flags (if has flags FLAGS_PRECISION then u32 (precision - 1) else precision)
          p' idx
      else mret idx
  end.

(** The padded output of a string, common to the specifiers [s] and [R]. *)
Definition conv_text (p : list Z) (flags width precision idx : Z) : M W Z :=
  l ← _strnlen_s p (if negb (precision =? 0) then precision else 2 ^ 32 - 1);
  let l := if has flags FLAGS_PRECISION then if l <? precision then l else precision else l in
  idx ← (if negb (has flags FLAGS_LEFT) then pad_from l width idx else mret idx);
  idx ← out_string flags precision p idx;
  if has flags FLAGS_LEFT then pad_from l width idx else mret idx.

Definition null_text : list Z := cstr "(null)".

Definition conv_str (flags width precision idx : Z) (va : list va_value)
    : M W (Z * list va_value) :=
  '(p, va) ← va_arg_str va;
  let p := match p with Some mem => mem | None => null_text end in
  idx ← conv_text p flags width precision idx;
  mret (idx, va).

Definition check_failed_text : list Z := cstr "ERROR_CHECK_FAILED".
Definition unknown_error_text : list Z := cstr "(unknown error)".

Definition conv_err (flags width precision idx : Z) (va : list va_value)
    : M W (Z * list va_value) :=
  '(e, va) ← va_arg_word va;
  let p := if e =? err_code ERROR_CHECK_FAILED then check_failed_text else unknown_error_text in
  idx ← conv_text p flags width precision idx;
  mret (idx, va).

Definition sizes : list (list Z) := cstr <$> ["B"; "KB"; "MB"; "GB"; "TB"]%string.

(** [while (i >= 1024 && div < ARRAY_LEN(sizes))]: at most five rounds. *)
Fixpoint size_scale (fuel : nat) (i div rem : Z) : Z * Z * Z :=
  match fuel with
  | O => (i, div, rem)
  | S fuel' =>
      if (1024 <=? i) && (div <? 5) then size_scale fuel' (i / 1024) (div + 1) (i mod 1024)
      else (i, div, rem)
  end.

Definition conv_size (flags width precision idx : Z) (va : list va_value)
    : M W (Z * list va_value) :=
  '(i, va) ← va_arg_word va;
  let '(i, div, rem) := size_scale 6 i 0 0 in
  idx ← _ntoa_long idx i false 10 precision width flags;
  idx ← (if negb (u32 (rem * 100) / 1024 =? 0) then
           idx ← emit 46 idx;
           _ntoa_long idx i false 10 precision width flags
         else mret idx);
  s ← deref (sizes !! Z.to_nat div);
  idx ← out_string flags precision s idx;
  mret (idx, va).

(** Pointers: eight upper case hexadecimal digits. *)
Definition conv_ptr (flags precision idx : Z) (va : list va_value) : M W (Z * list va_value) :=
  let width := 8 in
  let flags := flags .| (FLAGS_ZEROPAD .| FLAGS_UPPERCASE) in
  '(v, va) ← va_arg_word va;
  idx ← _ntoa_long idx v false 16 precision width flags;
  mret (idx, va).

Definition specifier (c flags width precision idx : Z) (va : list va_value)
    : M W (Z * list va_value) :=
  if bool_decide (c ∈ [100; 105; 117; 120; 88; 111; 98])
  then conv_int c flags width precision idx va
  else if c =? 99 then conv_char flags width idx va
  else if c =? 83 then conv_size flags width precision idx va
  else if c =? 82 then conv_err flags width precision idx va
  else if c =? 115 then conv_str flags width precision idx va
  else if c =? 112 then conv_ptr flags precision idx va
  else if c =? 37 then idx ← emit 37 idx; mret (idx, va)
  else idx ← emit c idx; mret (idx, va).

Fixpoint vsnprintf_loop (fuel : nat) (format : list Z) (va : list va_value) (idx : Z) : M W Z :=
  match fuel with
  | O => stop_with Spin
  | S fuel' =>
      c ← load format;
      if c =? 0 then mret idx
      else if negb (c =? 37) then
        idx ← emit c idx;
        vsnprintf_loop fuel' (tail format) va idx
      else
        '(flags, format) ← parse_flags 0 (tail format);
        '(width, flags, format, va) ← parse_width flags format va;
        '(precision, flags, format, va) ← parse_precision flags format va;
        '(flags, format) ← parse_length flags format;
        c ← load format;
        '(idx, va) ← specifier c flags width precision idx va;
        vsnprintf_loop fuel' (tail format) va idx
  end.
End Out.

Definition _out_null : out_fct_type := fun _ _ _ => mret tt.

(** Every round of the loop leaves a shorter format. *)
Definition _vsnprintf (out : out_fct_type) (buffer_null : bool) (maxlen : Z)
    (format : list Z) (va : list va_value) : M W Z :=
  let out := if buffer_null then _out_null else out in
  idx ← vsnprintf_loop out maxlen (S (length format)) format va 0;
  out 0 (if idx <? maxlen then idx else u32 (maxlen - 1)) maxlen;;
  mret (s32 idx).

(** ** Output functions *)

(** To the console; [fct] is [_putchar], or the function given to fctprintf. *)
Definition _out_char (fct : Z -> M W unit) : out_fct_type :=
  fun character _ _ => if negb (character =? 0) then fct character else mret tt.

Definition printf_ (_putchar : Z -> M W unit) (format : list Z) (va : list va_value) : M W Z :=
  _vsnprintf (_out_char _putchar) false (2 ^ 32 - 1) format va.

Definition vprintf_ (_putchar : Z -> M W unit) (format : list Z) (va : list va_value) : M W Z :=
  _vsnprintf (_out_char _putchar) false (2 ^ 32 - 1) format va.

Definition vfctprintf (fct : Z -> M W unit) (format : list Z) (va : list va_value) : M W Z :=
  _vsnprintf (_out_char fct) false (2 ^ 32 - 1) format va.
Definition fctprintf (fct : Z -> M W unit) (format : list Z) (va : list va_value) : M W Z :=
  vfctprintf fct format va.
End Printf.
Arguments out_fct_type W : clear implicits.

(** Into a buffer: the state is the memory from the buffer's address to the end of its
    object. *)
Definition _out_buffer : out_fct_type (list Z) := fun character idx maxlen =>
  if idx <? maxlen then
    mem ← get;
    _ ← deref (mem !! Z.to_nat idx);
    modify (<[Z.to_nat idx := character]>)
  else mret tt.

Definition vsnprintf_ (buffer_null : bool) (count : Z) (format : list Z) (va : list va_value)
    : M (list Z) Z :=
  _vsnprintf _out_buffer buffer_null count format va.

Definition snprintf_ (buffer_null : bool) (count : Z) (format : list Z) (va : list va_value)
    : M (list Z) Z :=
  _vsnprintf _out_buffer buffer_null count format va.

Definition sprintf_ (buffer_null : bool) (format : list Z) (va : list va_value) : M (list Z) Z :=
  _vsnprintf _out_buffer buffer_null (2 ^ 32 - 1) format va.
