(* ===== verification/PrintfSim.v ===== *)
(** * The output of printf does not depend on where it goes

    A relational logic over two runs of the same routine with two output functions: [sim]
    relates two computations that return the same value, or both fault, and neither of which
    runs for ever. Every routine of Printf.v is shown to be related to itself, so that a run
    into a bounded buffer can be compared with a run that just records the characters. *)
From Stdlib Require Import ZArith Lia.
From stdpp Require Import base tactics numbers list gmap.
From S2P Require Import Prelude Printf.

(** Two stopped runs are related when both faulted and [faults] allows it. *)
Definition sim {W1 W2 A} (faults : bool) (P : W1 -> W2 -> Prop) (m1 : M W1 A) (m2 : M W2 A)
    (Q : A -> W1 -> W2 -> Prop) : Prop :=
  forall w1 w2, P w1 w2 ->
    match m1 w1, m2 w2 with
    | Ok a w1', Ok b w2' => a = b /\ Q a w1' w2'
    | Stop Fault _, Stop Fault _ => faults = true
    | _, _ => False
    end.

Section Sim.
Context {W1 W2 : Type}.
Implicit Types (P : W1 -> W2 -> Prop).

Lemma sim_ret {A} f P (a : A) (Q : A -> W1 -> W2 -> Prop) :
  (forall w1 w2, P w1 w2 -> Q a w1 w2) -> sim f P (mret a) (mret a) Q.
Proof. intros H w1 w2 HP. split; [done|]. by apply H. Qed.

Lemma sim_bind {A B} f P (m1 : M W1 A) m2 (k1 : A -> M W1 B) k2 Q' Q :
  sim f P m1 m2 Q' -> (forall a, sim f (Q' a) (k1 a) (k2 a) Q) -> sim f P (m1 ≫= k1) (m2 ≫= k2) Q.
Proof.
  intros Hm Hk w1 w2 HP. specialize (Hm w1 w2 HP). unfold mbind, M_bind.
  destruct (m1 w1) as [a w1'|[] w1'], (m2 w2) as [b w2'|[] w2']; try done.
  destruct Hm as [-> HQ]. by apply Hk.
Qed.

Lemma sim_fault {A} P (Q : A -> W1 -> W2 -> Prop) : sim true P (stop_with Fault) (stop_with Fault) Q.
Proof. done. Qed.

Lemma sim_weaken {A} f f' P P' (m1 : M W1 A) m2 (Q Q' : A -> W1 -> W2 -> Prop) :
  sim f P m1 m2 Q -> (f = true -> f' = true) -> (forall w1 w2, P' w1 w2 -> P w1 w2) ->
  (forall a w1 w2, Q a w1 w2 -> Q' a w1 w2) -> sim f' P' m1 m2 Q'.
Proof.
  intros Hm Hf HP HQ w1 w2 H. specialize (Hm w1 w2 (HP _ _ H)).
  destruct (m1 w1) as [a w1'|[] w1'], (m2 w2) as [b w2'|[] w2']; naive_solver.
Qed.

Lemma sim_conseq {A} f P (m1 : M W1 A) m2 (Q Q' : A -> W1 -> W2 -> Prop) :
  sim f P m1 m2 Q -> (forall a w1 w2, Q a w1 w2 -> Q' a w1 w2) -> sim f P m1 m2 Q'.
Proof. intros Hm HQ. by eapply sim_weaken. Qed.

Lemma sim_if {A} f P (b : bool) (m1 m1' : M W1 A) m2 m2' Q :
  (b = true -> sim f P m1 m2 Q) -> (b = false -> sim f P m1' m2' Q) ->
  sim f P (if b then m1 else m1') (if b then m2 else m2') Q.
Proof. destruct b; auto. Qed.

(** A fact that the precondition carries. *)
Lemma sim_pure {A} f P (X : Prop) (m1 : M W1 A) m2 Q :
  (X -> sim f P m1 m2 Q) -> sim f (fun w1 w2 => X /\ P w1 w2) m1 m2 Q.
Proof. intros H w1 w2 [HX HP]. by apply H. Qed.

(** A loop with a pure condition, an invariant and a measure. *)
Lemma sim_mwhile {A} f (mu : A -> nat) (I : A -> W1 -> W2 -> Prop) (X : A -> Prop) c
    (cond1 : A -> M W1 bool) cond2 (body1 : A -> M W1 A) body2 Q fuel a :
  (mu a < fuel)%nat -> X a ->
  (forall a w, cond1 a w = Ok (c a) w) -> (forall a w, cond2 a w = Ok (c a) w) ->
  (forall a, X a -> c a = true ->
     sim f (I a) (body1 a) (body2 a)
       (fun a' w1 w2 => (X a' /\ (mu a' < mu a)%nat) /\ I a' w1 w2)) ->
  (forall a w1 w2, X a -> I a w1 w2 -> Q a w1 w2) ->
  sim f (I a) (mwhile fuel cond1 body1 a) (mwhile fuel cond2 body2 a) Q.
Proof.
  intros Hf HX Hc1 Hc2 Hb HQ.
  apply (sim_conseq _ _ _ _ (fun a' w1 w2 => X a' /\ I a' w1 w2));
    [|intros a' w1 w2 []; by apply HQ].
  clear HQ. revert a Hf HX. induction fuel as [|fuel IH]; intros a Hf HX; [lia|].
  intros w1 w2 HI. rewrite (mwhile_step _ _ _ _ _ _ (Hc1 a w1)), (mwhile_step _ _ _ _ _ _ (Hc2 a w2)).
  destruct (c a) eqn:Hc; [|done].
  revert w1 w2 HI. change (sim f (I a) (body1 a ≫= mwhile fuel cond1 body1)
    (body2 a ≫= mwhile fuel cond2 body2) (fun a' w1 w2 => X a' /\ I a' w1 w2)).
  eapply sim_bind; [by apply Hb|]. intros a'. apply sim_pure. intros [HX' Hmu].
  apply IH; [lia|done].
Qed.
End Sim.

(** ** Every routine is related to itself *)
Section Routines.
Context {W1 W2 : Type} (out1 : out_fct_type W1) (out2 : out_fct_type W2) (n1 n2 : Z).
(** [R idx]: the relation of the worlds when the next position is [idx]. *)
Context (R : Z -> W1 -> W2 -> Prop).
Hypothesis Hout : forall c idx w1 w2, R idx w1 w2 ->
  exists w1' w2', out1 c idx n1 w1 = Ok tt w1' /\ out2 c idx n2 w2 = Ok tt w2' /\
    R (u32 (idx + 1)) w1' w2'.

Lemma sim_emit c idx : sim false (R idx) (emit out1 n1 c idx) (emit out2 n2 c idx) R.
Proof using Hout.
  intros w1 w2 HR. destruct (Hout c idx w1 w2 HR) as (w1' & w2' & E1 & E2 & HR').
  unfold emit, mbind, M_bind. by rewrite E1, E2.
Qed.

(** The same, also telling which position comes next. *)
Lemma sim_emit_next c idx :
  sim false (R idx) (emit out1 n1 c idx) (emit out2 n2 c idx)
    (fun idx' w1 w2 => idx' = u32 (idx + 1) /\ R idx' w1 w2).
Proof using Hout.
  intros w1 w2 HR. destruct (Hout c idx w1 w2 HR) as (w1' & w2' & E1 & E2 & HR').
  unfold emit, mbind, M_bind. by rewrite E1, E2.
Qed.

Lemma sim_pad_from from width idx :
  0 <= from -> width < 2 ^ 32 ->
  sim false (R idx) (pad_from out1 n1 from width idx) (pad_from out2 n2 from width idx) R.
Proof using Hout.
  intros Hfrom Hw. unfold pad_from. eapply (sim_bind _ _ _ _ _ _ (fun a => R a.2)).
  - refine (sim_mwhile false (fun a => Z.to_nat (width - a.1)) (fun a => R a.2)
      (fun a => 0 <= a.1) (fun a => a.1 <? width) _ _ _ _ _ _ (from, idx) _ _ _ _ _ _); [simpl; lia|done|by intros []..| |by auto].
    intros [i j] Hi Hlt%Z.ltb_lt. cbn in *. eapply sim_bind; [apply sim_emit|].
    intros idx'. apply sim_ret. intros w1 w2 HR. cbn. rewrite wrapu_small by lia.
    split; [|done]. lia.
  - intros [i j]. by apply sim_ret.
Qed.

Lemma sim_out_reversed buf idx :
  sim false (R idx) (out_reversed out1 n1 buf idx) (out_reversed out2 n2 buf idx) R.
Proof using Hout.
  revert idx. induction buf as [|c buf IH]; intros idx; [by apply sim_ret|].
  eapply sim_bind; [apply sim_emit|apply IH].
Qed.

(** The loop that pads on the right counts positions modulo 2^32. *)
Lemma sim_pad_right start width idx :
  0 <= width < 2 ^ 32 ->
  sim false (R idx)
    (mwhile (S (Z.to_nat width)) (fun idx => mret (u32 (idx - start) <? width))
       (emit out1 n1 32) idx)
    (mwhile (S (Z.to_nat width)) (fun idx => mret (u32 (idx - start) <? width))
       (emit out2 n2 32) idx) R.
Proof using Hout.
  intros Hw.
  pose proof (fun idx => wrapu_range 32 (idx - start) ltac:(lia)) as Hr.
  apply (sim_mwhile false (fun idx => Z.to_nat (width - u32 (idx - start))) R
    (fun _ => True) (fun idx => u32 (idx - start) <? width)); try done.
  { specialize (Hr idx). lia. }
  intros a _ Hlt%Z.ltb_lt. eapply sim_conseq; [apply sim_emit_next|].
  intros a' w1 w2 [-> HR]. split; [|done]. split; [done|].
  assert (u32 (u32 (a + 1) - start) = u32 (a - start) + 1) as ->; [|lia].
  unfold wrapu in *. rewrite Zminus_mod_idemp_l.
  replace (a + 1 - start) with ((a - start) + 1) by lia. rewrite <- Zplus_mod_idemp_l.
  apply Z.mod_small. specialize (Hr a). lia.
Qed.

Lemma sim_out_rev idx buf width flags :
  0 <= width < 2 ^ 32 ->
  sim false (R idx) (_out_rev out1 n1 idx buf width flags) (_out_rev out2 n2 idx buf width flags) R.
Proof using Hout.
  intros Hw. unfold _out_rev. eapply sim_bind.
  { apply sim_if; intros _; [apply sim_pad_from; unfold len; lia|by apply sim_ret]. }
  intros idx1. eapply sim_bind; [apply sim_out_reversed|]. intros idx2.
  apply sim_if; intros _; [by apply sim_pad_right|by apply sim_ret].
Qed.

(** ** The digit buffer: no routine writes past its end *)
Lemma sim_push P c buf :
  len buf < PRINTF_NTOA_BUFFER_SIZE ->
  sim (W1 := W1) (W2 := W2) false P (push c buf) (push c buf)
    (fun buf' w1 w2 => len buf' = len buf + 1 /\ P w1 w2).
Proof using Type.
  intros Hl w1 w2 HP. unfold push. rewrite (proj2 (Z.ltb_lt _ _)) by done.
  split; [done|]. split; [unfold len; simpl; lia|done].
Qed.

Lemma sim_push_zeros P b bound buf :
  sim (W1 := W1) (W2 := W2) false P (push_zeros b bound buf) (push_zeros b bound buf)
    (fun _ => P).
Proof using Type.
  apply (sim_mwhile false (fun buf => Z.to_nat (PRINTF_NTOA_BUFFER_SIZE - len buf)) (fun _ => P)
    (fun _ => True) (fun buf => b && (len buf <? bound) && (len buf <? PRINTF_NTOA_BUFFER_SIZE)));
    try done; [unfold len; lia|].
  intros buf' _ [_ Hl%Z.ltb_lt]%andb_prop. eapply sim_conseq; [by apply sim_push|].
  intros buf2 w1 w2 [Hl2 HP]. split; [|done]. split; [done|]. lia.
Qed.

(** Pushing under a test of the bound. *)
Lemma sim_push_guarded P c buf b :
  (b = true -> len buf < PRINTF_NTOA_BUFFER_SIZE) ->
  sim (W1 := W1) (W2 := W2) false P (if b then push c buf else mret buf)
    (if b then push c buf else mret buf) (fun _ => P).
Proof using Type.
  intros Hb. apply sim_if; intros E; [|by apply sim_ret].
  eapply sim_conseq; [by apply sim_push, Hb|]. by intros ? ? ? [].
Qed.

(** Test the buffer, then push: every prefix of a conversion. *)
Lemma sim_ntoa_hash P buf base prec width flags :
  sim (W1 := W1) (W2 := W2) false P (ntoa_hash buf base prec width flags)
    (ntoa_hash buf base prec width flags) (fun _ => P).
Proof using Type.
  unfold ntoa_hash. set (buf0 := if negb (has flags FLAGS_PRECISION) && _ && _ then _ else _).
  eapply (sim_bind _ _ _ _ _ _ (fun _ => P)).
  - repeat (apply sim_if; [intros [_ E%Z.ltb_lt]%andb_prop|intros _];
      [eapply sim_conseq; [by apply sim_push|by intros ? ? ? []]|]).
    by apply sim_ret.
  - intros buf1. apply sim_push_guarded. apply Z.ltb_lt.
Qed.

Lemma sim_ntoa_format idx buf negative base prec width flags :
  0 <= width < 2 ^ 32 ->
  sim false (R idx) (_ntoa_format out1 n1 idx buf negative base prec width flags)
    (_ntoa_format out2 n2 idx buf negative base prec width flags) R.
Proof using Hout.
  intros Hw. unfold _ntoa_format.
  eapply (sim_bind _ _ _ _ _ _ (fun bw w1 w2 => 0 <= bw.2 < 2 ^ 32 /\ R idx w1 w2)).
  { apply sim_if; intros _; [|by apply sim_ret].
    eapply sim_bind; [apply sim_push_zeros|intros buf1].
    eapply sim_bind; [apply sim_push_zeros|intros buf2].
    apply sim_ret. intros w1 w2 HR. split; [|done]. simpl.
    destruct (_ && _); [by apply wrapu_range|done]. }
  intros [buf1 width1]. apply sim_pure. cbn [snd]. intros Hw1.
  eapply (sim_bind _ _ _ _ _ _ (fun _ => R idx)).
  { apply sim_if; intros _; [apply sim_ntoa_hash|by apply sim_ret]. }
  intros buf2. eapply (sim_bind _ _ _ _ _ _ (fun _ => R idx)).
  { apply sim_if; [intros E%Z.ltb_lt|intros _; by apply sim_ret].
    repeat (apply sim_if; intros _; [eapply sim_conseq; [by apply sim_push|by intros ? ? ? []]|]).
    by apply sim_ret. }
  intros buf3. by apply sim_out_rev.
Qed.

Lemma sim_ntoa_loop P fuel flags base value buf :
  len buf < PRINTF_NTOA_BUFFER_SIZE -> PRINTF_NTOA_BUFFER_SIZE - len buf <= Z.of_nat fuel ->
  sim (W1 := W1) (W2 := W2) false P (ntoa_loop fuel flags base value buf)
    (ntoa_loop fuel flags base value buf) (fun _ => P).
Proof using Type.
  revert value buf. induction fuel as [|fuel IH]; intros value buf Hl Hf; [lia|].
  cbn [ntoa_loop]. eapply sim_bind; [by apply sim_push|]. intros buf'.
  apply sim_pure. intros Hl'. apply sim_if; intros E; [|by apply sim_ret].
  apply andb_prop in E as [_ E%Z.ltb_lt]. apply IH; lia.
Qed.

Lemma sim_ntoa idx value negative base prec width flags :
  0 <= width < 2 ^ 32 ->
  sim false (R idx) (ntoa out1 n1 idx value negative base prec width flags)
    (ntoa out2 n2 idx value negative base prec width flags) R.
Proof using Hout.
  intros Hw. unfold ntoa. eapply (sim_bind _ _ _ _ _ _ (fun _ => R idx)).
  { apply sim_if; intros _; [|by apply sim_ret]. by apply sim_ntoa_loop. }
  intros buf. by apply sim_ntoa_format.
Qed.

(** ** Reading the format, the arguments and the strings *)
Lemma sim_load P p :
  sim (W1 := W1) (W2 := W2) true P (load p) (load p) (fun c w1 w2 => head p = Some c /\ P w1 w2).
Proof using Type. intros w1 w2 HP. by destruct p. Qed.

Lemma sim_va_word P va :
  sim (W1 := W1) (W2 := W2) true P (va_arg_word va) (va_arg_word va)
    (fun r w1 w2 => 0 <= r.1 < 2 ^ 32 /\ P w1 w2).
Proof using Type.
  intros w1 w2 HP. destruct va as [|[] va]; try done; (split; [done|]); (split; [|done]);
    by apply wrapu_range.
Qed.

Lemma sim_va_long_long P va :
  sim (W1 := W1) (W2 := W2) true P (va_arg_long_long va) (va_arg_long_long va) (fun _ => P).
Proof using Type. intros w1 w2 HP. by destruct va as [|[] va]. Qed.

Lemma sim_va_str P va :
  sim (W1 := W1) (W2 := W2) true P (va_arg_str va) (va_arg_str va) (fun _ => P).
Proof using Type. intros w1 w2 HP. destruct va as [|[w| |] va]; simpl; try done. by destruct (_ =? 0). Qed.

Lemma sim_strnlen P str maxsize :
  sim (W1 := W1) (W2 := W2) true P (_strnlen_s str maxsize) (_strnlen_s str maxsize)
    (fun n w1 w2 => 0 <= n < 2 ^ 32 /\ P w1 w2).
Proof using Type.
  revert maxsize. induction str as [|c str IH]; intros maxsize; [done|]. cbn [_strnlen_s].
  apply sim_if; intros _; [by apply sim_ret|]. eapply sim_bind; [apply IH|].
  intros n. apply sim_pure. intros _. apply sim_ret. intros w1 w2 HP. split; [|done].
  by apply wrapu_range.
Qed.

Lemma sim_atoi_loop P i str :
  0 <= i < 2 ^ 32 ->
  sim (W1 := W1) (W2 := W2) true P (atoi_loop i str) (atoi_loop i str)
    (fun r w1 w2 => (0 <= r.1 < 2 ^ 32 /\ (length r.2 <= length str)%nat) /\ P w1 w2).
Proof using Type.
  revert i. induction str as [|c str IH]; intros i Hi; [done|]. cbn [atoi_loop].
  apply sim_if; intros _; [|apply sim_ret; simpl; auto].
  eapply sim_conseq; [apply IH, wrapu_range; lia|]. simpl. intros r w1 w2 [[? ?] ?]. auto with lia.
Qed.

Lemma sim_parse_flags P flags format :
  sim (W1 := W1) (W2 := W2) true P (parse_flags flags format) (parse_flags flags format)
    (fun r w1 w2 => (length r.2 <= length format)%nat /\ P w1 w2).
Proof using Type.
  revert flags. induction format as [|c format IH]; intros flags; [done|]. cbn [parse_flags].
  repeat (apply sim_if; intros _; [eapply sim_conseq; [apply IH|]; simpl; naive_solver lia|]).
  apply sim_ret; simpl; auto.
Qed.

Lemma length_tail {A} (l : list A) : (length (tail l) <= length l)%nat.
Proof using Type. destruct l; simpl; lia. Qed.

Lemma sim_parse_width P flags format va :
  sim (W1 := W1) (W2 := W2) true P (parse_width flags format va) (parse_width flags format va)
    (fun r w1 w2 => (0 <= r.1.1.1 < 2 ^ 32 /\ (length r.1.2 <= length format)%nat) /\ P w1 w2).
Proof using Type.
  pose proof (length_tail format). unfold parse_width.
  eapply sim_bind; [apply sim_load|]. intros c. apply sim_pure. intros _.
  apply sim_if; intros _.
  - eapply sim_bind; [by apply sim_atoi_loop|]. intros [width fmt]. apply sim_pure. intros [? ?].
    by apply sim_ret.
  - apply sim_if; intros _; [|by apply sim_ret; auto].
    eapply sim_bind; [apply sim_va_word|]. intros [w va']. apply sim_pure. intros _.
    apply sim_ret. intros w1 w2 HP. split; [|done].
    destruct (_ <? 0); simpl; (split; [by apply wrapu_range|done]).
Qed.

Lemma sim_parse_precision P flags format va :
  sim (W1 := W1) (W2 := W2) true P (parse_precision flags format va) (parse_precision flags format va)
    (fun r w1 w2 => (0 <= r.1.1.1 < 2 ^ 32 /\ (length r.1.2 <= length format)%nat) /\ P w1 w2).
Proof using Type.
  pose proof (length_tail format). pose proof (length_tail (tail format)). unfold parse_precision.
  eapply sim_bind; [apply sim_load|]. intros c. apply sim_pure. intros _.
  apply sim_if; intros _; [|by apply sim_ret; auto].
  eapply sim_bind; [apply sim_load|]. intros c'. apply sim_pure. intros _.
  apply sim_if; intros _; [|apply sim_if; intros _].
  - eapply sim_bind; [by apply sim_atoi_loop|]. intros [prec fmt]. apply sim_pure. intros [? ?].
    apply sim_ret. intros w1 w2 HP. split; [|done]. simpl in *. split; [done|lia].
  - eapply sim_bind; [apply sim_va_word|]. intros [w va']. apply sim_pure. intros _.
    apply sim_ret. intros w1 w2 HP. split; [|done]. simpl. split; [|lia].
    destruct (0 <? _); [by apply wrapu_range|lia].
  - apply sim_ret. intros w1 w2 HP. split; [|done]. simpl. lia.
Qed.

Lemma sim_parse_length P flags format :
  sim (W1 := W1) (W2 := W2) true P (parse_length flags format) (parse_length flags format)
    (fun r w1 w2 => (length r.2 <= length format)%nat /\ P w1 w2).
Proof using Type.
  pose proof (length_tail format). pose proof (length_tail (tail format)). unfold parse_length.
  eapply sim_bind; [apply sim_load|]. intros c. apply sim_pure. intros _.
  repeat (apply sim_if; intros _;
    [first [by apply sim_ret; auto
           |eapply sim_bind; [apply sim_load|]; intros c'; apply sim_pure; intros _;
            apply sim_ret; intros w1 w2 HP; split; [|done]; destruct (_ =? _); simpl; lia]|]).
  by apply sim_ret; auto.
Qed.

(** ** Specifiers *)

(** A routine that cannot fault, where faults are allowed. *)
Lemma sim_total {A} P (m1 : M W1 A) (m2 : M W2 A) Q : sim false P m1 m2 Q -> sim true P m1 m2 Q.
Proof using Type. intros Hm. by eapply sim_weaken. Qed.

(** Convert a number that was read, and return the rest of the arguments. *)
Lemma sim_ntoa_ret idx value negative base prec width flags (va : list va_value) :
  0 <= width < 2 ^ 32 ->
  sim true (R idx)
    (idx ← ntoa out1 n1 idx value negative base prec width flags; mret (idx, va))
    (idx ← ntoa out2 n2 idx value negative base prec width flags; mret (idx, va))
    (fun r => R r.1).
Proof using Hout.
  intros Hw. eapply sim_bind; [by apply sim_total, sim_ntoa|]. intros idx'. by apply sim_ret.
Qed.

Lemma sim_conv_int c flags width precision idx va :
  0 <= width < 2 ^ 32 ->
  sim true (R idx) (conv_int out1 n1 c flags width precision idx va)
    (conv_int out2 n2 c flags width precision idx va) (fun r => R r.1).
Proof using Hout.
  intros Hw. unfold conv_int, _ntoa_long, _ntoa_long_long.
  repeat (apply sim_if; intros _);
    (eapply sim_bind; [first [apply sim_va_long_long|apply sim_va_word]|]);
    intros [v va']; try (apply sim_pure; intros _); by apply sim_ntoa_ret.
Qed.

Lemma sim_conv_char flags width idx va :
  0 <= width < 2 ^ 32 ->
  sim true (R idx) (conv_char out1 n1 flags width idx va) (conv_char out2 n2 flags width idx va)
    (fun r => R r.1).
Proof using Hout.
  intros Hw. unfold conv_char. eapply (sim_bind _ _ _ _ _ _ R).
  { apply sim_if; intros _; [apply sim_total, sim_pad_from; lia|by apply sim_ret]. }
  intros idx1. eapply sim_bind; [apply sim_va_word|]. intros [v va']. apply sim_pure. intros _.
  eapply sim_bind; [apply sim_total, sim_emit|]. intros idx2. eapply (sim_bind _ _ _ _ _ _ R).
  { apply sim_if; intros _; [apply sim_total, sim_pad_from; lia|by apply sim_ret]. }
  intros idx3. by apply sim_ret.
Qed.

Lemma sim_out_string flags precision p idx :
  sim true (R idx) (out_string out1 n1 flags precision p idx)
    (out_string out2 n2 flags precision p idx) R.
Proof using Hout.
  revert precision idx. induction p as [|c p IH]; intros precision idx; [done|].
  cbn [out_string]. apply sim_if; intros _; [|by apply sim_ret].
  eapply sim_bind; [apply sim_total, sim_emit|]. intros idx'. apply IH.
Qed.

Lemma sim_conv_text p flags width precision idx :
  0 <= width < 2 ^ 32 -> 0 <= precision ->
  sim true (R idx) (conv_text out1 n1 p flags width precision idx)
    (conv_text out2 n2 p flags width precision idx) R.
Proof using Hout.
  intros Hw Hp. unfold conv_text. eapply sim_bind; [apply sim_strnlen|].
  intros l0. apply sim_pure. intros Hl0.
  set (l := if has flags FLAGS_PRECISION then if l0 <? precision then l0 else precision else l0).
  assert (0 <= l) as Hl by (unfold l; repeat case_match; lia).
  eapply (sim_bind _ _ _ _ _ _ R).
  { apply sim_if; intros _; [apply sim_total, sim_pad_from; lia|by apply sim_ret]. }
  intros idx1. eapply sim_bind; [apply sim_out_string|]. intros idx2.
  apply sim_if; intros _; [apply sim_total, sim_pad_from; lia|by apply sim_ret].
Qed.

Lemma sim_conv_size flags width precision idx va :
  0 <= width < 2 ^ 32 ->
  sim true (R idx) (conv_size out1 n1 flags width precision idx va)
    (conv_size out2 n2 flags width precision idx va) (fun r => R r.1).
Proof using Hout.
  intros Hw. unfold conv_size, _ntoa_long. eapply sim_bind; [apply sim_va_word|].
  intros [v va']. apply sim_pure. intros _. destruct (size_scale 6 v 0 0) as [[i div] rem].
  eapply sim_bind; [by apply sim_total, sim_ntoa|]. intros idx1.
  eapply (sim_bind _ _ _ _ _ _ R).
  { apply sim_if; intros _; [|by apply sim_ret].
    eapply sim_bind; [apply sim_total, sim_emit|]. intros idx2. by apply sim_total, sim_ntoa. }
  intros idx2. eapply (sim_bind _ _ _ _ _ _ (fun _ => R idx2)).
  { destruct (sizes !! _); [by apply sim_ret|done]. }
  intros s. eapply sim_bind; [apply sim_out_string|]. intros idx3. by apply sim_ret.
Qed.

Lemma sim_specifier c flags width precision idx va :
  0 <= width < 2 ^ 32 -> 0 <= precision ->
  sim true (R idx) (specifier out1 n1 c flags width precision idx va)
    (specifier out2 n2 c flags width precision idx va) (fun r => R r.1).
Proof using Hout.
  intros Hw Hp. unfold specifier.
  apply sim_if; intros _; [by apply sim_conv_int|].
  apply sim_if; intros _; [by apply sim_conv_char|].
  apply sim_if; intros _; [by apply sim_conv_size|].
  apply sim_if; intros _.
  { unfold conv_err. eapply sim_bind; [apply sim_va_word|]. intros [e va']. apply sim_pure.
    intros _. eapply sim_bind; [by apply sim_conv_text|]. intros idx'. by apply sim_ret. }
  apply sim_if; intros _.
  { unfold conv_str. eapply sim_bind; [apply sim_va_str|]. intros [p va'].
    eapply sim_bind; [by apply sim_conv_text|]. intros idx'. by apply sim_ret. }
  apply sim_if; intros _.
  { unfold conv_ptr. eapply sim_bind; [apply sim_va_word|]. intros [v va']. apply sim_pure.
    intros _. by apply sim_ntoa_ret. }
  apply sim_if; intros _;
    (eapply sim_bind; [apply sim_total, sim_emit|]; intros idx'; by apply sim_ret).
Qed.

(** ** The interpreter: the fuel is always enough *)
Lemma tail_shorter {A} (l : list A) x : head l = Some x -> (length (tail l) < length l)%nat.
Proof using Type. destruct l; simpl; [done|lia]. Qed.

Lemma sim_vsnprintf_loop fuel format va idx :
  (length format < fuel)%nat ->
  sim true (R idx) (vsnprintf_loop out1 n1 fuel format va idx)
    (vsnprintf_loop out2 n2 fuel format va idx) R.
Proof using Hout.
  revert format va idx. induction fuel as [|fuel IH]; intros format va idx Hf; [lia|].
  cbn [vsnprintf_loop]. eapply sim_bind; [apply sim_load|]. intros c. apply sim_pure.
  intros Hc%tail_shorter. apply sim_if; intros _; [by apply sim_ret|]. apply sim_if; intros _.
  { eapply sim_bind; [apply sim_total, sim_emit|]. intros idx'. apply IH. lia. }
  eapply sim_bind; [apply sim_parse_flags|]. intros [flags1 fmt1]. apply sim_pure. intros H1.
  eapply sim_bind; [apply sim_parse_width|]. intros [[[width flags2] fmt2] va2]. apply sim_pure.
  intros [Hw H2]. eapply sim_bind; [apply sim_parse_precision|].
  intros [[[precision flags3] fmt3] va3]. apply sim_pure. intros [Hp H3].
  eapply sim_bind; [apply sim_parse_length|]. intros [flags4 fmt4]. apply sim_pure. intros H4.
  eapply sim_bind; [apply sim_load|]. intros c'. apply sim_pure. intros _. cbn [fst snd] in *.
  eapply sim_bind; [apply sim_specifier; lia|]. intros [idx' va'].
  apply IH. pose proof (length_tail fmt4). lia.
Qed.
End Routines.
