(* ===== verification/PrintfSpec.v ===== *)
(** * What the printf family promises

    The reference is [render]: the characters a format and its arguments stand for, obtained
    with an output function that only records them. The buffer and console versions are
    shown to write exactly that text, truncated and terminated where there is a bound; then
    the text of the integer conversions, of sizes and of bounded strings. *)
From Stdlib Require Import ZArith Lia Ascii String.
From stdpp Require Import base tactics numbers list gmap.
From S2P Require Import Prelude Printf PrintfSim.

(** ** The text of a format *)
Definition record : out_fct_type (list Z) := fun c _ _ => modify (fun text => text ++ [c]).

Definition render (format : list Z) (va : list va_value) : outcome (list Z) Z :=
  vsnprintf_loop record 0 (S (length format)) format va 0 [].

Lemma u32_succ n : u32 (u32 n + 1) = u32 (n + 1).
Proof. unfold wrapu. apply Zplus_mod_idemp_l. Qed.

(** ** A buffer *)

(** The buffer after the first [k] characters of [text] went into [mem]. *)
Definition overlay (k : Z) (text mem : list Z) : list Z :=
  take (Z.to_nat k) text ++ drop (Z.to_nat k) mem.

(** What a call leaves in a buffer of [count] bytes: as much of the text as fits before the
    terminating zero. *)
Definition store (count : Z) (text mem : list Z) : list Z :=
  if count =? 0 then mem
  else let k := Z.min (count - 1) (len text) in <[Z.to_nat k := 0]> (overlay k text mem).

(** The buffer agrees with the characters recorded so far. *)
Definition in_buffer (count : Z) (mem : list Z) (idx : Z) (buf text : list Z) : Prop :=
  idx = u32 (len text) /\ length buf = length mem /\
  (len text < 2 ^ 32 -> buf = overlay (Z.min count (len text)) text mem).

Lemma len_app (l1 l2 : list Z) : len (l1 ++ l2) = len l1 + len l2.
Proof. unfold len. rewrite length_app. lia. Qed.

Lemma overlay_snoc count text mem c :
  0 <= count <= len mem -> len text < count ->
  <[Z.to_nat (len text) := c]> (overlay (Z.min count (len text)) text mem) =
  overlay (Z.min count (len (text ++ [c]))) (text ++ [c]) mem.
Proof.
  intros Hc Hl. rewrite len_app. change (len [c]) with 1. rewrite !Z.min_r by lia.
  unfold overlay, len in *. replace (Z.to_nat (Z.of_nat (length text) + 1)) with (S (length text)) by lia.
  rewrite Nat2Z.id, firstn_all.
  destruct (lookup_lt_is_Some_2 mem (length text)) as [y Hy]; [lia|].
  rewrite (drop_S mem y _ Hy), insert_middle.
  rewrite (take_ge (text ++ [c])) by (rewrite length_app; simpl; lia).
  by rewrite <- app_assoc.
Qed.

Lemma overlay_full count text mem c :
  0 <= count -> count <= len text ->
  overlay (Z.min count (len text)) text mem =
  overlay (Z.min count (len (text ++ [c]))) (text ++ [c]) mem.
Proof.
  intros Hc Hl. rewrite len_app. change (len [c]) with 1. rewrite !Z.min_l by lia.
  unfold overlay, len in *. by rewrite take_app_le by lia.
Qed.

Lemma buffer_step count mem c idx buf text :
  0 <= count < 2 ^ 32 -> count <= len mem -> in_buffer count mem idx buf text ->
  exists buf' text', _out_buffer c idx count buf = Ok tt buf' /\
    record c idx 0 text = Ok tt text' /\ in_buffer count mem (u32 (idx + 1)) buf' text'.
Proof.
  intros Hc Hm (-> & Hl & Hb).
  assert (u32 (u32 (len text) + 1) = u32 (len (text ++ [c]))) as Hidx
    by (rewrite u32_succ, len_app; done).
  assert (0 <= len text) as Hpos by (unfold len; lia).
  pose proof (wrapu_range 32 (len text) ltac:(lia)) as Hr.
  unfold _out_buffer. destruct (Z.ltb_spec (u32 (len text)) count) as [Hlt|Hge].
  - destruct (lookup_lt_is_Some_2 buf (Z.to_nat (u32 (len text)))) as [y Hy];
      [unfold len in *; lia|].
    eexists _, _. split; [|split; [reflexivity|]].
    { mrun. rewrite Hy. mrun. reflexivity. }
    rewrite Hidx. split; [done|]. split; [by rewrite length_insert|].
    intros Hlen. rewrite len_app in Hlen. change (len [c]) with 1 in Hlen.
    rewrite (wrapu_small 32 (len text)) in Hlt |- * by lia.
    rewrite Hb by lia. apply overlay_snoc; lia.
  - eexists _, _. split; [reflexivity|]. split; [reflexivity|].
    rewrite Hidx. split; [done|]. split; [done|].
    intros Hlen. rewrite len_app in Hlen. change (len [c]) with 1 in Hlen.
    rewrite (wrapu_small 32 (len text)) in Hge by lia. rewrite Hb by lia.
    apply overlay_full; lia.
Qed.

Section Buffer.
Context (count : Z) (format : list Z) (va : list va_value) (mem : list Z).
Hypothesis (Hc : 0 <= count < 2 ^ 32) (Hm : count <= len mem).

(** The two runs, side by side. *)
Lemma buffer_run :
  match render format va with
  | Ok idx text => exists buf,
      vsnprintf_loop _out_buffer count (S (length format)) format va 0 mem = Ok idx buf /\
      in_buffer count mem idx buf text
  | Stop w _ => w = Fault /\ exists buf,
      vsnprintf_loop _out_buffer count (S (length format)) format va 0 mem = Stop Fault buf
  end.
Proof using Hc Hm.
  assert (in_buffer count mem 0 mem []) as H0.
  { split; [done|]. split; [done|]. intros _. unfold overlay. change (len []) with 0.
    rewrite Z.min_r by lia. done. }
  pose proof (sim_vsnprintf_loop _out_buffer record count 0 (in_buffer count mem)
    (fun c idx buf text => buffer_step count mem c idx buf text Hc Hm)
    (S (length format)) format va 0 ltac:(lia) mem [] H0) as Hsim.
  unfold render. destruct (vsnprintf_loop record _ _ _ _ _ _) as [idx text|w text];
    destruct (vsnprintf_loop _out_buffer _ _ _ _ _ _) as [idx' buf|w' buf]; try done;
    [|by destruct w'|].
  - destruct Hsim as [<- Hbuf]. eauto.
  - destruct w', w; try done. eauto.
Qed.

(** The terminating zero over the last character that does not fit. *)
Lemma terminate_overlay text :
  0 < count -> let k := Z.min (count - 1) (len text) in
  <[Z.to_nat k := 0]> (overlay (Z.min count (len text)) text mem) =
  <[Z.to_nat k := 0]> (overlay k text mem).
Proof using Hc Hm.
  intros Hpos k. unfold k. assert (0 <= len text) by (unfold len; lia).
  destruct (decide (len text < count)) as [Hlt|Hge]; [by rewrite !Z.min_r by lia|].
  rewrite (Z.min_l count), (Z.min_l (count - 1)) by lia. unfold overlay, len in *.
  replace (Z.to_nat count) with (S (Z.to_nat (count - 1))) by lia.
  set (j := Z.to_nat (count - 1)).
  destruct (lookup_lt_is_Some_2 text j) as [z Hz]; [lia|].
  destruct (lookup_lt_is_Some_2 mem j) as [z' Hz']; [lia|].
  rewrite (take_S_r _ _ _ Hz), (drop_S _ _ _ Hz'), <- app_assoc.
  assert (length (take j text) = j) as Hj by (rewrite length_take; lia).
  cbn [app]. by rewrite !insert_at.
Qed.

Lemma vsnprintf_into idx text :
  render format va = Ok idx text -> len text < 2 ^ 32 ->
  idx = len text /\
  vsnprintf_ false count format va mem = Ok (s32 (len text)) (store count text mem).
Proof using Hc Hm.
  intros Hr Htext. pose proof buffer_run as Hrun. rewrite Hr in Hrun.
  destruct Hrun as (buf & E & Hidx & Hlen & Hbuf). specialize (Hbuf Htext).
  assert (0 <= len text) as Hpos by (unfold len; lia).
  rewrite wrapu_small in Hidx by lia. split; [done|]. unfold vsnprintf_, _vsnprintf.
  mrun E. subst idx. unfold store. destruct (Z.eqb_spec count 0) as [Hz|Hnz].
  { mfirst.
    { unfold _out_buffer. rewrite Hz. destruct (Z.ltb_spec (len text) 0); [lia|].
      change (u32 (0 - 1) <? 0) with false. cbv beta iota. reflexivity. }
    rewrite Hbuf, Hz. unfold overlay. rewrite Z.min_l by lia. done. }
  set (k := Z.min (count - 1) (len text)).
  assert ((if len text <? count then len text else u32 (count - 1)) = k) as ->.
  { unfold k. destruct (Z.ltb_spec (len text) count); [lia|]. rewrite wrapu_small by lia. lia. }
  destruct (lookup_lt_is_Some_2 buf (Z.to_nat k)) as [y Hy]; [unfold len in *; lia|].
  mfirst.
  { unfold _out_buffer. rewrite (proj2 (Z.ltb_lt k count)) by lia.
    mrun. rewrite Hy. mrun. reflexivity. }
  rewrite Hbuf. unfold k. rewrite terminate_overlay by lia. done.
Qed.
End Buffer.

(** C19: vsnprintf into a buffer refines the text of the format. Whatever the format and the
    arguments, the call ends; into a buffer of [count] bytes it writes the first
    [count - 1] characters of the text and a terminating zero, never touches the memory
    behind them, writes nothing when [count] is zero, and returns the length of the whole
    text. The only undefined behaviour is the one the text itself has (a format or string
    read past its end, a missing argument). *)
Theorem vsnprintf_refines count format va mem :
  0 <= count < 2 ^ 32 -> count <= len mem ->
  match render format va with
  | Ok idx text =>
      len text < 2 ^ 32 ->
      idx = len text /\
      vsnprintf_ false count format va mem = Ok (s32 (len text)) (store count text mem)
  | Stop w _ =>
      w = Fault /\ exists mem', vsnprintf_ false count format va mem = Stop Fault mem'
  end.
Proof.
  intros Hc Hm. destruct (render format va) as [idx text|w text] eqn:Hr.
  - by apply vsnprintf_into.
  - pose proof (buffer_run count format va mem Hc Hm) as Hrun. rewrite Hr in Hrun.
    destruct Hrun as (-> & buf & E). split; [done|]. exists buf. by apply bind_stop.
Qed.

(** ** The console *)

(** A sink: whatever takes characters one by one. [P l w]: it has taken [l]. *)
Lemma printf_sink {W} (fct : Z -> M W unit) (P : list Z -> W -> Prop) format va w :
  (forall c l w, P l w -> exists w', fct c w = Ok tt w' /\ P (l ++ [c]) w') -> P [] w ->
  match render format va with
  | Ok _ text => exists w', printf_ fct format va w = Ok (s32 (u32 (len text))) w' /\
      P (filter (fun c => c <> 0) text) w'
  | Stop st _ => st = Fault /\ exists w', printf_ fct format va w = Stop Fault w'
  end.
Proof.
  intros Hfct HP.
  set (R := fun (idx : Z) (o : W) (text : list Z) =>
    idx = u32 (len text) /\ P (filter (fun c => c <> 0) text) o).
  assert (forall c idx o text, R idx o text -> exists o' text',
    _out_char fct c idx (2 ^ 32 - 1) o = Ok tt o' /\ record c idx 0 text = Ok tt text' /\
    R (u32 (idx + 1)) o' text') as Hstep.
  { intros c idx o text [-> Ho]. unfold _out_char. destruct (Z.eqb_spec c 0) as [->|Hc]; cbn [negb].
    - exists o, (text ++ [0]). split; [done|]. split; [done|].
      split; [by rewrite u32_succ, len_app|]. rewrite filter_app.
      change (filter (fun c => c <> 0) [0]) with (@nil Z). by rewrite app_nil_r.
    - destruct (Hfct c _ _ Ho) as (o' & E & Ho'). exists o', (text ++ [c]).
      split; [done|]. split; [done|]. split; [by rewrite u32_succ, len_app|].
      rewrite filter_app, (filter_cons_True _ c) by done. done. }
  pose proof (sim_vsnprintf_loop _ record _ 0 R Hstep (S (length format)) format va 0
    ltac:(lia) w [] (conj eq_refl HP)) as Hsim.
  unfold render, printf_, _vsnprintf.
  destruct (vsnprintf_loop record _ _ _ _ _ _) as [idx text|st text];
    destruct (vsnprintf_loop (_out_char _) _ _ _ _ _ _) as [idx' o|st' o] eqn:E; try done;
    [|by destruct st'|].
  - destruct Hsim as [<- [-> Ho]]. exists o. split; [|done]. mrun E. reflexivity.
  - destruct st', st; try done. split; [done|]. exists o. by apply bind_stop.
Qed.

(** A console that keeps what it printed. *)
Definition putchar_log (c : Z) : M (list Z) unit := modify (fun l => l ++ [c]).

(** printf sends the text of the format to the console, character by character in order,
    leaving out zero bytes, and returns its length (modulo 2^32, as an int); the same holds
    of fctprintf. Where the text is undefined, so is the call; it never runs for ever. *)
Theorem printf_console format va out :
  match render format va with
  | Ok idx text =>
      printf_ putchar_log format va out =
        Ok (s32 (u32 (len text))) (out ++ filter (fun c => c <> 0) text) /\
      fctprintf putchar_log format va out = printf_ putchar_log format va out
  | Stop w _ =>
      w = Fault /\ exists out', printf_ putchar_log format va out = Stop Fault out'
  end.
Proof.
  pose proof (printf_sink putchar_log (fun l o => o = out ++ l) format va out) as H.
  destruct (render format va) as [idx text|st text].
  - destruct H as (w' & E & ->); [|by rewrite app_nil_r|done].
    intros c l w ->. eexists. split; [reflexivity|]. by rewrite <- (assoc_L (++)).
  - apply H; [|by rewrite app_nil_r].
    intros c l w ->. eexists. split; [reflexivity|]. by rewrite <- (assoc_L (++)).
Qed.

(** ** Digits *)

(** An output function that always returns. *)
Definition out_returns {W} (out : out_fct_type W) (maxlen : Z) : Prop :=
  forall c idx w, exists w', out c idx maxlen w = Ok tt w'.

(** The conversion of a number to text returns for every value, base, precision, width
    (up to the 32-bit maximum) and flags: its 65-byte buffer is never overrun, whatever
    padding or prefix is asked for, and its loops end. *)
Theorem ntoa_in_bounds {W} (out : out_fct_type W) maxlen idx value negative base prec width flags w :
  out_returns out maxlen -> 0 <= width < 2 ^ 32 ->
  (exists idx' w', _ntoa_long out maxlen idx value negative base prec width flags w = Ok idx' w') /\
  (exists idx' w', _ntoa_long_long out maxlen idx value negative base prec width flags w = Ok idx' w').
Proof.
  intros Hout Hw.
  assert (forall c idx (w1 w2 : W), w1 = w2 -> exists w1' w2', out c idx maxlen w1 = Ok tt w1' /\
    out c idx maxlen w2 = Ok tt w2' /\ w1' = w2') as Hstep.
  { intros c i w1 w2 ->. destruct (Hout c i w2) as [w' E]. eauto. }
  pose proof (fun v => sim_ntoa out out maxlen maxlen (fun _ => eq) Hstep idx v negative base prec
    width flags Hw w w eq_refl) as Hsim.
  unfold _ntoa_long, _ntoa_long_long. split.
  - specialize (Hsim (u32 value)). destruct (ntoa _ _ _ _ _ _ _ _ _ w) as [i w'|[] ?]; naive_solver.
  - specialize (Hsim (u64 value)). destruct (ntoa _ _ _ _ _ _ _ _ _ w) as [i w'|[] ?]; naive_solver.
Qed.

(** The value of a digit character, and of a text of digits. *)
Definition digit_value (c : Z) : Z :=
  if c <? 58 then c - 48 else if c <? 91 then c - 55 else c - 87.

Definition read_nat (base : Z) (text : list Z) : Z :=
  foldl (fun acc c => acc * base + digit_value c) 0 text.

Definition read_int (base : Z) (text : list Z) : Z :=
  match text with
  | c :: ds => if c =? 45 then - read_nat base ds else read_nat base text
  | [] => 0
  end.

Definition is_digit_of (base c : Z) : Prop := c <> 45 /\ c <> 0 /\ 0 <= digit_value c < base.

(** A text of digits with no superfluous leading zero. *)
Definition canonical (base : Z) (ds : list Z) : Prop :=
  ds <> [] /\ Forall (is_digit_of base) ds /\ (head ds = Some 48 -> ds = [48]).

Lemma read_nat_app base l1 l2 :
  read_nat base (l1 ++ l2) = foldl (fun acc c => acc * base + digit_value c) (read_nat base l1) l2.
Proof. unfold read_nat. by rewrite foldl_app. Qed.

Lemma ntoa_digit_spec flags d base :
  0 <= d < base -> base <= 16 ->
  0 <= ntoa_digit flags d < 256 /\ digit_value (ntoa_digit flags d) = d /\
  is_digit_of base (ntoa_digit flags d) /\ (ntoa_digit flags d = 48 -> d = 0).
Proof.
  intros Hd Hb. unfold is_digit_of, ntoa_digit, digit_value.
  destruct (Z.ltb_spec d 10); [|destruct (has flags FLAGS_UPPERCASE)];
    repeat case_match; split_and!; lia.
Qed.

Section Digits.
Context {W : Type}.
Implicit Types (w : W).

Lemma push_ok c buf w : len buf < PRINTF_NTOA_BUFFER_SIZE -> push c buf w = Ok (u8 c :: buf) w.
Proof. intros H. unfold push. by rewrite (proj2 (Z.ltb_lt _ _) H). Qed.

(** The digit loop writes the canonical digits of the value in front of the buffer. *)
Lemma ntoa_loop_digits fuel flags base value buf k :
  2 <= base <= 16 -> 0 <= value < base ^ k -> 1 <= k -> k <= Z.of_nat fuel ->
  len buf + k <= PRINTF_NTOA_BUFFER_SIZE ->
  exists ds, (forall w, ntoa_loop fuel flags base value buf w = Ok (ds ++ buf) w) /\
    canonical base ds /\ read_nat base ds = value /\ len ds <= k.
Proof.
  intros Hb. revert value buf k. induction fuel as [|fuel IH]; intros value buf k Hv Hk Hf Hl; [lia|].
  pose proof (Z.mod_pos_bound value base ltac:(lia)) as Hm.
  pose proof (Z.div_mod value base ltac:(lia)) as Hdm.
  cbn [ntoa_loop]. rewrite (wrapu_small 8) by lia.
  destruct (ntoa_digit_spec flags (value mod base) base Hm ltac:(lia)) as (Hr & Hval & Hdig & Hz).
  set (c := ntoa_digit flags (value mod base)) in *.
  assert (len (c :: buf) = len buf + 1) as Hlen by (unfold len; simpl; lia).
  destruct (Z.eqb_spec (value / base) 0) as [E|E]; cbn [negb andb].
  - exists [c]. split.
    { intros w. rewrite (bind_ok _ _ _ _ _ (push_ok c buf w ltac:(lia))), (wrapu_small 8 c) by lia.
      done. }
    split; [|split].
    + split; [done|]. split; [by constructor|]. intros [= ->]. done.
    + unfold read_nat. simpl. rewrite Hval. lia.
    + unfold len. simpl. lia.
  - assert (0 <= value / base) by (apply Z.div_pos; lia).
    assert (value / base < base ^ (k - 1)) as Hlt.
    { apply Z.div_lt_upper_bound; [lia|]. rewrite <- Z.pow_succ_r by lia.
      replace (Z.succ (k - 1)) with k by lia. lia. }
    assert (2 <= k) as Hk2.
    { destruct (decide (k = 1)) as [->|]; [|lia]. change (base ^ (1 - 1)) with 1 in Hlt. lia. }
    destruct (IH (value / base) (c :: buf) (k - 1)) as (ds & E1 & (Hne & Hds & Hcan) & Hread & Hlds);
      [lia..|].
    exists (ds ++ [c]). split.
    { intros w. rewrite (bind_ok _ _ _ _ _ (push_ok c buf w ltac:(lia))), (wrapu_small 8 c) by lia.
      rewrite Hlen, (proj2 (Z.ltb_lt _ _)) by lia. by rewrite E1, <- (assoc_L (++)). }
    split; [|split].
    + split; [by destruct ds|]. split; [by apply Forall_app; split; [|constructor]|].
      destruct ds as [|d ds]; [done|]. simpl. intros [= ->]. specialize (Hcan eq_refl).
      injection Hcan as ->. unfold read_nat in Hread. simpl in Hread. change (digit_value 48) with 0 in Hread. lia.
    + rewrite read_nat_app, Hread. simpl. lia.
    + rewrite len_app. change (len [c]) with 1. lia.
Qed.
End Digits.

Lemma emit_record c idx text : emit record 0 c idx text = Ok (u32 (idx + 1)) (text ++ [c]).
Proof. done. Qed.

Lemma out_reversed_record buf idx text :
  idx = u32 (len text) -> out_reversed record 0 buf idx text = Ok (u32 (len (text ++ buf))) (text ++ buf).
Proof.
  revert idx text. induction buf as [|c buf IH]; intros idx text ->; [by rewrite app_nil_r|].
  cbn [out_reversed]. mrun emit_record. rewrite IH.
  - by rewrite <- (assoc_L (++)).
  - by rewrite len_app, u32_succ.
Qed.

(** Neither padding, nor sign, nor prefix. *)
Definition plain (flags : Z) : Prop :=
  has flags FLAGS_LEFT = false /\ has flags FLAGS_ZEROPAD = false /\ has flags FLAGS_PLUS = false /\
  has flags FLAGS_SPACE = false /\ has flags FLAGS_HASH = false /\ has flags FLAGS_PRECISION = false.

Lemma has_testbit flags k : 0 <= k -> has flags (1 .<< k) = Z.testbit flags k.
Proof.
  intros Hk. unfold has. destruct (Z.testbit flags k) eqn:E.
  - apply negb_true_iff, Z.eqb_neq. intros H.
    assert (Z.testbit (flags .& (1 .<< k)) k = true) as Ht
      by (by rewrite Z.land_spec, testbit_1_shiftl, E, Z.eqb_refl by lia).
    by rewrite H, Z.bits_0 in Ht.
  - apply negb_false_iff, Z.eqb_eq. apply Z.bits_inj'. intros i Hi.
    rewrite Z.land_spec, testbit_1_shiftl, Z.bits_0 by lia.
    destruct (Z.eqb_spec k i); [subst; by rewrite E|by rewrite andb_false_r].
Qed.

(** Clearing FLAGS_HASH clears no other flag. *)
Lemma has_clear_hash flags k :
  0 <= k < 32 -> has flags (1 .<< k) = false ->
  has (flags .& u32 (.~ FLAGS_HASH)) (1 .<< k) = false.
Proof.
  intros Hk. rewrite !has_testbit by lia. intros H. by rewrite Z.land_spec, H.
Qed.

Lemma plain_clear_hash flags : plain flags -> plain (flags .& u32 (.~ FLAGS_HASH)).
Proof.
  intros (? & ? & ? & ? & ? & ?). split_and!; by apply has_clear_hash.
Qed.

Lemma pad_from_none {W} (out : out_fct_type W) maxlen from width idx w :
  width <= from -> pad_from out maxlen from width idx w = Ok idx w.
Proof.
  intros H. unfold pad_from. mfirst.
  { assert ((from <? width) = false) as Hc by lia.
    erewrite mwhile_step by (cbv beta iota; rewrite Hc; reflexivity). reflexivity. }
  reflexivity.
Qed.

Lemma push_zeros_none {W} b bound buf (w : W) :
  b && (len buf <? bound) = false -> push_zeros b bound buf w = Ok buf w.
Proof.
  intros H. unfold push_zeros.
  erewrite mwhile_step by (cbv beta; rewrite H; reflexivity). reflexivity.
Qed.

(** A plain conversion: sign and digits, recorded after the text so far. *)
Lemma ntoa_plain flags value negative base :
  plain flags -> 2 <= base <= 16 -> 0 <= value < 2 ^ 64 ->
  exists ds, canonical base ds /\ read_nat base ds = value /\ len ds <= 64 /\
    let t := (if negative : bool then [45] else []) ++ ds in
    forall idx text, idx = u32 (len text) ->
    ntoa record 0 idx value negative base 0 0 flags text =
      Ok (u32 (len (text ++ t))) (text ++ t).
Proof.
  intros Hplain Hb Hv. unfold ntoa.
  set (flags' := if value =? 0 then _ else flags).
  assert (plain flags') as (HL & HZ & HP & HS & HH & HPr)
    by (unfold flags'; destruct (value =? 0); [by apply plain_clear_hash|done]).
  clearbody flags'.
  destruct (ntoa_loop_digits (W := list Z) (Z.to_nat PRINTF_NTOA_BUFFER_SIZE) flags' base value [] 64)
    as (ds & E & Hcan & Hread & Hlen); [done|..].
  { split; [lia|]. apply Z.lt_le_trans with (2 ^ 64); [lia|]. apply Z.pow_le_mono_l. lia. }
  { lia. } { vm_compute. discriminate. } { vm_compute. discriminate. }
  exists ds. split; [done|]. split; [done|]. split; [done|].
  intros idx text Hidx. set (t := (if negative then [45] else []) ++ ds).
  rewrite app_nil_r in E. rewrite HPr. cbn [negb orb]. mrun E.
  unfold _ntoa_format. rewrite HL, HZ, HP, HS, HH. cbn [negb].
  assert (0 <= len ds) as Hpos by (unfold len; lia).
  mfirst.
  { cbn [Z.eqb negb andb]. mrun push_zeros_none. { lia. } mrun push_zeros_none. { done. }
    reflexivity. }
  cbv iota. mrun. assert (len ds < PRINTF_NTOA_BUFFER_SIZE) as Hlt
    by (unfold PRINTF_NTOA_BUFFER_SIZE; lia).
  rewrite (proj2 (Z.ltb_lt _ _) Hlt).
  mfirst. { instantiate (1 := text). instantiate (1 := t).
    unfold t. destruct negative; [by rewrite push_ok|done]. }
  unfold _out_rev. rewrite HL, HZ. cbn [negb andb].
  mrun pad_from_none. { unfold len. lia. }
  mrun out_reversed_record. { done. } reflexivity.
Qed.

(** ** The integer conversions *)

(** The text that stands for a number: a minus sign when it is negative, then the canonical
    digits of its magnitude. Reading it back gives the number. *)
Definition number_text (base value : Z) (text : list Z) : Prop :=
  read_int base text = value /\
  exists ds, canonical base ds /\ text = (if value <? 0 then [45] else []) ++ ds.

Lemma number_text_intro base value ds :
  canonical base ds -> read_nat base ds = Z.abs value ->
  number_text base value ((if value <? 0 then [45] else []) ++ ds).
Proof.
  intros Hcan Hread. split; [|by exists ds]. destruct (Z.ltb_spec value 0); simpl.
  - rewrite Hread. lia.
  - destruct Hcan as (Hne & Hds & _). destruct ds as [|d ds]; [done|].
    apply Forall_cons in Hds as [(Hd & _) _]. simpl. rewrite (proj2 (Z.eqb_neq _ _) Hd), Hread. lia.
Qed.

Definition int_specifiers : list Z := [100; 105; 117; 120; 88; 111; 98].

Ltac int_cases H :=
  unfold int_specifiers in H; rewrite !elem_of_cons, elem_of_nil in H;
  destruct_or! H; try done; subst.

Lemma int_base_range c : 2 <= int_base c <= 16.
Proof. unfold int_base. repeat case_match; lia. Qed.

Lemma int_flags_plain c flags :
  c ∈ int_specifiers -> flags = 0 \/ flags = FLAGS_LONG .| FLAGS_LONG_LONG ->
  plain (int_flags c flags) /\
  has (int_flags c flags) FLAGS_LONG_LONG = has flags FLAGS_LONG_LONG /\
  has (int_flags c flags) FLAGS_LONG = has flags FLAGS_LONG /\
  has (int_flags c flags) FLAGS_CHAR = false /\ has (int_flags c flags) FLAGS_SHORT = false.
Proof. intros Hc [->| ->]; int_cases Hc; by vm_compute. Qed.

Lemma magnitude_abs w value :
  1 <= w -> - 2 ^ (w - 1) <= value < 2 ^ (w - 1) -> magnitude w value = Z.abs value.
Proof.
  intros Hw Hv. unfold magnitude.
  assert (2 ^ w = 2 * 2 ^ (w - 1)) by (rewrite <- Z.pow_succ_r by lia; f_equal; lia).
  rewrite wrapu_small; destruct (Z.ltb_spec 0 value); lia.
Qed.

(** The value the specifier takes from an argument of [w] bits. *)
Definition arg_value (w c v : Z) : Z := if is_signed c then wraps w v else wrapu w v.

Lemma conv_int_text w c flags v va :
  c ∈ int_specifiers ->
  (flags = 0 /\ w = 32) \/ (flags = FLAGS_LONG .| FLAGS_LONG_LONG /\ w = 64) ->
  exists text,
    conv_int record 0 c flags 0 0 0 ((if w =? 32 then VWord v else VLongLong v) :: va) [] =
      Ok (len text, va) text /\ number_text (int_base c) (arg_value w c v) text.
Proof.
  intros Hc Hf.
  destruct (int_flags_plain c flags Hc) as (Hplain & HLL & HL & HC & HS); [naive_solver|].
  assert (w = 32 \/ w = 64) as Hw by naive_solver.
  pose proof (wraps_range w v ltac:(lia)) as Hr. pose proof (wrapu_range w v ltac:(lia)) as Hu.
  assert (2 ^ w <= 2 ^ 64) as Hw64 by (apply Z.pow_le_mono_r; lia).
  assert (2 ^ (w - 1) < 2 ^ w) by (apply Z.pow_lt_mono_r; lia).
  set (value := arg_value w c v). set (neg := value <? 0).
  destruct (ntoa_plain (int_flags c flags) (Z.abs value) neg (int_base c))
    as (ds & Hcan & Hread & Hlen & E); [done|apply int_base_range| |].
  { unfold value, arg_value. destruct (is_signed c); lia. }
  exists ((if neg then [45] else []) ++ ds). split; [|by apply number_text_intro].
  specialize (E 0 [] eq_refl). rewrite app_nil_l in E.
  rewrite wrapu_small in E by (rewrite len_app; unfold len in *; destruct neg; simpl; lia).
  unfold conv_int. rewrite HLL, HL, HC, HS. unfold _ntoa_long, _ntoa_long_long.
  unfold value, neg, arg_value in *.
  assert (forall x, wraps w (wrapu w x) = wraps w x) as Hww.
  { intros x. unfold wraps, wrapu. by rewrite Zplus_mod_idemp_l. }
  assert (forall x, wrapu w (wrapu w x) = wrapu w x) as Huu
    by (intros x; unfold wrapu; by rewrite Zmod_mod).
  assert (wrapu w (magnitude w (wraps w v)) = Z.abs (wraps w v)) as Hmag
    by (rewrite magnitude_abs by lia; apply wrapu_small; lia).
  destruct Hf as [[-> ->]|[-> ->]]; cbn [Z.eqb Pos.eqb]; destruct (is_signed c);
    mrun; cbv iota beta zeta; rewrite ?Hww, ?Hmag, ?Huu; [mrun E; done|..].
  all: try (mrun E; done).
  all: subst value; rewrite (Z.abs_eq (wrapu _ v)) in E by lia;
    rewrite (proj2 (Z.ltb_ge (wrapu _ v) 0)) in E |- * by lia; mrun E; done.
Qed.

(** One conversion and the end of the format. *)
Lemma render_conversion c va va' flags fmt idx text :
  parse_flags 0 fmt ([] : list Z) = Ok (0, fmt) [] ->
  parse_width 0 fmt va ([] : list Z) = Ok (0, 0, fmt, va) [] ->
  parse_precision 0 fmt va ([] : list Z) = Ok (0, 0, fmt, va) [] ->
  parse_length 0 fmt ([] : list Z) = Ok (flags, [c; 0]) [] ->
  specifier record 0 c flags 0 0 0 va [] = Ok (idx, va') text ->
  fmt <> [] ->
  render (37 :: fmt) va = Ok idx text.
Proof.
  intros H1 H2 H3 H4 H5 Hne. unfold render. destruct fmt as [|c0 fmt]; [done|].
  cbn [length]. set (fuel := length fmt).
  cbn [vsnprintf_loop]. mrun. change (37 =? 0) with false. change (negb (37 =? 37)) with false.
  cbv iota. cbn [tail]. mrun H1. mrun H2. mrun H3. mrun H4. mrun. mrun H5. mrun.
  done.
Qed.

(** C33: The integer conversions print the number they are given: [%d] and [%i] the signed
    value of a 32-bit argument, [%u], [%x], [%X], [%o] and [%b] the unsigned one, in their
    base, and the [ll] forms those of a 64-bit argument, the least value included; the text
    is the canonical one (no superfluous zero, a minus sign only for negative numbers), and
    reading it back gives the number. *)
Theorem printf_integer_roundtrip c v va :
  c ∈ int_specifiers ->
  (exists text, render [37; c; 0] (VWord v :: va) = Ok (len text) text /\
     number_text (int_base c) (arg_value 32 c v) text) /\
  (exists text, render [37; 108; 108; c; 0] (VLongLong v :: va) = Ok (len text) text /\
     number_text (int_base c) (arg_value 64 c v) text).
Proof.
  intros Hc. split.
  - destruct (conv_int_text 32 c 0 v va Hc ltac:(by left)) as (text & E & Htext).
    exists text. split; [|done].
    apply (render_conversion c _ va 0); [int_cases Hc; reflexivity..| |done].
    unfold specifier. by rewrite bool_decide_true by done.
  - destruct (conv_int_text 64 c _ v va Hc ltac:(by right)) as (text & E & Htext).
    exists text. split; [|done].
    apply (render_conversion c _ va (FLAGS_LONG .| FLAGS_LONG_LONG));
      [int_cases Hc; reflexivity..| |done].
    unfold specifier. by rewrite bool_decide_true by done.
Qed.

(** ** Sizes *)

Lemma size_scale_more fuel i div rem :
  1024 <= i -> div < 5 -> size_scale (S fuel) i div rem = size_scale fuel (i / 1024) (div + 1) (i mod 1024).
Proof. intros Hi Hd. cbn [size_scale]. by rewrite (proj2 (Z.leb_le _ _) Hi), (proj2 (Z.ltb_lt _ _) Hd). Qed.

Lemma size_scale_done fuel i div rem : i < 1024 -> size_scale (S fuel) i div rem = (i, div, rem).
Proof. intros Hi. cbn [size_scale]. by rewrite (proj2 (Z.leb_gt _ _) Hi). Qed.

(** The unit a size is printed in, and the fraction of it left over, in 1024ths. *)
Definition size_unit (v : Z) : Z := Z.log2 v / 10.
Definition size_fraction (v : Z) : Z :=
  if size_unit v =? 0 then 0 else (v / 1024 ^ (size_unit v - 1)) mod 1024.

Lemma size_unit_of v k : 0 <= k -> 1024 ^ k <= v < 1024 ^ (k + 1) -> size_unit v = k.
Proof.
  intros Hk Hv. change 1024 with (2 ^ 10) in Hv. rewrite <- !Z.pow_mul_r in Hv by lia.
  unfold size_unit. assert (10 * k <= Z.log2 v < 10 * (k + 1)) as Hl.
  { split; [apply Z.log2_le_pow2; lia|apply Z.log2_lt_pow2; lia]. }
  symmetry. apply (Z.div_unique _ _ _ (Z.log2 v - 10 * k)); lia.
Qed.

Lemma size_scale_32 v :
  0 <= v < 2 ^ 32 ->
  size_scale 6 v 0 0 = (v / 1024 ^ size_unit v, size_unit v, size_fraction v) /\
  0 <= size_unit v <= 3.
Proof.
  intros Hv. destruct (decide (v < 1024)) as [H1|H1].
  { rewrite size_scale_done by done. unfold size_fraction.
    assert (size_unit v = 0) as ->; [|rewrite Z.div_1_r; lia || by split; [|lia]].
    destruct (decide (v = 0)) as [->|]; [done|]. apply size_unit_of; lia. }
  rewrite size_scale_more by lia.
  assert (1 <= v / 1024) by (apply Z.div_le_lower_bound; lia).
  unfold size_fraction. destruct (decide (v < 1024 ^ 2)) as [H2|H2].
  { rewrite size_scale_done by (apply Z.div_lt_upper_bound; lia).
    rewrite (size_unit_of v 1) by lia. by rewrite Z.div_1_r. }
  assert (1024 <= v / 1024) by (apply Z.div_le_lower_bound; lia).
  rewrite size_scale_more by lia. rewrite Z.div_div by lia.
  destruct (decide (v < 1024 ^ 3)) as [H3|H3].
  { rewrite size_scale_done by (apply Z.div_lt_upper_bound; lia).
    by rewrite (size_unit_of v 2) by lia. }
  assert (1024 <= v / (1024 * 1024)) by (apply Z.div_le_lower_bound; lia).
  rewrite size_scale_more by lia. rewrite Z.div_div by lia.
  rewrite size_scale_done by (apply Z.div_lt_upper_bound; lia).
  by rewrite (size_unit_of v 3) by lia.
Qed.

Lemma out_string_record flags prec s rest idx text :
  has flags FLAGS_PRECISION = false -> Forall (fun c => c <> 0) s -> idx = u32 (len text) ->
  out_string record 0 flags prec (s ++ 0 :: rest) idx text = Ok (u32 (len (text ++ s))) (text ++ s).
Proof.
  intros Hp Hs. revert idx text. induction Hs as [|c s Hc Hs IH]; intros idx text ->.
  - by rewrite app_nil_r.
  - cbn [out_string app]. rewrite Hp, (proj2 (Z.eqb_neq c 0) Hc). cbn [negb andb orb].
    mrun emit_record. rewrite IH.
    + by rewrite <- (assoc_L (++)).
    + by rewrite len_app, u32_succ.
Qed.

Lemma sizes_lookup k :
  0 <= k <= 3 -> exists unit_, sizes !! Z.to_nat k = Some (unit_ ++ [0]) /\
    Forall (fun c => c <> 0) unit_ /\ len unit_ <= 2.
Proof.
  intros Hk. assert (k = 0 \/ k = 1 \/ k = 2 \/ k = 3) as Hc by lia.
  destruct_or! Hc; subst; [exists [66]|exists [75; 66]|exists [77; 66]|exists [71; 66]];
    (split; [done|]); (split; [by repeat constructor|by vm_compute]).
Qed.

Lemma size_unit_bounds v : 0 < v -> 1024 ^ size_unit v <= v < 1024 ^ (size_unit v + 1).
Proof.
  intros Hv. unfold size_unit. pose proof (Z.log2_nonneg v). pose proof (Z.log2_spec v Hv).
  pose proof (Z.mod_pos_bound (Z.log2 v) 10 ltac:(lia)).
  pose proof (Z.div_mod (Z.log2 v) 10 ltac:(lia)).
  assert (0 <= Z.log2 v / 10) by (apply Z.div_pos; lia).
  change 1024 with (2 ^ 10). rewrite <- !Z.pow_mul_r by lia. split.
  - apply Z.le_trans with (2 ^ Z.log2 v); [apply Z.pow_le_mono_r; lia|lia].
  - apply Z.lt_le_trans with (2 ^ Z.succ (Z.log2 v)); [lia|apply Z.pow_le_mono_r; lia].
Qed.

(** The whole part of a size is at most 1023, and at least 1 for a size that is not zero. *)
Lemma size_whole v :
  0 <= v -> 0 <= v / 1024 ^ size_unit v < 1024 /\ (v <> 0 -> 1 <= v / 1024 ^ size_unit v).
Proof.
  intros Hv. destruct (decide (v = 0)) as [->|Hnz]; [by vm_compute|].
  pose proof (size_unit_bounds v ltac:(lia)) as Hb.
  assert (0 <= size_unit v) by (unfold size_unit; apply Z.div_pos; [apply Z.log2_nonneg|lia]).
  rewrite Z.pow_add_r in Hb by lia.
  assert (0 < 1024 ^ size_unit v) by (apply Z.pow_pos_nonneg; lia).
  assert (1 <= v / 1024 ^ size_unit v) by (apply Z.div_le_lower_bound; lia).
  split; [|done]. split; [lia|]. apply Z.div_lt_upper_bound; lia.
Qed.

(** [%S] prints a size in the largest of the units B, KB, MB and GB that it reaches,
    never indexing outside of its table, for every 32-bit size. The whole part is right,
    but where the size is not a whole number of units the digits after the point are the
    whole part again and not the fraction. *)
Theorem printf_size v va :
  0 <= v < 2 ^ 32 ->
  let k := size_unit v in
  exists digits unit_ text,
    sizes !! Z.to_nat k = Some (unit_ ++ [0]) /\
    canonical 10 digits /\ read_nat 10 digits = v / 1024 ^ k /\ (v <> 0 -> 1 <= v / 1024 ^ k < 1024) /\
    render (cstr "%S") (VWord v :: va) = Ok (len text) text /\
    text = digits ++ (if size_fraction v * 100 / 1024 =? 0 then [] else 46 :: digits) ++ unit_.
Proof.
  intros Hv k. destruct (size_scale_32 v Hv) as [Hscale Hk]. fold k in Hscale, Hk.
  destruct (sizes_lookup k Hk) as (unit_ & Hunit & Hnz & Hul).
  destruct (size_whole v ltac:(lia)) as [Hq Hq1]. fold k in Hq, Hq1.
  set (q := v / 1024 ^ k) in *.
  destruct (ntoa_plain 0 q false 10) as (ds & Hcan & Hread & Hlen & E); [by vm_compute|lia|lia|].
  set (frac := if size_fraction v * 100 / 1024 =? 0 then [] else 46 :: ds).
  exists ds, unit_, (ds ++ frac ++ unit_). split_and!; try done; [intros Hnz0; split; [by apply Hq1|lia]|].
  assert (0 <= len (ds ++ frac ++ unit_) < 2 ^ 32) as Htl.
  { rewrite !len_app. unfold frac, len in *. destruct (_ =? 0); simpl; lia. }
  rewrite <- (wrapu_small 32 (len _)) by done.
  apply (render_conversion 83 _ va 0); [reflexivity..| |done].
  assert (0 <= size_fraction v < 1024) as Hfrac.
  { unfold size_fraction. case_match; [lia|]. apply Z.mod_pos_bound. lia. }
  change (specifier record 0 83 0 0 0 0) with (conv_size record 0 0 0 0 0).
  unfold conv_size, _ntoa_long. mrun. rewrite (wrapu_small 32 v) by lia. rewrite Hscale.
  rewrite !(wrapu_small 32 q), (wrapu_small 32 (_ * 100)) by lia.
  mrun E. { done. } rewrite app_nil_l. cbn [app].
  mfirst.
  { instantiate (1 := ds ++ frac). instantiate (1 := u32 (len (ds ++ frac))). unfold frac.
    destruct (_ =? 0); cbn [negb]; [by rewrite app_nil_r|].
    mrun emit_record. rewrite E; [|by rewrite len_app, u32_succ].
    cbn [app]. by rewrite <- (assoc_L (++)). }
  rewrite Hunit. mrun. mrun out_string_record; [done|done|done|].
  by rewrite <- (assoc_L (++)).
Qed.

(** ** Strings *)

(** Characters that a format prints as they are. *)
Lemma loop_literal s fuel rest va text idx :
  Forall (fun c => c <> 0 /\ c <> 37) s -> idx = u32 (len text) -> (length s <= fuel)%nat ->
  vsnprintf_loop record 0 fuel (s ++ rest) va idx text =
    vsnprintf_loop record 0 (fuel - length s) rest va (u32 (len (text ++ s))) (text ++ s).
Proof.
  intros Hs. revert fuel idx text. induction Hs as [|c s [H0 H37] Hs IH]; intros fuel idx text -> Hf.
  - rewrite app_nil_r. cbn [length app]. by rewrite Nat.sub_0_r.
  - destruct fuel as [|fuel]; [simpl in Hf; lia|]. cbn [vsnprintf_loop app length Nat.sub].
    mrun. rewrite (proj2 (Z.eqb_neq c 0) H0), (proj2 (Z.eqb_neq c 37) H37). cbn [negb].
    mrun emit_record. cbn [tail]. rewrite IH.
    + by rewrite <- (assoc_L (++)).
    + by rewrite len_app, u32_succ.
    + simpl in Hf. lia.
Qed.

(** A format of plain characters prints itself, whatever the arguments; with a lone
    percent sign at its end, the interpreter prints the terminating zero as an unknown
    specifier and goes on reading behind the end of the format. *)
Theorem printf_trailing_percent s va :
  Forall (fun c => c <> 0 /\ c <> 37) s ->
  render (s ++ [0]) va = Ok (u32 (len s)) s /\
  render (s ++ [37; 0]) va = Stop Fault (s ++ [0]).
Proof.
  intros Hs. unfold render.
  rewrite !(loop_literal s) by (done || rewrite length_app; simpl; lia).
  rewrite !length_app. cbn [length app].
  replace (S (length s + 1) - length s)%nat with 2%nat by lia.
  replace (S (length s + 2) - length s)%nat with 3%nat by lia.
  split; [done|]. cbn [vsnprintf_loop]. mrun. do 6 mrun. reflexivity.
Qed.

Lemma strnlen_bounded {W} s c rest n (w : W) :
  Forall (fun c => c <> 0) s -> len s = n \/ (len s < n /\ c = 0) -> n < 2 ^ 32 ->
  _strnlen_s (s ++ c :: rest) n w = Ok (len s) w.
Proof.
  intros Hs. revert n. induction Hs as [|d s Hd Hs IH]; intros n Hn Hlt; cbn [_strnlen_s app].
  - change (len []) with 0 in *.
    assert ((c =? 0) || (n =? 0) = true) as -> by lia. done.
  - assert (len (d :: s) = len s + 1) as E by (unfold len; simpl; lia). rewrite E in *.
    assert (0 <= len s) by (unfold len; lia).
    assert ((d =? 0) || (n =? 0) = false) as -> by lia.
    mrun IH; [lia|lia|]. rewrite wrapu_small by lia. done.
Qed.

Lemma strnlen_unterminated {W} s n (w : W) :
  Forall (fun c => c <> 0) s -> len s <= n -> _strnlen_s s n w = Stop Fault w.
Proof.
  intros Hs. revert n. induction Hs as [|d s Hd Hs IH]; intros n Hn; cbn [_strnlen_s]; [done|].
  assert (len (d :: s) = len s + 1) as E by (unfold len; simpl; lia). rewrite E in *.
  assert (0 <= len s) by (unfold len; lia).
  assert ((d =? 0) || (n =? 0) = false) as -> by lia.
  apply bind_stop. apply IH. lia.
Qed.

Lemma out_string_bounded flags s c rest n text :
  has flags FLAGS_PRECISION = true -> Forall (fun c => c <> 0) s ->
  len s = n \/ (len s < n /\ c = 0) -> n < 2 ^ 32 ->
  out_string record 0 flags n (s ++ c :: rest) (u32 (len text)) text =
    Ok (u32 (len (text ++ s))) (text ++ s).
Proof.
  intros Hp Hs. revert n text. induction Hs as [|d s Hd Hs IH]; intros n text Hn Hlt;
    cbn [out_string app]; rewrite Hp; cbn [negb orb].
  - change (len []) with 0 in *. rewrite app_nil_r.
    assert (negb (c =? 0) && negb (n =? 0) = false) as -> by lia. done.
  - assert (len (d :: s) = len s + 1) as E by (unfold len; simpl; lia). rewrite E in *.
    assert (0 <= len s) by (unfold len; lia).
    assert (negb (d =? 0) && negb (n =? 0) = true) as -> by lia.
    mrun emit_record. rewrite u32_succ, (wrapu_small 32 (n - 1)) by lia.
    replace (len text + 1) with (len (text ++ [d])) by (rewrite len_app; done).
    rewrite IH by lia. by rewrite <- (assoc_L (++)).
Qed.

(** A bounded string in the middle of a format, with the bound among the arguments or in
    the format itself. *)
Lemma conv_text_bounded s c rest n text :
  Forall (fun c => c <> 0) s -> len s = n \/ (len s < n /\ c = 0) -> 0 < n < 2 ^ 32 ->
  conv_text record 0 (s ++ c :: rest) FLAGS_PRECISION 0 n (u32 (len text)) text =
    Ok (u32 (len (text ++ s))) (text ++ s).
Proof.
  intros Hs Hlen Hn. assert (0 <= len s) by (unfold len; lia).
  unfold conv_text. rewrite (proj2 (Z.eqb_neq n 0)) by lia. cbn [negb].
  mrun strnlen_bounded; [done|done|lia|].
  change (has FLAGS_PRECISION FLAGS_PRECISION) with true.
  change (has FLAGS_PRECISION FLAGS_LEFT) with false. cbn [negb]. cbv iota.
  mrun pad_from_none. { case_match; lia. }
  mrun out_string_bounded; [done|done|done|lia|]. done.
Qed.

Lemma conv_str_bounded s c rest n addr va text :
  Forall (fun c => c <> 0) s -> len s = n \/ (len s < n /\ c = 0) -> 0 < n < 2 ^ 32 ->
  u32 addr <> 0 ->
  conv_str record 0 FLAGS_PRECISION 0 n (u32 (len text)) (VStr addr (s ++ c :: rest) :: va) text =
    Ok (u32 (len (text ++ s)), va) (text ++ s).
Proof.
  intros Hs Hlen Hn Ha. unfold conv_str. cbn [va_arg_str].
  rewrite (proj2 (Z.eqb_neq _ 0) Ha). mrun. mrun conv_text_bounded; done.
Qed.

Lemma loop_dot_star fuel n addr s c rest va fmt text :
  Forall (fun c => c <> 0) s -> len s = n \/ (len s < n /\ c = 0) -> 0 < n < 2 ^ 31 ->
  u32 addr <> 0 ->
  vsnprintf_loop record 0 (S fuel) (37 :: 46 :: 42 :: 115 :: fmt)
    (VWord n :: VStr addr (s ++ c :: rest) :: va) (u32 (len text)) text =
  vsnprintf_loop record 0 fuel fmt va (u32 (len (text ++ s))) (text ++ s).
Proof.
  intros Hs Hlen Hn Ha. cbn [vsnprintf_loop]. do 3 mrun.
  mfirst.
  { unfold parse_precision. do 3 mrun. rewrite (wrapu_small 32 n) by lia.
    rewrite (wraps_small 32 n), (proj2 (Z.ltb_lt 0 n)), (wrapu_small 32 n) by lia. reflexivity. }
  cbv beta iota. do 2 mrun.
  mrun (conv_str_bounded s c rest n addr va text); [done|done|lia|done|]. done.
Qed.

Lemma loop_dot_64 fuel addr s c rest va fmt text :
  Forall (fun c => c <> 0) s -> len s = 64 \/ (len s < 64 /\ c = 0) -> u32 addr <> 0 ->
  vsnprintf_loop record 0 (S fuel) (37 :: 46 :: 54 :: 52 :: 115 :: fmt)
    (VStr addr (s ++ c :: rest) :: va) (u32 (len text)) text =
  vsnprintf_loop record 0 fuel fmt va (u32 (len (text ++ s))) (text ++ s).
Proof.
  intros Hs Hlen Ha. cbn [vsnprintf_loop]. do 6 mrun.
  mrun (conv_str_bounded s c rest 64 addr va text); [done|done|lia|done|]. done.
Qed.

(** A terminated string, without a bound. *)
Lemma loop_string fuel addr s rest va fmt text :
  Forall (fun c => c <> 0) s -> len s < 2 ^ 32 - 1 -> u32 addr <> 0 ->
  vsnprintf_loop record 0 (S fuel) (37 :: 115 :: fmt)
    (VStr addr (s ++ 0 :: rest) :: va) (u32 (len text)) text =
  vsnprintf_loop record 0 fuel fmt va (u32 (len (text ++ s))) (text ++ s).
Proof.
  intros Hs Hlen Ha. assert (0 <= len s) by (unfold len; lia).
  cbn [vsnprintf_loop]. do 6 mrun.
  match goal with |- context [specifier record 0 ?c ?f 0 0 ?i ?l] =>
    change (specifier record 0 c f 0 0 i l) with (conv_str record 0 0 0 0 i l) end.
  mfirst.
  { unfold conv_str. cbn [va_arg_str]. rewrite (proj2 (Z.eqb_neq _ 0) Ha). mrun.
    unfold conv_text. mfirst.
    { mrun (strnlen_bounded s 0 rest (2 ^ 32 - 1)); [done|by right|lia|].
      mrun pad_from_none. { change (has 0 FLAGS_PRECISION) with false. cbv iota. lia. }
      mrun out_string_record; [done|done|done|]. reflexivity. }
    reflexivity. }
  done.
Qed.

(** The conversion [%.*s] with a positive precision. *)
Lemma render_bounded n addr mem va o :
  0 < n < 2 ^ 31 -> u32 addr <> 0 ->
  conv_text record 0 mem FLAGS_PRECISION 0 n 0 [] = o ->
  render (cstr "%.*s") (VWord n :: VStr addr mem :: va) =
    match o with Ok idx text => Ok idx text | Stop w text => Stop w text end.
Proof.
  intros Hn Ha <-. unfold render. change (length (cstr "%.*s")) with 5%nat.
  cbn [vsnprintf_loop]. do 3 mrun.
  mfirst.
  { unfold parse_precision. do 3 mrun. rewrite (wrapu_small 32 n) by lia.
    rewrite (wraps_small 32 n), (proj2 (Z.ltb_lt 0 n)), (wrapu_small 32 n) by lia. reflexivity. }
  cbv beta iota. do 2 mrun.
  match goal with |- context [specifier record 0 ?c ?f 0 n 0 ?l] =>
    change (specifier record 0 c f 0 n 0 l) with (conv_str record 0 FLAGS_PRECISION 0 n 0 l) end.
  unfold conv_str. cbn [va_arg_str]. rewrite (proj2 (Z.eqb_neq _ 0) Ha).
  unfold mbind, M_bind, mret, M_ret. cbv beta iota.
  by destruct (conv_text record 0 mem _ _ _ _ _).
Qed.

(** [%.*s] prints a string that need not be terminated: at most [n] bytes of it and
    never a byte after its zero, if one more byte than it prints is readable. The length
    is taken before the bound is tested, so a string of exactly [n] bytes at the end of
    its object is read past its end. *)
Theorem printf_bounded_string s n addr va :
  Forall (fun c => c <> 0) s -> 0 < n < 2 ^ 31 -> u32 addr <> 0 ->
  (forall c rest, len s = n \/ (len s < n /\ c = 0) ->
     render (cstr "%.*s") (VWord n :: VStr addr (s ++ c :: rest) :: va) = Ok (len s) s) /\
  (len s = n -> exists text,
     render (cstr "%.*s") (VWord n :: VStr addr s :: va) = Stop Fault text).
Proof.
  intros Hs Hn Ha. assert (0 <= len s) as Hpos by (unfold len; lia). split.
  - intros c rest Hlen.
    rewrite (render_bounded n addr _ va (Ok (len s) s)); [done|done|done|].
    etransitivity; [apply (conv_text_bounded s c rest n []); [done|done|lia]|].
    rewrite app_nil_l, wrapu_small by lia. done.
  - intros Hlen. eexists.
    rewrite (render_bounded n addr _ va (Stop Fault [])); [done|done|done|].
    unfold conv_text. rewrite (proj2 (Z.eqb_neq n 0)) by lia. cbn [negb].
    apply bind_stop. apply strnlen_unterminated; [done|lia].
Qed.

(** ** Examples *)

(** "hello" into four bytes of a memory of six. *)
Lemma vsnprintf_refines_witness :
  vsnprintf_ false 4 (cstr "hello") [] [7; 7; 7; 7; 7; 7] = Ok 5 [104; 101; 108; 0; 7; 7].
Proof.
  pose proof (vsnprintf_refines 4 (cstr "hello") [] [7; 7; 7; 7; 7; 7]
    ltac:(lia) ltac:(unfold len; simpl; lia)) as H.
  change (render (cstr "hello") []) with
    (Ok 5 [104; 101; 108; 108; 111] : outcome (list Z) Z) in H.
  destruct (H ltac:(reflexivity)) as [_ H2]. exact H2.
Defined.

Lemma ntoa_in_bounds_witness :
  exists idx' w', _ntoa_long_long record 0 0 (2 ^ 64 - 1) false 2 0 80
    (FLAGS_ZEROPAD .| FLAGS_HASH) [] = Ok idx' w'.
Proof.
  apply (ntoa_in_bounds record 0 0 (2 ^ 64 - 1) false 2 0 80 (FLAGS_ZEROPAD .| FLAGS_HASH) []).
  - intros c idx w. eexists. reflexivity.
  - lia.
Defined.

(** The least 32-bit number in decimal. *)
Lemma printf_integer_roundtrip_witness :
  exists text, render [37; 100; 0] [VWord (2 ^ 31)] = Ok (len text) text /\
    number_text 10 (- 2 ^ 31) text.
Proof.
  apply (printf_integer_roundtrip 100 (2 ^ 31) []). unfold int_specifiers. constructor.
Defined.

Lemma printf_size_witness :
  exists digits unit_ text, sizes !! 1%nat = Some (unit_ ++ [0]) /\
    canonical 10 digits /\ read_nat 10 digits = 1 /\ (1536 <> 0 -> 1 <= 1 < 1024) /\
    render (cstr "%S") [VWord 1536] = Ok (len text) text /\
    text = digits ++ (46 :: digits) ++ unit_.
Proof. apply (printf_size 1536 []). lia. Defined.

Lemma printf_trailing_percent_witness :
  render ([97; 98] ++ [0]) [] = Ok (u32 2) [97; 98] /\
  render ([97; 98] ++ [37; 0]) [] = Stop Fault ([97; 98] ++ [0]).
Proof. apply (printf_trailing_percent [97; 98] []). repeat constructor; lia. Defined.

Lemma printf_bounded_string_witness :
  render (cstr "%.*s") [VWord 2; VStr 1 ([65; 66] ++ 67 :: [])] = Ok 2 [65; 66] /\
  exists text, render (cstr "%.*s") [VWord 2; VStr 1 [65; 66]] = Stop Fault text.
Proof.
  destruct (printf_bounded_string [65; 66] 2 1 []) as [H1 H2];
    [repeat constructor; lia|lia|vm_compute; discriminate|].
  split; [by apply (H1 67 []); left|by apply H2].
Defined.
