(* ===== verification/Console.v ===== *)
(** * The console: the serial port and the log macros

    kernel/src/drivers/uart.c (init_uart, uart_write_char) and util/trace.c, trace.h
    ([_putchar] and the macros TRACE, ERROR and WARN). What is printed goes through the
    interpreter of Printf.v into the transmit FIFO of UART 0. Every read of the status
    register may see another fill level: the [i]-th one sees [txfifo_cnt i]. *)
From Stdlib Require Import ZArith Lia Ascii String.
From stdpp Require Import base tactics numbers list gmap.
From S2P Require Import Prelude Printf PrintfSpec.

(** ** The serial port *)

(** The interrupt enable register, the bytes put into the FIFO so far, and the number of
    reads of the status register. *)
Record uart := Uart { UART0_INT_ENA : Z; UART0_FIFO : list Z; status_reads : nat }.

Definition init_uart : M uart unit := modify (fun u => Uart 0 (UART0_FIFO u) (status_reads u)).

(** The characters of a literal, without a terminator. *)
Definition txt (s : string) : list Z := (fun c => Z.of_N (N_of_ascii c)) <$> list_ascii_of_string s.

(** A string literal: where it is does not matter, but it is not at address zero. *)
Definition literal (s : list Z) : va_value := VStr 1 (s ++ [0]).

Section Console.
Context (txfifo_cnt : nat -> Z) (polls : nat).

Definition read_txfifo_cnt : M uart Z := fun u =>
  Ok (txfifo_cnt (status_reads u)) (Uart (UART0_INT_ENA u) (UART0_FIFO u) (S (status_reads u))).

(** [char] is unsigned: the conversion to [uint32_t] keeps the character. *)
Definition uart_write_char (c : Z) : M uart unit :=
  mwhile polls (fun _ => n ← read_txfifo_cnt; mret (128 <=? n)) (fun _ => mret tt) tt;;
  modify (fun u => Uart (UART0_INT_ENA u) (UART0_FIFO u ++ [c]) (status_reads u)).

Definition _putchar (character : Z) : M uart unit := uart_write_char character.

(** ** Logging: [fmt] is the format without its terminator *)
Definition log (mark : string) (fmt : list Z) (va : list va_value) : M uart unit :=
  _ ← printf_ _putchar (txt mark ++ fmt ++ [10; 13; 0]) va; mret tt.

Definition TRACE : list Z -> list va_value -> M uart unit := log "[*] ".
Definition ERROR : list Z -> list va_value -> M uart unit := log "[-] ".
Definition WARN : list Z -> list va_value -> M uart unit := log "[!] ".

(** A literal format, without a mark or an end of line. *)
Definition print (fmt : list Z) (va : list va_value) : M uart unit :=
  _ ← printf_ _putchar (fmt ++ [0]) va; mret tt.

(** The messages of a failed check and of a rethrown error (util/except.h). *)
Definition check_failed (func file : list Z) (e : err) (line : Z) : M uart unit :=
  ERROR (txt "Check failed with error %d in function %s (%s:%d)")
    [VWord (err_code e); literal func; literal file; VWord line].
Definition rethrown (func file : list Z) (line : Z) : M uart unit :=
  ERROR (9 :: txt "rethrown at %s (%s:%d)") [literal func; literal file; VWord line].

(** ** What gets out *)

(** Every wait for space ends within the polls allowed. *)
Definition drains : Prop := forall i, exists k, (k < polls)%nat /\ txfifo_cnt (i + k) < 128.

Lemma poll_space k : forall u fuel,
  (k < fuel)%nat -> txfifo_cnt (status_reads u + k) < 128 ->
  exists r, mwhile fuel (fun _ => n ← read_txfifo_cnt; mret (128 <=? n)) (fun _ => mret tt) tt u =
    Ok tt (Uart (UART0_INT_ENA u) (UART0_FIFO u) r).
Proof.
  induction k as [|k IH]; intros u [|fuel] Hk Hn; try lia;
    destruct (Z.leb_spec 128 (txfifo_cnt (status_reads u))) as [Hb|Hb].
  - rewrite Nat.add_0_r in Hn. lia.
  - eexists. cbn [mwhile]. mrun. by rewrite (proj2 (Z.leb_gt _ _) Hb).
  - destruct (IH (Uart (UART0_INT_ENA u) (UART0_FIFO u) (S (status_reads u))) fuel) as [r E];
      [lia|by rewrite <- Nat.add_succ_comm in Hn|].
    exists r. cbn [mwhile]. mrun. rewrite (proj2 (Z.leb_le _ _) Hb). mrun. exact E.
  - eexists. cbn [mwhile]. mrun. by rewrite (proj2 (Z.leb_gt _ _) Hb).
Qed.

Lemma putchar_ok c u :
  drains -> exists r, _putchar c u = Ok tt (Uart (UART0_INT_ENA u) (UART0_FIFO u ++ [c]) r).
Proof.
  intros Hd. destruct (Hd (status_reads u)) as (k & Hk & Hn).
  destruct (poll_space k u polls Hk Hn) as [r E]. exists r.
  unfold _putchar, uart_write_char. mrun E. reflexivity.
Qed.

(** What a log line does to the console: the text goes out, nothing else changes. *)
Definition printed (text : list Z) (u u' : uart) : Prop :=
  UART0_INT_ENA u' = UART0_INT_ENA u /\ UART0_FIFO u' = UART0_FIFO u ++ text.

Lemma printed_trans t1 t2 u1 u2 u3 :
  printed t1 u1 u2 -> printed t2 u2 u3 -> printed (t1 ++ t2) u1 u3.
Proof. intros [E1 F1] [E2 F2]. split; [congruence|]. by rewrite F2, F1, <- (assoc_L (++)). Qed.

Lemma filter_keeps (text : list Z) :
  Forall (fun c => c <> 0) text -> filter (fun c => c <> 0) text = text.
Proof. induction 1; [done|]. rewrite filter_cons_True by done. by f_equal. Qed.

Lemma printf_prints format va u n text :
  drains -> render format va = Ok n text -> Forall (fun c => c <> 0) text ->
  exists v u', printf_ _putchar format va u = Ok v u' /\ printed text u u'.
Proof.
  intros Hd Hr Hnz. pose proof (printf_sink _putchar (fun l u' => printed l u u') format va u) as H.
  rewrite Hr in H. destruct H as (u' & E & Hp).
  - intros c l w [HE HF]. destruct (putchar_ok c w Hd) as [r E]. eexists. split; [exact E|].
    split; [done|]. simpl. by rewrite HF, <- (assoc_L (++)).
  - split; [done|]. by rewrite app_nil_r.
  - exists (s32 (u32 (len text))), u'. split; [done|].
    by rewrite filter_keeps in Hp.
Qed.

(** Texts that a routine prints, one after another. *)
Definition prints (m : M uart unit) (text : list Z) : Prop :=
  forall u, exists u', m u = Ok tt u' /\ printed text u u'.

Lemma prints_render fmt va k text :
  drains -> render (fmt ++ [0]) va = Ok k text -> Forall (fun c => c <> 0) text ->
  prints (print fmt va) text.
Proof.
  intros Hd Hr Hnz u. destruct (printf_prints _ _ u _ _ Hd Hr Hnz)
    as (v & u' & E & Hp).
  exists u'. split; [|done]. unfold print. mrun E. done.
Qed.

Lemma prints_bind (m1 : M uart unit) m2 t1 t2 :
  prints m1 t1 -> prints m2 t2 -> prints (m1;; m2) (t1 ++ t2).
Proof.
  intros H1 H2 u. destruct (H1 u) as (u1 & E1 & P1). destruct (H2 u1) as (u2 & E2 & P2).
  exists u2. split; [mrun E1; done|]. by eapply printed_trans.
Qed.

Lemma prints_mfor {A} (l : list A) body (text : A -> list Z) :
  (forall x, x ∈ l -> prints (body x) (text x)) -> prints (mfor l body) (concat (text <$> l)).
Proof.
  induction l as [|x l IH]; intros H.
  - intros u. exists u. split; [done|]. split; [done|]. by rewrite app_nil_r.
  - cbn [mfor fmap list_fmap concat]. apply prints_bind; [apply H; by left|].
    apply IH. intros y Hy. apply H. by right.
Qed.

Lemma prints_log mark fmt va k text :
  drains -> render (txt mark ++ fmt ++ [10; 13; 0]) va = Ok k text -> Forall (fun c => c <> 0) text ->
  prints (log mark fmt va) text.
Proof.
  intros Hd Hr Hnz u. destruct (printf_prints _ _ u _ _ Hd Hr Hnz)
    as (v & u' & E & Hp).
  exists u'. split; [|done]. unfold log. mrun E. done.
Qed.
End Console.
