(* ===== verification/Text.v ===== *)
(** * The texts of numbers in the formats the kernel uses

    The conversions [%08x], [%p], [%d] and [%u] at any place of a format. *)
From Stdlib Require Import ZArith Lia Ascii String.
From stdpp Require Import base tactics numbers list gmap.
From S2P Require Import Prelude Printf PrintfSpec Console.

(** ** [%08x] prints eight hexadecimal digits *)
Lemma push_zeros_pad {W} bound (w : W) : forall buf,
  len buf <= bound -> bound <= PRINTF_NTOA_BUFFER_SIZE ->
  push_zeros true bound buf w = Ok (replicate (Z.to_nat (bound - len buf)) 48 ++ buf) w.
Proof.
  unfold push_zeros, PRINTF_NTOA_BUFFER_SIZE. change (Z.to_nat 65) with 65%nat. intros buf Hl Hb.
  assert (exists n, n = Z.to_nat (bound - len buf) /\ n < 66)%nat as (n & Hn & Hf)
    by (eexists; split; [done|unfold len in *; lia]).
  rewrite <- Hn. revert buf Hl Hn Hf. generalize 66%nat as fuel. induction n as [|n IH];
    intros [|fuel] buf Hl Hn Hf; try lia.
  - erewrite mwhile_step by (cbv beta; replace (len buf <? bound) with false by lia; reflexivity).
    done.
  - erewrite mwhile_step by (cbv beta; replace (len buf <? bound) with true by lia;
      replace (len buf <? 65) with true by lia; reflexivity).
    cbn [andb]. mrun push_ok. { unfold PRINTF_NTOA_BUFFER_SIZE. lia. }
    change (u8 48) with 48.
    assert (len (48 :: buf) = len buf + 1) as E by (unfold len; simpl; lia).
    rewrite IH by (rewrite ?E; lia). rewrite replicate_S_end, <- (assoc_L (++)). done.
Qed.

(** Eight hexadecimal digits of value [v]. *)
Definition hex8 (v : Z) (ds : list Z) : Prop :=
  length ds = 8%nat /\ Forall (is_digit_of 16) ds /\ read_nat 16 ds = v.

Lemma hex8_nonzero v ds : hex8 v ds -> Forall (fun c => c <> 0) ds.
Proof. intros (_ & H & _). eapply Forall_impl; [done|]. by intros c (_ & ? & _). Qed.

Lemma read_nat_zeros base n ds : read_nat base (replicate n 48 ++ ds) = read_nat base ds.
Proof.
  unfold read_nat. rewrite foldl_app. f_equal. induction n as [|n IH]; [done|].
  rewrite replicate_S_end, foldl_app, IH. reflexivity.
Qed.

Lemma ntoa_hex8 v flags :
  flags = FLAGS_ZEROPAD \/ flags = FLAGS_ZEROPAD .| FLAGS_UPPERCASE ->
  0 <= v < 2 ^ 32 -> exists ds, hex8 v ds /\
    forall text, ntoa record 0 (u32 (len text)) v false 16 0 8 flags text =
      Ok (u32 (len (text ++ ds))) (text ++ ds).
Proof.
  intros Hflags Hv.
  assert (has flags FLAGS_PRECISION = false /\ has flags FLAGS_LEFT = false /\
    has flags FLAGS_HASH = false /\ has flags FLAGS_ZEROPAD = true /\ has flags FLAGS_PLUS = false /\
    has flags FLAGS_SPACE = false /\ has flags (FLAGS_PLUS .| FLAGS_SPACE) = false /\
    (if v =? 0 then flags .& u32 (.~ FLAGS_HASH) else flags) = flags)
    as (HP & HL & HH & HZ & Hp & Hs & Hps & Hclear)
    by (destruct Hflags as [-> | ->]; case_match; done).
  destruct (ntoa_loop_digits (W := list Z) (Z.to_nat PRINTF_NTOA_BUFFER_SIZE) flags 16 v [] 8)
    as (ds & E & (Hne & Hds & _) & Hread & Hlen); [lia|done|lia|vm_compute; done|vm_compute; done|].
  exists (replicate (Z.to_nat (8 - len ds)) 48 ++ ds). split.
  - split; [rewrite length_app, length_replicate; unfold len in *; lia|]. split.
    + apply Forall_app. split; [|done]. apply Forall_replicate. by vm_compute.
    + by rewrite read_nat_zeros.
  - intros text. unfold ntoa. rewrite Hclear, HP. cbn [negb orb].
    rewrite app_nil_r in E. mrun E.
    unfold _ntoa_format. rewrite HL, HZ, Hps. cbn [negb orb andb Z.eqb].
    mfirst.
    { cbv zeta. mrun push_zeros_none. { unfold len. cbn [andb]. apply Z.ltb_ge. lia. }
      mrun (push_zeros_pad 8). { done. } { done. } reflexivity. }
    cbv beta iota. rewrite HH, Hp, Hs. mrun.
    mfirst. { by destruct (_ <? PRINTF_NTOA_BUFFER_SIZE). }
    unfold _out_rev. rewrite HL, HZ. cbn [negb andb]. mrun.
    mrun out_reversed_record. { done. } done.
Qed.

Lemma loop_hex8 v :
  0 <= v < 2 ^ 32 -> exists ds, hex8 v ds /\
    forall fuel va fmt text,
    vsnprintf_loop record 0 (S fuel) (37 :: 48 :: 56 :: 120 :: fmt) (VWord v :: va) (u32 (len text)) text =
    vsnprintf_loop record 0 fuel fmt va (u32 (len (text ++ ds))) (text ++ ds).
Proof.
  intros Hv. destruct (ntoa_hex8 v FLAGS_ZEROPAD (or_introl eq_refl) Hv) as (ds & Hds & E).
  exists ds. split; [done|]. intros fuel va fmt text. cbn [vsnprintf_loop]. do 6 mrun.
  mfirst.
  { match goal with |- context [specifier record 0 ?c ?f ?n 0 ?i ?l] =>
      change (specifier record 0 c f n 0 i l) with (conv_int record 0 120 FLAGS_ZEROPAD 8 0 i l) end.
    unfold conv_int. change (int_flags 120 FLAGS_ZEROPAD) with FLAGS_ZEROPAD.
    change (is_signed 120) with false.
    change (has FLAGS_ZEROPAD FLAGS_LONG_LONG) with false. change (has FLAGS_ZEROPAD FLAGS_LONG) with false.
    mrun. change (has FLAGS_ZEROPAD FLAGS_CHAR) with false. change (has FLAGS_ZEROPAD FLAGS_SHORT) with false.
    unfold _ntoa_long. rewrite !(wrapu_small 32 v) by lia. mrun E. reflexivity. }
  done.
Qed.

(** ** [%d] and [%u] print the decimal digits of a small number *)
Definition decimal (v : Z) (ds : list Z) : Prop := canonical 10 ds /\ read_nat 10 ds = v.

Lemma decimal_nonzero v ds : decimal v ds -> Forall (fun c => c <> 0) ds.
Proof. intros [(_ & H & _) _]. eapply Forall_impl; [done|]. by intros c (_ & ? & _). Qed.

Lemma loop_decimal v :
  0 <= v < 2 ^ 31 -> exists ds, decimal v ds /\
    forall c fuel va fmt text, c = 100 \/ c = 117 ->
    vsnprintf_loop record 0 (S fuel) (37 :: c :: fmt) (VWord v :: va) (u32 (len text)) text =
    vsnprintf_loop record 0 fuel fmt va (u32 (len (text ++ ds))) (text ++ ds).
Proof.
  intros Hv. destruct (ntoa_plain 0 v false 10) as (ds & Hcan & Hread & _ & E); [by vm_compute|lia|lia|].
  exists ds. split; [done|]. intros c fuel va fmt text Hc. cbn [app] in E. cbn [vsnprintf_loop].
  destruct Hc as [-> | ->]; do 6 mrun.
  - mfirst.
    { match goal with |- context [specifier record 0 ?c ?f 0 0 ?i ?l] =>
      change (specifier record 0 c f 0 0 i l) with (conv_int record 0 100 0 0 0 i l) end.
    unfold conv_int. change (int_flags 100 0) with 0. change (is_signed 100) with true.
    change (has 0 FLAGS_LONG_LONG) with false. change (has 0 FLAGS_LONG) with false.
    mrun. change (has 0 FLAGS_CHAR) with false. change (has 0 FLAGS_SHORT) with false.
    unfold _ntoa_long. rewrite (wrapu_small 32 v), (wraps_small 32 v) by lia.
    rewrite magnitude_abs, Z.abs_eq, (wrapu_small 32 v), (proj2 (Z.ltb_ge v 0)) by lia.
    mrun E. { done. } reflexivity. }
    done.
  - mfirst.
    { match goal with |- context [specifier record 0 ?c ?f 0 0 ?i ?l] =>
      change (specifier record 0 c f 0 0 i l) with (conv_int record 0 117 0 0 0 i l) end.
    unfold conv_int. change (int_flags 117 0) with 0. change (is_signed 117) with false.
    change (has 0 FLAGS_LONG_LONG) with false. change (has 0 FLAGS_LONG) with false.
    mrun. change (has 0 FLAGS_CHAR) with false. change (has 0 FLAGS_SHORT) with false.
    unfold _ntoa_long. rewrite !(wrapu_small 32 v) by lia. mrun E. { done. } reflexivity. }
    done.
Qed.

Lemma loop_ptr v :
  0 <= v < 2 ^ 32 -> exists ds, hex8 v ds /\
    forall fuel va fmt text,
    vsnprintf_loop record 0 (S fuel) (37 :: 112 :: fmt) (VWord v :: va) (u32 (len text)) text =
    vsnprintf_loop record 0 fuel fmt va (u32 (len (text ++ ds))) (text ++ ds).
Proof.
  intros Hv. destruct (ntoa_hex8 v _ (or_intror eq_refl) Hv) as (ds & Hds & E).
  exists ds. split; [done|]. intros fuel va fmt text. cbn [vsnprintf_loop]. do 6 mrun.
  mfirst.
  { match goal with |- context [specifier record 0 ?c ?f ?n 0 ?i ?l] =>
      change (specifier record 0 c f n 0 i l) with (conv_ptr record 0 0 0 i l) end.
    unfold conv_ptr. cbv zeta. mrun. unfold _ntoa_long. rewrite !(wrapu_small 32 v) by lia.
    mrun E. reflexivity. }
  done.
Qed.

(** ** Formats in pieces: [f], given [va], prints [t], wherever it stands in a format *)
Definition piece (f : list Z) (va : list va_value) (t : list Z) : Prop :=
  Forall (fun c => c <> 0) t /\
  forall fuel rest va' text, (length (f ++ rest) <= fuel)%nat -> exists fuel',
    (length rest <= fuel')%nat /\
    vsnprintf_loop record 0 fuel (f ++ rest) (va ++ va') (u32 (len text)) text =
    vsnprintf_loop record 0 fuel' rest va' (u32 (len (text ++ t))) (text ++ t).

Lemma piece_app f1 f2 va1 va2 t1 t2 :
  piece f1 va1 t1 -> piece f2 va2 t2 -> piece (f1 ++ f2) (va1 ++ va2) (t1 ++ t2).
Proof.
  intros [N1 H1] [N2 H2]. split; [by apply Forall_app|]. intros fuel rest va' text Hf.
  rewrite <- !(assoc_L (++)) in *.
  destruct (H1 fuel (f2 ++ rest) (va2 ++ va') text Hf) as (f' & Hf' & E1).
  destruct (H2 f' rest va' (text ++ t1) Hf') as (f'' & Hf'' & E2).
  exists f''. split; [done|]. by rewrite E1, E2, <- (assoc_L (++)).
Qed.

(** Characters that stand for themselves. *)
Definition plain_text (s : list Z) : bool := forallb (fun c => negb (c =? 0) && negb (c =? 37)) s.

Lemma piece_literal s : plain_text s = true -> piece s [] s.
Proof.
  intros Hs. assert (Forall (fun c => c <> 0 /\ c <> 37) s) as Hp.
  { apply Forall_forall. intros c Hc. unfold plain_text in Hs. rewrite forallb_forall in Hs.
    specialize (Hs c (proj1 (list_elem_of_In _ _) Hc)). lia. }
  split; [by eapply Forall_impl; [exact Hp|]; intros c []|].
  intros fuel rest va' text Hf. rewrite length_app in Hf. exists (fuel - length s)%nat.
  split; [lia|]. apply loop_literal; [done|done|lia].
Qed.

(** A conversion takes one round of the loop. *)
Lemma piece_conversion f v t :
  f <> [] -> Forall (fun c => c <> 0) t ->
  (forall fuel va fmt text,
    vsnprintf_loop record 0 (S fuel) (f ++ fmt) (v :: va) (u32 (len text)) text =
    vsnprintf_loop record 0 fuel fmt va (u32 (len (text ++ t))) (text ++ t)) ->
  piece f [v] t.
Proof.
  intros Hne Ht H. split; [done|]. intros [|fuel] rest va' text Hf; rewrite length_app in Hf.
  - destruct f; simpl in Hf; [done|lia].
  - exists fuel. split; [destruct f; simpl in Hf; [done|lia]|]. apply H.
Qed.

Lemma piece_decimal v :
  0 <= v < 2 ^ 31 -> exists t, decimal v t /\ piece (txt "%d") [VWord v] t /\ piece (txt "%u") [VWord v] t.
Proof.
  intros Hv. destruct (loop_decimal v Hv) as (t & Ht & E). exists t. split; [done|].
  split; apply piece_conversion; try done; try (by eapply decimal_nonzero); intros; apply E; auto.
Qed.

Lemma piece_ptr v : 0 <= v < 2 ^ 32 -> exists t, hex8 v t /\ piece (txt "%p") [VWord v] t.
Proof.
  intros Hv. destruct (loop_ptr v Hv) as (t & Ht & E). exists t. split; [done|].
  apply piece_conversion; [done|by eapply hex8_nonzero|intros; apply E].
Qed.

Lemma piece_string addr s rest :
  Forall (fun c => c <> 0) s -> len s < 2 ^ 32 - 1 -> u32 addr <> 0 ->
  piece (txt "%s") [VStr addr (s ++ 0 :: rest)] s.
Proof.
  intros Hs Hl Ha. apply piece_conversion; [done|done|]. intros. by apply loop_string.
Qed.

(** A size in its unit. *)
Lemma piece_size v : 0 <= v < 2 ^ 32 -> exists t, piece (txt "%S") [VWord v] t.
Proof.
  intros Hv. destruct (size_scale_32 v Hv) as [Hscale Hk].
  destruct (sizes_lookup (size_unit v) Hk) as (unit_ & Hunit & Hnz & _).
  destruct (size_whole v ltac:(lia)) as [Hq _].
  set (q := v / 1024 ^ size_unit v) in *.
  destruct (ntoa_plain 0 q false 10) as (ds & Hcan & Hread & _ & E); [by vm_compute|lia|lia|].
  set (frac := if u32 (size_fraction v * 100) / 1024 =? 0 then [] else 46 :: ds).
  exists ((ds ++ frac) ++ unit_). apply piece_conversion; [done| |].
  { assert (Forall (fun c => c <> 0) ds) by (by apply (decimal_nonzero q); split).
    repeat (apply Forall_app; split); try done. unfold frac. case_match; [constructor|].
    by constructor. }
  intros fuel va fmt text. change (txt "%S" ++ fmt) with (37 :: 83 :: fmt). cbn [vsnprintf_loop]. do 6 mrun.
  mfirst.
  { match goal with |- context [specifier record 0 ?c ?f 0 0 ?i ?l] =>
      change (specifier record 0 c f 0 0 i l) with (conv_size record 0 0 0 0 i l) end.
    unfold conv_size, _ntoa_long. mrun. rewrite (wrapu_small 32 v) by lia. rewrite Hscale. fold q.
    rewrite !(wrapu_small 32 q) by lia. mrun E. { done. } cbn [app].
    mfirst.
    { instantiate (1 := text ++ ds ++ frac). instantiate (1 := u32 (len (text ++ ds ++ frac))). unfold frac.
      destruct (_ =? 0); cbn [negb]; [by rewrite app_nil_r|].
      mrun emit_record. rewrite E; [|by rewrite u32_succ, (len_app _ [46])].
      cbn [app]. by rewrite <- !(assoc_L (++)). }
    rewrite Hunit. mrun. mrun out_string_record; [done|done|done|]. reflexivity. }
  by rewrite <- !(assoc_L (++)).
Qed.

(** A whole format. *)
Lemma render_piece f va t : piece f va t -> render (f ++ [0]) va = Ok (u32 (len t)) t.
Proof.
  intros [_ H]. unfold render. rewrite <- (app_nil_r va).
  destruct (H (S (length (f ++ [0]))) [0] [] []) as (fuel & Hf & E); [lia|].
  change (u32 (len [])) with 0 in E. rewrite E. destruct fuel as [|fuel]; [simpl in Hf; lia|].
  cbn [vsnprintf_loop]. etransitivity; [eapply bind_ok; reflexivity|]. done.
Qed.

(** A line of the log, from the pieces of its format. *)
Lemma prints_message txfifo_cnt polls mark fmt va t :
  drains txfifo_cnt polls -> plain_text (txt mark) = true -> piece fmt va t ->
  prints (log txfifo_cnt polls mark fmt va) (txt mark ++ t ++ [10; 13]).
Proof.
  intros Hd Hm Hp.
  assert (piece (txt mark ++ fmt ++ [10; 13]) va (txt mark ++ t ++ [10; 13])) as H.
  { rewrite <- (app_nil_l va), <- (app_nil_r va). repeat (apply piece_app; [|]); try done;
      by apply piece_literal. }
  pose proof (render_piece _ _ _ H) as E. rewrite <- !(assoc_L (++)) in E.
  eapply prints_log; [done|exact E|apply H].
Qed.

(** The messages of a failed check and of a rethrown error. *)
Section Errors.
Context (txfifo_cnt : nat -> Z) (polls : nat) (func file : list Z) (line : Z).
Hypothesis (Hdrains : drains txfifo_cnt polls).
Hypothesis (Hfn : Forall (fun c => c <> 0) func) (Hfl : len func < 2 ^ 32 - 1).
Hypothesis (Hpn : Forall (fun c => c <> 0) file) (Hpl : len file < 2 ^ 32 - 1).
Hypothesis (Hline : 0 <= line < 2 ^ 31).

Lemma prints_check_failed e : exists text, prints (check_failed txfifo_cnt polls func file e line) text.
Proof using All.
  destruct (piece_decimal (err_code e)) as (d1 & _ & P1 & _); [destruct e; simpl; lia|].
  destruct (piece_decimal line Hline) as (d2 & _ & P2 & _).
  eexists. apply prints_message; [done|done|].
  change (txt "Check failed with error %d in function %s (%s:%d)") with
    (txt "Check failed with error " ++ txt "%d" ++ txt " in function " ++ txt "%s" ++ txt " (" ++
      txt "%s" ++ txt ":" ++ txt "%d" ++ txt ")").
  apply (piece_app _ _ []); [by apply piece_literal|]. apply (piece_app _ _ [_]); [exact P1|].
  apply (piece_app _ _ []); [by apply piece_literal|]. apply (piece_app _ _ [_]); [by apply piece_string|].
  apply (piece_app _ _ []); [by apply piece_literal|]. apply (piece_app _ _ [_]); [by apply piece_string|].
  apply (piece_app _ _ []); [by apply piece_literal|]. apply (piece_app _ _ [_] []); [exact P2|].
  by apply piece_literal.
Qed.

Lemma prints_rethrown : exists text, prints (rethrown txfifo_cnt polls func file line) text.
Proof using All.
  destruct (piece_decimal line Hline) as (d & _ & P & _).
  eexists. apply prints_message; [done|done|].
  change (9 :: txt "rethrown at %s (%s:%d)") with
    ((9 :: txt "rethrown at ") ++ txt "%s" ++ txt " (" ++ txt "%s" ++ txt ":" ++ txt "%d" ++ txt ")").
  apply (piece_app _ _ []); [by apply piece_literal|]. apply (piece_app _ _ [_]); [by apply piece_string|].
  apply (piece_app _ _ []); [by apply piece_literal|]. apply (piece_app _ _ [_]); [by apply piece_string|].
  apply (piece_app _ _ []); [by apply piece_literal|]. apply (piece_app _ _ [_] []); [exact P|].
  by apply piece_literal.
Qed.
End Errors.
