(* ===== verification/Hexdump.v ===== *)
(** * The hexadecimal dump: trace_hex (kernel/src/util/trace.c, loader/src/trace.c)

    The kernel and the boot loader have a copy each, over their own printf and with their own
    end of a line; here it is one routine over any output. What it needs of the output is the
    class [Printer], the kernel's serial port is an instance.
    The routine keeps a row of 16 characters next to the index of the loop. The reference is
    [hexdump]: the data cut into rows of 16 bytes, each printed as one line. *)
From Stdlib Require Import ZArith Lia Ascii String.
From stdpp Require Import base tactics numbers list gmap.
From S2P Require Import Prelude Printf PrintfSpec Text Console.

Definition hex_digit (d : Z) : Z := if d <? 10 then 48 + d else 87 + d.
Definition hex2 (c : Z) : list Z := [hex_digit (c / 16); hex_digit (c mod 16)].

(** The end of a row, with the characters collected in an array. *)
Definition row_format (eol : list Z) : list Z := txt "|  %s " ++ eol.

(** What an output promises: literal text is printed as it is, a byte as two digits, a row
    as the characters up to the zero in the array. *)
Class Printer {T} (print : list Z -> list va_value -> M T unit) (eol : list Z) (wrote : list Z -> T -> T -> Prop) := {
  wrote_nothing u : wrote [] u u;
  wrote_app t1 t2 u1 u2 u3 : wrote t1 u1 u2 -> wrote t2 u2 u3 -> wrote (t1 ++ t2) u1 u3;
  print_literal s u : Forall (fun c => c <> 0 /\ c <> 37) s -> exists u', print s [] u = Ok tt u' /\ wrote s u u';
  print_hex2 c u : 0 <= c < 256 ->
    exists u', print (txt "%02x ") [VWord c] u = Ok tt u' /\ wrote (hex2 c ++ [32]) u u';
  print_row s rest u : Forall (fun c => c <> 0) s -> len s < 2 ^ 32 - 1 ->
    exists u', print (row_format eol) [VStr 1 (s ++ 0 :: rest)] u = Ok tt u' /\
      wrote (txt "|  " ++ s ++ txt " " ++ eol) u u';
}.

Section Hexdump.
Context {T : Type} (print : list Z -> list va_value -> M T unit) (eol : list Z).

(** ** The routine *)

(** [ascii[i % 16] = ...] *)
Definition shown (c : Z) : Z := if (32 <=? c) && (c <=? 126) then c else 46.

(** The line end of a row, printed from the array [ascii] on the stack. *)
Definition print_ascii (ascii : list Z) : M T unit := print (row_format eol) [VStr 1 ascii].

(** The body of the loop, from the array to the array. *)
Definition dump_byte (data : list Z) (size i : Z) (ascii : list Z) : M T (list Z) :=
  c ← deref (data !! Z.to_nat i);
  print (txt "%02x ") [VWord c];;
  let ascii := <[Z.to_nat (i mod 16) := shown c]> ascii in
  if ((i + 1) mod 8 =? 0) || (i + 1 =? size) then
    print (txt " ") [];;
    if (i + 1) mod 16 =? 0 then
      print_ascii ascii;;
      when (negb (i + 1 =? size)) (print (txt "[*] ") []);;
      mret ascii
    else if i + 1 =? size then
      let ascii := <[Z.to_nat ((i + 1) mod 16) := 0]> ascii in
      when ((i + 1) mod 16 <=? 8) (print (txt " ") []);;
      mfor (seqZ ((i + 1) mod 16) (16 - (i + 1) mod 16)) (fun _ => print (txt "   ") []);;
      print_ascii ascii;;
      mret ascii
    else mret ascii
  else mret ascii.

(** [for (int i = 0; i < size; i++)] *)
Fixpoint dump_loop (data : list Z) (size : Z) (is_ : list Z) (ascii : list Z) : M T unit :=
  match is_ with
  | [] => mret tt
  | i :: rest => ascii ← dump_byte data size i ascii; dump_loop data size rest ascii
  end.

Definition dump (data : list Z) (size : Z) : M T unit :=
  print (txt "[*] ") [];;
  dump_loop data size (seqZ 0 size) (replicate 17 0).

(** ** The reference *)
(** The bytes of half a row: two digits and a space each. *)
Definition cells (bs : list Z) : list Z := concat ((fun c => hex2 c ++ [32]) <$> bs).

Definition spaces (n : nat) : list Z := replicate n 32.

(** One row, of at most 16 bytes: the columns are always 50 characters wide. *)
Definition hex_row (bs : list Z) : list Z :=
  let columns := cells (take 8 bs) ++ [32] ++ cells (drop 8 bs) in
  txt "[*] " ++ columns ++ spaces (50 - length columns) ++ txt "|  " ++ (shown <$> bs) ++ txt " " ++ eol.

(** Rows of 16 bytes, the last one shorter. *)
Fixpoint rows (n : nat) (bs : list Z) : list (list Z) :=
  match n with
  | O => []
  | S n' => match bs with [] => [] | _ => take 16 bs :: rows n' (drop 16 bs) end
  end.
Definition hexdump (bs : list Z) : list Z := concat (hex_row <$> rows (length bs) bs).

(** ** What the single prints show *)
Context (wrote : list Z -> T -> T -> Prop) {Hprinter : Printer print eol wrote}.

(** [m] returns [a] and prints [text]. *)
Definition shows {A} (m : M T A) (a : A) (text : list Z) : Prop :=
  forall u, exists u', m u = Ok a u' /\ wrote text u u'.

Lemma shows_ret {A} (a : A) : shows (mret a) a [].
Proof using Hprinter. intros u. exists u. split; [done|apply wrote_nothing]. Qed.

Lemma shows_bind {A B} (m : M T A) (f : A -> M T B) a b t1 t2 :
  shows m a t1 -> shows (f a) b t2 -> shows (m ≫= f) b (t1 ++ t2).
Proof using Hprinter.
  intros H1 H2 u. destruct (H1 u) as (u1 & E1 & P1). destruct (H2 u1) as (u2 & E2 & P2).
  exists u2. split; [by mrun E1|]. by eapply wrote_app.
Qed.

Lemma shows_deref {A} (o : option A) a : o = Some a -> shows (deref o) a [].
Proof using Hprinter. intros ->. apply shows_ret. Qed.

Lemma shows_mfor {A} (l : list A) (body : A -> M T unit) t :
  (forall x, shows (body x) tt t) -> shows (mfor l body) tt (concat ((fun _ => t) <$> l)).
Proof using Hprinter.
  intros Hb. induction l as [|x l IH]; [apply shows_ret|]. cbn [mfor fmap list_fmap concat].
  by apply shows_bind with tt.
Qed.

Lemma shows_literal s :
  Forall (fun c => c <> 0 /\ c <> 37) s -> shows (print s []) tt s.
Proof using Hprinter. intros Hs u. by apply print_literal. Qed.

Lemma shows_byte c : 0 <= c < 256 -> shows (print (txt "%02x ") [VWord c]) tt (hex2 c ++ [32]).
Proof using Hprinter. intros Hc u. by apply print_hex2. Qed.

Lemma shows_ascii s rest :
  Forall (fun c => c <> 0) s -> len s < 2 ^ 32 - 1 ->
  shows (print_ascii (s ++ 0 :: rest)) tt (txt "|  " ++ s ++ txt " " ++ eol).
Proof using Hprinter. intros Hs Hl u. by apply print_row. Qed.

(** ** Rows *)

(** What the bytes from column [c] on print, up to the last but one of a row. *)
Fixpoint mids (c : nat) (bs : list Z) : list Z :=
  match bs with
  | [] => []
  | b :: bs' => hex2 b ++ [32] ++ (if (c =? 7)%nat then [32] else []) ++ mids (S c) bs'
  end.

Lemma cells_app l1 l2 : cells (l1 ++ l2) = cells l1 ++ cells l2.
Proof using. unfold cells. by rewrite fmap_app, concat_app. Qed.

Lemma length_cells bs : length (cells bs) = (3 * length bs)%nat.
Proof using.
  induction bs as [|b bs IH]; [done|]. change (cells (b :: bs)) with (hex2 b ++ [32] ++ cells bs).
  rewrite !length_app, IH. simpl. lia.
Qed.

Lemma mids_high bs : forall c, (8 <= c)%nat -> mids c bs = cells bs.
Proof using.
  induction bs as [|b bs IH]; intros c Hc; [done|]. cbn [mids].
  rewrite (proj2 (Nat.eqb_neq c 7)), IH by lia. done.
Qed.

Lemma mids_low bs : forall c, (c <= 7)%nat -> mids c bs =
  cells (take (8 - c) bs) ++ (if (7 <? c + length bs)%nat then [32] else []) ++ cells (drop (8 - c) bs).
Proof using.
  induction bs as [|b bs IH]; intros c Hc.
  - rewrite (proj2 (Nat.ltb_ge _ _)) by (simpl; lia). by rewrite take_nil, drop_nil.
  - replace (8 - c)%nat with (S (7 - c)) by lia. cbn [mids take drop].
    change (cells (b :: ?l)) with (hex2 b ++ [32] ++ cells l). cbn [length].
    rewrite <- !(assoc_L (++)). do 2 f_equal. destruct (Nat.eqb_spec c 7) as [->|].
    + rewrite mids_high by lia. cbn. rewrite take_0, drop_0. done.
    + rewrite IH by lia. replace (8 - S c)%nat with (7 - c)%nat by lia.
      by replace (S c + length bs)%nat with (c + S (length bs))%nat by lia.
Qed.

(** The columns of a row. *)
Lemma columns_row bs b :
  (length bs < 16)%nat -> let n := S (length bs) in let row := bs ++ [b] in
  let columns := cells (take 8 row) ++ [32] ++ cells (drop 8 row) in
  mids 0 bs ++ hex2 b ++ [32] ++ [32] ++ (if (n <=? 8)%nat then [32] else []) ++ spaces (3 * (16 - n)) =
  columns ++ spaces (50 - length columns).
Proof using.
  intros Hlen n row columns.
  assert (length columns = (3 * n + 1)%nat) as ->.
  { unfold columns, row, n. rewrite !length_app, !length_cells, length_take, length_drop, length_app. cbn [length]. lia. }
  rewrite mids_low by lia. replace (8 - 0)%nat with 8%nat by lia. cbn [Nat.add]. unfold columns, row.
  replace (50 - (3 * n + 1))%nat with (S (3 * (16 - n))) by (unfold n; lia).
  destruct (Nat.leb_spec n 8) as [Hn|Hn].
  - rewrite (proj2 (Nat.ltb_ge _ _)) by (unfold n in *; lia).
    rewrite !(take_ge (A := Z)), !drop_ge by (rewrite ?length_app; simpl; unfold n in *; lia).
    rewrite cells_app. change (cells []) with (@nil Z). rewrite !app_nil_r.
    change (cells [b]) with (hex2 b ++ [32]). by rewrite <- !(assoc_L (++)).
  - rewrite (proj2 (Nat.ltb_lt _ _)) by (unfold n in *; lia).
    rewrite take_app_le, drop_app_le, cells_app by (unfold n in *; lia).
    change (cells [b]) with (hex2 b ++ [32]). rewrite <- !(assoc_L (++)). done.
Qed.

(** ** The loop *)
Section Loop.
Context (data : list Z).
Hypothesis (Hbytes : Forall (fun c => 0 <= c < 256) data).
Abbreviation size := (len data).

Lemma data_byte i b : data !! i = Some b -> 0 <= b < 256.
Proof using Hbytes. intros H. exact (proj1 (Forall_lookup _ _) Hbytes i b H). Qed.

Lemma shown_nonzero bs : Forall (fun c => c <> 0) (shown <$> bs).
Proof using.
  apply Forall_fmap, Forall_true. intros c. unfold shown. cbn. case_match eqn:E; [|done].
  apply andb_prop in E as [E _]. apply Z.leb_le in E. lia.
Qed.

(** A byte inside of a row. *)
Lemma shows_mid j (c : nat) b pre x tl :
  data !! (16 * j + c)%nat = Some b -> (c < 15)%nat -> (16 * j + c + 1 < length data)%nat ->
  length pre = c ->
  shows (dump_byte data size (Z.of_nat (16 * j + c)) (pre ++ x :: tl)) (pre ++ shown b :: tl)
    (hex2 b ++ [32] ++ (if (c =? 7)%nat then [32] else [])).
Proof using Hprinter Hbytes.
  intros Hb Hc Hs Hpre. pose proof (data_byte _ _ Hb) as Hb256. unfold dump_byte.
  rewrite Nat2Z.id. rewrite <- (app_nil_l (hex2 b ++ _)).
  apply shows_bind with b; [by apply shows_deref|]. rewrite (assoc_L (++)).
  apply shows_bind with tt; [by apply shows_byte|].
  assert (Z.of_nat (16 * j + c) = Z.of_nat c + Z.of_nat j * 16) as -> by lia.
  rewrite Z_mod_plus_full, (Z.mod_small (Z.of_nat c) 16), Nat2Z.id, (insert_at c) by (done || lia).
  assert (Z.of_nat c + Z.of_nat j * 16 + 1 = Z.of_nat (c + 1) + (Z.of_nat j * 2) * 8) as -> by lia.
  rewrite Z_mod_plus_full.
  replace (Z.of_nat (c + 1) + Z.of_nat j * 2 * 8 =? size) with false
    by (symmetry; apply Z.eqb_neq; unfold len; lia).
  rewrite orb_false_r.
  destruct (Nat.eqb_spec c 7) as [->|Hne].
  - cbn [Z.eqb Z.modulo]. change (Z.of_nat (7 + 1) mod 8 =? 0) with true. cbv iota.
    rewrite <- (app_nil_r [32]). apply shows_bind with tt; [by apply (shows_literal [32]); repeat constructor|].
    replace (Z.of_nat (7 + 1) + Z.of_nat j * 2 * 8) with (8 + Z.of_nat j * 16) by lia.
    rewrite Z_mod_plus_full. apply shows_ret.
  - destruct (Z.eqb_spec (Z.of_nat (c + 1) mod 8) 0) as [He|He].
    { exfalso. apply Z.mod_divide in He as [k Hk]; lia. }
    apply shows_ret.
Qed.

(** Bytes before the last one of a row. *)
Lemma shows_mids j rest t : forall bs pre xs tl,
  (forall k b, bs !! k = Some b -> data !! (16 * j + length pre + k)%nat = Some b) ->
  (length pre + length bs <= 15)%nat -> (16 * j + length pre + length bs < length data)%nat ->
  length xs = length bs ->
  shows (dump_loop data size rest (pre ++ (shown <$> bs) ++ tl)) tt t ->
  shows (dump_loop data size
    ((Z.of_nat <$> seq (16 * j + length pre) (length bs)) ++ rest) (pre ++ xs ++ tl)) tt
    (mids (length pre) bs ++ t).
Proof using Hprinter Hbytes.
  induction bs as [|b bs IH]; intros pre [|x xs] tl Hd Hc Hs Hl Ht; try done.
  simpl in Hc, Hs, Hl. cbn [length seq fmap list_fmap app dump_loop].
  assert (mids (length pre) (b :: bs) ++ t = (hex2 b ++ [32] ++ (if (length pre =? 7)%nat then [32] else [])) ++
    mids (S (length pre)) bs ++ t) as -> by (cbn [mids]; by rewrite <- !(assoc_L (++))).
  eapply shows_bind.
  - apply (shows_mid j (length pre) b pre x (xs ++ tl)); try lia.
    rewrite <- (Hd 0%nat b eq_refl). f_equal. lia.
  - specialize (IH (pre ++ [shown b]) xs tl).
    assert (length (pre ++ [shown b]) = S (length pre)) as Hp by (rewrite length_app; simpl; lia).
    rewrite Hp, <- !(assoc_L (++)) in IH. cbn [app] in IH. rewrite Nat.add_succ_r in IH. apply IH.
    + intros k b' Hk. rewrite <- (Hd (S k) b' Hk). f_equal. lia.
    + lia.
    + lia.
    + lia.
    + exact Ht.
Qed.

Lemma shows_front j rest t bs n xs tl :
  length bs = n -> length xs = n -> (n <= 15)%nat -> (16 * j + n < length data)%nat ->
  (forall k b, bs !! k = Some b -> data !! (16 * j + k)%nat = Some b) ->
  shows (dump_loop data size rest ((shown <$> bs) ++ tl)) tt t ->
  shows (dump_loop data size ((Z.of_nat <$> seq (16 * j) n) ++ rest) (xs ++ tl)) tt
    (mids 0 bs ++ t).
Proof using Hprinter Hbytes.
  intros <- Hl Hc Hs Hd Ht. pose proof (shows_mids j rest t bs [] xs tl) as H.
  cbn [length app] in H. rewrite !Nat.add_0_r in H. by apply H.
Qed.

Definition row_end (row : list Z) : list Z := txt "|  " ++ (shown <$> row) ++ txt " " ++ eol.

Lemma shows_row_ascii row tl :
  (length row <= 16)%nat -> shows (print_ascii ((shown <$> row) ++ 0 :: tl)) tt (row_end row).
Proof using Hprinter.
  clear Hbytes. intros Hl. apply shows_ascii; [apply shown_nonzero|]. unfold len. rewrite length_fmap. lia.
Qed.

(** The last byte of a full row. *)
Lemma shows_full_end j bs b x :
  data !! (16 * j + 15)%nat = Some b -> length bs = 15%nat -> (16 * j + 16 <= length data)%nat ->
  shows (dump_byte data size (Z.of_nat (16 * j + 15)) ((shown <$> bs) ++ [x; 0]))
    ((shown <$> bs ++ [b]) ++ [0])
    (hex2 b ++ [32] ++ [32] ++ row_end (bs ++ [b]) ++
      (if (16 * j + 16 =? length data)%nat then [] else txt "[*] ")).
Proof using Hprinter Hbytes.
  intros Hb Hbs Hs. pose proof (data_byte _ _ Hb) as Hb256. unfold dump_byte.
  rewrite Nat2Z.id. rewrite <- (app_nil_l (hex2 b ++ _)).
  apply shows_bind with b; [by apply shows_deref|]. rewrite (assoc_L (++) (hex2 b)).
  apply shows_bind with tt; [by apply shows_byte|].
  replace (Z.of_nat (16 * j + 15)) with (15 + Z.of_nat j * 16) by lia.
  rewrite Z_mod_plus_full. change (Z.to_nat (15 mod 16)) with 15%nat.
  rewrite (insert_at 15) by (by rewrite length_fmap).
  assert ((shown <$> bs) ++ shown b :: [0] = (shown <$> bs ++ [b]) ++ [0]) as ->
    by (rewrite fmap_app, <- (assoc_L (++)); done).
  replace (15 + Z.of_nat j * 16 + 1) with (Z.of_nat j * 2 * 8 + 8 * 2) by lia.
  replace ((Z.of_nat j * 2 * 8 + 8 * 2) mod 8) with 0
    by (replace (Z.of_nat j * 2 * 8 + 8 * 2) with (0 + (Z.of_nat j * 2 + 2) * 8) by lia;
        by rewrite Z_mod_plus_full).
  replace ((Z.of_nat j * 2 * 8 + 8 * 2) mod 16) with 0
    by (replace (Z.of_nat j * 2 * 8 + 8 * 2) with (0 + (Z.of_nat j + 1) * 16) by lia;
        by rewrite Z_mod_plus_full).
  cbn [Z.eqb orb].
  apply shows_bind with tt; [by apply (shows_literal [32]); repeat constructor|].
  apply shows_bind with tt; [apply shows_row_ascii; rewrite length_app, Hbs; simpl; lia|].
  rewrite <- (app_nil_r (if (_ =? _)%nat then _ else _)).
  apply shows_bind with tt; [|apply shows_ret].
  destruct (Nat.eqb_spec (16 * j + 16) (length data)) as [He|He].
  - replace (_ =? size) with true by (symmetry; apply Z.eqb_eq; unfold len; lia). apply shows_ret.
  - replace (_ =? size) with false by (symmetry; apply Z.eqb_neq; unfold len; lia).
    apply (shows_literal (txt "[*] ")). by repeat constructor.
Qed.

(** The last byte of the data, in a shorter row. *)
Lemma shows_short_end j bs b x y tl :
  let n := S (length bs) in
  data !! (16 * j + length bs)%nat = Some b -> (n < 16)%nat -> length data = (16 * j + n)%nat ->
  shows (dump_byte data size (Z.of_nat (16 * j + length bs)) ((shown <$> bs) ++ x :: y :: tl))
    ((shown <$> bs ++ [b]) ++ 0 :: tl)
    (hex2 b ++ [32] ++ [32] ++ (if (n <=? 8)%nat then [32] else []) ++ spaces (3 * (16 - n)) ++
      row_end (bs ++ [b])).
Proof using Hprinter Hbytes.
  intros n Hb Hn Hs. pose proof (data_byte _ _ Hb) as Hb256. unfold dump_byte.
  rewrite Nat2Z.id. rewrite <- (app_nil_l (hex2 b ++ _)).
  apply shows_bind with b; [by apply shows_deref|]. rewrite (assoc_L (++) (hex2 b)).
  apply shows_bind with tt; [by apply shows_byte|].
  assert (len data = Z.of_nat n + Z.of_nat j * 16) as -> by (unfold len; lia).
  replace (Z.of_nat (16 * j + length bs)) with (Z.of_nat (length bs) + Z.of_nat j * 16) by lia.
  rewrite Z_mod_plus_full, (Z.mod_small (Z.of_nat (length bs))), Nat2Z.id by lia.
  rewrite (insert_at (length bs)) by (by rewrite length_fmap).
  replace (Z.of_nat (length bs) + Z.of_nat j * 16 + 1) with (Z.of_nat n + Z.of_nat j * 16) by lia.
  rewrite Z.eqb_refl, orb_true_r, Z_mod_plus_full, (Z.mod_small (Z.of_nat n)) by lia.
  apply shows_bind with tt; [by apply (shows_literal [32]); repeat constructor|].
  rewrite (proj2 (Z.eqb_neq (Z.of_nat n) 0)), Nat2Z.id by lia.
  assert ((shown <$> bs) ++ shown b :: y :: tl = (shown <$> bs ++ [b]) ++ y :: tl) as ->
    by (rewrite fmap_app, <- (assoc_L (++)); done).
  rewrite (insert_at n) by (rewrite length_fmap, length_app; simpl; lia).
  apply shows_bind with tt.
  { destruct (Nat.leb_spec n 8).
    - rewrite (proj2 (Z.leb_le _ _)) by lia. by apply (shows_literal [32]); repeat constructor.
    - rewrite (proj2 (Z.leb_gt _ _)) by lia. apply shows_ret. }
  apply shows_bind with tt.
  { assert (spaces (3 * (16 - n)) = concat ((fun _ => spaces 3) <$> seqZ (Z.of_nat n) (16 - Z.of_nat n))) as ->.
    { assert (length (seqZ (Z.of_nat n) (16 - Z.of_nat n)) = 16 - n)%nat as <- by (rewrite length_seqZ; lia).
      induction (seqZ _ _) as [|i l IH]; [done|]. cbn [length fmap list_fmap concat].
      rewrite <- IH. replace (3 * S (length l))%nat with (3 + 3 * length l)%nat by lia.
      unfold spaces. by rewrite replicate_add. }
    apply shows_mfor. intros i. by apply (shows_literal (spaces 3)); repeat constructor. }
  rewrite <- (app_nil_r (row_end _)). apply shows_bind with tt; [|apply shows_ret].
  apply shows_row_ascii. rewrite length_app. simpl. lia.
Qed.

(** What a row prints behind the mark of the line. *)
Lemma hex_row_eq bs b :
  (length bs < 16)%nat -> hex_row (bs ++ [b]) = txt "[*] " ++ mids 0 bs ++ hex2 b ++ [32] ++ [32] ++
    (if (S (length bs) <=? 8)%nat then [32] else []) ++ spaces (3 * (16 - S (length bs))) ++ row_end (bs ++ [b]).
Proof using.
  clear Hbytes. intros Hl. unfold hex_row. cbv zeta. f_equal.
  rewrite (assoc_L (++) (_ ++ _ ++ _) (spaces _)), <- (columns_row bs b Hl).
  unfold row_end. by rewrite <- !(assoc_L (++)).
Qed.

Lemma seq_row j n k : Z.of_nat <$> seq (16 * j) (S n + k) =
  (Z.of_nat <$> seq (16 * j) n) ++ Z.of_nat (16 * j + n) :: (Z.of_nat <$> seq (16 * j + S n) k).
Proof using.
  replace (S n + k)%nat with (n + S k)%nat by lia. rewrite seq_app, fmap_app. cbn [seq fmap list_fmap].
  by rewrite Nat.add_succ_r.
Qed.

Lemma shows_rows : forall n j xs,
  (0 < length data - 16 * j <= n)%nat -> length xs = 16%nat ->
  exists t, concat (hex_row <$> rows n (drop (16 * j) data)) = txt "[*] " ++ t /\
    shows (dump_loop data size (Z.of_nat <$> seq (16 * j) (length data - 16 * j)) (xs ++ [0])) tt t.
Proof using Hprinter Hbytes.
  induction n as [|n IH]; intros j xs Hn Hxs; [lia|].
  set (row := take 16 (drop (16 * j) data)).
  assert (length row = Nat.min 16 (length data - 16 * j)) as Hrow by (unfold row; rewrite length_take, length_drop; lia).
  assert (forall k b, row !! k = Some b -> data !! (16 * j + k)%nat = Some b) as Hdata.
  { intros k b H. unfold row in H. apply lookup_take_Some in H as [H _]. by rewrite lookup_drop in H. }
  assert (rows (S n) (drop (16 * j) data) = row :: rows n (drop (16 * S j) data)) as ->.
  { cbn [rows]. destruct (drop (16 * j) data) eqn:E.
    - apply (f_equal length) in E. rewrite length_drop in E. simpl in E. lia.
    - rewrite <- E, drop_drop. replace (16 * j + 16)%nat with (16 * S j)%nat by lia.
      unfold row. by rewrite E. }
  destruct (exists_last (l := row)) as (bs & b & Hbs); [intros H; rewrite H in Hrow; cbn [length] in Hrow; lia|].
  clearbody row. subst row. rewrite length_app in Hrow. cbn [length] in Hrow.
  assert (data !! (16 * j + length bs)%nat = Some b) as Hb.
  { apply Hdata. by rewrite lookup_app_r, Nat.sub_diag by lia. }
  assert (forall k c, bs !! k = Some c -> data !! (16 * j + k)%nat = Some c) as Hd.
  { intros k c H. apply Hdata. by apply lookup_app_l_Some. }
  cbn [fmap list_fmap concat]. rewrite hex_row_eq by lia.
  replace (length data - 16 * j)%nat with (S (length bs) + (length data - 16 * j - S (length bs)))%nat by lia.
  rewrite seq_row, <- (take_drop (length bs) xs), <- (assoc_L (++) (take _ _)).
  destruct (decide (length data - 16 * j < 16)%nat) as [Hlt|Hge].
  - replace (length data - 16 * j - S (length bs))%nat with 0%nat by lia. cbn [seq fmap list_fmap].
    eexists. split; [rewrite <- !(assoc_L (++)); reflexivity|].
    assert (exists x y tl, drop (length bs) xs ++ [0] = x :: y :: tl) as (x & y & tl & ->).
    { assert (length (drop (length bs) xs ++ [0%Z]) = 17 - length bs)%nat as H
        by (rewrite length_app, length_drop; cbn [length]; lia).
      destruct (drop (length bs) xs ++ [0]) as [|x [|y tl]]; cbn [length] in H; try lia. by do 3 eexists. }
    apply shows_front; [lia|rewrite length_take; lia|lia|lia|done|].
    cbn [dump_loop]. replace (rows n (drop (16 * S j) data)) with (@nil (list Z))
      by (rewrite drop_ge by lia; by destruct n).
    cbn [fmap list_fmap concat]. rewrite app_nil_r.
    set (t := hex2 b ++ _). rewrite <- (app_nil_r t).
    eapply shows_bind; [|apply shows_ret].
    apply shows_short_end; [done|lia|lia].
  - assert (length bs = 15)%nat as Hl by lia. rewrite Hl.
    assert (exists x, drop 15 xs ++ [0] = [x; 0]) as [x ->].
    { assert (length (drop 15 xs) = 1)%nat as H by (rewrite length_drop; lia).
      destruct (drop 15 xs) as [|x [|]]; try done. by exists x. }
    set (more := if (16 * j + 16 =? length data)%nat then [] else txt "[*] ").
    assert (exists t, concat (hex_row <$> rows n (drop (16 * S j) data)) = more ++ t /\
      shows (dump_loop data size (Z.of_nat <$> seq (16 * j + 16) (length data - 16 * j - 16))
        ((shown <$> bs ++ [b]) ++ [0])) tt t) as (t & Et & Ht).
    { unfold more. destruct (Nat.eqb_spec (16 * j + 16) (length data)) as [He|He].
      - rewrite drop_ge by lia. exists []. split; [by destruct n|].
        replace (length data - 16 * j - 16)%nat with 0%nat by lia. apply shows_ret.
      - destruct (IH (S j) (shown <$> bs ++ [b])) as (t & Et & Ht); [lia|rewrite length_fmap, length_app, Hl; done|].
        exists t. split; [exact Et|]. replace (16 * S j)%nat with (16 * j + 16)%nat in Ht by lia.
        by replace (length data - 16 * j - 16)%nat with (length data - (16 * j + 16))%nat by lia. }
    rewrite Et. eexists. split; [rewrite <- !(assoc_L (++)); reflexivity|].
    apply shows_front; [lia|rewrite length_take; lia|lia|lia|done|].
    cbn [dump_loop].
    match goal with |- shows _ _ ?e => replace e with
      ((hex2 b ++ [32] ++ [32] ++ row_end (bs ++ [b]) ++ more) ++ t)
      by (by rewrite <- !(assoc_L (++))) end.
    eapply shows_bind; [|exact Ht].
    apply shows_full_end; [by rewrite Hl in Hb|done|lia].
Qed.
End Loop.

(** Every character of a dump is printable, or part of the end of a line. *)
Lemma hexdump_printable bs :
  Forall (fun c => c = 10 \/ c = 13) eol -> Forall (fun c => 0 <= c < 256) bs -> Forall (fun c => 32 <= c <= 126 \/ c = 10 \/ c = 13) (hexdump bs).
Proof using.
  intros Heol Hbs. apply Forall_concat, Forall_fmap.
  assert (forall n l, Forall (fun c => 0 <= c < 256) l ->
    Forall (Forall (fun c => 0 <= c < 256)) (rows n l)) as Hrows.
  { induction n as [|n IH]; intros l Hl; [constructor|]. cbn [rows]. destruct l as [|x l]; [constructor|].
    constructor; [by apply Forall_take|]. apply IH. by apply Forall_drop. }
  eapply Forall_impl; [by apply Hrows|]. intros row Hrow.
  set (P := fun c => 32 <= c <= 126 \/ c = 10 \/ c = 13).
  change (Forall P (hex_row row)).
  assert (forall l, Forall (fun c => 0 <= c < 256) l -> Forall P (cells l)) as Hcells.
  { intros l Hl. apply Forall_concat, Forall_fmap. eapply Forall_impl; [done|]. intros c Hc. cbv beta in Hc. cbn.
    assert (forall d, 0 <= d < 16 -> P (hex_digit d)) as Hd
      by (intros d Hd; unfold P, hex_digit; case_match eqn:E; lia).
    pose proof (Z.mod_pos_bound c 16 ltac:(lia)). pose proof (Z.div_mod c 16 ltac:(lia)).
    apply Forall_cons_2; [apply Hd; lia|]. apply Forall_cons_2; [apply Hd; lia|].
    apply Forall_cons_2; [unfold P; lia|constructor]. }
  assert (Forall P (shown <$> row)) as Hshown.
  { apply Forall_fmap, Forall_true. intros c. unfold P, shown. cbn. case_match eqn:E; lia. }
  assert (Forall P (txt "[*] ") /\ Forall P [32] /\ Forall P (txt "|  ") /\ Forall P (txt " "))
    as (H1 & H2 & H3 & H4) by (repeat split; unfold P; apply (bool_decide_unpack _); vm_compute; exact I).
  assert (Forall P eol) as H7 by (eapply Forall_impl; [exact Heol|]; unfold P; tauto).
  assert (Forall P (cells (take 8 row)) /\ Forall P (cells (drop 8 row))) as [H5 H6]
    by (split; apply Hcells; by (apply Forall_take || apply Forall_drop)).
  unfold hex_row, spaces. rewrite !Forall_app. repeat split; try done.
  apply Forall_replicate. unfold P. lia.
Qed.

(** The whole dump. *)
Lemma shows_dump data :
  Forall (fun c => 0 <= c < 256) data -> data <> [] -> shows (dump data (len data)) tt (hexdump data).
Proof using Hprinter.
  intros Hb Hne.
  assert (0 < length data)%nat as Hl by (destruct data; [done|simpl; lia]).
  destruct (shows_rows data Hb (length data) 0 (replicate 16 0)) as (t & Et & Ht); [lia|done|].
  unfold hexdump. change (drop (16 * 0) data) with data in Et. rewrite Et. unfold dump.
  apply (shows_bind (print (txt "[*] ") []) _ tt tt).
  - apply shows_literal. by repeat constructor.
  - change (seqZ 0 (len data)) with ((fun i => Z.of_nat i + 0) <$> seq 0 (Z.to_nat (len data))).
    unfold len at 2. rewrite Nat2Z.id, Nat.sub_0_r in *. cbn [Nat.mul] in Ht.
    replace ((fun i => Z.of_nat i + 0) <$> seq 0 (length data)) with (Z.of_nat <$> seq 0 (length data))
      by (apply list_fmap_ext; intros; lia).
    exact Ht.
Qed.
End Hexdump.

(** ** The texts of the formats *)
(** A literal without conversions. *)
Lemma render_literal s : Forall (fun c => c <> 0 /\ c <> 37) s -> exists k, render (s ++ [0]) [] = Ok k s.
Proof using.
  intros Hs. eexists. unfold render. rewrite (loop_literal s) by (done || rewrite length_app; lia).
  rewrite length_app. cbn [length]. replace (S (length s + 1) - length s)%nat with 2%nat by lia.
  cbn [vsnprintf_loop]. etransitivity; [eapply bind_ok; reflexivity|]. reflexivity.
Qed.

(** One byte as two digits, by running the interpreter on all of them. *)
Definition byte_ok (c : Z) : bool :=
  match render (txt "%02x " ++ [0]) [VWord c] with
  | Ok _ t => bool_decide (t = hex2 c ++ [32] /\ Forall (fun c => c <> 0) t)
  | Stop _ _ => false
  end.

Lemma byte_ok_all : forallb byte_ok (seqZ 0 256) = true.
Proof using. vm_compute. reflexivity. Qed.

Lemma render_byte c :
  0 <= c < 256 -> exists k, render (txt "%02x " ++ [0]) [VWord c] = Ok k (hex2 c ++ [32]).
Proof using.
  intros Hc. pose proof byte_ok_all as H. rewrite forallb_forall in H.
  specialize (H c). rewrite <- list_elem_of_In, elem_of_seqZ in H. specialize (H ltac:(lia)).
  unfold byte_ok in H. destruct (render _ _) as [k t|] eqn:E; [|done].
  apply bool_decide_eq_true in H as [-> Hnz]. by exists k.
Qed.

Ltac row_text eol fuel s rest :=
  eexists; unfold render, row_format;
  change ((txt "|  %s " ++ eol) ++ [0]) with (txt "|  " ++ 37 :: 115 :: (txt " " ++ eol) ++ [0]);
  etransitivity; [apply (loop_literal (txt "|  ")); [repeat constructor; done|done|vm_compute; lia]|];
  etransitivity; [apply (loop_string fuel 1 s rest); done|];
  etransitivity; [apply (loop_literal (txt " " ++ eol)); [repeat constructor; done|done|vm_compute; lia]|];
  cbn [vsnprintf_loop]; etransitivity; [eapply bind_ok; reflexivity|]; cbn [Z.eqb];
  rewrite app_nil_l, <- !(assoc_L (++)); reflexivity.

Lemma render_row eol s rest :
  eol = [10; 13] \/ eol = [10] -> len s < 2 ^ 32 - 1 -> Forall (fun c => c <> 0) s ->
  exists k, render (row_format eol ++ [0]) [VStr 1 (s ++ 0 :: rest)] = Ok k (txt "|  " ++ s ++ txt " " ++ eol).
Proof using.
  intros [-> | ->] Hl Hs.
  - row_text [10; 13] 6%nat s rest.
  - row_text [10] 5%nat s rest.
Qed.

Lemma nonzero_row eol s :
  eol = [10; 13] \/ eol = [10] -> Forall (fun c => c <> 0) s ->
  Forall (fun c => c <> 0) (txt "|  " ++ s ++ txt " " ++ eol).
Proof using.
  intros He Hs. repeat (apply Forall_app; split); try done; [by repeat constructor..|].
  destruct He as [-> | ->]; by repeat constructor.
Qed.

(** ** The kernel: the serial port *)
Section Kernel.
Context (txfifo_cnt : nat -> Z) (polls : nat).
Abbreviation print := (Console.print txfifo_cnt polls).

Definition trace_hex (data : list Z) (size : Z) : M uart unit := dump print [10; 13] data size.

Hypothesis Hdrains : drains txfifo_cnt polls.

#[export] Instance uart_printer : Printer print [10; 13] printed.
Proof using Hdrains.
  split.
  - intros u. split; [done|]. by rewrite app_nil_r.
  - intros *. apply printed_trans.
  - intros s u Hs. destruct (render_literal s Hs) as [k E]. eapply prints_render; [done|exact E|].
    eapply Forall_impl; [done|]. by intros c [].
  - intros c u Hc. destruct (render_byte c Hc) as [k E]. eapply prints_render; [done|exact E|].
    pose proof byte_ok_all as H. rewrite forallb_forall in H. specialize (H c).
    rewrite <- list_elem_of_In, elem_of_seqZ in H. specialize (H ltac:(lia)). unfold byte_ok in H. rewrite E in H.
    by apply bool_decide_eq_true in H as [_ H].
  - intros s rest u Hs Hl. destruct (render_row [10; 13] s rest) as [k E]; [by left|done|done|].
    eapply prints_render; [done|exact E|]. by apply nonzero_row; [left|].
Qed.

(** C28: trace_hex prints the reference dump of the bytes it is given, whatever they are: one
    line for every 16 bytes, with the columns aligned, and nothing but printable characters
    and ends of lines. *)
Theorem trace_hex_hexdump data :
  Forall (fun c => 0 <= c < 256) data -> data <> [] ->
  (forall u, exists u', trace_hex data (len data) u = Ok tt u' /\ printed (hexdump [10; 13] data) u u') /\
  Forall (fun c => 32 <= c <= 126 \/ c = 10 \/ c = 13) (hexdump [10; 13] data).
Proof using Hdrains.
  intros Hb Hne. split; [intros u; by apply (shows_dump print [10; 13] printed)|].
  apply hexdump_printable; [compute_done|done].
Qed.
End Kernel.

Lemma trace_hex_hexdump_witness :
  exists u', trace_hex (fun _ => 0) 1 [72; 105; 33; 200] 4 (Uart 0 [] 0) = Ok tt u' /\
    UART0_FIFO u' = txt "[*] 48 69 21 c8                                       |  Hi!. " ++ [10; 13].
Proof.
  destruct (trace_hex_hexdump (fun _ => 0) 1 (fun i => ex_intro _ 0%nat (conj Nat.lt_0_1 eq_refl))
    [72; 105; 33; 200]) as [H _]; [repeat constructor; lia|done|].
  destruct (H (Uart 0 [] 0)) as (u' & E & _ & P). exists u'. split; [exact E|].
  rewrite P. vm_compute. reflexivity.
Defined.
