(* ===== verification/Task.v ===== *)
(** * The kernel's state and its tasks (kernel/src/task/task.c, task.h)

    One record holds everything the routines of the task layer share: the address spaces
    (Mmu.v), the user pages (Umem.v), the watchdog (Timg.v), the tasks in the kernel heap,
    the user contexts in the user data pages, the run queue and the per-CPU context, and the
    exception frame that the handlers work on. A task and its address space are one C object
    and are keyed by the same location. *)
From Stdlib Require Import ZArith Lia Ascii String.
From stdpp Require Import base tactics numbers list gmap.
From S2P Require Import Prelude Umem Mmu Timg Printf.

(** ** Data *)
Definition TASK_STATUS_IDLE : Z := 0.
Definition TASK_STATUS_RUNNABLE : Z := 1.
Definition TASK_STATUS_RUNNING : Z := 2.
Definition TASK_STATUS_WAITING : Z := 3.
Definition TASK_STATUS_PREEMPTED : Z := 4.
Definition TASK_STATUS_DEAD : Z := 5.
Definition TASK_SUSPEND : Z := 0x1000.

Record task_regs := TaskRegs {
  ar : list Z;
  sar : Z;
  lbeg : Z;
  lend : Z;
  lcount : Z;
  pc : Z;
  ps : Z;
  windowbase : Z;
  windowstart : Z;
  windowmask : Z;
  windowsize : Z;
}.

(** The offsets the assembly uses (task_regs.h), and the size of the structure. *)
Definition TASK_REGS_AR (x : Z) : Z := x * 4.
Definition TASK_REGS_SIZE : Z := 292.

Definition STACK_SIZE : Z := 4096.

Record task_ucontext := TaskUcontext {
  stack : list Z;
  name : list Z;
  regs : task_regs;
}.

(** A [task_t] without its [mmu]; [ucontext] is the address of a user data page. *)
Record task := Task {
  task_pid : Z;
  status : Z;
  sched_link : option loc;
  ucontext : Z;
}.

Record task_queue := TaskQueue { q_head : option loc; q_tail : option loc }.

Record kernel := Kernel {
  mmu : mmu_state;
  pages : umem;
  wdt : timg;
  tasks : gmap loc task;
  ucontexts : gmap Z task_ucontext;
  m_pid_gen : Z;
  m_global_run_queue : task_queue;
  m_global_run_queue_size : Z;
  preempt_disable_depth : Z;
  current_task : option loc;
  park_callback : option Z;
  park_arg : Z;
  frame : task_regs;
}.

(** *** Field updates *)
Definition put_mmu (x : mmu_state) (s : kernel) : kernel :=
  Kernel x (pages s) (wdt s) (tasks s) (ucontexts s) (m_pid_gen s) (m_global_run_queue s)
    (m_global_run_queue_size s) (preempt_disable_depth s) (current_task s) (park_callback s)
    (park_arg s) (frame s).
Definition put_pages (x : umem) (s : kernel) : kernel :=
  Kernel (mmu s) x (wdt s) (tasks s) (ucontexts s) (m_pid_gen s) (m_global_run_queue s)
    (m_global_run_queue_size s) (preempt_disable_depth s) (current_task s) (park_callback s)
    (park_arg s) (frame s).
Definition put_wdt (x : timg) (s : kernel) : kernel :=
  Kernel (mmu s) (pages s) x (tasks s) (ucontexts s) (m_pid_gen s) (m_global_run_queue s)
    (m_global_run_queue_size s) (preempt_disable_depth s) (current_task s) (park_callback s)
    (park_arg s) (frame s).
Definition put_tasks (x : gmap loc task) (s : kernel) : kernel :=
  Kernel (mmu s) (pages s) (wdt s) x (ucontexts s) (m_pid_gen s) (m_global_run_queue s)
    (m_global_run_queue_size s) (preempt_disable_depth s) (current_task s) (park_callback s)
    (park_arg s) (frame s).
Definition put_ucontexts (x : gmap Z task_ucontext) (s : kernel) : kernel :=
  Kernel (mmu s) (pages s) (wdt s) (tasks s) x (m_pid_gen s) (m_global_run_queue s)
    (m_global_run_queue_size s) (preempt_disable_depth s) (current_task s) (park_callback s)
    (park_arg s) (frame s).
Definition put_pid_gen (x : Z) (s : kernel) : kernel :=
  Kernel (mmu s) (pages s) (wdt s) (tasks s) (ucontexts s) x (m_global_run_queue s)
    (m_global_run_queue_size s) (preempt_disable_depth s) (current_task s) (park_callback s)
    (park_arg s) (frame s).
Definition put_queue (q : task_queue) (n : Z) (s : kernel) : kernel :=
  Kernel (mmu s) (pages s) (wdt s) (tasks s) (ucontexts s) (m_pid_gen s) q n
    (preempt_disable_depth s) (current_task s) (park_callback s) (park_arg s) (frame s).
Definition put_depth (x : Z) (s : kernel) : kernel :=
  Kernel (mmu s) (pages s) (wdt s) (tasks s) (ucontexts s) (m_pid_gen s) (m_global_run_queue s)
    (m_global_run_queue_size s) x (current_task s) (park_callback s) (park_arg s) (frame s).
Definition put_current (x : option loc) (s : kernel) : kernel :=
  Kernel (mmu s) (pages s) (wdt s) (tasks s) (ucontexts s) (m_pid_gen s) (m_global_run_queue s)
    (m_global_run_queue_size s) (preempt_disable_depth s) x (park_callback s) (park_arg s) (frame s).
Definition put_park (cb : option Z) (arg : Z) (s : kernel) : kernel :=
  Kernel (mmu s) (pages s) (wdt s) (tasks s) (ucontexts s) (m_pid_gen s) (m_global_run_queue s)
    (m_global_run_queue_size s) (preempt_disable_depth s) (current_task s) cb arg (frame s).
Definition put_frame (x : task_regs) (s : kernel) : kernel :=
  Kernel (mmu s) (pages s) (wdt s) (tasks s) (ucontexts s) (m_pid_gen s) (m_global_run_queue s)
    (m_global_run_queue_size s) (preempt_disable_depth s) (current_task s) (park_callback s)
    (park_arg s) x.

#[export] Instance kernel_mmu : Lens kernel mmu_state.
Proof. refine {| view := mmu; update := put_mmu |}; [done|by intros []|done]. Defined.
#[export] Instance kernel_pages : Lens kernel umem.
Proof. refine {| view := pages; update := put_pages |}; [done|by intros []|done]. Defined.
#[export] Instance kernel_wdt : Lens kernel timg.
Proof. refine {| view := wdt; update := put_wdt |}; [done|by intros []|done]. Defined.

Definition set_status (v : Z) (t : task) : task :=
  Task (task_pid t) v (sched_link t) (ucontext t).
Definition set_link (l : option loc) (t : task) : task :=
  Task (task_pid t) (status t) l (ucontext t).
Definition set_task_pid (v : Z) (t : task) : task :=
  Task v (status t) (sched_link t) (ucontext t).
Definition set_ucontext (v : Z) (t : task) : task :=
  Task (task_pid t) (status t) (sched_link t) v.
Definition set_regs (r : task_regs) (u : task_ucontext) : task_ucontext :=
  TaskUcontext (stack u) (name u) r.
Definition set_name (n : list Z) (u : task_ucontext) : task_ucontext :=
  TaskUcontext (stack u) n (regs u).
Definition set_ar (a : list Z) (r : task_regs) : task_regs :=
  TaskRegs a (sar r) (lbeg r) (lend r) (lcount r) (pc r) (ps r) (windowbase r) (windowstart r)
    (windowmask r) (windowsize r).
Definition set_pc_ps (pc_ ps_ : Z) (r : task_regs) : task_regs :=
  TaskRegs (ar r) (sar r) (lbeg r) (lend r) (lcount r) pc_ ps_ (windowbase r) (windowstart r)
    (windowmask r) (windowsize r).

(** *** Memory accesses *)
Definition get_task (p : loc) : M kernel task := s ← get; deref (tasks s !! p).
Definition upd_task (p : loc) (f : task -> task) : M kernel unit :=
  t ← get_task p; modify (fun s => put_tasks (<[p := f t]> (tasks s)) s).
Definition get_ucontext (a : Z) : M kernel task_ucontext := s ← get; deref (ucontexts s !! a).
Definition upd_ucontext (a : Z) (f : task_ucontext -> task_ucontext) : M kernel unit :=
  u ← get_ucontext a; modify (fun s => put_ucontexts (<[a := f u]> (ucontexts s)) s).

(** ** Task status *)
Definition get_task_status (thread : loc) : M kernel Z := t ← get_task thread; mret (status t).

Section Cas.
(** [weak_fails i]: the [i]-th weak compare-and-swap fails although the values agree. *)
Context (weak_fails : nat -> bool).

(** The loop that polls the status: it only reads. *)
Definition poll_status (p : loc) (old : Z) : M kernel Z :=
  mwhile 11 (fun x => st ← get_task_status p; mret ((x <? 10) && negb (st =? old)))
    (fun x => mret (x + 1)) 0.

Fixpoint cas_loop (fuel i : nat) (p : loc) (old new : Z) : M kernel unit :=
  match fuel with
  | O => stop_with Spin
  | S fuel' =>
      st ← get_task_status p;
      if (st =? old) && negb (weak_fails i) then upd_task p (set_status new)
      else
        st ← get_task_status p;
        when ((old =? TASK_STATUS_WAITING) && (st =? TASK_STATUS_RUNNABLE)) (ASSERT false);;
        _ ← poll_status p old;
        cas_loop fuel' (S i) p old new
  end.

Definition cas_task_state (fuel : nat) (p : loc) (old new : Z) : M kernel unit :=
  ASSERT (old .& TASK_SUSPEND =? 0);;
  ASSERT (new .& TASK_SUSPEND =? 0);;
  ASSERT (negb (old =? new));;
  cas_loop fuel 0 p old new.

(** ** Contexts *)
Definition save_task_context (p : loc) : M kernel unit :=
  t ← get_task p;
  s ← get;
  upd_ucontext (ucontext t) (set_regs (frame s)).

Definition restore_task_context (p : loc) : M kernel unit :=
  t ← get_task p;
  u ← get_ucontext (ucontext t);
  modify (put_frame (regs u));;
  zoom (mmu_activate (Some p)).

(** ** Creation and release *)
Definition zero_regs : task_regs := TaskRegs (replicate 64 0) 0 0 0 0 0 0 0 0 0 0.
Definition zero_ucontext : task_ucontext :=
  TaskUcontext (replicate (Z.to_nat STACK_SIZE) 0) (replicate 64 0) zero_regs.

(** [{ .excm = 0, .intlevel = 0, .um = 1, .woe = 1 }]: bits 5 and 18 of ps_t. *)
Definition initial_ps : Z := 1 .<< 5 .| 1 .<< 18.

(** Run a routine on a part of memory that is not a component. *)
Definition run_on {T A} (x : T) (m : M T A) : M kernel (A * T) := fun s =>
  match m x with Ok a x' => Ok (a, x') s | Stop w _ => Stop w s end.

(** [heap] is what [malloc(sizeof(task_t))] returned, [task_trampoline] an address of the
    vDSO. *)
Definition create_task (fuel : nat) (heap : option loc) (task_trampoline entry : Z)
    (fmt : list Z) (va : list va_value) : M kernel (option loc) :=
  match heap with
  | None => mret None
  | Some p =>
      modify (fun s => put_tasks (<[p := Task 0 0 None 0]> (tasks s)) s);;
      zoom (modify (put_space p mmu_zero));;
      upd_task p (set_status TASK_STATUS_DEAD);;
      g ← gets m_pid_gen;
      upd_task p (set_task_pid g);;
      modify (put_pid_gen (s8 (g + 1)));;
      uctx_page ← zoom umem_alloc_data_page;
      if uctx_page =? -1 then
        modify (fun s => put_tasks (delete p (tasks s)) s);;
        zoom (modify (fun m => MmuState (delete p (spaces m)) (next_stamp m) (pid_bindings m)
          (primary_binding m) (immu_page_mode m) (dmmu_page_mode m) (immu_table m)
          (dmmu_table m) (ahb_mpu_table m) (ahblite_mpu_table m) (pid_new_reg m)));;
        mret None
      else
        _ ← zoom (mmu_map p MMU_SPACE_DATA UCTX_PAGE_INDEX (PAGE_ENTRY uctx_page));
        let addr := DATA_PAGE_ADDR uctx_page in
        upd_task p (set_ucontext addr);;
        modify (fun s => put_ucontexts (<[addr := zero_ucontext]> (ucontexts s)) s);;
        upd_ucontext addr (fun u => set_regs
          (set_ar (<[1%nat := u32 (DATA_PAGE_ADDR UCTX_PAGE_INDEX + STACK_SIZE)]>
                    (<[2%nat := u32 entry]> (ar (regs u))))
            (set_pc_ps (u32 task_trampoline) initial_ps (regs u))) u);;
        u ← get_ucontext addr;
        '(_, n) ← run_on (name u) (vsnprintf_ false 64 fmt va);
        upd_ucontext addr (set_name n);;
        cas_task_state fuel p TASK_STATUS_DEAD TASK_STATUS_WAITING;;
        mret (Some p)
  end.
End Cas.

(** [ASSERT(!"TODO: release_task")]: the string is not null. *)
Definition release_task (p : loc) : M kernel unit := ASSERT false.

(** ** task_regs_dump: the physical registers it shows

    [abs_idx - regs->windowbase * 4] is computed on 32-bit unsigned values and stored in an
    [int]. *)
Definition dump_index (r : task_regs) (abs_idx : Z) : Z :=
  let real_idx := s32 (u32 (abs_idx - u32 (windowbase r * 4))) in
  if real_idx <? 0 then 64 + real_idx else real_idx.

(** The value shown, and on the last register of a window the marks for WINDOWSTART and
    WINDOWBASE. [None] when the dump reads outside of [ar]. *)
Definition dump_register (r : task_regs) (abs_idx : Z) : option (Z * option (bool * bool)) :=
  v ← (if dump_index r abs_idx <? 0 then None else ar r !! Z.to_nat (dump_index r abs_idx));
  Some (v,
    if abs_idx mod 4 =? 3 then
      Some (negb (windowstart r .& (1 .<< (abs_idx / 4)) =? 0), windowbase r =? abs_idx / 4)
    else None).

Definition task_regs_dump (r : task_regs) : option (list (Z * option (bool * bool))) :=
  mapM (dump_register r) (seqZ 0 64).
