(* ===== verification/TaskSpec.v ===== *)
(** * What the task layer promises

    Status changes by compare-and-swap, creation of tasks, saving and restoring of contexts,
    and the invariant [memory_wf] that ties the tasks to their address spaces, to the user
    pages and to the user contexts that live in them. *)
From Stdlib Require Import ZArith Lia Ascii String.
From stdpp Require Import base tactics numbers list gmap.
From S2P Require Import Prelude Umem Mmu MmuInv MmuSpec Timg Printf PrintfSim PrintfSpec Task.

(** ** The primitive accesses *)
Lemma get_task_ok p t s : tasks s !! p = Some t -> get_task p s = Ok t s.
Proof. intros H. unfold get_task. unfold_monad. by rewrite H. Qed.

Lemma upd_task_ok p f t s :
  tasks s !! p = Some t -> upd_task p f s = Ok tt (put_tasks (<[p := f t]> (tasks s)) s).
Proof. intros H. unfold upd_task. mrun (get_task_ok p t). { done. } done. Qed.

Lemma get_task_status_ok p t s : tasks s !! p = Some t -> get_task_status p s = Ok (status t) s.
Proof. intros H. unfold get_task_status. mrun (get_task_ok p t). { done. } done. Qed.

Lemma get_ucontext_ok a u s : ucontexts s !! a = Some u -> get_ucontext a s = Ok u s.
Proof. intros H. unfold get_ucontext. unfold_monad. by rewrite H. Qed.

Lemma upd_ucontext_ok a f u s :
  ucontexts s !! a = Some u -> upd_ucontext a f s = Ok tt (put_ucontexts (<[a := f u]> (ucontexts s)) s).
Proof. intros H. unfold upd_ucontext. mrun (get_ucontext_ok a u). { done. } done. Qed.

(** ** Compare and swap *)
Section Cas.
Context (weak_fails : nat -> bool).

(** Within the fuel, some weak compare-and-swap does not fail spuriously. *)
Definition cas_ends (fuel : nat) : Prop := exists n, (n < fuel)%nat /\ weak_fails n = false.

Lemma poll_status_ok p old t s :
  tasks s !! p = Some t -> exists x, poll_status p old s = Ok x s.
Proof using Type.
  intros Ht. unfold poll_status.
  enough (forall n x, (0 < n)%nat -> 10 - x < Z.of_nat n ->
    exists y, mwhile n (fun x => st ← get_task_status p; mret ((x <? 10) && negb (st =? old)))
      (fun x => mret (x + 1)) x s = Ok y s) as H by (apply (H 11%nat 0); lia).
  intros n. induction n as [|n IH]; intros x Hn Hx; [lia|].
  rewrite (mwhile_step _ _ _ _ ((x <? 10) && negb (status t =? old))).
  - destruct (Z.ltb_spec x 10) as [Hlt|]; cbn [andb]; [|by exists x].
    destruct (negb _); [|by exists x]. destruct (IH (x + 1)) as [y Hy]; [lia..|].
    exists y. etransitivity; [|exact Hy]. reflexivity.
  - mrun (get_task_status_ok p t). { done. } done.
Qed.

(** One round of the loop. *)
Lemma cas_loop_step fuel i p old new t s :
  tasks s !! p = Some t ->
  cas_loop weak_fails (S fuel) i p old new s =
    if (status t =? old) && negb (weak_fails i)
    then Ok tt (put_tasks (<[p := set_status new t]> (tasks s)) s)
    else if (old =? TASK_STATUS_WAITING) && (status t =? TASK_STATUS_RUNNABLE)
    then Stop AssertFailed s
    else cas_loop weak_fails fuel (S i) p old new s.
Proof using Type.
  intros Ht. cbn [cas_loop]. mrun (get_task_status_ok p t). { done. }
  destruct (_ && _); [by apply upd_task_ok|].
  mrun (get_task_status_ok p t). { done. }
  destruct (_ && _); [by apply bind_stop|]. mrun.
  destruct (poll_status_ok p old t s Ht) as [x Hx]. by mrun Hx.
Qed.

Lemma cas_loop_ok fuel i n p old new t s :
  tasks s !! p = Some t -> status t = old -> (n < fuel)%nat -> weak_fails (i + n)%nat = false ->
  cas_loop weak_fails fuel i p old new s = Ok tt (put_tasks (<[p := set_status new t]> (tasks s)) s).
Proof using Type.
  intros Ht Hold. revert i n. induction fuel as [|fuel IH]; intros i n Hn Hw; [lia|].
  rewrite (cas_loop_step _ _ _ _ _ t) by done. rewrite Hold, Z.eqb_refl.
  destruct (weak_fails i) eqn:E; [|done]. cbn [andb negb].
  destruct ((old =? TASK_STATUS_WAITING) && (old =? TASK_STATUS_RUNNABLE)) eqn:Ha.
  { exfalso. apply andb_prop in Ha as [Ha%Z.eqb_eq Hb%Z.eqb_eq]. by rewrite Ha in Hb. }
  destruct n as [|n]; [rewrite Nat.add_0_r in Hw; congruence|].
  apply (IH (S i) n); [lia|]. by rewrite Nat.add_succ_comm.
Qed.

(** The statuses the kernel moves between carry no suspend bit. *)
Definition plain_status (st : Z) : Prop := st .& TASK_SUSPEND = 0.

Lemma cas_task_state_ok fuel p old new t s :
  cas_ends fuel -> plain_status old -> plain_status new -> old <> new ->
  tasks s !! p = Some t -> status t = old ->
  cas_task_state weak_fails fuel p old new s =
    Ok tt (put_tasks (<[p := set_status new t]> (tasks s)) s).
Proof using Type.
  intros (n & Hn & Hw) Ho Hne Hd Ht Hst. unfold cas_task_state.
  rewrite Ho, Hne, (proj2 (Z.eqb_neq _ _) Hd). mrun. mrun. mrun.
  by apply (cas_loop_ok fuel 0 n).
Qed.

Lemma cas_task_state_wrong fuel p old new t s :
  plain_status old -> plain_status new -> old <> new ->
  tasks s !! p = Some t -> status t <> old ->
  cas_task_state weak_fails fuel p old new s =
    match fuel with
    | O => Stop Spin s
    | S _ => if (old =? TASK_STATUS_WAITING) && (status t =? TASK_STATUS_RUNNABLE)
             then Stop AssertFailed s else Stop Spin s
    end.
Proof using Type.
  intros Ho Hne Hd Ht Hst. unfold cas_task_state.
  rewrite Ho, Hne, (proj2 (Z.eqb_neq _ _) Hd). mrun. mrun. mrun.
  enough (forall i, cas_loop weak_fails fuel i p old new s = match fuel with
    | O => Stop Spin s
    | S _ => if (old =? TASK_STATUS_WAITING) && (status t =? TASK_STATUS_RUNNABLE)
             then Stop AssertFailed s else Stop Spin s end) as H by apply H.
  induction fuel as [|fuel IH]; intros i; [done|].
  rewrite (cas_loop_step _ _ _ _ _ t), (proj2 (Z.eqb_neq _ _) Hst) by done. cbn [andb].
  destruct (_ && _) eqn:E; [done|]. rewrite IH. by destruct fuel.
Qed.
End Cas.

(** cas_task_state. Between two different statuses without the suspend bit: when the
    task has the old status it gets the new one and nothing else changes, however often the
    weak compare-and-swap fails spuriously before it succeeds; when it has another status
    the call never returns (no one else runs), except that a task expected to wait but
    found runnable fails an assertion. A suspend bit or equal statuses fail an assertion
    at once. *)
Theorem cas_task_state_spec weak_fails fuel p old new t s :
  tasks s !! p = Some t ->
  (plain_status old -> plain_status new -> old <> new ->
     (status t = old -> cas_ends weak_fails fuel ->
        cas_task_state weak_fails fuel p old new s =
          Ok tt (put_tasks (<[p := set_status new t]> (tasks s)) s)) /\
     (status t <> old -> (0 < fuel)%nat ->
        cas_task_state weak_fails fuel p old new s =
          if (old =? TASK_STATUS_WAITING) && (status t =? TASK_STATUS_RUNNABLE)
          then Stop AssertFailed s else Stop Spin s)) /\
  (~ plain_status old \/ ~ plain_status new \/ old = new ->
     cas_task_state weak_fails fuel p old new s = Stop AssertFailed s).
Proof.
  intros Ht. split.
  - intros Ho Hn Hne. split.
    + intros Hst Hends. by apply cas_task_state_ok.
    + intros Hst Hf. rewrite (cas_task_state_wrong _ _ _ _ _ t) by done. by destruct fuel; [lia|].
  - unfold plain_status, cas_task_state. intros Hbad.
    destruct (Z.eqb_spec (old .& TASK_SUSPEND) 0); [mrun|by apply bind_stop].
    destruct (Z.eqb_spec (new .& TASK_SUSPEND) 0); [mrun|by apply bind_stop].
    destruct (Z.eqb_spec old new); [by apply bind_stop|]. naive_solver.
Qed.

(** ** Tasks, spaces, pages and user contexts *)
Record memory_wf (s : kernel) : Prop := {
  kw_mmu : mmu_wf (mmu s);
  kw_pages : umem_wf (pages s);
  kw_spaces : forall p, is_Some (tasks s !! p) <-> is_Some (spaces (mmu s) !! p);
  kw_owned : forall p sp v q, spaces (mmu s) !! p = Some sp -> maps (dmmu sp) v q ->
    q ∉ pa_free_pages (PageAllocator := data_pages) (pages s);
  kw_owned_code : forall p sp v q, spaces (mmu s) !! p = Some sp -> maps (immu sp) v q ->
    q ∉ pa_free_pages (PageAllocator := code_pages) (pages s);
  kw_vdso : VDSO_PAGE_INDEX ∉ pa_free_pages (PageAllocator := code_pages) (pages s);
  kw_ucontext : forall p t, tasks s !! p = Some t -> exists q sp,
    spaces (mmu s) !! p = Some sp /\ maps (dmmu sp) (Z.to_nat UCTX_PAGE_INDEX) q /\
    ucontext t = DATA_PAGE_ADDR q /\ is_Some (ucontexts s !! ucontext t);
}.

Lemma data_page_addr_inj q q' :
  0 <= q < MAX_PAGE_COUNT -> 0 <= q' < MAX_PAGE_COUNT -> DATA_PAGE_ADDR q = DATA_PAGE_ADDR q' -> q = q'.
Proof.
  unfold MAX_PAGE_COUNT, DATA_PAGE_ADDR, USER_PAGE_SIZE, USER_DATA_BASE. intros Hq Hq'.
  rewrite !wrapu_small by lia. lia.
Qed.

(** Two tasks never share a user context. *)
Lemma ucontext_inj s p p' t t' :
  memory_wf s -> tasks s !! p = Some t -> tasks s !! p' = Some t' ->
  ucontext t = ucontext t' -> p = p'.
Proof.
  intros Hwf Ht Ht' E.
  destruct (kw_ucontext s Hwf p t Ht) as (q & sp & Hsp & Hm & Ha & _).
  destruct (kw_ucontext s Hwf p' t' Ht') as (q' & sp' & Hsp' & Hm' & Ha' & _).
  pose proof (kw_mmu s Hwf) as Hmmu.
  destruct (sw_dmmu sp (mw_space _ Hmmu _ _ Hsp)) as (_ & Hr & _).
  destruct (sw_dmmu sp' (mw_space _ Hmmu _ _ Hsp')) as (_ & Hr' & _).
  assert (q = q') as <- by (apply data_page_addr_inj; [eauto..|congruence]).
  by eapply (mw_data_disjoint _ Hmmu p p' sp sp').
Qed.

(** What changes neither pages, spaces, user contexts nor where they are keeps the
    invariant. *)
Lemma memory_wf_frame s s' :
  memory_wf s -> mmu_wf (mmu s') -> pages s' = pages s ->
  (forall r, page_tables <$> spaces (mmu s') !! r = page_tables <$> spaces (mmu s) !! r) ->
  (forall r, ucontext <$> tasks s' !! r = ucontext <$> tasks s !! r) ->
  (forall a, is_Some (ucontexts s !! a) -> is_Some (ucontexts s' !! a)) ->
  memory_wf s'.
Proof.
  intros Hwf Hmmu Hpg Hsp Ht Hu.
  assert (forall r sp', spaces (mmu s') !! r = Some sp' ->
    exists sp, spaces (mmu s) !! r = Some sp /\ immu sp' = immu sp /\ dmmu sp' = dmmu sp) as Hback.
  { intros r sp' H. specialize (Hsp r). rewrite H in Hsp.
    destruct (spaces (mmu s) !! r) as [sp|]; [|done]. injection Hsp as Ei E. eauto. }
  assert (forall r sp, spaces (mmu s) !! r = Some sp ->
    exists sp', spaces (mmu s') !! r = Some sp' /\ dmmu sp' = dmmu sp) as Hforth.
  { intros r sp H. specialize (Hsp r). rewrite H in Hsp.
    destruct (spaces (mmu s') !! r) as [sp'|]; [|done]. injection Hsp as _ E. eauto. }
  constructor; rewrite ?Hpg; [done|apply Hwf| | | |apply Hwf|].
  - intros p. rewrite <- !(fmap_is_Some ucontext), <- !(fmap_is_Some page_tables), Ht, Hsp, !fmap_is_Some.
    apply (kw_spaces s Hwf).
  - intros p sp v q H Hm. destruct (Hback p sp H) as (sp0 & H0 & _ & E). rewrite E in Hm.
    by apply (kw_owned s Hwf p sp0 v q).
  - intros p sp v q H Hm. destruct (Hback p sp H) as (sp0 & H0 & E & _). rewrite E in Hm.
    by apply (kw_owned_code s Hwf p sp0 v q).
  - intros p t H. specialize (Ht p). rewrite H in Ht.
    destruct (tasks s !! p) as [t0|] eqn:E0; [|done]. injection Ht as Ht.
    destruct (kw_ucontext s Hwf p t0 E0) as (q & sp & H1 & H2 & H3 & H4).
    destruct (Hforth p sp H1) as (sp' & H1' & E). exists q, sp'. rewrite E, Ht. auto.
Qed.

(** ** Saving and restoring a context *)
Lemma save_task_context_ok p t u s :
  tasks s !! p = Some t -> ucontexts s !! ucontext t = Some u ->
  save_task_context p s =
    Ok tt (put_ucontexts (<[ucontext t := set_regs (frame s) u]> (ucontexts s)) s).
Proof.
  intros Ht Hu. unfold save_task_context. mrun (get_task_ok p t). { done. } mrun.
  by apply upd_ucontext_ok.
Qed.

Lemma restore_task_context_ok p t u s :
  memory_wf s -> tasks s !! p = Some t -> ucontexts s !! ucontext t = Some u ->
  exists m' i b,
    restore_task_context p s = Ok tt (put_mmu m' (put_frame (regs u) s)) /\ mmu_wf m' /\
    primary_binding m' = Some i /\ pid_bindings m' !! i = Some b /\ bound_space b = Some p /\
    (forall r, page_tables <$> spaces m' !! r = page_tables <$> spaces (mmu s) !! r).
Proof.
  intros Hwf Ht Hu.
  destruct (mmu_activate_switches (mmu s) p (kw_mmu s Hwf))
    as (m' & i & b & E & Hm' & Hprim & Hb & Hbound & Hent).
  { apply (kw_spaces s Hwf). by eexists. }
  exists m', i, b. split; [|done].
  unfold restore_task_context. mrun (get_task_ok p t). { done. }
  mrun (get_ucontext_ok (ucontext t) u). { done. } mrun.
  by apply (zoom_ok (H := kernel_mmu)).
Qed.

(** Saving the exception frame of a task and restoring it later gives back every
    register, whatever happened to the frame in between, and makes the task's address
    space the active one; the contexts of all other tasks are untouched. *)
Theorem context_roundtrip s p t frame' :
  memory_wf s -> tasks s !! p = Some t ->
  exists s1 s2,
    save_task_context p s = Ok tt s1 /\
    restore_task_context p (put_frame frame' s1) = Ok tt s2 /\
    frame s2 = frame s /\ memory_wf s2 /\ tasks s2 = tasks s /\
    (exists i b, primary_binding (mmu s2) = Some i /\ pid_bindings (mmu s2) !! i = Some b /\
       bound_space b = Some p) /\
    (forall p' t', p' <> p -> tasks s !! p' = Some t' ->
       ucontexts s2 !! ucontext t' = ucontexts s !! ucontext t').
Proof.
  intros Hwf Ht. destruct (kw_ucontext s Hwf p t Ht) as (q & sp & Hsp & Hm & Ha & [u Hu]).
  eexists _. rewrite (save_task_context_ok p t u) by done.
  set (s1 := put_frame frame'
    (put_ucontexts (<[ucontext t := set_regs (frame s) u]> (ucontexts s)) s)).
  assert (memory_wf s1) as Hwf1.
  { apply (memory_wf_frame s); try done; [apply Hwf|]. intros a Hsome.
    unfold s1. simpl. apply lookup_insert_is_Some'. auto. }
  destruct (restore_task_context_ok p t (set_regs (frame s) u) s1 Hwf1 Ht)
    as (m' & i & b & E & Hm' & Hprim & Hb & Hbound & Hent).
  { unfold s1. simpl. by rewrite lookup_insert_eq. }
  eexists. split; [done|]. split; [exact E|]. split; [done|]. split.
  { by apply (memory_wf_frame s1). }
  split; [done|]. split; [eauto|].
  intros p' t' Hne Ht'. simpl. rewrite lookup_insert_ne; [done|].
  intros Heq. apply Hne. symmetry. by apply (ucontext_inj s p p' t t').
Qed.

(** ** create_task *)
Definition initial_regs (trampoline entry : Z) : task_regs :=
  TaskRegs (<[1%nat := 0x3FFDF000]> (<[2%nat := u32 entry]> (replicate 64 0))) 0 0 0 0
    (u32 trampoline) 0x40020 0 0 0 0.

Definition fresh_ucontext (trampoline entry : Z) (text : list Z) : task_ucontext :=
  TaskUcontext (replicate (Z.to_nat STACK_SIZE) 0) (store 64 text (replicate 64 0))
    (initial_regs trampoline entry).

Lemma stack_top : u32 (DATA_PAGE_ADDR UCTX_PAGE_INDEX + STACK_SIZE) = 0x3FFDF000.
Proof. reflexivity. Qed.

Lemma initial_ps_value : initial_ps = 0x40020.
Proof. reflexivity. Qed.

Lemma name_written fmt va n text (nm : list Z) s :
  render fmt va = Ok n text -> len text < 2 ^ 32 -> length nm = 64%nat ->
  run_on nm (vsnprintf_ false 64 fmt va) s = Ok (s32 (len text), store 64 text nm) s.
Proof.
  intros Hr Hl Hn. unfold run_on.
  destruct (vsnprintf_into 64 fmt va nm ltac:(lia) ltac:(unfold len; rewrite Hn; lia) n text)
    as [_ ->]; done.
Qed.

(** The address spaces and the rest of the state once the task at [p] exists. *)
Definition created_mmu (p : loc) (page : Z) (m : mmu_state) : mmu_state :=
  put_space p (set_entry MMU_SPACE_DATA (Z.to_nat UCTX_PAGE_INDEX) (PAGE_ENTRY page) mmu_zero)
    (put_space p mmu_zero m).

Definition created (p : loc) (page : Z) (pages' : umem) (u : task_ucontext) (s : kernel) : kernel :=
  Kernel (created_mmu p page (mmu s)) pages' (wdt s)
    (<[p := Task (m_pid_gen s) TASK_STATUS_WAITING None (DATA_PAGE_ADDR page)]> (tasks s))
    (<[DATA_PAGE_ADDR page := u]> (ucontexts s)) (s8 (m_pid_gen s + 1)) (m_global_run_queue s)
    (m_global_run_queue_size s) (preempt_disable_depth s) (current_task s) (park_callback s)
    (park_arg s) (frame s).

Section Create.
Context (weak_fails : nat -> bool) (fuel : nat) (p : loc) (trampoline entry : Z) (fmt : list Z)
  (va : list va_value) (s : kernel) (n : Z) (text : list Z).
Hypothesis (Hwf : memory_wf s) (Hp : tasks s !! p = None) (Hends : cas_ends weak_fails fuel).
Hypothesis (Htext : render fmt va = Ok n text) (Hlen : len text < 2 ^ 32).

Lemma created_space_none : spaces (mmu s) !! p = None.
Proof using Hwf Hp.
  apply eq_None_not_Some. intros H. apply (kw_spaces s Hwf) in H. rewrite Hp in H. by destruct H.
Qed.

Lemma create_task_no_page :
  pa_free_pages (PageAllocator := data_pages) (pages s) = ∅ ->
  create_task weak_fails fuel (Some p) trampoline entry fmt va s =
    Ok None (put_pid_gen (s8 (m_pid_gen s + 1)) s).
Proof using Hwf Hp.
  intros He. pose proof created_space_none as Hsp. unfold create_task. mrun. mrun.
  mrun upd_task_ok. { apply lookup_insert_eq. }
  mrun. mrun upd_task_ok. { apply lookup_insert_eq. } mrun.
  mrun (zoom_ok (H := kernel_pages)).
  { exact (pa_alloc_none (PageAllocator := data_pages) _ (kw_pages s Hwf) He). }
  change (INVALID_PAGE =? -1) with true. cbv iota. mrun. mrun.
  unfold mret, M_ret. f_equal. cbn. rewrite !delete_insert_eq, !delete_id by done.
  destruct s as [m ? ? ? ? ? ? ? ? ? ? ? ?]. by destruct m.
Qed.

Lemma create_task_page page pages' :
  umem_alloc_data_page (pages s) = Ok page pages' -> page <> INVALID_PAGE ->
  create_task weak_fails fuel (Some p) trampoline entry fmt va s =
    Ok (Some p) (created p page pages' (fresh_ucontext trampoline entry text) s).
Proof using Hwf Hp Hends Htext Hlen.
  intros Ha Hne. pose proof created_space_none as Hsp. unfold create_task. mrun. mrun.
  mrun upd_task_ok. { apply lookup_insert_eq. }
  mrun. mrun upd_task_ok. { apply lookup_insert_eq. } mrun.
  mrun (zoom_ok (H := kernel_pages)). { exact Ha. }
  rewrite (proj2 (Z.eqb_neq page (-1))) by done.
  mrun (zoom_ok (H := kernel_mmu)).
  { apply (mmu_map_unbound _ p mmu_zero); [apply lookup_insert_eq|done|].
    unfold UCTX_PAGE_INDEX, MAX_PAGE_COUNT. lia. }
  cbv zeta. mrun upd_task_ok. { apply lookup_insert_eq. } mrun.
  mrun upd_ucontext_ok. { apply lookup_insert_eq. }
  mrun get_ucontext_ok. { apply lookup_insert_eq. }
  mrun (name_written fmt va n text). { done. } { done. } { reflexivity. }
  cbv beta iota. mrun upd_ucontext_ok. { apply lookup_insert_eq. }
  mrun cas_task_state_ok; try done. { apply lookup_insert_eq. } { done. }
  unfold mret, M_ret. f_equal. unfold created. cbn [tasks ucontexts put_tasks put_ucontexts].
  f_equal.
  cbn. by rewrite !insert_insert_eq.
Qed.

Lemma created_wf page pages' u :
  page ∈ pa_free_pages (PageAllocator := data_pages) (pages s) -> umem_wf pages' ->
  pa_free_pages (PageAllocator := data_pages) pages' =
    pa_free_pages (PageAllocator := data_pages) (pages s) ∖ {[page]} ->
  m_code_pages pages' = m_code_pages (pages s) ->
  memory_wf (created p page pages' u s).
Proof using Hwf Hp.
  clear Hends Htext Hlen weak_fails. intros Hin Hpw Hfree Hcode. pose proof created_space_none as Hsp.
  pose proof (pa_bounded (PageAllocator := data_pages) _ _ Hin) as Hb.
  assert (PAGE_ENTRY page = {| phys := page; type := PAGE_MAPPED |}) as Hpe.
  { unfold PAGE_ENTRY. f_equal. apply wrapu_small. unfold MAX_PAGE_COUNT in Hb. lia. }
  assert (forall v q, maps (dmmu (set_entry MMU_SPACE_DATA (Z.to_nat UCTX_PAGE_INDEX)
    (PAGE_ENTRY page) mmu_zero)) v q -> q = page) as Honly.
  { intros v q H. unfold maps in H. cbn [dmmu set_entry] in H. rewrite Hpe in H.
    apply list_lookup_insert_Some in H as [(_ & H & _)|[_ H]]; [congruence|].
    by destruct (mmu_zero_maps dmmu v q (or_intror eq_refl)). }
  constructor; cbn -[mmu_zero set_entry page_set].
  - apply map_space_wf; try done.
    + by apply create_space_wf; [apply Hwf|].
    + apply lookup_insert_eq.
    + intros p' sp' w H Hm. cbn [spaces put_space] in H.
      apply lookup_insert_Some in H as [[<- <-]|[Hne H]].
      * by destruct (mmu_zero_maps dmmu w page (or_intror eq_refl)).
      * by apply (kw_owned s Hwf p' sp' w page H Hm).
  - done.
  - intros p'. rewrite !insert_insert_eq, !lookup_insert_is_Some', (kw_spaces s Hwf). done.
  - intros p' sp v q H Hm. change (q ∉ pa_free_pages (PageAllocator := data_pages) pages').
    rewrite Hfree. rewrite insert_insert_eq in H. apply lookup_insert_Some in H as [[<- <-]|[_ H]].
    + rewrite (Honly v q Hm). set_solver.
    + pose proof (kw_owned s Hwf p' sp v q H Hm). set_solver.
  - intros p' sp v q H Hm. rewrite Hcode. rewrite insert_insert_eq in H.
    apply lookup_insert_Some in H as [[<- <-]|[_ H]].
    + by destruct (mmu_zero_maps immu v q (or_introl eq_refl)).
    + by apply (kw_owned_code s Hwf p' sp v q H Hm).
  - rewrite Hcode. apply (kw_vdso s Hwf).
  - intros p' t. rewrite insert_insert_eq. intros [[<- <-]|[Hne Ht]]%lookup_insert_Some.
    + exists page. eexists. rewrite lookup_insert_eq. split; [done|]. split.
      { unfold maps. cbn [dmmu set_entry]. rewrite Hpe. apply list_lookup_insert_eq. vm_compute. lia. }
      split; [done|]. cbn [ucontext]. rewrite lookup_insert_eq. eauto.
    + destruct (kw_ucontext s Hwf p' t Ht) as (q & sp & H1 & H2 & H3 & H4). exists q, sp.
      rewrite lookup_insert_ne by done. split; [done|]. split; [done|]. split; [done|].
      apply lookup_insert_is_Some'. by right.
Qed.
End Create.

(** C22: create_task. Without heap memory it does nothing; without a free data page it gives
    the memory back and fails (the process number is used up); otherwise the task waits,
    with the next process number, a user context of its own in the lowest free data page,
    mapped at the last page of its data area and nowhere else: its stack pointer is the end
    of its stack, it will start in the trampoline with its entry point in a2, windowed and
    in user mode, and its name is the formatted text cut to its 64 bytes. The invariant
    that separates the tasks is kept. *)
Theorem create_task_spec weak_fails fuel p trampoline entry fmt va s n text :
  memory_wf s -> tasks s !! p = None -> cas_ends weak_fails fuel ->
  render fmt va = Ok n text -> len text < 2 ^ 32 ->
  let free := pa_free_pages (PageAllocator := data_pages) in
  let create heap := create_task weak_fails fuel heap trampoline entry fmt va s in
  create None = Ok None s /\
  (free (pages s) = ∅ -> create (Some p) = Ok None (put_pid_gen (s8 (m_pid_gen s + 1)) s)) /\
  (free (pages s) <> ∅ -> exists page pages',
     create (Some p) = Ok (Some p) (created p page pages' (fresh_ucontext trampoline entry text) s) /\
     page ∈ free (pages s) /\ (forall q, q ∈ free (pages s) -> page <= q) /\
     free pages' = free (pages s) ∖ {[page]} /\
     memory_wf (created p page pages' (fresh_ucontext trampoline entry text) s)).
Proof.
  intros Hwf Hp Hends Hr Hl free create. split; [done|]. split.
  - by apply create_task_no_page.
  - intros Hne.
    destruct (pa_alloc_cases data_pages (pages s) (kw_pages s Hwf))
      as [[He _]|(page & pages' & Ha & Hinv & Hin & Hmin & Hpw & Hfree & Hcode)]; [done|].
    exists page, pages'. split; [by eapply create_task_page|].
    split; [done|]. split; [done|]. split; [done|]. by apply created_wf.
Qed.

(** ** task_regs_dump *)
Lemma dump_index_value r i :
  0 <= i < 64 -> 0 <= windowbase r < 2 ^ 29 ->
  dump_index r i = if i <? windowbase r * 4 then 64 + (i - windowbase r * 4) else i - windowbase r * 4.
Proof.
  intros Hi Hw. unfold dump_index. rewrite (wrapu_small 32 (windowbase r * 4)) by lia.
  assert (s32 (u32 (i - windowbase r * 4)) = i - windowbase r * 4) as ->.
  { unfold wraps, wrapu. rewrite Zplus_mod_idemp_l. apply (wraps_small 32); lia. }
  cbv zeta. destruct (Z.ltb_spec (i - windowbase r * 4) 0), (Z.ltb_spec i (windowbase r * 4)); lia.
Qed.

(** One register of the dump. *)
Lemma dump_register_value r i :
  length (ar r) = 64%nat -> 0 <= windowbase r <= 16 -> 0 <= i < 64 ->
  exists v, ar r !! Z.to_nat ((i - 4 * windowbase r) mod 64) = Some v /\
    dump_register r i = Some (v,
      if i mod 4 =? 3 then Some (Z.testbit (windowstart r) (i / 4), windowbase r =? i / 4)
      else None).
Proof.
  intros Hl Hw Hi.
  pose proof (Z.mod_pos_bound (i - 4 * windowbase r) 64 ltac:(lia)) as Hm.
  destruct (lookup_lt_is_Some_2 (ar r) (Z.to_nat ((i - 4 * windowbase r) mod 64))) as [v Hv];
    [lia|].
  exists v. split; [done|]. unfold dump_register.
  assert (dump_index r i = (i - 4 * windowbase r) mod 64) as ->.
  { rewrite dump_index_value by lia. destruct (Z.ltb_spec i (windowbase r * 4)).
    - apply (Z.mod_unique _ _ (-1)); lia.
    - apply (Z.mod_unique _ _ 0); lia. }
  rewrite (proj2 (Z.ltb_ge _ _)) by lia. rewrite Hv. cbn [mbind option_bind].
  do 2 f_equal. destruct (i mod 4 =? 3); [|done].
  rewrite <- has_testbit by (apply Z.div_pos; lia). done.
Qed.

(** task_regs_dump shows the 64 physical registers. With a window base of at most 16, as
    the hardware sets it, physical register [i] is shown with the saved value of the window
    it belongs to, every access is within the frame, and the last register of each window
    carries the bit of WINDOWSTART and the mark of WINDOWBASE. A larger window base makes
    the dump read in front of the frame. *)
Theorem task_regs_dump_spec r :
  length (ar r) = 64%nat ->
  (0 <= windowbase r <= 16 -> exists l, task_regs_dump r = Some l /\
     forall i, 0 <= i < 64 -> exists v,
       ar r !! Z.to_nat ((i - 4 * windowbase r) mod 64) = Some v /\
       l !! Z.to_nat i = Some (v,
         if i mod 4 =? 3 then Some (Z.testbit (windowstart r) (i / 4), windowbase r =? i / 4)
         else None)) /\
  (16 < windowbase r < 2 ^ 29 -> task_regs_dump r = None).
Proof.
  intros Hl. split.
  - intros Hw. pose proof (fun i Hi => dump_register_value r i Hl Hw Hi) as Hreg.
    assert (is_Some (task_regs_dump r)) as [l E].
    { apply mapM_is_Some_2, Forall_forall. intros i Hi%elem_of_seqZ.
      destruct (Hreg i ltac:(lia)) as (v & _ & Hd). simpl. rewrite Hd. eauto. }
    exists l. split; [done|]. intros i Hi. destruct (Hreg i Hi) as (v & Hv & Hd).
    exists v. split; [done|].
    destruct (Forall2_lookup_l _ _ _ (Z.to_nat i) i (mapM_Some_1 _ _ _ E)) as (y & Hy & Hd').
    { apply lookup_seqZ. lia. }
    rewrite Hy. congruence.
  - intros Hw. apply mapM_None_2, Exists_exists. exists 0. split; [apply elem_of_seqZ; lia|].
    unfold dump_register. rewrite dump_index_value by lia.
    rewrite (proj2 (Z.ltb_lt 0 (windowbase r * 4))), (proj2 (Z.ltb_lt _ 0)) by lia. done.
Qed.

(** ** Examples: the kernel after init_mmu and init_pid, with no task yet *)
Definition ex_kernel : kernel :=
  Kernel ex_boot umem_init ex_timg ∅ ∅ 0 (TaskQueue None None) 0 0 None None 0 zero_regs.

Lemma ex_kernel_wf : memory_wf ex_kernel.
Proof.
  constructor; cbn [mmu pages tasks ex_kernel];
    change (spaces ex_boot) with (∅ : gmap loc mmu_t).
  - apply booted_wf; apply ex_table_reset.
  - split; by vm_compute.
  - intros p. split; intros [x H]; by rewrite lookup_empty in H.
  - intros p sp v q H. by rewrite lookup_empty in H.
  - intros p sp v q H. by rewrite lookup_empty in H.
  - intros H%elem_of_page_set. by destruct H.
  - intros p t H. by rewrite lookup_empty in H.
Qed.

Definition never_fails : nat -> bool := fun _ => false.

Lemma never_fails_ends : cas_ends never_fails 1.
Proof. exists 0%nat. by split; [lia|]. Qed.

(** The state once the first task exists. *)
Definition ex_text : list Z := [105; 110; 105; 116].
Definition ex_pages : umem := {| m_code_pages := 0x7fff; m_data_pages := 0xFFFE |}.
Definition ex_one_task : kernel :=
  created 1 0 ex_pages (fresh_ucontext 0x4009E000 0x40080000 ex_text) ex_kernel.

Lemma ex_page_zero :
  0 ∈ pa_free_pages (PageAllocator := data_pages) (pages ex_kernel) /\ umem_wf ex_pages /\
  pa_free_pages (PageAllocator := data_pages) ex_pages =
    pa_free_pages (PageAllocator := data_pages) (pages ex_kernel) ∖ {[0]}.
Proof.
  split; [by apply elem_of_page_set; vm_compute|]. split; [by split; vm_compute|].
  apply (bool_decide_unpack _). by vm_compute.
Qed.

Lemma ex_one_task_wf : memory_wf ex_one_task.
Proof.
  destruct ex_page_zero as (H1 & H2 & H3). apply created_wf; try done. apply ex_kernel_wf.
Qed.

Lemma ex_render : render (cstr "init") [] = Ok 4 ex_text.
Proof. reflexivity. Qed.

Lemma create_task_spec_witness :
  exists page pages',
    create_task never_fails 1 (Some 1%positive) 0x4009E000 0x40080000 (cstr "init") [] ex_kernel =
      Ok (Some 1%positive)
        (created 1 page pages' (fresh_ucontext 0x4009E000 0x40080000 ex_text) ex_kernel) /\
    page <= 0.
Proof.
  destruct (create_task_spec never_fails 1 1%positive 0x4009E000 0x40080000 (cstr "init") []
    ex_kernel 4 ex_text ex_kernel_wf eq_refl never_fails_ends ex_render ltac:(by vm_compute))
    as (_ & _ & H).
  destruct H as (page & pages' & E & _ & Hmin & _).
  - intros He. destruct ex_page_zero as [H0 _]. rewrite He in H0. set_solver.
  - exists page, pages'. split; [exact E|]. apply Hmin, ex_page_zero.
Defined.

Lemma cas_task_state_spec_witness :
  exists s', cas_task_state never_fails 1 1 TASK_STATUS_WAITING TASK_STATUS_RUNNABLE ex_one_task =
    Ok tt s' /\
  cas_task_state never_fails 1 1 TASK_STATUS_RUNNING TASK_STATUS_WAITING ex_one_task =
    Stop Spin ex_one_task.
Proof.
  destruct (cas_task_state_spec never_fails 1 1 TASK_STATUS_WAITING TASK_STATUS_RUNNABLE
    (Task 0 TASK_STATUS_WAITING None 0x3FFC0000) ex_one_task eq_refl) as [H1 _].
  destruct (cas_task_state_spec never_fails 1 1 TASK_STATUS_RUNNING TASK_STATUS_WAITING
    (Task 0 TASK_STATUS_WAITING None 0x3FFC0000) ex_one_task eq_refl) as [H2 _].
  eexists. split.
  - by apply H1; [reflexivity|reflexivity|discriminate|reflexivity|apply never_fails_ends].
  - by apply H2; [reflexivity|reflexivity|discriminate|discriminate|lia].
Defined.

Lemma context_roundtrip_witness :
  exists s1 s2, save_task_context 1 ex_one_task = Ok tt s1 /\
    restore_task_context 1 (put_frame (initial_regs 1 2) s1) = Ok tt s2 /\ frame s2 = zero_regs.
Proof.
  destruct (context_roundtrip ex_one_task 1 (Task 0 TASK_STATUS_WAITING None 0x3FFC0000)
    (initial_regs 1 2) ex_one_task_wf eq_refl) as (s1 & s2 & H1 & H2 & H3 & _).
  exists s1, s2. split; [exact H1|]. split; [exact H2|exact H3].
Defined.

Lemma task_regs_dump_spec_witness :
  exists l, task_regs_dump zero_regs = Some l.
Proof.
  destruct (task_regs_dump_spec zero_regs eq_refl) as [H _].
  destruct H as (l & E & _); [simpl; lia|]. exists l. exact E.
Defined.
