(* ===== verification/Scheduler.v ===== *)
(** * The scheduler (kernel/src/task/scheduler.c)

    The run queue is the intrusive list the code has: head and tail pointers, the links in
    the tasks. The handlers run on the exception frame [frame]; the routines that raise a
    system call (scheduler_yield and its kin) take the trap as an argument. *)
From Stdlib Require Import ZArith Lia.
From stdpp Require Import base tactics numbers list gmap.
From S2P Require Import Prelude Umem Mmu Timg Task.

(** ** The queue *)
Definition get_queue : M kernel task_queue := gets m_global_run_queue.
Definition set_queue (q : task_queue) : M kernel unit :=
  modify (fun s => put_queue q (m_global_run_queue_size s) s).

Definition task_queue_push_back (thread : loc) : M kernel unit :=
  upd_task thread (set_link None);;
  q ← get_queue;
  match q_tail q with
  | Some tl => upd_task tl (set_link (Some thread))
  | None => set_queue (TaskQueue (Some thread) (q_tail q))
  end;;
  q ← get_queue;
  set_queue (TaskQueue (q_head q) (Some thread)).

Definition task_queue_pop : M kernel (option loc) :=
  q ← get_queue;
  match q_head q with
  | Some task =>
      t ← get_task task;
      set_queue (TaskQueue (sched_link t) (q_tail q));;
      q ← get_queue;
      when (bool_decide (q_head q = None)) (set_queue (TaskQueue (q_head q) None));;
      mret (Some task)
  | None => mret None
  end.

Definition global_run_queue_put (task : loc) : M kernel unit :=
  task_queue_push_back task;;
  modify (fun s => put_queue (m_global_run_queue s) (s32 (m_global_run_queue_size s + 1)) s).

Definition global_run_queue_get : M kernel (option loc) :=
  n ← gets m_global_run_queue_size;
  if n =? 0 then mret None
  else
    modify (fun s => put_queue (m_global_run_queue s) (s32 (m_global_run_queue_size s - 1)) s);;
    task_queue_pop.

(** ** Preemption *)
Definition scheduler_preempt_disable : M kernel unit :=
  modify (fun s => put_depth (s32 (preempt_disable_depth s + 1)) s).
Definition scheduler_preempt_enable : M kernel unit :=
  modify (fun s => put_depth (s32 (preempt_disable_depth s + 1)) s).

Section Scheduler.
(** Spurious failures of the weak compare-and-swap and the rounds allowed to it (Task.v). *)
Context (weak_fails : nat -> bool) (fuel : nat).
(** What the interrupts taken during the [i]-th sleep of the idle loop do, and the sleeps
    allowed. *)
Context (interrupt : nat -> M kernel unit) (sleeps : nat).
(** Calling the park callback at an address with an argument. *)
Context (call : Z -> Z -> M kernel unit).

(** ** Waking a task *)
Definition scheduler_ready_task (task : loc) : M kernel unit :=
  upd_task task (set_link None);;
  scheduler_preempt_disable;;
  st ← get_task_status task;
  ASSERT (st .& .~ TASK_SUSPEND =? TASK_STATUS_WAITING);;
  cas_task_state weak_fails fuel task TASK_STATUS_WAITING TASK_STATUS_RUNNABLE;;
  global_run_queue_put task;;
  scheduler_preempt_enable.

(** ** Running a task *)
Definition scheduler_set_deadline : M kernel unit := zoom wdt_feed;; zoom wdt_enable.
Definition scheduler_cancel_deadline : M kernel unit := zoom wdt_disable.

Definition execute (task : loc) : M kernel unit :=
  modify (put_current (Some task));;
  cas_task_state weak_fails fuel task TASK_STATUS_RUNNABLE TASK_STATUS_RUNNING;;
  scheduler_set_deadline;;
  restore_task_context task;;
  zoom pid_prepare.

Definition save_current_task (park : bool) : M kernel unit :=
  c ← gets current_task;
  ASSERT (bool_decide (c <> None));;
  c ← gets current_task;
  current ← deref c;
  modify (put_current None);;
  save_task_context current;;
  if negb park then
    cas_task_state weak_fails fuel current TASK_STATUS_RUNNING TASK_STATUS_RUNNABLE;;
    global_run_queue_put current
  else cas_task_state weak_fails fuel current TASK_STATUS_RUNNING TASK_STATUS_WAITING.

(** The idle loop: WAITI sleeps until an interrupt, whose handler runs in between. *)
Fixpoint find_runnable_loop (n i : nat) : M kernel loc :=
  task ← global_run_queue_get;
  match task with
  | Some task => mret task
  | None =>
      match n with
      | O => stop_with Spin
      | S n' => interrupt i;; find_runnable_loop n' (S i)
      end
  end.

Definition find_runnable : M kernel loc := find_runnable_loop sleeps 0.

Definition schedule : M kernel unit :=
  thread ← find_runnable;
  execute thread.

(** ** The callbacks of the system calls *)
Definition scheduler_on_schedule : M kernel unit :=
  save_current_task false;;
  schedule.

Definition scheduler_on_park : M kernel unit :=
  save_current_task true;;
  cb ← gets park_callback;
  match cb with
  | Some f =>
      arg ← gets park_arg;
      call f arg;;
      modify (put_park None 0)
  | None => mret tt
  end;;
  scheduler_cancel_deadline;;
  schedule.

Definition scheduler_on_drop : M kernel unit :=
  c ← gets current_task;
  modify (put_current None);;
  match c with
  | Some current =>
      cas_task_state weak_fails fuel current TASK_STATUS_RUNNING TASK_STATUS_DEAD;;
      release_task current
  | None => mret tt
  end;;
  scheduler_cancel_deadline;;
  schedule.
End Scheduler.

(** ** Calling the scheduler; [trap n] is the SYSCALL instruction with [n] in a2 *)
Section Calls.
Context (trap : Z -> M kernel unit).

Definition SYSCALL_SCHED_PARK : Z := 0x08.
Definition SYSCALL_SCHED_YIELD : Z := 0x09.
Definition SYSCALL_SCHED_DROP : Z := 0x0a.
Definition SYSCALL_LOG : Z := 0x0f.

Definition scheduler_yield : M kernel unit :=
  d ← gets preempt_disable_depth;
  if 0 <? d then mret tt else trap SYSCALL_SCHED_YIELD.

Definition scheduler_park (callback : option Z) (arg : Z) : M kernel unit :=
  modify (fun s => put_park callback (park_arg s) s);;
  modify (fun s => put_park (park_callback s) arg s);;
  trap SYSCALL_SCHED_PARK.
End Calls.

(** Called on the kernel's own stack as well (Boot.v), so the state is left open. *)
Definition scheduler_drop_current {S} (trap : Z -> M S unit) : M S unit := trap SYSCALL_SCHED_DROP.

Definition get_current_task : M kernel (option loc) := gets current_task.
