(* ===== verification/SchedSpec.v ===== *)
(** * What the scheduler promises

    The intrusive run queue refines a list (first in, first out). [sched_wf] relates the
    statuses of the tasks, the queue and the current task; every entry point of the
    scheduler keeps it, and is shown to do what it should: wake a task, pass the CPU on in
    turn, park the current task, and hand over a register context unchanged. *)
From Stdlib Require Import ZArith Lia.
From stdpp Require Import base tactics numbers list gmap.
From S2P Require Import Prelude Umem Mmu MmuInv MmuSpec Timg Task TaskSpec Scheduler.

(** ** The queue as a list *)
Definition queue_rep (ts : gmap loc task) (q : task_queue) (l : list loc) : Prop :=
  q_head q = head l /\ q_tail q = last l /\ NoDup l /\
  forall i p, l !! i = Some p -> exists t, ts !! p = Some t /\ sched_link t = l !! S i.

(** Everything of a task but its link. *)
Definition unlinked (t : task) : Z * Z * Z := (task_pid t, status t, ucontext t).

Lemma queue_rep_ext ts ts' q l :
  (forall p, p ∈ l -> sched_link <$> ts' !! p = sched_link <$> ts !! p) ->
  queue_rep ts q l -> queue_rep ts' q l.
Proof.
  intros Hext (Hh & Ht & Hnd & Hl). split; [done|]. split; [done|]. split; [done|].
  intros i p Hi. destruct (Hl i p Hi) as (t & Hp & Hlink).
  specialize (Hext p (list_elem_of_lookup_2 _ _ _ Hi)). rewrite Hp in Hext.
  destruct (ts' !! p) as [t'|]; [|done]. injection Hext as Hext. exists t'.
  split; [done|]. by rewrite Hext.
Qed.

Lemma queue_rep_tasks ts q l p : queue_rep ts q l -> p ∈ l -> is_Some (ts !! p).
Proof.
  intros (_ & _ & _ & Hl) [i Hi]%list_elem_of_lookup. destruct (Hl i p Hi) as (t & -> & _). eauto.
Qed.

(** Appending: the new task has no successor, the old last one points to it. *)
Lemma push_back_ok p t l s :
  queue_rep (tasks s) (m_global_run_queue s) l -> p ∉ l -> tasks s !! p = Some t ->
  exists ts' q',
    task_queue_push_back p s = Ok tt (put_queue q' (m_global_run_queue_size s) (put_tasks ts' s)) /\
    queue_rep ts' q' (l ++ [p]) /\
    (forall r, unlinked <$> ts' !! r = unlinked <$> tasks s !! r).
Proof.
  intros (Hh & Ht & Hnd & Hl) Hp Htask.
  set (ts1 := <[p := set_link None t]> (tasks s)).
  assert (NoDup (l ++ [p])) as Hnd'.
  { apply NoDup_app. split; [done|]. split; [|apply NoDup_singleton]. intros r Hr ->%list_elem_of_singleton.
    done. }
  unfold task_queue_push_back. destruct (last l) as [tl|] eqn:Elast.
  - apply last_Some in Elast as [l0 ->].
    destruct (Hl (length l0) tl) as (ttl & Htl & _); [by rewrite lookup_app_r, Nat.sub_diag|].
    assert (p <> tl) as Hne by (intros ->; apply Hp; set_solver).
    exists (<[tl := set_link (Some p) ttl]> ts1), (TaskQueue (head (l0 ++ [tl])) (Some p)). split.
    { mrun (upd_task_ok p (set_link None) t). { done. } mrun. cbn [m_global_run_queue put_tasks].
      rewrite Ht. mrun upd_task_ok. { cbn [tasks put_tasks]. by rewrite lookup_insert_ne. }
      mrun. unfold set_queue, modify. by rewrite <- Hh. }
    split.
    + split; [by destruct l0|]. split; [by rewrite last_snoc|]. split; [done|].
      intros i r Hi. apply lookup_app_Some in Hi as [Hi|[Hi1 Hi]].
      * destruct (decide (r = tl)) as [->|Hr].
        -- assert (i = length l0) as ->.
           { apply (NoDup_lookup _ _ _ _ Hnd Hi). by rewrite lookup_app_r, Nat.sub_diag. }
           eexists. rewrite lookup_insert_eq. split; [done|]. cbn [sched_link set_link].
           rewrite lookup_app_r by (rewrite length_app; simpl; lia).
           by rewrite length_app, Nat.add_1_r, Nat.sub_diag.
        -- destruct (Hl i r Hi) as (tr & Hr1 & Hr2). exists tr.
           assert (p <> r) by (intros ->; apply Hp; by eapply list_elem_of_lookup_2).
           unfold ts1. rewrite !lookup_insert_ne by done. split; [done|]. rewrite Hr2.
           apply lookup_app_Some in Hi as [Hi|[Hi1 Hi]].
           ++ pose proof (lookup_lt_Some _ _ _ Hi).
              destruct (lookup_lt_is_Some_2 (l0 ++ [tl]) (S i)) as [y Hy];
                [rewrite length_app; simpl; lia|].
              rewrite Hy. symmetry. by apply lookup_app_l_Some.
           ++ apply list_lookup_singleton_Some in Hi as [_ ->]. done.
      * apply list_lookup_singleton_Some in Hi as [Hi ->]. exists (set_link None t).
        unfold ts1. rewrite lookup_insert_ne by done. rewrite lookup_insert_eq. split; [done|].
        symmetry. apply lookup_ge_None. rewrite length_app. simpl in *. lia.
    + intros r. unfold ts1. destruct (decide (r = tl)) as [->|]; [by rewrite lookup_insert_eq, Htl|].
      rewrite lookup_insert_ne by done.
      destruct (decide (r = p)) as [->|]; [by rewrite lookup_insert_eq, Htask|].
      by rewrite lookup_insert_ne.
  - apply last_None in Elast as ->.
    exists ts1, (TaskQueue (Some p) (Some p)). split.
    { mrun (upd_task_ok p (set_link None) t). { done. } mrun. cbn [m_global_run_queue put_tasks].
      rewrite Ht. mrun. done. }
    split.
    + split; [done|]. split; [done|]. split; [done|]. intros i r Hi.
      apply list_lookup_singleton_Some in Hi as [-> ->]. eexists. unfold ts1.
      rewrite lookup_insert_eq. done.
    + intros r. unfold ts1. destruct (decide (r = p)) as [->|]; [by rewrite lookup_insert_eq, Htask|].
      by rewrite lookup_insert_ne.
Qed.

(** Taking the first task. *)
Lemma pop_ok p l s :
  queue_rep (tasks s) (m_global_run_queue s) (p :: l) ->
  exists q', task_queue_pop s = Ok (Some p) (put_queue q' (m_global_run_queue_size s) s) /\
    queue_rep (tasks s) q' l.
Proof.
  intros (Hh & Ht & Hnd & Hl). simpl in Hh.
  destruct (Hl 0%nat p eq_refl) as (t & Htask & Hlink). simpl in Hlink.
  assert (NoDup l) as Hnd' by (by apply NoDup_cons_1_2 in Hnd).
  assert (sched_link t = head l) as Hlink' by (rewrite Hlink; by destruct l).
  eexists. split.
  { unfold task_queue_pop. mrun. rewrite Hh. mrun (get_task_ok p t). { done. } mrun. mrun.
    cbn [m_global_run_queue put_queue q_head q_tail]. rewrite Hlink'.
    mfirst. { instantiate (1 := put_queue (TaskQueue (head l) (last l)) (m_global_run_queue_size s) s).
      destruct l as [|p' l]; [done|]. cbn [head hd_error]. rewrite bool_decide_false by done.
      cbn. by rewrite Ht. }
    reflexivity. }
  split; [done|]. split; [done|]. split; [done|]. intros i r Hi. apply (Hl (S i) r Hi).
Qed.

(** ** Well-formed scheduler states

    [l] is the run queue; [x] is a task that was taken out of it and is about to run. *)
Definition task_status (s : kernel) (p : loc) : option Z := status <$> tasks s !! p.

(** The registers saved in the user context of a task. *)
Definition saved_regs (s : kernel) (p : loc) : option task_regs :=
  t ← tasks s !! p; u ← ucontexts s !! ucontext t; Some (regs u).

(** The whole user context of a task. *)
Definition task_context (s : kernel) (p : loc) : option task_ucontext :=
  t ← tasks s !! p; ucontexts s !! ucontext t.

Lemma saved_regs_context s p : saved_regs s p = regs <$> task_context s p.
Proof. unfold saved_regs, task_context. by destruct (tasks s !! p). Qed.

Record sched_wf (s : kernel) (l : list loc) (x : option loc) : Prop := {
  sc_memory : memory_wf s;
  sc_queue : queue_rep (tasks s) (m_global_run_queue s) l;
  sc_size : m_global_run_queue_size s = Z.of_nat (length l);
  sc_runnable : forall p, task_status s p = Some TASK_STATUS_RUNNABLE <-> p ∈ l \/ x = Some p;
  sc_taken : forall p, x = Some p -> p ∉ l;
  sc_running : forall p, task_status s p = Some TASK_STATUS_RUNNING <-> current_task s = Some p;
}.

(** What the scheduler's own steps leave alone. *)
Definition same_rest (s s' : kernel) : Prop :=
  mmu s' = mmu s /\ pages s' = pages s /\ wdt s' = wdt s /\ m_pid_gen s' = m_pid_gen s /\
  preempt_disable_depth s' = preempt_disable_depth s /\ park_callback s' = park_callback s /\
  park_arg s' = park_arg s.

(** The page of the user context of a task, which no other task has. *)
Lemma task_page s p t :
  memory_wf s -> tasks s !! p = Some t -> exists q, 0 <= q < 16 /\ ucontext t = DATA_PAGE_ADDR q.
Proof.
  intros Hwf Ht. destruct (kw_ucontext s Hwf p t Ht) as (q & sp & Hsp & Hm & Ha & _).
  exists q. split; [|done].
  by apply (sw_dmmu sp (mw_space _ (kw_mmu s Hwf) _ _ Hsp)) in Hm.
Qed.

(** The sixteen data pages bound the number of tasks, so the queue's size never overflows. *)
Lemma queue_bounded s l x : sched_wf s l x -> (length l <= 16)%nat.
Proof.
  intros Hwf. pose proof (sc_memory s l x Hwf) as Hm.
  set (page p := from_option (fun t => u32 (ucontext t - USER_DATA_BASE) / USER_PAGE_SIZE) 0
    (tasks s !! p)).
  assert (forall p t q, tasks s !! p = Some t -> ucontext t = DATA_PAGE_ADDR q -> 0 <= q < 16 ->
    page p = q) as Hpage.
  { intros p t q Ht Ha Hq. unfold page. rewrite Ht. simpl. rewrite Ha.
    unfold DATA_PAGE_ADDR, USER_PAGE_SIZE, USER_DATA_BASE.
    rewrite (wrapu_small 32 (q * _ + _)), wrapu_small by lia.
    rewrite Z.add_simpl_r. apply Z.div_mul. lia. }
  rewrite <- (length_fmap page). change 16%nat with (length (seqZ 0 16)).
  apply submseteq_length, NoDup_submseteq.
  - apply NoDup_fmap_2_strong; [|apply (sc_queue s l x Hwf)]. intros p p' Hp Hp' E.
    destruct (queue_rep_tasks _ _ _ _ (sc_queue s l x Hwf) Hp) as [t Ht].
    destruct (queue_rep_tasks _ _ _ _ (sc_queue s l x Hwf) Hp') as [t' Ht'].
    destruct (task_page s p t Hm Ht) as (q & Hq & Ha), (task_page s p' t' Hm Ht') as (q' & Hq' & Ha').
    rewrite (Hpage p t q), (Hpage p' t' q') in E by done. subst q'.
    apply (ucontext_inj s p p' t t' Hm Ht Ht'). congruence.
  - intros q (p & -> & Hp)%list_elem_of_fmap.
    destruct (queue_rep_tasks _ _ _ _ (sc_queue s l x Hwf) Hp) as [t Ht].
    destruct (task_page s p t Hm Ht) as (q & Hq & Ha). rewrite (Hpage p t q) by done.
    apply elem_of_seqZ. lia.
Qed.

Lemma sched_size_small s l x : sched_wf s l x -> 0 <= m_global_run_queue_size s <= 16.
Proof.
  intros Hwf. rewrite (sc_size s l x Hwf). pose proof (queue_bounded s l x Hwf). lia.
Qed.

(** Changing only links and statuses keeps the memory well formed and the saved registers. *)
Lemma memory_wf_tasks s ts q n :
  memory_wf s -> (forall r, ucontext <$> ts !! r = ucontext <$> tasks s !! r) ->
  memory_wf (put_queue q n (put_tasks ts s)).
Proof. intros Hwf Hu. apply (memory_wf_frame s); try done. apply Hwf. Qed.

Lemma saved_regs_tasks s s' :
  ucontexts s' = ucontexts s -> (forall r, ucontext <$> tasks s' !! r = ucontext <$> tasks s !! r) ->
  forall p, saved_regs s' p = saved_regs s p.
Proof.
  intros Hu Ht p. unfold saved_regs. specialize (Ht p). rewrite Hu.
  destruct (tasks s' !! p), (tasks s !! p); try done. injection Ht as Ht. simpl. by rewrite Ht.
Qed.

Lemma unlinked_ucontext (ts ts' : gmap loc task) r :
  unlinked <$> ts' !! r = unlinked <$> ts !! r ->
  ucontext <$> ts' !! r = ucontext <$> ts !! r /\ status <$> ts' !! r = status <$> ts !! r.
Proof.
  destruct (ts' !! r), (ts !! r); try done. intros [= _ H1 H2]. simpl. by rewrite H1, H2.
Qed.

(** ** The global run queue *)

(** Putting in a task that is already marked runnable. *)
Lemma run_queue_put_ok p l s :
  sched_wf s l (Some p) ->
  exists s', global_run_queue_put p s = Ok tt s' /\ sched_wf s' (l ++ [p]) None /\
    same_rest s s' /\ current_task s' = current_task s /\ frame s' = frame s /\
    (forall r, task_status s' r = task_status s r) /\
    (forall r, saved_regs s' r = saved_regs s r).
Proof.
  intros Hwf.
  assert (is_Some (tasks s !! p)) as [t Ht].
  { apply (fmap_is_Some status). change (is_Some (task_status s p)).
    rewrite (proj2 (sc_runnable _ _ _ Hwf p)) by auto. eauto. }
  destruct (push_back_ok p t l s (sc_queue _ _ _ Hwf) (sc_taken _ _ _ Hwf p eq_refl) Ht)
    as (ts' & q' & E & Hrep & Hsame).
  pose proof (sched_size_small s l _ Hwf) as Hsize.
  assert (forall r, ucontext <$> ts' !! r = ucontext <$> tasks s !! r) as Hu
    by (intros r; by apply unlinked_ucontext).
  assert (forall r, status <$> ts' !! r = status <$> tasks s !! r) as Hst
    by (intros r; by apply unlinked_ucontext).
  eexists. split.
  { unfold global_run_queue_put. mrun E. unfold modify. cbn. rewrite wraps_small by lia. reflexivity. }
  split; [constructor|split_and!]; try done.
  - by apply memory_wf_tasks; [apply Hwf|].
  - cbn. rewrite (sc_size _ _ _ Hwf), length_app. simpl. lia.
  - intros r. unfold task_status in *. cbn. rewrite Hst.
    rewrite (sc_runnable _ _ _ Hwf r), elem_of_app, list_elem_of_singleton. naive_solver.
  - intros r. unfold task_status. cbn. rewrite Hst. apply (sc_running _ _ _ Hwf r).
  - by apply saved_regs_tasks.
Qed.

Lemma run_queue_get_ok p l s :
  sched_wf s (p :: l) None ->
  exists s', global_run_queue_get s = Ok (Some p) s' /\ sched_wf s' l (Some p) /\
    same_rest s s' /\ current_task s' = current_task s /\ frame s' = frame s /\
    (forall r, task_status s' r = task_status s r) /\
    (forall r, saved_regs s' r = saved_regs s r).
Proof.
  intros Hwf. pose proof (sched_size_small s _ _ Hwf) as Hsize.
  pose proof (sc_size _ _ _ Hwf) as Hn. cbn [length] in Hn.
  set (s1 := put_queue (m_global_run_queue s) (Z.of_nat (length l)) s).
  destruct (pop_ok p l s1 (sc_queue _ _ _ Hwf)) as (q' & E & Hrep).
  eexists. split.
  { unfold global_run_queue_get. mrun. rewrite (proj2 (Z.eqb_neq _ _)) by lia. mrun.
    rewrite wraps_small, Hn by lia.
    replace (Z.of_nat (S (length l)) - 1) with (Z.of_nat (length l)) by lia. exact E. }
  pose proof (sc_queue _ _ _ Hwf) as (_ & _ & Hnd & _). apply NoDup_cons in Hnd as [Hp _].
  split; [constructor|split_and!]; try done.
  - apply (memory_wf_tasks s (tasks s)); [apply Hwf|done].
  - intros r. change (task_status _ r) with (task_status s r).
    rewrite (sc_runnable _ _ _ Hwf r), elem_of_cons. naive_solver.
  - by intros r [= <-].
  - apply (sc_running _ _ _ Hwf).
Qed.

Lemma run_queue_get_empty s :
  m_global_run_queue_size s = 0 -> global_run_queue_get s = Ok None s.
Proof. intros H. unfold global_run_queue_get. mrun. by rewrite H. Qed.

(** The watchdog is no part of the invariant. *)
Lemma put_wdt_wf t s l x : sched_wf s l x -> sched_wf (put_wdt t s) l x.
Proof.
  intros [H1 H2 H3 H4 H5 H6]. constructor; try done. apply (memory_wf_frame s); try done. apply H1.
Qed.

(** ** Saving the current task and running another *)
Section Steps.
Context (weak_fails : nat -> bool) (fuel : nat).
Hypothesis (Hends : cas_ends weak_fails fuel).

(** The state once the context of the current task [c] is saved and its status is [st]. *)
Definition saved_state (c : loc) (t : task) (u : task_ucontext) (st : Z) (s : kernel) : kernel :=
  put_tasks (<[c := set_status st t]> (tasks s))
    (put_ucontexts (<[ucontext t := set_regs (frame s) u]> (ucontexts s)) (put_current None s)).

Lemma status_insert ts c t st r :
  ts !! c = Some t ->
  status <$> (<[c := set_status st t]> ts : gmap loc task) !! r =
    if decide (r = c) then Some st else status <$> ts !! r.
Proof using Type.
  intros Ht. case_decide as Hr; [subst; by rewrite lookup_insert_eq|].
  by rewrite lookup_insert_ne.
Qed.

Lemma ucontext_insert ts c t st r :
  ts !! c = Some t ->
  ucontext <$> (<[c := set_status st t]> ts : gmap loc task) !! r = ucontext <$> ts !! r.
Proof using Type.
  intros Ht. destruct (decide (r = c)) as [->|]; [by rewrite lookup_insert_eq, Ht|].
  by rewrite lookup_insert_ne.
Qed.

Lemma link_insert ts c t st r :
  ts !! c = Some t ->
  sched_link <$> (<[c := set_status st t]> ts : gmap loc task) !! r = sched_link <$> ts !! r.
Proof using Type.
  intros Ht. destruct (decide (r = c)) as [->|]; [by rewrite lookup_insert_eq, Ht|].
  by rewrite lookup_insert_ne.
Qed.

Lemma current_task_data s l c :
  sched_wf s l None -> current_task s = Some c ->
  exists t u, tasks s !! c = Some t /\ status t = TASK_STATUS_RUNNING /\
    ucontexts s !! ucontext t = Some u /\ c ∉ l.
Proof using Type.
  intros Hwf Hc. pose proof (proj2 (sc_running _ _ _ Hwf c) Hc) as Hst.
  unfold task_status in Hst. destruct (tasks s !! c) as [t|] eqn:Ht; [|done].
  injection Hst as Hst. destruct (kw_ucontext s (sc_memory _ _ _ Hwf) c t Ht) as (_ & _ & _ & _ & _ & [u Hu]).
  exists t, u. split_and!; try done. intros Hl.
  pose proof (proj2 (sc_runnable _ _ _ Hwf c) (or_introl Hl)) as Hr.
  unfold task_status in Hr. rewrite Ht in Hr. injection Hr as Hr. by rewrite Hst in Hr.
Qed.

Lemma saved_state_wf s l c t u st :
  sched_wf s l None -> current_task s = Some c -> tasks s !! c = Some t ->
  status t = TASK_STATUS_RUNNING -> ucontexts s !! ucontext t = Some u -> c ∉ l ->
  st <> TASK_STATUS_RUNNING ->
  let s' := saved_state c t u st s in
  sched_wf s' l (if decide (st = TASK_STATUS_RUNNABLE) then Some c else None) /\
  saved_regs s' c = Some (frame s) /\ (forall r, r <> c -> saved_regs s' r = saved_regs s r) /\
  task_status s' c = Some st /\ (forall r, r <> c -> task_status s' r = task_status s r).
Proof using Type.
  intros Hwf Hc Ht Hst Hu Hl Hne s'. pose proof (sc_memory _ _ _ Hwf) as Hmem.
  assert (forall r, task_status s' r = if decide (r = c) then Some st else task_status s r) as Hstatus
    by (intros r; by apply status_insert).
  split; [constructor|split_and!].
  - apply (memory_wf_frame s); try done; [apply Hmem|..].
    + intros r. by apply ucontext_insert.
    + intros a Ha. cbn. apply lookup_insert_is_Some'. auto.
  - apply (queue_rep_ext (tasks s)); [|apply Hwf]. intros r _. by apply link_insert.
  - apply (sc_size _ _ _ Hwf).
  - intros r. rewrite Hstatus. pose proof (sc_runnable _ _ _ Hwf r) as Hr.
    destruct (decide (r = c)) as [->|Hrc]; destruct (decide (st = _)); naive_solver.
  - intros r. case_decide; naive_solver.
  - intros r. rewrite Hstatus. pose proof (sc_running _ _ _ Hwf r) as Hr.
    split; [|done]. case_decide as Hrc; [naive_solver|]. intros H%Hr. cbn. congruence.
  - unfold saved_regs. cbn. rewrite lookup_insert_eq. cbn. by rewrite lookup_insert_eq.
  - intros r Hrc. unfold saved_regs. cbn. rewrite lookup_insert_ne by done.
    destruct (tasks s !! r) as [tr|] eqn:Hr; [|done]. cbn. rewrite lookup_insert_ne; [done|].
    intros E. apply Hrc. symmetry. by apply (ucontext_inj s c r t tr).
  - rewrite Hstatus. by rewrite decide_True.
  - intros r Hrc. rewrite Hstatus. by rewrite decide_False.
Qed.

(** save_current_task: the queue gets the task, or, when it parks, does not. *)
Lemma save_current_task_ok (park : bool) s l c :
  sched_wf s l None -> current_task s = Some c ->
  exists s', save_current_task weak_fails fuel park s = Ok tt s' /\
    sched_wf s' (if park then l else l ++ [c]) None /\ same_rest s s' /\
    current_task s' = None /\ frame s' = frame s /\
    saved_regs s' c = Some (frame s) /\ (forall r, r <> c -> saved_regs s' r = saved_regs s r) /\
    task_status s' c = Some (if park then TASK_STATUS_WAITING else TASK_STATUS_RUNNABLE) /\
    (forall r, r <> c -> task_status s' r = task_status s r).
Proof using Hends.
  intros Hwf Hc. destruct (current_task_data s l c Hwf Hc) as (t & u & Ht & Hst & Hu & Hl).
  set (st := if park then TASK_STATUS_WAITING else TASK_STATUS_RUNNABLE).
  destruct (saved_state_wf s l c t u st Hwf Hc Ht Hst Hu Hl ltac:(unfold st; by destruct park))
    as (Hwf1 & Hsc & Hsr & Htc & Htr).
  unfold save_current_task. rewrite (bind_ok _ _ (Some c) s s) by (unfold gets; by rewrite Hc).
  rewrite bool_decide_true by done.
  assert (forall new, plain_status new -> TASK_STATUS_RUNNING <> new ->
    cas_task_state weak_fails fuel c TASK_STATUS_RUNNING new
      (put_ucontexts (<[ucontext t := set_regs (frame s) u]> (ucontexts s)) (put_current None s)) =
    Ok tt (saved_state c t u new s)) as Hcas
    by (intros; by apply (cas_task_state_ok weak_fails fuel c _ new t)).
  destruct park.
  - eexists. split.
    { mrun. mrun. rewrite Hc. mrun. mrun. mrun (save_task_context_ok c t u); [done|done|].
      by apply Hcas. }
    split; [exact Hwf1|]. by split_and!.
  - destruct (run_queue_put_ok c l _ Hwf1) as (s' & E & Hwf' & Hrest & Hcur & Hfr & Hst' & Hrg').
    exists s'. split.
    { mrun. mrun. rewrite Hc. mrun. mrun. mrun (save_task_context_ok c t u); [done|done|].
      mrun Hcas; [done|done|]. exact E. }
    split; [done|]. split; [done|]. split; [by rewrite Hcur|]. split; [by rewrite Hfr|].
    split; [by rewrite Hrg'|]. split; [intros r Hr; rewrite Hrg'; auto|].
    split; [by rewrite Hst'|]. intros r Hr. rewrite Hst'. auto.
Qed.

(** The CPU is switched to the task: its address space is the primary one, and its PID is
    the one the exception exit will load. *)
Definition switched_to (p : loc) (m : mmu_state) : Prop :=
  exists i b, primary_binding m = Some i /\ pid_bindings m !! i = Some b /\
    bound_space b = Some p /\ pid_new_reg m = pid b.

Lemma put_pid_new_wf v m : mmu_wf m -> mmu_wf (put_pid_new v m).
Proof using Type. intros []. by constructor. Qed.

Lemma set_deadline_ok s :
  exists w, scheduler_set_deadline s = Ok tt (put_wdt w s) /\ wdt_enabled w = true.
Proof using Type.
  destruct (wdt_feed_ok (wdt s)) as [w1 E1]. destruct (wdt_enable_on w1) as (w & E2 & Hon).
  exists w. split; [|done]. unfold scheduler_set_deadline.
  mrun (zoom_ok (H := kernel_wdt)). { exact E1. }
  etransitivity; [apply (zoom_ok (H := kernel_wdt)); exact E2|]. done.
Qed.

(** The address spaces map what they did; only their bindings may differ. *)
Definition same_tables (s s' : kernel) : Prop :=
  forall r, page_tables <$> spaces (mmu s') !! r = page_tables <$> spaces (mmu s) !! r.

Lemma same_tables_trans s1 s2 s3 : same_tables s1 s2 -> same_tables s2 s3 -> same_tables s1 s3.
Proof using Type. intros H1 H2 r. by rewrite H2, H1. Qed.

Lemma same_tables_mmu s s' : mmu s' = mmu s -> same_tables s s'.
Proof using Type. intros H r. by rewrite H. Qed.

(** Running a task that was taken out of the queue. *)
Lemma execute_ok s l p :
  sched_wf s l (Some p) -> current_task s = None ->
  exists s', execute weak_fails fuel p s = Ok tt s' /\ sched_wf s' l None /\
    current_task s' = Some p /\ Some (frame s') = saved_regs s p /\
    (forall r, saved_regs s' r = saved_regs s r) /\
    task_status s' p = Some TASK_STATUS_RUNNING /\
    (forall r, r <> p -> task_status s' r = task_status s r) /\
    switched_to p (mmu s') /\ wdt_enabled (wdt s') = true /\
    preempt_disable_depth s' = preempt_disable_depth s /\ park_callback s' = park_callback s /\
    same_tables s s'.
Proof using Hends.
  intros Hwf Hcur. pose proof (sc_memory _ _ _ Hwf) as Hmem.
  pose proof (proj2 (sc_runnable _ _ _ Hwf p) (or_intror eq_refl)) as Hst.
  unfold task_status in Hst. destruct (tasks s !! p) as [t|] eqn:Ht; [|done].
  injection Hst as Hst.
  destruct (kw_ucontext s Hmem p t Ht) as (_ & _ & _ & _ & _ & [u Hu]).
  set (ts := <[p := set_status TASK_STATUS_RUNNING t]> (tasks s)).
  set (s1 := put_tasks ts (put_current (Some p) s)).
  destruct (set_deadline_ok s1) as (w & Ew & Hon).
  set (s2 := put_wdt w s1).
  assert (memory_wf s2) as Hmem2.
  { apply (memory_wf_frame s); try done; [apply Hmem|]. intros r. by apply ucontext_insert. }
  destruct (restore_task_context_ok p (set_status TASK_STATUS_RUNNING t) u s2 Hmem2)
    as (m' & i & b & Er & Hm' & Hprim & Hb & Hbound & Hent).
  { apply lookup_insert_eq. }
  { done. }
  set (s3 := put_mmu (put_pid_new (pid b) m') (put_frame (regs u) s2)).
  assert (forall r, task_status s3 r = if decide (r = p) then Some TASK_STATUS_RUNNING
    else task_status s r) as Hstatus by (intros r; by apply status_insert).
  exists s3. split.
  { unfold execute. mrun. mrun (cas_task_state_ok weak_fails fuel p _ _ t); try done.
    mrun Ew. mrun Er. etransitivity; [apply (zoom_ok (H := kernel_mmu) _ _ tt (put_pid_new (pid b) m'))|done].
    unfold pid_prepare, get_binding. unfold_monad. cbn. by rewrite Hprim, Hb. }
  split; [constructor|split_and!]; try done.
  - apply (memory_wf_frame s2); try done. by apply put_pid_new_wf.
  - apply (queue_rep_ext (tasks s)); [|apply Hwf]. intros r _. by apply link_insert.
  - apply (sc_size _ _ _ Hwf).
  - intros r. rewrite Hstatus. pose proof (sc_runnable _ _ _ Hwf r) as Hr.
    pose proof (sc_taken _ _ _ Hwf p eq_refl) as Hp.
    destruct (decide (r = p)) as [->|Hrp]; naive_solver.
  - intros r. rewrite Hstatus. pose proof (sc_running _ _ _ Hwf r) as Hr. rewrite Hcur in Hr.
    cbn. destruct (decide (r = p)) as [->|Hrp]; [done|]. split; [|congruence].
    intros H%Hr. done.
  - unfold saved_regs. rewrite Ht. cbn. by rewrite Hu.
  - apply saved_regs_tasks; [done|]. intros r. by apply ucontext_insert.
  - rewrite Hstatus. by rewrite decide_True.
  - intros r Hrp. rewrite Hstatus. by rewrite decide_False.
  - exists i, b. split_and!; done.
Qed.

(** schedule with a task in the queue: the first one runs. *)
Lemma schedule_ok interrupt sleeps s l p :
  sched_wf s (p :: l) None -> current_task s = None ->
  exists s', schedule weak_fails fuel interrupt sleeps s = Ok tt s' /\ sched_wf s' l None /\
    current_task s' = Some p /\ Some (frame s') = saved_regs s p /\
    (forall r, saved_regs s' r = saved_regs s r) /\
    task_status s' p = Some TASK_STATUS_RUNNING /\
    (forall r, r <> p -> task_status s' r = task_status s r) /\
    switched_to p (mmu s') /\ wdt_enabled (wdt s') = true /\
    preempt_disable_depth s' = preempt_disable_depth s /\ park_callback s' = park_callback s /\
    same_tables s s'.
Proof using Hends.
  intros Hwf Hcur.
  destruct (run_queue_get_ok p l s Hwf) as (s1 & Eg & Hwf1 & Hrest & Hcur1 & Hfr & Hst & Hrg).
  destruct (execute_ok s1 l p Hwf1 ltac:(by rewrite Hcur1))
    as (s' & Ee & Hwf' & Hc' & Hf' & Hrg' & Hst' & Hsto & Hsw & Hw & Hd & Hcb & Htab).
  destruct Hrest as (Hmmu & _ & _ & _ & Hdepth & Hpark & _).
  exists s'. split.
  { unfold schedule, find_runnable. mfirst.
    { destruct sleeps; cbn [find_runnable_loop]; mrun Eg; reflexivity. }
    exact Ee. }
  split; [done|]. split; [done|]. split; [by rewrite Hf', Hrg|].
  split; [intros r; by rewrite Hrg', Hrg|]. split; [done|].
  split; [intros r Hr; by rewrite Hsto, Hst|]. split; [done|]. split; [done|].
  split; [by rewrite Hd|]. split; [by rewrite Hcb|].
  by apply (same_tables_trans _ s1); [apply same_tables_mmu|].
Qed.

(** With an empty queue and no interrupt that wakes a task, the idle loop sleeps for ever. *)
Lemma find_runnable_idle interrupt sleeps s :
  (forall i, interrupt i s = Ok tt s) -> m_global_run_queue_size s = 0 ->
  find_runnable interrupt sleeps s = Stop Spin s.
Proof using Type.
  intros Hi Hn. unfold find_runnable. generalize 0%nat as i.
  induction sleeps as [|n IH]; intros i; cbn [find_runnable_loop];
    rewrite (bind_ok _ _ _ _ _ (run_queue_get_empty s Hn)); [done|].
  rewrite (bind_ok _ _ _ _ _ (Hi i)). apply IH.
Qed.
End Steps.

(** ** The system calls of the scheduler *)
Section Calls.
Context (weak_fails : nat -> bool) (fuel : nat) (interrupt : nat -> M kernel unit) (sleeps : nat)
  (call : Z -> Z -> M kernel unit).
Hypothesis (Hends : cas_ends weak_fails fuel).

Abbreviation on_schedule := (scheduler_on_schedule weak_fails fuel interrupt sleeps).
Abbreviation on_park := (scheduler_on_park weak_fails fuel interrupt sleeps call).

(** Passing the CPU from [c] to [p]: what both system calls achieve. *)
Record handed_over (c p : loc) (st : Z) (s s' : kernel) : Prop := {
  ho_current : current_task s' = Some p;
  ho_frame : Some (frame s') = saved_regs s' p;
  ho_saved : saved_regs s' c = Some (frame s);
  ho_others : forall r, r <> c -> saved_regs s' r = saved_regs s r;
  ho_old : p <> c -> task_status s' c = Some st;
  ho_status : forall r, r <> c -> r <> p -> task_status s' r = task_status s r;
  ho_switched : switched_to p (mmu s');
  ho_deadline : wdt_enabled (wdt s') = true;
  ho_depth : preempt_disable_depth s' = preempt_disable_depth s;
  ho_tables : same_tables s s';
}.

Lemma on_schedule_ok s l l' c p :
  sched_wf s l None -> current_task s = Some c -> l ++ [c] = p :: l' ->
  exists s', on_schedule s = Ok tt s' /\ sched_wf s' l' None /\
    handed_over c p TASK_STATUS_RUNNABLE s s' /\ park_callback s' = park_callback s.
Proof using Hends.
  intros Hwf Hc Hl.
  destruct (save_current_task_ok weak_fails fuel Hends false s l c Hwf Hc)
    as (s1 & E1 & Hwf1 & Hrest & Hcur & Hfr & Hsc & Hsr & Htc & Htr).
  rewrite Hl in Hwf1.
  destruct (schedule_ok weak_fails fuel Hends interrupt sleeps s1 l' p Hwf1 Hcur)
    as (s' & E & Hwf' & Hc' & Hf' & Hrg & Hst & Hsto & Hsw & Hon & Hd & Hcb & Htab).
  destruct Hrest as (Hmmu & _ & _ & _ & Hdepth & Hpark & _).
  exists s'. split; [unfold scheduler_on_schedule; by mrun E1|]. split; [done|].
  split; [|by rewrite Hcb].
  constructor; try done.
  - by rewrite Hrg.
  - by rewrite Hrg.
  - intros r Hr. rewrite Hrg. auto.
  - intros Hne. rewrite Hsto by done. done.
  - intros r Hr Hrp. rewrite Hsto by done. auto.
  - by rewrite Hd.
  - by apply (same_tables_trans _ s1); [apply same_tables_mmu|].
Qed.

Lemma on_park_ok s l c p :
  sched_wf s (p :: l) None -> current_task s = Some c -> park_callback s = None ->
  exists s', on_park s = Ok tt s' /\ sched_wf s' l None /\
    handed_over c p TASK_STATUS_WAITING s s' /\ park_callback s' = None.
Proof using Hends.
  intros Hwf Hc Hpark.
  destruct (save_current_task_ok weak_fails fuel Hends true s _ c Hwf Hc)
    as (s1 & E1 & Hwf1 & Hrest & Hcur & Hfr & Hsc & Hsr & Htc & Htr).
  destruct Hrest as (Hmmu & _ & _ & _ & Hdepth & Hcb1 & _).
  destruct (wdt_disable_off (wdt s1)) as (w & Ew & _).
  set (s2 := put_wdt w s1).
  assert (sched_wf s2 (p :: l) None) as Hwf2.
  { destruct Hwf1 as [H1 H2 H3 H4 H5 H6]. constructor; try done.
    apply (memory_wf_frame s1); try done. apply H1. }
  destruct (schedule_ok weak_fails fuel Hends interrupt sleeps s2 l p Hwf2 Hcur)
    as (s' & E & Hwf' & Hc' & Hf' & Hrg & Hst & Hsto & Hsw & Hon & Hd & Hcb & Htab).
  change (forall r, saved_regs s' r = saved_regs s1 r) in Hrg.
  change (forall r, r <> p -> task_status s' r = task_status s1 r) in Hsto.
  exists s'. split.
  { unfold scheduler_on_park. mrun E1. mrun. rewrite Hcb1, Hpark. mrun.
    mrun (zoom_ok (H := kernel_wdt)). { exact Ew. } exact E. }
  split; [done|].
  split; [|by rewrite Hcb; change (park_callback s2) with (park_callback s1); rewrite Hcb1].
  constructor; try done.
  - by rewrite Hrg.
  - by rewrite Hrg.
  - intros r Hr. rewrite Hrg. auto.
  - intros Hne. rewrite Hsto by done. done.
  - intros r Hr Hrp. rewrite Hsto by done. auto.
  - by rewrite Hd.
  - by apply (same_tables_trans _ s1); [apply same_tables_mmu|].
Qed.

(** The first task of all is started by dropping when no task is current. *)
Lemma on_drop_start s l p :
  sched_wf s (p :: l) None -> current_task s = None ->
  exists s', scheduler_on_drop weak_fails fuel interrupt sleeps s = Ok tt s' /\ sched_wf s' l None /\
    current_task s' = Some p /\ Some (frame s') = saved_regs s' p /\
    (forall r, saved_regs s' r = saved_regs s r) /\ switched_to p (mmu s') /\
    wdt_enabled (wdt s') = true /\ park_callback s' = park_callback s /\ same_tables s s'.
Proof using Hends.
  intros Hwf Hc. destruct (wdt_disable_off (wdt s)) as (w & Ew & _).
  set (s1 := put_wdt w (put_current None s)).
  assert (sched_wf s1 (p :: l) None) as Hwf1.
  { destruct Hwf as [H1 H2 H3 H4 H5 H6]. constructor; try done.
    - apply (memory_wf_frame s); try done. apply H1.
    - intros r. cbn. rewrite <- Hc. apply H6. }
  destruct (schedule_ok weak_fails fuel Hends interrupt sleeps s1 l p Hwf1 eq_refl)
    as (s' & E & Hwf' & Hc' & Hf' & Hrg & Hst & Hsto & Hsw & Hon & Hd & Hcb & Htab).
  exists s'. split.
  { unfold scheduler_on_drop. rewrite (bind_ok _ _ None s s) by (unfold gets; by rewrite Hc).
    mrun. mrun. mrun (zoom_ok (H := kernel_wdt)). { exact Ew. } exact E. }
  split; [done|]. split; [done|]. split; [by rewrite Hrg|]. split; [|done].
  intros r. rewrite Hrg. done.
Qed.

(** Waking a waiting task. *)
Lemma ready_task_ok s l p :
  sched_wf s l None -> task_status s p = Some TASK_STATUS_WAITING ->
  exists s', scheduler_ready_task weak_fails fuel p s = Ok tt s' /\ sched_wf s' (l ++ [p]) None /\
    current_task s' = current_task s /\ frame s' = frame s /\ mmu s' = mmu s /\
    (wdt s' = wdt s /\ pages s' = pages s) /\
    task_status s' p = Some TASK_STATUS_RUNNABLE /\
    (forall r, r <> p -> task_status s' r = task_status s r) /\
    (forall r, saved_regs s' r = saved_regs s r) /\
    preempt_disable_depth s' = s32 (s32 (preempt_disable_depth s + 1) + 1) /\
    park_callback s' = park_callback s.
Proof using Hends.
  clear interrupt sleeps call. intros Hwf Hst. pose proof (sc_memory _ _ _ Hwf) as Hmem.
  assert (p ∉ l) as Hl.
  { intros H. pose proof (proj2 (sc_runnable _ _ _ Hwf p) (or_introl H)) as Hr.
    by rewrite Hst in Hr. }
  unfold task_status in Hst. destruct (tasks s !! p) as [t|] eqn:Ht; [|done]. injection Hst as Hst.
  set (d := s32 (preempt_disable_depth s + 1)).
  set (t' := set_status TASK_STATUS_RUNNABLE (set_link None t)).
  set (s1 := put_tasks (<[p := t']> (<[p := set_link None t]> (tasks s))) (put_depth d s)).
  assert (forall r, task_status s1 r = if decide (r = p) then Some TASK_STATUS_RUNNABLE
    else task_status s r) as Hstatus.
  { intros r. unfold task_status, s1. cbn. rewrite insert_insert_eq.
    case_decide as Hr; [subst; by rewrite lookup_insert_eq|by rewrite lookup_insert_ne]. }
  assert (forall r, ucontext <$> tasks s1 !! r = ucontext <$> tasks s !! r) as Huc.
  { intros r. unfold s1. cbn. rewrite insert_insert_eq.
    destruct (decide (r = p)) as [->|]; [by rewrite lookup_insert_eq, Ht|by rewrite lookup_insert_ne]. }
  assert (sched_wf s1 l (Some p)) as Hwf1.
  { constructor.
    - apply (memory_wf_frame s); try done. apply Hmem.
    - apply (queue_rep_ext (tasks s)); [|apply Hwf]. intros r Hr. unfold s1. cbn.
      by rewrite !lookup_insert_ne by (intros ->; done).
    - apply (sc_size _ _ _ Hwf).
    - intros r. rewrite Hstatus. pose proof (sc_runnable _ _ _ Hwf r).
      destruct (decide (r = p)) as [->|]; naive_solver.
    - by intros r [= <-].
    - intros r. rewrite Hstatus. pose proof (sc_running _ _ _ Hwf r) as Hr.
      destruct (decide (r = p)) as [->|]; [|done]. split; [done|]. intros H.
      apply Hr in H. unfold task_status in H. rewrite Ht in H. injection H as H.
      by rewrite Hst in H. }
  destruct (run_queue_put_ok p l s1 Hwf1) as (s2 & E & Hwf2 & Hrest & Hcur & Hfr & Hst2 & Hrg).
  destruct Hrest as (Hm & Hpg & Hw & _ & Hd & Hcb & _).
  exists (put_depth (s32 (preempt_disable_depth s2 + 1)) s2). split.
  { unfold scheduler_ready_task. mrun (upd_task_ok p _ t). { done. } mrun.
    mrun get_task_status_ok. { apply lookup_insert_eq. }
    cbn [status set_link]. rewrite Hst. mrun.
    mrun (cas_task_state_ok weak_fails fuel p _ TASK_STATUS_RUNNABLE (set_link None t)); try done.
    { apply lookup_insert_eq. }
    mrun E. done. }
  split; [destruct Hwf2 as [H1 H2 H3 H4 H5 H6]; constructor; try done|].
  { apply (memory_wf_frame s2); try done. apply H1. }
  split; [done|]. split; [done|]. split; [done|]. split; [done|].
  split; [change (task_status s2 p = Some TASK_STATUS_RUNNABLE); rewrite Hst2, Hstatus;
    by rewrite decide_True|].
  split; [intros r Hr; change (task_status s2 r = task_status s r); rewrite Hst2, Hstatus;
    by rewrite decide_False|].
  split; [|cbn; by rewrite Hd, Hcb].
  intros r. change (saved_regs s2 r = saved_regs s r). rewrite Hrg. by apply saved_regs_tasks.
Qed.
End Calls.
