(* ===== verification/SchedThm.v ===== *)
(** * Properties of the scheduler

    What each entry point does, the invariant over every reachable state, round-robin order
    and the preservation of contexts across other tasks, then the paths that do not work:
    the preemption counter, the release of a task, the idle loop without interrupts. *)
From Stdlib Require Import ZArith Lia Ascii String.
From stdpp Require Import base tactics numbers list gmap.
From S2P Require Import Prelude Umem Mmu MmuInv MmuSpec Timg Printf PrintfSpec Task TaskSpec.
From S2P Require Import Scheduler SchedSpec.

(** ** The queue *)

Lemma push_all_ok ps : forall l s,
  NoDup (l ++ ps) -> (forall p, p ∈ ps -> is_Some (tasks s !! p)) ->
  queue_rep (tasks s) (m_global_run_queue s) l ->
  exists s1, mfor ps task_queue_push_back s = Ok tt s1 /\
    queue_rep (tasks s1) (m_global_run_queue s1) (l ++ ps) /\
    (forall r, unlinked <$> tasks s1 !! r = unlinked <$> tasks s !! r).
Proof.
  induction ps as [|p ps IH]; intros l s Hnd Ht Hrep.
  { exists s. rewrite app_nil_r. done. }
  destruct (Ht p ltac:(set_solver)) as [t Hp].
  assert (p ∉ l) as Hl.
  { apply NoDup_app in Hnd as (_ & Hnd & _). intros H. apply (Hnd p H). set_solver. }
  destruct (push_back_ok p t l s Hrep Hl Hp) as (ts' & q' & E & Hrep' & Hsame).
  destruct (IH (l ++ [p]) (put_queue q' (m_global_run_queue_size s) (put_tasks ts' s)))
    as (s1 & E1 & Hrep1 & Hsame1).
  - by rewrite <- (assoc_L (++)).
  - intros r Hr. cbn. apply (fmap_is_Some unlinked). rewrite Hsame. apply fmap_is_Some, Ht. set_solver.
  - exact Hrep'.
  - exists s1. rewrite <- (assoc_L (++)) in Hrep1. split; [cbn [mfor]; mrun E; exact E1|].
    split; [done|]. intros r. rewrite Hsame1. apply Hsame.
Qed.

Lemma pop_all_ok ps : forall s,
  queue_rep (tasks s) (m_global_run_queue s) ps ->
  exists s2, mfor ps (fun p => o ← task_queue_pop; ASSERT (bool_decide (o = Some p))) s = Ok tt s2 /\
    queue_rep (tasks s2) (m_global_run_queue s2) [] /\ tasks s2 = tasks s.
Proof.
  induction ps as [|p ps IH]; intros s Hrep; [by exists s|].
  destruct (pop_ok p ps s Hrep) as (q' & E & Hrep').
  destruct (IH (put_queue q' (m_global_run_queue_size s) s) Hrep') as (s2 & E2 & Hrep2 & Ht).
  exists s2. split; [|done]. cbn [mfor].
  mfirst. { mrun E. rewrite bool_decide_true by done. reflexivity. } exact E2.
Qed.

(** The intrusive run queue is a first-in first-out list: from an empty queue, pushing
    tasks that are all different and popping as often gives them back in order, without
    touching anything of a task but its link, and then the queue is empty again. *)
Theorem queue_fifo ps s :
  NoDup ps -> (forall p, p ∈ ps -> is_Some (tasks s !! p)) ->
  queue_rep (tasks s) (m_global_run_queue s) [] ->
  exists s1 s2,
    mfor ps task_queue_push_back s = Ok tt s1 /\
    queue_rep (tasks s1) (m_global_run_queue s1) ps /\
    (forall r, unlinked <$> tasks s1 !! r = unlinked <$> tasks s !! r) /\
    mfor ps (fun p => o ← task_queue_pop; ASSERT (bool_decide (o = Some p))) s1 = Ok tt s2 /\
    queue_rep (tasks s2) (m_global_run_queue s2) [] /\ tasks s2 = tasks s1.
Proof.
  intros Hnd Htasks Hrep.
  destruct (push_all_ok ps [] s Hnd Htasks Hrep) as (s1 & E1 & Hrep1 & Hsame).
  destruct (pop_all_ok ps s1 Hrep1) as (s2 & E2 & Hrep2 & Ht). exists s1, s2.
  do 5 (split; [done|]). done.
Qed.

(** A new task waits outside of the queue and disturbs no other. *)
Lemma created_sched_wf s l p page pages' u :
  sched_wf s l None -> tasks s !! p = None ->
  page ∈ pa_free_pages (PageAllocator := data_pages) (pages s) ->
  memory_wf (created p page pages' u s) ->
  sched_wf (created p page pages' u s) l None /\
  (forall r, is_Some (tasks s !! r) -> task_context (created p page pages' u s) r = task_context s r).
Proof.
  intros Hwf Hp Hpage Hmem.
  assert (forall r, task_status (created p page pages' u s) r =
    if decide (r = p) then Some TASK_STATUS_WAITING else task_status s r) as Hst.
  { intros r. unfold task_status. cbn. case_decide as Hr; [subst; by rewrite lookup_insert_eq|].
    by rewrite lookup_insert_ne. }
  assert (p ∉ l) as Hl.
  { intros H. destruct (queue_rep_tasks _ _ _ _ (sc_queue _ _ _ Hwf) H). congruence. }
  split; [constructor; try done|].
  - apply (queue_rep_ext (tasks s)); [|apply Hwf]. intros r Hr. cbn.
    by rewrite lookup_insert_ne by (intros ->; done).
  - apply (sc_size _ _ _ Hwf).
  - intros r. rewrite Hst. pose proof (sc_runnable _ _ _ Hwf r).
    destruct (decide (r = p)) as [->|]; naive_solver.
  - intros r. rewrite Hst. pose proof (sc_running _ _ _ Hwf r) as Hr. cbn.
    destruct (decide (r = p)) as [->|]; [|done]. split; [done|]. intros H%Hr.
    unfold task_status in H. by rewrite Hp in H.
  - intros r [t Ht]. unfold task_context. cbn.
    rewrite lookup_insert_ne by (intros ->; congruence). rewrite Ht. cbn.
    rewrite lookup_insert_ne; [done|]. intros E.
    destruct (kw_ucontext s (sc_memory _ _ _ Hwf) r t Ht) as (q & sp & Hsp & Hm & Ha & _).
    assert (page = q) as ->; [|by apply (kw_owned s (sc_memory _ _ _ Hwf) r sp _ q Hsp Hm)].
    pose proof (pa_bounded (PageAllocator := data_pages) _ _ Hpage).
    apply (sw_dmmu sp (mw_space _ (kw_mmu s (sc_memory _ _ _ Hwf)) _ _ Hsp)) in Hm.
    apply data_page_addr_inj; [done|done|congruence].
Qed.

Section Properties.
Context (weak_fails : nat -> bool) (fuel : nat) (interrupt : nat -> M kernel unit) (sleeps : nat)
  (call : Z -> Z -> M kernel unit).
Hypothesis (Hends : cas_ends weak_fails fuel).

Abbreviation on_schedule := (scheduler_on_schedule weak_fails fuel interrupt sleeps).
Abbreviation on_park := (scheduler_on_park weak_fails fuel interrupt sleeps call).
Abbreviation on_drop := (scheduler_on_drop weak_fails fuel interrupt sleeps).
Abbreviation ready_task := (scheduler_ready_task weak_fails fuel).

(** C20: The yield system call. The current task goes to the end of the run queue, runnable,
    with its registers saved in its own context, and the first task of the queue (itself,
    if no other waits) becomes the running one: the exception frame holds its saved
    registers, its address space is active with its PID ready for the exception exit, and
    the time slice is armed. No other task changes. *)
Theorem on_schedule_spec s l c :
  sched_wf s l None -> current_task s = Some c ->
  exists p l' s', l ++ [c] = p :: l' /\ on_schedule s = Ok tt s' /\ sched_wf s' l' None /\
    handed_over c p TASK_STATUS_RUNNABLE s s'.
Proof using Hends.
  intros Hwf Hc. destruct (l ++ [c]) as [|p l'] eqn:Hl; [by destruct l|].
  destruct (on_schedule_ok weak_fails fuel interrupt sleeps Hends s l l' c p Hwf Hc Hl)
    as (s' & E & Hwf' & Hho & _).
  exists p, l', s'. auto.
Qed.

(** Parking with nothing else to run, and no interrupt that wakes a task. *)
Lemma on_park_idle s c :
  sched_wf s [] None -> current_task s = Some c -> park_callback s = None ->
  (forall i s, interrupt i s = Ok tt s) ->
  exists s', on_park s = Stop Spin s' /\ task_status s' c = Some TASK_STATUS_WAITING /\
    saved_regs s' c = Some (frame s) /\ current_task s' = None.
Proof using Hends.
  intros Hwf Hc Hpark Hidle.
  destruct (save_current_task_ok weak_fails fuel Hends true s _ c Hwf Hc)
    as (s1 & E1 & Hwf1 & Hrest & Hcur & Hfr & Hsc & Hsr & Htc & Htr).
  destruct Hrest as (_ & _ & _ & _ & _ & Hcb1 & _).
  destruct (wdt_disable_off (wdt s1)) as (w & Ew & _).
  exists (put_wdt w s1). split; [|done].
  unfold scheduler_on_park. mrun E1. mrun. rewrite Hcb1, Hpark. mrun.
  mrun (zoom_ok (H := kernel_wdt)). { exact Ew. }
  apply bind_stop. apply find_runnable_idle; [done|]. apply (sc_size _ _ _ Hwf1).
Qed.

(** Dropping the running task never gets past its release. *)
Lemma on_drop_current s l c :
  sched_wf s l None -> current_task s = Some c ->
  exists s', on_drop s = Stop AssertFailed s' /\ task_status s' c = Some TASK_STATUS_DEAD.
Proof using Hends.
  intros Hwf Hc. destruct (current_task_data s l c Hwf Hc) as (t & u & Ht & Hst & _).
  eexists. split.
  { unfold scheduler_on_drop. rewrite (bind_ok _ _ (Some c) s s) by (unfold gets; by rewrite Hc).
    mrun. apply bind_stop.
    etransitivity; [eapply bind_ok; apply (cas_task_state_ok weak_fails fuel c _ _ t); done|].
    reflexivity. }
  unfold task_status. cbn. by rewrite lookup_insert_eq.
Qed.

(** The park system call. The current task waits, outside of the run queue, and the
    first task of the queue runs; with an empty queue, no callback and no interrupt that
    wakes a task, the CPU sleeps for ever, the parked task saved. *)
Theorem on_park_spec s l c :
  sched_wf s l None -> current_task s = Some c -> park_callback s = None ->
  (forall p l', l = p :: l' -> exists s', on_park s = Ok tt s' /\ sched_wf s' l' None /\
     handed_over c p TASK_STATUS_WAITING s s') /\
  (l = [] -> (forall i s, interrupt i s = Ok tt s) -> exists s', on_park s = Stop Spin s' /\
     task_status s' c = Some TASK_STATUS_WAITING /\ saved_regs s' c = Some (frame s) /\
     current_task s' = None).
Proof using Hends.
  intros Hwf Hc Hpark. split.
  - intros p l' ->. destruct (on_park_ok weak_fails fuel interrupt sleeps call Hends s l' c p Hwf Hc Hpark)
      as (s' & E & Hwf' & Hho & _). eauto.
  - intros -> Hidle. by apply on_park_idle.
Qed.

(** Waking. A waiting task becomes runnable, at the end of the run queue, and nothing else
    of the tasks changes; a task in any other status (suspend bit apart) fails the
    assertion, before its status or the queue changes. *)
Theorem ready_task_spec s l p t :
  sched_wf s l None -> tasks s !! p = Some t ->
  (status t = TASK_STATUS_WAITING -> exists s', ready_task p s = Ok tt s' /\
     sched_wf s' (l ++ [p]) None /\ current_task s' = current_task s /\ frame s' = frame s /\
     mmu s' = mmu s /\ (forall r, r <> p -> task_status s' r = task_status s r) /\
     (forall r, saved_regs s' r = saved_regs s r)) /\
  (status t .& .~ TASK_SUSPEND <> TASK_STATUS_WAITING -> exists s', ready_task p s = Stop AssertFailed s' /\
     task_status s' p = Some (status t) /\ m_global_run_queue s' = m_global_run_queue s).
Proof using Hends.
  intros Hwf Ht. split.
  - intros Hst. destruct (ready_task_ok weak_fails fuel Hends s l p Hwf)
      as (s' & E & Hwf' & H1 & H2 & H3 & _ & _ & H5 & H6 & _).
    { unfold task_status. rewrite Ht. simpl. by rewrite Hst. }
    exists s'. auto 10.
  - intros Hst. eexists. split.
    { unfold scheduler_ready_task. mrun (upd_task_ok p _ t). { done. } mrun.
      mrun get_task_status_ok. { apply lookup_insert_eq. }
      cbn [status set_link]. rewrite (proj2 (Z.eqb_neq _ _) Hst). apply bind_stop. reflexivity. }
    split; [|done]. unfold task_status. cbn. by rewrite lookup_insert_eq.
Qed.

(** ** Every reachable state *)

(** One step of the machine while the kernel runs: the current task computes (its registers
    change), yields or parks, a waiting task is woken, a task is created. *)
Inductive sched_step : kernel -> kernel -> Prop :=
  | step_compute s c r : current_task s = Some c -> sched_step s (put_frame r s)
  | step_yield s s' c : current_task s = Some c -> on_schedule s = Ok tt s' -> sched_step s s'
  | step_park s s' c : current_task s = Some c -> park_callback s = None ->
      m_global_run_queue_size s <> 0 -> on_park s = Ok tt s' -> sched_step s s'
  | step_start s s' : current_task s = None -> m_global_run_queue_size s <> 0 ->
      on_drop s = Ok tt s' -> sched_step s s'
  | step_ready s s' p t : tasks s !! p = Some t -> status t = TASK_STATUS_WAITING ->
      ready_task p s = Ok tt s' -> sched_step s s'
  | step_new s s' p trampoline entry fmt va n text r : tasks s !! p = None ->
      render fmt va = Ok n text -> len text < 2 ^ 32 ->
      create_task weak_fails fuel (Some p) trampoline entry fmt va s = Ok r s' -> sched_step s s'.

(** What a step keeps: the invariant, and the registers of every task that is not running. *)
Lemma sched_step_keeps s s' l :
  sched_wf s l None -> sched_step s s' ->
  exists l', sched_wf s' l' None /\
    (forall r, is_Some (tasks s !! r) -> current_task s <> Some r ->
       is_Some (tasks s' !! r) /\ saved_regs s' r = saved_regs s r /\
       (current_task s' = Some r -> Some (frame s') = saved_regs s' r)).
Proof using Hends.
  intros Hwf Hstep.
  assert (forall s s' r, (forall q, saved_regs s' q = saved_regs s q) -> memory_wf s ->
    is_Some (tasks s !! r) -> is_Some (tasks s' !! r)) as Hsome.
  { clear. intros s s' r H Hm [t Ht]. specialize (H r). unfold saved_regs in H. rewrite Ht in H.
    destruct (kw_ucontext s Hm r t Ht) as (_ & _ & _ & _ & _ & [u Hu]). cbn in H.
    rewrite Hu in H. destruct (tasks s' !! r); [eauto|done]. }
  assert (forall s s' c p st, handed_over c p st s s' -> sched_wf s l None ->
    forall r, is_Some (tasks s !! r) -> current_task s <> Some r -> current_task s = Some c ->
      is_Some (tasks s' !! r) /\ saved_regs s' r = saved_regs s r /\
       (current_task s' = Some r -> Some (frame s') = saved_regs s' r)) as Hover.
  { clear. intros s s' c p st Hho Hwf r [t Ht] Hne Hc.
    assert (r <> c) as Hrc by congruence.
    pose proof (ho_others _ _ _ _ _ Hho r Hrc) as Hr.
    split; [|split; [done|]].
    - unfold saved_regs in Hr. rewrite Ht in Hr. cbn in Hr.
      destruct (kw_ucontext s (sc_memory _ _ _ Hwf) r t Ht) as (_ & _ & _ & _ & _ & [u Hu]).
      rewrite Hu in Hr. destruct (tasks s' !! r); [eauto|done].
    - intros Hcr. rewrite (ho_current _ _ _ _ _ Hho) in Hcr. injection Hcr as ->.
      apply (ho_frame _ _ _ _ _ Hho). }
  destruct Hstep as [s c r Hc|s s' c Hc E|s s' c Hc Hpark Hn E|s s' Hc Hn E|s s' p t Ht Hst E
    |s s' p trampoline entry fmt va n text r Hp Hr Hlen E].
  - exists l. split; [|intros q Hq Hne; split_and!; [done|done|]; intros H; by destruct Hne].
    destruct Hwf as [H1 H2 H3 H4 H5 H6]. constructor; try done.
    apply (memory_wf_frame s); try done. apply H1.
  - destruct (l ++ [c]) as [|p l'] eqn:Hl; [by destruct l|].
    destruct (on_schedule_ok weak_fails fuel interrupt sleeps Hends s l l' c p Hwf Hc Hl)
      as (s1 & E1 & Hwf' & Hho & _). rewrite E in E1. injection E1 as <-. eauto.
  - destruct l as [|p l'].
    { by rewrite (sc_size _ _ _ Hwf) in Hn. }
    destruct (on_park_ok weak_fails fuel interrupt sleeps call Hends s l' c p Hwf Hc Hpark)
      as (s1 & E1 & Hwf' & Hho & _). rewrite E in E1. injection E1 as <-. eauto.
  - destruct l as [|p l'].
    { by rewrite (sc_size _ _ _ Hwf) in Hn. }
    destruct (on_drop_start weak_fails fuel interrupt sleeps Hends s l' p Hwf Hc)
      as (s1 & E1 & Hwf' & Hcur & Hfr & Hrg & _). rewrite E in E1. injection E1 as <-.
    exists l'. split; [done|]. intros q Hq Hne.
    split; [by apply (Hsome s s' q Hrg (sc_memory _ _ _ Hwf))|]. split; [done|]. congruence.
  - destruct (ready_task_ok weak_fails fuel Hends s l p Hwf)
      as (s1 & E1 & Hwf' & H1 & _ & _ & _ & _ & _ & H6 & _).
    { unfold task_status. rewrite Ht. simpl. by rewrite Hst. }
    rewrite E in E1. injection E1 as <-. exists (l ++ [p]). split; [done|].
    intros q Hq Hne. split; [by apply (Hsome s s' q H6 (sc_memory _ _ _ Hwf))|].
    split; [done|]. rewrite H1. done.
  - pose proof (sc_memory _ _ _ Hwf) as Hmem.
    destruct (pa_alloc_cases data_pages (pages s) (kw_pages s Hmem))
      as [[He _]|(page & pages' & Ha & Hinv & Hin & Hmin & Hpw & Hfree & Hcode)].
    + rewrite (create_task_no_page weak_fails fuel p trampoline entry fmt va s Hmem Hp He) in E.
      injection E as <- <-. exists l. split.
      { destruct Hwf as [H1 H2 H3 H4 H5 H6]. constructor; try done.
        apply (memory_wf_frame s); try done. apply H1. }
      intros q Hq Hne. split_and!; [done|done|]. intros H. by destruct Hne.
    + rewrite (create_task_page weak_fails fuel p trampoline entry fmt va s n text Hmem Hp Hends Hr
        Hlen page pages' Ha Hinv) in E. injection E as <- <-.
      destruct (created_sched_wf s l p page pages' _ Hwf Hp Hin
        (created_wf p s Hmem Hp page pages' (fresh_ucontext trampoline entry text) Hin Hpw Hfree Hcode))
        as [Hwf' Hsaved].
      exists l. split; [done|]. intros q Hq Hne. split; [cbn; apply lookup_insert_is_Some'; auto|].
      split; [by rewrite !saved_regs_context, Hsaved|]. intros H. by destruct Hne.
Qed.

Lemma reachable_wf s s' l :
  sched_wf s l None -> rtc sched_step s s' -> exists l', sched_wf s' l' None.
Proof using Hends.
  intros Hwf Hs. revert l Hwf. induction Hs as [s|s s1 s' Hstep Hs IH]; intros l Hwf; [eauto|].
  destruct (sched_step_keeps s s1 l Hwf Hstep) as (l1 & Hwf1 & _). by apply (IH l1).
Qed.

(** C9: Every reachable state of the scheduler is sound: however the tasks are created,
    woken, run, yield and park, a task is in the run queue if and only if it is runnable,
    and once; it is running if and only if it is the current one; the size of the queue is
    right and at most sixteen; and every task has its own user context, in a page of its own
    that is not free. *)
Theorem scheduler_reachable s0 s :
  sched_wf s0 [] None -> rtc sched_step s0 s ->
  exists l, queue_rep (tasks s) (m_global_run_queue s) l /\ NoDup l /\ (length l <= 16)%nat /\
    m_global_run_queue_size s = Z.of_nat (length l) /\
    (forall p, task_status s p = Some TASK_STATUS_RUNNABLE <-> p ∈ l) /\
    (forall p, task_status s p = Some TASK_STATUS_RUNNING <-> current_task s = Some p) /\
    (forall p p' t t', tasks s !! p = Some t -> tasks s !! p' = Some t' ->
       ucontext t = ucontext t' -> p = p') /\
    mmu_wf (mmu s).
Proof using Hends.
  intros Hwf0 Hs. destruct (reachable_wf s0 s [] Hwf0 Hs) as [l Hwf]. exists l.
  split; [apply Hwf|]. split; [apply Hwf|]. split; [by eapply queue_bounded|].
  split; [apply Hwf|]. split; [intros p; rewrite (sc_runnable _ _ _ Hwf p); naive_solver|].
  split; [apply Hwf|]. split; [|apply (sc_memory _ _ _ Hwf)].
  intros p p' t t'. apply ucontext_inj, Hwf.
Qed.

(** ** Contexts across other tasks *)

(** A step of the machine while [c] does not run. *)
Definition away (c : loc) (s s' : kernel) : Prop :=
  sched_step s s' /\ current_task s <> Some c.

(** A task that loses the CPU gets its registers back unchanged. When [c] yields or parks
    with some registers, then whatever the other tasks do, and however often they are
    scheduled, when [c] is the current task again the exception frame holds exactly these
    registers. *)
Theorem context_preserved s l c s1 s2 :
  sched_wf s l None -> current_task s = Some c ->
  (on_schedule s = Ok tt s1 \/
   (park_callback s = None /\ l <> [] /\ on_park s = Ok tt s1)) ->
  rtc (away c) s1 s2 -> current_task s2 = Some c -> frame s2 = frame s.
Proof using Hends.
  intros Hwf Hc Hgive Hs Hc2.
  assert (exists l1 p st, sched_wf s1 l1 None /\ handed_over c p st s s1)
    as (l1 & p & st & Hwf1 & Hho).
  { destruct Hgive as [E|(Hpark & Hl & E)].
    - destruct (l ++ [c]) as [|p l1] eqn:Hl; [by destruct l|].
      destruct (on_schedule_ok weak_fails fuel interrupt sleeps Hends s l l1 c p Hwf Hc Hl)
        as (s' & E' & Hwf' & Hho & _). rewrite E in E'. injection E' as <-. eauto.
    - destruct l as [|p l1]; [done|].
      destruct (on_park_ok weak_fails fuel interrupt sleeps call Hends s l1 c p Hwf Hc Hpark)
        as (s' & E' & Hwf' & Hho & _). rewrite E in E'. injection E' as <-. eauto. }
  assert (is_Some (tasks s1 !! c) /\ saved_regs s1 c = Some (frame s) /\
    (current_task s1 = Some c -> frame s1 = frame s)) as Hinv.
  { pose proof (ho_saved _ _ _ _ _ Hho) as Hsv. split; [|split; [done|]].
    - unfold saved_regs in Hsv. destruct (tasks s1 !! c); [eauto|done].
    - intros Hcc. pose proof (ho_frame _ _ _ _ _ Hho) as Hf.
      rewrite (ho_current _ _ _ _ _ Hho) in Hcc. injection Hcc as ->. congruence. }
  clear Hho Hgive Hwf Hc. revert l1 Hwf1 Hinv Hc2.
  induction Hs as [x|x y z [Hstep Haway] Hs IH]; intros lx Hwfx (Hsome & Hsv & Hfr) Hc2; [auto|].
  destruct (sched_step_keeps x y lx Hwfx Hstep) as (ly & Hwfy & Hkeep).
  destruct (Hkeep c Hsome Haway) as (Hsome' & Hsv' & Hfr'). apply (IH ly); [done| |done].
  split; [done|]. split; [by rewrite Hsv'|]. intros Hcy. specialize (Hfr' Hcy). congruence.
Qed.

(** ** Turns *)
Fixpoint yields (n : nat) : M kernel unit :=
  match n with
  | O => mret tt
  | S n' => on_schedule;; yields n'
  end.

Lemma yields_rotate n : forall s c l,
  sched_wf s l None -> current_task s = Some c ->
  exists s' c' l', yields n s = Ok tt s' /\ sched_wf s' l' None /\ current_task s' = Some c' /\
    c' :: l' = Nat.iter n (fun ring => match ring with [] => [] | x :: r => r ++ [x] end) (c :: l).
Proof using Hends.
  induction n as [|n IH]; intros s c l Hwf Hc; [by exists s, c, l|].
  destruct (l ++ [c]) as [|p l1] eqn:Hl; [by destruct l|].
  destruct (on_schedule_ok weak_fails fuel interrupt sleeps Hends s l l1 c p Hwf Hc Hl)
    as (s1 & E1 & Hwf1 & Hho & _).
  destruct (IH s1 p l1 Hwf1 (ho_current _ _ _ _ _ Hho)) as (s' & c' & l' & E & Hwf' & Hc' & Hr).
  exists s', c', l'. split; [cbn [yields]; by mrun E1|]. split; [done|]. split; [done|].
  rewrite Hr, Nat.iter_succ_r. by rewrite Hl.
Qed.

Lemma iter_rotate {A} (l1 l2 : list A) :
  Nat.iter (length l1) (fun ring => match ring with [] => [] | x :: r => r ++ [x] end) (l1 ++ l2) =
  l2 ++ l1.
Proof using Type.
  revert l2. induction l1 as [|x l1 IH]; intros l2; [by rewrite app_nil_r|].
  cbn [length]. rewrite Nat.iter_succ_r. cbn [app]. rewrite <- (assoc_L (++)), IH.
  by rewrite <- (assoc_L (++)).
Qed.

(** C13: Round robin. With the current task [c] and the run queue [l], when every task yields
    in turn each of them runs exactly once, in the order of the queue, and then it is the
    turn of [c] again, with the queue as it was: no runnable task is passed over. *)
Theorem round_robin s c l :
  sched_wf s l None -> current_task s = Some c ->
  (forall i p, (c :: l) !! i = Some p -> exists s', yields i s = Ok tt s' /\ current_task s' = Some p) /\
  exists s', yields (S (length l)) s = Ok tt s' /\ current_task s' = Some c /\ sched_wf s' l None.
Proof using Hends.
  intros Hwf Hc. split.
  - intros i p Hi. destruct (yields_rotate i s c l Hwf Hc) as (s' & c' & l' & E & _ & Hc' & Hr).
    exists s'. split; [done|]. rewrite Hc'. f_equal.
    pose proof (lookup_lt_Some _ _ _ Hi) as Hlt.
    assert (length (take i (c :: l)) = i) as Hlen by (rewrite length_take; lia).
    pose proof (iter_rotate (take i (c :: l)) (drop i (c :: l))) as Hit.
    rewrite Hlen, take_drop in Hit. rewrite Hit in Hr.
    rewrite (drop_S _ _ _ Hi) in Hr. by injection Hr.
  - destruct (yields_rotate (S (length l)) s c l Hwf Hc) as (s' & c' & l' & E & Hwf' & Hc' & Hr).
    change (S (length l)) with (length (c :: l)) in Hr.
    pose proof (iter_rotate (c :: l) []) as Hit. rewrite app_nil_r in Hit. rewrite Hit in Hr.
    injection Hr as -> ->. exists s'. auto.
Qed.

(** ** What does not work *)

(** The drop system call. When no task is current, as at boot, it starts the first task
    of the queue; but dropping the current task never gets that far: releasing it fails an
    assertion, so the kernel stops, whatever other tasks there are. *)
Theorem on_drop_spec s l :
  sched_wf s l None ->
  (forall p l', current_task s = None -> l = p :: l' ->
     exists s', on_drop s = Ok tt s' /\ sched_wf s' l' None /\ current_task s' = Some p /\
       Some (frame s') = saved_regs s' p /\ switched_to p (mmu s')) /\
  (forall c, current_task s = Some c ->
     exists s', on_drop s = Stop AssertFailed s' /\ task_status s' c = Some TASK_STATUS_DEAD).
Proof using Hends.
  intros Hwf. split.
  - intros p l' Hc ->. destruct (on_drop_start weak_fails fuel interrupt sleeps Hends s l' p Hwf Hc)
      as (s' & E & Hwf' & H1 & H2 & _ & H3 & _). exists s'. auto.
  - intros c Hc. by apply (on_drop_current s l).
Qed.

(** The preemption counter only grows: enabling increments it as disabling does. After a
    balanced disable and enable it is two higher (short of overflow), so once any task has
    been woken (scheduler_ready_task disables and enables) scheduler_yield does nothing. *)
Theorem preemption_stays_disabled s l p t trap :
  sched_wf s l None -> tasks s !! p = Some t -> status t = TASK_STATUS_WAITING ->
  0 <= preempt_disable_depth s < 2 ^ 31 - 2 ->
  (scheduler_preempt_disable;; scheduler_preempt_enable) s =
    Ok tt (put_depth (preempt_disable_depth s + 2) s) /\
  exists s', ready_task p s = Ok tt s' /\ preempt_disable_depth s' = preempt_disable_depth s + 2 /\
    scheduler_yield trap s' = Ok tt s'.
Proof using Hends.
  intros Hwf Ht Hst Hd.
  assert (s32 (s32 (preempt_disable_depth s + 1) + 1) = preempt_disable_depth s + 2) as E2.
  { rewrite (wraps_small 32 (preempt_disable_depth s + 1)) by lia. rewrite wraps_small by lia. lia. }
  split.
  { unfold scheduler_preempt_disable, scheduler_preempt_enable. mrun. unfold modify. cbn.
    by rewrite E2. }
  destruct (ready_task_ok weak_fails fuel Hends s l p Hwf)
    as (s' & E & _ & _ & _ & _ & _ & _ & _ & _ & Hdep & _).
  { unfold task_status. rewrite Ht. simpl. by rewrite Hst. }
  exists s'. split; [done|]. rewrite E2 in Hdep. split; [done|].
  unfold scheduler_yield. rewrite (bind_ok _ _ (preempt_disable_depth s') s' s') by done.
  rewrite Hdep, (proj2 (Z.ltb_lt _ _)) by lia. done.
Qed.
End Properties.

(** ** Examples: two tasks on the machine of TaskSpec.v *)
Definition no_interrupt : nat -> M kernel unit := fun _ => mret tt.
Definition no_callback : Z -> Z -> M kernel unit := fun _ _ => mret tt.

Lemma ex_kernel_sched : sched_wf ex_kernel [] None.
Proof.
  constructor; try done.
  - apply ex_kernel_wf.
  - split; [done|]. split; [done|]. split; [constructor|]. intros i p H. by rewrite lookup_nil in H.
  - intros p. split; [done|]. intros [H|H]; [by apply not_elem_of_nil in H|done].
Qed.

Lemma ex_one_task_sched : sched_wf ex_one_task [] None.
Proof.
  destruct ex_page_zero as (H1 & _ & _).
  apply created_sched_wf; [apply ex_kernel_sched|done|done|apply ex_one_task_wf].
Qed.

Definition ex_pages_2 : umem := {| m_code_pages := 0x7fff; m_data_pages := 0xFFFC |}.
Definition ex_two_tasks : kernel :=
  created 2 1 ex_pages_2 (fresh_ucontext 0x4009E000 0x40080000 ex_text) ex_one_task.

Lemma ex_two_tasks_sched : sched_wf ex_two_tasks [] None.
Proof.
  assert (1 ∈ pa_free_pages (PageAllocator := data_pages) (pages ex_one_task)) as H1
    by (by apply elem_of_page_set; vm_compute).
  apply created_sched_wf; [apply ex_one_task_sched|done|done|].
  apply created_wf; [apply ex_one_task_wf|done|done|split; by vm_compute| |done].
  apply (bool_decide_unpack _). by vm_compute.
Qed.

(** Both woken. *)
Lemma ex_both_ready :
  exists s, sched_wf s [1%positive; 2%positive] None /\ current_task s = None /\ park_callback s = None.
Proof.
  destruct (ready_task_ok never_fails 1 never_fails_ends ex_two_tasks [] 1 ex_two_tasks_sched eq_refl)
    as (s1 & _ & Hwf1 & Hc1 & _ & _ & _ & _ & Hst1 & _ & _ & Hcb1).
  destruct (ready_task_ok never_fails 1 never_fails_ends s1 [1%positive] 2 Hwf1)
    as (s2 & _ & Hwf2 & Hc2 & _ & _ & _ & _ & _ & _ & _ & Hcb2).
  { by rewrite Hst1. }
  exists s2. split; [exact Hwf2|]. by rewrite Hc2, Hc1, Hcb2, Hcb1.
Qed.

(** The first of them running. *)
Lemma ex_running :
  exists s, sched_wf s [2%positive] None /\ current_task s = Some 1%positive /\ park_callback s = None.
Proof.
  destruct ex_both_ready as (s & Hwf & Hc & Hcb).
  destruct (on_drop_start never_fails 1 no_interrupt 3 never_fails_ends s _ _ Hwf Hc)
    as (s' & _ & Hwf' & Hc' & _ & _ & _ & _ & Hcb' & _). exists s'. by rewrite Hcb'.
Qed.

Lemma queue_fifo_witness :
  exists s1, mfor [1%positive; 2%positive] task_queue_push_back ex_two_tasks = Ok tt s1 /\
    queue_rep (tasks s1) (m_global_run_queue s1) [1%positive; 2%positive].
Proof.
  destruct (queue_fifo [1%positive; 2%positive] ex_two_tasks) as (s1 & s2 & H1 & H2 & _).
  - apply (bool_decide_unpack _). vm_compute. exact I.
  - intros p Hp. apply elem_of_cons in Hp as [->|Hp]; [by eexists|].
    apply list_elem_of_singleton in Hp as ->. by eexists.
  - apply ex_two_tasks_sched.
  - exists s1. split; [exact H1|exact H2].
Defined.

Lemma on_schedule_spec_witness :
  exists s s', current_task s = Some 1%positive /\
    scheduler_on_schedule never_fails 1 no_interrupt 3 s = Ok tt s' /\
    handed_over 1 2 TASK_STATUS_RUNNABLE s s'.
Proof.
  destruct ex_running as (s & Hwf & Hc & _).
  destruct (on_schedule_spec never_fails 1 no_interrupt 3 never_fails_ends s _ _ Hwf Hc)
    as (p & l' & s' & Hl & E & _ & Hho).
  injection Hl as <- <-. exists s, s'. auto.
Defined.

Lemma on_park_spec_witness :
  exists s s', current_task s = Some 1%positive /\
    scheduler_on_park never_fails 1 no_interrupt 3 no_callback s = Ok tt s' /\
    handed_over 1 2 TASK_STATUS_WAITING s s'.
Proof.
  destruct ex_running as (s & Hwf & Hc & Hcb).
  destruct (on_park_spec never_fails 1 no_interrupt 3 no_callback never_fails_ends s _ _ Hwf Hc Hcb)
    as [H _].
  destruct (H 2%positive [] eq_refl) as (s' & E & _ & Hho). exists s, s'. auto.
Defined.

Lemma ready_task_spec_witness :
  exists s', scheduler_ready_task never_fails 1 1 ex_two_tasks = Ok tt s' /\
    sched_wf s' [1%positive] None.
Proof.
  destruct (ready_task_spec never_fails 1 never_fails_ends ex_two_tasks [] 1
    (Task 0 TASK_STATUS_WAITING None 0x3FFC0000) ex_two_tasks_sched eq_refl) as [H _].
  destruct (H eq_refl) as (s' & E & Hwf & _). exists s'. split; [exact E|exact Hwf].
Defined.

Lemma ex_create_step :
  sched_step never_fails 1 no_interrupt 3 no_callback ex_kernel ex_one_task.
Proof.
  apply (step_new _ _ _ _ _ ex_kernel ex_one_task 1 0x4009E000 0x40080000 (cstr "init") [] 4 ex_text
    (Some 1%positive)); [done|exact ex_render|by vm_compute|].
  apply (create_task_page never_fails 1 1 0x4009E000 0x40080000 (cstr "init") [] ex_kernel 4 ex_text);
    [apply ex_kernel_wf|done|apply never_fails_ends|exact ex_render|by vm_compute|reflexivity|done].
Qed.

Lemma scheduler_reachable_witness :
  exists l, queue_rep (tasks ex_one_task) (m_global_run_queue ex_one_task) l /\
    m_global_run_queue_size ex_one_task = Z.of_nat (length l).
Proof.
  destruct (scheduler_reachable never_fails 1 no_interrupt 3 no_callback never_fails_ends
    ex_kernel ex_one_task ex_kernel_sched) as (l & H1 & _ & _ & H2 & _).
  - apply rtc_once. exact ex_create_step.
  - exists l. split; [exact H1|exact H2].
Defined.

(** Task 1 yields to task 2, which computes and yields back. *)
Lemma context_preserved_witness :
  exists s s2, current_task s = Some 1%positive /\ current_task s2 = Some 1%positive /\
    frame s2 = frame s.
Proof.
  destruct ex_running as (s & Hwf & Hc & _).
  destruct (on_schedule_ok never_fails 1 no_interrupt 3 never_fails_ends s _ _ _ _ Hwf Hc eq_refl)
    as (s1 & E1 & Hwf1 & Hho1 & _).
  pose proof (ho_current _ _ _ _ _ Hho1) as Hc1.
  set (s1' := put_frame zero_regs s1).
  assert (sched_wf s1' [1%positive] None) as Hwf1'.
  { destruct Hwf1 as [H1 H2 H3 H4 H5 H6]. constructor; try done.
    apply (memory_wf_frame s1); try done. apply H1. }
  destruct (on_schedule_ok never_fails 1 no_interrupt 3 never_fails_ends s1' _ _ _ _ Hwf1' Hc1 eq_refl)
    as (s2 & E2 & Hwf2 & Hho2 & _).
  pose proof (ho_current _ _ _ _ _ Hho2) as Hc2.
  exists s, s2. split; [exact Hc|]. split; [exact Hc2|].
  apply (context_preserved never_fails 1 no_interrupt 3 no_callback never_fails_ends s [2%positive]
    1%positive s1 s2 Hwf Hc (or_introl E1)); [|exact Hc2].
  apply (rtc_l _ s1 s1' s2); [split; [by eapply step_compute|by rewrite Hc1]|].
  apply rtc_once. split; [by apply (step_yield _ _ _ _ _ s1' s2 2)|].
  change (current_task s1 <> Some 1%positive). by rewrite Hc1.
Defined.

Lemma round_robin_witness :
  exists s s', current_task s = Some 1%positive /\
    yields never_fails 1 no_interrupt 3 1 s = Ok tt s' /\ current_task s' = Some 2%positive.
Proof.
  destruct ex_running as (s & Hwf & Hc & _).
  destruct (round_robin never_fails 1 no_interrupt 3 never_fails_ends s _ _ Hwf Hc) as [H _].
  destruct (H 1%nat 2%positive eq_refl) as (s' & E & Hc'). exists s, s'. auto.
Defined.

Lemma on_drop_spec_witness :
  exists s s', current_task s = Some 1%positive /\
    scheduler_on_drop never_fails 1 no_interrupt 3 s = Stop AssertFailed s'.
Proof.
  destruct ex_running as (s & Hwf & Hc & _).
  destruct (on_drop_spec never_fails 1 no_interrupt 3 never_fails_ends s _ Hwf) as [_ H].
  destruct (H 1%positive Hc) as (s' & E & _). exists s, s'. auto.
Defined.

Lemma preemption_stays_disabled_witness :
  exists s', scheduler_ready_task never_fails 1 1 ex_two_tasks = Ok tt s' /\
    preempt_disable_depth s' = 2.
Proof.
  destruct (preemption_stays_disabled never_fails 1 never_fails_ends ex_two_tasks [] 1
    (Task 0 TASK_STATUS_WAITING None 0x3FFC0000) (fun _ => mret tt) ex_two_tasks_sched eq_refl eq_refl
    ltac:(simpl; lia)) as (_ & s' & E & Hd & _).
  exists s'. split; [exact E|exact Hd].
Defined.
