(* ===== verification/Syscall.v ===== *)
(** * System calls (kernel/src/task/syscall.c)

    The machine is the kernel's state (Task.v) and the console (Console.v). The handler works
    on the exception frame of the kernel's state. *)
From Stdlib Require Import ZArith Lia Ascii String.
From stdpp Require Import base tactics numbers list gmap.
From S2P Require Import Prelude Umem Mmu Timg Printf PrintfSpec Console Task Scheduler.

Record machine := Machine { kern : kernel; console : uart }.

#[export] Instance machine_kernel : Lens machine kernel.
Proof.
  refine {| view := kern; update := fun k m => Machine k (console m) |}; [done|by intros []|done].
Defined.
#[export] Instance machine_console : Lens machine uart.
Proof.
  refine {| view := console; update := fun u m => Machine (kern m) u |}; [done|by intros []|done].
Defined.

(** ** The frame: [regs->ar[i]] *)
Definition SYSCALL_NUM : nat := 2.
Definition SYSCALL_RET : nat := 2.
Definition SYSCALL_ARG1 : nat := 6.
Definition SYSCALL_ARG2 : nat := 3.

Definition get_ar (i : nat) : M kernel Z := s ← get; deref (ar (frame s) !! i).
Definition put_ar (i : nat) (v : Z) : M kernel unit :=
  _ ← get_ar i;
  modify (fun s => put_frame (set_ar (<[i := v]> (ar (frame s))) (frame s)) s).

(** ** Strings in memory *)

Definition le_bytes (n : Z) (v : Z) : list Z := (fun i => u8 (v .>> (8 * i))) <$> seqZ 0 n.

(** What lies behind the name of a task: its saved registers. *)
Definition regs_bytes (r : task_regs) : list Z :=
  concat (le_bytes 4 <$> (ar r ++ [sar r; lbeg r; lend r; lcount r; pc r; ps r; windowbase r;
    windowstart r])) ++ le_bytes 2 (windowmask r) ++ le_bytes 2 (windowsize r).

(** [task->ucontext->name], given to printf. *)
Definition task_name (t : task) (u : task_ucontext) : va_value :=
  VStr (ucontext t + STACK_SIZE) (name u ++ regs_bytes (regs u)).

(** ** The handler *)
Section Syscall.
(** The scheduler's environment (Scheduler.v) and the serial port's (Console.v). *)
Context (weak_fails : nat -> bool) (fuel : nat) (interrupt : nat -> M kernel unit) (sleeps : nat)
  (call : Z -> Z -> M kernel unit).
Context (txfifo_cnt : nat -> Z) (polls : nat).
(** What the user data memory holds, from an address to its end. *)
Context (user_data : Z -> list Z).
(** The path of syscall.c that the build gives to the compiler. *)
Context (__FILE__ : list Z).

Definition get_user_ptr (user_ptr user_size : Z) : M machine (err * Z) :=
  task ← zoom get_current_task;
  let idx := s32 (DATA_PAGE_INDEX user_ptr) in
  p ← deref task;
  m ← gets (fun m => spaces (mmu (kern m)) !! p);
  space ← deref m;
  entry ← deref (dmmu space !! Z.to_nat idx);
  mret (NO_ERROR, DATA_PAGE_ADDR (phys entry)).

Definition syscall_log : M machine err :=
  str_len ← zoom (get_ar SYSCALL_ARG2);
  a ← zoom (get_ar SYSCALL_ARG1);
  '(e, str_ptr) ← get_user_ptr a str_len;
  if IS_ERROR e then zoom (rethrown txfifo_cnt polls (txt "common_syscall_handler") __FILE__ 42);; mret e
  else
    c ← zoom get_current_task;
    p ← deref c;
    t ← zoom (get_task p);
    u ← zoom (get_ucontext (ucontext t));
    zoom (TRACE txfifo_cnt polls (txt "%.64s: %.*s")
      [task_name t u; VWord str_len; VStr str_ptr (user_data str_ptr)]);;
    mret e.

Definition syscall_dispatch (syscall_num : Z) : M machine err :=
  if syscall_num =? SYSCALL_SCHED_PARK then
    zoom (scheduler_on_park weak_fails fuel interrupt sleeps call);; mret NO_ERROR
  else if syscall_num =? SYSCALL_SCHED_YIELD then
    zoom (scheduler_on_schedule weak_fails fuel interrupt sleeps);; mret NO_ERROR
  else if syscall_num =? SYSCALL_SCHED_DROP then
    zoom (scheduler_on_drop weak_fails fuel interrupt sleeps);; mret NO_ERROR
  else if syscall_num =? SYSCALL_LOG then syscall_log
  else
    n ← zoom (get_ar 2);
    zoom (ERROR txfifo_cnt polls (txt "unknown syscall %d") [VWord n]);;
    zoom (check_failed txfifo_cnt polls (txt "common_syscall_handler") __FILE__ ERROR_INVALID_SYSCALL 49);;
    mret ERROR_INVALID_SYSCALL.

Definition common_syscall_handler : M machine unit :=
  syscall_num ← zoom (get_ar SYSCALL_NUM);
  zoom (put_ar SYSCALL_RET 0);;
  e ← syscall_dispatch syscall_num;
  if IS_ERROR e then zoom (put_ar SYSCALL_RET (u32 (- err_code e))) else mret tt.
End Syscall.
