(* ===== verification/SyscallSpec.v ===== *)
(** * What the system calls promise *)
From Stdlib Require Import ZArith Lia Ascii String.
From stdpp Require Import base tactics numbers list gmap.
From S2P Require Import Prelude Umem Mmu MmuInv Timg Printf PrintfSpec Console Task TaskSpec.
From S2P Require Import Scheduler SchedSpec SchedThm Syscall.

(** ** The frame *)

(** The kernel with the result of the call in the frame, zero before anything is done. *)
Definition returning (v : Z) (s : kernel) : kernel :=
  put_frame (set_ar (<[SYSCALL_RET := v]> (ar (frame s))) (frame s)) s.

Lemma get_ar_ok i v s : ar (frame s) !! i = Some v -> get_ar i s = Ok v s.
Proof. intros E. unfold get_ar. mrun. by rewrite E. Qed.

Lemma put_ret_ok v w s : ar (frame s) !! SYSCALL_RET = Some w -> put_ar SYSCALL_RET v s = Ok tt (returning v s).
Proof. intros E. unfold put_ar. mrun (get_ar_ok SYSCALL_RET w). { done. } done. Qed.

Lemma returning_lookup v w s :
  ar (frame s) !! SYSCALL_RET = Some w -> ar (frame (returning v s)) !! SYSCALL_RET = Some v.
Proof. intros E%lookup_lt_Some. by apply list_lookup_insert_eq. Qed.

Lemma returning_twice v v' s : returning v (returning v' s) = returning v s.
Proof. unfold returning. cbn. unfold put_frame, set_ar. cbn. by rewrite list_insert_insert_eq. Qed.

Lemma put_frame_wf r s l x : sched_wf s l x -> sched_wf (put_frame r s) l x.
Proof.
  intros [H1 H2 H3 H4 H5 H6]. constructor; try done.
  apply (memory_wf_frame s); try done. apply H1.
Qed.

(** ** Texts *)
Lemma loop_49 fuel fmt X :
  vsnprintf_loop record 0 (S fuel) (37 :: 100 :: fmt) [VWord 49] (u32 (len X)) X =
  vsnprintf_loop record 0 fuel fmt [] (u32 (len (X ++ [52; 57]))) (X ++ [52; 57]).
Proof.
  assert (u32 (len (X ++ [52; 57])) = u32 (u32 (u32 (len X) + 1) + 1)) as ->.
  { rewrite (u32_succ (len X)), u32_succ, len_app. change (len [52; 57]) with 2. f_equal. lia. }
  assert (X ++ [52; 57] = (X ++ [52]) ++ [57]) as -> by (by rewrite <- (assoc_L (++))).
  generalize (u32 (len X)) as i. reflexivity.
Qed.

Definition check_text (file : list Z) : list Z :=
  txt "[-] Check failed with error 4 in function common_syscall_handler (" ++ file ++ txt ":49)" ++
  [10; 13].

Lemma render_check_failed file :
  Forall (fun c => c <> 0) file -> len file < 2 ^ 32 - 1 ->
  render (txt "[-] " ++ txt "Check failed with error %d in function %s (%s:%d)" ++ [10; 13; 0])
    [VWord 4; literal (txt "common_syscall_handler"); literal file; VWord 49] =
  Ok (u32 (len (check_text file))) (check_text file).
Proof.
  intros Hf Hl. unfold render.
  set (T := txt "[-] Check failed with error 4 in function common_syscall_handler (").
  transitivity (vsnprintf_loop record 0 12 (37 :: 115 :: txt ":" ++ txt "%d)" ++ [10; 13; 0])
    [VStr 1 (file ++ [0]); VWord 49] (u32 (len T)) T); [reflexivity|].
  rewrite loop_string by done.
  rewrite (loop_literal (txt ":")); [|repeat constructor; done|done|vm_compute; lia].
  etransitivity; [apply (loop_49 9)|].
  rewrite (loop_literal (txt ")" ++ [10; 13]) 9 [0]); [|repeat constructor; done|done|vm_compute; lia].
  unfold check_text. fold T. by rewrite <- !(assoc_L (++)).
Qed.

(** The line of the log system call. *)
Lemma render_log a1 a2 nm pad s c rest n :
  Forall (fun c => c <> 0) nm -> len nm < 64 -> u32 a1 <> 0 ->
  Forall (fun c => c <> 0) s -> len s = n \/ (len s < n /\ c = 0) -> 0 < n < 2 ^ 31 -> u32 a2 <> 0 ->
  exists k, render (txt "[*] " ++ txt "%.64s: %.*s" ++ [10; 13; 0])
    [VStr a1 (nm ++ 0 :: pad); VWord n; VStr a2 (s ++ c :: rest)] =
    Ok k (txt "[*] " ++ nm ++ txt ": " ++ s ++ [10; 13]).
Proof.
  intros Hnm Hln H1 Hs Hls Hn H2. eexists. unfold render.
  rewrite (loop_literal (txt "[*] ")); [|repeat constructor; done|done|vm_compute; lia].
  etransitivity; [apply (loop_dot_64 14); [done|by right|done]|].
  etransitivity; [apply (loop_literal (txt ": ") 14 (37 :: 46 :: 42 :: 115 :: [10; 13; 0]));
    [repeat constructor; done|done|vm_compute; lia]|].
  etransitivity; [apply (loop_dot_star 11); done|].
  etransitivity; [apply (loop_literal [10; 13] 11 [0]); [repeat constructor; done|done|vm_compute; lia]|].
  cbn [vsnprintf_loop]. etransitivity; [eapply bind_ok; reflexivity|].
  cbn [Z.eqb]. rewrite app_nil_l, <- !(assoc_L (++)). reflexivity.
Qed.

(** ** User pointers *)
Lemma data_page_index i off :
  0 <= i < 16 -> 0 <= off < USER_PAGE_SIZE -> DATA_PAGE_INDEX (DATA_PAGE_ADDR i + off) = i.
Proof.
  unfold DATA_PAGE_INDEX, DATA_PAGE_ADDR, USER_PAGE_SIZE, USER_DATA_BASE. intros Hi Ho.
  rewrite (wrapu_small 32 (i * _ + _)), wrapu_small by lia.
  replace (i * 8192 + 1073479680 + off - 1073479680) with (off + i * 8192) by lia.
  rewrite Z.div_add, Z.div_small by lia. lia.
Qed.

Lemma get_user_ptr_eq a size m :
  get_user_ptr a size m =
    match p ← current_task (kern m); sp ← spaces (mmu (kern m)) !! p;
          dmmu sp !! Z.to_nat (s32 (DATA_PAGE_INDEX a)) with
    | Some e => Ok (NO_ERROR, DATA_PAGE_ADDR (phys e)) m
    | None => Stop Fault m
    end.
Proof.
  destruct m as [k u]. unfold get_user_ptr, get_current_task. unfold_monad. cbn.
  destruct (current_task k) as [p|]; [|done]. cbn.
  destruct (spaces (mmu k) !! p) as [sp|]; [|done]. cbn.
  by destruct (dmmu sp !! _).
Qed.

Lemma get_user_ptr_ok c sp i off e size m :
  spaces (mmu (kern m)) !! c = Some sp -> current_task (kern m) = Some c ->
  0 <= i < 16 -> 0 <= off < USER_PAGE_SIZE -> dmmu sp !! Z.to_nat i = Some e ->
  get_user_ptr (DATA_PAGE_ADDR i + off) size m = Ok (NO_ERROR, DATA_PAGE_ADDR (phys e)) m.
Proof.
  intros Hsp Hc Hi Hoff He. rewrite get_user_ptr_eq, (data_page_index i off), wraps_small by lia.
  rewrite Hc. cbn [mbind option_bind]. rewrite Hsp. cbn [mbind option_bind]. by rewrite He.
Qed.

Section Handler.
Context (weak_fails : nat -> bool) (fuel : nat) (interrupt : nat -> M kernel unit) (sleeps : nat)
  (call : Z -> Z -> M kernel unit).
Context (txfifo_cnt : nat -> Z) (polls : nat).
Context (user_data : Z -> list Z) (__FILE__ : list Z).
Hypothesis (Hends : cas_ends weak_fails fuel) (Hdrains : drains txfifo_cnt polls).

Abbreviation dispatch := (syscall_dispatch weak_fails fuel interrupt sleeps call txfifo_cnt polls
  user_data __FILE__).
Abbreviation handler := (common_syscall_handler weak_fails fuel interrupt sleeps call txfifo_cnt
  polls user_data __FILE__).

(** The handler is its dispatch, around which it sets the result. *)
Lemma handler_dispatch n m m' e :
  ar (frame (kern m)) !! SYSCALL_NUM = Some n ->
  dispatch n (Machine (returning 0 (kern m)) (console m)) = Ok e m' ->
  handler m = (if IS_ERROR e then zoom (put_ar SYSCALL_RET (u32 (- err_code e))) else mret tt) m'.
Proof using.
  intros Hn E. unfold common_syscall_handler.
  mrun zoom_ok. { by apply get_ar_ok. }
  mrun zoom_ok. { by eapply put_ret_ok. }
  mrun E. done.
Qed.

Lemma handler_stop n w m m' :
  ar (frame (kern m)) !! SYSCALL_NUM = Some n ->
  dispatch n (Machine (returning 0 (kern m)) (console m)) = Stop w m' -> handler m = Stop w m'.
Proof using.
  intros Hn E. unfold common_syscall_handler.
  mrun zoom_ok. { by apply get_ar_ok. }
  mrun zoom_ok. { by eapply put_ret_ok. }
  by apply bind_stop.
Qed.

Lemma handler_inv n m m' :
  ar (frame (kern m)) !! SYSCALL_NUM = Some n -> handler m = Ok tt m' ->
  exists e m2, dispatch n (Machine (returning 0 (kern m)) (console m)) = Ok e m2 /\
    (if IS_ERROR e then zoom (put_ar SYSCALL_RET (u32 (- err_code e))) else mret tt) m2 = Ok tt m'.
Proof using Type.
  intros Hn E. destruct (dispatch n (Machine (returning 0 (kern m)) (console m))) as [e m2|w m2] eqn:Ed.
  - exists e, m2. split; [done|]. by rewrite <- (handler_dispatch n m m2 e Hn Ed).
  - exfalso. unfold common_syscall_handler in E.
    rewrite (bind_ok _ _ n m m) in E by (rewrite (zoom_ok _ m n (kern m)); [by destruct m|by apply get_ar_ok]).
    rewrite (bind_ok _ _ tt m (Machine (returning 0 (kern m)) (console m))) in E
      by (rewrite (zoom_ok _ m tt (returning 0 (kern m))); [done|by eapply put_ret_ok]).
    by rewrite (bind_stop _ _ _ _ _ Ed) in E.
Qed.

(** The two system calls of the scheduler that come back. *)
Lemma handler_yield m l l' c p :
  sched_wf (kern m) l None -> current_task (kern m) = Some c ->
  ar (frame (kern m)) !! SYSCALL_NUM = Some SYSCALL_SCHED_YIELD -> l ++ [c] = p :: l' ->
  exists s', handler m = Ok tt (Machine s' (console m)) /\ sched_wf s' l' None /\
    handed_over c p TASK_STATUS_RUNNABLE (returning 0 (kern m)) s' /\
    park_callback s' = park_callback (kern m).
Proof using Hends.
  clear Hdrains. intros Hwf Hc Hn Hl. set (s0 := returning 0 (kern m)).
  assert (sched_wf s0 l None) as Hwf0 by (by apply put_frame_wf).
  destruct (on_schedule_ok weak_fails fuel interrupt sleeps Hends s0 l l' c p Hwf0 Hc Hl)
    as (s' & E & Hwf' & Hho & Hcb).
  exists s'. split; [|done].
  rewrite (handler_dispatch _ m (Machine s' (console m)) NO_ERROR Hn); [done|].
  unfold syscall_dispatch. cbn [Z.eqb Pos.eqb SYSCALL_SCHED_YIELD SYSCALL_SCHED_PARK].
  mrun (zoom_ok (H := machine_kernel)). { exact E. } done.
Qed.

Lemma handler_park m l' c p :
  sched_wf (kern m) (p :: l') None -> current_task (kern m) = Some c ->
  ar (frame (kern m)) !! SYSCALL_NUM = Some SYSCALL_SCHED_PARK -> park_callback (kern m) = None ->
  exists s', handler m = Ok tt (Machine s' (console m)) /\ sched_wf s' l' None /\
    handed_over c p TASK_STATUS_WAITING (returning 0 (kern m)) s' /\ park_callback s' = None.
Proof using Hends.
  clear Hdrains. intros Hwf Hc Hn Hpark. set (s0 := returning 0 (kern m)).
  assert (sched_wf s0 (p :: l') None) as Hwf0 by (by apply put_frame_wf).
  destruct (on_park_ok weak_fails fuel interrupt sleeps call Hends s0 l' c p Hwf0 Hc Hpark)
    as (s' & E & Hwf' & Hho & Hcb).
  exists s'. split; [|done].
  rewrite (handler_dispatch _ m (Machine s' (console m)) NO_ERROR Hn); [done|].
  unfold syscall_dispatch. cbn [Z.eqb Pos.eqb SYSCALL_SCHED_PARK].
  mrun (zoom_ok (H := machine_kernel)). { exact E. } done.
Qed.

(** C18: The yield and park system calls return zero: the caller's registers are kept in its
    context with zero in a2, so that is what it finds when it runs again, and the handler
    leaves with the frame of the task that runs next. The console is not touched. *)
Theorem syscall_scheduling m l c :
  sched_wf (kern m) l None -> current_task (kern m) = Some c ->
  (ar (frame (kern m)) !! SYSCALL_NUM = Some SYSCALL_SCHED_YIELD ->
   exists p l' s', l ++ [c] = p :: l' /\ handler m = Ok tt (Machine s' (console m)) /\
     sched_wf s' l' None /\ handed_over c p TASK_STATUS_RUNNABLE (returning 0 (kern m)) s') /\
  (forall p l', ar (frame (kern m)) !! SYSCALL_NUM = Some SYSCALL_SCHED_PARK ->
   park_callback (kern m) = None -> l = p :: l' ->
   exists s', handler m = Ok tt (Machine s' (console m)) /\
     sched_wf s' l' None /\ handed_over c p TASK_STATUS_WAITING (returning 0 (kern m)) s').
Proof using Hends.
  clear Hdrains. intros Hwf Hc. split.
  - intros Hn. destruct (l ++ [c]) as [|p l'] eqn:Hl; [by destruct l|].
    destruct (handler_yield m l l' c p Hwf Hc Hn Hl) as (s' & E & Hwf' & Hho & _).
    exists p, l', s'. auto.
  - intros p l' Hn Hpark ->.
    destruct (handler_park m l' c p Hwf Hc Hn Hpark) as (s' & E & Hwf' & Hho & _). eauto.
Qed.

(** C34: Resolving a user pointer. It never fails with an error: an address in the user data
    area gives the start of the physical page behind it, so the offset within the page is
    lost; nor does it matter whether the page is mapped, so every unmapped page of a fresh
    address space resolves to physical page 0. Outside of the area the table is read behind
    its end, and without a current task a null pointer is followed. *)
Theorem get_user_ptr_spec m c sp a size :
  memory_wf (kern m) -> spaces (mmu (kern m)) !! c = Some sp ->
  (current_task (kern m) = Some c ->
   (forall i off e, 0 <= i < 16 -> 0 <= off < USER_PAGE_SIZE -> dmmu sp !! Z.to_nat i = Some e ->
      get_user_ptr (DATA_PAGE_ADDR i + off) size m = Ok (NO_ERROR, DATA_PAGE_ADDR (phys e)) m) /\
   (16 <= DATA_PAGE_INDEX a -> get_user_ptr a size m = Stop Fault m)) /\
  (current_task (kern m) = None -> get_user_ptr a size m = Stop Fault m).
Proof using.
  intros Hwf Hsp. split; [intros Hc; split|intros Hc].
  - intros i off e Hi Hoff He. by apply (get_user_ptr_ok c sp).
  - intros Hidx. rewrite get_user_ptr_eq, Hc. cbn [mbind option_bind]. rewrite Hsp.
    assert (0 <= DATA_PAGE_INDEX a < 2 ^ 31) as Hr.
    { unfold DATA_PAGE_INDEX, USER_PAGE_SIZE. pose proof (wrapu_range 32 (a - USER_DATA_BASE)).
      split; [apply Z.div_pos; lia|apply Z.div_lt_upper_bound; lia]. }
    rewrite wraps_small by lia.
    destruct (sw_dmmu sp (mw_space _ (kw_mmu _ Hwf) _ _ Hsp)) as (Hlen & _).
    cbn [mbind option_bind]. by rewrite lookup_ge_None_2 by lia.
  - by rewrite get_user_ptr_eq, Hc.
Qed.

(** What an error or trace line prints, once its text is known. *)
Lemma log_ok mark fmt va k text m :
  render (txt mark ++ fmt ++ [10; 13; 0]) va = Ok k text -> Forall (fun c => c <> 0) text ->
  exists u', zoom (log txfifo_cnt polls mark fmt va) m = Ok tt (Machine (kern m) u') /\
    printed text (console m) u'.
Proof using Hdrains.
  intros Hr Hnz. destruct (printf_prints txfifo_cnt polls _ _ (console m) _ _ Hdrains Hr Hnz)
    as (v & u' & E & Hp).
  exists u'. split; [|done]. destruct m as [s u].
  rewrite (zoom_ok (H := machine_console) _ _ tt u'); [done|]. unfold log. mrun E. done.
Qed.

(** The log system call, on its good path. *)
Lemma handler_log m c t u nm pad i off n e text z rest :
  let s := kern m in
  memory_wf s -> current_task s = Some c -> tasks s !! c = Some t ->
  ucontexts s !! ucontext t = Some u ->
  name u = nm ++ 0 :: pad -> Forall (fun c => c <> 0) nm -> len nm < 64 ->
  ar (frame s) !! SYSCALL_NUM = Some SYSCALL_LOG ->
  ar (frame s) !! SYSCALL_ARG1 = Some (DATA_PAGE_ADDR i + off) ->
  ar (frame s) !! SYSCALL_ARG2 = Some n ->
  0 <= i < 16 -> 0 <= off < USER_PAGE_SIZE -> 0 < n < 2 ^ 31 ->
  (sp ← spaces (mmu s) !! c; dmmu sp !! Z.to_nat i) = Some e -> 0 <= phys e < 16 ->
  user_data (DATA_PAGE_ADDR (phys e)) = text ++ z :: rest -> Forall (fun c => c <> 0) text ->
  len text = n \/ (len text < n /\ z = 0) ->
  exists u', handler m = Ok tt (Machine (returning 0 s) u') /\
    printed (txt "[*] " ++ nm ++ txt ": " ++ text ++ [10; 13]) (console m) u'.
Proof using Hdrains.
  intros s Hwf Hc Ht Hu Hname Hnm Hnml Hnum Ha1 Ha2 Hi Hoff Hn He Hphys Htext Hnz Hlen.
  set (s0 := returning 0 s). set (m0 := Machine s0 (console m)).
  assert (length (ar (frame s)) > 6)%nat as H64 by (by apply lookup_lt_Some in Ha1).
  destruct (kw_ucontext s Hwf c t Ht) as (q & sp & Hsp & Hq & Hat & _).
  rewrite Hsp in He. cbn [mbind option_bind] in He.
  destruct (sw_dmmu sp (mw_space _ (kw_mmu _ Hwf) _ _ Hsp)) as (_ & Hqr & _). apply Hqr in Hq.
  assert (forall k, 0 <= k < 16 -> u32 (DATA_PAGE_ADDR k) <> 0 /\
    u32 (DATA_PAGE_ADDR k + STACK_SIZE) <> 0) as Hnull.
  { intros k Hk. unfold DATA_PAGE_ADDR, USER_PAGE_SIZE, USER_DATA_BASE, STACK_SIZE.
    rewrite (wrapu_small 32 (k * _ + _)), !(wrapu_small 32) by lia. lia. }
  destruct (render_log (ucontext t + STACK_SIZE) (DATA_PAGE_ADDR (phys e)) nm
    (pad ++ regs_bytes (regs u)) text z rest n) as [k Hr]; try done.
  { rewrite Hat. by apply Hnull. }
  { by apply Hnull. }
  destruct (log_ok "[*] " (txt "%.64s: %.*s") _ k _ m0 Hr) as (u' & E & Hp).
  { repeat first [apply Forall_app; split]; try done; by repeat constructor. }
  exists u'. split; [|exact Hp].
  rewrite (handler_dispatch _ m (Machine s0 u') NO_ERROR Hnum); [done|].
  unfold syscall_dispatch. cbn [Z.eqb Pos.eqb SYSCALL_LOG SYSCALL_SCHED_YIELD SYSCALL_SCHED_PARK
    SYSCALL_SCHED_DROP]. fold s0 m0.
  unfold syscall_log.
  mrun (zoom_ok (H := machine_kernel)).
  { apply (get_ar_ok SYSCALL_ARG2 n).
    change (<[SYSCALL_RET := 0]> (ar (frame s)) !! SYSCALL_ARG2 = Some n).
    by rewrite list_lookup_insert_ne. }
  mrun (zoom_ok (H := machine_kernel)).
  { apply (get_ar_ok SYSCALL_ARG1 (DATA_PAGE_ADDR i + off)).
    change (<[SYSCALL_RET := 0]> (ar (frame s)) !! SYSCALL_ARG1 = Some (DATA_PAGE_ADDR i + off)).
    by rewrite list_lookup_insert_ne. }
  mrun (get_user_ptr_ok c sp i off e); [done|done|done|done|done|].
  cbn [IS_ERROR err_code Z.eqb negb].
  mrun (zoom_ok (H := machine_kernel)). { unfold get_current_task, gets. exact (f_equal (fun c => Ok c s0) Hc). }
  mrun.
  mrun (zoom_ok (H := machine_kernel)). { by apply get_task_ok. }
  mrun (zoom_ok (H := machine_kernel)). { by apply get_ucontext_ok. }
  unfold task_name. rewrite Hname, Htext.
  rewrite <- (assoc_L (++)), <- app_comm_cons. mrun E. done.
Qed.

(** C27: The log system call prints one line, the name of the task and the first bytes of the
    page of its string: as many as the length says, or less if there is a zero. Whatever the
    offset of the string in its page, it is the start of the page that is printed. The call
    returns zero and changes nothing else. *)
Theorem syscall_log_spec m c t u nm pad i off n e text z rest :
  let s := kern m in
  memory_wf s -> current_task s = Some c -> tasks s !! c = Some t ->
  ucontexts s !! ucontext t = Some u ->
  name u = nm ++ 0 :: pad -> Forall (fun c => c <> 0) nm -> len nm < 64 ->
  ar (frame s) !! SYSCALL_NUM = Some SYSCALL_LOG ->
  ar (frame s) !! SYSCALL_ARG1 = Some (DATA_PAGE_ADDR i + off) ->
  ar (frame s) !! SYSCALL_ARG2 = Some n ->
  0 <= i < 16 -> 0 <= off < USER_PAGE_SIZE -> 0 < n < 2 ^ 31 ->
  (sp ← spaces (mmu s) !! c; dmmu sp !! Z.to_nat i) = Some e -> 0 <= phys e < 16 ->
  user_data (DATA_PAGE_ADDR (phys e)) = text ++ z :: rest -> Forall (fun c => c <> 0) text ->
  len text = n \/ (len text < n /\ z = 0) ->
  exists u', handler m = Ok tt (Machine (returning 0 s) u') /\
    printed (txt "[*] " ++ nm ++ txt ": " ++ text ++ [10; 13]) (console m) u'.
Proof using Hdrains. exact (handler_log m c t u nm pad i off n e text z rest). Qed.

(** Any other number. *)
Lemma handler_unknown m n :
  ar (frame (kern m)) !! SYSCALL_NUM = Some n ->
  n <> SYSCALL_SCHED_PARK -> n <> SYSCALL_SCHED_YIELD -> n <> SYSCALL_SCHED_DROP -> n <> SYSCALL_LOG ->
  Forall (fun c => c <> 0) __FILE__ -> len __FILE__ < 2 ^ 32 - 1 ->
  exists u', handler m = Ok tt (Machine (returning 0xFFFFFFFC (kern m)) u') /\
    printed ((txt "[-] unknown syscall 0" ++ [10; 13]) ++ check_text __FILE__) (console m) u'.
Proof using Hdrains.
  intros Hnum H1 H2 H3 H4 Hf Hl. set (s := kern m) in *.
  set (m0 := Machine (returning 0 s) (console m)).
  destruct (log_ok "[-] " (txt "unknown syscall %d") [VWord 0] 23
    (txt "[-] unknown syscall 0" ++ [10; 13]) m0) as (u1 & E1 & Hp1); [reflexivity|by repeat constructor|].
  destruct (log_ok "[-] " _ _ _ _ (Machine (returning 0 s) u1) (render_check_failed __FILE__ Hf Hl))
    as (u2 & E2 & Hp2).
  { unfold check_text. repeat first [apply Forall_app; split]; try done; by repeat constructor. }
  exists u2. split; [|by eapply printed_trans].
  rewrite (handler_dispatch n m (Machine (returning 0 s) u2) ERROR_INVALID_SYSCALL Hnum).
  - cbn [IS_ERROR err_code Z.eqb negb]. rewrite (zoom_ok (H := machine_kernel) _ _ tt
      (returning 0xFFFFFFFC (returning 0 s))); [by rewrite returning_twice|].
    apply (put_ret_ok _ 0). by apply (returning_lookup 0 n).
  - fold s. fold m0. unfold syscall_dispatch.
    rewrite !(proj2 (Z.eqb_neq n _)) by done.
    mrun (zoom_ok (H := machine_kernel)). { apply (get_ar_ok 2 0). by apply (returning_lookup 0 n). }
    mrun E1. mrun E2. done.
Qed.

(** Any other number is refused: the call returns the code of the error, negated, and
    changes nothing else but the console, where the number reported is always zero, the
    register it is read from having been cleared already. *)
Theorem syscall_unknown m n :
  ar (frame (kern m)) !! SYSCALL_NUM = Some n ->
  n <> SYSCALL_SCHED_PARK -> n <> SYSCALL_SCHED_YIELD -> n <> SYSCALL_SCHED_DROP -> n <> SYSCALL_LOG ->
  Forall (fun c => c <> 0) __FILE__ -> len __FILE__ < 2 ^ 32 - 1 ->
  exists u', handler m = Ok tt (Machine (returning 0xFFFFFFFC (kern m)) u') /\
    printed ((txt "[-] unknown syscall 0" ++ [10; 13]) ++ check_text __FILE__) (console m) u'.
Proof using Hdrains. exact (handler_unknown m n). Qed.
End Handler.

(** ** Examples *)
Definition ex_fifo : nat -> Z := fun _ => 0.

Lemma ex_drains : drains ex_fifo 1.
Proof. intros i. exists 0%nat. split; [lia|done]. Qed.

(** The first task, running, with a call of the given number and arguments in its frame. *)
Definition ex_calling (num a n : Z) : kernel :=
  put_frame (set_ar ([0; 0; num; n; 0; 0; a] ++ replicate 57 0) zero_regs)
    (put_current (Some 1%positive) ex_one_task).

Lemma ex_calling_wf num a n : memory_wf (ex_calling num a n).
Proof. apply (memory_wf_frame ex_one_task); try done; apply ex_one_task_wf. Qed.

(** Its address space: the page of its context and nothing else. *)
Definition ex_space : mmu_t := set_entry MMU_SPACE_DATA 15 (PAGE_ENTRY 0) mmu_zero.

Lemma syscall_scheduling_witness :
  exists m s', current_task (kern m) = Some 1%positive /\
    common_syscall_handler never_fails 1 no_interrupt 3 no_callback ex_fifo 1 (fun _ => []) [] m =
      Ok tt (Machine s' (console m)) /\ current_task s' = Some 2%positive.
Proof.
  destruct ex_running as (s & Hwf & Hc & _).
  set (m := Machine (put_frame (set_ar (<[2%nat := SYSCALL_SCHED_YIELD]> (replicate 64 0)) zero_regs) s)
    (Uart 0 [] 0)).
  destruct (syscall_scheduling never_fails 1 no_interrupt 3 no_callback ex_fifo 1 (fun _ => []) []
    never_fails_ends m [2%positive] 1%positive (put_frame_wf _ _ _ _ Hwf) Hc) as [H _].
  destruct (H eq_refl) as (p & l' & s' & Hl & E & _ & Hho). injection Hl as <- <-.
  exists m, s'. split; [exact Hc|]. split; [exact E|]. apply Hho.
Defined.

Lemma get_user_ptr_spec_witness :
  get_user_ptr (DATA_PAGE_ADDR 15 + 20) 3 (Machine (ex_calling 0 0 0) (Uart 0 [] 0)) =
    Ok (NO_ERROR, DATA_PAGE_ADDR 0) (Machine (ex_calling 0 0 0) (Uart 0 [] 0)) /\
  get_user_ptr (DATA_PAGE_ADDR 3) 3 (Machine (ex_calling 0 0 0) (Uart 0 [] 0)) =
    Ok (NO_ERROR, DATA_PAGE_ADDR 0) (Machine (ex_calling 0 0 0) (Uart 0 [] 0)).
Proof.
  destruct (get_user_ptr_spec (Machine (ex_calling 0 0 0) (Uart 0 [] 0)) 1
    ex_space 0 3 (ex_calling_wf 0 0 0)
    ltac:(vm_compute; reflexivity)) as [H _].
  destruct (H eq_refl) as [H1 _]. split.
  - apply (H1 15 20 {| phys := 0; type := PAGE_MAPPED |});
      [lia|unfold USER_PAGE_SIZE; lia|vm_compute; reflexivity].
  - apply (H1 3 0 {| phys := 0; type := PAGE_UNMAPPED |});
      [lia|unfold USER_PAGE_SIZE; lia|vm_compute; reflexivity].
Defined.

Lemma syscall_log_spec_witness :
  exists u', common_syscall_handler never_fails 1 no_interrupt 3 no_callback ex_fifo 1
    (fun _ => [104; 105; 33; 7]) [] (Machine (ex_calling SYSCALL_LOG (DATA_PAGE_ADDR 15 + 20) 3) (Uart 0 [] 0)) =
      Ok tt (Machine (returning 0 (ex_calling SYSCALL_LOG (DATA_PAGE_ADDR 15 + 20) 3)) u') /\
    UART0_FIFO u' = txt "[*] init: hi!" ++ [10; 13].
Proof.
  destruct (syscall_log_spec never_fails 1 no_interrupt 3 no_callback ex_fifo 1
    (fun _ => [104; 105; 33; 7]) [] ex_drains
    (Machine (ex_calling SYSCALL_LOG (DATA_PAGE_ADDR 15 + 20) 3) (Uart 0 [] 0)) 1
    (Task 0 TASK_STATUS_WAITING None 0x3FFC0000)
    (fresh_ucontext 0x4009E000 0x40080000 ex_text) ex_text (replicate 59 0) 15 20 3
    {| phys := 0; type := PAGE_MAPPED |} [104; 105; 33] 7 [] (ex_calling_wf _ _ _))
    as (u' & E & Hp); cycle -1.
  { exists u'. split; [exact E|]. exact (proj2 Hp). }
  all: try (vm_compute; reflexivity).
  all: try (split; vm_compute; (reflexivity || discriminate)).
  all: try (left; reflexivity).
  all: by repeat constructor.
Defined.

Lemma syscall_unknown_witness :
  exists u', common_syscall_handler never_fails 1 no_interrupt 3 no_callback ex_fifo 1
    (fun _ => []) (txt "s.c") (Machine (ex_calling 77 0 0) (Uart 0 [] 0)) =
      Ok tt (Machine (returning 0xFFFFFFFC (ex_calling 77 0 0)) u').
Proof.
  destruct (syscall_unknown never_fails 1 no_interrupt 3 no_callback ex_fifo 1
    (fun _ => []) (txt "s.c") ex_drains (Machine (ex_calling 77 0 0) (Uart 0 [] 0)) 77)
    as (u' & E & _); cycle -1.
  { exists u'. exact E. }
  all: first [vm_compute; reflexivity | discriminate | by repeat constructor].
Defined.
