(* ===== verification/Interrupts.v ===== *)
(** * Interrupts and exceptions (kernel/src/arch/interrupts.c, and the printing of
      task_regs_dump in task/task.c and of dport_log_interrupt in drivers/dport.c)

    The C halves of the vectors: the interrupt handler, which preempts or logs, and the
    exception handler, which reports and stops the machine. *)
From Stdlib Require Import ZArith Lia Ascii String.
From stdpp Require Import base tactics numbers list gmap.
From S2P Require Import Prelude Umem Mmu Dport Timg Printf PrintfSpec Console Task Scheduler.
From S2P Require Import Syscall.

(** ** Exception causes: the names, by number *)
Definition m_cause_str : list (option string) :=
  [Some "IllegalInstructionCause"; Some "SyscallCause"; Some "InstructionFetchErrorCause";
   Some "LoadStoreErrorCause"; Some "Level1InterruptCause"; Some "AllocaCause";
   Some "IntegerDivideByZero"; None; Some "PrivilegedCause"; Some "LoadStoreAlignmentCause"; None;
   None; Some "InstrPIFDataErrorCause"; Some "LoadStorePIFDataErrorCause";
   Some "InstrPIFAddrErrorCause"; Some "LoadStorePIFAddrErrorCause"; Some "InstTLBMissCause";
   Some "InstTLBMultiHitCause"; Some "InstFetchPrivilegeCause"; None;
   Some "InstFetchProhibitedCause"; None; None; None; Some "LoadStoreTLBMissCause";
   Some "LoadStoreTLBMultiHitCause"; Some "LoadStorePrivilegeCause"; None;
   Some "LoadProhibitedCause"; Some "StoreProhibitedCause"; None; None;
   Some "Coprocessor0Disabled"; Some "Coprocessor1Disabled"; Some "Coprocessor2Disabled";
   Some "Coprocessor3Disabled"; Some "Coprocessor4Disabled"; Some "Coprocessor5Disabled";
   Some "Coprocessor6Disabled"; Some "Coprocessor7Disabled"]%string.

Definition SyscallCause : Z := 1.
Definition Level1InterruptCause : Z := 4.

(** The routine that takes over on each cause. *)
Inductive entry : Set := common_exception_entry | common_interrupt_entry | syscall_entry.
Definition g_fast_interrupts : list entry :=
  <[Z.to_nat Level1InterruptCause := common_interrupt_entry]>
    (<[Z.to_nat SyscallCause := syscall_entry]> (replicate 64 common_exception_entry)).

(** The causes whose report shows the faulting address. *)
Definition shows_vaddr (cause : Z) : bool :=
  bool_decide (cause ∈ [2; 3; 9; 12; 13; 14; 15; 16; 17; 18; 20; 24; 25; 26; 28; 29]).

(** The registers shown by name. *)
Definition m_reg_offsets : list (string * (task_regs -> Z)) :=
  [("LBEG", lbeg); ("LEND", lend); ("LCOUNT", lcount); ("SAR", sar); ("WINDOWBASE", windowbase);
   ("WINDOWSTART", windowstart); ("PS", ps)]%string.

(** ** Opcodes: the fields of [xtensa_opcode_t], from the three bytes of an instruction *)
Definition opcode_op0 (b0 : Z) : Z := b0 .& 15.
Definition opcode_t (b0 : Z) : Z := b0 .>> 4.
Definition opcode_s (b1 : Z) : Z := b1 .& 15.
Definition opcode_r (b1 : Z) : Z := b1 .>> 4.
Definition opcode_value (b0 b1 b2 : Z) : Z := b0 .| b1 .<< 8 .| b2 .<< 16.

Section Interrupts.
Context (weak_fails : nat -> bool) (fuel : nat) (interrupt : nat -> M kernel unit) (sleeps : nat).
Context (txfifo_cnt : nat -> Z) (polls : nat).

Abbreviation print := (print txfifo_cnt polls).
Abbreviation TRACE := (TRACE txfifo_cnt polls).
Abbreviation ERROR := (ERROR txfifo_cnt polls).
Abbreviation WARN := (WARN txfifo_cnt polls).

(** ** Interrupts *)

(** [status] is what DPORT_PRO_INTR_STATUS reads. *)
Definition dport_log_pending (status : list Z) : M uart unit :=
  TRACE (txt "Interrupts:") [];;
  l ← deref (dport_log_interrupt status);
  mfor l (fun i => WARN (9 :: txt "Got interrupt: #%d") [VWord i]).

Definition common_interrupt_handler (status : list Z) : M machine unit :=
  h ← zoom (T := kernel) (zoom wdt_handle);
  if (h : bool) then zoom (scheduler_on_schedule weak_fails fuel interrupt sleeps)
  else zoom (dport_log_pending status).

(** ** The opcode at the fault; [memory] is what the memory holds from an address on *)
Definition read_opcode (memory : Z -> list Z) (ptr : Z) : M uart (Z * Z * Z) :=
  match memory ptr with
  | b0 :: b1 :: b2 :: _ => mret (b0, b1, b2)
  | _ => stop_with Fault
  end.

(** One round, and what it makes of [len]: an overflow of [len] is undefined. *)
Definition print_opcode (memory : Z -> list Z) (ptr len : Z) : M uart Z :=
  '(b0, b1, b2) ← read_opcode memory ptr;
  print (txt "[-] %08x: ") [VWord ptr];;
  len ← (if (opcode_op0 b0 =? 2) && (opcode_r b1 =? 2) then
           print (txt "L32I a%d, a%d, %u") [VWord (opcode_t b0); VWord (opcode_s b1); VWord b2];;
           if len + 3 <? 2 ^ 31 then mret (len + 3) else stop_with Fault
         else
           print (txt "Invalid opcode %08x") [VWord (opcode_value b0 b1 b2)];;
           mret (len - 3));
  print [10; 13] [];;
  mret len.

Definition print_opcodes (rounds : nat) (memory : Z -> list Z) (ptr len : Z) : M uart unit :=
  _ ← mwhile rounds (fun len => mret (0 <? len)) (print_opcode memory ptr) len; mret tt.

(** ** The registers *)
Definition print_special (r : task_regs) : M uart unit :=
  mfor (seqZ 0 2) (fun i =>
    print (txt "[*] ") [];;
    mfor (seqZ 0 4) (fun j =>
      match m_reg_offsets !! Z.to_nat (i * 4 + j) with
      | Some (nm, f) => print (txt "%12s=%08x ") [literal (txt nm); VWord (f r)]
      | None => mret tt
      end);;
    print [10; 13] []).

Definition print_window (r : task_regs) : M uart unit :=
  mfor (seqZ 0 4) (fun i =>
    print (txt "[*] ") [];;
    mfor (seqZ 0 4) (fun j =>
      v ← deref (ar r !! Z.to_nat (i * 4 + j));
      print (txt " A%02d=%08x") [VWord (i * 4 + j); VWord v]);;
    print [10; 13] []).

Definition print_physical (r : task_regs) : M uart unit :=
  mfor (seqZ 0 16) (fun i =>
    print (txt "[*] ") [];;
    mfor (seqZ 0 4) (fun j =>
      '(v, marks) ← deref (dump_register r (i * 4 + j));
      print (txt "AR%02d=%08x ") [VWord (i * 4 + j); VWord v];;
      match marks with
      | Some (ws, cw) =>
          print (txt "%c%c" ++ [10; 13])
            [VWord (if (ws : bool) then 60 else 32); VWord (if (cw : bool) then 61 else 32)]
      | None => mret tt
      end)).

Definition print_task_regs (r : task_regs) : M uart unit :=
  TRACE (txt "PC=%08x") [VWord (pc r)];;
  TRACE [] [];;
  print_special r;;
  TRACE [] [];;
  print_window r;;
  TRACE [] [];;
  print_physical r.

(** ** Exceptions: the handler never returns *)
Definition print_cause (cause : Z) : M uart unit :=
  match (if cause <? 0 then None else m_cause_str !! Z.to_nat cause) with
  | Some (Some s) => print (txt "%s (%d)") [literal (txt s); VWord cause]
  | _ => print (txt "%d") [VWord cause]
  end.

Definition common_exception_handler (rounds : nat) (memory : Z -> list Z) (EXCCAUSE EXCVADDR : Z)
    : M machine unit :=
  let cause := s32 EXCCAUSE in
  zoom (T := kernel) (zoom wdt_disable);;
  zoom (print (txt "[-] got exception ") []);;
  zoom (print_cause cause);;
  when (shows_vaddr cause)
    (zoom (print (txt " EXCVADDR=%08x") [VWord EXCVADDR]);; zoom (print [10; 13] []));;
  zoom (print [10; 13] []);;
  r ← gets (fun m => frame (kern m));
  zoom (print_opcodes rounds memory (pc r) 16);;
  zoom (ERROR [] []);;
  r ← gets (fun m => frame (kern m));
  zoom (print_task_regs r);;
  stop_with Spin.
End Interrupts.
