(* ===== verification/Layout.v ===== *)
(** * What the entry points of the kernel leave alone

    [keeps f m]: whatever the outcome, the routine [m] does not change what [f] sees of the
    state. The rules follow the shape of the routine; they are in the
    hint database [keeps]. With them: where the user contexts are, the stacks and names in
    them and the allocation of pages ([layout]) outlive every entry into the kernel, and the
    system calls that do not schedule change nothing but the frame and the console. *)
From Stdlib Require Import ZArith Lia Ascii String.
From stdpp Require Import base tactics numbers list gmap.
From S2P Require Import Prelude Umem Mmu Timg Printf Console Task TaskSpec Scheduler SchedSpec.
From S2P Require Import Syscall Interrupts.

(** ** The judgement *)
Definition keeps {S V A} (f : S -> V) (m : M S A) : Prop :=
  forall s, f (outcome_state (m s)) = f s.

Create HintDb keeps discriminated.
#[export] Hint Constants Opaque : keeps.
#[export] Hint Variables Opaque : keeps.

Section Rules.
Context {S V : Type} (f : S -> V).

Lemma keeps_ret {A} (a : A) : keeps f (mret a).
Proof using. done. Qed.
Lemma keeps_stop {A} w : keeps f (stop_with (A := A) w).
Proof using. done. Qed.
Lemma keeps_get : keeps f get.
Proof using. done. Qed.
Lemma keeps_gets {A} (g : S -> A) : keeps f (gets g).
Proof using. done. Qed.
Lemma keeps_assert b : keeps f (ASSERT b).
Proof using. by destruct b. Qed.
Lemma keeps_deref {A} (o : option A) : keeps f (deref o).
Proof using. by destruct o. Qed.

Lemma keeps_modify (g : S -> S) : (forall s, f (g s) = f s) -> keeps f (modify g).
Proof using. intros H s. apply H. Qed.

Lemma keeps_bind {A B} (m : M S A) (k : A -> M S B) :
  keeps f m -> (forall a, keeps f (k a)) -> keeps f (m ≫= k).
Proof using.
  intros Hm Hk s. specialize (Hm s). unfold mbind, M_bind.
  destruct (m s) as [a s'|w s']; simpl in *; [by rewrite Hk|done].
Qed.

Lemma keeps_when b (m : M S unit) : keeps f m -> keeps f (when b m).
Proof using. by destruct b. Qed.
Lemma keeps_if {A} (b : bool) (m1 m2 : M S A) : keeps f m1 -> keeps f m2 -> keeps f (if b then m1 else m2).
Proof using. by destruct b. Qed.

Lemma keeps_mfor {A} (l : list A) body : (forall x, keeps f (body x)) -> keeps f (mfor l body).
Proof using. intros Hb. induction l as [|x l IH]; [done|]. by apply keeps_bind. Qed.

Lemma keeps_mwhile {A} fuel (cond : A -> M S bool) body a :
  (forall a, keeps f (cond a)) -> (forall a, keeps f (body a)) -> keeps f (mwhile fuel cond body a).
Proof using.
  intros Hc Hb. revert a. induction fuel as [|fuel IH]; intros a; [done|]. simpl.
  apply keeps_bind; [done|]. intros []; [|done]. by apply keeps_bind.
Qed.

(** A component that [f] does not look at. *)
Lemma keeps_zoom_other {T A} `{Lens S T} (m : M T A) :
  (forall t s, f (update t s) = f s) -> keeps f (zoom m).
Proof using. intros Hf s. unfold zoom. by destruct (m (view s)); simpl. Qed.

(** A component of which the routine keeps what [f] sees. *)
Lemma keeps_zoom {T W A} `{Lens S T} (g : T -> W) (m : M T A) :
  (forall t s, g t = g (view s) -> f (update t s) = f s) -> keeps g m -> keeps f (zoom m).
Proof using.
  intros Hf Hm s. specialize (Hm (view s)). unfold zoom. by destruct (m (view s)); simpl in *; apply Hf.
Qed.
End Rules.

#[export] Hint Resolve keeps_ret keeps_stop keeps_get keeps_gets keeps_assert keeps_deref : keeps.

Ltac keeps_step :=
  first
    [ solve [eauto 3 with keeps nocore]
    | lazymatch goal with
      | |- keeps _ (_ ≫= _) => apply keeps_bind; [|intros ?]
      | |- keeps _ (modify _) => apply keeps_modify; first [reflexivity | intros ?]
      | |- keeps _ (when _ _) => apply keeps_when
      | |- keeps _ (if _ then _ else _) => apply keeps_if
      | |- keeps _ (mfor _ _) => apply keeps_mfor; intros ?
      | |- keeps _ (mwhile _ _ _ _) => apply keeps_mwhile; intros ?
      | |- keeps _ (match ?x with _ => _ end) => destruct x
      | |- keeps _ (let _ := _ in _) => cbv zeta
      end ].
Ltac keeps := repeat keeps_step.
Tactic Notation "keeps" "in" reference(r) := unfold r; keeps.

(** ** The layout of the user contexts *)
Definition layout (k : kernel) : gmap loc Z * gmap Z (list Z * list Z) * umem :=
  (ucontext <$> tasks k, (fun u => (stack u, name u)) <$> ucontexts k, pages k).

Abbreviation keeps_layout := (keeps layout).

Lemma fmap_insert_same {K} `{Countable K} {A B} (g : A -> B) (m : gmap K A) i x y :
  m !! i = Some x -> g y = g x -> g <$> <[i := y]> m = g <$> m.
Proof. intros Hi Hg. rewrite fmap_insert, Hg. by apply insert_id; rewrite lookup_fmap, Hi. Qed.

Lemma upd_task_layout p g : (forall t, ucontext (g t) = ucontext t) -> keeps_layout (upd_task p g).
Proof.
  intros Hg k. unfold upd_task, get_task. unfold_monad. destruct (tasks k !! p) as [t|] eqn:Ht; [|done].
  unfold layout. cbn. by rewrite (fmap_insert_same _ _ _ t).
Qed.

Lemma upd_regs_layout a r : keeps_layout (upd_ucontext a (set_regs r)).
Proof.
  intros k. unfold upd_ucontext, get_ucontext. unfold_monad. destruct (ucontexts k !! a) as [u|] eqn:Hu; [|done].
  unfold layout. cbn. by rewrite (fmap_insert_same _ _ _ u).
Qed.

Lemma upd_link_layout p o : keeps_layout (upd_task p (set_link o)).
Proof. by apply upd_task_layout. Qed.
Lemma upd_status_layout p v : keeps_layout (upd_task p (set_status v)).
Proof. by apply upd_task_layout. Qed.
Lemma get_task_layout p : keeps_layout (get_task p).
Proof. keeps in get_task. Qed.
Lemma get_ucontext_layout p : keeps_layout (get_ucontext p).
Proof. keeps in get_ucontext. Qed.
Lemma zoom_mmu_layout {A} (m : M mmu_state A) : keeps_layout (zoom m).
Proof. by apply keeps_zoom_other. Qed.
Lemma zoom_wdt_layout {A} (m : M timg A) : keeps_layout (zoom m).
Proof. by apply keeps_zoom_other. Qed.
#[export] Hint Resolve upd_link_layout upd_status_layout upd_regs_layout get_task_layout
  get_ucontext_layout zoom_mmu_layout zoom_wdt_layout : keeps.

Lemma get_task_status_layout p : keeps_layout (get_task_status p).
Proof. keeps in get_task_status. Qed.
#[export] Hint Resolve get_task_status_layout : keeps.

Lemma cas_task_state_layout weak_fails fuel p old new : keeps_layout (cas_task_state weak_fails fuel p old new).
Proof.
  unfold cas_task_state. keeps. generalize 0%nat. induction fuel as [|fuel IH]; intros i; [done|].
  cbn [cas_loop]. unfold poll_status. keeps.
Qed.
#[export] Hint Resolve cas_task_state_layout : keeps.

Lemma set_queue_layout q : keeps_layout (set_queue q).
Proof. keeps in set_queue. Qed.
Lemma get_queue_layout : keeps_layout get_queue.
Proof. keeps in get_queue. Qed.
#[export] Hint Resolve set_queue_layout get_queue_layout : keeps.

Lemma task_queue_push_back_layout p : keeps_layout (task_queue_push_back p).
Proof. keeps in task_queue_push_back. Qed.
Lemma task_queue_pop_layout : keeps_layout task_queue_pop.
Proof. keeps in task_queue_pop. Qed.
#[export] Hint Resolve task_queue_push_back_layout task_queue_pop_layout : keeps.

Lemma global_run_queue_put_layout p : keeps_layout (global_run_queue_put p).
Proof. keeps in global_run_queue_put. Qed.
Lemma global_run_queue_get_layout : keeps_layout global_run_queue_get.
Proof. keeps in global_run_queue_get. Qed.
Lemma save_task_context_layout p : keeps_layout (save_task_context p).
Proof. keeps in save_task_context. Qed.
Lemma restore_task_context_layout p : keeps_layout (restore_task_context p).
Proof. keeps in restore_task_context. Qed.
#[export] Hint Resolve global_run_queue_put_layout global_run_queue_get_layout
  save_task_context_layout restore_task_context_layout : keeps.

Section Scheduler.
Context (weak_fails : nat -> bool) (fuel : nat) (interrupt : nat -> M kernel unit) (sleeps : nat)
  (call : Z -> Z -> M kernel unit).
Hypothesis (Hinterrupt : forall i, keeps_layout (interrupt i)) (Hcall : forall f x, keeps_layout (call f x)).

Lemma ready_task_layout p : keeps_layout (scheduler_ready_task weak_fails fuel p).
Proof using Type.
  unfold scheduler_ready_task, scheduler_preempt_disable, scheduler_preempt_enable. keeps.
Qed.

Lemma save_current_task_layout park : keeps_layout (save_current_task weak_fails fuel park).
Proof using Type. keeps in save_current_task. Qed.

Lemma execute_layout p : keeps_layout (execute weak_fails fuel p).
Proof using Type.
  unfold execute, scheduler_set_deadline. keeps.
Qed.

Lemma schedule_layout : keeps_layout (schedule weak_fails fuel interrupt sleeps).
Proof using Hinterrupt.
  apply keeps_bind; [|apply execute_layout]. unfold find_runnable. generalize 0%nat.
  induction sleeps as [|n IH]; intros i; cbn [find_runnable_loop]; keeps.
Qed.

Lemma on_schedule_layout : keeps_layout (scheduler_on_schedule weak_fails fuel interrupt sleeps).
Proof using Hinterrupt.
  apply keeps_bind; [apply save_current_task_layout|intros ?; apply schedule_layout].
Qed.

Lemma on_park_layout : keeps_layout (scheduler_on_park weak_fails fuel interrupt sleeps call).
Proof using Hinterrupt Hcall.
  unfold scheduler_on_park, scheduler_cancel_deadline.
  apply keeps_bind; [apply save_current_task_layout|intros ?]. keeps.
  all: apply schedule_layout.
Qed.

(** The first task of all is started without a sleep, so interrupts do not matter. *)
Lemma on_drop_start_layout s l p :
  cas_ends weak_fails fuel -> sched_wf s (p :: l) None -> current_task s = None ->
  layout (outcome_state (scheduler_on_drop weak_fails fuel interrupt sleeps s)) = layout s.
Proof using Type.
  intros Hends Hwf Hc. destruct (wdt_disable_off (wdt s)) as (w & Ew & _).
  assert (put_current None s = s) as Hcur by (destruct s; cbn in *; by rewrite Hc).
  destruct (run_queue_get_ok p l (put_wdt w s) ltac:(by apply put_wdt_wf)) as (s1 & Eg & _).
  pose proof (global_run_queue_get_layout (put_wdt w s)) as Hl. rewrite Eg in Hl.
  assert (scheduler_on_drop weak_fails fuel interrupt sleeps s = execute weak_fails fuel p s1) as ->.
  { unfold scheduler_on_drop. rewrite (bind_ok _ _ None s s) by (unfold gets; by rewrite Hc).
    mrun. mrun. mrun (zoom_ok (H := kernel_wdt)). { rewrite Hcur. exact Ew. }
    unfold schedule, find_runnable. mfirst.
    { cbn [update kernel_wdt]. rewrite Hcur. destruct sleeps; cbn [find_runnable_loop]; mrun Eg; reflexivity. }
    done. }
  rewrite execute_layout. exact Hl.
Qed.

Lemma on_drop_layout : keeps_layout (scheduler_on_drop weak_fails fuel interrupt sleeps).
Proof using Hinterrupt.
  unfold scheduler_on_drop, scheduler_cancel_deadline, release_task. keeps.
  all: apply schedule_layout.
Qed.
End Scheduler.

(** ** On the machine *)
Abbreviation keeps_kern := (keeps kern).

Lemma console_keeps_kern {A} (m : M uart A) : keeps_kern (zoom m).
Proof. by apply keeps_zoom_other. Qed.

Lemma kernel_keeps_kern {A} (m : M kernel A) : keeps id m -> keeps_kern (zoom m).
Proof. apply keeps_zoom. intros t s E. exact E. Qed.

Lemma get_ar_keeps i : keeps id (get_ar i).
Proof. keeps in get_ar. Qed.
Lemma get_task_keeps p : keeps id (get_task p).
Proof. keeps in get_task. Qed.
Lemma get_ucontext_keeps a : keeps id (get_ucontext a).
Proof. keeps in get_ucontext. Qed.
Lemma get_current_task_keeps : keeps id get_current_task.
Proof. keeps in get_current_task. Qed.
#[export] Hint Resolve console_keeps_kern kernel_keeps_kern get_ar_keeps get_task_keeps
  get_ucontext_keeps get_current_task_keeps : keeps.

Section Handlers.
Context (weak_fails : nat -> bool) (fuel : nat) (interrupt : nat -> M kernel unit) (sleeps : nat)
  (call : Z -> Z -> M kernel unit).
Context (txfifo_cnt : nat -> Z) (polls : nat) (user_data : Z -> list Z) (__FILE__ : list Z).
Hypothesis (Hinterrupt : forall i, keeps_layout (interrupt i)) (Hcall : forall f x, keeps_layout (call f x)).

Abbreviation dispatch := (syscall_dispatch weak_fails fuel interrupt sleeps call txfifo_cnt polls
  user_data __FILE__).
Abbreviation handler := (common_syscall_handler weak_fails fuel interrupt sleeps call txfifo_cnt
  polls user_data __FILE__).

(** A call that does not schedule changes nothing of the kernel. *)
Lemma dispatch_keeps_kern n :
  n <> SYSCALL_SCHED_PARK -> n <> SYSCALL_SCHED_YIELD -> n <> SYSCALL_SCHED_DROP -> keeps_kern (dispatch n).
Proof using Type.
  intros H1 H2 H3. unfold syscall_dispatch. rewrite !(proj2 (Z.eqb_neq _ _)) by done.
  unfold syscall_log, get_user_ptr. keeps.
Qed.

Lemma kernel_layout {A} (m : M kernel A) : keeps_layout m -> keeps (fun m => layout (kern m)) (zoom m).
Proof using Type. apply keeps_zoom. by intros t s E. Qed.

Lemma kern_layout {A} (m : M machine A) : keeps_kern m -> keeps (fun m => layout (kern m)) m.
Proof using Type. intros Hm s. by rewrite Hm. Qed.

Lemma put_ar_layout i v : keeps_layout (put_ar i v).
Proof using Type. unfold put_ar, get_ar. keeps. Qed.

Lemma syscall_layout : keeps (fun m => layout (kern m)) handler.
Proof using Hinterrupt Hcall.
  unfold common_syscall_handler. apply keeps_bind; [apply kern_layout; keeps|intros n].
  apply keeps_bind; [apply kernel_layout, put_ar_layout|intros ?].
  apply keeps_bind; [|intros e; keeps; apply kernel_layout, put_ar_layout].
  destruct (decide (n = SYSCALL_SCHED_PARK)) as [->|H1].
  { apply keeps_bind; [by apply kernel_layout, on_park_layout|done]. }
  destruct (decide (n = SYSCALL_SCHED_YIELD)) as [->|H2].
  { apply keeps_bind; [by apply kernel_layout, on_schedule_layout|done]. }
  destruct (decide (n = SYSCALL_SCHED_DROP)) as [->|H3].
  { apply keeps_bind; [by apply kernel_layout, on_drop_layout|done]. }
  by apply kern_layout, dispatch_keeps_kern.
Qed.

Lemma interrupt_layout status :
  keeps (fun m => layout (kern m))
    (common_interrupt_handler weak_fails fuel interrupt sleeps txfifo_cnt polls status).
Proof using Hinterrupt.
  unfold common_interrupt_handler. apply keeps_bind; [apply kernel_layout; keeps|intros []].
  - by apply kernel_layout, on_schedule_layout.
  - apply kern_layout. keeps.
Qed.
End Handlers.

(** ** The context of a task *)

(** Stack and name of a task are those of the layout. *)
Lemma layout_task k k' p :
  layout k' = layout k ->
  ucontext <$> tasks k' !! p = ucontext <$> tasks k !! p /\
  (fun u => (stack u, name u)) <$> task_context k' p = (fun u => (stack u, name u)) <$> task_context k p.
Proof.
  intros [= Ht Hu _]. assert (ucontext <$> tasks k' !! p = ucontext <$> tasks k !! p) as E
    by (rewrite <- !lookup_fmap; by rewrite Ht).
  split; [done|]. unfold task_context.
  destruct (tasks k' !! p) as [t'|], (tasks k !! p) as [t|]; try done. injection E as E. cbn.
  rewrite E, <- !lookup_fmap. by rewrite Hu.
Qed.

Lemma layout_context k k' p :
  layout k' = layout k -> saved_regs k' p = saved_regs k p -> task_context k' p = task_context k p.
Proof.
  intros Hl Hr. rewrite !saved_regs_context in Hr. destruct (layout_task k k' p Hl) as [_ E].
  destruct (task_context k' p) as [[]|], (task_context k p) as [[]|]; try done.
  cbn in *. by injection Hr as ->; injection E as -> ->.
Qed.

(** Every user context belongs to a task. *)
Definition contexts_owned (k : kernel) : Prop :=
  forall a, is_Some (ucontexts k !! a) -> exists p t, tasks k !! p = Some t /\ ucontext t = a.

Lemma contexts_owned_layout k k' : layout k' = layout k -> contexts_owned k -> contexts_owned k'.
Proof.
  intros Hl Hk a Ha. destruct (Hk a) as (p & t & Ht & E).
  { injection Hl as _ Hu _. apply (fmap_is_Some (fun u => (stack u, name u))).
    rewrite <- lookup_fmap, <- Hu, lookup_fmap. by apply fmap_is_Some. }
  destruct (layout_task k k' p Hl) as [Et _]. rewrite Ht in Et.
  destruct (tasks k' !! p) as [t'|] eqn:Ht'; [|done]. injection Et as Et. exists p, t'. by rewrite Et.
Qed.
