(* ===== verification/InterruptsSpec.v ===== *)
(** * What the interrupt and exception handlers promise *)
From Stdlib Require Import ZArith Lia Ascii String.
From stdpp Require Import base tactics numbers list gmap.
From S2P Require Import Prelude Umem Mmu Dport Timg Printf PrintfSpec Text Console Task TaskSpec.
From S2P Require Import Scheduler SchedSpec SchedThm Syscall SyscallSpec Interrupts Layout.

Section Texts.
Context (txfifo_cnt : nat -> Z) (polls : nat).
Hypothesis (Hdrains : drains txfifo_cnt polls).

(** ** Pending interrupts *)

(** Whether a source is pending in the three status words. *)
Definition pending (status : list Z) (i : Z) : bool :=
  default false ((fun w => Z.testbit w (i mod 32)) <$> status !! Z.to_nat (i / 32)).

Lemma log_sources status :
  length status = 3%nat ->
  dport_log_interrupt status = Some (filter (fun i => pending status i = true) (seqZ 0 INTERRUPT_SOURCE_MAX)).
Proof using.
  intros Hl. unfold dport_log_interrupt.
  assert (Forall (fun i => 0 <= i < 96) (seqZ 0 INTERRUPT_SOURCE_MAX)) as Hr.
  { apply Forall_forall. intros i Hi%elem_of_seqZ. unfold INTERRUPT_SOURCE_MAX in Hi. lia. }
  induction Hr as [|i l Hi Hr IH]; [done|]. cbn [foldr].
  assert (0 <= i / 32 < 3) by (split; [apply Z.div_pos|apply Z.div_lt_upper_bound]; lia).
  destruct (lookup_lt_is_Some_2 status (Z.to_nat (i / 32))) as [w Hw]; [lia|].
  rewrite IH. cbn [mbind option_bind]. rewrite Hw. cbn [mbind option_bind].
  assert (pending status i = negb (w .& (1 .<< (i mod 32)) =? 0)) as <-.
  { unfold pending. rewrite Hw. cbn. rewrite <- has_testbit by (apply Z.mod_pos_bound; lia). done. }
  destruct (pending status i) eqn:E.
  - by rewrite filter_cons_True.
  - rewrite filter_cons_False by (by rewrite E). done.
Qed.

Definition dec (i : Z) : list Z := if i <? 10 then [48 + i] else [48 + i / 10; 48 + i mod 10].
Definition pending_line (i : Z) : list Z :=
  txt "[!] " ++ 9 :: txt "Got interrupt: #" ++ dec i ++ [10; 13].

Lemma render_pending i :
  0 <= i < INTERRUPT_SOURCE_MAX ->
  render (txt "[!] " ++ (9 :: txt "Got interrupt: #%d") ++ [10; 13; 0]) [VWord i] =
    Ok (len (pending_line i)) (pending_line i) /\ Forall (fun c => c <> 0) (pending_line i).
Proof using.
  intros Hi. assert (i ∈ seqZ 0 69) as H by (by apply elem_of_seqZ). clear Hi. revert i H.
  apply Forall_forall. let l := eval vm_compute in (seqZ 0 69) in change (seqZ 0 69) with l.
  repeat (constructor; [split; [vm_compute; reflexivity|apply (bool_decide_unpack _); vm_compute; exact I]|]).
  constructor.
Qed.

Lemma prints_pending status :
  length status = 3%nat ->
  prints (dport_log_pending txfifo_cnt polls status)
    ((txt "[*] Interrupts:" ++ [10; 13]) ++ concat (pending_line <$>
      filter (fun i => pending status i = true) (seqZ 0 INTERRUPT_SOURCE_MAX))).
Proof using Hdrains.
  intros Hl. unfold dport_log_pending. apply prints_bind.
  - eapply prints_log; [exact Hdrains|reflexivity|by repeat constructor].
  - rewrite (log_sources status Hl). intros u. unfold mbind at 1, M_bind, deref, mret, M_ret.
    apply prints_mfor. intros i [_ Hi%elem_of_seqZ]%list_elem_of_filter.
    destruct (render_pending i Hi) as [Hr Hnz]. by eapply prints_log.
Qed.

(** ** The instruction at a fault *)
Definition is_l32i (b0 b1 : Z) : bool := (opcode_op0 b0 =? 2) && (opcode_r b1 =? 2).

(** What a report makes of an instruction. *)
Definition opcode_text (b0 b1 b2 : Z) (text : list Z) : Prop :=
  if is_l32i b0 b1 then exists d1 d2 d3,
    decimal (opcode_t b0) d1 /\ decimal (opcode_s b1) d2 /\ decimal b2 d3 /\
    text = txt "L32I a" ++ d1 ++ txt ", a" ++ d2 ++ txt ", " ++ d3
  else exists ds, hex8 (opcode_value b0 b1 b2) ds /\ text = txt "Invalid opcode " ++ ds.

Lemma opcode_fields b0 b1 b2 :
  0 <= b0 < 256 -> 0 <= b1 < 256 -> 0 <= b2 < 256 ->
  0 <= opcode_t b0 < 16 /\ 0 <= opcode_s b1 < 16 /\ 0 <= opcode_value b0 b1 b2 < 2 ^ 32.
Proof using.
  intros H0 H1 H2. unfold opcode_t, opcode_s, opcode_value. change 15 with (Z.ones 4).
  rewrite Z.shiftr_div_pow2, Z.land_ones by lia. split; [|split].
  - split; [apply Z.div_pos; lia|apply Z.div_lt_upper_bound; lia].
  - apply Z.mod_pos_bound. lia.
  - apply range_of_testbit; [lia|]. intros i Hi. rewrite !Z.lor_spec, !Z.shiftl_spec by lia.
    rewrite (testbit_of_range 8 b0), (testbit_of_range 8 b1), (testbit_of_range 8 b2) by lia. done.
Qed.

Lemma render_l32i t s i va :
  0 <= t < 16 -> 0 <= s < 16 -> 0 <= i < 256 ->
  exists k d1 d2 d3, decimal t d1 /\ decimal s d2 /\ decimal i d3 /\
    render (txt "L32I a%d, a%d, %u" ++ [0]) (VWord t :: VWord s :: VWord i :: va) =
      Ok k (txt "L32I a" ++ d1 ++ txt ", a" ++ d2 ++ txt ", " ++ d3).
Proof using.
  intros Ht Hs Hi.
  destruct (loop_decimal t) as (d1 & H1 & E1); [lia|]. destruct (loop_decimal s) as (d2 & H2 & E2); [lia|].
  destruct (loop_decimal i) as (d3 & H3 & E3); [lia|].
  eexists _, d1, d2, d3. split; [done|]. split; [done|]. split; [done|]. unfold render.
  change (txt "L32I a%d, a%d, %u" ++ [0]) with
    (txt "L32I a" ++ 37 :: 100 :: txt ", a" ++ 37 :: 100 :: txt ", " ++ [37; 117; 0]).
  etransitivity; [apply (loop_literal (txt "L32I a")); [repeat constructor; done|done|vm_compute; lia]|].
  etransitivity; [apply (E1 100 12%nat); by left|].
  etransitivity; [apply (loop_literal (txt ", a")); [repeat constructor; done|done|vm_compute; lia]|].
  etransitivity; [apply (E2 100 8%nat); by left|].
  etransitivity; [apply (loop_literal (txt ", ")); [repeat constructor; done|done|vm_compute; lia]|].
  etransitivity; [apply (E3 117 5%nat); by right|].
  cbn [vsnprintf_loop]. etransitivity; [eapply bind_ok; reflexivity|]. cbn [Z.eqb].
  rewrite app_nil_l, <- !(assoc_L (++)). reflexivity.
Qed.

Lemma render_invalid v va :
  0 <= v < 2 ^ 32 ->
  exists k ds, hex8 v ds /\
    render (txt "Invalid opcode %08x" ++ [0]) (VWord v :: va) = Ok k (txt "Invalid opcode " ++ ds).
Proof using.
  intros Hv. destruct (loop_hex8 v Hv) as (ds & Hds & E). eexists _, ds. split; [done|]. unfold render.
  change (txt "Invalid opcode %08x" ++ [0]) with (txt "Invalid opcode " ++ [37; 48; 56; 120; 0]).
  etransitivity; [apply (loop_literal (txt "Invalid opcode ")); [repeat constructor; done|done|vm_compute; lia]|].
  etransitivity; [apply (E 5%nat)|].
  cbn [vsnprintf_loop]. etransitivity; [eapply bind_ok; reflexivity|]. cbn [Z.eqb].
  rewrite app_nil_l. reflexivity.
Qed.

Lemma render_address v va :
  0 <= v < 2 ^ 32 ->
  exists k ds, hex8 v ds /\
    render (txt "[-] %08x: " ++ [0]) (VWord v :: va) = Ok k (txt "[-] " ++ ds ++ txt ": ").
Proof using.
  intros Hv. destruct (loop_hex8 v Hv) as (ds & Hds & E). eexists _, ds. split; [done|]. unfold render.
  change (txt "[-] %08x: " ++ [0]) with (txt "[-] " ++ 37 :: 48 :: 56 :: 120 :: txt ": " ++ [0]).
  etransitivity; [apply (loop_literal (txt "[-] ")); [repeat constructor; done|done|vm_compute; lia]|].
  etransitivity; [apply (E 7%nat)|].
  etransitivity; [apply (loop_literal (txt ": ") 7 [0]); [repeat constructor; done|done|vm_compute; lia]|].
  cbn [vsnprintf_loop]. etransitivity; [eapply bind_ok; reflexivity|]. cbn [Z.eqb].
  rewrite app_nil_l, <- !(assoc_L (++)). reflexivity.
Qed.

Section Opcodes.
Context (memory : Z -> list Z) (ptr b0 b1 b2 : Z) (rest : list Z).
Hypothesis (Hptr : 0 <= ptr < 2 ^ 32) (Hmem : memory ptr = b0 :: b1 :: b2 :: rest).
Hypothesis (H0 : 0 <= b0 < 256) (H1 : 0 <= b1 < 256) (H2 : 0 <= b2 < 256).

Abbreviation round := (print_opcode txfifo_cnt polls memory ptr).

(** Every round prints the same line: the address of the instruction does not move. *)
Lemma print_opcode_round :
  exists text body, hex8 ptr text /\ opcode_text b0 b1 b2 body /\
    forall len u, (is_l32i b0 b1 = true -> len + 3 < 2 ^ 31) -> exists u',
      round len u = Ok (if is_l32i b0 b1 then len + 3 else len - 3) u' /\
      printed (txt "[-] " ++ text ++ txt ": " ++ body ++ [10; 13]) u u'.
Proof using All.
  destruct (opcode_fields b0 b1 b2 H0 H1 H2) as (Ht & Hs & Hv).
  destruct (render_address ptr [] Hptr) as (ka & text & Hhex & Ra).
  assert (prints (print txfifo_cnt polls (txt "[-] %08x: ") [VWord ptr]) (txt "[-] " ++ text ++ txt ": "))
    as Pa.
  { eapply prints_render; [exact Hdrains|exact Ra|]. repeat (apply Forall_app; split); [by repeat constructor| |
      by repeat constructor]. by eapply hex8_nonzero. }
  assert (prints (print txfifo_cnt polls [10; 13] []) [10; 13]) as Pn
    by (eapply prints_render; [exact Hdrains|reflexivity|by repeat constructor]).
  assert (exists body, opcode_text b0 b1 b2 body /\ prints
    (if is_l32i b0 b1
     then print txfifo_cnt polls (txt "L32I a%d, a%d, %u") [VWord (opcode_t b0); VWord (opcode_s b1); VWord b2]
     else print txfifo_cnt polls (txt "Invalid opcode %08x") [VWord (opcode_value b0 b1 b2)]) body)
    as (body & Hbody & Pb).
  { unfold opcode_text. destruct (is_l32i b0 b1).
    - destruct (render_l32i _ _ b2 [] Ht Hs H2) as (k & d1 & d2 & d3 & D1 & D2 & D3 & R).
      eexists. split; [by exists d1, d2, d3|]. eapply prints_render; [exact Hdrains|exact R|].
      repeat (apply Forall_app; split); try (by eapply decimal_nonzero); by repeat constructor.
    - destruct (render_invalid _ [] Hv) as (k & ds & Hds & R).
      eexists. split; [by exists ds|]. eapply prints_render; [exact Hdrains|exact R|].
      apply Forall_app. split; [by repeat constructor|by eapply hex8_nonzero]. }
  exists text, body. split; [done|]. split; [done|]. intros l u Hl.
  destruct (Pa u) as (u1 & E1 & P1). destruct (Pb u1) as (u2 & E2 & P2).
  destruct (Pn u2) as (u3 & E3 & P3). exists u3. split.
  - unfold print_opcode, read_opcode. rewrite Hmem. mrun. mrun E1. fold (is_l32i b0 b1).
    destruct (is_l32i b0 b1).
    + mfirst. { mrun E2. rewrite (proj2 (Z.ltb_lt _ _)) by auto. reflexivity. } mrun E3. done.
    + mfirst. { mrun E2. reflexivity. } mrun E3. done.
  - pose proof (printed_trans _ _ _ _ _ (printed_trans _ _ _ _ _ P1 P2) P3) as P.
    by rewrite <- !(assoc_L (++)) in P.
Qed.
End Opcodes.

Lemma print_opcodes_step memory ptr n l l' u u1 :
  0 < l -> print_opcode txfifo_cnt polls memory ptr l u = Ok l' u1 ->
  print_opcodes txfifo_cnt polls (S n) memory ptr l u = print_opcodes txfifo_cnt polls n memory ptr l' u1.
Proof using.
  intros Hl E. unfold print_opcodes, mbind at 1 2, M_bind. erewrite mwhile_step by reflexivity.
  rewrite (proj2 (Z.ltb_lt _ _)) by lia. by rewrite (bind_ok _ _ _ _ _ E).
Qed.

Lemma print_opcodes_end memory ptr n l u :
  l <= 0 -> print_opcodes txfifo_cnt polls (S n) memory ptr l u = Ok tt u.
Proof using.
  intros Hl. unfold print_opcodes, mbind at 1, M_bind. erewrite mwhile_step by reflexivity.
  by rewrite (proj2 (Z.ltb_ge _ _)) by lia.
Qed.

(** The listing of the instructions at a fault never gets past the first one. For an
    instruction it does not know it prints the same line six times and returns; for a load
    (L32I) the count of bytes left grows with every line, so the listing does not end before
    that count overflows, some 700 million lines later, and the registers of the fault are
    not reported. *)
Theorem print_opcodes_spec memory ptr b0 b1 b2 rest :
  0 <= ptr < 2 ^ 32 -> memory ptr = b0 :: b1 :: b2 :: rest ->
  0 <= b0 < 256 -> 0 <= b1 < 256 -> 0 <= b2 < 256 ->
  exists text body, hex8 ptr text /\ opcode_text b0 b1 b2 body /\
    let line := txt "[-] " ++ text ++ txt ": " ++ body ++ [10; 13] in
    forall u,
    (is_l32i b0 b1 = false -> exists u', print_opcodes txfifo_cnt polls 7 memory ptr 16 u = Ok tt u' /\
       printed (concat (replicate 6 line)) u u') /\
    (is_l32i b0 b1 = true -> forall rounds, 16 + 3 * Z.of_nat rounds < 2 ^ 31 ->
       exists u', print_opcodes txfifo_cnt polls rounds memory ptr 16 u = Stop Spin u' /\
       printed (concat (replicate rounds line)) u u').
Proof using Hdrains.
  intros Hptr Hmem H0 H1 H2.
  destruct (print_opcode_round memory ptr b0 b1 b2 rest Hptr Hmem H0 H1 H2)
    as (text & body & Ht & Hb & Hround).
  exists text, body. split; [done|]. split; [done|]. intros line u. split; intros Hl.
  - rewrite Hl in Hround.
    assert (forall n l u, l = 3 * Z.of_nat n - 2 -> exists u',
      print_opcodes txfifo_cnt polls (S n) memory ptr l u = Ok tt u' /\
      printed (concat (replicate n line)) u u') as Hn; [|by apply (Hn 6%nat)].
    clear u. induction n as [|n IH]; intros l u Hn.
    + exists u. split; [|by split; [|rewrite app_nil_r]]. apply print_opcodes_end. lia.
    + destruct (Hround l u) as (u1 & E1 & P1); [done|].
      destruct (IH (l - 3) u1) as (u2 & E2 & P2); [lia|].
      exists u2. split; [|by eapply printed_trans]. rewrite <- E2.
      apply print_opcodes_step; [lia|done].
  - rewrite Hl in Hround.
    assert (forall n l u, 0 < l -> l + 3 * Z.of_nat n < 2 ^ 31 -> exists u',
      print_opcodes txfifo_cnt polls n memory ptr l u = Stop Spin u' /\
      printed (concat (replicate n line)) u u') as Hn; [|intros; apply Hn; lia].
    clear u. induction n as [|n IH]; intros l u Hpos Hn.
    + exists u. split; [done|]. split; [done|by rewrite app_nil_r].
    + destruct (Hround l u) as (u1 & E1 & P1); [lia|].
      destruct (IH (l + 3) u1) as (u2 & E2 & P2); [lia|lia|].
      exists u2. split; [|by eapply printed_trans]. rewrite <- E2.
      apply print_opcodes_step; [lia|done].
Qed.
End Texts.

(** ** Interrupts *)
Section Handlers.
Context (weak_fails : nat -> bool) (fuel : nat) (interrupt : nat -> M kernel unit) (sleeps : nat).
Context (txfifo_cnt : nat -> Z) (polls : nat).

Abbreviation handler := (common_interrupt_handler weak_fails fuel interrupt sleeps txfifo_cnt polls).

(** The watchdog raised its interrupt. *)
Definition slice_over (s : kernel) : bool := Z.testbit (reg (wdt s) TIMG0_INT_ST) 2.

Lemma interrupt_cases m l c status :
  cas_ends weak_fails fuel -> drains txfifo_cnt polls -> sched_wf (kern m) l None -> length status = 3%nat ->
  (slice_over (kern m) = true -> current_task (kern m) = Some c ->
   exists p l' s', l ++ [c] = p :: l' /\ handler status m = Ok tt (Machine s' (console m)) /\
     sched_wf s' l' None /\ handed_over c p TASK_STATUS_RUNNABLE (kern m) s') /\
  (slice_over (kern m) = true -> current_task (kern m) = None ->
   exists m', handler status m = Stop AssertFailed m') /\
  (slice_over (kern m) = false -> exists u', handler status m = Ok tt (Machine (kern m) u') /\
     printed ((txt "[*] Interrupts:" ++ [10; 13]) ++ concat (pending_line <$>
       filter (fun i => pending status i = true) (seqZ 0 INTERRUPT_SOURCE_MAX))) (console m) u').
Proof.
  intros Hends Hdrains Hwf Hst. destruct m as [s u]. cbn [kern console] in *.
  destruct (wdt_handle_run (wdt s)) as (w & E & Hw). fold (slice_over s) in E, Hw.
  set (s1 := put_wdt w s).
  assert (zoom (T := kernel) (zoom wdt_handle) (Machine s u) = Ok (slice_over s) (Machine s1 u)) as Eh.
  { apply (zoom_ok (H := machine_kernel)). by apply (zoom_ok (H := kernel_wdt)). }
  assert (sched_wf s1 l None) as Hwf1.
  { by apply put_wdt_wf. }
  split; [|split]; intros Hb; rewrite Hb in Eh.
  - intros Hc. destruct (l ++ [c]) as [|p l'] eqn:Hl; [by destruct l|].
    destruct (on_schedule_ok weak_fails fuel interrupt sleeps Hends s1 l l' c p Hwf1 Hc Hl)
      as (s' & E' & Hwf' & Hho & _).
    exists p, l', s'. split; [done|]. split; [|split; [done|by destruct Hho; constructor]].
    unfold common_interrupt_handler. mrun Eh. by apply (zoom_ok (H := machine_kernel)).
  - intros Hc. eexists. unfold common_interrupt_handler. mrun Eh.
    unfold zoom at 1, scheduler_on_schedule, save_current_task. unfold_monad. simpl.
    rewrite Hc. reflexivity.
  - specialize (Hw Hb). subst w. assert (s1 = s) as Es by (by destruct s). rewrite Es in Eh.
    destruct (prints_pending txfifo_cnt polls Hdrains status Hst u) as (u' & E' & Hp).
    exists u'. split; [|done]. unfold common_interrupt_handler. mrun Eh.
    by apply (zoom_ok (H := machine_console)).
Qed.

(** From a task it returns. *)
Lemma interrupt_returns m l c status :
  cas_ends weak_fails fuel -> drains txfifo_cnt polls -> sched_wf (kern m) l None -> length status = 3%nat ->
  current_task (kern m) = Some c -> exists m', handler status m = Ok tt m'.
Proof.
  intros Hends Hdrains Hwf Hst Hc.
  destruct (interrupt_cases m l c status Hends Hdrains Hwf Hst) as (H1 & _ & H3).
  destruct (slice_over (kern m)); [|destruct H3 as (u & -> & _); eauto].
  destruct H1 as (p & l' & s' & _ & -> & _); eauto.
Qed.

(** C25: Preemption. When the time slice of the current task is over, the interrupt handler
    saves the task's registers, every one of them, puts it at the end of the run queue and
    leaves with the registers of the first task of the queue. Without a current task it fails
    an assertion. Any other interrupt only logs the sources that are pending, in order, and
    nothing of the kernel changes. *)
Theorem interrupt_handler_spec m l c status :
  cas_ends weak_fails fuel -> drains txfifo_cnt polls -> sched_wf (kern m) l None -> length status = 3%nat ->
  (slice_over (kern m) = true -> current_task (kern m) = Some c ->
   exists p l' s', l ++ [c] = p :: l' /\ handler status m = Ok tt (Machine s' (console m)) /\
     sched_wf s' l' None /\ handed_over c p TASK_STATUS_RUNNABLE (kern m) s') /\
  (slice_over (kern m) = true -> current_task (kern m) = None ->
   exists m', handler status m = Stop AssertFailed m') /\
  (slice_over (kern m) = false -> exists u', handler status m = Ok tt (Machine (kern m) u') /\
     printed ((txt "[*] Interrupts:" ++ [10; 13]) ++ concat (pending_line <$>
       filter (fun i => pending status i = true) (seqZ 0 INTERRUPT_SOURCE_MAX))) (console m) u').
Proof. exact (interrupt_cases m l c status). Qed.

(** ** Exceptions *)
Lemma never_bind {A B} (m : M machine A) (f : A -> M machine B) m0 :
  (forall a m1, outcome_value (f a m1) = None) -> outcome_value ((m ≫= f) m0) = None.
Proof. intros Hf. unfold mbind, M_bind. destruct (m m0); [apply Hf|done]. Qed.

(** An exception stops the machine, whatever its cause and whatever the memory holds: the
    handler never returns, the watchdog is off, so no time slice ends any more, and of the
    kernel nothing else changes: the task at fault stays the current one, no other task
    runs. *)
Theorem exception_stops rounds memory EXCCAUSE EXCVADDR m :
  exists w m' t', common_exception_handler txfifo_cnt polls rounds memory EXCCAUSE EXCVADDR m = Stop w m' /\
    kern m' = put_wdt t' (kern m) /\ wdt_enabled t' = false.
Proof.
  destruct m as [s u]. destruct (wdt_disable_off (wdt s)) as (t' & E & Hoff).
  assert (zoom (T := kernel) (zoom wdt_disable) (Machine s u) = Ok tt (Machine (put_wdt t' s) u)) as Ed.
  { apply (zoom_ok (H := machine_kernel)). by apply (zoom_ok (H := kernel_wdt)). }
  unfold common_exception_handler. rewrite (bind_ok _ _ _ _ _ Ed).
  match goal with |- exists w m' t', ?f ?m1 = _ /\ _ =>
    assert (keeps kern f) as Hk; [|assert (outcome_value (f m1) = None) as Hn] end.
  - keeps.
  - repeat (apply never_bind; intros ? ?). done.
  - match goal with |- exists w m' t', ?f ?m1 = _ /\ _ =>
      specialize (Hk m1); destruct (f m1) as [a m2|w m2]; [done|] end.
    exists w, m2, t'. auto.
Qed.
End Handlers.

(** ** Examples *)
Definition ex_expired : timg := Timg (fun _ => 4) [].

Lemma interrupt_handler_spec_witness :
  (exists m s', current_task (kern m) = Some 1%positive /\
    common_interrupt_handler never_fails 1 no_interrupt 3 ex_fifo 1 [0; 0; 0] m =
      Ok tt (Machine s' (console m)) /\ current_task s' = Some 2%positive) /\
  (exists u', common_interrupt_handler never_fails 1 no_interrupt 3 ex_fifo 1 [32; 0; 0]
      (Machine ex_one_task (Uart 0 [] 0)) = Ok tt (Machine ex_one_task u') /\
    UART0_FIFO u' = (txt "[*] Interrupts:" ++ [10; 13]) ++ txt "[!] " ++ 9 :: txt "Got interrupt: #5" ++ [10; 13]).
Proof.
  split.
  - destruct ex_running as (s & Hwf & Hc & _).
    set (m := Machine (put_wdt ex_expired s) (Uart 0 [] 0)).
    destruct (interrupt_handler_spec never_fails 1 no_interrupt 3 ex_fifo 1 m [2%positive] 1%positive
      [0; 0; 0] never_fails_ends ex_drains (put_wdt_wf _ _ _ _ Hwf) eq_refl) as [H _].
    destruct (H eq_refl Hc) as (p & l' & s' & Hl & E & _ & Hho). injection Hl as <- <-.
    exists m, s'. split; [exact Hc|]. split; [exact E|]. apply Hho.
  - destruct (interrupt_handler_spec never_fails 1 no_interrupt 3 ex_fifo 1
      (Machine ex_one_task (Uart 0 [] 0)) [] 1%positive [32; 0; 0] never_fails_ends ex_drains
      ex_one_task_sched eq_refl) as (_ & _ & H).
    destruct (H eq_refl) as (u' & E & Hp). exists u'. split; [exact E|]. exact (proj2 Hp).
Defined.

(** L32I a4, a1, 8, and ENTRY a1, 32. *)
Lemma print_opcodes_spec_witness :
  (exists u', print_opcodes ex_fifo 1 1000 (fun _ => [0x42; 0x21; 8]) 0x40080010 16 (Uart 0 [] 0) =
    Stop Spin u') /\
  (exists u', print_opcodes ex_fifo 1 7 (fun _ => [0x36; 0x41; 0]) 0x40080010 16 (Uart 0 [] 0) =
    Ok tt u').
Proof.
  split.
  - destruct (print_opcodes_spec ex_fifo 1 ex_drains (fun _ => [0x42; 0x21; 8]) 0x40080010 0x42 0x21 8 []
      ltac:(lia) eq_refl ltac:(lia) ltac:(lia) ltac:(lia)) as (t & b & _ & _ & H).
    destruct (H (Uart 0 [] 0)) as [_ H2].
    destruct (H2 eq_refl 1000%nat ltac:(lia)) as (u' & E & _). exists u'. exact E.
  - destruct (print_opcodes_spec ex_fifo 1 ex_drains (fun _ => [0x36; 0x41; 0]) 0x40080010 0x36 0x41 0 []
      ltac:(lia) eq_refl ltac:(lia) ltac:(lia) ltac:(lia)) as (t & b & _ & _ & H).
    destruct (H (Uart 0 [] 0)) as [H1 _].
    destruct (H1 eq_refl) as (u' & E & _). exists u'. exact E.
Defined.
