(* ===== verification/Loader.v ===== *)
(** * Loading an application (kernel/src/task/loader.c)

    The system is the machine (Syscall.v) and the bytes of the user pages, by address. The
    user contexts, which live in data pages as well, are kept as structures in the kernel's
    state (Task.v): a page is never both, since every page is allocated once.

    The loader reports errors by jumping to its cleanup: here a statement that may jump
    returns the error code, and the cleanup runs on what the two variables it uses hold. *)
From Stdlib Require Import ZArith Lia Ascii String.
From stdpp Require Import base tactics numbers list gmap.
From S2P Require Import Prelude Umem Mmu Printf PrintfSpec Console Task Scheduler Syscall.

Record system := System { sys : machine; user_mem : gmap Z Z }.

#[export] Instance system_machine : Lens system machine.
Proof.
  refine {| view := sys; update := fun m s => System m (user_mem s) |}; [done|by intros []|done].
Defined.
#[export] Instance system_kernel : Lens system kernel.
Proof.
  refine {| view := fun s => kern (sys s);
    update := fun k s => System (Machine k (console (sys s))) (user_mem s) |};
    [done|by intros [[]]|done].
Defined.
#[export] Instance system_console : Lens system uart.
Proof.
  refine {| view := fun s => console (sys s);
    update := fun u s => System (Machine (kern (sys s)) u) (user_mem s) |};
    [done|by intros [[]]|done].
Defined.
#[export] Instance system_pages : Lens system umem.
Proof.
  refine {| view := fun s => pages (kern (sys s));
    update := fun p s => System (Machine (put_pages p (kern (sys s))) (console (sys s))) (user_mem s) |};
    [done|by intros [[[]]]|done].
Defined.
#[export] Instance system_mmu : Lens system mmu_state.
Proof.
  refine {| view := fun s => mmu (kern (sys s));
    update := fun p s => System (Machine (put_mmu p (kern (sys s))) (console (sys s))) (user_mem s) |};
    [done|by intros [[[]]]|done].
Defined.

(** ** Helpers *)
Definition ALIGN_UP (x align : Z) : Z := u32 (x + (align - 1)) .& .~ (align - 1).
Definition MINU (a b : Z) : Z := Z.min a b.

(** Bytes at an address, in front of what was there. *)
Definition write_bytes (a : Z) (bs : list Z) (mem : gmap Z Z) : gmap Z Z :=
  list_to_map (zip (seqZ a (len bs)) bs) ∪ mem.

(** [memcpy(dst, ptr, n)] from a pointer into an object. *)
Definition memcpy (dst : Z) (ptr : list Z) (n : Z) : M system unit :=
  if n <=? len ptr then
    modify (fun s => System (sys s) (write_bytes dst (take (Z.to_nat n) ptr) (user_mem s)))
  else stop_with Fault.

(** ** The header of an application (apps/shared/app.h) *)
Definition APP_HEADER_MAGIC : Z := 0x20505041.

Definition read_word {S} (app : list Z) (off : nat) : M S Z :=
  match drop off app with
  | b0 :: b1 :: b2 :: b3 :: _ => mret (b0 .| b1 .<< 8 .| b2 .<< 16 .| b3 .<< 24)
  | _ => stop_with Fault
  end.
Definition header_magic {S} (app : list Z) : M S Z := read_word app 0.
Definition header_code_size {S} (app : list Z) : M S Z := read_word app 4.
Definition header_data_size {S} (app : list Z) : M S Z := read_word app 8.
Definition header_bss_size {S} (app : list Z) : M S Z := read_word app 12.
Definition header_entry {S} (app : list Z) : M S Z := read_word app 16.
Definition sizeof_app_header : Z := 20.

(** ** One kind of pages: what the two copies of the loop differ in *)
Record segment := Segment {
  seg_alloc : M umem Z;
  seg_addr : Z -> Z;
  seg_space : mmu_space_type;
  seg_slot : Z;
  seg_lines : Z * Z;
}.
Definition code_segment : segment := {|
  seg_alloc := umem_alloc_code_page; seg_addr := CODE_PAGE_ADDR; seg_space := MMU_SPACE_CODE;
  seg_slot := 0; seg_lines := (46, 57) |}.
Definition data_segment : segment := {|
  seg_alloc := umem_alloc_data_page; seg_addr := DATA_PAGE_ADDR; seg_space := MMU_SPACE_DATA;
  seg_slot := MAX_PAGE_COUNT; seg_lines := (64, 75) |}.

Section Loader.
(** The environment of the scheduler and of the console. *)
Context (weak_fails : nat -> bool) (fuel : nat).
Context (txfifo_cnt : nat -> Z) (polls : nat).
(** The address of task_trampoline in the vDSO, and the path given to the compiler. *)
Context (task_trampoline : Z) (__FILE__ : list Z).

Abbreviation TRACE := (TRACE txfifo_cnt polls).

(** [CHECK_ERROR(check, e)]: the error code to jump with, if any. *)
Definition CHECK_ERROR (check : bool) (e : err) (line : Z) : M system err :=
  if check then mret NO_ERROR
  else zoom (check_failed txfifo_cnt polls (txt "loader_load_app") __FILE__ e line);; mret e.

Definition CHECK (check : bool) (line : Z) : M system err := CHECK_ERROR check ERROR_CHECK_FAILED line.

Definition CHECK_AND_RETHROW (e : err) (line : Z) : M system err :=
  if IS_ERROR e then zoom (rethrown txfifo_cnt polls (txt "loader_load_app") __FILE__ line);; mret e
  else mret NO_ERROR.

(** Go on unless there was an error; [l] is what the variables hold if there was. *)
Definition guard {L} (m : M system err) (l : L) (k : M system (err * L)) : M system (err * L) :=
  e ← m; if IS_ERROR e then mret (e, l) else k.

(** [for (int i = ...)]: [n] pages from number [i] on, filled from [ptr]. *)
Fixpoint load_pages (seg : segment) (task : loc) (n : nat) (i : Z) (ptr : list Z) (size_left : Z)
    (allocated : list Z) : M system (err * (list Z * list Z)) :=
  match n with
  | O => mret (NO_ERROR, (ptr, allocated))
  | S n' =>
      page_idx ← zoom (seg_alloc seg);
      guard (CHECK_ERROR (negb (page_idx =? -1)) ERROR_OUT_OF_RESOURCES (seg_lines seg).1) (ptr, allocated) (
      let allocated := <[Z.to_nat (seg_slot seg + i) := s8 page_idx]> allocated in
      let to_copy := MINU size_left USER_PAGE_SIZE in
      memcpy (seg_addr seg page_idx) ptr to_copy;;
      let ptr := drop (Z.to_nat to_copy) ptr in
      e ← zoom (mmu_map task (seg_space seg) i (PAGE_ENTRY page_idx));
      guard (CHECK_AND_RETHROW e (seg_lines seg).2) (ptr, allocated) (
      zoom (TRACE (txt "> %p --> %p") [VWord (seg_addr seg i); VWord (seg_addr seg page_idx)]);;
      load_pages seg task n' (i + 1) ptr (u32 (size_left - to_copy)) allocated))
  end.

(** The variables of the cleanup: [task] and [pages]. *)
Definition locals : Type := option loc * list Z.

(** [task] is the value of the variable before it is set: the checks before that jump over
    its declaration. *)
Definition load_body (heap : option loc) (task : option loc) (name_addr : Z) (name : list Z)
    (app : list Z) (app_size : Z) : M system (err * locals) :=
  let allocated := replicate 32 (-1) in
  let l : locals := (task, allocated) in
  magic ← header_magic app;
  guard (CHECK (magic =? APP_HEADER_MAGIC) 17) l (
  guard (CHECK (sizeof_app_header <=? app_size) 18) l (
  code_size ← header_code_size app;
  data_size ← header_data_size app;
  guard (CHECK (u32 (code_size + data_size) <=? app_size) 19) l (
  entry ← header_entry app;
  guard (CHECK ((USER_CODE_BASE <=? entry) && (entry <? u32 (USER_CODE_BASE + code_size))) 20) l (
  task ← zoom (create_task weak_fails fuel heap task_trampoline entry name []);
  let l : locals := (task, allocated) in
  guard (CHECK_ERROR (bool_decide (task <> None)) ERROR_OUT_OF_RESOURCES 24) l (
  t ← deref task;
  bss_size ← header_bss_size app;
  let code_pages := ALIGN_UP code_size USER_PAGE_SIZE / USER_PAGE_SIZE in
  let data_pages := ALIGN_UP (u32 (data_size + bss_size)) USER_PAGE_SIZE / USER_PAGE_SIZE in
  guard (CHECK (code_pages <? MAX_PAGE_COUNT) 29) l (
  guard (CHECK (data_pages <? MAX_PAGE_COUNT) 30) l (
  zoom (TRACE (txt "Starting app `%s` (%d code pages, %d data pages)")
    [VStr name_addr name; VWord code_pages; VWord data_pages]);;
  let ptr := drop (Z.to_nat sizeof_app_header) app in
  '(e, (ptr, allocated)) ← load_pages code_segment t (Z.to_nat code_pages) 0 ptr code_size allocated;
  guard (mret e) (task, allocated) (
  '(e, (_, allocated)) ← load_pages data_segment t (Z.to_nat data_pages) 0 ptr data_size allocated;
  guard (mret e) (task, allocated) (
  zoom (scheduler_ready_task weak_fails fuel t);;
  mret (NO_ERROR, (task, allocated))))))))))).

Definition loader_cleanup (e : err) (l : locals) : M system unit :=
  mfor (seqZ 0 32) (fun i =>
    page ← deref (l.2 !! Z.to_nat i);
    when (negb (page =? -1))
      (if i <? MAX_PAGE_COUNT then zoom (umem_free_code_page page) else zoom (umem_free_data_page page)));;
  match l.1 with
  | Some task => zoom (release_task task)
  | None => mret tt
  end.

Definition loader_load_app (heap task : option loc) (name_addr : Z) (name : list Z) (app : list Z)
    (app_size : Z) : M system err :=
  '(e, l) ← load_body heap task name_addr name app app_size;
  when (IS_ERROR e) (loader_cleanup e l);;
  mret e.
End Loader.
