(* ===== verification/LoaderSpec.v ===== *)
(** * What loading an application promises *)
From Stdlib Require Import ZArith Lia Ascii String.
From stdpp Require Import base tactics numbers list gmap.
From S2P Require Import Prelude Umem Mmu MmuInv MmuSpec Timg Printf PrintfSpec Text Console Task.
From S2P Require Import TaskSpec Scheduler SchedSpec SchedThm Syscall SyscallSpec Layout Loader.

(** ** Memory *)
Lemma write_bytes_lookup a bs mem x :
  write_bytes a bs mem !! x =
    if decide (a <= x < a + len bs) then bs !! Z.to_nat (x - a) else mem !! x.
Proof.
  unfold write_bytes, len. revert a. induction bs as [|b bs IH]; intros a.
  - rewrite decide_False by (simpl; lia). simpl. by rewrite (left_id_L ∅ (∪)).
  - change (length (b :: bs)) with (S (length bs)). rewrite Nat2Z.inj_succ.
    rewrite seqZ_cons by lia. rewrite Z.pred_succ. cbn [zip zip_with list_to_map foldr].
    rewrite <- insert_union_l. destruct (decide (x = a)) as [->|Hne].
    + rewrite lookup_insert_eq, decide_True by lia. by rewrite Z.sub_diag.
    + rewrite lookup_insert_ne by done. rewrite IH.
      replace (a + 1) with (Z.succ a) by lia. repeat case_decide; try lia; [|done].
      replace (Z.to_nat (x - a)) with (S (Z.to_nat (x - Z.succ a))) by lia. done.
Qed.

Lemma size_take (X : gset Z) x : x ∈ X -> size (X ∖ {[x]}) = (size X - 1)%nat.
Proof. intros H. rewrite size_difference, size_singleton by set_solver. done. Qed.

(** ** Mapping a free page in a space no PID is bound to *)
Definition seg_pages (seg : mmu_space_type) : PageAllocator :=
  match seg with MMU_SPACE_CODE => code_pages | MMU_SPACE_DATA => data_pages end.

Definition free_pages (ty : mmu_space_type) (s : kernel) : gset Z :=
  pa_free_pages (PageAllocator := seg_pages ty) (pages s).

(** The kernel after page [q] went to slot [v] of the space of [p]; [u] are the pages left. *)
Definition map_page (ty : mmu_space_type) (p : loc) (sp : mmu_t) (v : nat) (q : Z) (u : umem)
    (s : kernel) : kernel :=
  put_mmu (put_space p (set_entry ty v (PAGE_ENTRY q) sp) (mmu s)) (put_pages u s).

Lemma maps_insert es v q w r :
  (v < length es)%nat -> 0 <= q < 256 ->
  maps (<[v := PAGE_ENTRY q]> es) w r <-> (w = v /\ r = q) \/ (w <> v /\ maps es w r).
Proof.
  intros Hv Hq. unfold maps. rewrite lookup_insert_decide by done.
  unfold PAGE_ENTRY. rewrite wrapu_small by lia. case_decide; naive_solver.
Qed.

Lemma set_entry_same ty v e sp : space_entries ty (set_entry ty v e sp) = <[v := e]> (space_entries ty sp).
Proof. by destruct ty. Qed.

Lemma seg_owned ty s p sp w q :
  memory_wf s -> spaces (mmu s) !! p = Some sp -> maps (space_entries ty sp) w q -> q ∉ free_pages ty s.
Proof.
  intros Hwf Hsp Hm. destruct ty.
  - by apply (kw_owned_code s Hwf p sp w q).
  - by apply (kw_owned s Hwf p sp w q).
Qed.

Lemma free_page_limit ty s q : memory_wf s -> q ∈ free_pages ty s -> 0 <= q < page_limit ty.
Proof.
  intros Hwf Hq. pose proof (pa_bounded (PageAllocator := seg_pages ty) _ _ Hq) as Hb.
  destruct ty; cbn [page_limit]; [|done]. unfold MAX_PAGE_COUNT, VDSO_PAGE_INDEX in *.
  assert (q <> 15); [|lia]. intros ->. by apply (kw_vdso s Hwf).
Qed.

Lemma map_page_wf ty p sp v q u s :
  memory_wf s -> spaces (mmu s) !! p = Some sp -> binding sp = None -> (v < 15)%nat ->
  q ∈ free_pages ty s -> umem_wf u ->
  pa_free_pages (PageAllocator := seg_pages ty) u = free_pages ty s ∖ {[q]} ->
  pa_frame (PageAllocator := seg_pages ty) u = pa_frame (PageAllocator := seg_pages ty) (pages s) ->
  memory_wf (map_page ty p sp v q u s).
Proof.
  intros Hwf Hsp Hb Hv Hq Hu Hfree Hframe.
  pose proof (free_page_limit ty s q Hwf Hq) as Hlim.
  assert (0 <= q < 256) as Hq256.
  { destruct ty; cbn [page_limit] in Hlim; unfold VDSO_PAGE_INDEX, MAX_PAGE_COUNT in Hlim; lia. }
  pose proof (mw_space _ (kw_mmu s Hwf) _ _ Hsp) as Hspw.
  assert (length (immu sp) = 16%nat /\ length (dmmu sp) = 16%nat) as [Li Ld]
    by (split; [apply (sw_immu sp Hspw)|apply (sw_dmmu sp Hspw)]).
  assert (forall w r, maps (space_entries ty (set_entry ty v (PAGE_ENTRY q) sp)) w r ->
    (w = v /\ r = q) \/ (w <> v /\ maps (space_entries ty sp) w r)) as Hmaps.
  { intros w r. rewrite set_entry_same. apply maps_insert; [|done]. destruct ty; simpl; lia. }
  assert (spaces (mmu (map_page ty p sp v q u s)) = <[p := set_entry ty v (PAGE_ENTRY q) sp]> (spaces (mmu s)))
    as Hspaces by done.
  constructor.
  - cbn [mmu map_page put_mmu]. rewrite <- (Nat2Z.id v).
    apply map_space_wf; [apply Hwf|done|done|unfold MAX_PAGE_COUNT; lia|done|].
    intros p' sp' w H Hm. by apply (seg_owned ty s p' sp' w q).
  - done.
  - intros r. rewrite Hspaces, lookup_insert_is_Some'. rewrite <- (kw_spaces s Hwf r).
    split; [by right|intros [<-|H]; [|done]]. apply (kw_spaces s Hwf). eauto.
  - intros r sp' w x H Hm. rewrite Hspaces in H. change (x ∉ page_set (m_data_pages u)).
    apply lookup_insert_Some in H as [[<- <-]|[_ H]]; destruct ty; cbn in Hfree, Hframe, Hm, Hmaps.
    + rewrite Hframe. by apply (kw_owned s Hwf p sp w x).
    + rewrite Hfree. apply Hmaps in Hm as [[_ ->]|[_ Hm]]; [set_solver|].
      pose proof (kw_owned s Hwf p sp w x Hsp Hm). set_solver.
    + rewrite Hframe. by apply (kw_owned s Hwf r sp' w x).
    + rewrite Hfree. pose proof (kw_owned s Hwf r sp' w x H Hm). set_solver.
  - intros r sp' w x H Hm. rewrite Hspaces in H. change (x ∉ page_set (m_code_pages u)).
    apply lookup_insert_Some in H as [[<- <-]|[_ H]]; destruct ty; cbn in Hfree, Hframe, Hm, Hmaps.
    + rewrite Hfree. apply Hmaps in Hm as [[_ ->]|[_ Hm]]; [set_solver|].
      pose proof (kw_owned_code s Hwf p sp w x Hsp Hm). set_solver.
    + rewrite Hframe. by apply (kw_owned_code s Hwf p sp w x).
    + rewrite Hfree. pose proof (kw_owned_code s Hwf r sp' w x H Hm). set_solver.
    + rewrite Hframe. by apply (kw_owned_code s Hwf r sp' w x).
  - change (VDSO_PAGE_INDEX ∉ page_set (m_code_pages u)). pose proof (kw_vdso s Hwf) as Hvd.
    destruct ty; cbn in Hfree, Hframe; [rewrite Hfree; set_solver|by rewrite Hframe].
  - intros r t Ht. destruct (kw_ucontext s Hwf r t Ht) as (q' & sp' & H1 & H2 & H3 & H4).
    rewrite Hspaces. destruct (decide (r = p)) as [->|Hne].
    + exists q', (set_entry ty v (PAGE_ENTRY q) sp). rewrite lookup_insert_eq.
      split; [done|]. split; [|done]. rewrite Hsp in H1. injection H1 as <-.
      destruct ty; [done|]. cbn [dmmu set_entry]. apply maps_insert; [lia|done|].
      right. split; [|done]. change (Z.to_nat UCTX_PAGE_INDEX) with 15%nat. lia.
    + exists q', sp'. by rewrite lookup_insert_ne.
Qed.

(** ** The pages of one kind, loaded *)

(** Slots [i], [i + 1], ... of the space of [p] went from [sp] to [sp'] by mapping the pages
    [qs], which were free; the kernel changed from [k] to [k'] in nothing else. *)
Record loaded (ty : mmu_space_type) (p : loc) (i : nat) (qs : list Z) (sp sp' : mmu_t)
    (k k' : kernel) : Prop := {
  ld_wf : memory_wf k';
  ld_space : spaces (mmu k') !! p = Some sp' /\ binding sp' = None;
  ld_new : forall j q, qs !! j = Some q -> maps (space_entries ty sp') (i + j) q;
  ld_only : forall v q, maps (space_entries ty sp') v q ->
    (exists j, v = (i + j)%nat /\ qs !! j = Some q) \/ maps (space_entries ty sp) v q;
  ld_old : forall v q, (v < i)%nat \/ (i + length qs <= v)%nat -> maps (space_entries ty sp) v q ->
    maps (space_entries ty sp') v q;
  ld_kind : forall ty', ty' <> ty -> space_entries ty' sp' = space_entries ty' sp /\
    free_pages ty' k' = free_pages ty' k;
  ld_nodup : NoDup qs;
  ld_taken : forall q, q ∈ qs -> q ∈ free_pages ty k;
  ld_free : free_pages ty k' = free_pages ty k ∖ list_to_set qs;
  ld_others : forall r, r <> p -> spaces (mmu k') !! r = spaces (mmu k) !! r;
  ld_rest : k' = put_mmu (mmu k') (put_pages (pages k') k);
}.

Lemma loaded_nil ty p i sp k :
  memory_wf k -> spaces (mmu k) !! p = Some sp -> binding sp = None -> loaded ty p i [] sp sp k k.
Proof.
  intros Hwf Hsp Hb. constructor; try done.
  - by auto.
  - constructor.
  - intros q H. by apply not_elem_of_nil in H.
  - cbn [list_to_set]. set_solver.
  - by destruct k.
Qed.

Lemma loaded_cons ty p i q qs sp sp' u k k' :
  spaces (mmu k) !! p = Some sp -> q ∈ free_pages ty k -> (i < 15)%nat ->
  space_wf sp -> 0 <= q < 256 ->
  pa_free_pages (PageAllocator := seg_pages ty) u = free_pages ty k ∖ {[q]} ->
  pa_frame (PageAllocator := seg_pages ty) u = pa_frame (PageAllocator := seg_pages ty) (pages k) ->
  loaded ty p (S i) qs (set_entry ty i (PAGE_ENTRY q) sp) sp' (map_page ty p sp i q u k) k' ->
  loaded ty p i (q :: qs) sp sp' k k'.
Proof.
  intros Hsp Hq Hi Hspw Hq256 Hfree Hframe [L1 L2 L3 L4 L5 L6 L7 L8 L9 L10 L11].
  assert (length (space_entries ty sp) = 16%nat) as Hlen
    by (destruct ty; [apply (sw_immu sp Hspw)|apply (sw_dmmu sp Hspw)]).
  change (free_pages ty (map_page ty p sp i q u k)) with
    (pa_free_pages (PageAllocator := seg_pages ty) u) in *. rewrite Hfree in *.
  rewrite set_entry_same in *.
  assert (forall v r, maps (<[i := PAGE_ENTRY q]> (space_entries ty sp)) v r <->
    (v = i /\ r = q) \/ (v <> i /\ maps (space_entries ty sp) v r)) as Hm
    by (intros; apply maps_insert; [lia|done]).
  constructor; try done.
  - intros [|j] r H.
    + injection H as <-. rewrite Nat.add_0_r. apply L5; [lia|]. apply Hm. by left.
    + rewrite <- Nat.add_succ_comm. by apply L3.
  - intros v r [(j & -> & H)|H]%L4.
    + left. exists (S j). by rewrite Nat.add_succ_comm.
    + apply Hm in H as [[-> ->]|[_ H]]; [left; exists 0%nat; by rewrite Nat.add_0_r|by right].
  - intros v r Hv H. cbn [length] in Hv. apply L5; [lia|]. apply Hm. right. split; [lia|done].
  - intros ty' Hty. destruct (L6 ty' Hty) as [H1 H2]. rewrite H1, H2.
    destruct ty, ty'; try done; cbn in Hframe; unfold free_pages; cbn; by rewrite Hframe.
  - constructor; [|done]. intros H%L8. set_solver.
  - intros r [->|H]%elem_of_cons; [done|]. apply L8 in H. set_solver.
  - rewrite L9. cbn [list_to_set]. set_solver.
  - intros r Hr. rewrite L10 by done. cbn. by rewrite lookup_insert_ne.
Qed.

Definition page_bytes : nat := Z.to_nat USER_PAGE_SIZE.

Lemma page_bytes_Z : Z.of_nat page_bytes = 8192.
Proof. reflexivity. Qed.

(** The bytes [bs] went to the pages [qs], in order, and nothing else of the memory changed. *)
Record copied (addr : Z -> Z) (qs bs : list Z) (mem mem' : gmap Z Z) : Prop := {
  cp_bytes : forall j q x, qs !! j = Some q -> (x < page_bytes)%nat ->
    (j * page_bytes + x < length bs)%nat ->
    mem' !! (addr q + Z.of_nat x) = bs !! (j * page_bytes + x)%nat;
  cp_frame : forall a, (forall q, q ∈ qs -> ~ addr q <= a < addr q + USER_PAGE_SIZE) ->
    mem' !! a = mem !! a;
}.

(** A page is a multiple of the page size from the base of its area. *)
Definition page_addr (addr : Z -> Z) : Prop :=
  exists base, forall q, 0 <= q < 16 -> addr q = base + q * USER_PAGE_SIZE /\ 0 <= addr q < 2 ^ 32.

Lemma copied_cons addr q qs bs mem mem' :
  page_addr addr -> NoDup (q :: qs) -> (forall r, r ∈ q :: qs -> 0 <= r < 16) ->
  copied addr qs (drop page_bytes bs) (write_bytes (addr q) (take page_bytes bs) mem) mem' ->
  copied addr (q :: qs) bs mem mem'.
Proof.
  intros [base Haddr] [Hq Hnd]%NoDup_cons Hrange [C1 C2].
  pose proof page_bytes_Z as Hn. change USER_PAGE_SIZE with 8192 in *.
  assert (forall r, r ∈ qs -> r <> q) as Hne by (intros r Hr E; apply Hq; by rewrite <- E).
  constructor.
  - intros [|j] r x H Hx Hl; cbn [lookup list_lookup] in H.
    + injection H as <-. rewrite C2.
      * rewrite write_bytes_lookup. unfold len. rewrite length_take, decide_True by lia.
        rewrite lookup_take. rewrite decide_True by lia. f_equal. lia.
      * intros r Hr Ha. pose proof (Hne r Hr).
        destruct (Haddr r) as [E _]; [apply Hrange; by right|].
        destruct (Haddr q) as [E' _]; [apply Hrange; by left|]. lia.
    + rewrite (C1 j r x H Hx) by (rewrite length_drop; lia).
      rewrite lookup_drop. f_equal; lia.
  - intros a Ha. rewrite C2 by (intros r Hr; apply Ha; by right).
    rewrite write_bytes_lookup, decide_False; [done|].
    pose proof (Ha q ltac:(by left)) as Hq'. change USER_PAGE_SIZE with 8192 in Hq'.
    unfold len. rewrite length_take. lia.
Qed.

Lemma page_addr_code : page_addr CODE_PAGE_ADDR.
Proof.
  exists USER_CODE_BASE. intros q Hq. unfold CODE_PAGE_ADDR, USER_CODE_BASE, USER_PAGE_SIZE.
  rewrite wrapu_small by lia. lia.
Qed.

Lemma page_addr_data : page_addr DATA_PAGE_ADDR.
Proof.
  exists USER_DATA_BASE. intros q Hq. unfold DATA_PAGE_ADDR, USER_DATA_BASE, USER_PAGE_SIZE.
  rewrite wrapu_small by lia. lia.
Qed.

Lemma piece_mapping a b :
  0 <= a < 2 ^ 32 -> 0 <= b < 2 ^ 32 -> exists t, piece (txt "> %p --> %p") [VWord a; VWord b] t.
Proof.
  intros Ha Hb. destruct (piece_ptr a Ha) as (d1 & _ & P1). destruct (piece_ptr b Hb) as (d2 & _ & P2).
  eexists. change (txt "> %p --> %p") with (txt "> " ++ txt "%p" ++ txt " --> " ++ txt "%p").
  apply (piece_app _ _ []); [by apply piece_literal|]. apply (piece_app _ _ [_]); [exact P1|].
  apply (piece_app _ _ []); [by apply piece_literal|exact P2].
Qed.

(** ** The loop *)
Section Pages.
Context (txfifo_cnt : nat -> Z) (polls : nat) (__FILE__ : list Z).
Hypothesis (Hdrains : drains txfifo_cnt polls).
Context (seg : segment) (ty : mmu_space_type).
Hypothesis (Halloc : seg_alloc seg = pa_alloc (PageAllocator := seg_pages ty)).
Hypothesis (Hspace : seg_space seg = ty) (Haddr : page_addr (seg_addr seg)).

Abbreviation load := (load_pages txfifo_cnt polls __FILE__ seg).
Abbreviation kernel_of s := (kern (sys s)).

(** One round with a free page. *)
Lemma load_pages_step p n i ptr left_ alloc q u s sp :
  spaces (mmu (kernel_of s)) !! p = Some sp -> binding sp = None -> (i < 15)%nat ->
  seg_alloc seg (pages (kernel_of s)) = Ok q u -> 0 <= q < 16 -> 0 <= left_ < 2 ^ 32 ->
  let m := Z.min left_ USER_PAGE_SIZE in m <= len ptr ->
  exists uart', 
  load p (S n) (Z.of_nat i) ptr left_ alloc s =
  load p n (Z.of_nat (S i)) (drop (Z.to_nat m) ptr) (left_ - m)
    (<[Z.to_nat (seg_slot seg + Z.of_nat i) := q]> alloc)
    (System (Machine (map_page ty p sp i q u (kernel_of s)) uart')
      (write_bytes (seg_addr seg q) (take (Z.to_nat m) ptr) (user_mem s))) /\
  exists text, printed text (console (sys s)) uart'.
Proof using Hdrains Hspace Haddr.
  intros Hsp Hb Hi Ha Hq Hleft m Hmp.
  destruct Haddr as [base Hbase].
  destruct (piece_mapping (seg_addr seg (Z.of_nat i)) (seg_addr seg q)) as (text & Ht);
    [apply Hbase; lia|apply Hbase; lia|].
  destruct (prints_message txfifo_cnt polls "[*] " _ _ _ Hdrains eq_refl Ht (console (sys s))) as (u' & E & Hp).
  exists u'. split; [|eauto]. destruct s as [[k co] mem]. cbn [kern sys console user_mem] in *.
  cbn [load_pages]. mrun (zoom_ok (H := system_pages)). { exact Ha. }
  unfold guard at 1, CHECK_ERROR. rewrite (proj2 (Z.eqb_neq q (-1))) by lia. cbn [negb]. mrun.
  cbn [IS_ERROR err_code Z.eqb negb]. unfold MINU. fold m.
  assert (0 <= m <= left_) as Hm by (unfold m, USER_PAGE_SIZE; lia).
  mfirst. { unfold memcpy. rewrite (proj2 (Z.leb_le _ _)) by lia. reflexivity. }
  mrun (zoom_ok (H := system_mmu)).
  { rewrite Hspace. rewrite (mmu_map_unbound _ p sp); [reflexivity|exact Hsp|done|].
    unfold MAX_PAGE_COUNT. lia. }
  unfold guard, CHECK_AND_RETHROW. cbn [IS_ERROR err_code Z.eqb negb]. mrun.
  mrun (zoom_ok (H := system_console)). { exact E. }
  rewrite Nat2Z.id, wrapu_small by lia.
  replace (Z.of_nat i + 1) with (Z.of_nat (S i)) by lia.
  assert (s8 q = q) as -> by (apply wraps_small; lia). done.
Qed.

Lemma drop_min_eq (l : list Z) a b :
  len l <= a -> len l <= b -> drop (Z.to_nat a) l = drop (Z.to_nat b) l.
Proof using. unfold len. intros Ha Hb. by rewrite !drop_ge by lia. Qed.

(** The slots of the cleanup's array that a loop sets. *)
Fixpoint slots (j : nat) (qs : list Z) (alloc : list Z) : list Z :=
  match qs with
  | [] => alloc
  | q :: qs' => slots (S j) qs' (<[Z.to_nat (seg_slot seg + Z.of_nat j) := q]> alloc)
  end.

Lemma length_slots qs : forall j alloc, length (slots j qs alloc) = length alloc.
Proof using. induction qs as [|q qs IH]; intros j alloc; [done|]. cbn [slots]. by rewrite IH, length_insert. Qed.

(** With enough free pages the loop loads [n] of them; the bytes come from the first
    [left_] bytes at [ptr], which are all the loop reads. *)
Lemma load_pages_ok p n : forall i ptr left_ alloc s sp,
  memory_wf (kernel_of s) -> spaces (mmu (kernel_of s)) !! p = Some sp -> binding sp = None ->
  (i + n <= 15)%nat -> (n <= size (free_pages ty (kernel_of s)))%nat ->
  0 <= left_ <= len ptr -> left_ < 2 ^ 32 ->
  exists qs k' sp' u' mem',
    load p n (Z.of_nat i) ptr left_ alloc s =
      Ok (NO_ERROR, (drop (Z.to_nat (Z.min left_ (Z.of_nat (n * page_bytes)))) ptr, slots i qs alloc))
        (System (Machine k' u') mem') /\
    length qs = n /\ loaded ty p i qs sp sp' (kernel_of s) k' /\
    copied (seg_addr seg) qs (take (Z.to_nat left_) ptr) (user_mem s) mem' /\
    exists text, printed text (console (sys s)) u'.
Proof using Hdrains Halloc Hspace Haddr.
  induction n as [|n IH]; intros i ptr left_ alloc s sp Hwf Hsp Hb Hi Hfree Hleft Hl32.
  - exists [], (kernel_of s), sp, (console (sys s)), (user_mem s). split.
    { replace (Z.to_nat _) with 0%nat by lia. rewrite drop_0. by destruct s as [[]]. }
    split; [done|]. split; [by apply loaded_nil|]. split; [by constructor; [intros j q x H|]|].
    exists []. split; [done|]. by rewrite app_nil_r.
  - destruct (pa_alloc_cases (seg_pages ty) (pages (kernel_of s)) (kw_pages _ Hwf))
      as [[He _]|(q & u & Ha & _ & Hq & _ & Hu & Hf & Hframe)].
    { unfold free_pages in Hfree. rewrite He, size_empty in Hfree. lia. }
    change (q ∈ free_pages ty (kernel_of s)) in Hq.
    pose proof (pa_bounded (PageAllocator := seg_pages ty) _ _ Hq) as Hq16. unfold MAX_PAGE_COUNT in Hq16.
    rewrite <- Halloc in Ha.
    destruct (load_pages_step p n i ptr left_ alloc q u s sp Hsp Hb ltac:(lia) Ha Hq16 ltac:(lia) ltac:(lia))
      as (u1 & E & t1 & P1).
    set (m := Z.min left_ USER_PAGE_SIZE) in *.
    assert (0 <= m <= left_) as Hm by (unfold m, USER_PAGE_SIZE; lia).
    set (s1 := System _ _) in E.
    assert (memory_wf (kernel_of s1)) as Hwf1 by (by apply map_page_wf; try done; lia).
    assert (size (free_pages ty (kernel_of s1)) = size (free_pages ty (kernel_of s)) - 1)%nat as Hsize.
    { unfold free_pages at 1. cbn. by rewrite Hf, size_take. }
    destruct (IH (S i) (drop (Z.to_nat m) ptr) (left_ - m)
      (<[Z.to_nat (seg_slot seg + Z.of_nat i) := q]> alloc) s1 (set_entry ty i (PAGE_ENTRY q) sp))
      as (qs & k' & sp' & u' & mem' & E' & Hlen & Hld & Hcp & t2 & P2).
    { done. } { cbn. apply lookup_insert_eq. } { by destruct ty. } { lia. }
    { rewrite Hsize. lia. } { unfold len in *. rewrite length_drop. lia. } { lia. }
    exists (q :: qs), k', sp', u', mem'. split; [|split; [by rewrite <- Hlen|split; [|split]]].
    + rewrite E, E'. unfold mret, M_ret. f_equal. f_equal. f_equal. rewrite drop_drop.
      pose proof page_bytes_Z. f_equal. unfold m, USER_PAGE_SIZE. lia.
    + pose proof (mw_space _ (kw_mmu _ Hwf) _ _ Hsp).
      eapply (loaded_cons ty p i q qs sp sp' u); try done; lia.
    + pose proof page_bytes_Z as Hpb.
      apply copied_cons; [done|constructor; [|apply (ld_nodup _ _ _ _ _ _ _ _ Hld)]|..].
      * intros H. apply (ld_taken _ _ _ _ _ _ _ _ Hld) in H. unfold free_pages in H. cbn in H.
        rewrite Hf in H. apply elem_of_difference in H as [_ H]. by apply H, elem_of_singleton.
      * intros r [->|H]%elem_of_cons; [done|]. apply (ld_taken _ _ _ _ _ _ _ _ Hld) in H.
        by apply (pa_bounded (PageAllocator := seg_pages ty)) in H.
      * assert (take (Z.to_nat m) ptr = take page_bytes (take (Z.to_nat left_) ptr)) as <-.
        { rewrite take_take. f_equal. unfold m, USER_PAGE_SIZE. lia. }
        assert (take (Z.to_nat (left_ - m)) (drop (Z.to_nat m) ptr) =
          drop page_bytes (take (Z.to_nat left_) ptr)) as <-; [|done].
        rewrite skipn_firstn_comm. unfold m, USER_PAGE_SIZE in *.
        destruct (decide (left_ <= 8192)).
        -- rewrite Z.min_l by lia. replace (Z.to_nat (left_ - left_)) with 0%nat by lia.
           by replace (Z.to_nat left_ - page_bytes)%nat with 0%nat by lia.
        -- rewrite Z.min_r by lia. replace (Z.to_nat 8192) with page_bytes by lia.
           by replace (Z.to_nat (left_ - 8192)) with (Z.to_nat left_ - page_bytes)%nat by lia.
    + exists (t1 ++ t2). by eapply printed_trans.
Qed.

(** The loop reads behind the image when that is shorter than the size says. *)
Lemma load_pages_overrun p n : forall i ptr left_ alloc s sp,
  memory_wf (kernel_of s) -> spaces (mmu (kernel_of s)) !! p = Some sp -> binding sp = None ->
  (i + n <= 15)%nat -> (n <= size (free_pages ty (kernel_of s)))%nat ->
  len ptr < left_ <= Z.of_nat (n * page_bytes) -> left_ < 2 ^ 32 ->
  exists s', load p n (Z.of_nat i) ptr left_ alloc s = Stop Fault s'.
Proof using Hdrains Halloc Hspace Haddr.
  induction n as [|n IH]; intros i ptr left_ alloc s sp Hwf Hsp Hb Hi Hfree Hleft Hl32;
    assert (0 <= len ptr) as Hpos by (unfold len; lia); [lia|].
  destruct (pa_alloc_cases (seg_pages ty) (pages (kernel_of s)) (kw_pages _ Hwf))
    as [[He _]|(q & u & Ha & _ & Hq & _ & Hu & Hf & Hframe)].
  { unfold free_pages in Hfree. rewrite He, size_empty in Hfree. lia. }
  change (q ∈ free_pages ty (kernel_of s)) in Hq.
  pose proof (pa_bounded (PageAllocator := seg_pages ty) _ _ Hq) as Hq16. unfold MAX_PAGE_COUNT in Hq16.
  rewrite <- Halloc in Ha. set (m := Z.min left_ USER_PAGE_SIZE).
  destruct (Z.leb_spec m (len ptr)) as [Hm|Hm].
  - destruct (load_pages_step p n i ptr left_ alloc q u s sp Hsp Hb ltac:(lia) Ha Hq16 ltac:(lia) Hm)
      as (u1 & E & _).
    fold m in E. rewrite E. apply (IH (S i) _ _ _ _ (set_entry ty i (PAGE_ENTRY q) sp)).
    + by apply map_page_wf; try done; lia.
    + cbn. apply lookup_insert_eq.
    + by destruct ty.
    + lia.
    + unfold free_pages in Hfree, Hq |- *. cbn. rewrite Hf, size_take by done. lia.
    + rewrite Nat2Z.inj_mul, page_bytes_Z in Hleft |- *. unfold m, USER_PAGE_SIZE, len in *.
      rewrite length_drop. lia.
    + unfold m, USER_PAGE_SIZE. lia.
  - eexists. cbn [load_pages]. destruct s as [[k co] mem]. mrun (zoom_ok (H := system_pages)). { exact Ha. }
    unfold guard, CHECK_ERROR. rewrite (proj2 (Z.eqb_neq q (-1))) by lia. cbn [negb]. mrun.
    cbn [IS_ERROR err_code Z.eqb negb]. apply bind_stop. unfold memcpy, MINU. fold m.
    rewrite (proj2 (Z.leb_gt _ _)) by lia. reflexivity.
Qed.
End Pages.

(** ** The image of an application: its header, its code, its data *)
Definition raw_image (magic code_size data_size bss_size entry : Z) (body : list Z) : list Z :=
  le_bytes 4 magic ++ le_bytes 4 code_size ++ le_bytes 4 data_size ++
  le_bytes 4 bss_size ++ le_bytes 4 entry ++ body.
Definition app_image : Z -> Z -> Z -> Z -> list Z -> list Z := raw_image APP_HEADER_MAGIC.

Lemma byte_bit v k i :
  0 <= k -> 0 <= i -> Z.testbit (u8 (v .>> k) .<< k) i = (k <=? i) && (i <? k + 8) && Z.testbit v i.
Proof.
  intros Hk Hi. rewrite Z.shiftl_spec by lia. destruct (Z.leb_spec k i); cbn [andb].
  - rewrite wrapu_testbit, Z.shiftr_spec, Z.sub_add by lia.
    by replace (i - k <? 8) with (i <? k + 8) by lia.
  - apply Z.testbit_neg_r. lia.
Qed.

Lemma le_word v :
  0 <= v < 2 ^ 32 ->
  u8 (v .>> 0) .| u8 (v .>> 8) .<< 8 .| u8 (v .>> 16) .<< 16 .| u8 (v .>> 24) .<< 24 = v.
Proof.
  intros Hv. apply Z.bits_inj'. intros i Hi.
  change (u8 (v .>> 0)) with (u8 (v .>> 0) .<< 0). rewrite !Z.lor_spec, !byte_bit by lia.
  assert (Z.testbit v i = (i <? 32) && Z.testbit v i) as ->.
  { destruct (Z.ltb_spec i 32); [done|]. by apply (testbit_of_range 32). }
  destruct (Z.testbit v i); [|by rewrite !andb_false_r].
  rewrite !andb_true_r. lia.
Qed.

Section Header.
Context (mg cs ds bs en : Z) (body : list Z).
Hypothesis (Hmg : 0 <= mg < 2 ^ 32) (Hcs : 0 <= cs < 2 ^ 32) (Hds : 0 <= ds < 2 ^ 32) (Hbs : 0 <= bs < 2 ^ 32)
  (Hen : 0 <= en < 2 ^ 32).
Abbreviation app := (raw_image mg cs ds bs en body).

Lemma header_magic_ok (s : system) : header_magic app s = Ok mg s.
Proof using Hmg. rewrite <- (le_word mg) at 2 by done. reflexivity. Qed.
Lemma header_code_size_ok (s : system) : header_code_size app s = Ok cs s.
Proof using Hcs. rewrite <- (le_word cs) at 2 by done. reflexivity. Qed.
Lemma header_data_size_ok (s : system) : header_data_size app s = Ok ds s.
Proof using Hds. rewrite <- (le_word ds) at 2 by done. reflexivity. Qed.
Lemma header_bss_size_ok (s : system) : header_bss_size app s = Ok bs s.
Proof using Hbs. rewrite <- (le_word bs) at 2 by done. reflexivity. Qed.
Lemma header_entry_ok (s : system) : header_entry app s = Ok en s.
Proof using Hen. rewrite <- (le_word en) at 2 by done. reflexivity. Qed.
Lemma drop_header : drop (Z.to_nat sizeof_app_header) app = body.
Proof using. reflexivity. Qed.
End Header.

(** ** The line that announces the application *)
Lemma piece_starting nm rest a c d :
  Forall (fun c => c <> 0) nm -> len nm < 2 ^ 32 - 1 -> u32 a <> 0 -> 0 <= c < 2 ^ 31 -> 0 <= d < 2 ^ 31 ->
  exists t, piece (txt "Starting app `%s` (%d code pages, %d data pages)")
    [VStr a (nm ++ 0 :: rest); VWord c; VWord d] t.
Proof.
  intros Hnm Hlen Ha Hc Hd. destruct (piece_decimal c Hc) as (d1 & _ & P1 & _).
  destruct (piece_decimal d Hd) as (d2 & _ & P2 & _). eexists.
  change (txt "Starting app `%s` (%d code pages, %d data pages)") with
    (txt "Starting app `" ++ txt "%s" ++ txt "` (" ++ txt "%d" ++ txt " code pages, " ++ txt "%d" ++
      txt " data pages)").
  apply (piece_app _ _ []); [by apply piece_literal|].
  apply (piece_app _ _ [_]); [by apply piece_string|].
  apply (piece_app _ _ []); [by apply piece_literal|]. apply (piece_app _ _ [_]); [exact P1|].
  apply (piece_app _ _ []); [by apply piece_literal|]. apply (piece_app _ _ [_] []); [exact P2|].
  by apply piece_literal.
Qed.

(** ** Loading *)

(** Every page of the segment: [bytes] is the text loaded into the pages [qs]. *)
Definition holds (addr : Z -> Z) (qs bytes : list Z) (mem : gmap Z Z) : Prop :=
  forall j q x, qs !! j = Some q -> (x < page_bytes)%nat -> (j * page_bytes + x < length bytes)%nat ->
    mem !! (addr q + Z.of_nat x) = bytes !! (j * page_bytes + x)%nat.

(** Bytes of different pages have different addresses. *)
Lemma page_addresses_apart q q' x x' :
  0 <= q < 16 -> 0 <= q' < 16 -> 0 <= x < USER_PAGE_SIZE -> 0 <= x' < USER_PAGE_SIZE ->
  (CODE_PAGE_ADDR q + x = CODE_PAGE_ADDR q' + x' -> q = q') /\
  (DATA_PAGE_ADDR q + x = DATA_PAGE_ADDR q' + x' -> q = q') /\
  CODE_PAGE_ADDR q + x <> DATA_PAGE_ADDR q' + x'.
Proof.
  unfold CODE_PAGE_ADDR, DATA_PAGE_ADDR, USER_PAGE_SIZE, USER_CODE_BASE, USER_DATA_BASE.
  intros. rewrite !wrapu_small by lia. lia.
Qed.

(** The task at [p], loaded with the pages [qc] and [qd], next to what there was before. *)
Record app_started (p : loc) (l : list loc) (trampoline entry : Z) (nm code data : list Z) (page : Z)
    (qc qd : list Z) (k k' : kernel) (mem mem' : gmap Z Z) : Prop := {
  as_sched : sched_wf k' (l ++ [p]) None;
  as_context : task_context k' p = Some (fresh_ucontext trampoline entry nm);
  as_contexts : contexts_owned k -> contexts_owned k';
  as_current : current_task k' = current_task k /\ frame k' = frame k /\ park_callback k' = park_callback k;
  as_others : forall r, r <> p -> task_status k' r = task_status k r /\
    (is_Some (tasks k !! r) -> task_context k' r = task_context k r) /\
    spaces (mmu k') !! r = spaces (mmu k) !! r;
  as_space : exists sp, spaces (mmu k') !! p = Some sp /\
    (forall v q, maps (immu sp) v q <-> qc !! v = Some q) /\
    (forall v q, maps (dmmu sp) v q <-> qd !! v = Some q \/ (v = 15%nat /\ q = page));
  as_pages : NoDup qc /\ NoDup (page :: qd) /\
    (forall q, q ∈ qc -> q ∈ free_pages MMU_SPACE_CODE k) /\
    (forall q, q ∈ page :: qd -> q ∈ free_pages MMU_SPACE_DATA k) /\
    free_pages MMU_SPACE_CODE k' = free_pages MMU_SPACE_CODE k ∖ list_to_set qc /\
    free_pages MMU_SPACE_DATA k' = free_pages MMU_SPACE_DATA k ∖ list_to_set (page :: qd);
  as_code : holds CODE_PAGE_ADDR qc code mem';
  as_data : holds DATA_PAGE_ADDR qd data mem';
  as_memory : forall a,
    (forall q, q ∈ qc -> ~ CODE_PAGE_ADDR q <= a < CODE_PAGE_ADDR q + USER_PAGE_SIZE) ->
    (forall q, q ∈ qd -> ~ DATA_PAGE_ADDR q <= a < DATA_PAGE_ADDR q + USER_PAGE_SIZE) ->
    mem' !! a = mem !! a;
}.

Section App.
Context (weak_fails : nat -> bool) (fuel : nat) (txfifo_cnt : nat -> Z) (polls : nat).
Context (trampoline : Z) (__FILE__ : list Z).
Hypothesis (Hends : cas_ends weak_fails fuel) (Hdrains : drains txfifo_cnt polls).

Abbreviation loader := (loader_load_app weak_fails fuel txfifo_cnt polls trampoline __FILE__).
Abbreviation body := (load_body weak_fails fuel txfifo_cnt polls trampoline __FILE__).
Abbreviation kernel_of s := (kern (sys s)).

Lemma guard_pass {L} line (l : L) (k : M system (err * L)) b s :
  b = true -> guard (CHECK txfifo_cnt polls __FILE__ b line) l k s = k s.
Proof using. by intros ->. Qed.

Lemma guard_ok {L} (l : L) (k : M system (err * L)) s : guard (mret NO_ERROR) l k s = k s.
Proof using. done. Qed.

(** The invariant of the scheduler survives the loading of pages. *)
Lemma loaded_sched ty p i qs sp sp' k k' l :
  loaded ty p i qs sp sp' k k' -> sched_wf k l None -> sched_wf k' l None.
Proof using.
  intros Hld [H1 H2 H3 H4 H5 H6]. pose proof (ld_wf _ _ _ _ _ _ _ _ Hld) as Hm.
  rewrite (ld_rest _ _ _ _ _ _ _ _ Hld) in *. by constructor.
Qed.

(** Pages for an image of [n] bytes. *)
Definition pages_for (n : Z) : Z := ALIGN_UP n USER_PAGE_SIZE / USER_PAGE_SIZE.

Lemma pages_for_bounds n :
  0 <= n <= 15 * USER_PAGE_SIZE -> 0 <= pages_for n < 16 /\ n <= pages_for n * USER_PAGE_SIZE.
Proof using.
  unfold pages_for, ALIGN_UP, USER_PAGE_SIZE. intros Hn. change (8192 - 1) with 8191.
  rewrite wrapu_small by lia. change (.~ 8191) with (Z.lnot (Z.ones 13)).
  rewrite <- Z.ldiff_land, Z.ldiff_ones_r, Z.shiftl_mul_pow2, Z.shiftr_div_pow2 by lia.
  change (2 ^ 13) with 8192. rewrite Z.div_mul by lia.
  pose proof (Z.div_mod (n + 8191) 8192 ltac:(lia)). pose proof (Z.mod_pos_bound (n + 8191) 8192 ltac:(lia)).
  lia.
Qed.

(** ** A new task, and then its pages *)
Section Started.
Context (p : loc) (l : list loc) (entry page : Z) (pages' : umem) (nm : list Z) (k : kernel).
Hypothesis (Hwf : sched_wf k l None) (Hp : tasks k !! p = None).
Hypothesis (Hpage : page ∈ free_pages MMU_SPACE_DATA k) (Hpages' : umem_wf pages').
Hypothesis (Hfree : pa_free_pages (PageAllocator := data_pages) pages' = free_pages MMU_SPACE_DATA k ∖ {[page]})
  (Hcode : m_code_pages pages' = m_code_pages (pages k)).

Definition new_kernel : kernel := created p page pages' (fresh_ucontext trampoline entry nm) k.
Definition new_space : mmu_t :=
  set_entry MMU_SPACE_DATA (Z.to_nat UCTX_PAGE_INDEX) (PAGE_ENTRY page) mmu_zero.

Lemma new_sched : sched_wf new_kernel l None /\
  forall r, is_Some (tasks k !! r) -> task_context new_kernel r = task_context k r.
Proof using Hwf Hp Hpage Hpages' Hfree Hcode.
  apply created_sched_wf; try done. apply created_wf; try done. apply Hwf.
Qed.

Lemma new_owned : contexts_owned k -> contexts_owned new_kernel.
Proof using Hp.
  intros Hk a Ha. cbn in Ha |- *.
  destruct (decide (a = DATA_PAGE_ADDR page)) as [->|Hne].
  { exists p. eexists. by rewrite lookup_insert_eq. }
  rewrite lookup_insert_ne in Ha by done. destruct (Hk a Ha) as (r & t & Ht & E). exists r, t.
  by rewrite lookup_insert_ne by (intros ->; congruence).
Qed.

Lemma new_context : task_context new_kernel p = Some (fresh_ucontext trampoline entry nm).
Proof using.
  unfold task_context. cbn. rewrite lookup_insert_eq. cbn. by rewrite lookup_insert_eq.
Qed.

Lemma new_space_lookup : spaces (mmu new_kernel) !! p = Some new_space.
Proof using. apply lookup_insert_eq. Qed.

Lemma new_space_maps v q :
  ~ maps (immu new_space) v q /\ (maps (dmmu new_space) v q <-> v = 15%nat /\ q = page).
Proof using Hpage.
  pose proof (pa_bounded (PageAllocator := data_pages) _ _ Hpage) as Hb. unfold MAX_PAGE_COUNT in Hb.
  split; [apply (mmu_zero_maps immu); by left|].
  unfold new_space. cbn [dmmu set_entry]. rewrite maps_insert; [|vm_compute; lia|lia].
  change (Z.to_nat UCTX_PAGE_INDEX) with 15%nat.
  split; [intros [H|[_ H]]; [done|]|by left].
  by destruct (mmu_zero_maps dmmu v q (or_intror eq_refl)).
Qed.

(** What the two loops make of the new task, before it is made ready. *)
Lemma started_space qc qd sp1 sp2 k2 k3 :
  (length qc < 16)%nat -> (length qd < 16)%nat ->
  loaded MMU_SPACE_CODE p 0 qc new_space sp1 new_kernel k2 ->
  loaded MMU_SPACE_DATA p 0 qd sp1 sp2 k2 k3 ->
  (forall v q, maps (immu sp2) v q <-> qc !! v = Some q) /\
  (forall v q, maps (dmmu sp2) v q <-> qd !! v = Some q \/ (v = 15%nat /\ q = page)).
Proof using Hpage.
  intros Hlc Hld Lc Ld.
  destruct (ld_kind _ _ _ _ _ _ _ _ Ld MMU_SPACE_CODE) as [Ei _]; [done|].
  destruct (ld_kind _ _ _ _ _ _ _ _ Lc MMU_SPACE_DATA) as [Ed _]; [done|]. cbn in Ei, Ed.
  split; intros v q.
  - rewrite Ei. split.
    + intros [(j & -> & H)|H]%(ld_only _ _ _ _ _ _ _ _ Lc); [done|]. by apply new_space_maps in H.
    + intros H. by apply (ld_new _ _ _ _ _ _ _ _ Lc v q).
  - split.
    + intros [(j & -> & H)|H]%(ld_only _ _ _ _ _ _ _ _ Ld); [by left|]. cbn in H. rewrite Ed in H.
      right. by apply new_space_maps.
    + intros [H|H]; [by apply (ld_new _ _ _ _ _ _ _ _ Ld v q)|].
      apply (ld_old _ _ _ _ _ _ _ _ Ld); [lia|]. cbn. rewrite Ed. by apply new_space_maps.
Qed.

Lemma started_pages qc qd sp1 sp2 k2 k3 :
  loaded MMU_SPACE_CODE p 0 qc new_space sp1 new_kernel k2 ->
  loaded MMU_SPACE_DATA p 0 qd sp1 sp2 k2 k3 ->
  NoDup qc /\ NoDup (page :: qd) /\
  (forall q, q ∈ qc -> q ∈ free_pages MMU_SPACE_CODE k) /\
  (forall q, q ∈ page :: qd -> q ∈ free_pages MMU_SPACE_DATA k) /\
  free_pages MMU_SPACE_CODE k3 = free_pages MMU_SPACE_CODE k ∖ list_to_set qc /\
  free_pages MMU_SPACE_DATA k3 = free_pages MMU_SPACE_DATA k ∖ list_to_set (page :: qd).
Proof using Hpage Hfree Hcode.
  intros Lc Ld.
  assert (free_pages MMU_SPACE_CODE new_kernel = free_pages MMU_SPACE_CODE k) as Hc
    by (unfold free_pages; cbn; by rewrite Hcode).
  assert (free_pages MMU_SPACE_DATA new_kernel = free_pages MMU_SPACE_DATA k ∖ {[page]}) as Hd by done.
  destruct (ld_kind _ _ _ _ _ _ _ _ Ld MMU_SPACE_CODE) as [_ Ei]; [done|].
  destruct (ld_kind _ _ _ _ _ _ _ _ Lc MMU_SPACE_DATA) as [_ Ed]; [done|].
  pose proof (ld_taken _ _ _ _ _ _ _ _ Ld) as Ht. rewrite Ed, Hd in Ht.
  split; [apply Lc|]. split; [|split; [|split; [|split]]].
  - constructor; [|apply Ld]. intros H%Ht. apply elem_of_difference in H as [_ H].
    by apply H, elem_of_singleton.
  - intros q Hq%(ld_taken _ _ _ _ _ _ _ _ Lc). by rewrite Hc in Hq.
  - intros q [->|H]%elem_of_cons; [done|]. apply Ht in H. by apply elem_of_difference in H as [H _].
  - rewrite Ei, (ld_free _ _ _ _ _ _ _ _ Lc). by rewrite Hc.
  - rewrite (ld_free _ _ _ _ _ _ _ _ Ld), Ed, Hd. cbn [list_to_set foldr].
    apply set_eq. intros x. rewrite !elem_of_difference, elem_of_union. tauto.
Qed.
End Started.

(** The name of the task is its file name, which has no conversions in it. *)
Lemma name_text nm rest :
  Forall (fun c => c <> 0 /\ c <> 37) nm ->
  exists n, render (nm ++ 0 :: rest) [] = Ok n nm.
Proof using.
  intros Hnm. eexists. unfold render.
  rewrite (loop_literal nm) by (done || rewrite length_app; lia).
  rewrite length_app. cbn [length].
  replace (S (length nm + S (length rest)) - length nm)%nat with (S (S (length rest))) by lia.
  cbn [vsnprintf_loop]. etransitivity; [eapply bind_ok; reflexivity|]. cbn [Z.eqb]. reflexivity.
Qed.

(** ** Up to the allocation of pages *)
Section Body.
Context (p : loc) (l : list loc) (na : Z) (nm rest bytes : list Z) (cs ds bss entry app_size : Z) (k : kernel).
Hypothesis (Hwf : sched_wf k l None) (Hp : tasks k !! p = None).
Hypothesis (Hnm : Forall (fun c => c <> 0 /\ c <> 37) nm) (Hnl : len nm < 2 ^ 32 - 1) (Hna : u32 na <> 0).
Hypothesis (Hcs : 0 <= cs <= 15 * USER_PAGE_SIZE) (Hds0 : 0 <= ds) (Hbs : 0 <= bss)
  (Hds : ds + bss <= 15 * USER_PAGE_SIZE).
Hypothesis (Hen : USER_CODE_BASE <= entry < USER_CODE_BASE + cs).
Hypothesis (Hsize : sizeof_app_header <= app_size /\ cs + ds <= app_size).

Abbreviation image := (app_image cs ds bss entry bytes).
Abbreviation name := (nm ++ 0 :: rest).
Abbreviation cp := (pages_for cs).
Abbreviation dp := (pages_for (ds + bss)).

Lemma image_bounds :
  0 <= cs < 2 ^ 32 /\ 0 <= ds < 2 ^ 32 /\ 0 <= bss < 2 ^ 32 /\ 0 <= entry < 2 ^ 32.
Proof using Hcs Hbs Hds0 Hds Hen.
  clear Hnl Hna Hsize Hwf Hp Hnm. unfold USER_PAGE_SIZE, USER_CODE_BASE in *. lia.
Qed.

(** What is left to do once the task exists. *)
Definition load_both (bytes : list Z) : M system (err * locals) :=
  '(e, (ptr, allocated)) ← load_pages txfifo_cnt polls __FILE__ code_segment p (Z.to_nat cp) 0
      bytes cs (replicate 32 (-1));
  guard (mret e) (Some p, allocated) (
  '(e, (_, allocated)) ← load_pages txfifo_cnt polls __FILE__ data_segment p (Z.to_nat dp) 0
      ptr ds allocated;
  guard (mret e) (Some p, allocated) (
  zoom (scheduler_ready_task weak_fails fuel p);;
  mret (NO_ERROR, (Some p, allocated)))).

(** The checks of the header, the creation of the task, and the sizes. *)
Lemma load_body_pages task0 s page pages' :
  kernel_of s = k -> umem_alloc_data_page (pages k) = Ok page pages' -> page <> INVALID_PAGE ->
  exists u1 t1, printed t1 (console (sys s)) u1 /\
  body (Some p) task0 na name image app_size s =
    load_both bytes
    (System (Machine (new_kernel p entry page pages' nm k) u1) (user_mem s)).
Proof using All.
  intros Hk Ha Hne. destruct image_bounds as (B1 & B2 & B3 & B4).
  assert (0 <= cs + ds < 2 ^ 32 /\ 0 <= USER_CODE_BASE + cs < 2 ^ 32 /\ 0 <= ds + bss < 2 ^ 32)
    as (B5 & B6 & B7) by (unfold USER_PAGE_SIZE, USER_CODE_BASE in *; lia).
  destruct (name_text nm rest Hnm) as (n & Hname).
  pose proof (pages_for_bounds cs Hcs) as [Hcp _].
  pose proof (pages_for_bounds (ds + bss) ltac:(lia)) as [Hdp _].
  assert (Forall (fun c => c <> 0) nm) as Hnz by (eapply Forall_impl; [done|]; by intros c []).
  destruct (piece_starting nm rest na cp dp Hnz Hnl Hna ltac:(lia) ltac:(lia)) as (text & Ht).
  destruct (prints_message txfifo_cnt polls "[*] " _ _ _ Hdrains eq_refl Ht (console (sys s))) as (u1 & E1 & P1).
  eexists u1, _. split; [done|]. destruct s as [[k0 u0] mem]. cbn [sys kern console user_mem] in *. subst k0.
  unfold load_body. mrun header_magic_ok. { done. } rewrite guard_pass by done. rewrite guard_pass by lia.
  mrun header_code_size_ok. { done. } mrun header_data_size_ok. { done. }
  rewrite guard_pass by (rewrite (wrapu_small 32 (cs + ds)) by lia; lia).
  mrun header_entry_ok. { done. }
  rewrite guard_pass by (rewrite (wrapu_small 32 (USER_CODE_BASE + cs)) by lia; lia).
  mrun (zoom_ok (H := system_kernel)).
  { eapply (create_task_page weak_fails fuel p trampoline entry name [] k n nm);
      [apply Hwf|done|done|done|lia|exact Ha|done]. }
  unfold guard at 1. mrun. cbn [IS_ERROR err_code Z.eqb negb]. mrun.
  mrun header_bss_size_ok. { done. }
  rewrite (wrapu_small 32 (ds + bss)) by lia.
  fold (pages_for cs). fold (pages_for (ds + bss)).
  rewrite guard_pass by (unfold MAX_PAGE_COUNT; lia). rewrite guard_pass by (unfold MAX_PAGE_COUNT; lia).
  mrun (zoom_ok (H := system_console)). { exact E1. }
  unfold app_image. rewrite drop_header. done.
Qed.
End Body.

(** ** Success *)
Section Success.
Context (p : loc) (l : list loc) (nm code data tail : list Z) (bss entry : Z) (k : kernel).
Abbreviation cs := (len code).
Abbreviation ds := (len data).
Hypothesis (Hwf : sched_wf k l None) (Hp : tasks k !! p = None).
Hypothesis (Hcs : cs <= 15 * USER_PAGE_SIZE) (Hbs : 0 <= bss) (Hds : ds + bss <= 15 * USER_PAGE_SIZE).

Abbreviation cp := (pages_for cs).
Abbreviation dp := (pages_for (ds + bss)).

Lemma take_len (l1 l2 : list Z) : take (Z.to_nat (len l1)) (l1 ++ l2) = l1.
Proof using. unfold len. rewrite Nat2Z.id. apply take_app_length. Qed.

Lemma drop_len (l1 l2 : list Z) : drop (Z.to_nat (len l1)) (l1 ++ l2) = l2.
Proof using. unfold len. rewrite Nat2Z.id. apply drop_app_length. Qed.

(** Both loops, and making the task ready. *)
Lemma load_rest page pages' u1 mem :
  page ∈ free_pages MMU_SPACE_DATA k -> umem_wf pages' ->
  pa_free_pages (PageAllocator := data_pages) pages' = free_pages MMU_SPACE_DATA k ∖ {[page]} ->
  m_code_pages pages' = m_code_pages (pages k) ->
  (Z.to_nat cp <= size (free_pages MMU_SPACE_CODE k))%nat ->
  (Z.to_nat dp < size (free_pages MMU_SPACE_DATA k))%nat ->
  exists qc qd k' u' mem' alloc' text,
    load_both p cs ds bss (code ++ data ++ tail)
    (System (Machine (new_kernel p entry page pages' nm k) u1) mem) =
      Ok (NO_ERROR, (Some p, alloc')) (System (Machine k' u') mem') /\
    length qc = Z.to_nat cp /\ length qd = Z.to_nat dp /\ printed text u1 u' /\
    app_started p l trampoline entry nm code data page qc qd k k' mem mem'.
Proof using All.
  intros Hpage Hpw Hfree Hcode Hfc Hfd. assert (0 <= cs < 2 ^ 32 /\ 0 <= ds < 2 ^ 32) as [B1 B2] by (unfold USER_PAGE_SIZE, len in *; lia).
  pose proof (pages_for_bounds cs ltac:(lia)) as [Hcp Hcl].
  pose proof (pages_for_bounds (ds + bss) ltac:(lia)) as [Hdp Hdl].
  pose proof page_bytes_Z as Hpb. change USER_PAGE_SIZE with 8192 in Hcl, Hdl.
  set (k1 := new_kernel p entry page pages' nm k).
  destruct (new_sched p l entry page pages' nm k Hwf Hp Hpage Hpw Hfree Hcode) as [Hwf1 Hsaved1].
  fold k1 in Hwf1, Hsaved1.
  destruct (load_pages_ok txfifo_cnt polls __FILE__ Hdrains code_segment MMU_SPACE_CODE eq_refl eq_refl
    page_addr_code p (Z.to_nat cp) 0 (code ++ data ++ tail) cs (replicate 32 (-1))
    (System (Machine k1 u1) mem) (new_space page))
    as (qc & k2 & sp1 & u2 & mem2 & E1 & Lc & Ld1 & C1 & t1 & P1).
  { apply Hwf1. } { apply new_space_lookup. } { done. } { lia. }
  { unfold free_pages, k1 in *. cbn in *. rewrite Hcode. lia. }
  { rewrite len_app. unfold len. lia. } { lia. }
  replace (Z.min cs _) with cs in E1 by lia. rewrite drop_len in E1. rewrite take_len in C1.
  pose proof (ld_space _ _ _ _ _ _ _ _ Ld1) as [Hsp1 Hb1].
  destruct (ld_kind _ _ _ _ _ _ _ _ Ld1 MMU_SPACE_DATA) as [_ Hfd1]; [done|].
  destruct (load_pages_ok txfifo_cnt polls __FILE__ Hdrains data_segment MMU_SPACE_DATA eq_refl eq_refl
    page_addr_data p (Z.to_nat dp) 0 (data ++ tail) ds (slots code_segment 0 qc (replicate 32 (-1)))
    (System (Machine k2 u2) mem2) sp1)
    as (qd & k3 & sp2 & u3 & mem3 & E2 & Ldl & Ld2 & C2 & t2 & P2).
  { apply Ld1. } { done. } { done. } { lia. }
  { change (Z.to_nat dp <= size (free_pages MMU_SPACE_DATA k2))%nat. 
    assert (free_pages MMU_SPACE_DATA k2 = free_pages MMU_SPACE_DATA k ∖ {[page]}) as ->
      by (rewrite Hfd1; exact Hfree).
    rewrite size_take by done. lia. }
  { rewrite len_app. unfold len. lia. } { lia. }
  rewrite take_len in C2.
  pose proof (loaded_sched _ _ _ _ _ _ _ _ l Ld1 Hwf1) as Hwf2.
  pose proof (loaded_sched _ _ _ _ _ _ _ _ l Ld2 Hwf2) as Hwf3.
  cbn [kern sys] in *.
  assert (k3 = put_mmu (mmu k3) (put_pages (pages k3) k1)) as Hk3.
  { rewrite (ld_rest _ _ _ _ _ _ _ _ Ld2) at 1. rewrite (ld_rest _ _ _ _ _ _ _ _ Ld1) at 1. done. }
  assert (tasks k3 = tasks k1 /\ ucontexts k3 = ucontexts k1 /\ current_task k3 = current_task k1 /\
    frame k3 = frame k1 /\ park_callback k3 = park_callback k1) as (Ht3 & Hu3 & Hc3 & Hf3 & Hcb3).
  { split; [exact (f_equal tasks Hk3)|]. split; [exact (f_equal ucontexts Hk3)|].
    split; [exact (f_equal current_task Hk3)|].
    split; [exact (f_equal frame Hk3)|exact (f_equal park_callback Hk3)]. }
  destruct (ready_task_ok weak_fails fuel Hends k3 l p Hwf3)
    as (k' & E3 & Hwf' & Hc' & Hf' & Hm' & [_ Hpg'] & _ & Hst' & Hrg' & _ & Hcb').
  { unfold task_status. rewrite Ht3. unfold k1. cbn. by rewrite lookup_insert_eq. }
  pose proof (ready_task_layout weak_fails fuel p k3) as Hlay. rewrite E3 in Hlay. cbn in Hlay.
  assert (forall r, task_context k' r = task_context k1 r) as Hctx.
  { intros r. rewrite (layout_context k3 k' r Hlay (Hrg' r)). unfold task_context. by rewrite Ht3, Hu3. }
  destruct (started_space p entry page pages' nm k Hpage qc qd sp1 sp2 k2 k3 ltac:(lia) ltac:(lia) Ld1 Ld2)
    as [Hic Hid].
  exists qc, qd, k', u3, mem3. eexists. exists (t1 ++ t2). split; [|split; [done|split; [done|split]]].
  - change (Z.of_nat 0) with 0 in *. unfold load_both. mrun E1. cbv beta iota. rewrite guard_ok. mrun E2. cbv beta iota.
    rewrite guard_ok. mrun (zoom_ok (H := system_kernel)). { exact E3. } reflexivity.
  - by eapply printed_trans.
  - constructor.
    + done.
    + rewrite Hctx. apply new_context.
    + intros Hk. apply (contexts_owned_layout k3); [done|]. intros x Hx. rewrite Ht3. rewrite Hu3 in Hx.
      by apply (new_owned p entry page pages' nm k Hp Hk).
    + rewrite Hc', Hf', Hcb', Hc3, Hf3, Hcb3. by split_and!.
    + intros r Hr. split; [|split].
      * rewrite Hst' by done. unfold task_status. rewrite Ht3. unfold k1. cbn. by rewrite lookup_insert_ne.
      * intros Hs. by rewrite Hctx, <- Hsaved1.
      * rewrite Hm', (ld_others _ _ _ _ _ _ _ _ Ld2 r Hr), (ld_others _ _ _ _ _ _ _ _ Ld1 r Hr).
        unfold k1. cbn. by rewrite !lookup_insert_ne.
    + exists sp2. rewrite Hm'. split; [apply Ld2|split; assumption].
    + unfold free_pages at 3 5. rewrite Hpg'.
      by apply (started_pages p entry page pages' nm k Hpage Hfree Hcode qc qd sp1 sp2 k2 k3).
    + intros j q x Hj Hx Hlx. rewrite (cp_frame _ _ _ _ _ C2); [by apply (cp_bytes _ _ _ _ _ C1 j)|].
      intros r Hr. assert (q ∈ qc) as Hq by (by eapply list_elem_of_lookup_2).
      apply (ld_taken _ _ _ _ _ _ _ _ Ld1) in Hq. apply (ld_taken _ _ _ _ _ _ _ _ Ld2) in Hr.
      apply (pa_bounded (PageAllocator := code_pages)) in Hq.
      apply (pa_bounded (PageAllocator := data_pages)) in Hr. cbn.
      unfold MAX_PAGE_COUNT, CODE_PAGE_ADDR, DATA_PAGE_ADDR, USER_CODE_BASE, USER_DATA_BASE, USER_PAGE_SIZE in *.
      rewrite !wrapu_small by lia. lia.
    + intros j q x Hj Hx Hlx. by apply (cp_bytes _ _ _ _ _ C2 j).
    + intros a Ha Hb. rewrite (cp_frame _ _ _ _ _ C2) by done. by rewrite (cp_frame _ _ _ _ _ C1).
Qed.
End Success.

(** A good image is loaded: what the ramdisk of Boot.v needs as well. *)
Lemma load_app_ok p task0 l na nm rest code data tail bss entry app_size s :
  let k := kernel_of s in
  sched_wf k l None -> tasks k !! p = None ->
  Forall (fun c => c <> 0 /\ c <> 37) nm -> len nm < 2 ^ 32 - 1 -> u32 na <> 0 ->
  len code <= 15 * USER_PAGE_SIZE -> 0 <= bss -> len data + bss <= 15 * USER_PAGE_SIZE ->
  USER_CODE_BASE <= entry < USER_CODE_BASE + len code ->
  sizeof_app_header <= app_size /\ len code + len data <= app_size ->
  pages_for (len code) <= Z.of_nat (size (free_pages MMU_SPACE_CODE k)) ->
  pages_for (len data + bss) < Z.of_nat (size (free_pages MMU_SPACE_DATA k)) ->
  exists page qc qd k' u' mem' text,
    loader (Some p) task0 na (nm ++ 0 :: rest)
      (app_image (len code) (len data) bss entry (code ++ data ++ tail)) app_size s =
        Ok NO_ERROR (System (Machine k' u') mem') /\
    Z.of_nat (length qc) = pages_for (len code) /\ Z.of_nat (length qd) = pages_for (len data + bss) /\
    app_started p l trampoline entry nm code data page qc qd k k' (user_mem s) mem' /\
    printed text (console (sys s)) u'.
Proof using Hends Hdrains.
  intros k Hwf Hp Hnm Hnl Hna Hcs Hbs Hds Hen Hsize Hfc Hfd.
  assert (0 <= len code /\ 0 <= len data) as [Hc0 Hd0] by (unfold len; lia).
  pose proof (pages_for_bounds (len code) ltac:(lia)) as [Hcp _].
  pose proof (pages_for_bounds (len data + bss) ltac:(lia)) as [Hdp _].
  pose proof (sc_memory _ _ _ Hwf) as Hmem.
  destruct (pa_alloc_cases data_pages (pages k) (kw_pages k Hmem))
    as [[He _]|(page & pages' & Ha & Hinv & Hin & _ & Hpw & Hfree & Hcode)].
  { change (free_pages MMU_SPACE_DATA k = ∅) in He. rewrite He, size_empty in Hfd. lia. }
  destruct (load_body_pages p l na nm rest (code ++ data ++ tail) (len code) (len data) bss entry app_size k
    Hwf Hp Hnm Hnl Hna ltac:(lia) Hd0 Hbs Hds Hen Hsize task0 s page pages' eq_refl Ha Hinv)
    as (u1 & t1 & P1 & E1).
  destruct (load_rest p l nm code data tail bss entry k Hwf Hp Hcs Hbs Hds page pages' u1 (user_mem s) Hin Hpw Hfree Hcode ltac:(lia) ltac:(lia))
    as (qc & qd & k' & u' & mem' & alloc' & t2 & E2 & Lc & Ld & P2 & Hst).
  rewrite E2 in E1. exists page, qc, qd, k', u', mem', (t1 ++ t2). split; [|split; [lia|split; [lia|]]].
  - unfold loader_load_app. mrun E1. reflexivity.
  - split; [done|]. by eapply printed_trans.
Qed.

(** C10: Loading an application. For an image whose header is right and whose pages fit, a
    usable name and enough free pages, the loader returns without error and the new task is
    at the end of the run queue, to start in the trampoline with the entry point of the
    image. Its address space maps as many code and data pages as the sizes ask for, from
    page 0 on, its context page, and nothing else; all of them were free before, no two are
    the same, and they hold the code and the data of the image. No other task, no other
    address space and no other byte of the user pages changes. *)
Theorem loader_load_app_spec p task0 l na nm rest code data tail bss entry app_size s :
  let k := kernel_of s in
  sched_wf k l None -> tasks k !! p = None ->
  Forall (fun c => c <> 0 /\ c <> 37) nm -> len nm < 2 ^ 32 - 1 -> u32 na <> 0 ->
  len code <= 15 * USER_PAGE_SIZE -> 0 <= bss -> len data + bss <= 15 * USER_PAGE_SIZE ->
  USER_CODE_BASE <= entry < USER_CODE_BASE + len code ->
  sizeof_app_header <= app_size /\ len code + len data <= app_size ->
  pages_for (len code) <= Z.of_nat (size (free_pages MMU_SPACE_CODE k)) ->
  pages_for (len data + bss) < Z.of_nat (size (free_pages MMU_SPACE_DATA k)) ->
  exists page qc qd k' u' mem' text,
    loader (Some p) task0 na (nm ++ 0 :: rest)
      (app_image (len code) (len data) bss entry (code ++ data ++ tail)) app_size s =
        Ok NO_ERROR (System (Machine k' u') mem') /\
    Z.of_nat (length qc) = pages_for (len code) /\ Z.of_nat (length qd) = pages_for (len data + bss) /\
    app_started p l trampoline entry nm code data page qc qd k k' (user_mem s) mem' /\
    printed text (console (sys s)) u'.
Proof using Hends Hdrains. exact (load_app_ok p task0 l na nm rest code data tail bss entry app_size s). Qed.

(** ** Refusals *)

Section Failure.
Hypothesis (Hpn : Forall (fun c => c <> 0) __FILE__) (Hpl : len __FILE__ < 2 ^ 32 - 1).

Lemma guard_fail {L} e line s :
  e <> NO_ERROR -> 0 <= line < 2 ^ 31 -> exists u' text, printed text (console (sys s)) u' /\
    forall (l : L) (k : M system (err * L)), guard (CHECK_ERROR txfifo_cnt polls __FILE__ false e line) l k s =
      Ok (e, l) (System (Machine (kernel_of s) u') (user_mem s)).
Proof using Hdrains Hpn Hpl.
  intros He Hline.
  destruct (prints_check_failed txfifo_cnt polls (txt "loader_load_app") __FILE__ line Hdrains
    ltac:(by repeat constructor) ltac:(done) Hpn Hpl Hline e) as (text & Hp).
  destruct (Hp (console (sys s))) as (u' & E & P). exists u', text. split; [done|].
  destruct s as [[k0 u0] mem]. unfold guard, CHECK_ERROR.
  mfirst. { mrun (zoom_ok (H := system_console)). { exact E. } reflexivity. }
  by destruct e.
Qed.

(** With nothing allocated the cleanup only looks at the variable [task]. *)
Lemma cleanup_nothing e task0 s :
  loader_cleanup e (task0, replicate 32 (-1)) s =
    match task0 with Some _ => Stop AssertFailed s | None => Ok tt s end.
Proof using. destruct s as [[k u] mem], task0; reflexivity. Qed.

(** The conditions on the header, as the code evaluates them. *)
Definition header_ok (mg cs ds en app_size : Z) : bool :=
  (mg =? APP_HEADER_MAGIC) && (sizeof_app_header <=? app_size) && (u32 (cs + ds) <=? app_size) &&
  ((USER_CODE_BASE <=? en) && (en <? u32 (USER_CODE_BASE + cs))).

Lemma load_body_refuses mg cs ds bs en bytes task0 heap na name app_size s :
  0 <= mg < 2 ^ 32 -> 0 <= cs < 2 ^ 32 -> 0 <= ds < 2 ^ 32 -> 0 <= en < 2 ^ 32 ->
  header_ok mg cs ds en app_size = false ->
  exists u' text, printed text (console (sys s)) u' /\
    body heap task0 na name (raw_image mg cs ds bs en bytes) app_size s =
      Ok (ERROR_CHECK_FAILED, (task0, replicate 32 (-1))) (System (Machine (kernel_of s) u') (user_mem s)).
Proof using Hdrains Hpn Hpl.
  intros Hmg Hcs Hds Hen Hbad. unfold load_body, header_ok in *.
  assert (forall line (k : M system (err * locals)), 0 <= line < 2 ^ 31 ->
    exists u' text, printed text (console (sys s)) u' /\
    guard (CHECK txfifo_cnt polls __FILE__ false line) (task0, replicate 32 (-1)) k s =
      Ok (ERROR_CHECK_FAILED, (task0, replicate 32 (-1))) (System (Machine (kernel_of s) u') (user_mem s)))
    as Hfail.
  { intros line k Hline.
    destruct (guard_fail (L := locals) ERROR_CHECK_FAILED line s ltac:(done) Hline) as (u' & text & P & E).
    exists u', text. split; [done|]. apply E. }
  rewrite (bind_ok _ _ _ _ _ (header_magic_ok mg cs ds bs en bytes Hmg s)).
  destruct (mg =? APP_HEADER_MAGIC); [|apply Hfail; lia]. rewrite guard_pass by done.
  destruct (sizeof_app_header <=? app_size); [|apply Hfail; lia]. rewrite guard_pass by done.
  rewrite (bind_ok _ _ _ _ _ (header_code_size_ok mg cs ds bs en bytes Hcs s)).
  rewrite (bind_ok _ _ _ _ _ (header_data_size_ok mg cs ds bs en bytes Hds s)).
  destruct (u32 (cs + ds) <=? app_size); [|apply Hfail; lia]. rewrite guard_pass by done.
  rewrite (bind_ok _ _ _ _ _ (header_entry_ok mg cs ds bs en bytes Hen s)).
  destruct (_ && _); [done|apply Hfail; lia].
Qed.

(** C31: A header that fails a check. The loader looks at the variable that should hold the
    task although the jump to the cleanup skips its initialisation: if the variable happens
    to be null the error is returned, nothing having changed but the console; if it holds
    anything else the kernel takes it for a task to release, and stops. *)
Theorem loader_refuses mg cs ds bs en bytes task0 heap na name app_size s :
  0 <= mg < 2 ^ 32 -> 0 <= cs < 2 ^ 32 -> 0 <= ds < 2 ^ 32 -> 0 <= en < 2 ^ 32 ->
  header_ok mg cs ds en app_size = false ->
  exists u' text, printed text (console (sys s)) u' /\
    let s' := System (Machine (kernel_of s) u') (user_mem s) in
    loader heap task0 na name (raw_image mg cs ds bs en bytes) app_size s =
      match task0 with Some _ => Stop AssertFailed s' | None => Ok ERROR_CHECK_FAILED s' end.
Proof using Hdrains Hpn Hpl.
  intros Hmg Hcs Hds Hen Hbad.
  destruct (load_body_refuses mg cs ds bs en bytes task0 heap na name app_size s Hmg Hcs Hds Hen Hbad)
    as (u' & text & P & E).
  exists u', text. split; [done|]. cbv zeta. unfold loader_load_app. rewrite (bind_ok _ _ _ _ _ E).
  unfold when. cbn [IS_ERROR err_code Z.eqb negb Pos.eqb]. unfold mbind, M_bind.
  rewrite cleanup_nothing. by destruct task0.
Qed.

(** *** Out of pages *)
Lemma load_pages_short seg ty p n : 
  seg_alloc seg = pa_alloc (PageAllocator := seg_pages ty) -> seg_space seg = ty ->
  page_addr (seg_addr seg) -> 0 <= (seg_lines seg).1 < 2 ^ 31 ->
  forall i ptr left_ alloc s sp,
  memory_wf (kernel_of s) -> spaces (mmu (kernel_of s)) !! p = Some sp -> binding sp = None ->
  (i + n <= 15)%nat -> (size (free_pages ty (kernel_of s)) < n)%nat ->
  0 <= left_ <= len ptr -> left_ < 2 ^ 32 ->
  exists ptr' alloc' s', length alloc' = length alloc /\
    load_pages txfifo_cnt polls __FILE__ seg p n (Z.of_nat i) ptr left_ alloc s =
      Ok (ERROR_OUT_OF_RESOURCES, (ptr', alloc')) s'.
Proof using Hdrains Hpn Hpl.
  clear Hends. clear weak_fails fuel.
  intros Halloc Hspace Haddr Hlines. induction n as [|n IH];
    intros i ptr left_ alloc s sp Hwf Hsp Hb Hi Hfree Hleft Hl32; [lia|].
  destruct (pa_alloc_cases (seg_pages ty) (pages (kernel_of s)) (kw_pages _ Hwf))
    as [[He Ha]|(q & u & Ha & _ & Hq & _ & Hu & Hf & Hframe)]; rewrite <- Halloc in Ha.
  - destruct s as [[k co] mem]. cbn [kern sys] in *.
    destruct (guard_fail (L := list Z * list Z) ERROR_OUT_OF_RESOURCES (seg_lines seg).1
      (System (Machine k co) mem) ltac:(done) Hlines) as (u' & text & _ & E).
    exists ptr, alloc, (System (Machine k u') mem). split; [done|]. cbn [load_pages].
    mrun (zoom_ok (H := system_pages)). { exact Ha. }
    change (negb (INVALID_PAGE =? -1)) with false. destruct k. apply E.
  - change (q ∈ free_pages ty (kernel_of s)) in Hq.
    pose proof (pa_bounded (PageAllocator := seg_pages ty) _ _ Hq) as Hq16. unfold MAX_PAGE_COUNT in Hq16.
    set (m := Z.min left_ USER_PAGE_SIZE).
    assert (0 <= m <= left_) as Hm by (unfold m, USER_PAGE_SIZE; lia).
    destruct (load_pages_step txfifo_cnt polls __FILE__ Hdrains seg ty Hspace Haddr p n i ptr left_ alloc q u
      s sp Hsp Hb ltac:(lia) Ha Hq16 ltac:(lia) ltac:(lia)) as (u1 & E & _). fold m in E.
    set (s1 := System _ _) in E. set (alloc1 := <[_ := q]> alloc) in E.
    destruct (IH (S i) (drop (Z.to_nat m) ptr) (left_ - m) alloc1 s1 (set_entry ty i (PAGE_ENTRY q) sp))
      as (ptr' & alloc' & s' & Hl & E').
    + by apply map_page_wf; try done; lia.
    + cbn. apply lookup_insert_eq.
    + by destruct ty.
    + lia.
    + assert (size (free_pages ty (kernel_of s)) <> 0%nat) by (apply size_non_empty_iff; set_solver).
      unfold free_pages in * |-. unfold free_pages. cbn. rewrite Hf, size_take by done. lia.
    + unfold len in *. rewrite length_drop. lia.
    + lia.
    + exists ptr', alloc', s'. rewrite E. split; [|exact E']. unfold alloc1 in Hl. by rewrite Hl, length_insert.
Qed.

(** The cleanup ends on the release of the task, whatever pages it gives back before. *)
Lemma cleanup_stops e p alloc s :
  length alloc = 32%nat -> exists s', loader_cleanup e (Some p, alloc) s = Stop AssertFailed s'.
Proof using.
  intros Hl.
  assert (forall ids s, (forall i, i ∈ ids -> 0 <= i < 32) -> exists s', mfor ids (fun i =>
    page ← deref (alloc !! Z.to_nat i);
    when (negb (page =? -1))
      (if i <? MAX_PAGE_COUNT then zoom (umem_free_code_page page) else zoom (umem_free_data_page page)))
    s = Ok tt s') as Hloop.
  { clear s. induction ids as [|i ids IH]; intros s His; [by exists s|].
    destruct (lookup_lt_is_Some_2 alloc (Z.to_nat i)) as [page Hpage].
    { pose proof (His i ltac:(by left)). lia. }
    cbn [mfor]. rewrite Hpage.
    assert (exists s1, when (negb (page =? -1)) (if i <? MAX_PAGE_COUNT then
      zoom (S := system) (umem_free_code_page page) else zoom (umem_free_data_page page)) s = Ok tt s1)
      as [s1 E1] by (unfold when; repeat case_match; eexists; reflexivity).
    destruct (IH s1) as [s' E]; [intros j Hj; apply His; by right|]. exists s'.
    mfirst. { mrun. exact E1. } exact E. }
  destruct (Hloop (seqZ 0 32) s) as [s' E]; [intros i Hi%elem_of_seqZ; lia|].
  eexists. unfold loader_cleanup. cbn [fst snd]. mrun E. reflexivity.
Qed.

Lemma load_no_context p l na nm rest bytes cs ds bss entry app_size s :
  let k := kernel_of s in
  sched_wf k l None -> tasks k !! p = None ->
  0 <= cs <= 15 * USER_PAGE_SIZE -> 0 <= ds -> 0 <= bss -> ds + bss <= 15 * USER_PAGE_SIZE ->
  USER_CODE_BASE <= entry < USER_CODE_BASE + cs ->
  sizeof_app_header <= app_size /\ cs + ds <= app_size ->
  free_pages MMU_SPACE_DATA k = ∅ ->
  exists u', loader (Some p) None na (nm ++ 0 :: rest) (app_image cs ds bss entry bytes) app_size s =
    Ok ERROR_OUT_OF_RESOURCES (System (Machine (put_pid_gen (s8 (m_pid_gen k + 1)) k) u') (user_mem s)).
Proof using Hdrains Hpn Hpl.
  clear Hends. intros k Hwf Hp Hcs Hds0 Hbs Hds Hen Hsize He.
  destruct (image_bounds cs ds bss entry Hcs Hds0 Hbs Hds Hen) as (B1 & B2 & B3 & B4).
  assert (0 <= cs + ds < 2 ^ 32 /\ 0 <= USER_CODE_BASE + cs < 2 ^ 32) as (B5 & B6)
    by (unfold USER_PAGE_SIZE, USER_CODE_BASE in *; lia).
  set (k' := put_pid_gen (s8 (m_pid_gen k + 1)) k).
  destruct (guard_fail (L := locals) ERROR_OUT_OF_RESOURCES 24
    (System (Machine k' (console (sys s))) (user_mem s)) ltac:(done) ltac:(lia)) as (u' & text & _ & E).
  exists u'. destruct s as [[k0 u0] mem]. cbn [sys kern console user_mem] in *. subst k.
  unfold loader_load_app, load_body.
  mfirst.
  { mrun header_magic_ok. { done. } rewrite guard_pass by done. rewrite guard_pass by lia.
    mrun header_code_size_ok. { done. } mrun header_data_size_ok. { done. }
    rewrite guard_pass by (rewrite (wrapu_small 32 (cs + ds)) by lia; lia).
    mrun header_entry_ok. { done. }
    rewrite guard_pass by (rewrite (wrapu_small 32 (USER_CODE_BASE + cs)) by lia; lia).
    mrun (zoom_ok (H := system_kernel)). { apply (create_task_no_page _ _ _ _ _ _ _ k0); [apply Hwf|done|exact He]. }
    apply E. }
  unfold when. cbn [IS_ERROR err_code Z.eqb negb Pos.eqb]. unfold mbind, M_bind. by rewrite cleanup_nothing.
Qed.

(** One of the two loops stops for want of a page. *)
Lemma load_short p l nm code data tail bss entry k page pages' u1 mem :
  sched_wf k l None -> tasks k !! p = None ->
  len code <= 15 * USER_PAGE_SIZE -> 0 <= bss -> len data + bss <= 15 * USER_PAGE_SIZE ->
  page ∈ free_pages MMU_SPACE_DATA k -> umem_wf pages' ->
  pa_free_pages (PageAllocator := data_pages) pages' = free_pages MMU_SPACE_DATA k ∖ {[page]} ->
  m_code_pages pages' = m_code_pages (pages k) ->
  Z.of_nat (size (free_pages MMU_SPACE_CODE k)) < pages_for (len code) \/
  Z.of_nat (size (free_pages MMU_SPACE_DATA k)) <= pages_for (len data + bss) ->
  exists alloc s1, length alloc = 32%nat /\
    load_both p (len code) (len data) bss (code ++ data ++ tail)
      (System (Machine (new_kernel p entry page pages' nm k) u1) mem) =
        Ok (ERROR_OUT_OF_RESOURCES, (Some p, alloc)) s1.
Proof using Hdrains Hpn Hpl.
  clear Hends. intros Hwf Hp Hcs Hbs Hds Hpage Hpw Hfree Hcode Hshort.
  assert (0 <= len code < 2 ^ 32 /\ 0 <= len data < 2 ^ 32) as [B1 B2] by (unfold USER_PAGE_SIZE, len in *; lia).
  pose proof (pages_for_bounds (len code) ltac:(lia)) as [Hcp Hcl].
  pose proof (pages_for_bounds (len data + bss) ltac:(lia)) as [Hdp Hdl].
  pose proof page_bytes_Z as Hpb. change USER_PAGE_SIZE with 8192 in Hcl, Hdl.
  set (k1 := new_kernel p entry page pages' nm k).
  destruct (new_sched p l entry page pages' nm k Hwf Hp Hpage Hpw Hfree Hcode) as [Hwf1 _].
  fold k1 in Hwf1.
  assert (free_pages MMU_SPACE_CODE k1 = free_pages MMU_SPACE_CODE k) as Hfc
    by (unfold free_pages, k1; cbn; by rewrite Hcode).
  assert (len (code ++ data ++ tail) = len code + len (data ++ tail) /\
    len (data ++ tail) = len data + len tail /\ 0 <= len tail) as (Hl1 & Hl2 & Hl3)
    by (rewrite !len_app; unfold len; lia).
  destruct (decide (Z.of_nat (size (free_pages MMU_SPACE_CODE k)) < pages_for (len code))) as [Hlt|Hge].
  - destruct (load_pages_short code_segment MMU_SPACE_CODE p (Z.to_nat (pages_for (len code))) eq_refl eq_refl
      page_addr_code ltac:(cbn; lia) 0 (code ++ data ++ tail) (len code) (replicate 32 (-1))
      (System (Machine k1 u1) mem) (new_space page)) as (ptr' & alloc' & s' & Hl & E).
    { apply Hwf1. } { apply new_space_lookup. } { done. } { lia. }
    { change (kernel_of _) with k1. rewrite Hfc. lia. } { lia. } { lia. }
    exists alloc', s'. split; [by rewrite Hl, length_replicate|].
    change (Z.of_nat 0) with 0 in *. unfold load_both. mrun E. reflexivity.
  - destruct Hshort as [|Hshort]; [done|].
    destruct (load_pages_ok txfifo_cnt polls __FILE__ Hdrains code_segment MMU_SPACE_CODE eq_refl eq_refl
      page_addr_code p (Z.to_nat (pages_for (len code))) 0 (code ++ data ++ tail) (len code) (replicate 32 (-1))
      (System (Machine k1 u1) mem) (new_space page))
      as (qc & k2 & sp1 & u2 & mem2 & E1 & Lc & Ld1 & C1 & t1 & P1).
    { apply Hwf1. } { apply new_space_lookup. } { done. } { lia. }
    { change (kernel_of _) with k1. rewrite Hfc. lia. } { lia. } { lia. }
    replace (Z.min (len code) _) with (len code) in E1 by lia. rewrite drop_len in E1.
    pose proof (ld_space _ _ _ _ _ _ _ _ Ld1) as [Hsp1 Hb1].
    destruct (ld_kind _ _ _ _ _ _ _ _ Ld1 MMU_SPACE_DATA) as [_ Hfd1]; [done|].
    destruct (load_pages_short data_segment MMU_SPACE_DATA p (Z.to_nat (pages_for (len data + bss))) eq_refl
      eq_refl page_addr_data ltac:(cbn; lia) 0 (data ++ tail) (len data)
      (slots code_segment 0 qc (replicate 32 (-1))) (System (Machine k2 u2) mem2) sp1)
      as (ptr' & alloc' & s' & Hl & E2).
    { apply Ld1. } { done. } { done. } { lia. }
    { change (kernel_of _) with k2.
      assert (free_pages MMU_SPACE_DATA k2 = free_pages MMU_SPACE_DATA k ∖ {[page]}) as ->
        by (rewrite Hfd1; exact Hfree).
      rewrite size_take by done.
      assert (size (free_pages MMU_SPACE_DATA k) <> 0%nat) by (apply size_non_empty_iff; set_solver).
      lia. }
    { lia. } { lia. }
    exists alloc', s'. split; [by rewrite Hl, length_slots, length_replicate|].
    change (Z.of_nat 0) with 0 in *. unfold load_both. mrun E1. cbv beta iota. rewrite guard_ok.
    mrun E2. reflexivity.
Qed.

(** C30: Running out of pages. Without a page for the context of the task the loader returns
    the error and only a process number is lost. When the pages for the context are there
    but not all those of the image, the error path releases the task, which fails an
    assertion: the kernel stops. *)
Theorem loader_out_of_pages p l na nm rest code data tail bss entry app_size s :
  let k := kernel_of s in
  sched_wf k l None -> tasks k !! p = None ->
  Forall (fun c => c <> 0 /\ c <> 37) nm -> len nm < 2 ^ 32 - 1 -> u32 na <> 0 ->
  len code <= 15 * USER_PAGE_SIZE -> 0 <= bss -> len data + bss <= 15 * USER_PAGE_SIZE ->
  USER_CODE_BASE <= entry < USER_CODE_BASE + len code ->
  sizeof_app_header <= app_size /\ len code + len data <= app_size ->
  let run := loader (Some p) None na (nm ++ 0 :: rest)
    (app_image (len code) (len data) bss entry (code ++ data ++ tail)) app_size s in
  (free_pages MMU_SPACE_DATA k = ∅ -> exists u',
     run = Ok ERROR_OUT_OF_RESOURCES
       (System (Machine (put_pid_gen (s8 (m_pid_gen k + 1)) k) u') (user_mem s))) /\
  (free_pages MMU_SPACE_DATA k <> ∅ ->
   Z.of_nat (size (free_pages MMU_SPACE_CODE k)) < pages_for (len code) \/
   Z.of_nat (size (free_pages MMU_SPACE_DATA k)) <= pages_for (len data + bss) ->
   exists s', run = Stop AssertFailed s').
Proof using Hends Hdrains Hpn Hpl.
  intros k Hwf Hp Hnm Hnl Hna Hcs Hbs Hds Hen Hsize run.
  assert (0 <= len code /\ 0 <= len data) as [Hc0 Hd0] by (unfold len; lia).
  pose proof (sc_memory _ _ _ Hwf) as Hmem. split.
  - intros He. apply (load_no_context p l na nm rest (code ++ data ++ tail)); try done; lia.
  - intros Hne Hshort.
    destruct (pa_alloc_cases data_pages (pages k) (kw_pages k Hmem))
      as [[He _]|(page & pages' & Ha & Hinv & Hin & _ & Hpw & Hfree & Hcode)]; [done|].
    destruct (load_body_pages p l na nm rest (code ++ data ++ tail) (len code) (len data) bss entry app_size k
      Hwf Hp Hnm Hnl Hna ltac:(lia) Hd0 Hbs Hds Hen Hsize None s page pages' eq_refl Ha Hinv)
      as (u1 & t1 & _ & E1).
    destruct (load_short p l nm code data tail bss entry k page pages' u1 (user_mem s)
      Hwf Hp Hcs Hbs Hds Hin Hpw Hfree Hcode Hshort) as (alloc & s1 & Hl & E2).
    destruct (cleanup_stops ERROR_OUT_OF_RESOURCES p alloc s1 Hl) as [s' E3].
    exists s'. unfold run, loader_load_app. rewrite (bind_ok _ _ _ _ _ (eq_trans E1 E2)).
    apply bind_stop. exact E3.
Qed.
End Failure.

(** The size check does not count the header. An image whose code and data sizes add up to
    what the file holds, header included, passes all checks, and the loader then copies up
    to twenty bytes from behind the end of the file. *)
Theorem loader_overruns p task0 l na nm rest bytes cs bss entry s :
  let k := kernel_of s in let app_size := sizeof_app_header + len bytes in
  sched_wf k l None -> tasks k !! p = None ->
  Forall (fun c => c <> 0 /\ c <> 37) nm -> len nm < 2 ^ 32 - 1 -> u32 na <> 0 ->
  cs <= 15 * USER_PAGE_SIZE -> 0 <= bss <= 15 * USER_PAGE_SIZE ->
  USER_CODE_BASE <= entry < USER_CODE_BASE + cs ->
  len bytes < cs <= app_size ->
  pages_for cs <= Z.of_nat (size (free_pages MMU_SPACE_CODE k)) ->
  free_pages MMU_SPACE_DATA k <> ∅ ->
  header_ok APP_HEADER_MAGIC cs 0 entry app_size = true /\
  exists s', loader (Some p) task0 na (nm ++ 0 :: rest) (app_image cs 0 bss entry bytes) app_size s =
    Stop Fault s'.
Proof using Hends Hdrains.
  intros k app_size Hwf Hp Hnm Hnl Hna Hcs Hbs Hen Hover Hfc Hfd.
  assert (0 <= len bytes) as Hb0 by (unfold len; lia).
  pose proof (pages_for_bounds cs ltac:(lia)) as [Hcp Hcl].
  change USER_PAGE_SIZE with 8192 in Hcs, Hbs, Hcl. unfold sizeof_app_header in app_size.
  split.
  { unfold header_ok, app_size, sizeof_app_header, USER_CODE_BASE in *. rewrite !wrapu_small by lia. lia. }
  destruct (pa_alloc_cases data_pages (pages k) (kw_pages k (sc_memory _ _ _ Hwf)))
    as [[He _]|(page & pages' & Ha & Hinv & Hin & _ & Hpw & Hfree & Hcode)]; [done|].
  destruct (load_body_pages p l na nm rest bytes cs 0 bss entry app_size k
    Hwf Hp Hnm Hnl Hna ltac:(unfold USER_PAGE_SIZE; lia) ltac:(lia) ltac:(lia)
    ltac:(unfold USER_PAGE_SIZE; lia) Hen ltac:(unfold sizeof_app_header, app_size; lia) task0 s page pages'
    eq_refl Ha Hinv) as (u1 & t1 & _ & E1).
  destruct (new_sched p l entry page pages' nm k Hwf Hp Hin Hpw Hfree Hcode) as [Hwf1 _].
  destruct (load_pages_overrun txfifo_cnt polls __FILE__ Hdrains code_segment MMU_SPACE_CODE eq_refl eq_refl
    page_addr_code p (Z.to_nat (pages_for cs)) 0 bytes cs (replicate 32 (-1))
    (System (Machine (new_kernel p entry page pages' nm k) u1) (user_mem s)) (new_space page))
    as (s' & E2).
  { apply Hwf1. } { apply new_space_lookup. } { done. } { lia. }
  { unfold free_pages in *. cbn in *. rewrite Hcode. lia. }
  { rewrite Nat2Z.inj_mul, page_bytes_Z. lia. } { lia. }
  exists s'. unfold loader_load_app. apply bind_stop. rewrite E1. unfold load_both. apply bind_stop.
  exact E2.
Qed.
End App.

(** ** Examples *)
Definition ex_system (k : kernel) : system := System (Machine k (Uart 0 [] 0)) ∅.

(** Four bytes of code and two of data, as the file "init". *)
Definition ex_code : list Z := [1; 2; 3; 4].
Definition ex_data : list Z := [5; 6].

(** The kernel with one free data page. *)
Definition ex_short : kernel := put_pages {| m_code_pages := 0x7fff; m_data_pages := 1 |} ex_kernel.

Lemma ex_short_sched : sched_wf ex_short [] None.
Proof.
  destruct ex_kernel_sched as [H1 H2 H3 H4 H5 H6]. constructor; try done.
  destruct H1 as [K1 K2 K3 K4 K5 K6 K7]. constructor; try done.
Qed.

Lemma loader_load_app_spec_witness :
  exists s', loader_load_app never_fails 1 ex_fifo 1 0x4009E000 [] (Some 1%positive) None 4096
      (ex_text ++ 0 :: [])
      (app_image 4 2 0 USER_CODE_BASE (ex_code ++ ex_data ++ [])) 26 (ex_system ex_kernel) = Ok NO_ERROR s' /\
    sched_wf (kern (sys s')) [1%positive] None.
Proof.
  destruct (loader_load_app_spec never_fails 1 ex_fifo 1 0x4009E000 [] never_fails_ends ex_drains
    1 None [] 4096 ex_text [] ex_code ex_data [] 0 USER_CODE_BASE 26 (ex_system ex_kernel))
    as (page & qc & qd & k' & u' & mem' & text & E & _ & _ & H & _); cycle -1.
  { eexists. split; [exact E|]. exact (as_sched _ _ _ _ _ _ _ _ _ _ _ _ _ _ H). }
  all: try exact ex_kernel_sched.
  all: try (vm_compute; reflexivity).
  all: try (split; vm_compute; (reflexivity || discriminate)).
  all: try (vm_compute; discriminate).
  all: repeat constructor; discriminate.
Defined.

Lemma loader_refuses_witness :
  exists s', loader_load_app never_fails 1 ex_fifo 1 0x4009E000 [] (Some 1%positive) (Some 7%positive) 4096 ex_text
    (raw_image 0 4 2 0 USER_CODE_BASE []) 26 (ex_system ex_kernel) = Stop AssertFailed s'.
Proof.
  destruct (loader_refuses never_fails 1 ex_fifo 1 0x4009E000 [] ex_drains ltac:(constructor) ltac:(reflexivity)
    0 4 2 0 USER_CODE_BASE [] (Some 7%positive) (Some 1%positive) 4096 ex_text 26 (ex_system ex_kernel))
    as (u' & text & _ & E); cycle -1.
  { eexists. exact E. }
  all: try (vm_compute; reflexivity).
  all: split; vm_compute; (reflexivity || discriminate).
Defined.

Lemma loader_out_of_pages_witness :
  exists s', loader_load_app never_fails 1 ex_fifo 1 0x4009E000 [] (Some 1%positive) None 4096
      (ex_text ++ 0 :: [])
      (app_image 4 2 0 USER_CODE_BASE (ex_code ++ ex_data ++ [])) 26 (ex_system ex_short) = Stop AssertFailed s'.
Proof.
  destruct (loader_out_of_pages never_fails 1 ex_fifo 1 0x4009E000 [] never_fails_ends ex_drains
    ltac:(constructor) ltac:(reflexivity)
    1 [] 4096 ex_text [] ex_code ex_data [] 0 USER_CODE_BASE 26 (ex_system ex_short))
    as [_ E]; cycle -1.
  { apply E; [|right]; vm_compute; discriminate. }
  all: try exact ex_short_sched.
  all: try (vm_compute; reflexivity).
  all: try (split; vm_compute; (reflexivity || discriminate)).
  all: try (vm_compute; discriminate).
  all: repeat constructor; discriminate.
Defined.

Lemma loader_overruns_witness :
  exists s', loader_load_app never_fails 1 ex_fifo 1 0x4009E000 [] (Some 1%positive) None 4096
      (ex_text ++ 0 :: [])
      (app_image 24 0 0 USER_CODE_BASE ex_code) 24 (ex_system ex_kernel) = Stop Fault s'.
Proof.
  destruct (loader_overruns never_fails 1 ex_fifo 1 0x4009E000 [] never_fails_ends ex_drains
    1 None [] 4096 ex_text [] ex_code 24 0 USER_CODE_BASE (ex_system ex_kernel))
    as (_ & s' & E); cycle -1.
  { exists s'. exact E. }
  all: try exact ex_kernel_sched.
  all: try (vm_compute; reflexivity).
  all: try (split; vm_compute; (reflexivity || discriminate)).
  all: try (vm_compute; discriminate).
  all: repeat constructor; discriminate.
Defined.
