(* ===== verification/Vm.v ===== *)
(** * The machine that the kernel promises to its tasks

    Every task has registers and a memory of its own, in pages of code and of data. One task
    runs; the others wait in a queue for their turn, or for good. The running task computes,
    writes to its pages and gives up its turn; no step reaches another task. *)
From Stdlib Require Import ZArith Lia.
From stdpp Require Import base tactics numbers list gmap.
From S2P Require Import Prelude Umem Mmu Task.

Record vm := Vm {
  vm_current : loc;
  vm_queue : list loc;
  vm_regs : loc -> option task_regs;
  vm_pages : loc -> mmu_space_type -> nat -> bool;
  vm_memory : loc -> mmu_space_type -> nat -> Z -> option Z;
}.

#[export] Instance space_type_eq_dec : EqDecision mmu_space_type.
Proof. solve_decision. Defined.

Definition vm_set_regs (r : task_regs) (a : vm) : vm :=
  Vm (vm_current a) (vm_queue a)
    (fun p => if decide (p = vm_current a) then Some r else vm_regs a p) (vm_pages a) (vm_memory a).

(** The byte [b] at offset [o] of the page [v] of the running task. *)
Definition vm_write (ty : mmu_space_type) (v : nat) (o b : Z) (a : vm) : vm :=
  Vm (vm_current a) (vm_queue a) (vm_regs a) (vm_pages a)
    (fun p ty' v' o' =>
      if decide (p = vm_current a /\ ty' = ty /\ v' = v /\ o' = o) then Some b else vm_memory a p ty' v' o').

Definition vm_switch (p : loc) (l : list loc) (a : vm) : vm :=
  Vm p l (vm_regs a) (vm_pages a) (vm_memory a).

Inductive vm_step (a : vm) : vm -> Prop :=
  | vm_compute r : vm_step a (vm_set_regs r a)
  | vm_store ty v o b : vm_pages a (vm_current a) ty v = true -> 0 <= o < USER_PAGE_SIZE ->
      vm_step a (vm_write ty v o b a)
  | vm_yield p l : vm_queue a ++ [vm_current a] = p :: l -> vm_step a (vm_switch p l a)
  | vm_park p l : vm_queue a = p :: l -> vm_step a (vm_switch p l a).

(** A step of the task [c]. *)
Definition vm_step_by (c : loc) (a a' : vm) : Prop := vm_current a = c /\ vm_step a a'.

(** What a task has: its registers, its pages and what is in them. *)
Definition vm_same (p : loc) (a a' : vm) : Prop :=
  vm_regs a' p = vm_regs a p /\ (forall ty v, vm_pages a' p ty v = vm_pages a p ty v) /\
  (forall ty v o, vm_memory a' p ty v o = vm_memory a p ty v o).

#[export] Instance vm_same_equiv p : Equivalence (vm_same p).
Proof.
  split.
  - by intros a.
  - intros a b (H1 & H2 & H3). by split_and!.
  - intros a b c (H1 & H2 & H3) (H4 & H5 & H6).
    split_and!; [by rewrite H4|intros; by rewrite H5|intros; by rewrite H6].
Qed.

Lemma vm_step_away c p a a' : vm_step_by c a a' -> p <> c -> vm_same p a a'.
Proof.
  intros [<- Hs] Hp. destruct Hs; [|..]; (split; [|split]); try done; cbn; intros.
  - by rewrite decide_False.
  - rewrite decide_False; [done|]. by intros (? & _).
Qed.

Lemma vm_steps_away c p a a' : rtc (vm_step_by c) a a' -> p <> c -> vm_same p a a'.
Proof.
  intros Hs Hp. induction Hs as [a|a b a' Hab _ IH]; [done|].
  transitivity b; [by eapply vm_step_away|done].
Qed.

(** A task that neither runs nor waits in the queue never runs again. *)
Definition vm_out (p : loc) (a : vm) : Prop := vm_current a <> p /\ p ∉ vm_queue a.

Lemma vm_step_out p a a' : vm_step a a' -> vm_out p a -> vm_out p a'.
Proof.
  intros Hs [Hc Hq]. destruct Hs as [r|ty v o b|q l E|q l E]; try done; split; cbn.
  - intros ->. assert (p ∈ vm_queue a ++ [vm_current a]) as H by (rewrite E; by left).
    apply elem_of_app in H as [H|H%list_elem_of_singleton]; [done|by subst].
  - intros H. assert (p ∈ vm_queue a ++ [vm_current a]) as H' by (rewrite E; by right).
    apply elem_of_app in H' as [H'|H'%list_elem_of_singleton]; [done|by subst].
  - intros ->. apply Hq. rewrite E. by left.
  - intros H. apply Hq. rewrite E. by right.
Qed.
