(* ===== verification/Running.v ===== *)
(** * Running user code on the kernel

    After boot the machine alternates between the code of the current task and the entries
    into the kernel. User code is arbitrary: it computes, it writes wherever the hardware
    lets it, it makes any system call; the watchdog and other devices interrupt it at any
    time. [run_step] is one step of the whole system (Loader.v).

    The processor checks an access to the user areas against the table of its kind: the entry
    of a physical page names the virtual page and the PID that may use it. While a task runs
    the PID is the one that the kernel prepared ([pid_new_reg]); the exception exit enters
    it. The page of a user context is the structure of Task.v, every other page is bytes. *)
From Stdlib Require Import ZArith Lia Ascii String.
From stdpp Require Import base tactics numbers list gmap.
From S2P Require Import Prelude Umem Mmu Timg Printf Console Task Scheduler SchedSpec Syscall.
From S2P Require Import Interrupts Loader.

Abbreviation kernel_of s := (kern (sys s)).
Definition put_kernel (k : kernel) (s : system) : system :=
  System (Machine k (console (sys s))) (user_mem s).

(** ** The bytes of a user context: task_ucontext_t and task_regs_t, in order *)
Definition sizeof_task_ucontext : Z := STACK_SIZE + 64 + TASK_REGS_SIZE.
Definition context_bytes (u : task_ucontext) : list Z := stack u ++ name u ++ regs_bytes (regs u).

Definition le_value (bs : list Z) : Z := foldr (fun b v => b .| v .<< 8) 0 bs.
Definition regs_of_bytes (bs : list Z) : task_regs :=
  let word (i : nat) := le_value (take 4 (drop (4 * i) bs)) in
  TaskRegs (word <$> seq 0 64) (word 64%nat) (word 65%nat) (word 66%nat) (word 67%nat) (word 68%nat)
    (word 69%nat) (word 70%nat) (word 71%nat) (le_value (take 2 (drop 288 bs)))
    (le_value (take 2 (drop 290 bs))).

(** Writing the byte at offset [o]. *)
Definition store_context (o b : Z) (u : task_ucontext) : task_ucontext :=
  if o <? STACK_SIZE then TaskUcontext (<[Z.to_nat o := b]> (stack u)) (name u) (regs u)
  else if o <? STACK_SIZE + 64 then
    TaskUcontext (stack u) (<[Z.to_nat (o - STACK_SIZE) := b]> (name u)) (regs u)
  else set_regs (regs_of_bytes (<[Z.to_nat (o - (STACK_SIZE + 64)) := b]> (regs_bytes (regs u)))) u.

(** ** Physical data pages: offset [o] of page [q] *)
Definition load_data (q o : Z) (s : system) : option Z :=
  match ucontexts (kernel_of s) !! DATA_PAGE_ADDR q with
  | Some u =>
      if o <? sizeof_task_ucontext then context_bytes u !! Z.to_nat o
      else user_mem s !! (DATA_PAGE_ADDR q + o)
  | None => user_mem s !! (DATA_PAGE_ADDR q + o)
  end.

Definition store_bytes (a b : Z) (s : system) : system := System (sys s) (<[a := b]> (user_mem s)).

Definition store_data (q o b : Z) (s : system) : system :=
  match ucontexts (kernel_of s) !! DATA_PAGE_ADDR q with
  | Some u =>
      if o <? sizeof_task_ucontext then
        put_kernel (put_ucontexts (<[DATA_PAGE_ADDR q := store_context o b u]> (ucontexts (kernel_of s)))
          (kernel_of s)) s
      else store_bytes (DATA_PAGE_ADDR q + o) b s
  | None => store_bytes (DATA_PAGE_ADDR q + o) b s
  end.

(** ** Accesses of user code *)

(** The physical page behind the virtual page [v] for a PID. *)
Definition hw_page (t : list table_reg) (pid : Z) (v : Z) : option Z :=
  (fun x => Z.of_nat x.1) <$> list_find (fun r => address r = v /\ access_rights r = pid) t.

Definition page_offset (base a : Z) : Z := u32 (a - base) mod USER_PAGE_SIZE.

(** Writing a byte; refused where no page is granted. (The vDSO page is granted to all, but
    is no task's; its contents are not part of the state.) *)
Definition user_store (a b : Z) : M system bool := fun s =>
  let m := mmu (kernel_of s) in
  if DATA_PAGE_INDEX a <? MAX_PAGE_COUNT then
    match hw_page (dmmu_table m) (pid_new_reg m) (DATA_PAGE_INDEX a) with
    | Some q => Ok true (store_data q (page_offset USER_DATA_BASE a) (u8 b) s)
    | None => Ok false s
    end
  else if CODE_PAGE_INDEX a <? VDSO_PAGE_INDEX then
    match hw_page (immu_table m) (pid_new_reg m) (CODE_PAGE_INDEX a) with
    | Some q => Ok true (store_bytes (CODE_PAGE_ADDR q + page_offset USER_CODE_BASE a) (u8 b) s)
    | None => Ok false s
    end
  else Ok false s.

(** What the kernel reads at a physical address of the data area: up to its end, or to a byte
    that nobody has written. *)
Fixpoint bytes_from (n : nat) (a : Z) (s : system) : list Z :=
  match n with
  | O => []
  | S n' =>
      match load_data (DATA_PAGE_INDEX a) (page_offset USER_DATA_BASE a) s with
      | Some b => b :: bytes_from n' (a + 1) s
      | None => []
      end
  end.
Definition user_data (s : system) (a : Z) : list Z := bytes_from (Z.to_nat (0x3FFE0000 - a)) a s.

(** ** The entries into the kernel, and the steps *)

(** Interrupts during the sleep of the idle loop only log: they wake no task. *)
Definition no_wakeup : nat -> M kernel unit := fun _ => mret tt.

Section Running.
Context (weak_fails : nat -> bool) (fuel sleeps : nat) (call : Z -> Z -> M kernel unit).
Context (txfifo_cnt : nat -> Z) (polls : nat) (__FILE__ : list Z).

Definition enter_syscall : M system unit := fun s =>
  zoom (T := machine) (common_syscall_handler weak_fails fuel no_wakeup sleeps call txfifo_cnt polls
    (user_data s) __FILE__) s.

Definition enter_interrupt (status : list Z) : M system unit :=
  zoom (T := machine) (common_interrupt_handler weak_fails fuel no_wakeup sleeps txfifo_cnt polls status).

Inductive run_step (s : system) : system -> Prop :=
  | run_compute r : length (ar r) = 64%nat -> run_step s (put_kernel (put_frame r (kernel_of s)) s)
  | run_store a b s' : user_store a b s = Ok true s' -> run_step s s'
  | run_syscall s' : enter_syscall s = Ok tt s' -> run_step s s'
  | run_interrupt status s' : length status = 3%nat -> enter_interrupt status s = Ok tt s' -> run_step s s'
  | run_time w : run_step s (put_kernel (put_wdt w (kernel_of s)) s).
End Running.
