(* ===== verification/RunningSpec.v ===== *)
(** * Tasks on the running kernel

    The invariant of the running system ([running]) and the simulation: whatever user code
    does, every step of the system is one of the task that runs, on the machine of Vm.v. So
    every task keeps its registers, its pages and their contents while others run. *)
From Stdlib Require Import ZArith Lia Ascii String.
From stdpp Require Import base tactics numbers list gmap.
From S2P Require Import Prelude Umem Mmu MmuInv MmuSpec Dport Timg Printf PrintfSpec Console Task.
From S2P Require Import TaskSpec Scheduler SchedSpec SchedThm Syscall SyscallSpec Interrupts Layout.
From S2P Require Import InterruptsSpec Loader LoaderSpec Vm Running.

(** ** What a task sees *)
Definition regs_of (k : kernel) (p : loc) : option task_regs :=
  if decide (current_task k = Some p) then Some (frame k) else saved_regs k p.

Definition page_of (k : kernel) (p : loc) (ty : mmu_space_type) (v : nat) : option Z :=
  sp ← spaces (mmu k) !! p; e ← space_entries ty sp !! v; if mapped e then Some (phys e) else None.

(** Where the kernel saves the registers: the one part of its pages a task cannot rely on. *)
Definition saved_area (ty : mmu_space_type) (v : nat) (o : Z) : bool :=
  bool_decide (ty = MMU_SPACE_DATA /\ v = 15%nat /\ STACK_SIZE + 64 <= o < sizeof_task_ucontext).

Definition page_byte (s : system) (ty : mmu_space_type) (q o : Z) : option Z :=
  match ty with
  | MMU_SPACE_CODE => user_mem s !! (CODE_PAGE_ADDR q + o)
  | MMU_SPACE_DATA => load_data q o s
  end.

Definition private_byte (s : system) (p : loc) (ty : mmu_space_type) (v : nat) (o : Z) : option Z :=
  q ← page_of (kernel_of s) p ty v;
  if bool_decide (0 <= o < USER_PAGE_SIZE) && negb (saved_area ty v o) then page_byte s ty q o else None.

Lemma page_of_maps k p ty v q :
  page_of k p ty v = Some q <->
  exists sp, spaces (mmu k) !! p = Some sp /\ maps (space_entries ty sp) v q.
Proof.
  unfold page_of, maps. split.
  - destruct (spaces (mmu k) !! p) as [sp|]; [|done]. cbn.
    destruct (space_entries ty sp !! v) as [[ph tp]|] eqn:E; [|done]. cbn.
    unfold mapped. cbn. case_bool_decide as Ht; [|done]. subst. intros [= ->]. eauto.
  - intros (sp & -> & E). cbn. by rewrite E.
Qed.

Lemma page_of_tables k k' p ty v : same_tables k k' -> page_of k' p ty v = page_of k p ty v.
Proof.
  intros H. specialize (H p). unfold page_of.
  destruct (spaces (mmu k') !! p) as [sp'|], (spaces (mmu k) !! p) as [sp|]; try done.
  injection H as Hi Hd. cbn. by destruct ty; cbn; rewrite ?Hi, ?Hd.
Qed.

Section Pages.
Context (k : kernel).
Hypothesis (Hwf : memory_wf k).

Lemma page_of_range p ty v q : page_of k p ty v = Some q -> 0 <= q < 16 /\ (v < 16)%nat.
Proof using Hwf.
  intros (sp & Hsp & Hm)%page_of_maps. pose proof (mw_space _ (kw_mmu k Hwf) _ _ Hsp) as Hs.
  pose proof (lookup_lt_Some _ _ _ Hm) as Hv.
  destruct (sw_immu sp Hs) as (L1 & R1 & _), (sw_dmmu sp Hs) as (L2 & R2 & _).
  unfold VDSO_PAGE_INDEX, MAX_PAGE_COUNT in *.
  destruct ty; cbn in *; [specialize (R1 _ _ Hm)|specialize (R2 _ _ Hm)]; lia.
Qed.

(** A physical page belongs to one task, at one virtual page. *)
Lemma page_of_unique p p' ty v v' q :
  page_of k p ty v = Some q -> page_of k p' ty v' = Some q -> p = p' /\ v = v'.
Proof using Hwf.
  intros (sp & Hsp & Hm)%page_of_maps (sp' & Hsp' & Hm')%page_of_maps.
  pose proof (kw_mmu k Hwf) as Hmmu.
  assert (p = p') as <-.
  { destruct ty; [by eapply (mw_code_disjoint _ Hmmu p p' sp sp')|by eapply (mw_data_disjoint _ Hmmu p p' sp sp')]. }
  rewrite Hsp in Hsp'. injection Hsp' as <-. split; [done|].
  pose proof (mw_space _ Hmmu _ _ Hsp) as Hs.
  destruct (sw_immu sp Hs) as (_ & _ & I1), (sw_dmmu sp Hs) as (_ & _ & I2).
  destruct ty; [by eapply I1|by eapply I2].
Qed.

(** The page of a user context is page 15 of its task. *)
Lemma context_page p v q :
  contexts_owned k -> page_of k p MMU_SPACE_DATA v = Some q ->
  is_Some (ucontexts k !! DATA_PAGE_ADDR q) ->
  v = 15%nat /\ exists t u, tasks k !! p = Some t /\ ucontext t = DATA_PAGE_ADDR q /\
    ucontexts k !! ucontext t = Some u.
Proof using Hwf.
  intros Hown Hq [u Hu]. destruct (Hown (DATA_PAGE_ADDR q)) as (r & t & Ht & E); [eauto|].
  destruct (kw_ucontext k Hwf r t Ht) as (q' & sp & Hsp & Hm & Ha & _).
  assert (page_of k r MMU_SPACE_DATA 15 = Some q') as Hq' by (apply page_of_maps; eauto).
  pose proof (page_of_range _ _ _ _ Hq). pose proof (page_of_range _ _ _ _ Hq').
  assert (q = q') as <- by (apply data_page_addr_inj; unfold MAX_PAGE_COUNT; [lia..|congruence]).
  destruct (page_of_unique _ _ _ _ _ _ Hq Hq') as [-> ->]. split; [done|].
  exists t, u. by rewrite E.
Qed.
End Pages.

(** ** The running system *)
Definition context_shape (u : task_ucontext) : Prop :=
  length (stack u) = 4096%nat /\ length (name u) = 64%nat /\ length (ar (regs u)) = 64%nat.

Record running (s : system) (c : loc) (l : list loc) : Prop := {
  rn_sched : sched_wf (kernel_of s) l None;
  rn_current : current_task (kernel_of s) = Some c;
  rn_switched : switched_to c (mmu (kernel_of s));
  rn_park : park_callback (kernel_of s) = None;
  rn_owned : contexts_owned (kernel_of s);
  rn_shape : forall p u, task_context (kernel_of s) p = Some u -> context_shape u;
  rn_frame : length (ar (frame (kernel_of s))) = 64%nat;
}.

Lemma length_store count text mem : 0 <= count <= len mem -> length (store count text mem) = length mem.
Proof.
  intros Hc. unfold store. destruct (count =? 0) eqn:E; [done|]. rewrite length_insert.
  unfold overlay, len in *. rewrite length_app, length_take, length_drop. lia.
Qed.

Lemma fresh_context_shape trampoline entry nm : context_shape (fresh_ucontext trampoline entry nm).
Proof. split; [done|]. split; [|done]. cbn [name fresh_ucontext]. by rewrite length_store. Qed.

(** ** Bytes of a context *)
Lemma length_le_bytes n v : 0 <= n -> length (le_bytes n v) = Z.to_nat n.
Proof. intros Hn. unfold le_bytes. by rewrite length_fmap, length_seqZ. Qed.

Lemma length_words ws : length (concat (le_bytes 4 <$> ws)) = (4 * length ws)%nat.
Proof.
  induction ws as [|w ws IH]; [done|]. cbn [fmap list_fmap concat length].
  rewrite length_app, IH, length_le_bytes by lia. lia.
Qed.

Lemma length_regs_bytes r : length (ar r) = 64%nat -> length (regs_bytes r) = 292%nat.
Proof.
  intros H. unfold regs_bytes. rewrite !length_app, length_words, length_app, H, !length_le_bytes by lia.
  cbn [length]. lia.
Qed.

Lemma length_context_bytes u : context_shape u -> length (context_bytes u) = 4452%nat.
Proof.
  intros (H1 & H2 & H3). unfold context_bytes. rewrite !length_app, H1, H2, length_regs_bytes by done. lia.
Qed.

(** ** The registers, as the bytes of a structure *)
Definition regs_typed (r : task_regs) : Prop :=
  length (ar r) = 64%nat /\
  Forall (fun v => 0 <= v < 2 ^ 32) (ar r ++ [sar r; lbeg r; lend r; lcount r; pc r; ps r; windowbase r;
    windowstart r]) /\
  0 <= windowmask r < 2 ^ 16 /\ 0 <= windowsize r < 2 ^ 16.

Lemma le_bytes_S n v : le_bytes (Z.of_nat (S n)) v = u8 v :: le_bytes (Z.of_nat n) (v .>> 8).
Proof.
  unfold le_bytes, seqZ. rewrite !Nat2Z.id. cbn [seq fmap list_fmap].
  rewrite <- fmap_S_seq, <- !list_fmap_compose. f_equal.
  apply list_fmap_ext. intros i j _. cbn [compose]. unfold compose. rewrite Z.shiftr_shiftr by lia. do 2 f_equal. lia.
Qed.

Lemma le_value_bytes n : forall v, le_value (le_bytes (Z.of_nat n) v) = wrapu (8 * Z.of_nat n) v.
Proof.
  induction n as [|n IH]; intros v.
  { unfold wrapu. cbn. by rewrite Z.mod_1_r. }
  rewrite le_bytes_S. cbn [le_value foldr]. fold (le_value (le_bytes (Z.of_nat n) (v .>> 8))). rewrite IH.
  apply Z.bits_inj'. intros i Hi. rewrite Z.lor_spec, Z.shiftl_spec, !wrapu_testbit by lia.
  destruct (Z.ltb_spec i 8).
  - rewrite (Z.testbit_neg_r _ (i - 8)), andb_false_r, orb_false_r by lia.
    by rewrite (proj2 (Z.ltb_lt i (8 * Z.of_nat (S n)))) by lia.
  - rewrite Z.shiftr_spec by lia. replace (i - 8 + 8) with i by lia. cbn [andb orb].
    apply (f_equal2 andb); [|done]. destruct (Z.ltb_spec (i - 8) (8 * Z.of_nat n)), (Z.ltb_spec i (8 * Z.of_nat (S n))); lia.
Qed.

Lemma words_word ws rest i w :
  ws !! i = Some w -> take 4 (drop (4 * i) (concat (le_bytes 4 <$> ws) ++ rest)) = le_bytes 4 w.
Proof.
  revert i. induction ws as [|w' ws IH]; intros i Hi; [done|]. cbn [fmap list_fmap concat]. rewrite <- (assoc_L (++)).
  assert (length (le_bytes 4 w') = 4%nat) as Hl by (by rewrite length_le_bytes by lia).
  destruct i as [|i].
  - injection Hi as ->. rewrite drop_0. by rewrite take_app_length' by done.
  - rewrite drop_app_ge by lia. rewrite Hl. replace (4 * S i - 4)%nat with (4 * i)%nat by lia. by apply IH.
Qed.

(** The layout of a register structure. The registers come back from the bytes of the
    structure at the offsets that the assembly uses. *)
Theorem regs_bytes_roundtrip r : regs_typed r -> regs_of_bytes (regs_bytes r) = r.
Proof.
  intros (Hlen & Hw & Hm & Hs). unfold regs_of_bytes.
  set (ws := ar r ++ [sar r; lbeg r; lend r; lcount r; pc r; ps r; windowbase r; windowstart r]) in *.
  assert (length ws = 72%nat) as Hws by (unfold ws; rewrite length_app, Hlen; done).
  assert (forall i w, ws !! i = Some w -> le_value (take 4 (drop (4 * i) (regs_bytes r))) = w) as Hword.
  { intros i w Hi. unfold regs_bytes. fold ws. rewrite (words_word ws _ i w Hi). rewrite (le_value_bytes 4).
    apply wrapu_small. by apply (Forall_lookup_1 _ _ _ _ Hw Hi). }
  assert (forall i w, [sar r; lbeg r; lend r; lcount r; pc r; ps r; windowbase r; windowstart r] !! (i - 64)%nat = Some w ->
    (64 <= i)%nat -> le_value (take 4 (drop (4 * i) (regs_bytes r))) = w) as Hrest.
  { intros i w Hi Hi64. apply Hword. unfold ws. rewrite lookup_app_r by lia. by rewrite Hlen. }
  assert (drop 288 (regs_bytes r) = le_bytes 2 (windowmask r) ++ le_bytes 2 (windowsize r)) as Hd.
  { unfold regs_bytes. fold ws. apply drop_app_length'. by rewrite length_words, Hws. }
  assert (drop 290 (regs_bytes r) = le_bytes 2 (windowsize r)) as Hd2.
  { change 290%nat with (288 + 2)%nat. by rewrite <- drop_drop, Hd. }
  rewrite Hd, Hd2.
  rewrite (take_app_length' (le_bytes 2 (windowmask r))),
    (take_ge (le_bytes 2 (windowsize r))) by (by rewrite length_le_bytes by lia).
  rewrite !(le_value_bytes 2), !wrapu_small by lia.
  rewrite (Hrest 64%nat (sar r)), (Hrest 65%nat (lbeg r)), (Hrest 66%nat (lend r)), (Hrest 67%nat (lcount r)),
    (Hrest 68%nat (pc r)), (Hrest 69%nat (ps r)), (Hrest 70%nat (windowbase r)), (Hrest 71%nat (windowstart r))
    by (done || lia).
  assert ((fun i => le_value (take 4 (drop (4 * i) (regs_bytes r)))) <$> seq 0 64 = ar r) as ->; [|by destruct r].
  apply list_eq. intros i. rewrite list_lookup_fmap. destruct (decide (i < 64)%nat) as [Hi|Hi].
  - rewrite lookup_seq_lt by done. cbn [fmap option_fmap option_map].
    destruct (lookup_lt_is_Some_2 (ar r) i) as [w Hw']; [lia|]. rewrite Hw'. f_equal.
    apply Hword. unfold ws. by rewrite lookup_app_l by lia.
  - rewrite lookup_seq_ge by lia. by rewrite lookup_ge_None_2 by lia.
Qed.

Lemma store_context_shape o b u : context_shape u -> context_shape (store_context o b u).
Proof.
  intros (H1 & H2 & H3). unfold store_context, context_shape.
  repeat case_match; cbn [stack name regs set_regs]; rewrite ?length_insert; try done.
Qed.

(** Outside of the saved registers, a byte is what was last written there. *)
Lemma store_context_bytes o o' b u :
  context_shape u -> 0 <= o -> 0 <= o' < STACK_SIZE + 64 ->
  context_bytes (store_context o b u) !! Z.to_nat o' =
    if decide (o' = o) then Some b else context_bytes u !! Z.to_nat o'.
Proof.
  intros Hu Ho Ho'. pose proof Hu as (H1 & H2 & H3). unfold STACK_SIZE in *.
  assert (forall r1 r2 : list Z, (stack u ++ name u ++ r1) !! Z.to_nat o' = (stack u ++ name u ++ r2) !! Z.to_nat o') as Hr.
  { intros r1 r2. rewrite !(assoc_L (++)), !(lookup_app_l (stack u ++ name u)) by (rewrite length_app; lia). done. }
  destruct (Z.ltb_spec o 4160).
  - assert (context_bytes (store_context o b u) = <[Z.to_nat o := b]> (context_bytes u)) as ->.
    { unfold store_context, context_bytes, STACK_SIZE. destruct (Z.ltb_spec o 4096); cbn [stack name regs].
      - by rewrite insert_app_l by lia.
      - rewrite (proj2 (Z.ltb_lt o (4096 + 64))) by lia. cbn [stack name regs].
        rewrite insert_app_r_alt by lia. rewrite H1, insert_app_l by lia.
        by replace (Z.to_nat o - 4096)%nat with (Z.to_nat (o - 4096)) by lia. }
    rewrite lookup_insert_decide by (rewrite length_context_bytes by done; lia).
    repeat case_decide; first [done | lia].
  - rewrite decide_False by lia. unfold store_context, context_bytes, STACK_SIZE.
    rewrite !(proj2 (Z.ltb_ge _ _)) by lia. cbn [stack name regs set_regs]. apply Hr.
Qed.

(** The saved registers are not among the other bytes. *)
Lemma context_bytes_rest u u' o :
  stack u' = stack u -> name u' = name u -> context_shape u -> 0 <= o < STACK_SIZE + 64 ->
  context_bytes u' !! Z.to_nat o = context_bytes u !! Z.to_nat o.
Proof.
  intros E1 E2 (H1 & H2 & H3) Ho. unfold context_bytes, STACK_SIZE in *. rewrite E1, E2.
  rewrite !(assoc_L (++)), !(lookup_app_l (stack u ++ name u)) by (rewrite length_app; lia). done.
Qed.

(** ** What leaves every task its memory *)
Definition same_memory (s s' : system) : Prop :=
  forall p ty v, page_of (kernel_of s') p ty v = page_of (kernel_of s) p ty v /\
    forall o, private_byte s' p ty v o = private_byte s p ty v o.

(** Entries into the kernel do: they write nothing but saved registers. *)
Lemma layout_same_memory s c l s' :
  running s c l -> memory_wf (kernel_of s') -> same_tables (kernel_of s) (kernel_of s') ->
  layout (kernel_of s') = layout (kernel_of s) -> user_mem s' = user_mem s -> same_memory s s'.
Proof.
  intros Hr Hwf' Htab Hlay Hmem p ty v. pose proof (page_of_tables _ _ p ty v Htab) as Hpage.
  split; [done|]. intros o. unfold private_byte. rewrite Hpage.
  destruct (page_of (kernel_of s) p ty v) as [q|] eqn:Hq; [|done]. cbn.
  destruct (bool_decide (0 <= o < USER_PAGE_SIZE)) eqn:Ho; [|done]. apply bool_decide_eq_true in Ho.
  destruct (saved_area ty v o) eqn:Hsv; [done|]. cbn.
  destruct ty; cbn [page_byte]; [by rewrite Hmem|]. unfold load_data. rewrite Hmem.
  assert ((fun u => (stack u, name u)) <$> ucontexts (kernel_of s') !! DATA_PAGE_ADDR q =
    (fun u => (stack u, name u)) <$> ucontexts (kernel_of s) !! DATA_PAGE_ADDR q) as E.
  { injection Hlay as _ Hu _. rewrite <- !lookup_fmap. by rewrite Hu. }
  destruct (ucontexts (kernel_of s) !! DATA_PAGE_ADDR q) as [u|] eqn:Hu,
    (ucontexts (kernel_of s') !! DATA_PAGE_ADDR q) as [u'|]; try done.
  injection E as E1 E2.
  destruct (context_page _ (sc_memory _ _ _ (rn_sched _ _ _ Hr)) p v q (rn_owned _ _ _ Hr) Hq)
    as (-> & t & u0 & Ht & Ea & Hu0); [by rewrite Hu|].
  destruct (o <? sizeof_task_ucontext) eqn:Hlt; [|done]. apply Z.ltb_lt in Hlt.
  unfold saved_area in Hsv. apply bool_decide_eq_false in Hsv.
  apply context_bytes_rest; [done|done| |].
  - apply (rn_shape _ _ _ Hr p). unfold task_context. rewrite Ht. cbn. by rewrite Ea.
  - destruct (decide (o < STACK_SIZE + 64)); [lia|]. destruct Hsv. split_and!; try done; lia.
Qed.

(** *** Passing the CPU on *)
Lemma handed_over_regs c p st r k k' q :
  handed_over c p st (put_frame r k) k' -> current_task k = Some c ->
  regs_of k' q = if decide (q = c) then Some r else regs_of k q.
Proof.
  intros Hho Hc. assert (regs_of k' q = saved_regs k' q) as ->.
  { unfold regs_of. rewrite (ho_current _ _ _ _ _ Hho). case_decide as E; [|done].
    injection E as ->. apply (ho_frame _ _ _ _ _ Hho). }
  case_decide as Hq; [subst; apply (ho_saved _ _ _ _ _ Hho)|].
  rewrite (ho_others _ _ _ _ _ Hho q Hq). unfold regs_of. by rewrite decide_False by congruence.
Qed.

Lemma shape_layout k k' p u' :
  layout k' = layout k -> task_context k' p = Some u' ->
  (forall u, task_context k p = Some u -> context_shape u) ->
  (forall r, saved_regs k' p = Some r -> length (ar r) = 64%nat) -> context_shape u'.
Proof.
  intros Hl Hu' Hk Hr. destruct (layout_task k k' p Hl) as [_ E]. rewrite Hu' in E.
  destruct (task_context k p) as [u|] eqn:Hu; [|done]. injection E as E1 E2.
  destruct (Hk u) as (H1 & H2 & _); [done|]. rewrite <- E1 in H1. rewrite <- E2 in H2.
  split; [done|]. split; [done|]. apply Hr. by rewrite saved_regs_context, Hu'.
Qed.

Lemma saved_length s c l p r :
  running s c l -> saved_regs (kernel_of s) p = Some r -> length (ar r) = 64%nat.
Proof.
  intros Hr. rewrite saved_regs_context.
  destruct (task_context (kernel_of s) p) as [u|] eqn:Hu; [|done]. intros [= <-].
  apply (rn_shape _ _ _ Hr p u Hu).
Qed.

(** The machine after the CPU went from [c], whose registers are [r] by then, to [p]. *)
Lemma handed_over_running s c l p l' st r s' :
  running s c l -> length (ar r) = 64%nat -> handed_over c p st (put_frame r (kernel_of s)) (kernel_of s') ->
  sched_wf (kernel_of s') l' None -> park_callback (kernel_of s') = park_callback (kernel_of s) ->
  layout (kernel_of s') = layout (kernel_of s) -> user_mem s' = user_mem s ->
  running s' p l' /\ same_memory s s' /\
  (forall q, regs_of (kernel_of s') q = if decide (q = c) then Some r else regs_of (kernel_of s) q).
Proof.
  intros Hr Hlen Hho Hwf' Hcb Hlay Hmem.
  assert (forall q x, saved_regs (kernel_of s') q = Some x -> length (ar x) = 64%nat) as Hsv.
  { intros q x. destruct (decide (q = c)) as [->|Hq].
    - rewrite (ho_saved _ _ _ _ _ Hho). intros [= <-]. done.
    - rewrite (ho_others _ _ _ _ _ Hho q Hq). apply (saved_length s c l q x Hr). }
  split; [constructor|split].
  - done.
  - apply (ho_current _ _ _ _ _ Hho).
  - apply (ho_switched _ _ _ _ _ Hho).
  - rewrite Hcb. apply Hr.
  - by eapply contexts_owned_layout, Hr.
  - intros q u Hu. apply (shape_layout _ _ q u Hlay Hu); [apply Hr|apply Hsv].
  - apply (Hsv p). symmetry. apply (ho_frame _ _ _ _ _ Hho).
  - apply (layout_same_memory s c l); [done|apply Hwf'| |done|done]; apply (ho_tables _ _ _ _ _ Hho).
  - intros q. by apply (handed_over_regs c p st), (rn_current _ _ _ Hr).
Qed.

(** *** Nothing but the frame and the watchdog *)
Lemma frame_running s c l r w s' :
  running s c l -> length (ar r) = 64%nat -> kernel_of s' = put_wdt w (put_frame r (kernel_of s)) ->
  user_mem s' = user_mem s ->
  running s' c l /\ same_memory s s' /\
  (forall q, regs_of (kernel_of s') q = if decide (q = c) then Some r else regs_of (kernel_of s) q).
Proof.
  intros Hr Hlen Hk Hmem.
  assert (sched_wf (kernel_of s') l None) as Hwf' by (rewrite Hk; apply put_wdt_wf, put_frame_wf, Hr).
  split; [constructor|split].
  - done.
  - rewrite Hk. apply (rn_current _ _ _ Hr).
  - rewrite Hk. apply (rn_switched _ _ _ Hr).
  - rewrite Hk. apply (rn_park _ _ _ Hr).
  - apply (contexts_owned_layout (kernel_of s)); [by rewrite Hk|apply Hr].
  - intros q u Hu. apply (rn_shape _ _ _ Hr q u). by rewrite Hk in Hu.
  - by rewrite Hk.
  - apply (layout_same_memory s c l); [done|apply Hwf'|by rewrite Hk|by rewrite Hk|done].
  - intros q. rewrite Hk. unfold regs_of. cbn. rewrite (rn_current _ _ _ Hr).
    destruct (decide (q = c)) as [->|Hq]; [by rewrite decide_True|].
    by rewrite !decide_False by congruence.
Qed.

(** ** Writes *)
Lemma hw_page_grants t pid v q : 0 <= v -> hw_page t pid v = Some q -> grants t pid (Z.to_nat v) q.
Proof.
  unfold hw_page. intros Hv Hq. destruct (list_find _ t) as [[i r]|] eqn:E; [|done]. injection Hq as <-.
  apply list_find_Some in E as (Hi & [<- <-] & _). cbn. split; [lia|].
  rewrite Nat2Z.id, Z2Nat.id by done. by destruct r.
Qed.

Lemma granted_page s c l ty v q :
  running s c l ->
  grants (match ty with MMU_SPACE_CODE => immu_table | MMU_SPACE_DATA => dmmu_table end (mmu (kernel_of s)))
    (pid_new_reg (mmu (kernel_of s))) v q <->
  page_of (kernel_of s) c ty v = Some q.
Proof.
  intros Hr. destruct (rn_switched _ _ _ Hr) as (i & b & _ & Hb & Hbound & ->).
  pose proof (kw_mmu _ (sc_memory _ _ _ (rn_sched _ _ _ Hr))) as Hmmu.
  destruct (mw_bound _ Hmmu i b c Hb Hbound) as (sp & Hsp & _).
  destruct (wf_grants _ i b c sp v q Hmmu Hb Hbound Hsp) as [Hi Hd].
  rewrite page_of_maps. destruct ty; [rewrite Hi|rewrite Hd]; (split; [eauto|]);
    intros (sp' & Hsp' & Hm); rewrite Hsp in Hsp'; by injection Hsp' as <-.
Qed.

Lemma page_offset_range base a : 0 <= page_offset base a < USER_PAGE_SIZE.
Proof. apply Z.mod_pos_bound. done. Qed.

(** The two kinds of writes, as one. *)
Definition store_page (ty : mmu_space_type) (q o b : Z) (s : system) : system :=
  match ty with
  | MMU_SPACE_CODE => store_bytes (CODE_PAGE_ADDR q + o) b s
  | MMU_SPACE_DATA => store_data q o b s
  end.

Lemma user_store_page s c l a b s' :
  running s c l -> user_store a b s = Ok true s' ->
  exists ty v q o, page_of (kernel_of s) c ty v = Some q /\ 0 <= o < USER_PAGE_SIZE /\
    s' = store_page ty q o (u8 b) s.
Proof.
  intros Hr. unfold user_store.
  assert (forall base, 0 <= u32 (a - base) / USER_PAGE_SIZE) as Hpos
    by (intros base; apply Z.div_pos; [apply wrapu_range; lia|done]).
  destruct (DATA_PAGE_INDEX a <? MAX_PAGE_COUNT).
  { destruct (hw_page _ _ _) as [q|] eqn:Hq; [|done]. intros [= <-].
    apply hw_page_grants in Hq; [|apply Hpos]. eexists MMU_SPACE_DATA, _, q, _.
    split; [by apply (granted_page s c l MMU_SPACE_DATA)|]. split; [apply page_offset_range|done]. }
  destruct (CODE_PAGE_INDEX a <? VDSO_PAGE_INDEX); [|done].
  destruct (hw_page _ _ _) as [q|] eqn:Hq; [|done]. intros [= <-].
  apply hw_page_grants in Hq; [|apply Hpos]. eexists MMU_SPACE_CODE, _, q, _.
  split; [by apply (granted_page s c l MMU_SPACE_CODE)|]. split; [apply page_offset_range|done].
Qed.

Lemma sched_wf_ucontexts us k l x :
  (forall a, is_Some (ucontexts k !! a) -> is_Some (us !! a)) -> sched_wf k l x -> sched_wf (put_ucontexts us k) l x.
Proof.
  intros Hus [H1 H2 H3 H4 H5 H6]. constructor; try done. apply (memory_wf_frame k); try done. apply H1.
Qed.

(** What a write makes of the state: bytes of the user pages, or the context of the task. *)
Lemma store_running s c l ty v q o b :
  running s c l -> page_of (kernel_of s) c ty v = Some q ->
  running (store_page ty q o b s) c l /\
  (forall p, regs_of (kernel_of (store_page ty q o b s)) p = regs_of (kernel_of s) p) /\
  mmu (kernel_of (store_page ty q o b s)) = mmu (kernel_of s).
Proof.
  intros Hr Hq.
  assert (forall x y, running (store_bytes x y s) c l) as Hbytes by (intros x y; by destruct Hr).
  destruct ty; cbn [store_page]; [by split|]. unfold store_data.
  destruct (ucontexts (kernel_of s) !! DATA_PAGE_ADDR q) as [u|] eqn:Hu; [|done].
  destruct (o <? sizeof_task_ucontext); [|done].
  destruct (context_page _ (sc_memory _ _ _ (rn_sched _ _ _ Hr)) c v q (rn_owned _ _ _ Hr) Hq)
    as (-> & t & u0 & Ht & Ea & Hu0); [by rewrite Hu|]. rewrite Ea, Hu in Hu0. injection Hu0 as <-.
  assert (forall p, p <> c -> task_context (kernel_of s) p = task_context
    (put_ucontexts (<[DATA_PAGE_ADDR q := store_context o b u]> (ucontexts (kernel_of s))) (kernel_of s)) p) as Hoth.
  { intros p Hp. unfold task_context. cbn. destruct (tasks (kernel_of s) !! p) as [tp|] eqn:Htp; [|done]. cbn.
    rewrite lookup_insert_ne; [done|]. intros E. apply Hp. symmetry.
    apply (ucontext_inj (kernel_of s) c p t tp); [apply Hr|done|done|congruence]. }
  assert (context_shape u) as Hsh.
  { apply (rn_shape _ _ _ Hr c). unfold task_context. rewrite Ht. cbn. by rewrite Ea. }
  split; [|split; [|done]].
  - destruct Hr as [H1 H2 H3 H4 H5 H6 H7]. constructor; try done.
    + apply sched_wf_ucontexts; [|done]. intros x Hx. apply lookup_insert_is_Some'. auto.
    + intros x Hx. cbn in Hx. apply lookup_insert_is_Some in Hx as [<-|[_ Hx]]; [|by apply H5].
      exists c, t. by rewrite <- Ea.
    + intros p u' Hu'. destruct (decide (p = c)) as [->|Hp].
      * unfold task_context in Hu'. cbn in Hu'. rewrite Ht in Hu'. cbn in Hu'.
        rewrite Ea, lookup_insert_eq in Hu'. injection Hu' as <-. by apply store_context_shape.
      * cbn [kernel_of put_kernel sys kern] in Hu'. rewrite <- Hoth in Hu' by done. by apply (H6 p).
  - intros p. unfold regs_of. cbn. rewrite (rn_current _ _ _ Hr).
    destruct (decide (Some c = Some p)) as [|Hp]; [done|].
    rewrite !saved_regs_context. by rewrite (Hoth p) by congruence.
Qed.

Lemma load_store q q' o o' b s :
  0 <= q < 16 -> 0 <= q' < 16 -> 0 <= o < USER_PAGE_SIZE -> 0 <= o' < USER_PAGE_SIZE ->
  (forall u, ucontexts (kernel_of s) !! DATA_PAGE_ADDR q = Some u -> q' = q ->
     context_shape u /\ ~ STACK_SIZE + 64 <= o' < sizeof_task_ucontext) ->
  load_data q' o' (store_data q o b s) = if decide (q' = q /\ o' = o) then Some b else load_data q' o' s.
Proof.
  intros Hq Hq' Ho Ho' Hu.
  assert (DATA_PAGE_ADDR q + o = DATA_PAGE_ADDR q' + o' -> q = q' /\ o = o') as Haddr.
  { intros E. destruct (page_addresses_apart q q' o o' Hq Hq' Ho Ho') as (_ & H & _).
    assert (q = q') as <- by (by apply H). lia. }
  assert (forall x, <[DATA_PAGE_ADDR q + o := x]> (user_mem s) !! (DATA_PAGE_ADDR q' + o') =
    if decide (q' = q /\ o' = o) then Some x else user_mem s !! (DATA_PAGE_ADDR q' + o')) as Hmem.
  { intros x. case_decide as E; [destruct E as [-> ->]; apply lookup_insert_eq|].
    rewrite lookup_insert_ne; [done|]. intros H%Haddr. by destruct H as [-> ->]; destruct E. }
  unfold store_data. destruct (ucontexts (kernel_of s) !! DATA_PAGE_ADDR q) as [u|] eqn:Eu.
  - destruct (Z.ltb_spec o sizeof_task_ucontext) as [Hlo|Hlo].
    + unfold load_data. cbn [kernel_of put_kernel sys kern ucontexts put_ucontexts user_mem].
      destruct (decide (q' = q)) as [->|Hne].
      * destruct (Hu u eq_refl eq_refl) as [Hsh Hno]. rewrite lookup_insert_eq, Eu.
        destruct (Z.ltb_spec o' sizeof_task_ucontext) as [Hlo'|Hlo'].
        -- rewrite store_context_bytes by (done || lia). repeat case_decide; naive_solver.
        -- rewrite decide_False by lia. done.
      * rewrite lookup_insert_ne by (intros E; apply Hne; symmetry; apply data_page_addr_inj;
          unfold MAX_PAGE_COUNT; [lia..|done]).
        rewrite decide_False by (intros [? _]; done). done.
    + unfold load_data, store_bytes. cbn [sys user_mem]. rewrite Hmem.
      destruct (ucontexts _ !! DATA_PAGE_ADDR q') as [u'|] eqn:Eu'; [|done].
      destruct (Z.ltb_spec o' sizeof_task_ucontext); [|done]. by rewrite decide_False by lia.
  - unfold load_data, store_bytes. cbn [sys user_mem]. rewrite Hmem.
    destruct (ucontexts _ !! DATA_PAGE_ADDR q') as [u'|] eqn:Eu'; [|done].
    by rewrite !decide_False by (intros [-> _]; congruence).
Qed.

(** A write changes one byte of one page of the task that makes it. *)
Lemma store_private s c l ty v q o b p ty' v' o' :
  running s c l -> page_of (kernel_of s) c ty v = Some q -> 0 <= o < USER_PAGE_SIZE ->
  private_byte (store_page ty q o b s) p ty' v' o' =
    if decide ((p = c /\ ty' = ty /\ v' = v /\ o' = o) /\ saved_area ty v o = false) then Some b
    else private_byte s p ty' v' o'.
Proof.
  intros Hr Hq Ho. destruct (store_running s c l ty v q o b Hr Hq) as (_ & _ & Hmmu).
  pose proof (sc_memory _ _ _ (rn_sched _ _ _ Hr)) as Hmem.
  destruct (page_of_range _ Hmem c ty v q Hq) as [Hqr _].
  unfold private_byte.
  assert (page_of (kernel_of (store_page ty q o b s)) p ty' v' = page_of (kernel_of s) p ty' v') as ->
    by (unfold page_of; by rewrite Hmmu).
  destruct (page_of (kernel_of s) p ty' v') as [q'|] eqn:Hq'; cbn.
  2: { rewrite decide_False; [done|]. intros [(-> & -> & -> & ->) _]. by rewrite Hq in Hq'. }
  destruct (page_of_range _ Hmem p ty' v' q' Hq') as [Hqr' _].
  destruct (bool_decide (0 <= o' < USER_PAGE_SIZE)) eqn:Ho'; cbn.
  2: { apply bool_decide_eq_false in Ho'. rewrite decide_False; [done|]. by intros [(_ & _ & _ & ->) _]. }
  apply bool_decide_eq_true in Ho'.
  destruct (saved_area ty' v' o') eqn:Hsv; cbn.
  { rewrite decide_False; [done|]. intros [(_ & -> & -> & ->) H]. congruence. }
  destruct (page_addresses_apart q q' o o' Hqr Hqr' Ho Ho') as (A1 & A2 & A3).
  destruct (page_addresses_apart q' q o' o Hqr' Hqr Ho' Ho) as (_ & _ & A4).
  assert (ty' = ty -> q' = q -> p = c /\ v' = v) as Huniq
    by (intros -> ->; by destruct (page_of_unique _ Hmem p c ty v' v q Hq' Hq)).
  destruct ty, ty'; cbn [store_page page_byte].
  - unfold store_bytes. cbn [user_mem]. destruct (decide (q' = q /\ o' = o)) as [[-> ->]|Hne].
    + destruct Huniq as [-> ->]; [done..|]. by rewrite lookup_insert_eq, decide_True.
    + rewrite decide_False, lookup_insert_ne; [done| |].
      * intros E. apply Hne. assert (q = q') as <- by (by apply A1). lia.
      * intros [(-> & _ & -> & ->) _]. apply Hne. rewrite Hq in Hq'. by injection Hq' as ->.
  - rewrite decide_False by (by intros [(_ & ? & _) _]). unfold load_data, store_bytes. cbn [user_mem sys].
    by rewrite !lookup_insert_ne by done.
  - rewrite decide_False by (by intros [(_ & ? & _) _]). unfold store_data. repeat case_match; try done.
    all: unfold store_bytes; cbn [user_mem]; by rewrite lookup_insert_ne by congruence.
  - rewrite load_store; [|done..|].
    + destruct (decide (q' = q /\ o' = o)) as [[-> ->]|Hne].
      * destruct Huniq as [-> ->]; [done..|]. by rewrite decide_True.
      * rewrite decide_False; [done|]. intros [(-> & _ & -> & ->) _]. apply Hne. rewrite Hq in Hq'.
        by injection Hq' as ->.
    + intros u Hu ->. destruct Huniq as [-> ->]; [done..|].
      destruct (context_page _ Hmem c v q (rn_owned _ _ _ Hr) Hq) as (-> & t & u0 & Ht & Ea & Hu0); [by rewrite Hu|].
      rewrite Ea, Hu in Hu0. injection Hu0 as <-. split.
      * apply (rn_shape _ _ _ Hr c). unfold task_context. rewrite Ht. cbn. by rewrite Ea.
      * unfold saved_area in Hsv. apply bool_decide_eq_false in Hsv. naive_solver.
Qed.

(** ** The simulation *)
Record represents (s : system) (a : vm) : Prop := {
  rp_running : running s (vm_current a) (vm_queue a);
  rp_regs : forall p, vm_regs a p = regs_of (kernel_of s) p;
  rp_pages : forall p ty v, vm_pages a p ty v = bool_decide (is_Some (page_of (kernel_of s) p ty v));
  rp_memory : forall p ty v o, vm_memory a p ty v o = private_byte s p ty v o;
}.

(** The machine of a running system. *)
Definition vm_of (s : system) (c : loc) (l : list loc) : vm :=
  Vm c l (regs_of (kernel_of s)) (fun p ty v => bool_decide (is_Some (page_of (kernel_of s) p ty v)))
    (private_byte s).

Lemma vm_of_represents s c l : running s c l -> represents s (vm_of s c l).
Proof. by constructor. Qed.

Lemma represents_same s s' a a' :
  represents s a -> running s' (vm_current a') (vm_queue a') -> same_memory s s' ->
  (forall p, vm_regs a' p = regs_of (kernel_of s') p) -> vm_pages a' = vm_pages a -> vm_memory a' = vm_memory a ->
  represents s' a'.
Proof.
  intros Ha Hr Hm Hregs Hp Hb. constructor; [done|done|..].
  - intros p ty v. rewrite Hp, (rp_pages _ _ Ha). by destruct (Hm p ty v) as [-> _].
  - intros p ty v o. rewrite Hb, (rp_memory _ _ Ha). by destruct (Hm p ty v) as [_ ->].
Qed.

Lemma simulate_frame s s' a r w :
  represents s a -> length (ar r) = 64%nat -> kernel_of s' = put_wdt w (put_frame r (kernel_of s)) ->
  user_mem s' = user_mem s ->
  vm_step_by (vm_current a) a (vm_set_regs r a) /\ represents s' (vm_set_regs r a).
Proof.
  intros Ha Hlen Hk Hm.
  destruct (frame_running s _ _ r w s' (rp_running _ _ Ha) Hlen Hk Hm) as (Hr & Hsm & Hregs).
  split; [split; [done|constructor]|]. apply (represents_same s s' a); try done.
  intros p. rewrite Hregs. cbn. by case_decide; [|rewrite (rp_regs _ _ Ha)].
Qed.

(** Passing the CPU on, from any registers of the task. *)
Lemma simulate_switch s s' a st r p l' :
  represents s a -> length (ar r) = 64%nat ->
  handed_over (vm_current a) p st (put_frame r (kernel_of s)) (kernel_of s') ->
  sched_wf (kernel_of s') l' None -> park_callback (kernel_of s') = park_callback (kernel_of s) ->
  layout (kernel_of s') = layout (kernel_of s) -> user_mem s' = user_mem s ->
  vm_queue a ++ [vm_current a] = p :: l' \/ vm_queue a = p :: l' ->
  exists a', rtc (vm_step_by (vm_current a)) a a' /\ represents s' a' /\
    vm_current a' = p /\ vm_queue a' = l'.
Proof.
  intros Ha Hlen Hho Hwf Hcb Hlay Hm Hq.
  destruct (handed_over_running s _ _ p l' st r s' (rp_running _ _ Ha) Hlen Hho Hwf Hcb Hlay Hm)
    as (Hr & Hsm & Hregs).
  exists (vm_switch p l' (vm_set_regs r a)). split; [|split; [|done]].
  - eapply rtc_l; [split; [done|apply (vm_compute a r)]|]. apply rtc_once. split; [done|].
    destruct Hq as [Hq|Hq]; [by apply vm_yield|by apply vm_park].
  - apply (represents_same s s' a); try done. intros q. rewrite Hregs. cbn.
    by case_decide; [|rewrite (rp_regs _ _ Ha)].
Qed.

Lemma simulate_store s a ty v q o b :
  represents s a -> page_of (kernel_of s) (vm_current a) ty v = Some q -> 0 <= o < USER_PAGE_SIZE ->
  exists a', rtc (vm_step_by (vm_current a)) a a' /\ represents (store_page ty q o b s) a' /\
    vm_current a' = vm_current a /\ vm_queue a' = vm_queue a.
Proof.
  intros Ha Hq Ho. pose proof (rp_running _ _ Ha) as Hr.
  destruct (store_running s _ _ ty v q o b Hr Hq) as (Hr' & Hregs & Hmmu).
  pose proof (fun p ty' v' o' => store_private s _ _ ty v q o b p ty' v' o' Hr Hq Ho) as Hpriv.
  assert (forall p ty' v', page_of (kernel_of (store_page ty q o b s)) p ty' v' = page_of (kernel_of s) p ty' v')
    as Hpage by (intros; unfold page_of; by rewrite Hmmu).
  destruct (saved_area ty v o) eqn:Hsv.
  - exists a. split; [done|]. split; [|done]. constructor; [done|..]; intros.
    + by rewrite Hregs, (rp_regs _ _ Ha).
    + by rewrite Hpage, (rp_pages _ _ Ha).
    + rewrite Hpriv, decide_False by (by intros [_ ?]). apply (rp_memory _ _ Ha).
  - exists (vm_write ty v o b a). split; [|split; [|done]].
    + apply rtc_once. split; [done|]. constructor; [|done]. rewrite (rp_pages _ _ Ha), Hq.
      by apply bool_decide_eq_true.
    + constructor; [done|..]; intros; cbn.
      * by rewrite Hregs, (rp_regs _ _ Ha).
      * by rewrite Hpage, (rp_pages _ _ Ha).
      * rewrite Hpriv, (rp_memory _ _ Ha). repeat case_decide; naive_solver.
Qed.

Section Steps.
Context (weak_fails : nat -> bool) (fuel sleeps : nat) (call : Z -> Z -> M kernel unit).
Context (txfifo_cnt : nat -> Z) (polls : nat) (__FILE__ : list Z).
Hypothesis (Hends : cas_ends weak_fails fuel).
Hypothesis (Hcall : forall f x, keeps_layout (call f x)).

Abbreviation enter_syscall := (enter_syscall weak_fails fuel sleeps call txfifo_cnt polls __FILE__).
Abbreviation enter_interrupt := (enter_interrupt weak_fails fuel sleeps txfifo_cnt polls).
Abbreviation run_step := (run_step weak_fails fuel sleeps call txfifo_cnt polls __FILE__).

Lemma enter_machine {A} (m : M machine A) s x s' :
  zoom m s = Ok x s' -> exists k u, m (sys s) = Ok x (Machine k u) /\
    s' = System (Machine k u) (user_mem s).
Proof using Type.
  unfold zoom. cbn. destruct (m (sys s)) as [y [k u]|w m']; [|done]. intros [= -> <-]. eauto.
Qed.

(** What a system call that comes back does: nothing to the kernel but the result in the
    frame, or the CPU goes to the next task. *)
Lemma enter_syscall_cases s c l s' :
  running s c l -> enter_syscall s = Ok tt s' ->
  user_mem s' = user_mem s /\ layout (kernel_of s') = layout (kernel_of s) /\
  park_callback (kernel_of s') = park_callback (kernel_of s) /\
  ((exists v, kernel_of s' = returning v (kernel_of s)) \/
   (exists p l' st, (l ++ [c] = p :: l' \/ l = p :: l') /\ sched_wf (kernel_of s') l' None /\
      handed_over c p st (returning 0 (kernel_of s)) (kernel_of s'))).
Proof using Hends Hcall.
  intros Hr (k & u & E & ->)%enter_machine. cbn [user_mem sys kern].
  pose proof (rn_sched _ _ _ Hr) as Hwf. pose proof (rn_current _ _ _ Hr) as Hc.
  pose proof (syscall_layout weak_fails fuel no_wakeup sleeps call txfifo_cnt polls (user_data s) __FILE__
    ltac:(done) Hcall (sys s)) as Hlay. rewrite E in Hlay. cbn in Hlay.
  assert (is_Some (ar (frame (kernel_of s)) !! SYSCALL_NUM)) as [n Hn]
    by (apply lookup_lt_is_Some_2; rewrite (rn_frame _ _ _ Hr); unfold SYSCALL_NUM; lia).
  split; [done|]. split; [done|].
  destruct (decide (n = SYSCALL_SCHED_YIELD)) as [->|N1].
  { destruct (l ++ [c]) as [|p l'] eqn:Hl; [by destruct l|].
    destruct (handler_yield weak_fails fuel no_wakeup sleeps call txfifo_cnt polls (user_data s) __FILE__
      Hends (sys s) l l' c p Hwf Hc Hn Hl) as (k' & E' & Hwf' & Hho & Hcb).
    rewrite E in E'. injection E' as -> ->. split; [done|]. right. eauto 10. }
  destruct (decide (n = SYSCALL_SCHED_PARK)) as [->|N2].
  { destruct l as [|p l'].
    - exfalso. destruct (handler_inv _ _ _ _ _ _ _ _ _ _ _ _ Hn E) as (e & m2 & Ed & _).
      destruct (on_park_idle weak_fails fuel no_wakeup sleeps call Hends (returning 0 (kernel_of s)) c)
        as (k' & Ep & _); [by apply put_frame_wf|done|apply (rn_park _ _ _ Hr)|done|].
      apply bind_ok_inv in Ed as (x & m1 & Ez & _). unfold zoom in Ez. cbn in Ez. by rewrite Ep in Ez.
    - destruct (handler_park weak_fails fuel no_wakeup sleeps call txfifo_cnt polls (user_data s) __FILE__
        Hends (sys s) l' c p Hwf Hc Hn (rn_park _ _ _ Hr)) as (k' & E' & Hwf' & Hho & Hcb).
      rewrite E in E'. injection E' as -> ->. split; [by rewrite Hcb, (rn_park _ _ _ Hr)|]. right. eauto 10. }
  destruct (handler_inv _ _ _ _ _ _ _ _ _ _ _ _ Hn E) as (e & m2 & Ed & Er).
  destruct (decide (n = SYSCALL_SCHED_DROP)) as [->|N3].
  { exfalso. destruct (on_drop_current weak_fails fuel no_wakeup sleeps Hends (returning 0 (kernel_of s)) l c)
      as (k' & Ep & _); [by apply put_frame_wf|done|].
    apply bind_ok_inv in Ed as (x & m1 & Ez & _). unfold zoom in Ez. cbn in Ez. by rewrite Ep in Ez. }
  pose proof (dispatch_keeps_kern weak_fails fuel no_wakeup sleeps call txfifo_cnt polls (user_data s) __FILE__
    n N2 N1 N3 (Machine (returning 0 (kernel_of s)) (console (sys s)))) as Hk.
  rewrite Ed in Hk. destruct m2 as [k2 u2]. cbn in Hk. subst k2.
  destruct (IS_ERROR e); [|injection Er as <- <-; split; [done|left; eauto]].
  rewrite (zoom_ok (H := machine_kernel) _ _ tt (returning (u32 (- err_code e)) (returning 0 (kernel_of s)))) in Er.
  - injection Er as <- <-. rewrite returning_twice. split; [done|]. left. eauto.
  - eapply put_ret_ok, (returning_lookup 0 n). exact Hn.
Qed.

(** An interrupt ends the time slice, or changes nothing of the kernel. *)
Lemma enter_interrupt_cases s c l status s' :
  running s c l -> enter_interrupt status s = Ok tt s' ->
  user_mem s' = user_mem s /\ layout (kernel_of s') = layout (kernel_of s) /\
  park_callback (kernel_of s') = park_callback (kernel_of s) /\
  (kernel_of s' = kernel_of s \/
   (exists p l' st, l ++ [c] = p :: l' /\ sched_wf (kernel_of s') l' None /\
      handed_over c p st (kernel_of s) (kernel_of s'))).
Proof using Hends.
  intros Hr (k & u & E & ->)%enter_machine. cbn [user_mem sys kern].
  pose proof (rn_sched _ _ _ Hr) as Hwf. pose proof (rn_current _ _ _ Hr) as Hc.
  pose proof (interrupt_layout weak_fails fuel no_wakeup sleeps txfifo_cnt polls ltac:(done) status (sys s)) as Hlay.
  rewrite E in Hlay. cbn in Hlay. split; [done|]. split; [done|].
  destruct (wdt_handle_run (wdt (kernel_of s))) as (w & Eh & Hw).
  unfold common_interrupt_handler in E.
  assert (zoom (T := kernel) (zoom wdt_handle) (sys s) =
    Ok (Z.testbit (reg (wdt (kernel_of s)) TIMG0_INT_ST) 2)
      (Machine (put_wdt w (kernel_of s)) (console (sys s)))) as Ez.
  { apply (zoom_ok (H := machine_kernel)). by apply (zoom_ok (H := kernel_wdt)). }
  rewrite (bind_ok _ _ _ _ _ Ez) in E. destruct (Z.testbit _ 2); cbv beta iota in E.
  - destruct (l ++ [c]) as [|p l'] eqn:Hl; [by destruct l|].
    destruct (on_schedule_ok weak_fails fuel no_wakeup sleeps Hends (put_wdt w (kernel_of s)) l l' c p
      ltac:(by apply put_wdt_wf) Hc Hl) as (k' & Ek & Hwf' & Hho & Hcb).
    pose proof (zoom_ok (H := machine_kernel) (scheduler_on_schedule weak_fails fuel no_wakeup sleeps)
      (Machine (put_wdt w (kernel_of s)) (console (sys s))) tt k' Ek) as E2.
    rewrite E in E2. injection E2 as -> ->.
    split; [done|]. right. exists p, l', TASK_STATUS_RUNNABLE. split; [done|]. split; [done|].
    by destruct Hho; constructor.
  - specialize (Hw eq_refl). subst w.
    assert (keeps kern (zoom (S := machine) (T := uart) (dport_log_pending txfifo_cnt polls status))) as Hk by apply console_keeps_kern.
    specialize (Hk (Machine (put_wdt (wdt (kernel_of s)) (kernel_of s)) (console (sys s)))).
    rewrite E in Hk. cbn in Hk. rewrite Hk. assert (put_wdt (wdt (kernel_of s)) (kernel_of s) = kernel_of s) as -> by by destruct (kernel_of s).
    split; [done|]. by left.
Qed.

(** Both leave a running system, and every task its memory. *)
Lemma enter_syscall_running s c l s' :
  running s c l -> enter_syscall s = Ok tt s' -> same_memory s s' /\ exists c' l', running s' c' l'.
Proof using Hends Hcall.
  intros Hr E. pose proof (rn_frame _ _ _ Hr) as Hlen.
  destruct (enter_syscall_cases s c l s' Hr E) as (Hm & Hlay & Hcb & [(v & Hk)|(p & l' & st & Hq & Hwf & Hho)]).
  - destruct (frame_running s c l (frame (returning v (kernel_of s))) (wdt (kernel_of s)) s' Hr) as (Hr' & Hsm & _);
      [by cbn; rewrite length_insert| |done|].
    { rewrite Hk. by destruct (kernel_of s). }
    eauto.
  - destruct (handed_over_running s c l p l' st (frame (returning 0 (kernel_of s))) s' Hr) as (Hr' & Hsm & _); try done.
    { by cbn; rewrite length_insert. }
    eauto.
Qed.

Lemma enter_interrupt_running s c l status s' :
  running s c l -> enter_interrupt status s = Ok tt s' ->
  same_memory s s' /\ (exists c' l', running s' c' l') /\
  forall q, regs_of (kernel_of s') q = regs_of (kernel_of s) q.
Proof using Hends.
  intros Hr E. pose proof (rn_frame _ _ _ Hr) as Hlen.
  assert (kernel_of s = put_frame (frame (kernel_of s)) (kernel_of s)) as Hfr by (by destruct (kernel_of s)).
  assert (regs_of (kernel_of s) c = Some (frame (kernel_of s))) as Hc
    by (unfold regs_of; rewrite decide_True; [done|apply (rn_current _ _ _ Hr)]).
  destruct (enter_interrupt_cases s c l status s' Hr E) as (Hm & Hlay & Hcb & [Hk|(p & l' & st & Hq & Hwf & Hho)]).
  - destruct (frame_running s c l (frame (kernel_of s)) (wdt (kernel_of s)) s' Hr) as (Hr' & Hsm & _);
      [done| |done|]; [rewrite Hk; by destruct (kernel_of s)|]. rewrite Hk. eauto.
  - destruct (handed_over_running s c l p l' st (frame (kernel_of s)) s' Hr) as (Hr' & Hsm & Hregs); try done;
      [by rewrite <- Hfr|]. split; [done|]. split; [eauto|]. intros q. rewrite Hregs. by case_decide; [subst|].
Qed.

(** Every step of the system is one of the task that runs, on its own machine. *)
Lemma step_simulated s s' a :
  represents s a -> run_step s s' ->
  exists a', rtc (vm_step_by (vm_current a)) a a' /\ represents s' a'.
Proof using Hends Hcall.
  intros Ha Hs. pose proof (rp_running _ _ Ha) as Hr. pose proof (rn_frame _ _ _ Hr) as Hlen.
  assert (forall k : kernel, k = put_wdt (wdt k) k) as Hwdt by (by intros []).
  assert (kernel_of s = put_frame (frame (kernel_of s)) (kernel_of s)) as Hfr by (by destruct (kernel_of s)).
  assert (forall s', user_mem s' = user_mem s -> kernel_of s' = kernel_of s -> represents s' a) as Hstill.
  { intros x Hm Hk. destruct (frame_running s _ _ (frame (kernel_of s)) (wdt (kernel_of s)) x Hr Hlen)
      as (Hrx & Hsm & Hregs); [by rewrite <- Hfr, <- Hwdt|done|].
    apply (represents_same s x a a); try done. intros p. by rewrite Hk, (rp_regs _ _ Ha). }
  destruct Hs as [r Hr64|x b s' E|s' E|status s' Hst E|w].
  - destruct (simulate_frame s (put_kernel (put_frame r (kernel_of s)) s) a r (wdt (kernel_of s)) Ha Hr64) as [H1 H2];
      [by destruct (kernel_of s)|done|]. eexists. split; [by apply rtc_once|done].
  - destruct (user_store_page s _ _ x b s' Hr E) as (ty & v & q & o & Hq & Ho & ->).
    destruct (simulate_store s a ty v q o (u8 b) Ha Hq Ho) as (a' & H1 & H2 & _). eauto.
  - destruct (enter_syscall_cases s _ _ s' Hr E) as (Hm & Hlay & Hcb & [(v & Hk)|(p & l' & st & Hq & Hwf & Hho)]).
    + destruct (simulate_frame s s' a (set_ar (<[SYSCALL_RET := v]> (ar (frame (kernel_of s)))) (frame (kernel_of s)))
        (wdt (kernel_of s)) Ha) as [H1 H2]; [by cbn; rewrite length_insert| |done|].
      { rewrite Hk. by destruct (kernel_of s). }
      eexists. split; [by apply rtc_once|done].
    + destruct (simulate_switch s s' a st (set_ar (<[SYSCALL_RET := 0]> (ar (frame (kernel_of s)))) (frame (kernel_of s)))
        p l' Ha) as (a' & H1 & H2 & _); try done; [by cbn; rewrite length_insert|]. eauto.
  - destruct (enter_interrupt_cases s _ _ status s' Hr E) as (Hm & Hlay & Hcb & [Hk|(p & l' & st & Hq & Hwf & Hho)]).
    + exists a. split; [done|]. by apply Hstill.
    + destruct (simulate_switch s s' a st (frame (kernel_of s)) p l' Ha) as (a' & H1 & H2 & _); try done;
        [by rewrite <- Hfr|by left|]. eauto.
  - destruct (simulate_frame s (put_kernel (put_wdt w (kernel_of s)) s) a (frame (kernel_of s)) w Ha Hlen) as [H1 H2];
      [by destruct (kernel_of s)|done|]. eexists. split; [by apply rtc_once|done].
Qed.

Lemma steps_running s c l s' : running s c l -> rtc run_step s s' -> exists c' l', running s' c' l'.
Proof using Hends Hcall.
  intros Hr Hs. assert (exists a, represents s a) as Ha by (eexists; by apply vm_of_represents).
  clear Hr. enough (exists a, represents s' a) as [a' Ha'] by (do 2 eexists; apply Ha').
  induction Hs as [x|x y z Hxy _ IH]; [done|]. apply IH. destruct Ha as [a Ha].
  destruct (step_simulated x y a Ha Hxy) as (a' & _ & Ha'). eauto.
Qed.

(** C2: Refinement. The system refines the machine of Vm.v, on which every task has
    registers and pages of its own: whatever user code computes, writes or asks of the
    kernel, and whenever devices interrupt, each step of the system is a computation, a
    write, or the end of the turn of the one task that runs, and the result again shows each
    task its own registers, pages and bytes. *)
Theorem system_refines_vm s s' a :
  represents s a -> rtc run_step s s' ->
  exists a', rtc vm_step a a' /\ represents s' a'.
Proof using Hends Hcall.
  intros Ha Hs. revert a Ha. induction Hs as [x|x y z Hxy _ IH]; intros a Ha; [by exists a|].
  destruct (step_simulated x y a Ha Hxy) as (b & Hab & Hb).
  destruct (IH b Hb) as (d & Hbd & Hd). exists d. split; [|done].
  transitivity b; [|done]. eapply (rtc_subrel _ _ a b); [|exact Hab]. by intros ? ? [_ ?].
Qed.

(** The system runs, as long as another task than [p] does. *)
Abbreviation others p := (rtc (fun x y => run_step x y /\ current_task (kernel_of x) <> Some p)).

Lemma isolated_run s s' c l p :
  running s c l ->
  others p s s' ->
  regs_of (kernel_of s') p = regs_of (kernel_of s) p /\
  (forall ty v, is_Some (page_of (kernel_of s') p ty v) <-> is_Some (page_of (kernel_of s) p ty v)) /\
  (forall ty v o, private_byte s' p ty v o = private_byte s p ty v o).
Proof using Hends Hcall.
  intros Hr Hs. pose proof (vm_of_represents s c l Hr) as Ha.
  enough (exists a', represents s' a' /\ vm_same p (vm_of s c l) a') as (a' & Ha' & H1 & H2 & H3).
  { split; [|split].
    - rewrite (rp_regs _ _ Ha') in H1. exact H1.
    - intros ty v. specialize (H2 ty v). rewrite (rp_pages _ _ Ha') in H2. cbn in H2.
      pose proof (bool_decide_eq_true (is_Some (page_of (kernel_of s') p ty v))) as H. rewrite H2 in H.
      by rewrite <- H, bool_decide_eq_true.
    - intros ty v o. specialize (H3 ty v o). rewrite (rp_memory _ _ Ha') in H3. exact H3. }
  revert Ha. generalize (vm_of s c l) as a. clear c l Hr.
  induction Hs as [x|x y z [Hxy Hc] _ IH]; intros a Ha; [by exists a|].
  destruct (step_simulated x y a Ha Hxy) as (b & Hab & Hb).
  destruct (IH b Hb) as (d & Hd & Hbd). exists d. split; [done|]. transitivity b; [|done].
  eapply vm_steps_away; [exact Hab|]. intros ->. apply Hc, (rn_current _ _ _ (rp_running _ _ Ha)).
Qed.

(** From a state in which [p] has the registers [r] and what it had in the state [s0]. *)
Lemma isolated_from s0 s s' c l p r :
  running s c l -> same_memory s0 s -> regs_of (kernel_of s) p = Some r -> others p s s' ->
  regs_of (kernel_of s') p = Some r /\
  (forall ty v, is_Some (page_of (kernel_of s') p ty v) <-> is_Some (page_of (kernel_of s0) p ty v)) /\
  (forall ty v o, private_byte s' p ty v o = private_byte s0 p ty v o).
Proof using Hends Hcall.
  intros Hr Hsm Hp Hs. destruct (isolated_run s s' c l p Hr Hs) as (H1 & H2 & H3).
  split; [by rewrite H1|]. split; intros ty v; destruct (Hsm p ty v) as [E1 E2].
  - by rewrite H2, E1.
  - intros o. by rewrite H3, E2.
Qed.

(** C3: Isolation of tasks. While another task runs, and whatever it does, a task keeps its
    registers, its pages and every byte in them (but where the kernel saves its registers):
    all that it can see when it runs again is what it left. *)
Theorem task_isolated s s' c l p :
  running s c l ->
  others p s s' ->
  regs_of (kernel_of s') p = regs_of (kernel_of s) p /\
  (forall ty v, is_Some (page_of (kernel_of s') p ty v) <-> is_Some (page_of (kernel_of s) p ty v)) /\
  (forall ty v o, private_byte s' p ty v o = private_byte s p ty v o).
Proof using Hends Hcall. exact (isolated_run s s' c l p). Qed.

(** A step of another task leaves a task its memory. *)
Lemma step_away s s' c l p :
  running s c l -> run_step s s' -> p <> c ->
  (exists c' l', running s' c' l') /\
  forall ty v, (is_Some (page_of (kernel_of s') p ty v) <-> is_Some (page_of (kernel_of s) p ty v)) /\
    forall o, private_byte s' p ty v o = private_byte s p ty v o.
Proof using Hends Hcall.
  intros Hr Hs Hp. destruct (step_simulated s s' _ (vm_of_represents s c l Hr) Hs) as (b & Hab & Hb).
  split; [do 2 eexists; apply Hb|].
  destruct (vm_steps_away _ p _ _ Hab Hp) as (_ & H2 & H3). intros ty v. split.
  - specialize (H2 ty v). rewrite (rp_pages _ _ Hb) in H2. cbn in H2.
    pose proof (bool_decide_eq_true (is_Some (page_of (kernel_of s') p ty v))) as H. rewrite H2 in H.
    by rewrite <- H, bool_decide_eq_true.
  - intros o. specialize (H3 ty v o). rewrite (rp_memory _ _ Hb) in H3. exact H3.
Qed.

(** *** A task that parks *)
Lemma steps_out s s' a p :
  represents s a -> vm_out p a -> rtc run_step s s' -> exists a', represents s' a' /\ vm_out p a' /\ vm_same p a a'.
Proof using Hends Hcall.
  intros Ha Hout Hs. revert a Ha Hout. induction Hs as [x|x y z Hxy _ IH]; intros a Ha Hout; [by exists a|].
  destruct (step_simulated x y a Ha Hxy) as (b & Hab & Hb).
  assert (vm_out p b) as Hob.
  { clear - Hab Hout. revert Hout. generalize (vm_current a) as c. intros c Hout. 
    revert Hout. induction Hab as [|u v w [_ Huv] _ IH]; [done|]. intros Hout. by apply IH, (vm_step_out p u v). }
  destruct (IH b Hb Hob) as (d & Hd & Hod & Hbd). exists d. split; [done|]. split; [done|].
  transitivity b; [|done]. eapply vm_steps_away; [exact Hab|]. intros ->. by destruct Hout.
Qed.

Lemma park_running s c p l :
  running s c (p :: l) -> ar (frame (kernel_of s)) !! SYSCALL_NUM = Some SYSCALL_SCHED_PARK ->
  exists s1, enter_syscall s = Ok tt s1 /\ running s1 p l /\
    regs_of (kernel_of s1) c = Some (frame (returning 0 (kernel_of s))).
Proof using Hends Hcall.
  intros Hr Hn.
  destruct (handler_park weak_fails fuel no_wakeup sleeps call txfifo_cnt polls (user_data s) __FILE__
    Hends (sys s) l c p (rn_sched _ _ _ Hr) (rn_current _ _ _ Hr) Hn (rn_park _ _ _ Hr))
    as (k' & E & Hwf' & Hho & Hcb).
  pose proof (syscall_layout weak_fails fuel no_wakeup sleeps call txfifo_cnt polls (user_data s) __FILE__
    ltac:(done) Hcall (sys s)) as Hlay. rewrite E in Hlay.
  exists (System (Machine k' (console (sys s))) (user_mem s)). split.
  { unfold Running.enter_syscall. by rewrite (zoom_ok (H := system_machine) _ s tt _ E). }
  destruct (handed_over_running s c (p :: l) p l TASK_STATUS_WAITING (frame (returning 0 (kernel_of s)))
    (System (Machine k' (console (sys s))) (user_mem s)) Hr) as (Hr1 & _ & Hregs); try done.
  - cbn. rewrite length_insert. apply (rn_frame _ _ _ Hr).
  - cbn. by rewrite Hcb, (rn_park _ _ _ Hr).
  - split; [done|]. by rewrite Hregs, decide_True.
Qed.

Lemma yield_running s c p l :
  running s c (p :: l) -> ar (frame (kernel_of s)) !! SYSCALL_NUM = Some SYSCALL_SCHED_YIELD ->
  exists s1, enter_syscall s = Ok tt s1 /\ running s1 p (l ++ [c]) /\ same_memory s s1 /\
    regs_of (kernel_of s1) c = Some (frame (returning 0 (kernel_of s))).
Proof using Hends Hcall.
  intros Hr Hn.
  destruct (handler_yield weak_fails fuel no_wakeup sleeps call txfifo_cnt polls (user_data s) __FILE__
    Hends (sys s) (p :: l) (l ++ [c]) c p (rn_sched _ _ _ Hr) (rn_current _ _ _ Hr) Hn eq_refl)
    as (k' & E & Hwf' & Hho & Hcb).
  pose proof (syscall_layout weak_fails fuel no_wakeup sleeps call txfifo_cnt polls (user_data s) __FILE__
    ltac:(done) Hcall (sys s)) as Hlay. rewrite E in Hlay.
  exists (System (Machine k' (console (sys s))) (user_mem s)). split.
  { unfold Running.enter_syscall. by rewrite (zoom_ok (H := system_machine) _ s tt _ E). }
  destruct (handed_over_running s c (p :: l) p (l ++ [c]) TASK_STATUS_RUNNABLE (frame (returning 0 (kernel_of s)))
    (System (Machine k' (console (sys s))) (user_mem s)) Hr) as (Hr1 & Hsm & Hregs); try done.
  - cbn. rewrite length_insert. apply (rn_frame _ _ _ Hr).
  - split; [done|]. split; [done|]. by rewrite Hregs, decide_True.
Qed.

Lemma interrupt_resumes s c l status :
  drains txfifo_cnt polls -> running s c l -> length status = 3%nat ->
  exists s1, enter_interrupt status s = Ok tt s1 /\
    forall s2, others c s1 s2 -> current_task (kernel_of s2) = Some c ->
      frame (kernel_of s2) = frame (kernel_of s) /\
      (forall ty v, is_Some (page_of (kernel_of s2) c ty v) <-> is_Some (page_of (kernel_of s) c ty v)) /\
      (forall ty v o, private_byte s2 c ty v o = private_byte s c ty v o).
Proof using Hends Hcall.
  intros Hdrains Hr Hst. pose proof (rn_current _ _ _ Hr) as Hc.
  assert (exists s1, enter_interrupt status s = Ok tt s1) as [s1 E].
  { destruct (interrupt_returns weak_fails fuel no_wakeup sleeps txfifo_cnt polls (sys s) l c status Hends Hdrains
      (rn_sched _ _ _ Hr) Hst Hc) as (m & E).
    exists (System m (user_mem s)). unfold Running.enter_interrupt. by rewrite (zoom_ok (H := system_machine) _ s tt _ E). }
  exists s1. split; [done|]. intros s2 Hs Hc2.
  destruct (enter_interrupt_running s c l status s1 Hr E) as (Hsm & (c1 & l1 & Hr1) & Hregs).
  destruct (isolated_from s s1 s2 c1 l1 c (frame (kernel_of s)) Hr1 Hsm) as (H1 & H2); [|done|].
  - rewrite Hregs. unfold regs_of. by rewrite decide_True.
  - split; [|done]. unfold regs_of in H1. rewrite decide_True in H1 by done. by injection H1 as ->.
Qed.

(** C14: Interrupts are invisible to the task that they interrupt. Whatever its registers and
    whatever devices are pending, the entry of the interrupt returns; when the task goes on,
    at once or after any others had the CPU, its registers, its pages and the bytes in them
    (but where the kernel saves its registers) are what they were. *)
Theorem interrupt_invisible s c l status :
  drains txfifo_cnt polls -> running s c l -> length status = 3%nat ->
  exists s1, enter_interrupt status s = Ok tt s1 /\
    forall s2, others c s1 s2 -> current_task (kernel_of s2) = Some c ->
      frame (kernel_of s2) = frame (kernel_of s) /\
      (forall ty v, is_Some (page_of (kernel_of s2) c ty v) <-> is_Some (page_of (kernel_of s) c ty v)) /\
      (forall ty v o, private_byte s2 c ty v o = private_byte s c ty v o).
Proof using Hends Hcall. apply interrupt_resumes. Qed.

Lemma yield_resumes s c p l :
  running s c (p :: l) -> ar (frame (kernel_of s)) !! SYSCALL_NUM = Some SYSCALL_SCHED_YIELD ->
  exists s1, enter_syscall s = Ok tt s1 /\ running s1 p (l ++ [c]) /\
    forall s2, others c s1 s2 -> current_task (kernel_of s2) = Some c ->
      frame (kernel_of s2) = frame (returning 0 (kernel_of s)) /\
      (forall ty v, is_Some (page_of (kernel_of s2) c ty v) <-> is_Some (page_of (kernel_of s) c ty v)) /\
      (forall ty v o, private_byte s2 c ty v o = private_byte s c ty v o).
Proof using Hends Hcall.
  intros Hr Hn. destruct (yield_running s c p l Hr Hn) as (s1 & E & Hr1 & Hsm & Hregs).
  exists s1. split; [done|]. split; [done|]. intros s2 Hs Hc2.
  destruct (isolated_from s s1 s2 p (l ++ [c]) c _ Hr1 Hsm Hregs Hs) as (H1 & H2).
  split; [|done]. unfold regs_of in H1. rewrite decide_True in H1 by done. by injection H1 as ->.
Qed.

(** C15: A yield returns. The task that makes the system call goes to the end of the queue
    and the next one runs; when the task has the CPU again its registers are those it made
    the call with, but for the result, zero, in [a2]; its pages and their bytes are what
    they were. *)
Theorem yield_returns s c p l :
  running s c (p :: l) -> ar (frame (kernel_of s)) !! SYSCALL_NUM = Some SYSCALL_SCHED_YIELD ->
  exists s1, enter_syscall s = Ok tt s1 /\ running s1 p (l ++ [c]) /\
    forall s2, others c s1 s2 -> current_task (kernel_of s2) = Some c ->
      frame (kernel_of s2) = frame (returning 0 (kernel_of s)) /\
      (forall ty v, is_Some (page_of (kernel_of s2) c ty v) <-> is_Some (page_of (kernel_of s) c ty v)) /\
      (forall ty v o, private_byte s2 c ty v o = private_byte s c ty v o).
Proof using Hends Hcall. apply yield_resumes. Qed.

(** C35: A task that parks never runs again. The system call hands the CPU to the next task,
    and from then on, whatever the others do and whatever interrupts, the parked task is
    never the current one: nothing in the running system wakes it. Its registers stay saved,
    and its memory stays as it is. *)
Theorem parked_for_ever s c p l :
  running s c (p :: l) -> ar (frame (kernel_of s)) !! SYSCALL_NUM = Some SYSCALL_SCHED_PARK ->
  exists s1, enter_syscall s = Ok tt s1 /\ current_task (kernel_of s1) = Some p /\
    forall s2, rtc run_step s1 s2 -> current_task (kernel_of s2) <> Some c /\
      regs_of (kernel_of s2) c = Some (frame (returning 0 (kernel_of s))) /\
      (forall ty v o, private_byte s2 c ty v o = private_byte s1 c ty v o).
Proof using Hends Hcall.
  intros Hr Hn. destruct (park_running s c p l Hr Hn) as (s1 & E & Hr1 & Hregs).
  exists s1. split; [done|]. split; [apply (rn_current _ _ _ Hr1)|]. intros s2 Hs.
  destruct (current_task_data _ _ c (rn_sched _ _ _ Hr) (rn_current _ _ _ Hr)) as (_ & _ & _ & _ & _ & Hc).
  apply not_elem_of_cons in Hc as [Hcp Hcl].
  pose proof (vm_of_represents s1 p l Hr1) as Ha1.
  destruct (steps_out s1 s2 _ c Ha1 ltac:(by split) Hs) as (a2 & Ha2 & [Hc2 _] & Hsame & _ & Hbytes).
  split; [|split].
  - rewrite (rn_current _ _ _ (rp_running _ _ Ha2)). congruence.
  - rewrite <- (rp_regs _ _ Ha2), Hsame. exact Hregs.
  - intros ty v o. rewrite <- (rp_memory _ _ Ha2). apply Hbytes.
Qed.

(** C16: Every reachable state of the running system is sound: there is a current task; the
    run queue, the statuses and the tables agree with it; the PID that user code runs with
    is granted exactly its pages, so it can reach no page of any other task. *)
Theorem running_reachable s s' c l :
  running s c l -> rtc run_step s s' ->
  exists c' l', current_task (kernel_of s') = Some c' /\ sched_wf (kernel_of s') l' None /\
    (forall v q, grants (immu_table (mmu (kernel_of s'))) (pid_new_reg (mmu (kernel_of s'))) v q <->
       page_of (kernel_of s') c' MMU_SPACE_CODE v = Some q) /\
    (forall v q, grants (dmmu_table (mmu (kernel_of s'))) (pid_new_reg (mmu (kernel_of s'))) v q <->
       page_of (kernel_of s') c' MMU_SPACE_DATA v = Some q) /\
    (forall p ty v v' q, page_of (kernel_of s') c' ty v = Some q ->
       page_of (kernel_of s') p ty v' = Some q -> p = c' /\ v' = v).
Proof using Hends Hcall.
  intros Hr Hs. destruct (steps_running s c l s' Hr Hs) as (c' & l' & Hr'). exists c', l'.
  split; [apply (rn_current _ _ _ Hr')|]. split; [apply (rn_sched _ _ _ Hr')|].
  split; [intros v q; by apply (granted_page s' c' l' MMU_SPACE_CODE)|].
  split; [intros v q; by apply (granted_page s' c' l' MMU_SPACE_DATA)|].
  intros p ty v v' q H1 H2. by apply (page_of_unique _ (sc_memory _ _ _ (rn_sched _ _ _ Hr')) p c' ty v' v q).
Qed.
End Steps.

(** ** From the start of the first task *)
Lemma first_running weak_fails fuel interrupt sleeps k p l u mem :
  cas_ends weak_fails fuel -> sched_wf k (p :: l) None -> current_task k = None -> park_callback k = None ->
  contexts_owned k -> (forall q x, task_context k q = Some x -> context_shape x) ->
  exists k', scheduler_on_drop weak_fails fuel interrupt sleeps k = Ok tt k' /\
    running (System (Machine k' u) mem) p l /\ same_tables k k' /\
    (forall q, task_context k' q = task_context k q).
Proof.
  intros Hends Hwf Hc Hcb Hown Hsh.
  destruct (on_drop_start weak_fails fuel interrupt sleeps Hends k l p Hwf Hc)
    as (k' & E & Hwf' & Hc' & Hf' & Hrg & Hsw & Hon & Hcb' & Htab).
  pose proof (on_drop_start_layout weak_fails fuel interrupt sleeps k l p Hends Hwf Hc) as Hlay.
  rewrite E in Hlay. cbn in Hlay. exists k'. split; [done|].
  pose proof (fun q => layout_context k k' q Hlay (Hrg q)) as Hctx.
  assert (forall q x, task_context k' q = Some x -> context_shape x) as Hsh'.
  { intros q x. rewrite Hctx. apply Hsh. }
  split; [|done]. constructor; try done; cbn.
  - by rewrite Hcb'.
  - by eapply contexts_owned_layout.
  - rewrite saved_regs_context in Hf'. destruct (task_context k' p) as [x|] eqn:Hx; [|done].
    injection Hf' as ->. by apply (Hsh' p x).
Qed.

(** ** Examples: two tasks, the first of them running *)
Lemma ex_two_owned : contexts_owned ex_two_tasks.
Proof.
  intros a Ha. cbn in Ha. destruct (decide (a = DATA_PAGE_ADDR 1)) as [->|H1].
  { exists 2%positive. eexists. split; [reflexivity|done]. }
  rewrite lookup_insert_ne in Ha by done. destruct (decide (a = DATA_PAGE_ADDR 0)) as [->|H0].
  { exists 1%positive. eexists. split; [reflexivity|done]. }
  rewrite lookup_insert_ne in Ha by done. by destruct Ha.
Qed.

Lemma ex_two_shapes p u : task_context ex_two_tasks p = Some u -> context_shape u.
Proof.
  unfold task_context. intros Hu. destruct (tasks ex_two_tasks !! p) as [t|] eqn:Ht; [|done].
  assert (u = fresh_ucontext 0x4009E000 0x40080000 ex_text) as ->; [|apply fresh_context_shape].
  cbn [mbind option_bind] in Hu. revert Hu. unfold ex_two_tasks, created. cbn [ucontexts].
  rewrite lookup_insert_Some. intros [[_ <-]|[_ Hu]]; [done|].
  unfold ex_one_task, created in Hu. cbn [ucontexts] in Hu. apply lookup_insert_Some in Hu as [[_ <-]|[_ Hu]]; done.
Qed.

Lemma ex_two_running : exists s, running s 1 [2%positive].
Proof.
  destruct (ready_task_ok never_fails 1 never_fails_ends ex_two_tasks [] 1 ex_two_tasks_sched eq_refl)
    as (s1 & E1 & Hwf1 & Hc1 & _ & _ & _ & _ & Hst1 & Hrg1 & _ & Hcb1).
  destruct (ready_task_ok never_fails 1 never_fails_ends s1 [1%positive] 2 Hwf1)
    as (s2 & E2 & Hwf2 & Hc2 & _ & _ & _ & _ & _ & Hrg2 & _ & Hcb2); [by rewrite Hst1|].
  pose proof (ready_task_layout never_fails 1 1 ex_two_tasks) as L1. rewrite E1 in L1. cbn in L1.
  pose proof (ready_task_layout never_fails 1 2 s1) as L2. rewrite E2 in L2. cbn in L2.
  destruct (first_running never_fails 1 no_wakeup 3 s2 1 [2%positive] (Uart 0 [] 0) ∅ never_fails_ends Hwf2)
    as (k & _ & Hr & _); [by rewrite Hc2, Hc1|by rewrite Hcb2, Hcb1|..].
  - apply (contexts_owned_layout s1), (contexts_owned_layout ex_two_tasks), ex_two_owned; done.
  - intros q x. rewrite (layout_context s1 s2 q L2 (Hrg2 q)), (layout_context ex_two_tasks s1 q L1 (Hrg1 q)).
    apply ex_two_shapes.
  - eauto.
Qed.

(** About to make the system call [n]. *)
Lemma ex_asking n : exists s, running s 1 [2%positive] /\ ar (frame (kernel_of s)) !! SYSCALL_NUM = Some n.
Proof.
  destruct ex_two_running as [s Hr]. set (r := TaskRegs (replicate 64 n) 0 0 0 0 0 0 0 0 0 0).
  destruct (frame_running s _ _ r (wdt (kernel_of s)) (put_kernel (put_wdt (wdt (kernel_of s)) (put_frame r (kernel_of s))) s)
    Hr eq_refl eq_refl eq_refl) as (Hr' & _). eexists. split; [exact Hr'|reflexivity].
Qed.

Lemma no_callback_layout f x : keeps_layout (no_callback f x).
Proof. done. Qed.

Abbreviation ex_step := (run_step never_fails 1 3 no_callback ex_fifo 1 []).
Abbreviation ex_computed s := (put_kernel (put_frame zero_regs (kernel_of s)) s).

Lemma ex_compute s : length (ar zero_regs) = 64%nat -> ex_step s (ex_computed s).
Proof. apply run_compute. Qed.

Lemma system_refines_vm_witness :
  exists s a a', represents s a /\ rtc vm_step a a' /\ represents (ex_computed s) a'.
Proof.
  destruct ex_two_running as [s Hr]. exists s, (vm_of s 1 [2%positive]).
  destruct (system_refines_vm never_fails 1 3 no_callback ex_fifo 1 [] never_fails_ends no_callback_layout
    s (ex_computed s) (vm_of s 1 [2%positive])) as (a' & H1 & H2).
  - by apply vm_of_represents.
  - by apply rtc_once, ex_compute.
  - exists a'. split; [by apply vm_of_represents|by split].
Defined.

Lemma task_isolated_witness :
  exists s, running s 1 [2%positive] /\ regs_of (kernel_of (ex_computed s)) 2 = regs_of (kernel_of s) 2.
Proof.
  destruct ex_two_running as [s Hr]. exists s. split; [done|].
  apply (task_isolated never_fails 1 3 no_callback ex_fifo 1 [] never_fails_ends no_callback_layout
    s (ex_computed s) 1 [2%positive] 2 Hr).
  apply rtc_once. split; [by apply ex_compute|]. by rewrite (rn_current _ _ _ Hr).
Defined.

Lemma parked_for_ever_witness :
  exists s s1, running s 1 [2%positive] /\ enter_syscall never_fails 1 3 no_callback ex_fifo 1 [] s = Ok tt s1 /\
    current_task (kernel_of s1) = Some 2%positive.
Proof.
  destruct (ex_asking SYSCALL_SCHED_PARK) as (s & Hr & Hn).
  destruct (parked_for_ever never_fails 1 3 no_callback ex_fifo 1 [] never_fails_ends no_callback_layout
    s 1 2 [] Hr Hn) as (s1 & E & Hc & _).
  exists s, s1. by split_and!.
Defined.

Lemma interrupt_invisible_witness :
  exists s s1, running s 1 [2%positive] /\ enter_interrupt never_fails 1 3 ex_fifo 1 [0; 0; 0] s = Ok tt s1.
Proof.
  destruct ex_two_running as [s Hr].
  destruct (interrupt_invisible never_fails 1 3 no_callback ex_fifo 1 [] never_fails_ends no_callback_layout
    s 1 [2%positive] [0; 0; 0] ex_drains Hr eq_refl) as (s1 & E & _).
  exists s, s1. by split.
Defined.

Lemma yield_returns_witness :
  exists s s1, running s 1 [2%positive] /\ enter_syscall never_fails 1 3 no_callback ex_fifo 1 [] s = Ok tt s1 /\
    running s1 2 [1%positive].
Proof.
  destruct (ex_asking SYSCALL_SCHED_YIELD) as (s & Hr & Hn).
  destruct (yield_returns never_fails 1 3 no_callback ex_fifo 1 [] never_fails_ends no_callback_layout
    s 1 2 [] Hr Hn) as (s1 & E & Hr1 & _).
  exists s, s1. by split_and!.
Defined.

Lemma running_reachable_witness :
  exists s c l, running s 1 [2%positive] /\ sched_wf (kernel_of (ex_computed s)) l None /\
    current_task (kernel_of (ex_computed s)) = Some c.
Proof.
  destruct ex_two_running as [s Hr].
  destruct (running_reachable never_fails 1 3 no_callback ex_fifo 1 [] never_fails_ends no_callback_layout
    s (ex_computed s) 1 [2%positive] Hr) as (c & l & H1 & H2 & _).
  - by apply rtc_once, ex_compute.
  - exists s, c, l. by split_and!.
Defined.

Lemma regs_bytes_roundtrip_witness : regs_of_bytes (regs_bytes zero_regs) = zero_regs.
Proof.
  apply regs_bytes_roundtrip. split; [done|]. split; [|done].
  repeat (constructor; [done|]). constructor.
Defined.
