(* ===== verification/Progress.v ===== *)
(** * Every entry into the kernel ends, and how

    Running.v steps from an entry that returns to the next; here is what becomes of each entry
    from a running state: the task's call returns, or the kernel stops for the one reason there
    is for that call. *)
From Stdlib Require Import ZArith Lia Ascii String.
From stdpp Require Import base tactics numbers list gmap.
From S2P Require Import Prelude Umem Mmu MmuInv Timg Printf PrintfSpec Console Text Task TaskSpec Scheduler SchedSpec SchedThm.
From S2P Require Import Syscall SyscallSpec Interrupts Layout InterruptsSpec Loader Vm Running RunningSpec.

Section Progress.
Context (weak_fails : nat -> bool) (fuel sleeps : nat) (call : Z -> Z -> M kernel unit).
Context (txfifo_cnt : nat -> Z) (polls : nat) (__FILE__ : list Z).
Hypothesis (Hends : cas_ends weak_fails fuel) (Hcall : forall f x, keeps_layout (call f x))
  (Hdrains : drains txfifo_cnt polls)
  (Hfile : Forall (fun c => c <> 0) __FILE__) (Hfilelen : len __FILE__ < 2 ^ 32 - 1).

Abbreviation enter_syscall := (enter_syscall weak_fails fuel sleeps call txfifo_cnt polls __FILE__).
Abbreviation enter_interrupt := (enter_interrupt weak_fails fuel sleeps txfifo_cnt polls).
Abbreviation handler s := (common_syscall_handler weak_fails fuel no_wakeup sleeps call txfifo_cnt polls
  (user_data s) __FILE__).

(** The bytes that a format prints, if it has a defined behaviour. *)
Definition rendered (format : list Z) (va : list va_value) : option (list Z) :=
  match render format va with
  | Ok _ text => Some (filter (fun c => c <> 0) text)
  | Stop _ _ => None
  end.

(** The line that a log call of the task [c] prints: its format reads the task's name, and the
    page of the address from its start on. There is none when the address is outside of the
    user data area, or when the format reads behind the bytes of the memory. *)
Definition log_text (s : system) (c : loc) : option (list Z) :=
  let k := kernel_of s in
  match size ← ar (frame k) !! SYSCALL_ARG2; a ← ar (frame k) !! SYSCALL_ARG1;
        sp ← spaces (mmu k) !! c; e ← dmmu sp !! Z.to_nat (s32 (DATA_PAGE_INDEX a));
        t ← tasks k !! c; u ← ucontexts k !! ucontext t; Some (size, e, t, u) with
  | Some (size, e, t, u) => rendered (txt "[*] " ++ txt "%.64s: %.*s" ++ [10; 13; 0])
      [task_name t u; VWord size; VStr (DATA_PAGE_ADDR (phys e)) (user_data s (DATA_PAGE_ADDR (phys e)))]
  | None => None
  end.

Lemma log_ends mark fmt va u :
  match rendered (txt mark ++ fmt ++ [10; 13; 0]) va with
  | Some text => exists u', log txfifo_cnt polls mark fmt va u = Ok tt u' /\ printed text u u'
  | None => exists u', log txfifo_cnt polls mark fmt va u = Stop Fault u'
  end.
Proof using Hdrains.
  assert (forall c l w, printed l u w -> exists w', _putchar txfifo_cnt polls c w = Ok tt w' /\ printed (l ++ [c]) u w')
    as Hput.
  { intros c l w [HE HF]. destruct (putchar_ok txfifo_cnt polls c w Hdrains) as [r E].
    eexists. split; [exact E|]. split; [done|]. cbn. by rewrite HF, <- (assoc_L (++)). }
  pose proof (printf_sink _ (fun l w => printed l u w) (txt mark ++ fmt ++ [10; 13; 0]) va u Hput
    (conj eq_refl (eq_sym (app_nil_r _)))) as H.
  unfold rendered, log. destruct (render _ va) as [k text|w text].
  - destruct H as (u' & E & Hp). exists u'. split; [by mrun E|done].
  - destruct H as (_ & u' & E). exists u'. by apply bind_stop.
Qed.

Lemma handler_log_ends s c l :
  running s c l -> ar (frame (kernel_of s)) !! SYSCALL_NUM = Some SYSCALL_LOG ->
  match log_text s c with
  | Some text => exists u', handler s (sys s) = Ok tt (Machine (returning 0 (kernel_of s)) u') /\
      printed text (console (sys s)) u'
  | None => exists m', handler s (sys s) = Stop Fault m'
  end.
Proof using Hdrains.
  intros Hr Hn. pose proof (rn_frame _ _ _ Hr) as Hlen. pose proof (rn_current _ _ _ Hr) as Hc.
  destruct (lookup_lt_is_Some_2 (ar (frame (kernel_of s))) SYSCALL_ARG1) as [a Ha]; [rewrite Hlen; unfold SYSCALL_ARG1; lia|].
  destruct (lookup_lt_is_Some_2 (ar (frame (kernel_of s))) SYSCALL_ARG2) as [size Hs]; [rewrite Hlen; unfold SYSCALL_ARG2; lia|].
  destruct (current_task_data _ _ _ (rn_sched _ _ _ Hr) Hc) as (t & u & Ht & _ & Hu & _).
  destruct (kw_ucontext _ (sc_memory _ _ _ (rn_sched _ _ _ Hr)) c t Ht) as (q & sp & Hsp & _).
  set (s0 := returning 0 (kernel_of s)). set (m0 := Machine s0 (console (sys s))).
  assert (zoom (get_ar SYSCALL_ARG2) m0 = Ok size m0) as E2.
  { rewrite (zoom_ok (H := machine_kernel) _ m0 size s0); [done|]. apply get_ar_ok. cbn. by rewrite list_lookup_insert_ne. }
  assert (zoom (get_ar SYSCALL_ARG1) m0 = Ok a m0) as E1.
  { rewrite (zoom_ok (H := machine_kernel) _ m0 a s0); [done|]. apply get_ar_ok. cbn. by rewrite list_lookup_insert_ne. }
  assert (zoom get_current_task m0 = Ok (Some c) m0) as Ec.
  { rewrite (zoom_ok (H := machine_kernel) _ m0 (Some c) s0); [done|]. exact (f_equal (fun c => Ok c s0) Hc). }
  assert (get_user_ptr a size m0 = match dmmu sp !! Z.to_nat (s32 (DATA_PAGE_INDEX a)) with
    | Some e => Ok (NO_ERROR, DATA_PAGE_ADDR (phys e)) m0 | None => Stop Fault m0 end) as Ep.
  { rewrite get_user_ptr_eq. change (current_task (kern m0)) with (current_task (kernel_of s)).
    change (mmu (kern m0)) with (mmu (kernel_of s)). rewrite Hc. cbn [mbind option_bind].
    by rewrite Hsp. }
  unfold log_text. rewrite Hs, Ha. cbn [mbind option_bind]. rewrite Hsp. cbn [mbind option_bind].
  destruct (dmmu sp !! _) as [e|] eqn:He; cbn [mbind option_bind].
  2: { exists m0. apply (handler_stop _ _ _ _ _ _ _ _ _ SYSCALL_LOG); [done|].
    transitivity (syscall_log txfifo_cnt polls (user_data s) __FILE__ m0); [done|].
    unfold syscall_log. mrun E2. mrun E1. by apply bind_stop. }
  rewrite Ht. cbn [mbind option_bind]. rewrite Hu. cbn [mbind option_bind].
  set (va := [task_name t u; VWord size; _]).
  assert (syscall_log txfifo_cnt polls (user_data s) __FILE__ m0 =
    (zoom (TRACE txfifo_cnt polls (txt "%.64s: %.*s") va);; mret NO_ERROR) m0) as El.
  { unfold syscall_log. mrun E2. mrun E1. mrun Ep. cbn [IS_ERROR err_code Z.eqb negb]. mrun Ec. mrun.
    mrun (zoom_ok (H := machine_kernel)). { by apply get_task_ok. }
    mrun (zoom_ok (H := machine_kernel)). { by apply get_ucontext_ok. }
    done. }
  pose proof (log_ends "[*] " (txt "%.64s: %.*s") va (console (sys s))) as Hlog.
  destruct (rendered _ va) as [text|]; destruct Hlog as (u' & E).
  - destruct E as [E Hp]. exists u'. split; [|done].
    rewrite (handler_dispatch _ _ _ _ _ _ _ _ _ SYSCALL_LOG (sys s) (Machine s0 u') NO_ERROR); [done|done|].
    transitivity (syscall_log txfifo_cnt polls (user_data s) __FILE__ m0); [done|]. rewrite El.
    mrun (zoom_ok (H := machine_console)). { exact E. } done.
  - exists (Machine s0 u'). apply (handler_stop _ _ _ _ _ _ _ _ _ SYSCALL_LOG); [done|].
    transitivity (syscall_log txfifo_cnt polls (user_data s) __FILE__ m0); [done|]. rewrite El.
    apply bind_stop. unfold zoom, TRACE. change (view m0) with (console (sys s)). by rewrite E.
Qed.

(** The two that may stop: park without another task waits for ever, drop fails its assertion. *)
Lemma handler_drop_stops s c l :
  running s c l -> ar (frame (kernel_of s)) !! SYSCALL_NUM = Some SYSCALL_SCHED_DROP ->
  exists m', handler s (sys s) = Stop AssertFailed m' /\ task_status (kern m') c = Some TASK_STATUS_DEAD.
Proof using Hends.
  intros Hr Hn.
  destruct (on_drop_current weak_fails fuel no_wakeup sleeps Hends (returning 0 (kernel_of s)) l c)
    as (k' & Ep & Hst); [by apply put_frame_wf, (rn_sched _ _ _ Hr)|exact (rn_current _ _ _ Hr)|].
  exists (Machine k' (console (sys s))). split; [|done].
  apply (handler_stop _ _ _ _ _ _ _ _ _ SYSCALL_SCHED_DROP); [done|].
  unfold syscall_dispatch. cbn [Z.eqb Pos.eqb SYSCALL_SCHED_DROP SYSCALL_SCHED_PARK SYSCALL_SCHED_YIELD].
  apply bind_stop. unfold zoom. cbn [view machine_kernel kern]. by rewrite Ep.
Qed.

Lemma handler_park_alone s c :
  running s c [] -> ar (frame (kernel_of s)) !! SYSCALL_NUM = Some SYSCALL_SCHED_PARK ->
  exists m', handler s (sys s) = Stop Spin m' /\ task_status (kern m') c = Some TASK_STATUS_WAITING /\
    current_task (kern m') = None.
Proof using Hends.
  intros Hr Hn.
  destruct (on_park_idle weak_fails fuel no_wakeup sleeps call Hends (returning 0 (kernel_of s)) c)
    as (k' & Ep & Hst & _ & Hc'); [by apply put_frame_wf, (rn_sched _ _ _ Hr)|exact (rn_current _ _ _ Hr)|
      exact (rn_park _ _ _ Hr)|done|].
  exists (Machine k' (console (sys s))). split; [|done].
  apply (handler_stop _ _ _ _ _ _ _ _ _ SYSCALL_SCHED_PARK); [done|].
  unfold syscall_dispatch. cbn [Z.eqb Pos.eqb SYSCALL_SCHED_PARK].
  apply bind_stop. unfold zoom. cbn [view machine_kernel kern]. by rewrite Ep.
Qed.

(** How the system call [n] of the task [c] ends, with [l] in the run queue. *)
Definition call_ends (s : system) (c : loc) (l : list loc) (n : Z) (o : outcome machine unit) : Prop :=
  match o with
  | Ok _ m' => n <> SYSCALL_SCHED_DROP /\ (n = SYSCALL_SCHED_PARK -> l <> []) /\
      (n = SYSCALL_LOG -> exists text, log_text s c = Some text /\ printed text (console (sys s)) (console m'))
  | Stop AssertFailed m' => n = SYSCALL_SCHED_DROP /\ task_status (kern m') c = Some TASK_STATUS_DEAD
  | Stop Spin m' => n = SYSCALL_SCHED_PARK /\ l = [] /\ task_status (kern m') c = Some TASK_STATUS_WAITING /\
      current_task (kern m') = None
  | Stop Fault _ => n = SYSCALL_LOG /\ log_text s c = None
  end.

Lemma handler_ends s c l n :
  running s c l -> ar (frame (kernel_of s)) !! SYSCALL_NUM = Some n -> call_ends s c l n (handler s (sys s)).
Proof using Hends Hdrains Hfile Hfilelen.
  intros Hr Hn. pose proof (rn_sched _ _ _ Hr) as Hwf. pose proof (rn_current _ _ _ Hr) as Hc.
  destruct (decide (n = SYSCALL_SCHED_YIELD)) as [->|N1].
  { destruct (l ++ [c]) as [|p l'] eqn:Hl; [by destruct l|].
    destruct (handler_yield weak_fails fuel no_wakeup sleeps call txfifo_cnt polls (user_data s) __FILE__
      Hends (sys s) l l' c p Hwf Hc Hn Hl) as (k' & -> & _). done. }
  destruct (decide (n = SYSCALL_SCHED_PARK)) as [->|N2].
  { destruct l as [|p l']; [by destruct (handler_park_alone s c Hr Hn) as (m' & -> & ?)|].
    destruct (handler_park weak_fails fuel no_wakeup sleeps call txfifo_cnt polls (user_data s) __FILE__
      Hends (sys s) l' c p Hwf Hc Hn (rn_park _ _ _ Hr)) as (k' & -> & _). done. }
  destruct (decide (n = SYSCALL_SCHED_DROP)) as [->|N3]; [by destruct (handler_drop_stops s c l Hr Hn) as (m' & -> & ?)|].
  destruct (decide (n = SYSCALL_LOG)) as [->|N4].
  { pose proof (handler_log_ends s c l Hr Hn) as H. unfold call_ends. destruct (log_text s c) as [text|].
    - destruct H as (u' & -> & Hp). split; [done|]. split; [done|]. eauto.
    - by destruct H as (m' & ->). }
  destruct (handler_unknown weak_fails fuel no_wakeup sleeps call txfifo_cnt polls (user_data s) __FILE__ Hdrains
    (sys s) n Hn N2 N1 N3 N4 Hfile Hfilelen) as (u' & -> & _). done.
Qed.

(** C29: Every entry into the kernel from a running state ends, and how it ends is known.
    An interrupt returns, with the CPU at a task in a running state, and so does a system call,
    but for three: drop always fails its assertion, with the caller dead; park stays in the
    kernel for ever when no other task can run; and log reads memory that it must not when its
    address is outside of the user data area, or when the memory ends before the text does. A
    log call that returns has printed its line. *)
Theorem entries_end s c l n :
  running s c l -> ar (frame (kernel_of s)) !! SYSCALL_NUM = Some n ->
  (forall status, length status = 3%nat ->
    exists s' c' l', enter_interrupt status s = Ok tt s' /\ running s' c' l') /\
  match enter_syscall s with
  | Ok _ s' => call_ends s c l n (Ok tt (sys s')) /\ exists c' l', running s' c' l'
  | Stop w s' => call_ends s c l n (Stop w (sys s'))
  end.
Proof using Hends Hcall Hdrains Hfile Hfilelen.
  intros Hr Hn. split.
  - intros status Hst.
    destruct (interrupt_returns weak_fails fuel no_wakeup sleeps txfifo_cnt polls (sys s) l c status Hends Hdrains
      (rn_sched _ _ _ Hr) Hst (rn_current _ _ _ Hr)) as [m' E].
    assert (enter_interrupt status s = Ok tt (System m' (user_mem s))) as E'
      by (unfold Running.enter_interrupt, zoom; cbn [view]; change (view s) with (sys s); by rewrite E).
    destruct (enter_interrupt_running weak_fails fuel sleeps txfifo_cnt polls Hends s c l status _ Hr E')
      as (_ & (c' & l' & Hr') & _). eauto.
  - pose proof (handler_ends s c l n Hr Hn) as Hends'.
    destruct (enter_syscall s) as [[] s'|w s'] eqn:E.
    + split; [|exact (proj2 (enter_syscall_running weak_fails fuel sleeps call txfifo_cnt polls __FILE__ Hends Hcall s c l s' Hr E))].
      apply enter_machine in E as (k & u & E & ->). cbn [sys]. by rewrite E in Hends'.
    + unfold Running.enter_syscall, zoom in E. cbn [view] in E. change (view s) with (sys s) in E.
      destruct (handler s (sys s)) as [x m'|w' m']; [done|]. by injection E as <- <-.
Qed.
End Progress.

Lemma entries_end_witness :
  exists s s', running s 1 [2%positive] /\
    enter_syscall never_fails 1 3 no_callback ex_fifo 1 [] s = Stop AssertFailed s' /\
    task_status (kernel_of s') 1 = Some TASK_STATUS_DEAD /\
    exists s2, enter_interrupt never_fails 1 3 ex_fifo 1 [0; 0; 0] s = Ok tt s2.
Proof.
  destruct (ex_asking SYSCALL_SCHED_DROP) as (s & Hr & Hn).
  destruct (entries_end never_fails 1 3 no_callback ex_fifo 1 [] never_fails_ends no_callback_layout ex_drains
    ltac:(constructor) ltac:(done) s 1 [2%positive] _ Hr Hn) as [Hi H].
  destruct (Hi [0; 0; 0] eq_refl) as (s2 & _ & _ & E & _). exists s. destruct (enter_syscall _ _ _ _ _ _ _ s) as [x s'|[] s'].
  - destruct H as [[H _] _]. by destruct (H eq_refl).
  - exists s'. split_and!; [exact Hr|reflexivity|exact (proj2 H)|exists s2; exact E].
  - destruct H as [H _]. discriminate H.
  - destruct H as [H _]. discriminate H.
Defined.
