(* ===== verification/Xtensa.v ===== *)
(** * The processor, as far as the assembly uses it

    The windowed registers of an Xtensa core, its special registers and its memory, and the
    instructions of kernel/arch/interrupts.S and kernel/vdso/vectors.S. The 16 registers that
    an instruction names are the part of the 64 that starts at four times WINDOWBASE. Window
    checks are off where this code runs (PS.EXCM is set), so that nothing else moves. *)
From Stdlib Require Import ZArith Lia.
From stdpp Require Import base tactics numbers list.
From S2P Require Import Prelude Syscall Running.

(** ** The state *)
Inductive special : Set :=
  | SAR | LBEG | LEND | LCOUNT | WINDOWBASE | WINDOWSTART | EPC1 | PS | EXCSAVE1 | DEPC | EXCCAUSE | PRID | VECBASE.

#[export] Instance special_eq_dec : EqDecision special.
Proof. solve_decision. Defined.

(** [mem] is the memory, by bytes. *)
Record cpu := Cpu { aregs : Z -> Z; sr : special -> Z; mem : Z -> Z }.

Definition upd {A} `{EqDecision A} (i : A) (v : Z) (f : A -> Z) : A -> Z :=
  fun j => if decide (j = i) then v else f j.

(** [n] bytes, the least first. *)
Definition load_le (n : nat) (a : Z) (m : Z -> Z) : Z := le_value (m <$> seqZ a (Z.of_nat n)).
Definition store_le (n : nat) (a v : Z) (m : Z -> Z) : Z -> Z :=
  fun x => if decide (a <= x < a + Z.of_nat n) then u8 (v .>> (8 * (x - a))) else m x.

(** The register [n] of the window. *)
Definition ix (n : Z) (c : cpu) : Z := (4 * sr c WINDOWBASE + n) mod 64.
Definition geta (n : Z) (c : cpu) : Z := aregs c (ix n c).
Definition seta (n v : Z) (c : cpu) : cpu := Cpu (upd (ix n c) v (aregs c)) (sr c) (mem c).
Definition sets (s : special) (v : Z) (c : cpu) : cpu := Cpu (aregs c) (upd s v (sr c)) (mem c).
Definition setm (m : Z -> Z) (c : cpu) : cpu := Cpu (aregs c) (sr c) m.

(** ** Instructions *)

(** *** Special registers *)
Definition sr_width (s : special) (v : Z) : Z :=
  match s with
  | WINDOWBASE => v mod 16
  | WINDOWSTART => u16 v
  | SAR => v mod 64
  | _ => u32 v
  end.
Definition rsr (s : special) (t : Z) : M cpu unit := modify (fun c => seta t (sr c s) c).
Definition wsr (s : special) (t : Z) : M cpu unit := modify (fun c => sets s (sr_width s (geta t c)) c).
Definition rotw (i : Z) : M cpu unit := modify (fun c => sets WINDOWBASE ((sr c WINDOWBASE + i) mod 16) c).

(** *** Memory: the target or source, the base, the offset *)
Definition s32i (t s off : Z) : M cpu unit :=
  modify (fun c => setm (store_le 4 (u32 (geta s c + off)) (geta t c) (mem c)) c).
Definition s16i (t s off : Z) : M cpu unit :=
  modify (fun c => setm (store_le 2 (u32 (geta s c + off)) (geta t c) (mem c)) c).
Definition l32i (t s off : Z) : M cpu unit :=
  modify (fun c => seta t (load_le 4 (u32 (geta s c + off)) (mem c)) c).
Definition l16ui (t s off : Z) : M cpu unit :=
  modify (fun c => seta t (load_le 2 (u32 (geta s c + off)) (mem c)) c).

(** The handlers of the register windows use the access rights of user code. *)
Definition s32e : Z -> Z -> Z -> M cpu unit := s32i.
Definition l32e : Z -> Z -> Z -> M cpu unit := l32i.

(** *** Arithmetic: the result first *)
Definition alu (r : Z) (f : cpu -> Z) : M cpu unit := modify (fun c => seta r (f c) c).
Definition movi (r i : Z) : M cpu unit := alu r (fun _ => u32 i).
Definition mov (r s : Z) : M cpu unit := alu r (fun c => geta s c).
Definition addi (r s i : Z) : M cpu unit := alu r (fun c => u32 (geta s c + i)).
Definition add (r s t : Z) : M cpu unit := alu r (fun c => u32 (geta s c + geta t c)).
Definition addx4 (r s t : Z) : M cpu unit := alu r (fun c => u32 (4 * geta s c + geta t c)).
Definition sub (r s t : Z) : M cpu unit := alu r (fun c => u32 (geta s c - geta t c)).
Definition neg (r t : Z) : M cpu unit := alu r (fun c => u32 (- geta t c)).
Definition and_ (r s t : Z) : M cpu unit := alu r (fun c => geta s c .& geta t c).
Definition extui (r t sh w : Z) : M cpu unit := alu r (fun c => geta t c .>> sh .& Z.ones w).
Definition slli (r s i : Z) : M cpu unit := alu r (fun c => u32 (geta s c .<< i)).
Definition srli (r t i : Z) : M cpu unit := alu r (fun c => geta t c .>> i).

(** Shifts by SAR: [ssl] sets it for a shift to the left, [src] shifts the 64 bits of two
    registers. *)
Definition ssr (s : Z) : M cpu unit := modify (fun c => sets SAR (geta s c mod 32) c).
Definition ssl (s : Z) : M cpu unit := modify (fun c => sets SAR (32 - geta s c mod 32) c).
Definition sll (r s : Z) : M cpu unit := alu r (fun c => u32 (geta s c .<< (32 - sr c SAR))).
Definition src (r s t : Z) : M cpu unit :=
  alu r (fun c => u32 ((geta s c .<< 32 .| geta t c) .>> sr c SAR)).

(** The leading zeros of 32 bits. *)
Definition nsau (r s : Z) : M cpu unit :=
  alu r (fun c => if geta s c =? 0 then 32 else 31 - Z.log2 (geta s c)).

(** *** Control: a condition, and a routine that returns through [a0] *)
Definition bit_set (s i : Z) : M cpu bool := gets (fun c => Z.testbit (geta s c) i).
Definition is_zero (s : Z) : M cpu bool := gets (fun c => geta s c =? 0).

(** [ret] goes where [a0] says, which ought to be behind the call. *)
Definition call0 (back : Z) (routine : M cpu unit) : M cpu unit :=
  modify (seta 0 back);;
  routine;;
  to ← gets (geta 0);
  if to =? back then mret tt else stop_with Fault.

(** Back from an exception, and from those of the register windows: the window that was
    spilled (or filled) is not live (or is), and the window of before, in the field OWB of PS,
    comes back. The result is where the processor goes on. *)
Definition PS_OWB (ps : Z) : Z := ps .>> 8 .& 15.
Definition rfe : M cpu Z :=
  modify (fun c => sets PS (sr c PS .& .~ 16) c);;
  gets (fun c => sr c EPC1).
Definition window_return (live : Z -> Z -> Z) : M cpu Z :=
  modify (fun c => sets WINDOWSTART (live (sr c WINDOWSTART) (sr c WINDOWBASE)) c);;
  modify (fun c => sets WINDOWBASE (PS_OWB (sr c PS)) c);;
  rfe.
Definition rfwo : M cpu Z := window_return Z.clearbit.
Definition rfwu : M cpu Z := window_return Z.setbit.

(** ** What instructions do *)
Lemma upd_eq {A} `{EqDecision A} (i : A) v f : upd i v f i = v.
Proof. unfold upd. by rewrite decide_True. Qed.
Lemma upd_ne {A} `{EqDecision A} (i j : A) v f : j <> i -> upd i v f j = f j.
Proof. intros H. unfold upd. by rewrite decide_False. Qed.

Lemma ix_eq n m wb : 0 <= n < 64 -> 0 <= m < 64 -> (4 * wb + n) mod 64 = (4 * wb + m) mod 64 -> n = m.
Proof.
  intros Hn Hm H. apply (f_equal (fun x => (x - 4 * wb) mod 64)) in H.
  rewrite !Zminus_mod_idemp_l in H. replace (4 * wb + n - 4 * wb) with n in H by lia.
  replace (4 * wb + m - 4 * wb) with m in H by lia. rewrite !Z.mod_small in H by lia. done.
Qed.

(** Reading a register of the window after writing one. *)
Lemma geta_seta n m v c : 0 <= n < 64 -> 0 <= m < 64 -> geta n (seta m v c) = if n =? m then v else geta n c.
Proof.
  intros Hn Hm. unfold geta, seta, ix. cbn. destruct (Z.eqb_spec n m) as [->|Hne]; [apply upd_eq|].
  apply upd_ne. intros H. apply Hne. by apply ix_eq in H.
Qed.

Lemma geta_sets n s v c : s <> WINDOWBASE -> geta n (sets s v c) = geta n c.
Proof. intros H. unfold geta, ix, sets. cbn. by rewrite upd_ne by done. Qed.
Lemma geta_setm n m c : geta n (setm m c) = geta n c.
Proof. done. Qed.

(** *** Relative to a window base [b] *)
Definition rel (b : Z) (c : cpu) (j : Z) : Z := aregs c ((4 * b + j) mod 64).

Lemma mod_64 f : 4 * (f mod 16) mod 64 = (4 * f) mod 64.
Proof. rewrite <- (Z.mul_mod_distr_l f 16 4) by lia. by rewrite Zmod_mod. Qed.

Lemma ix_rel b f n : (4 * ((b + f) mod 16) + n) mod 64 = (4 * b + (4 * f + n)) mod 64.
Proof. rewrite <- Zplus_mod_idemp_l, mod_64, Zplus_mod_idemp_l. f_equal. lia. Qed.

Lemma geta_rel b f n c : sr c WINDOWBASE = (b + f) mod 16 -> geta n c = rel b c (4 * f + n).
Proof. intros H. unfold geta, ix, rel. by rewrite H, ix_rel. Qed.

Lemma rel_mod b c j : rel b c (j mod 64) = rel b c j.
Proof. unfold rel. by rewrite Zplus_mod_idemp_r. Qed.

Lemma rel_seta b f n v c j :
  sr c WINDOWBASE = (b + f) mod 16 ->
  rel b (seta n v c) j = if decide (j mod 64 = (4 * f + n) mod 64) then v else rel b c j.
Proof.
  intros H. unfold rel, seta, ix. cbn. rewrite H, ix_rel. unfold upd.
  assert ((4 * b + j) mod 64 = (4 * b + (4 * f + n)) mod 64 <-> j mod 64 = (4 * f + n) mod 64) as E.
  { rewrite <- (Zplus_mod_idemp_r j), <- (Zplus_mod_idemp_r (4 * f + n)). split; [|by intros ->].
    apply ix_eq; apply Z.mod_pos_bound; lia. }
  repeat case_decide; tauto.
Qed.

Lemma rel_sets b s v c j : rel b (sets s v c) j = rel b c j.
Proof. done. Qed.
Lemma rel_setm b m c j : rel b (setm m c) j = rel b c j.
Proof. done. Qed.

Lemma sr_seta s n v c : sr (seta n v c) s = sr c s.
Proof. done. Qed.
Lemma sr_setm s m c : sr (setm m c) s = sr c s.
Proof. done. Qed.
Lemma sr_sets s s' v c : sr (sets s v c) s' = if decide (s' = s) then v else sr c s'.
Proof. done. Qed.
Lemma mem_seta n v c : mem (seta n v c) = mem c.
Proof. done. Qed.
Lemma mem_sets s v c : mem (sets s v c) = mem c.
Proof. done. Qed.
Lemma mem_setm m c : mem (setm m c) = m.
Proof. done. Qed.

(** The registers hold 32 bits. *)
Definition regs_ok (c : cpu) : Prop := forall j, 0 <= j < 64 -> 0 <= aregs c j < 2 ^ 32.

Lemma rel_range b c j : regs_ok c -> 0 <= rel b c j < 2 ^ 32.
Proof. intros H. apply H, Z.mod_pos_bound. lia. Qed.

Lemma regs_ok_rel b c : (forall j, 0 <= j < 64 -> 0 <= rel b c j < 2 ^ 32) -> regs_ok c.
Proof.
  intros H j Hj. specialize (H ((j - 4 * b) mod 64) ltac:(apply Z.mod_pos_bound; lia)).
  unfold rel in H. rewrite Zplus_mod_idemp_r in H. replace (4 * b + (j - 4 * b)) with j in H by lia.
  by rewrite Z.mod_small in H by lia.
Qed.

Lemma regs_ok_seta n v c : regs_ok c -> 0 <= v < 2 ^ 32 -> regs_ok (seta n v c).
Proof. intros H Hv j Hj. cbn. unfold upd. case_decide; [done|]. by apply H. Qed.

Lemma regs_ok_sets s v c : regs_ok c -> regs_ok (sets s v c).
Proof. done. Qed.

Lemma regs_ok_setm m c : regs_ok c -> regs_ok (setm m c).
Proof. done. Qed.

Lemma setm_mem c : setm (mem c) c = c.
Proof. by destruct c. Qed.

Lemma rel_wrap b c j : rel b c (j - 64) = rel b c j.
Proof. rewrite <- (rel_mod b c (j - 64)), <- (rel_mod b c j). f_equal. by rewrite <- (Z_mod_plus_full (j - 64) 1 64), Z.sub_add. Qed.

(** After a rotation the window is elsewhere. *)
Lemma rotated_window b f i c :
  sr c WINDOWBASE = (b + f) mod 16 ->
  let c' := sets WINDOWBASE ((sr c WINDOWBASE + i) mod 16) c in
  sr c' WINDOWBASE = (b + (f + i)) mod 16 /\ (forall s, s <> WINDOWBASE -> sr c' s = sr c s) /\
  (forall n, geta n c' = geta (n + 4 * i) c).
Proof.
  intros H. split_and!.
  - cbn. rewrite upd_eq, H, Zplus_mod_idemp_l. f_equal. lia.
  - intros s Hs. cbn. by rewrite upd_ne.
  - intros n. rewrite (geta_rel b f (n + 4 * i) c H). rewrite (geta_rel b (f + i) n)
      by (cbn; rewrite upd_eq, H, Zplus_mod_idemp_l; f_equal; lia).
    rewrite rel_sets. f_equal. lia.
Qed.

Lemma rel_def b c j : rel b c j = aregs c ((4 * b + j) mod 64).
Proof. done. Qed.
