(* ===== verification/Entry.v ===== *)
(** * The entries into the kernel and the way out (kernel/arch/interrupts.S, kernel/vdso/vectors.S)

    The exception vector makes room for a [task_regs] on the kernel's stack, the entry saves
    the registers there and calls the C handler, and the exit takes the registers from there:
    the caller's, or those of the task that the handler chose. Registers are named by their
    number, [sp] is [a1]. *)
From Stdlib Require Import ZArith Lia.
From stdpp Require Import base tactics numbers list.
From S2P Require Import Prelude Task Syscall Interrupts Running Xtensa.

(** ** Offsets in [task_regs] (task_regs.h, with those of Task.v) *)
Definition TASK_REGS_AR_END : Z := 256.
Definition TASK_REGS_SAR : Z := 256.
Definition TASK_REGS_LBEG : Z := 260.
Definition TASK_REGS_LEND : Z := 264.
Definition TASK_REGS_LCOUNT : Z := 268.
Definition TASK_REGS_PC : Z := 272.
Definition TASK_REGS_PS : Z := 276.
Definition TASK_REGS_WINDOWBASE : Z := 280.
Definition TASK_REGS_WINDOWSTART : Z := 284.
Definition TASK_REGS_WINDOWMASK : Z := 288.
Definition TASK_REGS_WINDOWSIZE : Z := 290.

Abbreviation sp := 1.

(** ** save_full_interrupt_context *)
Definition save_word (s : special) (off : Z) : M cpu unit := rsr s 2;; s32i 2 sp off.

Definition save_special : M cpu unit :=
  save_word EPC1 TASK_REGS_PC;;
  save_word PS TASK_REGS_PS;;
  save_word SAR TASK_REGS_SAR;;
  save_word LBEG TASK_REGS_LBEG;;
  save_word LEND TASK_REGS_LEND;;
  save_word LCOUNT TASK_REGS_LCOUNT;;
  rsr WINDOWBASE 2;;
  rsr WINDOWSTART 3;;
  s32i 2 sp TASK_REGS_WINDOWBASE;;
  s32i 3 sp TASK_REGS_WINDOWSTART.

(** The live frames relative to the current one; SAR keeps the window base. *)
Definition rotate_windowstart : M cpu unit :=
  wsr EXCSAVE1 3;;
  ssr 2;;
  slli 2 3 (32 - 16);;
  src 2 3 2;;
  srli 2 2 (32 - 16);;
  s16i 2 sp TASK_REGS_WINDOWMASK.

Definition save4 (n : Z) : M cpu unit :=
  s32i n sp (TASK_REGS_AR n);;
  s32i (n + 1) sp (TASK_REGS_AR (n + 1));;
  s32i (n + 2) sp (TASK_REGS_AR (n + 2));;
  s32i (n + 3) sp (TASK_REGS_AR (n + 3)).

(** The rest of the window, up to the next live frame; is there a frame to spill? *)
Definition save_window : M cpu bool :=
  b ← bit_set 2 1;
  if (b : bool) then mret true else
  save4 4;;
  b ← bit_set 2 2;
  if (b : bool) then mret true else
  save4 8;;
  b ← bit_set 2 3;
  if (b : bool) then mret true else
  save4 12;;
  gets (fun c => negb (geta 2 c =? 1)).

Definition count_frames : M cpu unit :=
  addi 3 2 (-1);;
  neg 3 3;;
  and_ 3 3 2;;
  nsau 2 3;;
  addi 2 2 (-15);;
  s16i 2 sp TASK_REGS_WINDOWSIZE.

Definition spill_frame : M cpu unit :=
  rotw (-1);;
  s32i 0 5 (TASK_REGS_AR_END - 16);;
  s32i 1 5 (TASK_REGS_AR_END - 12);;
  s32i 2 5 (TASK_REGS_AR_END - 8);;
  s32i 3 5 (TASK_REGS_AR_END - 4);;
  addi 2 6 (-1);;
  addi 1 5 (-16).

Fixpoint spill_loop (fuel : nat) : M cpu unit :=
  match fuel with
  | O => stop_with Spin
  | S fuel' =>
      spill_frame;;
      z ← is_zero 2;
      if (z : bool) then mret tt else spill_loop fuel'
  end.

Definition reset_window : M cpu unit :=
  rsr SAR 2;;
  movi 3 1;;
  ssl 2;;
  sll 3 3;;
  wsr WINDOWSTART 3;;
  wsr WINDOWBASE 2.

Definition save_full_interrupt_context (fuel : nat) : M cpu unit :=
  save_special;;
  rotate_windowstart;;
  full ← save_window;
  if (full : bool) then count_frames;; spill_loop fuel;; reset_window else mret tt.

(** ** restore_full_interrupt_context *)
Definition switch_window : M cpu unit :=
  wsr EXCSAVE1 sp;;
  wsr EPC1 0;;
  l32i 2 sp TASK_REGS_WINDOWBASE;;
  l32i 3 sp TASK_REGS_WINDOWSTART;;
  wsr WINDOWSTART 3;;
  wsr WINDOWBASE 2;;
  rsr EXCSAVE1 sp;;
  rsr EPC1 0;;
  wsr EXCSAVE1 2.

Definition restore_frame : M cpu unit :=
  rotw (-1);;
  addi 3 7 (-16);;
  addi 2 6 (-1);;
  l32i 4 3 TASK_REGS_AR_END;;
  l32i 5 3 (TASK_REGS_AR_END + 4);;
  l32i 6 3 (TASK_REGS_AR_END + 8);;
  l32i 7 3 (TASK_REGS_AR_END + 12).

Fixpoint restore_loop (fuel : nat) : M cpu unit :=
  match fuel with
  | O => stop_with Spin
  | S fuel' =>
      restore_frame;;
      z ← is_zero 2;
      if (z : bool) then mret tt else restore_loop fuel'
  end.

Definition restore_frames (fuel : nat) : M cpu unit :=
  l16ui 2 sp TASK_REGS_WINDOWSIZE;;
  rotw (-1);;
  z ← is_zero 6;
  if (z : bool) then mret tt else
  mov 2 6;;
  mov 3 5;;
  restore_loop fuel.

Definition zero_frame : M cpu unit :=
  rotw (-1);;
  addi 3 7 (-1);;
  movi 4 0;;
  movi 5 0;;
  movi 6 0;;
  movi 7 0.

(** [bgei] compares signed. *)
Fixpoint zero_loop (fuel : nat) : M cpu unit :=
  match fuel with
  | O => stop_with Spin
  | S fuel' =>
      zero_frame;;
      more ← gets (fun c => 1 <=? s32 (geta 3 c));
      if (more : bool) then zero_loop fuel' else mret tt
  end.

Definition zero_regs_ (fuel : nat) : M cpu unit :=
  rsr WINDOWBASE 0;;
  rsr EXCSAVE1 3;;
  sub 3 0 3;;
  z ← is_zero 3;
  if (z : bool) then mret tt else
  extui 3 3 0 4;;
  zero_loop fuel.

Definition restore_word (s : special) (off : Z) : M cpu unit := l32i 2 sp off;; wsr s 2.

Definition restore_special : M cpu unit :=
  restore_word EPC1 TASK_REGS_PC;;
  restore_word PS TASK_REGS_PS;;
  restore_word SAR TASK_REGS_SAR;;
  restore_word LBEG TASK_REGS_LBEG;;
  restore_word LEND TASK_REGS_LEND;;
  restore_word LCOUNT TASK_REGS_LCOUNT.

Definition load4 (n : Z) : M cpu unit :=
  l32i n sp (TASK_REGS_AR n);;
  l32i (n + 1) sp (TASK_REGS_AR (n + 1));;
  l32i (n + 2) sp (TASK_REGS_AR (n + 2));;
  l32i (n + 3) sp (TASK_REGS_AR (n + 3)).

Definition restore_window : M cpu unit :=
  l16ui 2 sp TASK_REGS_WINDOWMASK;;
  b ← bit_set 2 1;
  if (b : bool) then mret tt else
  load4 4;;
  b ← bit_set 2 2;
  if (b : bool) then mret tt else
  load4 8;;
  b ← bit_set 2 3;
  if (b : bool) then mret tt else
  load4 12.

Definition restore_full_interrupt_context (fuel : nat) : M cpu unit :=
  switch_window;;
  restore_frames fuel;;
  zero_regs_ fuel;;
  restore_special;;
  restore_window.

(** ** The modes of the kernel *)
Definition enable_kernel_exceptions : M cpu unit := movi 2 (1 .<< 18 .| 0xf);; wsr PS 2.
Definition disable_kernel_exceptions : M cpu unit := movi 2 (1 .<< 4 .| 0xf);; wsr PS 2.

(** ** The entries

    [handler] is the C function, called with the frame in [a6]; [back] gives the addresses
    behind the calls. The PID that takes effect is confirmed in the register of the
    controller. The result of an exit is where the processor goes on. *)
Section Entry.
Context (PIDCTRL_PID_CONFIRM : Z) (back : Z -> Z) (fuel : nat).

(** The part that the entries share. *)
Definition enter (handler : M cpu unit) : M cpu unit :=
  call0 (back 0) (save_full_interrupt_context fuel);;
  call0 (back 1) enable_kernel_exceptions;;
  mov 6 sp;;
  handler.

Definition leave : M cpu Z :=
  call0 (back 2) disable_kernel_exceptions;;
  call0 (back 3) (restore_full_interrupt_context fuel);;
  movi 0 PIDCTRL_PID_CONFIRM;;
  movi 2 1;;
  s32i 2 0 0;;
  l32i 0 sp (TASK_REGS_AR 0);;
  l32i 2 sp (TASK_REGS_AR 2);;
  l32i 3 sp (TASK_REGS_AR 3);;
  l32i 1 sp (TASK_REGS_AR 1);;
  rfe.

Definition common_exception_entry (handler : M cpu unit) : M cpu Z := enter handler;; leave.
Definition common_interrupt_entry (handler : M cpu unit) : M cpu Z := enter handler;; leave.

(** The system call goes on behind its instruction, which may be the last of a loop. *)
Definition skip_syscall : M cpu unit :=
  rsr EPC1 0;;
  addi 0 0 3;;
  rsr LEND 2;;
  ends ← gets (fun c => geta 0 c =? geta 2 c);
  (if (ends : bool) then
     rsr LCOUNT 2;;
     z ← is_zero 2;
     if (z : bool) then mret tt else
     addi 2 2 (-1);;
     wsr LCOUNT 2;;
     rsr LBEG 0
   else mret tt);;
  wsr EPC1 0.

Definition syscall_entry (handler : M cpu unit) : M cpu Z := skip_syscall;; enter handler;; leave.

(** What the table of causes points to, around the C function of each entry. *)
Definition entry_code (handler : entry -> M cpu unit) (e : entry) : M cpu Z :=
  match e with
  | Interrupts.common_exception_entry => common_exception_entry (handler e)
  | Interrupts.common_interrupt_entry => common_interrupt_entry (handler e)
  | Interrupts.syscall_entry => syscall_entry (handler e)
  end.

(** ** The vector of user exceptions

    Makes the frame and goes to the entry for the cause; [jx] is the code at an address. *)
Definition user_exception (g_kernel_stacks g_fast_interrupts : Z) (jx : Z -> M cpu Z) : M cpu Z :=
  wsr EXCSAVE1 1;;
  wsr DEPC 0;;
  rsr PRID 1;;
  extui 1 1 13 1;;
  movi 0 g_kernel_stacks;;
  addx4 1 1 0;;
  l32i sp 1 0;;
  addi sp sp (- TASK_REGS_SIZE);;
  rsr DEPC 0;;
  s32i 0 sp (TASK_REGS_AR 0);;
  rsr EXCSAVE1 0;;
  s32i 0 sp (TASK_REGS_AR 1);;
  s32i 2 sp (TASK_REGS_AR 2);;
  s32i 3 sp (TASK_REGS_AR 3);;
  rsr EXCCAUSE 0;;
  movi 2 g_fast_interrupts;;
  addx4 0 0 2;;
  l32i 0 0 0;;
  target ← gets (geta 0);
  jx target.
End Entry.
