(* ===== verification/EntrySave.v ===== *)
(** * What the entries save

    Lemmas on the memory and on the registers of the processor, and the effect of
    save_full_interrupt_context on the frame on the kernel's stack, word by word. *)
From Stdlib Require Import ZArith Lia.
From stdpp Require Import base tactics numbers list.
From S2P Require Import Prelude Umem Task Syscall Running RunningSpec Xtensa Entry.

(** ** Memory *)
Lemma load_store_eq n a v m : load_le n a (store_le n a v m) = wrapu (8 * Z.of_nat n) v.
Proof.
  rewrite <- le_value_bytes. unfold load_le. f_equal. unfold le_bytes.
  assert (seqZ a (Z.of_nat n) = (fun i => a + i) <$> seqZ 0 (Z.of_nat n)) as ->.
  { change (fun i => a + i) with (Z.add a). by rewrite fmap_add_seqZ, Z.add_0_r. }
  rewrite <- list_fmap_compose. apply list_fmap_ext. intros i x Hx. apply lookup_seqZ in Hx as [-> Hx].
  unfold compose, store_le. rewrite decide_True by lia. do 2 f_equal. lia.
Qed.

Lemma load_store_ne n n' a a' v m :
  a' + Z.of_nat n' <= a \/ a + Z.of_nat n <= a' -> load_le n' a' (store_le n a v m) = load_le n' a' m.
Proof.
  intros H. unfold load_le. f_equal. apply list_fmap_ext. intros i x Hx. apply lookup_seqZ in Hx as [-> Hx].
  unfold store_le. by rewrite decide_False by lia.
Qed.

(** ** Steps of a program *)
Lemma wp_modify {S} (f : S -> S) (Q : unit -> S -> Prop) s : Q tt (f s) -> wp (modify f) Q s.
Proof. done. Qed.
Lemma wp_gets {S A} (f : S -> A) (Q : A -> S -> Prop) s : Q (f s) s -> wp (gets f) Q s.
Proof. done. Qed.

Lemma geta_seta_eq n v c : 0 <= n < 64 -> geta n (seta n v c) = v.
Proof. intros H. by rewrite geta_seta, Z.eqb_refl. Qed.
Lemma geta_seta_ne n m v c : 0 <= n < 64 -> 0 <= m < 64 -> (n =? m) = false -> geta n (seta m v c) = geta n c.
Proof. intros Hn Hm H. by rewrite geta_seta, H. Qed.
Lemma sr_sets_eq s v c : sr (sets s v c) s = v.
Proof. rewrite sr_sets. by rewrite decide_True. Qed.
Lemma sr_sets_ne s s' v c : s' <> s -> sr (sets s v c) s' = sr c s'.
Proof. intros H. rewrite sr_sets. by rewrite decide_False. Qed.

(** Reading off the state after some instructions. *)
Ltac look :=
  repeat first
    [ rewrite geta_setm | rewrite geta_sets by done | rewrite geta_seta_eq by lia
    | rewrite geta_seta_ne by (lia || reflexivity)
    | rewrite sr_seta | rewrite sr_setm | rewrite sr_sets_eq | rewrite sr_sets_ne by done
    | rewrite mem_seta | rewrite mem_sets | rewrite mem_setm ].

(** The memory last, and each register once. *)
Lemma setm_seta m n v c : setm m (seta n v c) = seta n v (setm m c).
Proof. done. Qed.
Lemma setm_sets m s v c : setm m (sets s v c) = sets s v (setm m c).
Proof. done. Qed.
Lemma setm_setm m m' c : setm m (setm m' c) = setm m c.
Proof. done. Qed.

#[local] Opaque geta seta sets setm rel.

(** One instruction. *)
Ltac istep :=
  repeat lazymatch goal with |- wp (_ ≫= _) _ _ => apply wp_bind end; (apply wp_modify || apply wp_gets); cbv beta;
  look; rewrite ?setm_seta, ?setm_sets, ?setm_setm.

(** Registers relative to the window [b], after writes in the window [b + f]. *)
Lemma rel_seta_ne b f n v c j :
  sr c WINDOWBASE = (b + f) mod 16 -> 0 <= j < 64 -> j <> (4 * f + n) mod 64 -> rel b (seta n v c) j = rel b c j.
Proof. intros H Hj Hne. rewrite (rel_seta b f) by done. rewrite Z.mod_small by lia. by rewrite decide_False. Qed.
Lemma rel_seta_eq b f n v c j :
  sr c WINDOWBASE = (b + f) mod 16 -> 0 <= j < 64 -> j = (4 * f + n) mod 64 -> rel b (seta n v c) j = v.
Proof. intros H Hj He. rewrite (rel_seta b f) by done. rewrite Z.mod_small by lia. by rewrite decide_True. Qed.

Ltac lookrel b f :=
  repeat first
    [ rewrite rel_setm | rewrite rel_sets
    | rewrite (rel_seta_ne b f) by (look; (done || (Z.to_euclidean_division_equations; lia)))
    | rewrite (rel_seta_eq b f) by (look; (done || (Z.to_euclidean_division_equations; lia))) ]; try done.

(** ** The live frames, counted from the current one *)
Definition window_mask (ws b : Z) : Z := u16 ((ws .| ws .<< 16) .>> b).

Lemma window_mask_bit ws b j :
  0 <= ws < 2 ^ 16 -> 0 <= b < 16 -> 0 <= j < 16 -> Z.testbit (window_mask ws b) j = Z.testbit ws ((b + j) mod 16).
Proof.
  intros Hws Hb Hj. unfold window_mask. rewrite wrapu_testbit by lia. rewrite (proj2 (Z.ltb_lt j 16)) by lia.
  rewrite Z.shiftr_spec, Z.lor_spec, Z.shiftl_spec by lia. cbn [andb].
  destruct (decide (b + j < 16)).
  - rewrite (Z.mod_small (b + j)) by lia. rewrite (Z.testbit_neg_r _ (j + b - 16)) by lia. rewrite orb_false_r. f_equal. lia.
  - replace ((b + j) mod 16) with (j + b - 16) by (Z.to_euclidean_division_equations; lia).
    rewrite (testbit_of_range 16 ws (j + b)) by lia. done.
Qed.

Lemma rotated ws b :
  0 <= ws < 2 ^ 16 -> 0 <= b < 16 ->
  u32 ((ws .<< 32 .| u32 (ws .<< 16)) .>> b) .>> 16 = window_mask ws b.
Proof.
  intros Hws Hb. unfold window_mask. apply Z.bits_inj'. intros i Hi.
  rewrite Z.shiftr_spec, !wrapu_testbit, !Z.shiftr_spec, !Z.lor_spec, wrapu_testbit, !Z.shiftl_spec by lia.
  destruct (Z.ltb_spec i 16) as [H|H].
  - rewrite (proj2 (Z.ltb_lt (i + 16) 32)) by lia. cbn [andb].
    replace (i + 16 + b - 32) with (i + b - 16) by lia. replace (i + 16 + b - 16) with (i + b) by lia.
    destruct (Z.ltb_spec (i + 16 + b) 32) as [H1|H1]; [apply orb_comm|].
    rewrite (testbit_of_range 16 ws (i + b)) by lia. by rewrite orb_false_r.
  - by rewrite (proj2 (Z.ltb_ge (i + 16) 32)) by lia.
Qed.

(** The first live frame after the current one, 16 when there is none. *)
Definition next_frame (mask : Z) : Z :=
  match list_find (fun i => Z.testbit mask i = true) (seqZ 1 15) with
  | Some (_, i) => i
  | None => 16
  end.

Lemma next_frame_spec mask :
  1 <= next_frame mask <= 16 /\ (forall i, 1 <= i < next_frame mask -> Z.testbit mask i = false) /\
  (next_frame mask < 16 -> Z.testbit mask (next_frame mask) = true).
Proof.
  unfold next_frame. destruct (list_find _ _) as [[n i]|] eqn:E.
  - apply list_find_Some in E as (Hn & Hb & Hlow). apply lookup_seqZ in Hn as [-> Hn].
    split; [lia|]. split; [|done]. intros i Hi. apply not_true_is_false. intros Hi'.
    apply (Hlow (Z.to_nat (i - 1)) i); [|lia|done]. apply lookup_seqZ. lia.
  - apply list_find_None in E. rewrite Forall_forall in E. split; [lia|]. split; [|lia].
    intros i Hi. apply not_true_is_false, E, elem_of_seqZ. lia.
Qed.

Lemma next_frame_eq mask k :
  1 <= k <= 16 -> (forall i, 1 <= i < k -> Z.testbit mask i = false) -> (k < 16 -> Z.testbit mask k = true) ->
  next_frame mask = k.
Proof.
  intros Hk Hlow Hb. destruct (next_frame_spec mask) as (H1 & H2 & H3).
  destruct (Z.lt_trichotomy (next_frame mask) k) as [H|[H|H]]; [|done|].
  - rewrite Hlow in H3 by lia. discriminate H3. lia.
  - rewrite H2 in Hb by lia. discriminate Hb. lia.
Qed.

Lemma only_frame mask :
  0 <= mask < 2 ^ 16 -> Z.testbit mask 0 = true -> negb (mask =? 1) = bool_decide (next_frame mask < 16).
Proof.
  intros Hm H0. destruct (next_frame_spec mask) as (Hk & Hlow & Hbit). destruct (Z.eqb_spec mask 1) as [->|Hne]; cbn.
  - symmetry. apply bool_decide_eq_false. intros H. specialize (Hbit H). rewrite Z.bits_above_log2 in Hbit by (cbn; lia).
    done.
  - symmetry. apply bool_decide_eq_true. destruct (Z.lt_ge_cases (next_frame mask) 16) as [|H]; [done|].
    destruct Hne. apply Z.bits_inj'. intros i Hi. destruct (decide (i = 0)) as [->|]; [done|].
    rewrite (Z.bits_above_log2 1 i) by (cbn; lia). destruct (Z.lt_ge_cases i 16); [apply Hlow; lia|].
    by apply (testbit_of_range 16).
Qed.

(** [-x & mask], for the mask without its lowest bit, is the next bit. *)
Lemma opp_bits y k i :
  0 <= k <= i -> Z.testbit y 0 = true -> Z.testbit (- (y .<< k)) i = if decide (i = k) then true else negb (Z.testbit y (i - k)).
Proof.
  intros Hi H0. assert (exists q, y = 2 * q + 1) as [q ->].
  { rewrite Z.bit0_odd in H0. apply Z.odd_spec in H0 as [q ->]. by exists q. }
  replace (- ((2 * q + 1) .<< k)) with ((2 * Z.lnot q + 1) .<< k)
    by (rewrite !Z.shiftl_mul_pow2 by lia; unfold Z.lnot, Z.pred; ring).
  rewrite Z.shiftl_spec by lia. case_decide as E; [subst; by rewrite Z.sub_diag, Z.testbit_odd_0|].
  replace (i - k) with (Z.succ (i - k - 1)) by lia. rewrite !Z.testbit_odd_succ by lia. by rewrite Z.lnot_spec by lia.
Qed.

Lemma lowest_frame mask :
  0 <= mask < 2 ^ 16 -> Z.testbit mask 0 = true -> next_frame mask < 16 ->
  u32 (- (mask - 1)) .& mask = 2 ^ next_frame mask.
Proof.
  intros Hm H0 Hk16. destruct (next_frame_spec mask) as (Hk & Hlow & Hbit). specialize (Hbit Hk16).
  set (k := next_frame mask) in *. set (x := mask - 1).
  assert (forall i, 0 <= i -> Z.testbit x i = Z.testbit mask i && negb (i =? 0)) as Hx.
  { intros i Hi. assert (x = Z.clearbit mask 0) as ->; [|rewrite Z.clearbit_eqb; by rewrite (Z.eqb_sym 0 i)].
    unfold x, Z.clearbit. apply Z.sub_nocarry_ldiff. apply Z.bits_inj'. intros j Hj.
    rewrite Z.ldiff_spec, Z.bits_0. destruct (decide (j = 0)) as [->|]; [by rewrite H0|].
    change (Z.shiftl 1 0) with 1. by rewrite (Z.bits_above_log2 1 j) by (cbn; lia). }
  set (y := x .>> k).
  assert (x = y .<< k) as Exy.
  { apply Z.bits_inj'. intros i Hi. rewrite Z.shiftl_spec by lia. destruct (Z.le_gt_cases k i).
    - unfold y. rewrite Z.shiftr_spec by lia. f_equal. lia.
    - rewrite (Z.testbit_neg_r y) by lia. rewrite Hx by lia. destruct (decide (i = 0)) as [->|]; [by rewrite andb_false_r|].
      by rewrite Hlow by lia. }
  assert (forall i, 0 <= i -> Z.testbit y i = Z.testbit x (i + k)) as Hy by (intros i Hi; unfold y; apply Z.shiftr_spec; lia).
  assert (Z.testbit y 0 = true) as Hy0.
  { rewrite Hy, Hx by lia. rewrite Z.add_0_l, Hbit. by rewrite (proj2 (Z.eqb_neq k 0)) by lia. }
  apply Z.bits_inj'. intros i Hi. rewrite Z.land_spec, wrapu_testbit, Z.pow2_bits_eqb by lia.
  destruct (Z.ltb_spec i 32) as [H32|H32]; cbn [andb].
  2: { symmetry. apply Z.eqb_neq. lia. }
  destruct (decide (i < k)) as [Hik|Hik].
  - rewrite (proj2 (Z.eqb_neq k i)) by lia. destruct (decide (i = 0)) as [->|]; [|by rewrite Hlow, andb_false_r by lia].
    rewrite H0, andb_true_r, Exy, Z.shiftl_mul_pow2, <- Z.mul_opp_l, <- Z.shiftl_mul_pow2 by lia.
    rewrite Z.shiftl_spec_low by lia. done.
  - rewrite Exy, opp_bits by (done || lia). destruct (decide (i = k)) as [->|Hne].
    + by rewrite Hbit, Z.eqb_refl.
    + rewrite (proj2 (Z.eqb_neq k i)) by lia. rewrite Hy, Hx by lia. replace (i - k + k) with i by lia.
      rewrite (proj2 (Z.eqb_neq i 0)) by lia. rewrite andb_true_r. apply andb_negb_l.
Qed.

Lemma only_window ws b :
  0 <= ws < 2 ^ 16 -> 0 <= b < 16 -> Z.testbit ws b = true -> next_frame (window_mask ws b) = 16 -> ws = 1 .<< b.
Proof.
  intros Hws Hb Hl Hn. destruct (next_frame_spec (window_mask ws b)) as (_ & Hlow & _). rewrite Hn in Hlow.
  apply Z.bits_inj'. intros i Hi. rewrite testbit_1_shiftl by lia.
  destruct (Z.lt_ge_cases i 16) as [H|H].
  - destruct (Z.eqb_spec b i) as [<-|Hne]; [done|].
    assert (1 <= (i - b) mod 16 < 16) as Hj by (Z.to_euclidean_division_equations; lia).
    specialize (Hlow _ Hj). rewrite window_mask_bit in Hlow by lia.
    rewrite Zplus_mod_idemp_r in Hlow. replace (b + (i - b)) with i in Hlow by lia. by rewrite Z.mod_small in Hlow by lia.
  - rewrite (testbit_of_range 16) by lia. symmetry. apply Z.eqb_neq. lia.
Qed.

Lemma geta_window b n c : sr c WINDOWBASE = b -> 0 <= b < 16 -> geta n c = rel b c n.
Proof. intros H Hb. rewrite (geta_rel b 0); [done|]. by rewrite Z.add_0_r, Z.mod_small. Qed.

(** Routines that use [a2] and [a3] only. *)
Lemma regs_ok_others b c c' :
  sr c' WINDOWBASE = b -> 0 <= b < 16 -> regs_ok c ->
  (forall j, 0 <= j < 64 -> j <> 2 -> j <> 3 -> rel b c' j = rel b c j) ->
  0 <= geta 2 c' < 2 ^ 32 -> 0 <= geta 3 c' < 2 ^ 32 -> regs_ok c'.
Proof.
  intros Hw Hb Hc Hr H2 H3. apply (regs_ok_rel b). intros j Hj.
  destruct (decide (j = 2)) as [->|N2]; [by rewrite <- (geta_window b)|].
  destruct (decide (j = 3)) as [->|N3]; [by rewrite <- (geta_window b)|].
  rewrite Hr by done. by apply rel_range.
Qed.

(** ** The frame at [base], word by word *)
Section Frame.
Context (base : Z).

Definition slot (m : Z -> Z) (j : Z) : Z := load_le 4 (base + 4 * j) m.
Definition half (m : Z -> Z) (off : Z) : Z := load_le 2 (base + off) m.

Lemma slot_store m off v j :
  off mod 4 = 0 -> slot (store_le 4 (base + off) v m) j = if decide (4 * j = off) then u32 v else slot m j.
Proof using Type.
  intros Hoff. unfold slot. case_decide as H.
  - subst off. by rewrite (load_store_eq 4).
  - apply load_store_ne. Z.to_euclidean_division_equations. lia.
Qed.

Lemma slot_store_half m off v j : j < 72 -> 288 <= off -> slot (store_le 2 (base + off) v m) j = slot m j.
Proof using Type. intros Hj Hoff. apply load_store_ne. lia. Qed.

Lemma half_store m off v off' : off < 288 -> 288 <= off' -> off mod 4 = 0 -> half (store_le 4 (base + off) v m) off' = half m off'.
Proof using Type. intros H1 H2 H3. apply load_store_ne. Z.to_euclidean_division_equations. lia. Qed.

Lemma half_store_half m off v off' :
  off mod 2 = 0 -> off' mod 2 = 0 ->
  half (store_le 2 (base + off) v m) off' = if decide (off' = off) then u16 v else half m off'.
Proof using Type.
  intros H1 H2. unfold half. case_decide as H.
  - subst off. by rewrite (load_store_eq 2).
  - apply load_store_ne. Z.to_euclidean_division_equations. lia.
Qed.

Ltac lookmem :=
  repeat first
    [ rewrite slot_store by reflexivity | rewrite slot_store_half by (done || lia)
    | rewrite half_store by (done || lia) | rewrite half_store_half by done ].

(** It is not at an end of the memory. *)
Hypothesis (Hbase : 256 <= base < 2 ^ 32 - 292).

(** The special registers in the frame. *)
Definition special_slots : list (special * Z) :=
  [(SAR, 64); (LBEG, 65); (LEND, 66); (LCOUNT, 67); (EPC1, 68); (PS, 69); (WINDOWBASE, 70); (WINDOWSTART, 71)].

Definition srs_typed (c : cpu) : Prop := forall s, 0 <= sr c s < 2 ^ 32.

Lemma save_special_ok b c :
  sr c WINDOWBASE = b -> 0 <= b < 16 -> geta 1 c = base -> srs_typed c ->
  wp save_special (fun _ c' =>
    sr c' = sr c /\ geta 1 c' = base /\ geta 2 c' = b /\ geta 3 c' = sr c WINDOWSTART /\
    (forall j, 0 <= j < 64 -> j <> 2 -> j <> 3 -> rel b c' j = rel b c j) /\
    (forall s j, (s, j) ∈ special_slots -> slot (mem c') j = sr c s) /\
    (forall j, 0 <= j < 64 -> slot (mem c') j = slot (mem c) j) /\
    (forall off, 288 <= off -> half (mem c') off = half (mem c) off)) c.
Proof using Hbase.
  intros Hb Hbr Ha1 Hty. unfold save_special, save_word, TASK_REGS_PC, TASK_REGS_PS, TASK_REGS_SAR, TASK_REGS_LBEG,
    TASK_REGS_LEND, TASK_REGS_LCOUNT, TASK_REGS_WINDOWBASE, TASK_REGS_WINDOWSTART.
  assert (sr c WINDOWBASE = (b + 0) mod 16) as Hf by (rewrite Z.mod_small by lia; lia).
  do 16 (istep; rewrite ?Ha1, ?(wrapu_small 32 (base + _)) by lia).
  split_and!; try done.
  - intros j Hj H2 H3. lookrel b 0.
  - intros s j Hs. lookmem. unfold special_slots in Hs.
    repeat (apply elem_of_cons in Hs as [Hs|Hs]; [injection Hs as -> ->; repeat case_decide; try lia;
      by rewrite wrapu_small|]). by apply not_elem_of_nil in Hs.
  - intros j Hj. lookmem. by rewrite !decide_False by lia.
  - intros off Hoff. by lookmem.
Qed.
Lemma rotate_windowstart_ok b ws c :
  sr c WINDOWBASE = b -> 0 <= b < 16 -> geta 1 c = base -> geta 2 c = b -> geta 3 c = ws -> 0 <= ws < 2 ^ 16 ->
  wp rotate_windowstart (fun _ c' =>
    (forall s, s <> SAR -> s <> EXCSAVE1 -> sr c' s = sr c s) /\ sr c' SAR = b /\ geta 1 c' = base /\
    geta 2 c' = window_mask ws b /\
    (forall j, 0 <= j < 64 -> j <> 2 -> rel b c' j = rel b c j) /\
    (forall j, 0 <= j < 72 -> slot (mem c') j = slot (mem c) j) /\
    half (mem c') 288 = window_mask ws b /\ half (mem c') 290 = half (mem c) 290) c.
Proof using Hbase.
  intros Hb Hbr Ha1 Ha2 Ha3 Hws. unfold rotate_windowstart, TASK_REGS_WINDOWMASK.
  assert (sr c WINDOWBASE = (b + 0) mod 16) as Hf by (rewrite Z.mod_small by lia; lia).
  do 6 (istep; rewrite ?Ha1, ?Ha2, ?Ha3, ?(Z.mod_small b 32), ?(wrapu_small 32 (base + _)) by lia).
  change (32 - 16) with 16. rewrite rotated by done. split_and!; try done.
  - intros s H1 H2. by look.
  - intros j Hj H2. lookrel b 0.
  - intros j Hj. by lookmem.
  - lookmem. cbn. apply wrapu_small. unfold window_mask. by apply wrapu_range.
  - by lookmem.
Qed.
(** Only the memory has changed, in the words for which [P] holds, to the registers. *)
Definition stored (P : Z -> Prop) (R : Z -> Z) (m m' : Z -> Z) : Prop :=
  (forall j, 0 <= j < 72 -> P j -> slot m' j = R j) /\
  (forall j, 0 <= j < 72 -> ~ P j -> slot m' j = slot m j) /\
  (forall off, 288 <= off -> half m' off = half m off).

Lemma stored_trans P1 P2 P3 R m1 m2 m3 :
  stored P1 R m1 m2 -> stored P2 R m2 m3 -> (forall j, P3 j <-> P1 j \/ P2 j) -> (forall j, P1 j -> ~ P2 j) ->
  stored P3 R m1 m3.
Proof using Type.
  intros (A1 & A2 & A3) (B1 & B2 & B3) HP Hd. split_and!.
  - intros j Hj [H|H]%HP; [rewrite B2, A1|rewrite B1]; auto.
  - intros j Hj H. rewrite B2, A2; [done|done| |done|]; intros H'; apply H, HP; auto.
  - intros off Hoff. by rewrite B3, A3.
Qed.

Lemma stored_iff (P P' : Z -> Prop) R m m' : (forall j, P j <-> P' j) -> stored P R m m' -> stored P' R m m'.
Proof using Type.
  intros HP (H1 & H2 & H3). split_and!; [|intros j Hj Hn; apply H2; [done|]; by rewrite HP|done].
  intros j Hj H. by apply H1, HP.
Qed.

Lemma stored_nothing (P : Z -> Prop) R m : (forall j, ~ P j) -> stored P R m m.
Proof using Type. intros HP. split_and!; try done. intros j _ H. by destruct (HP j). Qed.

Lemma stored_four n R m :
  0 <= n <= 60 -> (forall j, 0 <= R j < 2 ^ 32) ->
  stored (fun j => n <= j < n + 4) R m
    (store_le 4 (base + 4 * (n + 3)) (R (n + 3)) (store_le 4 (base + 4 * (n + 2)) (R (n + 2))
      (store_le 4 (base + 4 * (n + 1)) (R (n + 1)) (store_le 4 (base + 4 * n) (R n) m)))).
Proof using Type.
  intros Hn HR. assert (forall i, u32 (R i) = R i) as Hu by (intros i; by apply wrapu_small).
  assert (forall i, 4 * i mod 4 = 0) as H4 by (intros i; rewrite Z.mul_comm; by apply Z.mod_mul).
  split_and!.
  - intros j Hj Hjn. rewrite !slot_store by done. rewrite !Hu. repeat case_decide; try lia; f_equal; lia.
  - intros j Hj Hjn. rewrite !slot_store by done. by rewrite !decide_False by lia.
  - intros off Hoff. by rewrite !half_store by (done || lia).
Qed.

Lemma save4_ok b n c :
  sr c WINDOWBASE = b -> 0 <= b < 16 -> geta 1 c = base -> regs_ok c -> 4 <= n <= 12 -> n mod 4 = 0 ->
  wp (save4 n) (fun _ c' => exists m, c' = setm m c /\ stored (fun j => n <= j < n + 4) (rel b c) (mem c) m) c.
Proof using Hbase.
  intros Hb Hbr Ha1 Hty Hn Hn4. unfold save4, TASK_REGS_AR.
  assert (sr c WINDOWBASE = (b + 0) mod 16) as Hf by (rewrite Z.mod_small by lia; lia).
  assert (forall i, 0 <= i -> i < 16 -> geta i c = rel b c i) as Hrel
    by (intros i _ _; by rewrite (geta_rel b 0)).
  do 4 (istep; rewrite ?Ha1, ?(wrapu_small 32 (base + _)) by lia). rewrite !Hrel by lia.
  eexists. split; [done|]. rewrite !(Z.mul_comm _ 4). apply stored_four; [lia|]. intros j. by apply rel_range.
Qed.

Lemma save_window_ok b mask c :
  sr c WINDOWBASE = b -> 0 <= b < 16 -> geta 1 c = base -> regs_ok c -> geta 2 c = mask ->
  0 <= mask < 2 ^ 16 -> Z.testbit mask 0 = true ->
  wp save_window (fun full c' => full = bool_decide (next_frame mask < 16) /\
    exists m, c' = setm m c /\
      stored (fun j => 4 <= j < Z.min 16 (4 * next_frame mask)) (rel b c) (mem c) m) c.
Proof using Hbase.
  intros Hb Hbr Ha1 Hty Ha2 Hmask H0. unfold save_window.
  destruct (next_frame_spec mask) as (Hk & Hlow & Hbit).
  assert (forall n (P : Z -> Prop) m (k : M cpu bool) (Q : bool -> cpu -> Prop),
    (n = 4 \/ n = 8 \/ n = 12) -> (forall j, P j <-> 4 <= j < n) -> stored P (rel b c) (mem c) m ->
    (forall m', stored (fun j => 4 <= j < n + 4) (rel b c) (mem c) m' -> wp k Q (setm m' c)) ->
    wp (save4 n;; k) Q (setm m c)) as Hsave.
  { intros n P m k Q Hn HP Hst Hk'. apply wp_bind. eapply wp_mono.
    - apply (save4_ok b n); [by look|done|by look|by apply regs_ok_setm|lia|by destruct Hn as [->|[->| ->]]].
    - intros [] c' (m' & -> & Hst'). rewrite setm_setm. apply Hk'.
      eapply stored_trans; [exact Hst|exact Hst'|..]; intros j; rewrite HP; lia. }
  assert (forall i (k1 k2 : M cpu bool) Q m, (Z.testbit mask i = true -> wp k1 Q (setm m c)) ->
    (Z.testbit mask i = false -> wp k2 Q (setm m c)) ->
    wp (b ← bit_set 2 i; if (b : bool) then k1 else k2) Q (setm m c)) as Htest.
  { intros i k1 k2 Q m H1 H2. istep. rewrite Ha2. destruct (Z.testbit mask i); auto. }
  assert (forall k (P : Z -> Prop) m, 1 <= k <= 4 -> next_frame mask = k -> stored P (rel b c) (mem c) m ->
    (forall j, P j <-> 4 <= j < 4 * k) -> true = bool_decide (next_frame mask < 16) /\
      exists m', setm m c = setm m' c /\
        stored (fun j => 4 <= j < Z.min 16 (4 * next_frame mask)) (rel b c) (mem c) m') as Hend.
  { intros k P m Hk4 -> Hst HP. split; [symmetry; apply bool_decide_eq_true; lia|]. exists m. split; [done|].
    rewrite Z.min_r by lia. eapply stored_iff; [|exact Hst]. intros j. apply HP. }
  lazymatch goal with |- wp ?m ?Q c => enough (wp m Q (setm (mem c) c)) as H by (by rewrite setm_mem in H) end.
  apply Htest; intros H1.
  { apply wp_ret, (Hend 1 (fun j => 4 <= j < 4)); [lia| |apply stored_nothing; lia|lia].
    apply next_frame_eq; [lia|lia|done]. }
  apply (Hsave 4 (fun j => 4 <= j < 4)); [lia|lia|apply stored_nothing; lia|]. intros m1 Hm1. apply Htest; intros H2.
  { apply wp_ret, (Hend 2 (fun j => 4 <= j < 4 + 4)); [lia| |exact Hm1|lia]. apply next_frame_eq; [lia| |done].
    intros i Hi. by replace i with 1 by lia. }
  apply (Hsave 8 (fun j => 4 <= j < 4 + 4)); [lia|lia|done|]. intros m2 Hm2. apply Htest; intros H3.
  { apply wp_ret, (Hend 3 (fun j => 4 <= j < 8 + 4)); [lia| |exact Hm2|lia]. apply next_frame_eq; [lia| |done].
    intros i Hi. assert (i = 1 \/ i = 2) as [->| ->] by lia; done. }
  apply (Hsave 12 (fun j => 4 <= j < 8 + 4)); [lia|lia|done|]. intros m3 Hm3. apply wp_gets. look. rewrite Ha2.
  assert (4 <= next_frame mask) as Hk4.
  { destruct (Z.le_gt_cases 4 (next_frame mask)) as [|Hk4]; [done|]. specialize (Hbit ltac:(lia)).
    assert (next_frame mask = 1 \/ next_frame mask = 2 \/ next_frame mask = 3) as [E|[E|E]] by lia;
      rewrite E in Hbit; congruence. }
  split; [by apply only_frame|]. exists m3. split; [done|]. rewrite Z.min_l by lia.
  eapply stored_iff; [|exact Hm3]. intros j. lia.
Qed.
Lemma count_frames_ok b mask c :
  sr c WINDOWBASE = b -> 0 <= b < 16 -> geta 1 c = base -> geta 2 c = mask ->
  0 <= mask < 2 ^ 16 -> Z.testbit mask 0 = true -> next_frame mask < 16 ->
  wp count_frames (fun _ c' =>
    sr c' = sr c /\ geta 1 c' = base /\ geta 2 c' = 16 - next_frame mask /\ geta 3 c' = 2 ^ next_frame mask /\
    (forall j, 0 <= j < 64 -> j <> 2 -> j <> 3 -> rel b c' j = rel b c j) /\
    (forall j, 0 <= j < 72 -> slot (mem c') j = slot (mem c) j) /\
    half (mem c') 288 = half (mem c) 288 /\ half (mem c') 290 = 16 - next_frame mask) c.
Proof using Hbase.
  intros Hb Hbr Ha1 Ha2 Hmask H0 Hk16. unfold count_frames, TASK_REGS_WINDOWSIZE.
  assert (sr c WINDOWBASE = (b + 0) mod 16) as Hf by (rewrite Z.mod_small by lia; lia).
  destruct (next_frame_spec mask) as (Hk & _).
  assert (mask <> 0) as Hnz by (intros ->; done).
  do 3 (istep; rewrite ?Ha1, ?Ha2). rewrite (wrapu_small 32 (mask + -1)) by lia.
  change (mask + -1) with (mask - 1). rewrite lowest_frame by done.
  istep. rewrite (proj2 (Z.eqb_neq _ 0)) by (apply Z.pow_nonzero; lia). rewrite Z.log2_pow2 by lia.
  istep. istep. rewrite Ha1, (wrapu_small 32 (base + _)) by lia.
  replace (31 - next_frame mask + -15) with (16 - next_frame mask) by lia. rewrite wrapu_small by lia.
  split_and!; try done.
  - intros j Hj H2 H3. lookrel b 0.
  - intros j Hj. by lookmem.
  - by lookmem.
  - lookmem. cbn. apply wrapu_small. lia.
Qed.
(** *** The loop that spills the frames behind the current one *)

(** [i] frames are in their places, [n] are left. *)
Record spilling (b i n : Z) (c0 c : cpu) : Prop := {
  sg_window : sr c WINDOWBASE = (b + - i) mod 16;
  sg_special : forall s, s <> WINDOWBASE -> sr c s = sr c0 s;
  sg_pointer : geta 1 c = base - 16 * i;
  sg_count : geta 2 c = n;
  sg_rest : forall j, 0 <= j < 64 - 4 * i -> rel b c j = rel b c0 j;
  sg_stored : stored (fun j => 64 - 4 * i <= j < 64) (rel b c0) (mem c0) (mem c);
}.

Lemma spill_frame_ok b i n c0 c :
  0 <= i -> 1 <= n -> i + n <= 15 -> regs_ok c0 -> spilling b i n c0 c ->
  wp spill_frame (fun _ c' => spilling b (i + 1) (n - 1) c0 c') c.
Proof using Hbase.
  intros Hi Hn Hin Hty [H1 H2 H3 H4 H5 H6]. unfold spill_frame, TASK_REGS_AR_END.
  destruct (rotated_window b (- i) (-1) c H1) as (Hw & Hs & Hg).
  apply wp_bind, wp_modify. set (c1 := sets WINDOWBASE _ c) in *.
  assert (mem c1 = mem c) as Hm by done.
  assert (forall j, rel b c1 j = rel b c j) as Hr by done. clearbody c1.
  assert (forall k, 0 <= k < 4 -> geta k c1 = rel b c0 (60 - 4 * i + k)) as Hk.
  { intros k Hk. rewrite Hg, (geta_rel b (- i)) by done. rewrite <- H5 by lia.
    rewrite <- (rel_wrap b c (60 - 4 * i + k)). f_equal. lia. }
  pose proof (Hg 5) as Hg5. change (5 + 4 * -1) with 1 in Hg5. rewrite H3 in Hg5.
  pose proof (Hg 6) as Hg6. change (6 + 4 * -1) with 2 in Hg6. rewrite H4 in Hg6.
  do 6 (istep; rewrite ?Hg5, ?Hg6, ?Hm). rewrite !Hk by lia.
  replace (u32 (base - 16 * i + (256 - 16))) with (base + 4 * (60 - 4 * i)) by (rewrite wrapu_small; lia).
  replace (u32 (base - 16 * i + (256 - 12))) with (base + 4 * (60 - 4 * i + 1)) by (rewrite wrapu_small; lia).
  replace (u32 (base - 16 * i + (256 - 8))) with (base + 4 * (60 - 4 * i + 2)) by (rewrite wrapu_small; lia).
  replace (u32 (base - 16 * i + (256 - 4))) with (base + 4 * (60 - 4 * i + 3)) by (rewrite wrapu_small; lia).
  rewrite (Z.add_0_r (60 - 4 * i)), (wrapu_small 32 (n + -1)), (wrapu_small 32 (base - _ + _)) by lia.
  constructor.
  - look. rewrite Hw. f_equal. lia.
  - intros s Hs'. look. by rewrite Hs, H2.
  - look. lia.
  - look. lia.
  - intros j Hj. lookrel b (- i + -1). rewrite Hr. apply H5. lia.
  - look. eapply stored_trans; [exact H6|apply (stored_four (60 - 4 * i)); [lia|intros j; by apply rel_range]|..]; intros j; cbv beta; lia.
Qed.
Lemma spill_loop_ok b c0 : regs_ok c0 -> forall n fuel i c,
  0 <= i -> i + Z.of_nat (S n) <= 15 -> (n < fuel)%nat -> spilling b i (Z.of_nat (S n)) c0 c ->
  wp (spill_loop fuel) (fun _ c' => spilling b (i + Z.of_nat (S n)) 0 c0 c') c.
Proof using Hbase.
  intros Hty. induction n as [|n IH]; intros fuel i c Hi Hn Hf Hc; (destruct fuel as [|fuel]; [lia|]); cbn [spill_loop];
    apply wp_bind; (eapply wp_mono; [eapply (spill_frame_ok b i _ c0); [lia| | |exact Hty|exact Hc]; lia|]); intros [] c1 Hc1;
    istep; rewrite (sg_count _ _ _ _ _ Hc1).
  - apply wp_ret. exact Hc1.
  - rewrite (proj2 (Z.eqb_neq _ 0)) by lia. replace (i + Z.of_nat (S (S n))) with (i + 1 + Z.of_nat (S n)) by lia.
    apply IH; [lia..|]. by replace (Z.of_nat (S n)) with (Z.of_nat (S (S n)) - 1) by lia.
Qed.

Lemma reset_window_ok b n c0 c :
  0 <= b < 16 -> 1 <= n <= 15 -> spilling b n 0 c0 c -> sr c0 SAR = b ->
  wp reset_window (fun _ c' =>
    sr c' WINDOWBASE = b /\ sr c' WINDOWSTART = 1 .<< b /\
    (forall j, 0 <= j < 64 - 4 * n -> rel b c' j = rel b c0 j) /\ mem c' = mem c) c.
Proof using Type.
  intros Hb Hn [H1 H2 H3 H4 H5 H6] HS. unfold reset_window.
  do 6 (istep; rewrite ?(H2 SAR), ?HS by done). cbn [sr_width]. rewrite (Z.mod_small b 32), (Z.mod_small b 16) by lia.
  split_and!; try done.
  - change (u32 1) with 1. replace (32 - (32 - b)) with b by lia. rewrite Z.shiftl_1_l.
    assert (2 ^ b < 2 ^ 16) by (apply Z.pow_lt_mono_r; lia). assert (0 < 2 ^ b) by (apply Z.pow_pos_nonneg; lia).
    rewrite (wrapu_small 32), wrapu_small by lia. done.
  - intros j Hj. lookrel b (- n). by apply H5.
Qed.

(** *** The whole *)
Definition live (mask j : Z) : Prop := j < 16 \/ 4 * next_frame mask <= j.
#[export] Instance live_dec mask j : Decision (live mask j) := _.

Record saved (b mask : Z) (c0 c : cpu) : Prop := {
  sv_window : sr c WINDOWBASE = b;
  sv_start : sr c WINDOWSTART = 1 .<< b;
  sv_kept : forall j, 0 <= j < 2 -> rel b c j = rel b c0 j;
  sv_first : forall j, 0 <= j < 4 -> slot (mem c) j = slot (mem c0) j;
  sv_regs : forall j, 4 <= j < 64 -> slot (mem c) j = if decide (live mask j) then rel b c0 j else slot (mem c0) j;
  sv_special : forall s j, (s, j) ∈ special_slots -> slot (mem c) j = sr c0 s;
  sv_mask : half (mem c) 288 = mask;
  sv_size : half (mem c) 290 = if decide (next_frame mask < 16) then 16 - next_frame mask else half (mem c0) 290;
}.

Lemma special_slots_range s j : (s, j) ∈ special_slots -> 64 <= j < 72.
Proof using Type.
  unfold special_slots. intros Hs.
  repeat (apply elem_of_cons in Hs as [Hs|Hs]; [injection Hs as -> ->; lia|]). by apply not_elem_of_nil in Hs.
Qed.
(** What an interrupted processor is like. *)
Record interrupted (b mask : Z) (c : cpu) : Prop := {
  it_window : sr c WINDOWBASE = b;
  it_base : 0 <= b < 16;
  it_start : 0 <= sr c WINDOWSTART < 2 ^ 16;
  it_mask : mask = window_mask (sr c WINDOWSTART) b;
  it_live : Z.testbit (sr c WINDOWSTART) b = true;
  it_frame : geta 1 c = base;
  it_regs : regs_ok c;
  it_special : srs_typed c;
}.

Lemma mask_first b mask c : interrupted b mask c -> 0 <= mask < 2 ^ 16 /\ Z.testbit mask 0 = true.
Proof using Type.
  intros [_ Hb Hs -> Hl _ _ _]. split; [unfold window_mask; by apply wrapu_range|].
  rewrite window_mask_bit by lia. by rewrite Z.add_0_r, Z.mod_small by lia.
Qed.

(** After the window is saved. *)
Record windowed (b mask : Z) (c0 c : cpu) : Prop := {
  wd_window : sr c WINDOWBASE = b;
  wd_start : sr c WINDOWSTART = sr c0 WINDOWSTART;
  wd_sar : sr c SAR = b;
  wd_pointer : geta 1 c = base;
  wd_bits : geta 2 c = mask;
  wd_regs : regs_ok c;
  wd_rest : forall j, 0 <= j < 64 -> j <> 2 -> j <> 3 -> rel b c j = rel b c0 j;
  wd_saved : forall j, 4 <= j < Z.min 16 (4 * next_frame mask) -> slot (mem c) j = rel b c0 j;
  wd_free : forall j, 0 <= j < 64 -> ~ 4 <= j < Z.min 16 (4 * next_frame mask) -> slot (mem c) j = slot (mem c0) j;
  wd_special : forall s j, (s, j) ∈ special_slots -> slot (mem c) j = sr c0 s;
  wd_mask : half (mem c) 288 = mask;
  wd_size : half (mem c) 290 = half (mem c0) 290;
}.

Lemma window_ok b mask c (k : bool -> M cpu unit) Q :
  interrupted b mask c ->
  (forall c', windowed b mask c c' -> wp (k (bool_decide (next_frame mask < 16))) Q c') ->
  wp (save_special;; rotate_windowstart;; full ← save_window; k full) Q c.
Proof using Hbase.
  intros Hc Hk. destruct (mask_first b mask c Hc) as [Hm H0]. destruct Hc as [Hb Hbr Hws -> Hl Ha1 Hty Hsty].
  set (mask := window_mask (sr c WINDOWSTART) b) in *.
  apply wp_bind. eapply wp_mono; [by apply (save_special_ok b)|].
  intros [] c1 (S1 & A1 & A2 & A3 & R1 & P1 & M1 & F1). apply wp_bind.
  eapply wp_mono; [apply (rotate_windowstart_ok b (sr c WINDOWSTART)); try done; by rewrite S1|].
  intros [] c2 (S2 & S2' & B1 & B2 & R2 & M2 & F2 & F2'). fold mask in B2, F2. apply wp_bind.
  assert (forall j, 0 <= j < 64 -> j <> 2 -> j <> 3 -> rel b c2 j = rel b c j) as R2c
    by (intros j Hj H2 H3; rewrite R2, R1; done).
  assert (sr c2 WINDOWBASE = b /\ sr c2 WINDOWSTART = sr c WINDOWSTART) as [W2 T2] by (by rewrite !S2, S1).
  assert (geta 3 c2 = sr c WINDOWSTART) as B3.
  { rewrite (geta_window b 3 c2), R2, <- (geta_window b 3 c1) by (done || by rewrite S1). done. }
  assert (regs_ok c2) as Hty2 by (apply (regs_ok_others b c); try done; lia).
  eapply wp_mono; [by apply (save_window_ok b mask)|]. intros full c3 (-> & m & -> & W1 & W3 & W4). apply Hk.
  constructor; look; try done.
  - intros j Hj. rewrite W1 by lia. apply R2c; lia.
  - intros j Hj Hn. rewrite W3, M2, M1 by lia. done.
  - intros s j Hs. pose proof (special_slots_range s j Hs). rewrite W3, M2, (P1 s) by (done || lia). done.
  - rewrite W4, F2 by lia. done.
  - rewrite W4, F2', F1 by lia. done.
Qed.

(** The frames that are spilled are those from the next live one on. *)
Lemma spill_ok b mask fuel c0 c :
  (15 <= fuel)%nat -> 0 <= b < 16 -> 0 <= mask < 2 ^ 16 -> Z.testbit mask 0 = true -> next_frame mask < 16 ->
  windowed b mask c0 c ->
  wp (count_frames;; spill_loop fuel;; reset_window) (fun _ c' => saved b mask c0 c') c.
Proof using Hbase.
  intros Hfuel Hb Hm H0 Hk16 Hc. destruct (next_frame_spec mask) as (Hk & _).
  set (k := next_frame mask) in *.
  apply wp_bind. eapply wp_mono; [apply (count_frames_ok b mask); try done; by apply Hc|].
  fold k. intros [] c4 (S4 & C1 & C2 & C3 & R4 & M4 & F4 & F4'). apply wp_bind.
  assert (spilling b 0 (16 - k) c4 c4) as Hsp0.
  { constructor; [|done|lia|done|done|apply stored_nothing; lia].
    rewrite S4, (wd_window _ _ _ _ Hc). by rewrite Z.add_0_r, Z.mod_small. }
  assert (exists n, 16 - k = Z.of_nat (S n)) as [n Hn] by (exists (Z.to_nat (15 - k)); lia).
  assert (regs_ok c4) as Hty4.
  { apply (regs_ok_others b c); [rewrite S4; apply Hc|done|apply Hc|done|lia|].
    rewrite C3. split; [by apply Z.pow_nonneg|]. apply Z.pow_lt_mono_r; lia. }
  rewrite Hn in Hsp0. eapply wp_mono; [by apply (spill_loop_ok b c4 Hty4 n fuel 0); [lia..|]|].
  intros [] c5 Hc5. rewrite <- Hn, Z.add_0_l in Hc5.
  assert (sr c4 SAR = b) as HS4 by (rewrite S4; apply Hc).
  eapply wp_mono; [apply (reset_window_ok b (16 - k) c4 c5 Hb); [lia|exact Hc5|exact HS4]|].
  intros [] c6 (W6 & T6 & R6 & M6). destruct (sg_stored _ _ _ _ _ Hc5) as (X1 & X2 & X3).
  assert (forall j, 4 * k <= j < 64 -> slot (mem c6) j = rel b c0 j) as Hspilled.
  { intros j Hj. rewrite M6, X1, R4 by lia. apply Hc; lia. }
  assert (forall j, 0 <= j < 72 -> ~ 4 * k <= j < 64 -> slot (mem c6) j = slot (mem c) j) as Hkept.
  { intros j Hj Hn'. rewrite M6, X2, M4 by lia. done. }
  constructor; fold k.
  - done.
  - done.
  - intros j Hj. rewrite R6, R4 by lia. apply Hc; lia.
  - intros j Hj. rewrite Hkept by lia. apply Hc; lia.
  - intros j Hj. unfold live. fold k. destruct (decide (4 * k <= j)) as [H4|H4].
    + rewrite decide_True by lia. apply Hspilled. lia.
    + rewrite Hkept by lia. case_decide; [apply (wd_saved _ _ _ _ Hc)|apply (wd_free _ _ _ _ Hc)]; fold k; lia.
  - intros s j Hs. pose proof (special_slots_range s j Hs). rewrite Hkept by lia. by apply (wd_special _ _ _ _ Hc).
  - rewrite M6, X3, F4 by lia. apply Hc.
  - rewrite M6, X3, F4' by lia. by rewrite decide_True.
Qed.

Lemma save_ok b mask fuel c :
  (15 <= fuel)%nat -> interrupted b mask c ->
  wp (save_full_interrupt_context fuel) (fun _ c' => saved b mask c c') c.
Proof using Hbase.
  intros Hfuel Hc. destruct (mask_first b mask c Hc) as [Hm H0]. pose proof (it_base _ _ _ Hc) as Hb.
  destruct (next_frame_spec mask) as (Hk & _).
  apply (window_ok b mask c _ _ Hc). intros c' Hc'. case_bool_decide as Hk16; [by apply spill_ok|].
  apply wp_ret. assert (next_frame mask = 16) as E by lia. constructor; try apply Hc'.
  - rewrite (wd_start _ _ _ _ Hc'). apply only_window; [apply Hc|done|apply Hc|].
    by rewrite <- (it_mask _ _ _ Hc).
  - intros j Hj. apply Hc'; lia.
  - intros j Hj. apply (wd_free _ _ _ _ Hc'); lia.
  - intros j Hj. case_decide as Hv; unfold live in Hv;
      [apply (wd_saved _ _ _ _ Hc')|apply (wd_free _ _ _ _ Hc')]; lia.
  - rewrite decide_False by lia. apply Hc'.
Qed.
End Frame.
