(* ===== verification/EntryRestore.v ===== *)
(** * What the exit restores

    The effect of restore_full_interrupt_context: the registers of the processor, from the
    words of the frame on the kernel's stack. *)
From Stdlib Require Import ZArith Lia.
From stdpp Require Import base tactics numbers list.
From S2P Require Import Prelude Umem Task Syscall Running RunningSpec Xtensa Entry EntrySave.

#[local] Opaque geta seta sets setm rel.

Section Restore.
Context (base : Z).
Hypothesis (Hbase : 256 <= base < 2 ^ 32 - 292).

Abbreviation slot := (slot base).
Abbreviation half := (half base).

Lemma load_slot off j m : off = 4 * j -> load_le 4 (base + off) m = slot m j.
Proof using Type. by intros ->. Qed.

(** *** The window of the frame *)

(** What the code takes for the window base: it reads [a2] after it has switched. *)
Definition leftover (b : Z) (c : cpu) : Z :=
  if decide (sr c WINDOWBASE = b) then b else aregs c ((4 * b + 2) mod 64).

Lemma switch_window_ok b ws c :
  0 <= sr c WINDOWBASE < 16 -> regs_ok c -> geta 1 c = base ->
  slot (mem c) 70 = b -> 0 <= b < 16 -> slot (mem c) 71 = ws -> 0 <= ws < 2 ^ 16 ->
  wp switch_window (fun _ c' =>
    sr c' WINDOWBASE = b /\ sr c' WINDOWSTART = ws /\ sr c' EXCSAVE1 = leftover b c /\ mem c' = mem c /\
    geta 0 c' = geta 0 c /\ geta 1 c' = base) c.
Proof using Hbase.
  intros Hw Hty Ha1 Hb Hbr Hws Hwsr. unfold switch_window, TASK_REGS_WINDOWBASE, TASK_REGS_WINDOWSTART.
  do 4 (istep; rewrite ?Ha1, ?(wrapu_small 32 (base + _)) by lia).
  rewrite (load_slot 280 70), (load_slot 284 71), Hb, Hws by done.
  do 2 istep.
  set (c1 := sets WINDOWBASE _ _).
  assert (sr c1 WINDOWBASE = b /\ sr c1 WINDOWSTART = ws /\ sr c1 EXCSAVE1 = base /\ sr c1 EPC1 = geta 0 c /\ mem c1 = mem c)
    as (W1 & T1 & X1 & E1 & M1).
  { unfold c1. look. cbn [sr_width]. rewrite Z.mod_small, (wrapu_small 16 ws), (wrapu_small 32 base) by lia.
    rewrite (wrapu_small 32 (geta 0 c)); [done|].
    rewrite (geta_window (sr c WINDOWBASE)) by done. by apply rel_range. }
  assert (geta 2 c1 = leftover b c /\ 0 <= leftover b c < 2 ^ 32) as [G2 Hg].
  { rewrite (geta_window b) by done. unfold leftover. case_decide as E.
    - split; [|lia]. unfold c1. lookrel b 0.
    - split; [|apply Hty, Z.mod_pos_bound; lia]. unfold c1. lookrel b (sr c WINDOWBASE - b). }
  clearbody c1. do 3 (istep; rewrite ?X1, ?E1, ?G2). split_and!; try done. by apply wrapu_small.
Qed.

(** *** The loop that loads the spilled frames *)

(** [i] frames are loaded, [n] are left. *)
Record restoring (b i n : Z) (c0 c : cpu) : Prop := {
  rg_window : sr c WINDOWBASE = (b + (15 - i)) mod 16;
  rg_special : forall s, s <> WINDOWBASE -> sr c s = sr c0 s;
  rg_mem : mem c = mem c0;
  rg_count : geta 2 c = n;
  rg_pointer : geta 3 c = base - 16 * i;
  rg_first : forall j, 0 <= j < 2 -> rel b c j = rel b c0 j;
  rg_loaded : forall j, 64 - 4 * i <= j < 64 -> rel b c j = slot (mem c0) j;
}.

Lemma restore_frame_ok b i n c0 c :
  0 <= i -> 1 <= n -> i + n <= 15 -> restoring b i n c0 c ->
  wp restore_frame (fun _ c' => restoring b (i + 1) (n - 1) c0 c') c.
Proof using Hbase.
  intros Hi Hn Hin [H1 H2 H3 H4 H5 H6 H7]. unfold restore_frame, TASK_REGS_AR_END.
  destruct (rotated_window b (15 - i) (-1) c H1) as (Hw & Hs & Hg).
  apply wp_bind, wp_modify. set (c1 := sets WINDOWBASE _ c) in *.
  assert (mem c1 = mem c) as Hm by done.
  assert (forall j, rel b c1 j = rel b c j) as Hr by done. clearbody c1.
  pose proof (Hg 6) as Hg6. change (6 + 4 * -1) with 2 in Hg6. rewrite H4 in Hg6.
  pose proof (Hg 7) as Hg7. change (7 + 4 * -1) with 3 in Hg7. rewrite H5 in Hg7.
  do 2 (istep; rewrite ?Hg6, ?Hg7). rewrite (wrapu_small 32 (n + -1)), (wrapu_small 32 (base - _ + _)) by lia.
  do 4 istep.
  replace (u32 (base - 16 * i + -16 + 256)) with (base + 4 * (60 - 4 * i)) by (rewrite wrapu_small; lia).
  replace (u32 (base - 16 * i + -16 + (256 + 4))) with (base + 4 * (60 - 4 * i + 1)) by (rewrite wrapu_small; lia).
  replace (u32 (base - 16 * i + -16 + (256 + 8))) with (base + 4 * (60 - 4 * i + 2)) by (rewrite wrapu_small; lia).
  replace (u32 (base - 16 * i + -16 + (256 + 12))) with (base + 4 * (60 - 4 * i + 3)) by (rewrite wrapu_small; lia).
  rewrite Hm, H3. constructor.
  - look. rewrite Hw. f_equal. lia.
  - intros s Hs'. look. by rewrite Hs, H2.
  - look. by rewrite Hm.
  - look. lia.
  - look. lia.
  - intros j Hj. lookrel b (15 - i + -1). rewrite Hr. by apply H6.
  - intros j Hj. destruct (decide (64 - 4 * i <= j)).
    + lookrel b (15 - i + -1). rewrite Hr. apply H7. lia.
    + assert (j = 60 - 4 * i \/ j = 60 - 4 * i + 1 \/ j = 60 - 4 * i + 2 \/ j = 60 - 4 * i + 3)
        as [->|[->|[->| ->]]] by lia; lookrel b (15 - i + -1).
Qed.

Lemma restore_loop_ok b c0 : forall n fuel i c,
  0 <= i -> i + Z.of_nat (S n) <= 15 -> (n < fuel)%nat -> restoring b i (Z.of_nat (S n)) c0 c ->
  wp (restore_loop fuel) (fun _ c' => restoring b (i + Z.of_nat (S n)) 0 c0 c') c.
Proof using Hbase.
  induction n as [|n IH]; intros fuel i c Hi Hn Hf Hc; (destruct fuel as [|fuel]; [lia|]); cbn [restore_loop];
    apply wp_bind; (eapply wp_mono; [eapply (restore_frame_ok b i _ c0); [lia| | |exact Hc]; lia|]); intros [] c1 Hc1;
    istep; rewrite (rg_count _ _ _ _ _ Hc1).
  - apply wp_ret. exact Hc1.
  - rewrite (proj2 (Z.eqb_neq _ 0)) by lia. replace (i + Z.of_nat (S (S n))) with (i + 1 + Z.of_nat (S n)) by lia.
    apply IH; [lia..|]. by replace (Z.of_nat (S n)) with (Z.of_nat (S (S n)) - 1) by lia.
Qed.

(** All of it: what is left is in the window of the last frame that is loaded. *)
Record frames_loaded (b n : Z) (c0 c : cpu) : Prop := {
  ld_window : sr c WINDOWBASE = (b + (15 - n)) mod 16;
  ld_special : forall s, s <> WINDOWBASE -> sr c s = sr c0 s;
  ld_mem : mem c = mem c0;
  ld_first : forall j, 0 <= j < 2 -> rel b c j = rel b c0 j;
  ld_loaded : forall j, 64 - 4 * n <= j < 64 -> rel b c j = slot (mem c0) j;
}.

Lemma restore_frames_ok b n fuel c :
  (15 <= fuel)%nat -> sr c WINDOWBASE = b -> 0 <= b < 16 -> geta 1 c = base -> half (mem c) 290 = n -> 0 <= n <= 15 ->
  wp (restore_frames fuel) (fun _ c' => frames_loaded b n c c') c.
Proof using Hbase.
  intros Hf Hb Hbr Ha1 Hn Hnr. unfold restore_frames, TASK_REGS_WINDOWSIZE.
  istep. rewrite Ha1, wrapu_small by lia. change (load_le 2 (base + 290) (mem c)) with (half (mem c) 290). rewrite Hn.
  set (c1 := seta 2 n c).
  assert (sr c1 WINDOWBASE = (b + 0) mod 16) as Hw1 by (rewrite Z.add_0_r, Z.mod_small by lia; exact Hb).
  assert (geta 2 c1 = n /\ geta 1 c1 = base) as [G2 G1] by (unfold c1; by look).
  assert (forall j, 0 <= j < 64 -> j <> 2 -> rel b c1 j = rel b c j) as R1 by (intros j Hj N2; unfold c1; lookrel b 0).
  assert ((forall s, sr c1 s = sr c s) /\ mem c1 = mem c) as [S1 M1] by done. clearbody c1.
  destruct (rotated_window b 0 (-1) c1 Hw1) as (Hw & Hs & Hg).
  apply wp_bind, wp_modify. set (c2 := sets WINDOWBASE _ c1) in *.
  assert (forall j, rel b c2 j = rel b c1 j) as R2 by done. assert (mem c2 = mem c1) as M2 by done. clearbody c2.
  pose proof (Hg 6) as G6. change (6 + 4 * -1) with 2 in G6. rewrite G2 in G6.
  pose proof (Hg 5) as G5. change (5 + 4 * -1) with 1 in G5. rewrite G1 in G5.
  assert (sr c2 WINDOWBASE = (b + 15) mod 16) as Hw2.
  { rewrite Hw. replace (b + 15) with (b + (0 + -1) + 1 * 16) by lia. by rewrite Z_mod_plus_full. }
  istep. rewrite G6. destruct (Z.eqb_spec n 0) as [->|Hn0].
  - apply wp_ret. constructor; [done|..].
    + intros s Hs'. by rewrite Hs, S1.
    + by rewrite M2.
    + intros j Hj. by rewrite R2, R1 by lia.
    + intros j Hj. lia.
  - do 2 (istep; rewrite ?G6, ?G5). assert (exists n', n = Z.of_nat (S n')) as [n' En] by (exists (Z.to_nat (n - 1)); lia).
    rewrite En. eapply wp_mono; [apply (restore_loop_ok b c n' fuel 0); [lia..|]|].
    + rewrite <- En. constructor; look; try done.
      * intros s Hs'. look. by rewrite Hs, S1.
      * by rewrite M2.
      * lia.
      * intros j Hj. lookrel b 15. by rewrite R2, R1 by lia.
      * intros j Hj. lia.
    + intros [] c3 [A1 A2 A3 _ _ A6 A7]. rewrite Z.add_0_l in *. by constructor.
Qed.
(** *** The loop that clears the frames between *)
Lemma zero_frame_ok b f n c :
  sr c WINDOWBASE = (b + f) mod 16 -> geta 3 c = n -> 1 <= n <= 15 ->
  wp zero_frame (fun _ c' =>
    sr c' WINDOWBASE = (b + (f - 1)) mod 16 /\ geta 3 c' = n - 1 /\
    (forall s, s <> WINDOWBASE -> sr c' s = sr c s) /\ mem c' = mem c /\
    (forall j, 0 <= j < 64 -> (j - 4 * f) mod 64 < 4 -> rel b c' j = 0) /\
    (forall j, 0 <= j < 64 -> 4 <= (j - 4 * f) mod 64 < 63 -> rel b c' j = rel b c j)) c.
Proof using Type.
  clear Hbase. intros H1 H2 Hn. unfold zero_frame. destruct (rotated_window b f (-1) c H1) as (Hw & Hs & Hg).
  apply wp_bind, wp_modify. set (c1 := sets WINDOWBASE _ c) in *.
  assert (mem c1 = mem c) as Hm by done.
  assert (forall j, rel b c1 j = rel b c j) as Hr by done. clearbody c1.
  pose proof (Hg 7) as Hg7. change (7 + 4 * -1) with 3 in Hg7. rewrite H2 in Hg7.
  istep. rewrite Hg7, (wrapu_small 32 (n + -1)) by lia. do 4 istep. change (u32 0) with 0. split_and!.
  - look. rewrite Hw. f_equal.
  - look. lia.
  - intros s Hs'. look. by rewrite Hs.
  - by look.
  - intros j Hj Hz. assert (j = (4 * f) mod 64 \/ j = (4 * f + 1) mod 64 \/ j = (4 * f + 2) mod 64 \/ j = (4 * f + 3) mod 64)
      as Hc by (Z.to_euclidean_division_equations; lia).
    destruct Hc as [Hc|[Hc|[Hc|Hc]]]; lookrel b (f + -1).
  - intros j Hj Hz. lookrel b (f + -1).
Qed.

(** The window in which the loop ends depends on the count alone. *)
Lemma zero_loop_window b : forall n fuel f c,
  sr c WINDOWBASE = (b + f) mod 16 -> geta 3 c = Z.of_nat (S n) -> Z.of_nat (S n) <= 15 -> (n < fuel)%nat ->
  wp (zero_loop fuel) (fun _ c' => sr c' WINDOWBASE = (b + (f - Z.of_nat (S n))) mod 16) c.
Proof using Type.
  clear Hbase. induction n as [|n IH]; intros fuel f c Hw H3 Hn Hf; (destruct fuel as [|fuel]; [lia|]); cbn [zero_loop];
    apply wp_bind; (eapply wp_mono; [apply (zero_frame_ok b f _ c Hw H3); lia|]);
    intros [] c1 (W1 & N1 & _); istep; rewrite N1.
  - apply wp_ret. exact W1.
  - rewrite wraps_small, (proj2 (Z.leb_le 1 _)) by lia.
    replace (f - Z.of_nat (S (S n))) with (f - 1 - Z.of_nat (S n)) by lia. apply IH; try done; lia.
Qed.

(** Counting the frames down to the task's window, it clears what is not loaded. *)
Lemma zero_loop_ok b top : 0 <= b < 16 -> 2 <= top <= 16 -> forall n fuel c0 c,
  sr c WINDOWBASE = (b + Z.of_nat (S n)) mod 16 -> geta 3 c = Z.of_nat (S n) -> Z.of_nat (S n) < top -> (n < fuel)%nat ->
  (forall j, 0 <= j < 2 \/ 4 * top <= j < 64 -> rel b c j = rel b c0 j) ->
  (forall j, 4 * (Z.of_nat (S n) + 1) <= j < 4 * top -> rel b c j = 0) ->
  wp (zero_loop fuel) (fun _ c' => sr c' WINDOWBASE = b /\ (forall s, s <> WINDOWBASE -> sr c' s = sr c s) /\
    mem c' = mem c /\ (forall j, 0 <= j < 2 \/ 4 * top <= j < 64 -> rel b c' j = rel b c0 j) /\
    (forall j, 4 <= j < 4 * top -> rel b c' j = 0)) c.
Proof using Type.
  clear Hbase. intros Hb Htop. induction n as [|n IH]; intros fuel c0 c Hw H3 Hn Hf Hk Hz;
    (destruct fuel as [|fuel]; [lia|]); cbn [zero_loop];
    apply wp_bind; (eapply wp_mono; [apply (zero_frame_ok b _ _ c Hw H3); lia|]);
    intros [] c1 (W1 & N1 & S1 & M1 & Z1 & R1); istep; rewrite N1.
  - apply wp_ret. split_and!; try done.
    + rewrite W1. by rewrite Z.add_0_r, Z.mod_small.
    + intros j Hj. rewrite R1; [by apply Hk|lia|]. Z.to_euclidean_division_equations; lia.
    + intros j Hj. destruct (decide (j < 8)); [apply Z1; [lia|]; Z.to_euclidean_division_equations; lia|].
      rewrite R1; [apply Hz; lia|lia|]. Z.to_euclidean_division_equations; lia.
  - rewrite wraps_small, (proj2 (Z.leb_le 1 _)) by lia.
    eapply wp_mono; [apply (IH fuel c0 c1); try lia|].
    + rewrite W1. do 2 f_equal. lia.
    + intros j Hj. rewrite R1; [by apply Hk|lia|]. Z.to_euclidean_division_equations; lia.
    + intros j Hj. destruct (decide (j < 4 * (Z.of_nat (S (S n)) + 1))) as [Hlt|Hge].
      * apply Z1; [lia|]. Z.to_euclidean_division_equations; lia.
      * rewrite R1; [apply Hz; lia|lia|]. Z.to_euclidean_division_equations; lia.
    + intros [] c2 (W2 & S2 & M2 & K2 & Z2). split_and!; try done; [intros s Hs; by rewrite S2, S1|by rewrite M2].
Qed.

(** *** Clearing: right when the task's window base is what was left in [a2] *)
Lemma zero_regs_ok b n fuel c0 c :
  (15 <= fuel)%nat -> 0 <= b < 16 -> 0 <= n <= 14 -> frames_loaded b n c0 c -> sr c EXCSAVE1 mod 16 = b -> 0 <= sr c EXCSAVE1 < 2 ^ 32 ->
  wp (zero_regs_ fuel) (fun _ c' =>
    sr c' WINDOWBASE = b /\ (forall s, s <> WINDOWBASE -> sr c' s = sr c s) /\ mem c' = mem c /\
    (forall j, 0 <= j < 2 \/ 64 - 4 * n <= j < 64 -> rel b c' j = rel b c j) /\
    (forall j, 4 <= j < 64 - 4 * n -> rel b c' j = 0)) c.
Proof using Type.
  clear Hbase. intros Hf Hb Hn [H1 H2 H3 H4 H5] Hg Hgr. unfold zero_regs_. do 3 istep. rewrite H1.
  set (v := u32 ((b + (15 - n)) mod 16 - sr c EXCSAVE1)).
  assert (v mod 16 = 15 - n) as Hv.
  { unfold v, wrapu. Z.to_euclidean_division_equations; lia. }
  istep. rewrite (proj2 (Z.eqb_neq v 0)) by (intros E; rewrite E in Hv; change (0 mod 16) with 0 in Hv; lia).
  istep. replace (v .>> 0 .& Z.ones 4) with (15 - n) by (rewrite Z.shiftr_0_r, Z.land_ones, <- Hv by lia; done).
  assert (exists k, 15 - n = Z.of_nat (S k)) as [k Hk] by (exists (Z.to_nat (14 - n)); lia).
  set (c1 := seta 3 (15 - n) _).
  eapply wp_mono; [apply (zero_loop_ok b (16 - n) Hb ltac:(lia) k fuel c c1)|].
  - unfold c1. look. by rewrite H1, Hk.
  - unfold c1. look. lia.
  - lia.
  - lia.
  - intros j Hj. unfold c1. lookrel b (15 - n).
  - intros j Hj. lia.
  - intros [] c2 (A1 & A2 & A3 & A4 & A5). split; [done|]. split; [done|]. split; [done|]. split.
    + intros j Hj. apply A4. lia.
    + intros j Hj. apply A5. lia.
Qed.

(** *** The special registers, and the rest of the window *)
Lemma restore_special_ok b c :
  sr c WINDOWBASE = b -> 0 <= b < 16 -> geta 1 c = base ->
  wp restore_special (fun _ c' =>
    sr c' WINDOWBASE = b /\ sr c' WINDOWSTART = sr c WINDOWSTART /\
    (forall s j, (s, j) ∈ special_slots -> s <> WINDOWBASE -> s <> WINDOWSTART ->
      sr c' s = sr_width s (slot (mem c) j)) /\
    mem c' = mem c /\ (forall j, 0 <= j < 64 -> j <> 2 -> rel b c' j = rel b c j)) c.
Proof using Hbase.
  intros Hb Hbr Ha1. unfold restore_special, restore_word, TASK_REGS_PC, TASK_REGS_PS, TASK_REGS_SAR, TASK_REGS_LBEG,
    TASK_REGS_LEND, TASK_REGS_LCOUNT.
  assert (sr c WINDOWBASE = (b + 0) mod 16) as Hf by (rewrite Z.mod_small by lia; lia).
  do 12 (istep; rewrite ?Ha1, ?(wrapu_small 32 (base + _)) by lia).
  rewrite (load_slot 272 68), (load_slot 276 69), (load_slot 256 64), (load_slot 260 65), (load_slot 264 66),
    (load_slot 268 67) by done.
  split_and!; look; try done.
  - intros s j Hs N1 N2. unfold special_slots in Hs.
    repeat (apply elem_of_cons in Hs as [Hs|Hs]; [injection Hs as -> ->; by (done || look)|]).
    by apply not_elem_of_nil in Hs.
  - intros j Hj N2. lookrel b 0.
Qed.

Lemma load4_ok b n c :
  sr c WINDOWBASE = b -> 0 <= b < 16 -> geta 1 c = base -> 4 <= n <= 12 ->
  wp (load4 n) (fun _ c' =>
    sr c' = sr c /\ mem c' = mem c /\
    (forall j, 0 <= j < 64 -> rel b c' j = if decide (n <= j < n + 4) then slot (mem c) j else rel b c j)) c.
Proof using Hbase.
  intros Hb Hbr Ha1 Hn. unfold load4, TASK_REGS_AR.
  assert (sr c WINDOWBASE = (b + 0) mod 16) as Hf by (rewrite Z.mod_small by lia; lia).
  do 4 (istep; rewrite ?(geta_seta_ne 1) by lia; rewrite ?Ha1, ?(wrapu_small 32 (base + _)) by lia).
  rewrite (load_slot (n * 4) n), (load_slot ((n + 1) * 4) (n + 1)), (load_slot ((n + 2) * 4) (n + 2)),
    (load_slot ((n + 3) * 4) (n + 3)) by lia.
  split_and!; try done. intros j Hj. case_decide as Hjn; [|lookrel b 0].
  assert (j = n \/ j = n + 1 \/ j = n + 2 \/ j = n + 3) as [->|[->|[->| ->]]] by lia; lookrel b 0.
Qed.

(** Registers [4] to [n], and what is loaded. *)
Record refilled (b n : Z) (c0 c : cpu) : Prop := {
  rf_special : sr c = sr c0;
  rf_mem : mem c = mem c0;
  rf_regs : forall j, 0 <= j < 64 -> j <> 2 -> rel b c j = if decide (4 <= j < n) then slot (mem c0) j else rel b c0 j;
}.

Lemma restore_window_ok b mask c :
  sr c WINDOWBASE = b -> 0 <= b < 16 -> geta 1 c = base -> half (mem c) 288 = mask ->
  wp restore_window (fun _ c' => refilled b (Z.min 16 (4 * next_frame mask)) c c') c.
Proof using Hbase.
  intros Hb Hbr Ha1 Hm. unfold restore_window, TASK_REGS_WINDOWMASK.
  istep. rewrite Ha1, wrapu_small by lia. change (load_le 2 (base + 288) (mem c)) with (half (mem c) 288). rewrite Hm.
  assert (refilled b 4 c (seta 2 mask c)) as H0.
  { constructor; [done|done|]. intros j Hj N2. rewrite decide_False by lia.
    assert (sr c WINDOWBASE = (b + 0) mod 16) as Hf by (rewrite Z.mod_small by lia; lia). lookrel b 0. }
  assert (geta 2 (seta 2 mask c) = mask) as G0 by (by look).
  assert (forall n c1, refilled b n c c1 -> 4 <= n <= 12 -> geta 2 c1 = mask ->
    wp (load4 n) (fun _ c2 => refilled b (n + 4) c c2 /\ geta 2 c2 = mask) c1) as Hload.
  { intros n c1 [R1 R2 R3] Hn G. assert (sr c1 WINDOWBASE = b) as W by (by rewrite R1).
    eapply wp_mono; [apply (load4_ok b n c1 W Hbr); [|done]|].
    - rewrite (geta_window b) by done. rewrite R3 by lia. by rewrite <- (geta_window b 1 c).
    - intros [] c2 (A1 & A2 & A3). split.
      + constructor; [by rewrite A1|by rewrite A2|]. intros j Hj N2. rewrite A3, R2 by done.
        rewrite R3 by done. repeat case_decide; try lia; done.
      + rewrite (geta_window b) by (done || by rewrite A1). rewrite A3, decide_False by lia.
        by rewrite <- (geta_window b). }
  destruct (next_frame_spec mask) as (Hk & Hlow & Hbit).
  assert (forall i k (Q : unit -> cpu -> Prop) c1, geta 2 c1 = mask ->
    (Z.testbit mask i = true -> Q tt c1) -> (Z.testbit mask i = false -> wp k Q c1) ->
    wp (x ← bit_set 2 i; if (x : bool) then mret tt else k) Q c1) as Htest.
  { intros i k Q c1 G T F. istep. rewrite G. destruct (Z.testbit mask i); [apply wp_ret|]; auto. }
  apply Htest; [done|intros H1|intros H1].
  { rewrite (next_frame_eq mask 1) by (done || lia). exact H0. }
  apply wp_bind. eapply wp_mono; [by apply Hload|]. intros [] c1 [F1 G1]. apply Htest; [done|intros H2|intros H2].
  { rewrite (next_frame_eq mask 2); [exact F1|lia| |done]. intros i Hi. by replace i with 1 by lia. }
  apply wp_bind. eapply wp_mono; [by apply Hload|]. intros [] c2 [F2 G2]. apply Htest; [done|intros H3|intros H3].
  { rewrite (next_frame_eq mask 3); [exact F2|lia| |done].
    intros i Hi. assert (i = 1 \/ i = 2) as [->| ->] by lia; done. }
  eapply wp_mono; [by apply Hload|]. intros [] c3 [F3 _]. rewrite Z.min_l; [exact F3|].
  destruct (Z.le_gt_cases 4 (next_frame mask)) as [|Hk4]; [lia|]. specialize (Hbit ltac:(lia)).
  assert (next_frame mask = 1 \/ next_frame mask = 2 \/ next_frame mask = 3) as [E|[E|E]] by lia;
    rewrite E in Hbit; congruence.
Qed.
(** *** The whole *)

(** The frame at the exit: the window, how many frames are spilled, and their mask. *)
Record exiting (b ws mask n : Z) (c : cpu) : Prop := {
  ex_base : 0 <= sr c WINDOWBASE < 16;
  ex_regs : regs_ok c;
  ex_pointer : geta 1 c = base;
  ex_window : slot (mem c) 70 = b /\ 0 <= b < 16;
  ex_start : slot (mem c) 71 = ws /\ 0 <= ws < 2 ^ 16;
  ex_mask : half (mem c) 288 = mask;
  ex_size : half (mem c) 290 = n;
}.

Lemma leftover_range b c : 0 <= b < 16 -> regs_ok c -> 0 <= leftover b c < 2 ^ 32.
Proof using Type.
  clear Hbase. intros Hb Hc. unfold leftover. case_decide; [lia|]. apply Hc, Z.mod_pos_bound. lia.
Qed.

(** Up to the clearing. *)
Lemma frames_back b ws mask n fuel c (k : M cpu unit) Q :
  (15 <= fuel)%nat -> exiting b ws mask n c -> 0 <= n <= 15 ->
  (forall c1 c2, frames_loaded b n c1 c2 -> mem c1 = mem c -> sr c2 EXCSAVE1 = leftover b c -> sr c2 WINDOWSTART = ws ->
     rel b c2 0 = geta 0 c -> rel b c2 1 = base -> wp k Q c2) ->
  wp (switch_window;; restore_frames fuel;; k) Q c.
Proof using Hbase.
  intros Hf [Hw Hty Ha1 [Hb Hbr] [Hws Hwsr] Hm Hn] Hnr Hk.
  apply wp_bind. eapply wp_mono; [by apply (switch_window_ok b ws)|].
  intros [] c1 (W1 & T1 & X1 & M1 & G0 & G1). apply wp_bind.
  eapply wp_mono; [apply (restore_frames_ok b n fuel c1); try done; by rewrite M1|].
  intros [] c2 H2. apply (Hk c1 c2 H2 M1); [by rewrite (ld_special _ _ _ _ H2)..| |];
    rewrite (ld_first _ _ _ _ H2), <- (geta_window b) by (done || lia); done.
Qed.

(** The register [j] after the exit, but for the first four. *)
Definition restored (mask n : Z) (word : Z -> Z) (j : Z) : Z :=
  if decide (4 <= j < Z.min 16 (4 * next_frame mask) \/ 64 - 4 * n <= j) then word j else 0.

Lemma restore_ok b ws mask n fuel c :
  (15 <= fuel)%nat -> exiting b ws mask n c -> 0 <= n <= 14 -> leftover b c mod 16 = b ->
  wp (restore_full_interrupt_context fuel) (fun _ c' =>
    sr c' WINDOWBASE = b /\ sr c' WINDOWSTART = ws /\
    (forall s j, (s, j) ∈ special_slots -> s <> WINDOWBASE -> s <> WINDOWSTART ->
      sr c' s = sr_width s (slot (mem c) j)) /\
    mem c' = mem c /\ geta 0 c' = geta 0 c /\ geta 1 c' = base /\
    (forall j, 4 <= j < 64 -> rel b c' j = restored mask n (slot (mem c)) j)) c.
Proof using Hbase.
  intros Hf Hc Hn Hl. pose proof (ex_window _ _ _ _ _ Hc) as [Hb Hbr].
  pose proof (leftover_range b c Hbr (ex_regs _ _ _ _ _ Hc)) as Hlr.
  unfold restore_full_interrupt_context. apply (frames_back b ws mask n); [done|done|lia|]. intros c1 c2 H2 M1 X2 T2 K0 K1.
  apply wp_bind. eapply wp_mono; [apply (zero_regs_ok b n fuel c1 c2); try done; by rewrite X2|].
  intros [] c3 (W3 & S3 & M3 & K3 & Z3). apply wp_bind.
  assert (mem c3 = mem c) as M3c by (by rewrite M3, (ld_mem _ _ _ _ H2)).
  assert (rel b c3 0 = geta 0 c /\ rel b c3 1 = base) as [K30 K31] by (rewrite !K3 by lia; done).
  eapply wp_mono; [apply (restore_special_ok b c3 W3 Hbr); by rewrite (geta_window b)|].
  intros [] c4 (W4 & T4 & S4 & M4 & R4).
  eapply wp_mono; [apply (restore_window_ok b mask c4 W4 Hbr)|].
  - by rewrite (geta_window b), R4 by (done || lia).
  - rewrite M4, M3c. apply Hc.
  - intros [] c5 [S5 M5 R5]. rewrite S5. split; [done|]. split; [by rewrite T4, S3|].
    split; [intros s j Hs N1 N2; by rewrite (S4 s j Hs N1 N2), M3c|].
    split; [by rewrite M5, M4|].
    assert (forall i, 0 <= i < 2 -> geta i c5 = rel b c3 i) as Hi.
    { intros i Hi. rewrite (geta_window b) by (done || by rewrite S5). rewrite R5, decide_False, R4 by lia. done. }
    split; [by rewrite Hi by lia|]. split; [by rewrite Hi by lia|]. intros j Hj.
    rewrite R5, R4 by lia. rewrite M4, M3c. unfold restored.
    destruct (decide (4 <= j < Z.min 16 (4 * next_frame mask))) as [Hj1|Hj1]; [by rewrite decide_True by auto|].
    destruct (decide (64 - 4 * n <= j)) as [Hj2|Hj2].
    + rewrite decide_True by auto. rewrite K3, (ld_loaded _ _ _ _ H2), M1 by lia. done.
    + rewrite decide_False by tauto. apply Z3. lia.
Qed.

(** *** Where it goes wrong *)

(** With 15 frames spilled the window comes round to the task's own, where [a0] is the way
    back. *)
Lemma restore_loses_return b ws mask fuel c :
  (15 <= fuel)%nat -> exiting b ws mask 15 c -> leftover b c = b ->
  wp (restore_full_interrupt_context fuel) (fun _ c' => geta 0 c' = b) c.
Proof using Hbase.
  intros Hf Hc Hl. pose proof (ex_window _ _ _ _ _ Hc) as [Hb Hbr].
  unfold restore_full_interrupt_context. apply (frames_back b ws mask 15); [done|done|lia|]. intros c1 c2 H2 M1 X2 T2 K0 K1.
  assert (sr c2 WINDOWBASE = b) as W2 by (rewrite (ld_window _ _ _ _ H2), Z.add_0_r; by apply Z.mod_small).
  apply wp_bind. unfold zero_regs_. do 3 istep. rewrite W2, X2, Hl, Z.sub_diag. istep. change (u32 0 =? 0) with true.
  apply wp_ret. set (c3 := seta 3 _ _).
  assert (sr c3 WINDOWBASE = b /\ geta 0 c3 = b /\ geta 1 c3 = base) as (W3 & G0 & G1).
  { unfold c3. look. split_and!; try done. by rewrite (geta_window b). }
  apply wp_bind. eapply wp_mono; [by apply (restore_special_ok b c3)|]. intros [] c4 (W4 & _ & _ & M4 & R4).
  eapply wp_mono; [apply (restore_window_ok b mask c4 W4 Hbr)|].
  - by rewrite (geta_window b), R4, <- (geta_window b) by (done || lia).
  - rewrite M4. change (mem c3) with (mem c2). rewrite (ld_mem _ _ _ _ H2), M1. apply Hc.
  - intros [] c5 [S5 M5 R5]. rewrite (geta_window b) by (done || by rewrite S5).
    rewrite R5, decide_False, R4, <- (geta_window b) by (done || lia). done.
Qed.

(** What comes after the clearing leaves the window where it is. *)
Lemma load4_window n c : wp (load4 n) (fun _ c' => sr c' = sr c) c.
Proof using Type. done. Qed.

Lemma rest_window c : wp (restore_special;; restore_window) (fun _ c' => sr c' WINDOWBASE = sr c WINDOWBASE) c.
Proof using Type.
  clear Hbase. apply wp_bind. unfold restore_special, restore_word. do 12 istep. set (c1 := sets LCOUNT _ _).
  assert (sr c1 WINDOWBASE = sr c WINDOWBASE) as W1 by (unfold c1; by look). clearbody c1.
  unfold restore_window. istep. set (c2 := seta 2 _ c1). assert (sr c2 = sr c1) as W2 by done. clearbody c2.
  assert (forall n (k : M cpu unit) c3, sr c3 = sr c1 -> (forall c4, sr c4 = sr c1 -> wp k (fun _ c' => sr c' = sr c1) c4) ->
    wp (load4 n;; k) (fun _ c' => sr c' = sr c1) c3) as Hl.
  { intros n k c3 E Hk. apply wp_bind. eapply wp_mono; [apply load4_window|]. intros [] c4 E4. apply Hk. by rewrite E4. }
  enough (wp (x ← bit_set 2 1; if (x : bool) then mret tt else load4 4;; x ← bit_set 2 2; if (x : bool) then mret tt else
    load4 8;; x ← bit_set 2 3; if (x : bool) then mret tt else load4 12) (fun _ c' => sr c' = sr c1) c2) as H.
  { eapply wp_mono; [exact H|]. intros [] c' E. by rewrite E. }
  istep. destruct (Z.testbit _ 1); [by apply wp_ret|]. apply Hl; [done|]. intros c3 E3.
  istep. destruct (Z.testbit _ 2); [by apply wp_ret|]. apply Hl; [done|]. intros c4 E4.
  istep. destruct (Z.testbit _ 3); [by apply wp_ret|]. eapply wp_mono; [apply load4_window|]. intros [] c5 E5. by rewrite E5.
Qed.

(** When [a2] of the new window is not its base, the frames are counted wrongly. *)
Lemma zero_regs_astray b n fuel c0 c :
  (16 <= fuel)%nat -> 0 <= b < 16 -> 0 <= n <= 13 -> frames_loaded b n c0 c -> sr c EXCSAVE1 mod 16 <> b -> 0 <= sr c EXCSAVE1 < 2 ^ 32 ->
  wp (zero_regs_ fuel) (fun _ c' => sr c' WINDOWBASE <> b) c.
Proof using Type.
  clear Hbase. intros Hf Hb Hn [H1 H2 H3 H4 H5] Hg Hgr. unfold zero_regs_. do 3 istep. rewrite H1.
  set (v := u32 ((b + (15 - n)) mod 16 - sr c EXCSAVE1)).
  assert (v mod 16 = (b + (15 - n) - sr c EXCSAVE1) mod 16) as Hv.
  { unfold v, wrapu. Z.to_euclidean_division_equations; lia. }
  istep. destruct (Z.eqb_spec v 0) as [E|E].
  { apply wp_ret. look. rewrite H1. Z.to_euclidean_division_equations; lia. }
  istep. replace (v .>> 0 .& Z.ones 4) with (v mod 16) by (rewrite Z.shiftr_0_r, Z.land_ones by lia; done).
  set (c1 := seta 3 (v mod 16) _).
  assert (sr c1 WINDOWBASE = (b + (15 - n)) mod 16 /\ geta 3 c1 = v mod 16) as [W1 G1] by (unfold c1; by look).
  clearbody c1. destruct (decide (v mod 16 = 0)) as [E0|N0].
  - destruct fuel as [|fuel]; [lia|]. cbn [zero_loop]. apply wp_bind. unfold zero_frame.
    destruct (rotated_window b (15 - n) (-1) c1 W1) as (Hw & _ & Hgt).
    apply wp_bind, wp_modify. set (c2 := sets WINDOWBASE _ c1) in *. clearbody c2.
    pose proof (Hgt 7) as G7. change (7 + 4 * -1) with 3 in G7. rewrite G1, E0 in G7.
    do 5 istep. istep. rewrite G7. change (1 <=? s32 (u32 (0 + -1))) with false. apply wp_ret. look. rewrite Hw.
    Z.to_euclidean_division_equations; lia.
  - assert (exists k, v mod 16 = Z.of_nat (S k)) as [k Hk] by (exists (Z.to_nat (v mod 16 - 1)); Z.to_euclidean_division_equations; lia).
    rewrite Hk in G1. eapply wp_mono; [apply (zero_loop_window b k fuel (15 - n) c1 W1 G1)|].
    + rewrite <- Hk. Z.to_euclidean_division_equations; lia.
    + assert (v mod 16 < 16) by (apply Z.mod_pos_bound; lia). lia.
    + intros [] c2 W2. rewrite W2, <- Hk, Hv. Z.to_euclidean_division_equations; lia.
Qed.

Lemma restore_astray b ws mask n fuel c :
  (16 <= fuel)%nat -> exiting b ws mask n c -> 0 <= n <= 13 -> leftover b c mod 16 <> b ->
  wp (restore_full_interrupt_context fuel) (fun _ c' => sr c' WINDOWBASE <> b) c.
Proof using Hbase.
  intros Hf Hc Hn Hl. pose proof (ex_window _ _ _ _ _ Hc) as [Hb Hbr].
  unfold restore_full_interrupt_context. apply (frames_back b ws mask n); [lia|done|lia|].
  intros c1 c2 H2 M1 X2 T2 K0 K1. apply wp_bind.
  eapply wp_mono; [apply (zero_regs_astray b n fuel c1 c2); try done; rewrite X2; [done|]|].
  - apply leftover_range; [done|apply Hc].
  - intros [] c3 W3. eapply wp_mono; [apply rest_window|]. intros [] c4 E. by rewrite E.
Qed.
End Restore.
