(* ===== verification/EntrySpec.v ===== *)
(** * From user code into a handler and back

    What the C handlers find in the frame, what user code finds in the processor afterwards,
    and the cases in which it finds something else. *)
From Stdlib Require Import ZArith Lia.
From stdpp Require Import base tactics numbers list.
From S2P Require Import Prelude Umem Task TaskSpec Syscall Interrupts Running RunningSpec Xtensa Entry EntrySave EntryRestore.

#[local] Opaque geta seta sets setm rel.

(** ** The frame as the C structure *)
Definition frame_of (base : Z) (m : Z -> Z) : task_regs := regs_of_bytes (m <$> seqZ base TASK_REGS_SIZE).

Lemma take_drop_bytes (m : Z -> Z) a n k i :
  (k + i <= n)%nat -> take i (drop k (m <$> seqZ a (Z.of_nat n))) = m <$> seqZ (a + Z.of_nat k) (Z.of_nat i).
Proof.
  intros H. apply list_eq. intros x. destruct (decide (x < i)%nat) as [Hx|Hx].
  - rewrite lookup_take_lt, lookup_drop, !list_lookup_fmap by done. rewrite !lookup_seqZ_lt by lia. cbn. do 2 f_equal. lia.
  - rewrite lookup_take_ge by lia. rewrite list_lookup_fmap, lookup_seqZ_ge by lia. done.
Qed.

Lemma frame_word base m i : (i < 72)%nat ->
  le_value (take 4 (drop (4 * i) (m <$> seqZ base TASK_REGS_SIZE))) = slot base m (Z.of_nat i).
Proof.
  intros Hi. change TASK_REGS_SIZE with (Z.of_nat 292). rewrite take_drop_bytes by lia.
  unfold slot, load_le. do 3 f_equal. lia.
Qed.

Lemma frame_half base m k : (k + 2 <= 292)%nat ->
  le_value (take 2 (drop k (m <$> seqZ base TASK_REGS_SIZE))) = half base m (Z.of_nat k).
Proof. intros Hk. change TASK_REGS_SIZE with (Z.of_nat 292). by rewrite take_drop_bytes by lia. Qed.

Lemma frame_of_eq base m :
  frame_of base m = TaskRegs ((fun i => slot base m (Z.of_nat i)) <$> seq 0 64) (slot base m 64) (slot base m 65)
    (slot base m 66) (slot base m 67) (slot base m 68) (slot base m 69) (slot base m 70) (slot base m 71)
    (half base m 288) (half base m 290).
Proof.
  unfold frame_of, regs_of_bytes. rewrite !frame_word by lia. rewrite !frame_half by lia. f_equal.
  apply list_fmap_ext. intros i x Hx. apply lookup_seq in Hx as [-> Hx]. apply frame_word. lia.
Qed.

Lemma frame_ar base m j : 0 <= j < 64 -> ar (frame_of base m) !! Z.to_nat j = Some (slot base m j).
Proof.
  intros Hj. rewrite frame_of_eq. cbn [ar]. rewrite list_lookup_fmap, lookup_seq_lt by lia. cbn.
  by rewrite Z2Nat.id by lia.
Qed.

Lemma wp_eq {S A} (m m' : M S A) Q s s' : m s = m' s' -> wp m' Q s' -> wp m Q s.
Proof. unfold wp. by intros ->. Qed.

Lemma call0_ok back routine Q c :
  wp routine (fun _ c' => geta 0 c' = back /\ Q tt c') (seta 0 back c) -> wp (call0 back routine) Q c.
Proof.
  intros H. unfold call0. apply wp_bind, wp_modify, wp_bind. eapply wp_mono; [exact H|]. intros [] c' [G HQ].
  istep. by rewrite G, Z.eqb_refl.
Qed.

(** Elsewhere than behind the call: nothing of the kernel. *)
Lemma call0_astray back routine c v :
  wp routine (fun _ c' => geta 0 c' = v) (seta 0 back c) -> v <> back -> exists c', call0 back routine c = Stop Fault c'.
Proof.
  intros H Hv. unfold wp in H. destruct (routine (seta 0 back c)) as [[] c'|w c'] eqn:E; [|done].
  exists c'. unfold call0. unfold_monad. rewrite E. rewrite (proj2 (Z.eqb_neq _ _)); [done|congruence].
Qed.

(** ** The vector *)
Section Vector.
Context (g_kernel_stacks g_fast_interrupts base b : Z).
Hypothesis (Hbase : 256 <= base < 2 ^ 32 - 292).

(** The processor at an exception of user code; the kernel's stack ends behind [base]. *)
Record faulting (c : cpu) : Prop := {
  fa_window : sr c WINDOWBASE = b;
  fa_base : 0 <= b < 16;
  fa_start : 0 <= sr c WINDOWSTART < 2 ^ 16;
  fa_live : Z.testbit (sr c WINDOWSTART) b = true;
  fa_regs : regs_ok c;
  fa_special : srs_typed c;
  fa_stack : load_le 4 (u32 (4 * (sr c PRID .>> 13 .& 1) + u32 g_kernel_stacks)) (mem c) = base + 292;
  fa_cause : 0 <= sr c EXCCAUSE < 64;
  fa_table : 0 <= g_fast_interrupts < 2 ^ 32 - 256 /\
    (g_fast_interrupts + 256 <= base \/ base + 292 <= g_fast_interrupts);
}.

Record entered (c c' : cpu) : Prop := {
  en_regs : forall j, 4 <= j < 64 -> rel b c' j = rel b c j;
  en_first : forall j, 0 <= j < 4 -> slot base (mem c') j = rel b c j;
  en_slots : forall j, 4 <= j < 72 -> slot base (mem c') j = slot base (mem c) j;
  en_halves : forall off, 288 <= off -> half base (mem c') off = half base (mem c) off;
  en_special : forall s, s <> EXCSAVE1 -> s <> DEPC -> sr c' s = sr c s;
  en_typed : srs_typed c';
  en_ok : regs_ok c';
  en_pointer : geta 1 c' = base;
}.

Lemma vector_ok c jx Q :
  faulting c ->
  0 <= load_le 4 (g_fast_interrupts + 4 * sr c EXCCAUSE) (mem c) < 2 ^ 32 ->
  (forall c', entered c c' -> wp (jx (load_le 4 (g_fast_interrupts + 4 * sr c EXCCAUSE) (mem c))) Q c') ->
  wp (user_exception g_kernel_stacks g_fast_interrupts jx) Q c.
Proof using Hbase.
  intros [Hw Hb Hs Hl Hty Hsty Hst Hcause [Htab Hdis]] Hentry Hk. unfold user_exception, TASK_REGS_SIZE, TASK_REGS_AR.
  assert (sr c WINDOWBASE = (b + 0) mod 16) as Hf by (rewrite Z.mod_small by lia; lia).
  assert (forall i, geta i c = rel b c i) as Hg by (intros i; by apply geta_window).
  assert (forall i, u32 (rel b c i) = rel b c i) as Hu by (intros i; by apply wrapu_small, rel_range).
  do 6 istep. change (Z.ones 1) with 1. istep.
  rewrite (Z.add_0_r (u32 _)), (wrapu_small 32 (u32 _)), Hst by (by apply wrapu_range). istep. replace (u32 (base + 292 + Z.opp 292)) with base by (rewrite wrapu_small; lia).
  cbn [sr_width]. rewrite !Hg, !Hu. do 6 (istep; rewrite ?(wrapu_small 32 (base + _)) by lia).
  rewrite !Hg. set (m := store_le 4 (base + 3 * 4) _ _).
  assert (stored base (fun j => 0 <= j < 0 + 4) (rel b c) (mem c) m) as (M1 & M2 & M3).
  { apply (stored_four base 0 (rel b c) (mem c)); [lia|]. intros j. by apply rel_range. }
  assert (load_le 4 (g_fast_interrupts + 4 * sr c EXCCAUSE) m = load_le 4 (g_fast_interrupts + 4 * sr c EXCCAUSE) (mem c)) as Hm.
  { unfold m. by rewrite !load_store_ne by lia. }
  clearbody m. do 5 istep. rewrite (wrapu_small 32 g_fast_interrupts), Z.add_0_r by lia.
  replace (u32 (u32 (4 * sr c EXCCAUSE + g_fast_interrupts))) with (g_fast_interrupts + 4 * sr c EXCCAUSE)
    by (rewrite (wrapu_small 32 (4 * _ + _)), wrapu_small; lia).
  rewrite Hm. apply Hk. constructor; look; try done.
  - intros j Hj. lookrel b 0.
  - intros j Hj. apply M1; lia.
  - intros j Hj. apply M2; lia.
  - intros s N1 N2. by look.
  - intros s. destruct (decide (s = EXCSAVE1)) as [->|N1]; [look; by apply rel_range|].
    destruct (decide (s = DEPC)) as [->|N2]; [look; by apply rel_range|]. look. apply Hsty.
  - apply (regs_ok_rel b). intros j Hj. pose proof (rel_range b c j Hty).
    destruct (decide (j = 0)) as [->|]; [by lookrel b 0|]. destruct (decide (j = 1)) as [->|]; [lookrel b 0; lia|].
    destruct (decide (j = 2)) as [->|]; [lookrel b 0; lia|]. by lookrel b 0.
Qed.

Lemma entered_interrupted c c' :
  faulting c -> entered c c' -> interrupted base b (window_mask (sr c WINDOWSTART) b) c'.
Proof using Type.
  clear Hbase. intros Hc Hc'. pose proof (fun s => en_special _ _ Hc' s) as Hs.
  constructor; rewrite ?Hs by done; try apply Hc; try apply Hc'. done.
Qed.
End Vector.

(** ** The way in *)
Section Entry.
Context (g_kernel_stacks g_fast_interrupts base b PIDCTRL_PID_CONFIRM : Z) (back : Z -> Z) (fuel : nat).
Hypothesis (Hbase : 256 <= base < 2 ^ 32 - 292) (Hfuel : (16 <= fuel)%nat)
  (Hback : forall i, 16 <= back i < 2 ^ 32)
  (Hpid : 0 <= PIDCTRL_PID_CONFIRM < 2 ^ 32 - 4 /\
    (PIDCTRL_PID_CONFIRM + 4 <= base \/ base + 292 <= PIDCTRL_PID_CONFIRM)).

Abbreviation enter := (enter back fuel).
Abbreviation leave := (leave PIDCTRL_PID_CONFIRM back fuel).
Abbreviation user_exception := (user_exception g_kernel_stacks g_fast_interrupts).
Abbreviation faulting := (faulting g_kernel_stacks g_fast_interrupts base b).
Abbreviation mask_of c := (window_mask (sr c WINDOWSTART) b).

(** The frame that the code [c] leaves: words of frames that are not live are what was there. *)
Definition user_frame (c : cpu) : task_regs :=
  TaskRegs ((fun i => if decide (live (mask_of c) (Z.of_nat i)) then rel b c (Z.of_nat i)
                      else slot base (mem c) (Z.of_nat i)) <$> seq 0 64)
    (sr c SAR) (sr c LBEG) (sr c LEND) (sr c LCOUNT) (sr c EPC1) (sr c PS) b (sr c WINDOWSTART) (mask_of c)
    (if decide (next_frame (mask_of c) < 16) then 16 - next_frame (mask_of c) else half base (mem c) 290).

(** What a handler is called with. *)
Record called (r : task_regs) (c : cpu) : Prop := {
  cd_window : sr c WINDOWBASE = b;
  cd_start : sr c WINDOWSTART = 1 .<< b;
  cd_mode : sr c PS = 0x4000F;
  cd_argument : geta 6 c = base;
  cd_pointer : geta 1 c = base;
  cd_frame : frame_of base (mem c) = r;
}.

Lemma saved_frame c c' c3 :
  faulting c -> entered base b c c' -> saved base b (mask_of c) (seta 0 (back 0) c') c3 ->
  frame_of base (mem c3) = user_frame c.
Proof using Type.
  clear Hbase Hfuel Hback Hpid. intros Hc Hc' Hs. rewrite frame_of_eq. unfold user_frame.
  assert (sr c' WINDOWBASE = (b + 0) mod 16) as Hf.
  { rewrite (en_special _ _ _ _ Hc') by done. rewrite (fa_window _ _ _ _ _ Hc), Z.add_0_r. symmetry.
    apply Z.mod_small, Hc. }
  pose proof (fun s j H => sv_special _ _ _ _ _ Hs s j H) as Hsp.
  assert (forall s, s <> EXCSAVE1 -> s <> DEPC -> sr (seta 0 (back 0) c') s = sr c s) as He
    by (intros s N1 N2; rewrite sr_seta; by apply (en_special _ _ _ _ Hc')).
  rewrite (Hsp SAR 64), (Hsp LBEG 65), (Hsp LEND 66), (Hsp LCOUNT 67), (Hsp EPC1 68), (Hsp PS 69), (Hsp WINDOWBASE 70),
    (Hsp WINDOWSTART 71) by (unfold special_slots; rewrite !elem_of_cons; naive_solver).
  rewrite !He by done. rewrite (fa_window _ _ _ _ _ Hc), (sv_mask _ _ _ _ _ Hs), (sv_size _ _ _ _ _ Hs).
  rewrite mem_seta, (en_halves _ _ _ _ Hc') by lia. f_equal.
  apply list_fmap_ext. intros i x Hx. apply lookup_seq in Hx as [-> Hi].
  destruct (decide (Z.of_nat (0 + i) < 4)) as [H4|H4].
  - rewrite (sv_first _ _ _ _ _ Hs), mem_seta, (en_first _ _ _ _ Hc') by lia.
    rewrite decide_True; [done|]. unfold live. lia.
  - rewrite (sv_regs _ _ _ _ _ Hs) by lia. rewrite mem_seta, (en_slots _ _ _ _ Hc') by lia.
    case_decide; [|done]. lookrel b 0. by apply Hc'; lia.
Qed.
Lemma enter_ok c c' handler Q :
  faulting c -> entered base b c c' -> (forall c3, called (user_frame c) c3 -> wp handler Q c3) -> wp (enter handler) Q c'.
Proof using Hbase Hfuel Hback.
  intros Hc Hc' Hk. pose proof (entered_interrupted _ _ _ _ c c' Hc Hc') as Hi. pose proof (Hback 0) as H0.
  pose proof (it_window _ _ _ _ Hi) as Hw. pose proof (it_base _ _ _ _ Hi) as Hb.
  assert (sr c' WINDOWBASE = (b + 0) mod 16) as Hf by (rewrite Z.add_0_r, Z.mod_small by lia; exact Hw).
  assert (interrupted base b (mask_of c) (seta 0 (back 0) c')) as Hi0.
  { constructor; look; try apply Hi. apply (regs_ok_rel b). intros j Hj.
    pose proof (rel_range b c' j (it_regs _ _ _ _ Hi)). destruct (decide (j = 0)) as [->|]; [lookrel b 0; lia|].
    by lookrel b 0. }
  unfold Entry.enter. apply wp_bind, call0_ok. eapply wp_mono; [apply (save_ok base Hbase b (mask_of c)); [lia|exact Hi0]|].
  intros [] c3 Hs. pose proof (saved_frame c c' c3 Hc Hc' Hs) as Hfr. destruct Hs as [W3 T3 K3 _ _ _ _ _].
  assert (forall i, 0 <= i < 2 -> geta i c3 = geta i (seta 0 (back 0) c')) as G3.
  { intros i Hi'. rewrite (geta_window b i c3), K3 by done. symmetry. by apply geta_window. }
  split; [rewrite G3 by lia; look; done|].
  apply wp_bind, call0_ok. unfold enable_kernel_exceptions. do 2 istep. split; [done|].
  istep. apply Hk. constructor; look; try done.
  - rewrite G3 by lia. look. apply Hi.
  - rewrite G3 by lia. look. apply Hi.
Qed.

(** ** The way out *)

(** What a C function leaves behind: registers of the window that are its caller's, its
    caller's stack, and a frame. *)
Record handled (r : task_regs) (c : cpu) : Prop := {
  hd_window : 0 <= sr c WINDOWBASE < 16;
  hd_regs : regs_ok c;
  hd_pointer : geta 1 c = base;
  hd_frame : frame_of base (mem c) = r;
}.

(** A frame that can be restored. *)
Record restorable (r : task_regs) : Prop := {
  rs_sar : 0 <= sar r < 64;
  rs_words : Forall (fun v => 0 <= v < 2 ^ 32) [lbeg r; lend r; lcount r; Task.pc r; ps r];
  rs_window : 0 <= windowbase r < 16;
  rs_start : 0 <= windowstart r < 2 ^ 16;
  rs_size : 0 <= windowsize r;
}.

(** The registers at the exit, counted from the task's window. *)
Definition exit_reg (r : task_regs) (j : Z) : Z :=
  if decide (j < 4) then ar r !!! Z.to_nat j
  else restored (windowmask r) (windowsize r) (fun j => ar r !!! Z.to_nat j) j.

(** The processor back in the code that [r] describes, going on at [next]. *)
Record exited (r : task_regs) (next : Z) (c : cpu) : Prop := {
  ex_pc : next = Task.pc r;
  ex_wb : sr c WINDOWBASE = windowbase r;
  ex_ws : sr c WINDOWSTART = windowstart r;
  ex_sar : sr c SAR = sar r;
  ex_loop : sr c LBEG = lbeg r /\ sr c LEND = lend r /\ sr c LCOUNT = lcount r;
  ex_ps : sr c PS = ps r .& .~ 16;
  ex_ar : forall j, 0 <= j < 64 -> rel (windowbase r) c j = exit_reg r j;
}.

Lemma handled_seta r n v c :
  0 <= n < 16 -> n <> 1 -> 0 <= v < 2 ^ 32 -> handled r c -> handled r (seta n v c).
Proof using Type.
  clear Hbase Hfuel Hback Hpid. intros Hn N1 Hv [H1 H2 H3 H4]. constructor; look; try done.
  by apply regs_ok_seta.
Qed.
Lemma handled_sets r s v c : s <> WINDOWBASE -> handled r c -> handled r (sets s v c).
Proof using Type. intros N [H1 H2 H3 H4]. constructor; look; done. Qed.

Lemma leftover_seta d n v c :
  0 <= d < 16 -> 0 <= sr c WINDOWBASE < 16 -> 0 <= n < 4 -> leftover d (seta n v c) = leftover d c.
Proof using Type.
  clear Hbase Hfuel Hback Hpid. intros Hd Hw Hn. unfold leftover. look. case_decide as E; [done|].
  with_strategy transparent [seta] (cbn [seta aregs]). apply upd_ne. unfold ix. intros H. apply E.
  rewrite !Z.mod_small in H by lia. lia.
Qed.

Lemma handled_exiting r c :
  handled r c -> restorable r -> exiting base (windowbase r) (windowstart r) (windowmask r) (windowsize r) c.
Proof using Type.
  clear Hbase Hfuel Hback Hpid. intros [H1 H2 H3 H4] [_ _ Hw Hs _].
  rewrite frame_of_eq in H4. rewrite <- H4 in *. cbn [windowbase windowstart windowmask windowsize] in *.
  constructor; first [done | split; [done | lia]].
Qed.

Lemma frame_slots r m :
  frame_of base m = r -> forall j, 0 <= j < 64 -> slot base m j = ar r !!! Z.to_nat j.
Proof using Type. intros <- j Hj. symmetry. by apply list_lookup_total_correct, frame_ar. Qed.

(** What the exit loads into a special register. *)
Definition special_of (r : task_regs) (s : special) : Z :=
  match s with
  | SAR => sar r | LBEG => lbeg r | LEND => lend r | LCOUNT => lcount r | EPC1 => Task.pc r | PS => ps r
  | WINDOWBASE => windowbase r | WINDOWSTART => windowstart r
  | _ => 0
  end.

Lemma frame_specials r m s j :
  frame_of base m = r -> restorable r -> (s, j) ∈ special_slots -> sr_width s (slot base m j) = special_of r s.
Proof using Type.
  clear Hbase Hfuel Hback Hpid. intros Hr [Hsar Hty Hw Hs _]. rewrite !Forall_cons in Hty. rewrite frame_of_eq in Hr. rewrite <- Hr in *.
  cbn [sar lbeg lend lcount Task.pc ps windowbase windowstart] in *. unfold special_slots. intros Hj.
  repeat (apply elem_of_cons in Hj as [Hj|Hj]; [injection Hj as -> ->;
    cbn [sr_width special_of sar lbeg lend lcount Task.pc ps windowbase windowstart];
    (apply wrapu_small || apply Z.mod_small); lia|]).
  by apply not_elem_of_nil in Hj.
Qed.

Lemma in_special_slots r m s :
  frame_of base m = r -> restorable r -> s ∈ special_slots.*1 ->
  exists j, (s, j) ∈ special_slots /\ sr_width s (slot base m j) = special_of r s.
Proof using Type.
  intros Hm Hr ((s' & j) & -> & Hs)%list_elem_of_fmap. exists j. split; [done|]. by apply frame_specials.
Qed.

(** The last instructions: the first four registers, from the frame. *)
Abbreviation go_back :=
  (movi 0 PIDCTRL_PID_CONFIRM;; movi 2 1;; s32i 2 0 0;; l32i 0 sp (TASK_REGS_AR 0);; l32i 2 sp (TASK_REGS_AR 2);;
   l32i 3 sp (TASK_REGS_AR 3);; l32i 1 sp (TASK_REGS_AR 1);; rfe).

Lemma last_ok d c :
  sr c WINDOWBASE = d -> 0 <= d < 16 -> geta 1 c = base ->
  wp go_back
    (fun next c' => next = sr c EPC1 /\ sr c' PS = sr c PS .& .~ 16 /\ (forall s, s <> PS -> sr c' s = sr c s) /\
      forall j, 0 <= j < 64 -> rel d c' j = if decide (j < 4) then slot base (mem c) j else rel d c j) c.
Proof using Hbase Hpid.
  clear Hfuel Hback back. intros Hw Hd Ha1. unfold TASK_REGS_AR, rfe.
  assert (sr c WINDOWBASE = (d + 0) mod 16) as Hf by (rewrite Z.add_0_r, Z.mod_small by lia; exact Hw).
  do 3 istep. rewrite (wrapu_small 32 PIDCTRL_PID_CONFIRM), Z.add_0_r, (wrapu_small 32 PIDCTRL_PID_CONFIRM) by lia.
  set (m := store_le 4 PIDCTRL_PID_CONFIRM _ _).
  assert (forall i, 0 <= i < 4 -> load_le 4 (base + i * 4) m = slot base (mem c) i) as Hm.
  { intros i Hi. unfold m, slot. rewrite load_store_ne by lia. do 2 f_equal. lia. }
  clearbody m. do 4 (istep; rewrite ?Ha1, ?(wrapu_small 32 (base + _)), ?Hm by lia).
  istep. istep. split_and!; [done|done|intros s N; by look|].
  intros j Hj. destruct (decide (j < 4)) as [Hj4|Hj4]; [|lookrel d 0].
  assert (j = 0 \/ j = 1 \/ j = 2 \/ j = 3) as [->|[->|[->| ->]]] by lia; lookrel d 0.
Qed.

(** The registers may be anything. *)
Lemma last_window c : wp go_back (fun _ c' => sr c' WINDOWBASE = sr c WINDOWBASE) c.
Proof using Type. clear. unfold TASK_REGS_AR, rfe. do 9 istep. done. Qed.

(** Up to the routine that restores. *)
Lemma leave_begins r c :
  handled r c -> restorable r ->
  exists c1, handled r c1 /\ geta 0 c1 = back 3 /\ leftover (windowbase r) c1 = leftover (windowbase r) c /\
    leave c = ((restore_full_interrupt_context fuel;; to ← gets (geta 0);
                if to =? back 3 then mret tt else stop_with Fault);; go_back) c1.
Proof using Hback.
  clear Hbase Hfuel Hpid. intros Hc Hr. pose proof (Hback 2) as B2. pose proof (Hback 3) as B3.
  assert (0 <= windowbase r < 16) as Hb by apply (handled_exiting r c Hc Hr). pose proof (hd_window _ _ Hc) as Hw.
  exists (seta 0 (back 3) (sets PS 0x1F (seta 2 0x1F (seta 0 (back 2) c)))). split_and!; [|by look| |].
  - by repeat first [apply handled_sets; [done|]|apply handled_seta; [lia..|]].
  - rewrite leftover_seta by (look; lia).
    change (leftover (windowbase r) (sets PS ?v ?c)) with (leftover (windowbase r) c). by rewrite !leftover_seta by (look; lia).
  - assert (wp (call0 (back 2) disable_kernel_exceptions)
      (fun _ c' => c' = sets PS 0x1F (seta 2 0x1F (seta 0 (back 2) c))) c) as ([] & c1 & E & ->)%wp_ok.
    { apply call0_ok. unfold disable_kernel_exceptions. by do 2 istep. }
    unfold Entry.leave. by rewrite (bind_ok _ _ _ _ _ E).
Qed.

Lemma leave_ok r c :
  handled r c -> restorable r -> windowsize r <= 14 -> leftover (windowbase r) c mod 16 = windowbase r ->
  wp leave (exited r) c.
Proof using Hbase Hfuel Hback Hpid.
  intros Hc Hr Hn Hl. pose proof (handled_exiting r c Hc Hr) as He. pose proof (ex_window _ _ _ _ _ _ He) as [_ Hb].
  destruct (leave_begins r c Hc Hr) as (c1 & Hc1 & G1 & Hl1 & E). rewrite <- Hl1 in Hl.
  apply (wp_eq _ _ _ _ _ E), wp_bind, wp_bind.
  eapply wp_mono; [apply (restore_ok base Hbase (windowbase r) (windowstart r) (windowmask r) (windowsize r));
    [lia|by apply handled_exiting|split; [apply Hr|done]|done]|].
  intros [] c2 (W2 & T2 & S2 & M2 & G20 & G21 & R2). istep. rewrite G20, G1, Z.eqb_refl. apply wp_ret.
  pose proof (hd_frame _ _ Hc1 : frame_of base (mem c1) = r) as Hm.
  assert (forall s, s ∈ special_slots.*1 -> s <> WINDOWBASE -> s <> WINDOWSTART -> sr c2 s = special_of r s) as E2.
  { intros s Hs N1 N2. destruct (in_special_slots r (mem c1) s Hm Hr Hs) as (j & Hj & E'). by rewrite (S2 s j). }
  eapply wp_mono; [by apply (last_ok (windowbase r))|]. intros next c3 (-> & P3 & S3 & R3).
  constructor; rewrite ?P3, ?S3 by done; try done; try by rewrite E2 by (done || compute_done).
  - by rewrite !E2 by (done || compute_done).
  - intros j Hj. rewrite R3, M2 by done. unfold exit_reg. case_decide; [by apply frame_slots|].
    rewrite R2 by lia. unfold restored. case_decide; [by apply frame_slots|done].
Qed.

(** *** Where the exit goes wrong *)

(** With 15 frames to load, the way back out of the routine is lost. *)
Lemma leave_loses_return r c :
  handled r c -> restorable r -> windowsize r = 15 -> leftover (windowbase r) c = windowbase r ->
  exists c', leave c = Stop Fault c'.
Proof using Hbase Hfuel Hback.
  clear Hpid. intros Hc Hr Hn Hl. pose proof (Hback 3) as B3.
  destruct (leave_begins r c Hc Hr) as (c1 & Hc1 & G1 & Hl1 & E). pose proof (handled_exiting r c1 Hc1 Hr) as He.
  pose proof (ex_window _ _ _ _ _ _ He) as [_ Hb]. rewrite Hn in He.
  assert (wp (restore_full_interrupt_context fuel) (fun _ c' => geta 0 c' = windowbase r) c1) as ([] & c2 & E2 & G2)%wp_ok.
  { apply (restore_loses_return base Hbase _ (windowstart r) (windowmask r)); [lia|done|congruence]. }
  exists c2. rewrite E. unfold mbind, M_bind. rewrite E2. unfold gets. rewrite G2, (proj2 (Z.eqb_neq _ _)) by lia. done.
Qed.

(** When the frames are counted wrongly, the window is not the task's. *)
Lemma leave_astray r c :
  handled r c -> restorable r -> windowsize r <= 13 -> leftover (windowbase r) c mod 16 <> windowbase r ->
  match leave c with
  | Ok _ c' => sr c' WINDOWBASE <> windowbase r
  | Stop w _ => w = Fault
  end.
Proof using Hbase Hfuel Hback.
  clear Hpid. intros Hc Hr Hn Hl. destruct (leave_begins r c Hc Hr) as (c1 & Hc1 & G1 & Hl1 & E). rewrite <- Hl1 in Hl.
  pose proof (handled_exiting r c1 Hc1 Hr) as He.
  assert (wp (restore_full_interrupt_context fuel) (fun _ c' => sr c' WINDOWBASE <> windowbase r) c1)
    as ([] & c2 & E2 & W2)%wp_ok.
  { eapply (restore_astray base Hbase _ _ _ _ _ _ Hfuel He); [|done]. split; [apply Hr|done]. }
  assert (leave c = ((if geta 0 c2 =? back 3 then mret tt else stop_with Fault);; go_back) c2) as ->.
  { rewrite E. unfold mbind, M_bind. by rewrite E2. }
  destruct (_ =? _); [|done]. pose proof (last_window c2) as (next & c3 & E3 & W3)%wp_ok.
  rewrite (bind_ok (mret tt) _ tt c2 c2) by done. rewrite E3. by rewrite W3.
Qed.
End Entry.
