(* ===== verification/EntryThm.v ===== *)
(** * What user code gets from an exception

    The whole way: the vector, the entry for the cause, the C function and the exit. The
    cases in which user code goes on as the frame says, and those in which it does not. *)
From Stdlib Require Import ZArith Lia.
From stdpp Require Import base tactics numbers list.
From S2P Require Import Prelude Umem Task TaskSpec Syscall Interrupts Running RunningSpec Xtensa Entry EntrySave EntryRestore EntrySpec.

#[local] Opaque geta seta sets setm rel.

(** The next instruction after a system call: the loop option of the processor sees only the
    instructions that it runs itself. *)
Definition behind_syscall (c : cpu) : cpu :=
  let next := u32 (sr c EPC1 + 3) in
  if bool_decide (next = sr c LEND /\ sr c LCOUNT <> 0)
  then sets EPC1 (sr c LBEG) (sets LCOUNT (sr c LCOUNT - 1) c)
  else sets EPC1 next c.

(** Only special registers change. *)
Lemma behind_same b c :
  sr (behind_syscall c) WINDOWSTART = sr c WINDOWSTART /\ forall j, rel b (behind_syscall c) j = rel b c j.
Proof. unfold behind_syscall. case_bool_decide; split; try intros j; by look. Qed.

(** Where the code [c] stands for the entry [e]. *)
Definition stopped_at (e : entry) (c : cpu) : cpu :=
  match e with Interrupts.syscall_entry => behind_syscall c | _ => c end.

(** The registers of a new task are those of its frame. *)
Lemma initial_exit task_trampoline entry j :
  0 <= j < 64 ->
  exit_reg (initial_regs task_trampoline entry) j =
  if j =? 1 then 0x3FFDF000 else if j =? 2 then u32 entry else 0.
Proof.
  intros Hj. assert (ar (initial_regs task_trampoline entry) !!! Z.to_nat j =
    if j =? 1 then 0x3FFDF000 else if j =? 2 then u32 entry else 0) as E.
  { cbn [initial_regs ar]. destruct (Z.eqb_spec j 1) as [->|N1]; [done|]. rewrite list_lookup_total_insert_ne by lia.
    destruct (Z.eqb_spec j 2) as [->|N2]; [done|]. rewrite list_lookup_total_insert_ne by lia.
    apply list_lookup_total_correct, lookup_replicate. split; [done|lia]. }
  unfold exit_reg. case_decide; [done|]. unfold restored. case_decide; [done|].
  rewrite (proj2 (Z.eqb_neq j 1)), (proj2 (Z.eqb_neq j 2)) by lia. done.
Qed.

Section Exception.
Context (g_kernel_stacks g_fast_interrupts base b PIDCTRL_PID_CONFIRM : Z) (back : Z -> Z) (fuel : nat).
Context (addr : entry -> Z) (handler : entry -> M cpu unit) (jx : Z -> M cpu Z).
Hypothesis (Hbase : 256 <= base < 2 ^ 32 - 292) (Hfuel : (16 <= fuel)%nat)
  (Hback : forall i, 16 <= back i < 2 ^ 32)
  (Hpid : 0 <= PIDCTRL_PID_CONFIRM < 2 ^ 32 - 4 /\
    (PIDCTRL_PID_CONFIRM + 4 <= base \/ base + 292 <= PIDCTRL_PID_CONFIRM))
  (Haddr : forall e, 0 <= addr e < 2 ^ 32)
  (Hjx : forall e, jx (addr e) = entry_code PIDCTRL_PID_CONFIRM back fuel handler e).

Abbreviation user_exception := (user_exception g_kernel_stacks g_fast_interrupts jx).
Abbreviation faulting := (faulting g_kernel_stacks g_fast_interrupts base b).
Abbreviation user_frame := (user_frame base b).
Abbreviation entered := (entered base b).
Abbreviation leave := (leave PIDCTRL_PID_CONFIRM back fuel).

(** The table of the kernel sends the cause to [e]. *)
Definition vectored (c : cpu) (e : entry) : Prop :=
  Interrupts.g_fast_interrupts !! Z.to_nat (sr c EXCCAUSE) = Some e /\
  load_le 4 (g_fast_interrupts + 4 * sr c EXCCAUSE) (mem c) = addr e.

(** ** The next instruction *)
Lemma faulting_sets s v c :
  faulting c -> 0 <= v < 2 ^ 32 -> s <> WINDOWBASE -> s <> WINDOWSTART -> s <> PRID -> s <> EXCCAUSE ->
  faulting (sets s v c).
Proof using Type.
  clear Hbase Hfuel Hback Hpid Haddr Hjx back jx. intros [] Hv N1 N2 N3 N4. constructor; look; try done.
  intros s'. rewrite sr_sets. case_decide; [done|]. auto.
Qed.

Lemma entered_sets s v c c' :
  entered c c' -> 0 <= v < 2 ^ 32 -> s <> WINDOWBASE -> entered (sets s v c) (sets s v c').
Proof using Type.
  clear Hbase Hfuel Hback Hpid Haddr Hjx back jx. intros [H1 H2 H3 H4 H5 H6 H7 H8] Hv N. constructor; try done.
  - intros s' N1 N2. rewrite !sr_sets. case_decide; [done|]. by apply H5.
  - intros s'. rewrite sr_sets. case_decide; [done|]. by apply H6.
  - by look.
Qed.

Lemma entered_seta n v c c' :
  entered c c' -> n = 0 \/ n = 2 -> 0 <= v < 2 ^ 32 -> sr c' WINDOWBASE = (b + 0) mod 16 -> entered c (seta n v c').
Proof using Type.
  clear Hbase Hfuel Hback Hpid Haddr Hjx back jx. intros [H1 H2 H3 H4 H5 H6 H7 H8] Hn Hv Hf. constructor; try done.
  - intros j Hj. destruct Hn as [-> | ->]; lookrel b 0; by apply H1.
  - by apply regs_ok_seta.
  - destruct Hn as [-> | ->]; by look.
Qed.

Lemma skip_ok c c' :
  faulting c -> entered c c' -> wp skip_syscall (fun _ c2 => entered (behind_syscall c) c2) c'.
Proof using Type.
  clear Hbase Hfuel Hback Hpid Haddr Hjx back jx. intros Hc Hc'. pose proof (fa_special _ _ _ _ _ Hc) as Hs.
  assert (forall s, s <> EXCSAVE1 -> s <> DEPC -> sr c' s = sr c s) as E by apply Hc'.
  assert (sr c' WINDOWBASE = (b + 0) mod 16) as Hf.
  { rewrite E by done. rewrite (fa_window _ _ _ _ _ Hc), Z.add_0_r. symmetry. apply Z.mod_small, Hc. }
  assert (0 <= u32 (sr c EPC1 + 3) < 2 ^ 32) as Hn by by apply wrapu_range.
  pose proof (Hs LCOUNT) as HL. pose proof (Hs LBEG) as HB. pose proof (Hs LEND) as HE. pose proof (Hs EPC1) as HP.
  unfold skip_syscall, behind_syscall. do 4 istep. rewrite !E by done.
  assert (forall c1 d n v, entered d c1 -> n = 0 \/ n = 2 -> 0 <= v < 2 ^ 32 -> sr c1 WINDOWBASE = (b + 0) mod 16 ->
    entered d (seta n v c1)) as Ha by (intros; by apply entered_seta).
  destruct (Z.eqb_spec (u32 (sr c EPC1 + 3)) (sr c LEND)) as [El|Nl].
  - do 2 istep. rewrite E by done. destruct (Z.eqb_spec (sr c LCOUNT) 0) as [El'|Nl'].
    + rewrite bool_decide_false by tauto. apply wp_ret. istep. cbn [sr_width]. rewrite (wrapu_small 32 (u32 _)) by done.
      apply entered_sets; [|done..]. repeat (apply Ha; [|lia..|by look]). done.
    + rewrite bool_decide_true by tauto. do 4 istep. rewrite !E by done. cbn [sr_width].
      rewrite (wrapu_small 32 (sr c LBEG)), (wrapu_small 32 (u32 _)), (wrapu_small 32 (sr c LCOUNT + _)) by (done || by apply wrapu_range || lia).
      apply entered_sets; [|done..]. apply Ha; [|lia..|by look]. apply entered_sets; [|lia|done].
      repeat (apply Ha; [|lia..|by look]). done.
  - rewrite bool_decide_false by tauto. apply wp_bind, wp_ret. istep. cbn [sr_width]. rewrite (wrapu_small 32 (u32 _)) by done.
    apply entered_sets; [|done..]. repeat (apply Ha; [|lia..|by look]). done.
Qed.

Lemma faulting_behind c : faulting c -> faulting (behind_syscall c).
Proof using Type.
  clear Hbase Hfuel Hback Hpid Haddr Hjx back jx. intros Hc. pose proof (fa_special _ _ _ _ _ Hc) as Hs.
  pose proof (Hs LCOUNT) as HL. unfold behind_syscall. case_bool_decide as E.
  - repeat apply faulting_sets; try done. lia.
  - apply faulting_sets; try done. by apply wrapu_range.
Qed.


(** ** The way in *)
(** The vector and the entry are a prefix of the C function. *)
Lemma prefix_bind {A B C} (m : M cpu A) (f : A -> M cpu C) (g : A -> M cpu B) k c :
  (forall x c', f x c' = (g x ≫= k) c') -> (m ≫= f) c = ((m ≫= g) ≫= k) c.
Proof using Type. intros H. unfold mbind, M_bind in *. by destruct (m c). Qed.

Lemma vector_prefix gs gf k c : Entry.user_exception gs gf k c = (Entry.user_exception gs gf mret ≫= k) c.
Proof using Type. unfold Entry.user_exception. do 19 (apply prefix_bind; intros ? ?). done. Qed.

Lemma enter_prefix h c : enter back fuel h c = (enter back fuel (mret tt);; h) c.
Proof using Type. unfold enter. do 3 (apply prefix_bind; intros ? ?). done. Qed.

Lemma enters_frame c c' :
  faulting c -> entered c c' ->
  exists c3, called base b (user_frame c) c3 /\ forall h, (enter back fuel h;; leave) c' = (h;; leave) c3.
Proof using Hbase Hfuel Hback.
  intros Hc Hc'. assert (wp (enter back fuel (mret tt)) (fun _ c3 => called base b (user_frame c) c3) c') as ([] & c3 & E & H3)%wp_ok.
  { by eapply (enter_ok g_kernel_stacks g_fast_interrupts base b). }
  exists c3. split; [done|]. intros h. unfold mbind at 1 2, M_bind at 1 2. rewrite enter_prefix.
  by rewrite (bind_ok _ _ _ _ _ E).
Qed.

Lemma enters_at c e :
  faulting c -> vectored c e ->
  exists c3, called base b (user_frame (stopped_at e c)) c3 /\ user_exception c = (handler e;; leave) c3.
Proof using Hbase Hfuel Hback Haddr Hjx.
  intros Hc [Hv Hw].
  assert (wp (Entry.user_exception g_kernel_stacks g_fast_interrupts mret) (fun t c' => t = addr e /\ entered c c') c)
    as (t & c' & E & -> & Hc')%wp_ok.
  { apply (vector_ok g_kernel_stacks g_fast_interrupts base b Hbase); [done|by rewrite Hw|]. intros c' Hc'.
    by apply wp_ret. }
  rewrite vector_prefix, (bind_ok _ _ _ _ _ E), Hjx. destruct e; cbn [entry_code stopped_at].
  - destruct (enters_frame c c' Hc Hc') as (c3 & H3 & E3). exists c3. split; [done|apply E3].
  - destruct (enters_frame c c' Hc Hc') as (c3 & H3 & E3). exists c3. split; [done|apply E3].
  - pose proof (skip_ok c c' Hc Hc') as ([] & c2 & E2 & H2)%wp_ok. unfold syscall_entry. rewrite (bind_ok _ _ _ _ _ E2).
    destruct (enters_frame _ c2 (faulting_behind c Hc) H2) as (c3 & H3 & E3). exists c3. split; [done|apply E3].
Qed.

(** The C function turns the frame [r] into [r']. *)
Definition turns (e : entry) (r r' : task_regs) : Prop :=
  forall c, called base b r c -> wp (handler e) (fun _ c' => handled base r' c') c.

(** The register that the exit takes for the window base (it reads [a2] after it has switched
    to the window [x] of the frame) agrees with it when the C function is back, or does not.
    Nothing in the entries sees to it: the register is whatever the code that ran last in that
    window left there. Only if the code that was stopped ran in the window [x] itself, nothing
    is switched, and it agrees. *)
Definition agrees (e : entry) (r : task_regs) (x : Z) : Prop :=
  forall c, called base b r c -> wp (handler e) (fun _ c' => leftover x c' mod 16 = x) c.
Definition disagrees (e : entry) (r : task_regs) (x : Z) : Prop :=
  forall c, called base b r c -> wp (handler e) (fun _ c' => leftover x c' mod 16 <> x) c.

Lemma wp_and {S A} (m : M S A) (P Q : A -> S -> Prop) s :
  wp m P s -> wp m Q s -> wp m (fun x s' => P x s' /\ Q x s') s.
Proof using Type. unfold wp. by destruct (m s). Qed.

Lemma agrees_same_window e r :
  0 <= b < 16 -> (forall c, called base b r c -> wp (handler e) (fun _ c' => sr c' WINDOWBASE = b) c) -> agrees e r b.
Proof using Type.
  clear Hbase Hfuel Hback Hpid Haddr Hjx jx. intros Hb H c Hc. eapply wp_mono; [by apply H|]. intros [] c' Hw.
  unfold leftover. rewrite decide_True by done. by apply Z.mod_small.
Qed.

(** C7: For every cause whose entry is in the kernel's table, the vector and the entry bring the
    processor, whatever window it was in and however many frames were live, to the C function
    of that entry with a pointer to the frame, in the kernel's mode and with a single live
    window; the frame holds the registers of the stopped code, for a system call with the
    next instruction, the end of a loop included. *)
Theorem exception_enters c e :
  faulting c -> vectored c e ->
  exists c3, called base b (user_frame (stopped_at e c)) c3 /\ user_exception c = (handler e;; leave) c3.
Proof using Hbase Hfuel Hback Haddr Hjx. apply enters_at. Qed.

Lemma exits_at c e r :
  faulting c -> vectored c e -> turns e (user_frame (stopped_at e c)) r ->
  agrees e (user_frame (stopped_at e c)) (windowbase r) -> restorable r -> windowsize r <= 14 ->
  wp user_exception (exited r) c.
Proof using Hbase Hfuel Hback Hpid Haddr Hjx.
  intros Hc Hv Hf Ha Hr Hn. destruct (enters_at c e Hc Hv) as (c3 & H3 & E). apply (wp_eq _ _ _ _ _ E), wp_bind.
  eapply wp_mono; [apply wp_and; [by apply Hf|by apply Ha]|]. intros [] c4 [H4 Hl].
  by apply (leave_ok base PIDCTRL_PID_CONFIRM back fuel Hbase Hfuel Hback Hpid).
Qed.

(** C8: When the C function leaves a frame that can be restored, with up to 14 spilled frames,
    and the leftover register happens to agree with its window base (as it does when the window
    base is the one that the kernel ran with), the exit ends and the processor is exactly as the
    frame says: every register, the window, the loop and shift registers, the mode, and the
    next instruction; what the frame does not say is zero. *)
Theorem exception_exits c e r :
  faulting c -> vectored c e -> turns e (user_frame (stopped_at e c)) r ->
  agrees e (user_frame (stopped_at e c)) (windowbase r) -> restorable r -> windowsize r <= 14 ->
  wp user_exception (exited r) c.
Proof using Hbase Hfuel Hback Hpid Haddr Hjx. apply exits_at. Qed.

(** ** Code that does not see the interrupt *)
Definition undisturbed (c c' : cpu) : Prop :=
  (forall j, 0 <= j < 64 -> live (window_mask (sr c WINDOWSTART) b) j -> rel b c' j = rel b c j) /\
  forall s, s ∈ [SAR; LBEG; LEND; LCOUNT; WINDOWBASE; WINDOWSTART] -> sr c' s = sr c s.
Abbreviation frames c := (next_frame (window_mask (sr c WINDOWSTART) b)).

Lemma live_restored mask size word j :
  4 <= j < 64 -> live mask j -> (next_frame mask < 16 -> size = 16 - next_frame mask) -> restored mask size word j = word j.
Proof using Type.
  clear. intros Hj Hl Hs. unfold restored. apply decide_True. destruct (next_frame_spec mask) as (Hk & _). unfold live in Hl. lia.
Qed.

Lemma user_ar c j :
  0 <= j < 64 -> live (window_mask (sr c WINDOWSTART) b) j -> ar (user_frame c) !!! Z.to_nat j = rel b c j.
Proof using Type.
  clear. intros Hj Hl. apply list_lookup_total_correct. cbn [user_frame ar].
  rewrite list_lookup_fmap, lookup_seq_lt by lia. cbn. rewrite Z2Nat.id by lia. by rewrite decide_True.
Qed.

(** The live registers after an exit from the frame of [c], whose first ones may be changed. *)
Lemma exited_live c r next c' j :
  exited r next c' -> windowbase r = b -> windowmask r = windowmask (user_frame c) -> windowsize r = windowsize (user_frame c) ->
  0 <= j < 64 -> live (window_mask (sr c WINDOWSTART) b) j -> rel b c' j = ar r !!! Z.to_nat j.
Proof using Type.
  clear. intros He Hb Hm Hn Hj Hl. rewrite <- Hb at 1. rewrite (ex_ar _ _ _ He) by done. unfold exit_reg.
  case_decide as H4; [done|]. rewrite Hm, Hn. rewrite live_restored; [done|lia|done|].
  intros Hk. cbn [user_frame windowsize windowmask] in *. by rewrite decide_True.
Qed.

Lemma exited_specials c r next c' :
  faulting c -> exited r next c' -> (forall s, special_of r s = special_of (user_frame c) s) ->
  forall s, s ∈ [SAR; LBEG; LEND; LCOUNT; WINDOWBASE; WINDOWSTART] -> sr c' s = sr c s.
Proof using Type.
  clear Hbase Hfuel Hback Hpid Haddr Hjx. intros Hc [_ E2 E3 E4 (E5 & E6 & E7) _ _] Hr s Hs.
  pose proof (fa_window _ _ _ _ _ Hc) as Hw. specialize (Hr s). rewrite !elem_of_cons in Hs.
  repeat destruct Hs as [->|Hs]; cbn [special_of user_frame sar lbeg lend lcount windowbase windowstart] in Hr; try congruence.
  by apply not_elem_of_nil in Hs.
Qed.

Lemma exited_undisturbed c next c' :
  faulting c -> exited (user_frame c) next c' -> undisturbed c c' /\ sr c' PS = sr c PS .& .~ 16 /\ next = sr c EPC1.
Proof using Type.
  clear Hbase Hfuel Hback Hpid Haddr Hjx. intros Hc He.
  split; [split|by destruct He].
  - intros j Hj Hl. rewrite (exited_live c (user_frame c) next c' j) by done. by apply user_ar.
  - by apply (exited_specials c (user_frame c) next).
Qed.

Lemma user_frame_restorable c :
  faulting c -> sr c SAR < 64 -> 0 <= windowsize (user_frame c) -> restorable (user_frame c).
Proof using Type.
  clear Hbase Hfuel Hback Hpid Haddr Hjx. intros Hc Hs Hn. pose proof (fa_special _ _ _ _ _ Hc) as Hty.
  constructor; cbn [user_frame sar windowbase windowstart Task.pc ps lbeg lend lcount]; try apply Hc; try done.
  - split; [apply Hty|done].
  - repeat (constructor; [apply Hty|]). constructor.
Qed.

Lemma user_frame_size c :
  2 <= frames c -> (frames c = 16 -> 0 <= half base (mem c) 290 <= 14) -> 0 <= windowsize (user_frame c) <= 14.
Proof using Type.
  clear. intros Hfr Hst. cbn [user_frame windowsize].
  destruct (next_frame_spec (window_mask (sr c WINDOWSTART) b)) as (Hr & _). case_decide; [lia|]. apply Hst. lia.
Qed.

(** The C function lets the frame be. *)
Definition keeps_frame (e : entry) : Prop :=
  forall r c, called base b r c -> wp (handler e) (fun _ c' => handled base r c' /\ sr c' WINDOWBASE = b) c.

(** C6: Code that is interrupted by an exception or interrupt whose C function leaves the frame as
    it is goes on at the same instruction with every live register of all its frames, its
    window and its loop and shift registers as they were, unless the oldest live frame is right
    above the current one or the number of frames, which is not written when no other is live,
    is out of range. *)
Theorem interrupt_roundtrip c e :
  faulting c -> vectored c e -> e <> Interrupts.syscall_entry -> keeps_frame e -> sr c SAR < 64 ->
  2 <= frames c -> (frames c = 16 -> 0 <= half base (mem c) 290 <= 14) ->
  wp user_exception (fun next c' => undisturbed c c' /\ sr c' PS = sr c PS .& .~ 16 /\ next = sr c EPC1) c.
Proof using Hbase Hfuel Hback Hpid Haddr Hjx.
  intros Hc Hv He Hk Hs Hfr Hst. destruct (enters_at c e Hc Hv) as (c3 & H3 & E). apply (wp_eq _ _ _ _ _ E), wp_bind.
  replace (stopped_at e c) with c in H3 by by destruct e.
  eapply wp_mono; [by apply Hk|]. intros [] c4 [H4 Hw].
  pose proof (user_frame_size c Hfr Hst) as Hn.
  eapply wp_mono.
  - apply (leave_ok base PIDCTRL_PID_CONFIRM back fuel Hbase Hfuel Hback Hpid (user_frame c)); [done| |lia|].
    + apply user_frame_restorable; [done|done|lia].
    + unfold leftover. cbn [user_frame windowbase]. rewrite decide_True by done. apply Z.mod_small, Hc.
  - intros next c5. by apply exited_undisturbed.
Qed.

(** ** A task that starts: the frame that create_task writes *)

(** The frame that create_task writes can be restored. *)
Lemma initial_restorable task_trampoline entry : restorable (initial_regs task_trampoline entry).
Proof using Type.
  clear. constructor; cbn [initial_regs sar windowbase windowstart windowsize lbeg lend lcount Task.pc ps]; try done.
  repeat (constructor; [by first [apply wrapu_range|done]|]). constructor.
Qed.

(** C39: The start of a task. Whether the exit from the frame that create_task writes starts the
    task depends on a register that nothing sets: the one that the exit takes for the window
    base, [a2] of the window 0, which holds what the code that ran last there left (see
    [leftover]; nothing depends on it if the entry was from the window 0 itself). If it agrees
    with the window base of the frame, 0, modulo 16, the exit starts the trampoline of the
    vDSO with the stack pointer at the end of the task's stack and the entry point as its
    argument, every other register zero, with no live window at all, and with interrupts on
    as soon as the mode is loaded. If it does not, the exit jumps astray, or ends in
    another window, which has none of these registers. *)
Theorem new_task_starts task_trampoline entry c :
  handled base (initial_regs task_trampoline entry) c ->
  (leftover 0 c mod 16 = 0 ->
   wp leave (fun next c' =>
     next = u32 task_trampoline /\ sr c' WINDOWBASE = 0 /\ sr c' WINDOWSTART = 0 /\ sr c' PS = 0x40020 /\
     forall j, 0 <= j < 64 -> rel 0 c' j = if j =? 1 then 0x3FFDF000 else if j =? 2 then u32 entry else 0) c) /\
  (leftover 0 c mod 16 <> 0 ->
   match leave c with
   | Ok _ c' => sr c' WINDOWBASE <> 0
   | Stop w _ => w = Fault
   end).
Proof using Hbase Hfuel Hback Hpid.
  intros Hc. pose proof (initial_restorable task_trampoline entry) as Hr. split; intros Hl.
  - eapply wp_mono.
    + by apply (leave_ok base PIDCTRL_PID_CONFIRM back fuel Hbase Hfuel Hback Hpid _ _ Hc).
    + intros next c' [-> E2 E3 _ _ E5 E6]. cbn in E2, E3, E5. split_and!; try done. intros j Hj.
      etransitivity; [by apply E6|by apply initial_exit].
  - exact (leave_astray base PIDCTRL_PID_CONFIRM back fuel Hbase Hfuel Hback _ c Hc Hr ltac:(done) Hl).
Qed.

(** ** Where the exit goes wrong *)

(** C37: If the oldest live frame is right above the current one, or the current one is the only
    one and the stack holds 15 where the number of frames belongs (which is not written in this
    case), the code never goes on: the exit's last routine takes the number of the window for its return address, because the
    window has come round to its own return register, and jumps there. *)
Theorem exit_loses_return c e :
  faulting c -> vectored c e -> e <> Interrupts.syscall_entry -> keeps_frame e -> sr c SAR < 64 ->
  frames c = 1 \/ frames c = 16 /\ half base (mem c) 290 = 15 -> exists c', user_exception c = Stop Fault c'.
Proof using Hbase Hfuel Hback Hpid Haddr Hjx.
  intros Hc Hv He Hk Hs Hfr. destruct (enters_at c e Hc Hv) as (c3 & H3 & E). rewrite E.
  replace (stopped_at e c) with c in H3 by by destruct e.
  destruct (proj1 (wp_ok _ _ _) (Hk _ _ H3)) as ([] & c4 & E4 & H4 & Hw). rewrite (bind_ok _ _ _ _ _ E4).
  assert (windowsize (user_frame c) = 15) as Hn by (cbn [user_frame windowsize]; destruct Hfr as [-> | [-> Hfr]]; done).
  apply (leave_loses_return base PIDCTRL_PID_CONFIRM back fuel Hbase Hfuel Hback (user_frame c)); [done| |done|].
  - by apply user_frame_restorable; rewrite ?Hn.
  - unfold leftover. by rewrite decide_True.
Qed.

Lemma astray_at c e r :
  faulting c -> vectored c e -> turns e (user_frame (stopped_at e c)) r ->
  disagrees e (user_frame (stopped_at e c)) (windowbase r) -> restorable r -> windowsize r <= 13 ->
  match user_exception c with
  | Ok _ c' => sr c' WINDOWBASE <> windowbase r
  | Stop w _ => w = Fault
  end.
Proof using Hbase Hfuel Hback Haddr Hjx.
  clear Hpid. intros Hc Hv Hf Hd Hr Hn. destruct (enters_at c e Hc Hv) as (c3 & H3 & E).
  pose proof (wp_and _ _ _ _ (Hf _ H3) (Hd _ H3)) as ([] & c4 & E4 & H4 & Hl)%wp_ok. rewrite E, (bind_ok _ _ _ _ _ E4).
  by apply (leave_astray base PIDCTRL_PID_CONFIRM back fuel Hbase Hfuel Hback).
Qed.

(** C38: When the kernel switches to a frame of another window base and the register that the exit
    takes for the window base does not happen to agree with it, the exit either jumps astray or ends with another
    window than the frame's, so the registers of the task are not the ones that it finds: the
    base is read from a register of the new window, after the switch. *)
Theorem exit_astray c e r :
  faulting c -> vectored c e -> restorable r -> windowsize r <= 13 ->
  (forall c0, called base b (user_frame (stopped_at e c)) c0 ->
     wp (handler e) (fun _ c' => handled base r c' /\ leftover (windowbase r) c' mod 16 <> windowbase r) c0) ->
  match user_exception c with
  | Ok _ c' => sr c' WINDOWBASE <> windowbase r
  | Stop w _ => w = Fault
  end.
Proof using Hbase Hfuel Hback Haddr Hjx.
  clear Hpid. intros Hc Hv Hr Hn Hk. refine (astray_at c e r Hc Hv _ _ Hr Hn); intros c0 Hc0;
    (eapply wp_mono; [exact (Hk c0 Hc0)|]); by intros [] c' [].
Qed.
End Exception.

(** ** Concrete processors *)

(** A kernel's stack that ends behind [ex_base], the tables above it, and the code. *)
Definition ex_base : Z := 0x3FFB0000.
Definition ex_stacks : Z := 0x3FFB1000.
Definition ex_causes : Z := 0x3FFB1100.
Definition ex_confirm : Z := 0x3FF1F04C.
Definition ex_back (i : Z) : Z := 0x40084000 + i mod 16.
Definition ex_addr (e : entry) : Z :=
  match e with
  | Interrupts.common_exception_entry => 0x40080000
  | Interrupts.common_interrupt_entry => 0x40080100
  | Interrupts.syscall_entry => 0x40080200
  end.
Definition ex_jx (handler : entry -> M cpu unit) (a : Z) : M cpu Z :=
  let code := entry_code ex_confirm ex_back 16 handler in
  if a =? 0x40080000 then code Interrupts.common_exception_entry
  else if a =? 0x40080100 then code Interrupts.common_interrupt_entry
  else code Interrupts.syscall_entry.
Definition ex_memory : Z -> Z :=
  store_le 4 ex_stacks (ex_base + 292)
    (store_le 4 ex_causes (ex_addr Interrupts.common_exception_entry)
      (store_le 4 (ex_causes + 4) (ex_addr Interrupts.syscall_entry)
        (store_le 4 (ex_causes + 16) (ex_addr Interrupts.common_interrupt_entry) (fun _ => 0)))).

(** Code at window 3 with live frames [ws], register [j] holds [j]. *)
Definition ex_cpu (ws cause : Z) : cpu :=
  Cpu (fun j => j mod 64)
    (fun s => match s with
      | SAR => 7 | LBEG => 0x40090000 | LEND => 0x40090043 | LCOUNT => 2 | WINDOWBASE => 3 | WINDOWSTART => ws
      | EPC1 => 0x40090040 | PS => 0x50010 | EXCSAVE1 => 0 | DEPC => 0 | EXCCAUSE => cause | PRID => 0xCDCD | VECBASE => 0x400C0000
      end) ex_memory.

Lemma ex_faulting ws cause :
  0 <= ws < 2 ^ 16 -> Z.testbit ws 3 = true -> 0 <= cause < 64 -> faulting ex_stacks ex_causes ex_base 3 (ex_cpu ws cause).
Proof.
  intros Hw Hl Hc. constructor; try done.
  - intros j Hj. cbn. Z.to_euclidean_division_equations. lia.
  - intros s. destruct s; cbn; lia.
  - split; [done|]. right. done.
Qed.

(** C code that leaves [v] in every register but its caller's stack pointer. *)
Definition ex_leaves (v : Z) (m : (Z -> Z) -> Z -> Z) : M cpu unit :=
  modify (fun c => seta 1 (geta 1 c) (Cpu (fun _ => v) (sr c) (m (mem c)))).
Abbreviation ex_clears := (ex_leaves 0).

Lemma ex_leaves_ok base b v m r c :
  256 <= base < 2 ^ 32 - 292 -> 0 <= b < 16 -> 0 <= v < 2 ^ 32 -> called base b r c ->
  wp (ex_leaves v m) (fun _ c' => handled base (frame_of base (m (mem c))) c' /\ sr c' WINDOWBASE = b /\
    forall d, d <> b -> 0 <= d < 16 -> leftover d c' = v) c.
Proof.
  intros Hb Hw Hv [W1 W2 W3 W4 W5 W6]. unfold ex_leaves. apply wp_modify. look. split_and!; [|done|].
  - constructor; look; try done; cbn [sr]; [by rewrite W1|]. apply regs_ok_seta; [by intros j Hj|]. rewrite W5. lia.
  - intros d Hd Hdr. unfold leftover. rewrite sr_seta. cbn [sr]. rewrite decide_False by congruence.
    with_strategy transparent [seta] (cbn [seta aregs]). apply upd_ne. unfold ix. cbn [sr]. rewrite W1, !Z.mod_small by lia. lia.
Qed.

Lemma ex_hyps :
  256 <= ex_base < 2 ^ 32 - 292 /\ (16 <= 16)%nat /\ (forall i, 16 <= ex_back i < 2 ^ 32) /\
  (0 <= ex_confirm < 2 ^ 32 - 4 /\ (ex_confirm + 4 <= ex_base \/ ex_base + 292 <= ex_confirm)) /\
  (forall e, 0 <= ex_addr e < 2 ^ 32) /\
  (forall h e, ex_jx h (ex_addr e) = entry_code ex_confirm ex_back 16 h e).
Proof.
  split_and!; try done.
  - intros i. unfold ex_back. pose proof (Z.mod_pos_bound i 16 ltac:(lia)). lia.
  - left. done.
  - intros e. by destruct e.
  - intros h e. by destruct e.
Qed.

Definition set_pc (v : Z) (r : task_regs) : task_regs :=
  TaskRegs (ar r) (sar r) (lbeg r) (lend r) (lcount r) (u32 v) (ps r) (windowbase r) (windowstart r) (windowmask r)
    (windowsize r).

Lemma set_pc_restorable v r : restorable r -> restorable (set_pc v r).
Proof.
  intros [H1 H2 H3 H4 H5]. constructor; cbn [set_pc sar windowbase windowstart windowsize]; try done.
  cbn [set_pc lbeg lend lcount Task.pc ps]. rewrite !Forall_cons in H2 |- *. destruct H2 as (A & B & C & _ & E & F).
  pose proof (wrapu_range 32 v ltac:(lia)). tauto.
Qed.

(** A word of the frame is a field of the C structure. *)
Lemma frame_of_store_pc base v m :
  frame_of base (store_le 4 (base + TASK_REGS_PC) v m) =
  set_pc v (frame_of base m).
Proof.
  unfold TASK_REGS_PC, set_pc. rewrite !frame_of_eq. cbn [ar sar lbeg lend lcount ps windowbase windowstart windowmask windowsize].
  rewrite !slot_store by done. rewrite !half_store by done. rewrite !decide_False by done. rewrite decide_True by done. f_equal.
  apply list_fmap_ext. intros i x Hx. apply lookup_seq in Hx as [-> Hx]. rewrite slot_store by done.
  by rewrite decide_False by lia.
Qed.

Lemma ex_sets_pc base b v r c :
  256 <= base < 2 ^ 32 - 292 -> 0 <= b < 16 -> called base b r c ->
  wp (ex_clears (store_le 4 (base + TASK_REGS_PC) v)) (fun _ c' => handled base (set_pc v r) c' /\ sr c' WINDOWBASE = b) c.
Proof.
  intros H1 H2 Hc. eapply wp_mono; [by eapply (ex_leaves_ok base b 0)|]. cbv beta. intros _ c' (H & W & _).
  by rewrite frame_of_store_pc, (cd_frame _ _ _ _ Hc) in H.
Qed.

Lemma ex_keeps h e :
  h = (fun _ => ex_clears (fun m => m)) -> keeps_frame ex_base 3 h e.
Proof.
  intros -> r c Hc. eapply wp_mono; [by eapply (ex_leaves_ok ex_base 3 0)|]. cbv beta. intros _ c' (H & W & _).
  split; [|done]. by rewrite (cd_frame _ _ _ _ Hc) in H.
Qed.

(** *** The theorems there *)
Lemma exception_enters_witness :
  let h := fun _ => ex_clears (fun m => m) in
  exists c3, called ex_base 3 (user_frame ex_base 3 (behind_syscall (ex_cpu 0x8 SyscallCause))) c3 /\
    user_exception ex_stacks ex_causes (ex_jx h) (ex_cpu 0x8 SyscallCause) =
    (h Interrupts.syscall_entry;; leave ex_confirm ex_back 16) c3.
Proof.
  intros h. destruct ex_hyps as (H1 & H2 & H3 & H4 & H5 & H6).
  apply (exception_enters ex_stacks ex_causes ex_base 3 ex_confirm ex_back 16 ex_addr h (ex_jx h) H1 H2 H3 H5 (H6 h)
    (ex_cpu 0x8 SyscallCause) Interrupts.syscall_entry); [by apply ex_faulting|]. split; vm_compute; reflexivity.
Defined.

(** The system call at the end of a loop goes back to its beginning. *)
Lemma behind_syscall_loops :
  sr (behind_syscall (ex_cpu 0x8 SyscallCause)) EPC1 = 0x40090000 /\
  sr (behind_syscall (ex_cpu 0x8 SyscallCause)) LCOUNT = 1.
Proof. split; reflexivity. Qed.

Lemma exception_exits_witness :
  let h := fun _ => ex_clears (store_le 4 (ex_base + TASK_REGS_PC) 0x40091234) in
  wp (user_exception ex_stacks ex_causes (ex_jx h)) (exited (set_pc 0x40091234 (user_frame ex_base 3 (ex_cpu 0xAAAA 0))))
    (ex_cpu 0xAAAA 0).
Proof.
  intros h. destruct ex_hyps as (H1 & H2 & H3 & H4 & H5 & H6).
  apply (exception_exits ex_stacks ex_causes ex_base 3 ex_confirm ex_back 16 ex_addr h (ex_jx h) H1 H2 H3 H4 H5 (H6 h)
    (ex_cpu 0xAAAA 0) Interrupts.common_exception_entry).
  - by apply ex_faulting.
  - split; vm_compute; reflexivity.
  - intros c Hc. eapply wp_mono; [exact (ex_sets_pc ex_base 3 0x40091234 _ c H1 ltac:(done) Hc)|]. by intros _ c' [H W].
  - apply (agrees_same_window ex_base 3); [done|]. intros c Hc.
    eapply wp_mono; [exact (ex_sets_pc ex_base 3 0x40091234 _ c H1 ltac:(done) Hc)|]. by intros _ c' [H W].
  - apply set_pc_restorable. apply (user_frame_restorable ex_stacks ex_causes); [by apply ex_faulting|done|].
    cbn [user_frame windowsize]. vm_compute. discriminate.
  - cbn [set_pc user_frame windowsize]. vm_compute. discriminate.
Defined.

Lemma interrupt_roundtrip_witness :
  let h := fun _ => ex_clears (fun m => m) in
  wp (user_exception ex_stacks ex_causes (ex_jx h))
    (fun next c' => undisturbed 3 (ex_cpu 0xAAAA Level1InterruptCause) c' /\ sr c' PS = 0x50000 /\ next = 0x40090040)
    (ex_cpu 0xAAAA Level1InterruptCause).
Proof.
  intros h. destruct ex_hyps as (H1 & H2 & H3 & H4 & H5 & H6).
  apply (interrupt_roundtrip ex_stacks ex_causes ex_base 3 ex_confirm ex_back 16 ex_addr h (ex_jx h) H1 H2 H3 H4 H5 (H6 h)
    (ex_cpu 0xAAAA Level1InterruptCause) Interrupts.common_interrupt_entry);
    [by apply ex_faulting|split; vm_compute; reflexivity|done|by apply ex_keeps|done|vm_compute; discriminate|discriminate].
Defined.

(** The frame right above the current one is the oldest that is live. *)
Lemma exit_loses_return_witness :
  let h := fun _ => ex_clears (fun m => m) in
  exists c', user_exception ex_stacks ex_causes (ex_jx h) (ex_cpu 0x18 Level1InterruptCause) = Stop Fault c'.
Proof.
  intros h. destruct ex_hyps as (H1 & H2 & H3 & H4 & H5 & H6).
  apply (exit_loses_return ex_stacks ex_causes ex_base 3 ex_confirm ex_back 16 ex_addr h (ex_jx h) H1 H2 H3 H4 H5 (H6 h)
    (ex_cpu 0x18 Level1InterruptCause) Interrupts.common_interrupt_entry);
    [by apply ex_faulting|split; vm_compute; reflexivity|done|by apply ex_keeps|done|left; reflexivity].
Defined.

(** The frame of another task, whose window base is 5. *)
Definition ex_other : Z -> Z := store_le 4 (ex_base + TASK_REGS_WINDOWBASE) 5 (fun _ => 0).

Lemma exit_astray_witness :
  let h := fun _ => ex_clears (fun _ => ex_other) in
  match user_exception ex_stacks ex_causes (ex_jx h) (ex_cpu 0x8 Level1InterruptCause) with
  | Ok _ c' => sr c' WINDOWBASE <> 5
  | Stop w _ => w = Fault
  end.
Proof.
  intros h. destruct ex_hyps as (H1 & H2 & H3 & H4 & H5 & H6).
  assert (windowbase (frame_of ex_base ex_other) = 5) as W5 by (vm_compute; reflexivity). rewrite <- W5.
  apply (exit_astray ex_stacks ex_causes ex_base 3 ex_confirm ex_back 16 ex_addr h (ex_jx h) H1 H2 H3 H5 (H6 h)
    (ex_cpu 0x8 Level1InterruptCause) Interrupts.common_interrupt_entry);
    [by apply ex_faulting|split; vm_compute; reflexivity| |vm_compute; discriminate|].
  - rewrite frame_of_eq. constructor; [vm_compute; split; (reflexivity || discriminate)|
      |vm_compute; split; (reflexivity || discriminate)..|vm_compute; discriminate].
    repeat (constructor; [vm_compute; split; (reflexivity || discriminate)|]). constructor.
  - intros c Hc. eapply wp_mono; [exact (ex_leaves_ok ex_base 3 0 (fun _ => ex_other) _ c H1 ltac:(done) ltac:(done) Hc)|].
    cbv beta. intros _ c' (H & W & Hl). split; [exact H|]. rewrite W5, Hl; done.
Defined.

Definition ex_new : cpu :=
  Cpu (fun j => if j =? 13 then ex_base else 0) (sr (ex_cpu 0x8 0))
    (store_le 4 (ex_base + 4) 0x3FFDF000 (store_le 4 (ex_base + 8) 0x40091000
      (store_le 4 (ex_base + TASK_REGS_PC) 0x40090000 (store_le 4 (ex_base + TASK_REGS_PS) 0x40020 (fun _ => 0))))).

(** The same with 5 in the register that the exit takes for the window base. *)
Definition ex_stale : cpu := Cpu (fun j => if j =? 2 then 5 else aregs ex_new j) (sr ex_new) (mem ex_new).

Lemma new_task_starts_witness :
  wp (leave ex_confirm ex_back 16) (fun next c' => next = 0x40090000 /\ sr c' PS = 0x40020 /\ rel 0 c' 2 = 0x40091000) ex_new /\
  match leave ex_confirm ex_back 16 ex_stale with
  | Ok _ c' => sr c' WINDOWBASE <> 0
  | Stop w _ => w = Fault
  end.
Proof.
  destruct ex_hyps as (H1 & H2 & H3 & H4 & H5 & H6).
  assert (regs_ok ex_new) as Hok by (intros j Hj; cbn; destruct (j =? 13); unfold ex_base; lia).
  assert (regs_ok ex_stale) as Hok'.
  { intros j Hj. cbn -[ex_base]. destruct (j =? 2); [lia|]. destruct (j =? 13); unfold ex_base; lia. }
  assert (frame_of ex_base (mem ex_new) = initial_regs 0x40090000 0x40091000) as Hm by (vm_compute; reflexivity).
  destruct (new_task_starts ex_base ex_confirm ex_back 16 H1 H2 H3 H4 0x40090000 0x40091000 ex_new) as [Hs _];
    [constructor; [done|exact Hok|reflexivity|exact Hm]|].
  destruct (new_task_starts ex_base ex_confirm ex_back 16 H1 H2 H3 H4 0x40090000 0x40091000 ex_stale) as [_ Ha];
    [constructor; [done|exact Hok'|reflexivity|exact Hm]|].
  split.
  - eapply wp_mono; [exact (Hs eq_refl)|]. intros next c' (E1 & _ & _ & E2 & E3).
    split; [exact E1|]. split; [exact E2|]. rewrite E3 by lia. reflexivity.
  - exact (Ha ltac:(discriminate)).
Defined.

(** Before its first instruction a task has no live frame at all: an interrupt there spills 17
    frames, below the frame and over the stack pointer. *)
Lemma fresh_task_interrupted :
  match save_full_interrupt_context 17 (Cpu (aregs ex_new) (fun s => match s with WINDOWBASE => 3 | _ => 0 end) (mem ex_new)) with
  | Ok _ c' => geta 1 c' = ex_base - 256
  | Stop _ _ => False
  end.
Proof. vm_compute. reflexivity. Qed.
