(* ===== verification/Vectors.v ===== *)
(** * The vectors of the register windows, and the first instructions of the kernel

    When a call or return needs a window that is not in the registers, the processor takes a
    vector of kernel/vdso/vectors.S, in the window concerned, which moves its registers to the
    stack or back. [sp] of the callee tells where. Also here is kernel/main.S, up to the call
    of kmain. *)
From Stdlib Require Import ZArith Lia.
From stdpp Require Import base tactics numbers list.
From S2P Require Import Prelude Umem Task Syscall Running RunningSpec Xtensa Entry EntrySave.

(** ** The vectors *)
Definition window_overflow_4 : M cpu Z :=
  s32e 0 5 (-16);;
  s32e 1 5 (-12);;
  s32e 2 5 (-8);;
  s32e 3 5 (-4);;
  rfwo.

Definition window_underflow_4 : M cpu Z :=
  l32e 0 5 (-16);;
  l32e 1 5 (-12);;
  l32e 2 5 (-8);;
  l32e 3 5 (-4);;
  rfwu.

Definition window_overflow_8 : M cpu Z :=
  s32e 0 9 (-16);;
  l32e 0 1 (-12);;
  s32e 1 9 (-12);;
  s32e 2 9 (-8);;
  s32e 3 9 (-4);;
  s32e 4 0 (-32);;
  s32e 5 0 (-28);;
  s32e 6 0 (-24);;
  s32e 7 0 (-20);;
  rfwo.

Definition window_underflow_8 : M cpu Z :=
  l32e 0 9 (-16);;
  l32e 1 9 (-12);;
  l32e 2 9 (-8);;
  l32e 7 1 (-12);;
  l32e 3 9 (-4);;
  l32e 4 7 (-32);;
  l32e 5 7 (-28);;
  l32e 6 7 (-24);;
  l32e 7 7 (-20);;
  rfwu.

Definition window_overflow_12 : M cpu Z :=
  s32e 0 13 (-16);;
  l32e 0 1 (-12);;
  s32e 1 13 (-12);;
  s32e 2 13 (-8);;
  s32e 3 13 (-4);;
  s32e 4 0 (-48);;
  s32e 5 0 (-44);;
  s32e 6 0 (-40);;
  s32e 7 0 (-36);;
  s32e 8 0 (-32);;
  s32e 9 0 (-28);;
  s32e 10 0 (-24);;
  s32e 11 0 (-20);;
  rfwo.

Definition window_underflow_12 : M cpu Z :=
  l32e 0 13 (-16);;
  l32e 1 13 (-12);;
  l32e 2 13 (-8);;
  l32e 11 1 (-12);;
  l32e 3 13 (-4);;
  l32e 4 11 (-48);;
  l32e 5 11 (-44);;
  l32e 6 11 (-40);;
  l32e 7 11 (-36);;
  l32e 8 11 (-32);;
  l32e 9 11 (-28);;
  l32e 10 11 (-24);;
  l32e 11 11 (-20);;
  rfwu.

(** The processor chooses by the size of the call: 4, 8 or 12 registers further. *)
Definition window_overflow (n : Z) : M cpu Z :=
  if n =? 1 then window_overflow_4 else if n =? 2 then window_overflow_8 else window_overflow_12.
Definition window_underflow (n : Z) : M cpu Z :=
  if n =? 1 then window_underflow_4 else if n =? 2 then window_underflow_8 else window_underflow_12.

(** The other vectors. The registers of an interrupt level, which nothing else uses, are arguments. *)
Definition rfi (EPS EPC : Z) : M cpu Z := modify (sets PS EPS);; mret EPC.
Definition interrupt_level (EXCSAVE EPS EPC : Z) : M cpu Z := modify (seta 0 EXCSAVE);; rfi EPS EPC.
Definition kernel_exception : M cpu Z := rfe.
Definition double_exception : M cpu Z := gets (fun c => sr c DEPC).

(** ** The start of the kernel: what kmain is called with *)
Definition _start (vecbase g_app_cpu_stack : Z) : M cpu unit :=
  movi 1 1;;
  movi 0 0;;
  wsr WINDOWSTART 1;;
  wsr WINDOWBASE 0;;
  movi 0 vecbase;;
  wsr VECBASE 0;;
  movi 0 0;;
  wsr LCOUNT 0;;
  movi 0 4096;;
  movi sp g_app_cpu_stack;;
  add sp sp 0.

#[local] Opaque geta seta sets setm rel.

Lemma kernel_starts vecbase g_app_cpu_stack c :
  0 <= sr c WINDOWBASE < 16 -> 0 <= vecbase < 2 ^ 32 -> 0 <= g_app_cpu_stack < 2 ^ 32 - 4096 ->
  wp (_start vecbase g_app_cpu_stack) (fun _ c' =>
    sr c' WINDOWBASE = 0 /\ sr c' WINDOWSTART = 1 /\ sr c' VECBASE = vecbase /\ sr c' LCOUNT = 0 /\
    geta 1 c' = g_app_cpu_stack + 4096 /\ mem c' = mem c) c.
Proof.
  intros Hw Hv Hs. unfold _start. do 4 istep. cbn [sr_width]. set (c1 := sets WINDOWBASE _ _).
  assert (sr c1 WINDOWBASE = 0 /\ sr c1 WINDOWSTART = 1 /\ mem c1 = mem c) as (W & T & E) by (unfold c1; by look).
  clearbody c1. do 7 istep. cbn [sr_width]. change (u32 4096) with 4096.
  rewrite !(wrapu_small 32 vecbase), (wrapu_small 32 g_app_cpu_stack), (wrapu_small 32 (g_app_cpu_stack + 4096)) by lia. done.
Qed.

(** An exception of the kernel goes back to the instruction that raised it, with nothing changed
    that could help: it is raised again. *)
Lemma kernel_exception_repeats c :
  exists c', kernel_exception c = Ok (sr c EPC1) c' /\ aregs c' = aregs c /\ mem c' = mem c /\
    (forall s, s <> PS -> sr c' s = sr c s) /\ sr c' PS = sr c PS .& .~ 16.
Proof.
  eexists. split; [reflexivity|]. split; [done|]. split; [done|]. split; [intros s Hs|]; by look.
Qed.

(** An interrupt of a level over 1 would return with another [a0]: the vector reads EXCSAVE, where
    nothing has been stored, over the register. *)
Lemma interrupt_level_loses EXCSAVE EPS EPC c :
  exists c', interrupt_level EXCSAVE EPS EPC c = Ok EPC c' /\ geta 0 c' = EXCSAVE /\
    (forall n, 1 <= n < 16 -> geta n c' = geta n c) /\ mem c' = mem c /\ sr c' PS = EPS.
Proof. eexists. split; [reflexivity|]. split; [by look|]. split; [intros n Hn|split]; look; done. Qed.

(** ** What is on the stack *)

(** [n] groups of four registers of a frame are on the stack: the first below the stack pointer
    [q] of the frame that it called, the others below that of its caller, [x], which the word
    below its own, [s], says. *)
Record spilled (n q s x : Z) (R : Z -> Z) (m : Z -> Z) : Prop := {
  sp_first : forall i, 0 <= i < 4 -> load_le 4 (q - 16 + 4 * i) m = R i;
  sp_rest : forall i, 4 <= i < 4 * n -> load_le 4 (x - 16 * n + 4 * (i - 4)) m = R i;
  sp_link : 1 < n -> load_le 4 (s - 12) m = x;
}.

(** The places, apart from each other: the stack grows down. *)
Record laid_out (n q s x : Z) : Prop := {
  lo_size : 1 <= n <= 3;
  lo_callee : 16 <= q /\ q <= s - 16;
  lo_caller : s <= x - 16 * n /\ x < 2 ^ 32;
}.

Definition place (n q s x a : Z) : Prop := q - 16 <= a < q \/ s - 16 <= a < s \/ x - 16 * n <= a < x.

Lemma load_ext k a m m' : (forall i, a <= i < a + Z.of_nat k -> m i = m' i) -> load_le k a m = load_le k a m'.
Proof.
  intros H. unfold load_le. f_equal. apply list_fmap_ext. intros i x Hx. apply lookup_seqZ in Hx as [-> Hx].
  apply H. lia.
Qed.

Lemma spilled_ext n q s x R m m' :
  laid_out n q s x -> (forall a, place n q s x a -> m' a = m a) -> spilled n q s x R m -> spilled n q s x R m'.
Proof.
  intros [H1 H2 H3] Hm [A B C]. unfold place in Hm. constructor.
  - intros i Hi. rewrite <- A by done. apply load_ext. intros j Hj. apply Hm. lia.
  - intros i Hi. rewrite <- B by done. apply load_ext. intros j Hj. apply Hm. lia.
  - intros Hn. rewrite <- C by done. apply load_ext. intros j Hj. apply Hm. lia.
Qed.

(** The way back out of a vector: [live] says what becomes of the window. *)
Record returned (live : Z -> Z -> Z) (c c' : cpu) : Prop := {
  re_start : sr c' WINDOWSTART = live (sr c WINDOWSTART) (sr c WINDOWBASE);
  re_base : sr c' WINDOWBASE = PS_OWB (sr c PS);
  re_mode : sr c' PS = sr c PS .& .~ 16;
  re_other : forall s, s <> WINDOWSTART -> s <> WINDOWBASE -> s <> PS -> sr c' s = sr c s;
}.

Lemma return_ok live c0 c (Q : Z -> cpu -> Prop) :
  sr c = sr c0 ->
  (forall c', returned live c0 c' -> mem c' = mem c -> (forall b j, rel b c' j = rel b c j) -> Q (sr c0 EPC1) c') ->
  wp (window_return live) Q c.
Proof.
  intros E H. unfold window_return, rfe. apply wp_bind, wp_modify, wp_bind, wp_modify, wp_bind, wp_modify, wp_gets.
  look. rewrite E. apply H; [|by look|done].
  constructor; look; rewrite ?E; try done. intros s N1 N2 N3. look. by rewrite E.
Qed.

Lemma load_store_at k a a' v m : a = a' -> load_le k a (store_le k a' v m) = wrapu (8 * Z.of_nat k) v.
Proof. intros ->. apply load_store_eq. Qed.

(** Words of the stack after the stores. *)
Ltac words := repeat first [rewrite (load_store_at 4) by lia | rewrite (load_store_ne 4 4) by lia].
(** The cases of an index below a number. *)
Ltac each i H :=
  match type of H with
  | ?a <= i < ?b => destruct (decide (i = a)) as [->|]; [|assert (a + 1 <= i < b) as H' by lia; clear H; rename H' into H; simpl in H]
  end.

(** ** Overflow *)
Lemma overflow_4_ok q s x c :
  regs_ok c -> 0 <= sr c WINDOWBASE < 16 -> laid_out 1 q s x -> geta 1 c = s -> geta 5 c = q ->
  wp window_overflow_4 (fun next c' =>
    next = sr c EPC1 /\ returned Z.clearbit c c' /\ spilled 1 q s x (fun i => geta i c) (mem c')) c.
Proof.
  intros Hc Hw [H1 H2 H3] G1 G5. unfold window_overflow_4, s32e, rfwo.
  assert (forall i, u32 (geta i c) = geta i c) as Hu
    by (intros i; rewrite (geta_window (sr c WINDOWBASE)) by done; by apply wrapu_small, rel_range).
  do 4 (istep; rewrite ?G5, ?(wrapu_small 32 (q + _)) by lia).
  apply (return_ok _ c); [by look|]. intros c' Hr Hm _. split; [done|]. split; [done|]. rewrite Hm. look.
  constructor; [intros i Hi|intros i Hi; lia|lia].
  do 4 (each i Hi; [words; apply Hu|]). lia.
Qed.

Lemma overflow_8_ok q s x c :
  regs_ok c -> 0 <= sr c WINDOWBASE < 16 -> laid_out 2 q s x -> geta 1 c = s -> geta 9 c = q ->
  load_le 4 (s - 12) (mem c) = x ->
  wp window_overflow_8 (fun next c' =>
    next = sr c EPC1 /\ returned Z.clearbit c c' /\ spilled 2 q s x (fun i => geta i c) (mem c')) c.
Proof.
  intros Hc Hw [H1 H2 H3] G1 G9 Hx. unfold window_overflow_8, s32e, l32e, rfwo.
  assert (forall i, u32 (geta i c) = geta i c) as Hu
    by (intros i; rewrite (geta_window (sr c WINDOWBASE)) by done; by apply wrapu_small, rel_range).
  istep. rewrite G9, (wrapu_small 32 (q + _)) by lia. istep. rewrite G1, (wrapu_small 32 (s + _)), load_store_ne by lia.
  replace (s + -12) with (s - 12) by lia. rewrite Hx.
  do 7 (istep; rewrite ?G1, ?G9, ?(wrapu_small 32 (q + _)), ?(wrapu_small 32 (x + _)) by lia).
  apply (return_ok _ c); [by look|]. intros c' Hr Hm _. split; [done|]. split; [done|]. rewrite Hm. look.
  constructor; [intros i Hi|intros i Hi|intros _; by words].
  all: do 4 (each i Hi; [words; rewrite <- ?G1; apply Hu|]); lia.
Qed.

Lemma overflow_12_ok q s x c :
  regs_ok c -> 0 <= sr c WINDOWBASE < 16 -> laid_out 3 q s x -> geta 1 c = s -> geta 13 c = q ->
  load_le 4 (s - 12) (mem c) = x ->
  wp window_overflow_12 (fun next c' =>
    next = sr c EPC1 /\ returned Z.clearbit c c' /\ spilled 3 q s x (fun i => geta i c) (mem c')) c.
Proof.
  intros Hc Hw [H1 H2 H3] G1 G13 Hx. unfold window_overflow_12, s32e, l32e, rfwo.
  assert (forall i, u32 (geta i c) = geta i c) as Hu
    by (intros i; rewrite (geta_window (sr c WINDOWBASE)) by done; by apply wrapu_small, rel_range).
  istep. rewrite G13, (wrapu_small 32 (q + _)) by lia. istep. rewrite G1, (wrapu_small 32 (s + _)), load_store_ne by lia.
  replace (s + -12) with (s - 12) by lia. rewrite Hx.
  do 11 (istep; rewrite ?G1, ?G13, ?(wrapu_small 32 (q + _)), ?(wrapu_small 32 (x + _)) by lia).
  apply (return_ok _ c); [by look|]. intros c' Hr Hm _. split; [done|]. split; [done|]. rewrite Hm. look.
  constructor; [intros i Hi|intros i Hi|intros _; by words].
  all: do 8 (try (each i Hi; [words; rewrite <- ?G1; apply Hu|])); lia.
Qed.

(** ** Underflow *)
Lemma underflow_4_ok q s x R c :
  0 <= sr c WINDOWBASE < 16 -> laid_out 1 q s x -> R 1 = s -> geta 5 c = q -> spilled 1 q s x R (mem c) ->
  wp window_underflow_4 (fun next c' =>
    next = sr c EPC1 /\ returned Z.setbit c c' /\ mem c' = mem c /\
    forall j, 0 <= j < 4 -> rel (sr c WINDOWBASE) c' j = R j) c.
Proof.
  intros Hw [H1 H2 H3] R1 G5 [A _ _]. unfold window_underflow_4, l32e, rfwu.
  assert (sr c WINDOWBASE = (sr c WINDOWBASE + 0) mod 16) as Hf by (rewrite Z.add_0_r, Z.mod_small by lia; done).
  assert (forall i o, 0 <= i < 4 -> o = 4 * i - 16 -> load_le 4 (u32 (q + o)) (mem c) = R i) as Hl.
  { intros i o Hi ->. rewrite wrapu_small by lia. rewrite <- A by done. f_equal. lia. }
  do 4 (istep; rewrite ?G5).
  rewrite (Hl 0 (-16)), (Hl 1 (-12)), (Hl 2 (-8)), (Hl 3 (-4)) by lia.
  apply (return_ok _ c); [by look|]. intros c' Hr Hm Hj. split; [done|]. split; [done|]. split; [by rewrite Hm; look|].
  intros j Hj'. rewrite Hj.
  do 4 (each j Hj'; [lookrel (sr c WINDOWBASE) 0|]). lia.
Qed.

Lemma underflow_8_ok q s x R c :
  0 <= sr c WINDOWBASE < 16 -> laid_out 2 q s x -> R 1 = s -> geta 9 c = q -> spilled 2 q s x R (mem c) ->
  wp window_underflow_8 (fun next c' =>
    next = sr c EPC1 /\ returned Z.setbit c c' /\ mem c' = mem c /\
    forall j, 0 <= j < 8 -> rel (sr c WINDOWBASE) c' j = R j) c.
Proof.
  intros Hw [H1 H2 H3] R1 Gq [A B C]. specialize (C ltac:(lia)). unfold window_underflow_8, l32e, rfwu.
  assert (sr c WINDOWBASE = (sr c WINDOWBASE + 0) mod 16) as Hf by (rewrite Z.add_0_r, Z.mod_small by lia; done).
  assert (forall i o, 0 <= i < 4 -> o = 4 * i - 16 -> load_le 4 (u32 (q + o)) (mem c) = R i) as Hl.
  { intros i o Hi ->. rewrite wrapu_small by lia. rewrite <- A by done. f_equal. lia. }
  assert (forall i o, 4 <= i < 8 -> o = 4 * (i - 4) - 32 -> load_le 4 (u32 (x + o)) (mem c) = R i) as Hx.
  { intros i o Hi ->. rewrite wrapu_small by lia. rewrite <- B by done. f_equal. lia. }
  do 3 (istep; rewrite ?Gq). rewrite (Hl 0 (-16)), (Hl 1 (-12)), (Hl 2 (-8)) by lia.
  istep. rewrite R1, (wrapu_small 32 (s + _)) by lia. replace (s + -12) with (s - 12) by lia. rewrite C.
  do 5 (istep; rewrite ?Gq). rewrite (Hl 3 (-4)), (Hx 4 (-32)), (Hx 5 (-28)), (Hx 6 (-24)), (Hx 7 (-20)) by lia.
  apply (return_ok _ c); [by look|]. intros c' Hr Hm Hj. split; [done|]. split; [done|]. split; [by rewrite Hm; look|].
  intros j Hj'. rewrite Hj.
  do 8 (each j Hj'; [lookrel (sr c WINDOWBASE) 0|]). lia.
Qed.

Lemma underflow_12_ok q s x R c :
  0 <= sr c WINDOWBASE < 16 -> laid_out 3 q s x -> R 1 = s -> geta 13 c = q -> spilled 3 q s x R (mem c) ->
  wp window_underflow_12 (fun next c' =>
    next = sr c EPC1 /\ returned Z.setbit c c' /\ mem c' = mem c /\
    forall j, 0 <= j < 12 -> rel (sr c WINDOWBASE) c' j = R j) c.
Proof.
  intros Hw [H1 H2 H3] R1 Gq [A B C]. specialize (C ltac:(lia)). unfold window_underflow_12, l32e, rfwu.
  assert (sr c WINDOWBASE = (sr c WINDOWBASE + 0) mod 16) as Hf by (rewrite Z.add_0_r, Z.mod_small by lia; done).
  assert (forall i o, 0 <= i < 4 -> o = 4 * i - 16 -> load_le 4 (u32 (q + o)) (mem c) = R i) as Hl.
  { intros i o Hi ->. rewrite wrapu_small by lia. rewrite <- A by done. f_equal. lia. }
  assert (forall i o, 4 <= i < 12 -> o = 4 * (i - 4) - 48 -> load_le 4 (u32 (x + o)) (mem c) = R i) as Hx.
  { intros i o Hi ->. rewrite wrapu_small by lia. rewrite <- B by done. f_equal. lia. }
  do 3 (istep; rewrite ?Gq). rewrite (Hl 0 (-16)), (Hl 1 (-12)), (Hl 2 (-8)) by lia.
  istep. rewrite R1, (wrapu_small 32 (s + _)) by lia. replace (s + -12) with (s - 12) by lia. rewrite C.
  do 9 (istep; rewrite ?Gq). rewrite (Hl 3 (-4)), (Hx 4 (-48)), (Hx 5 (-44)), (Hx 6 (-40)), (Hx 7 (-36)), (Hx 8 (-32)), (Hx 9 (-28)), (Hx 10 (-24)), (Hx 11 (-20)) by lia.
  apply (return_ok _ c); [by look|]. intros c' Hr Hm Hj. split; [done|]. split; [done|]. split; [by rewrite Hm; look|].
  intros j Hj'. rewrite Hj.
  do 12 (each j Hj'; [lookrel (sr c WINDOWBASE) 0|]). lia.
Qed.

(** ** Any size *)
Lemma overflow_ok n q s x c :
  regs_ok c -> 0 <= sr c WINDOWBASE < 16 -> laid_out n q s x -> geta 1 c = s -> geta (4 * n + 1) c = q ->
  (1 < n -> load_le 4 (s - 12) (mem c) = x) ->
  wp (window_overflow n) (fun next c' =>
    next = sr c EPC1 /\ returned Z.clearbit c c' /\ spilled n q s x (fun i => geta i c) (mem c')) c.
Proof.
  intros Hc Hw Hl H1 H2 Hx. pose proof (lo_size _ _ _ _ Hl).
  assert (n = 1 \/ n = 2 \/ n = 3) as [->|[->| ->]] by lia.
  - by apply (overflow_4_ok q s x).
  - apply (overflow_8_ok q s x); auto with lia.
  - apply (overflow_12_ok q s x); auto with lia.
Qed.

Lemma underflow_ok n q s x R c :
  0 <= sr c WINDOWBASE < 16 -> laid_out n q s x -> R 1 = s -> geta (4 * n + 1) c = q -> spilled n q s x R (mem c) ->
  wp (window_underflow n) (fun next c' =>
    next = sr c EPC1 /\ returned Z.setbit c c' /\ mem c' = mem c /\
    forall j, 0 <= j < 4 * n -> rel (sr c WINDOWBASE) c' j = R j) c.
Proof.
  intros Hw Hl H1 H2 Hx. pose proof (lo_size _ _ _ _ Hl).
  assert (n = 1 \/ n = 2 \/ n = 3) as [->|[->| ->]] by lia.
  - by apply (underflow_4_ok q s x).
  - by apply (underflow_8_ok q s x).
  - by apply (underflow_12_ok q s x).
Qed.

(** C32: A window that is spilled to the stack and filled again has the registers that it had,
    all 4, 8 or 12 of them: the overflow handler leaves the window dead and goes on where the
    processor stopped; whatever happens in between, if the stack frame is still there and the
    callee's stack pointer is what it was, the underflow handler brings the registers back and
    the window to life. *)
Theorem window_roundtrip n q s x c :
  regs_ok c -> 0 <= sr c WINDOWBASE < 16 -> laid_out n q s x -> geta 1 c = s -> geta (4 * n + 1) c = q ->
  (1 < n -> load_le 4 (s - 12) (mem c) = x) ->
  wp (window_overflow n) (fun next c1 =>
    next = sr c EPC1 /\ Z.testbit (sr c1 WINDOWSTART) (sr c WINDOWBASE) = false /\ sr c1 WINDOWBASE = PS_OWB (sr c PS) /\
    forall c2, sr c2 WINDOWBASE = sr c WINDOWBASE -> geta (4 * n + 1) c2 = q ->
      (forall a, place n q s x a -> mem c2 a = mem c1 a) ->
      wp (window_underflow n) (fun next' c3 =>
        next' = sr c2 EPC1 /\ Z.testbit (sr c3 WINDOWSTART) (sr c WINDOWBASE) = true /\ mem c3 = mem c2 /\
        forall j, 0 <= j < 4 * n -> rel (sr c WINDOWBASE) c3 j = rel (sr c WINDOWBASE) c j) c2) c.
Proof.
  intros Hc Hw Hl H1 H2 Hx. eapply wp_mono; [by apply (overflow_ok n q s x)|]. intros next c1 (-> & Hr & Hm).
  split; [done|]. split; [rewrite (re_start _ _ _ Hr); apply Z.clearbit_eq|]. split; [apply Hr|].
  intros c2 Hw2 Hq2 Hm2. rewrite <- Hw2 in *.
  eapply wp_mono; [apply (underflow_ok n q s x (fun i => geta i c)); try done; by eapply spilled_ext|].
  intros next' c3 (-> & Hr3 & Hm3 & Hj). split; [done|].
  split; [rewrite (re_start _ _ _ Hr3); apply Z.setbit_eq; lia|]. split; [done|].
  intros j Hj'. rewrite Hj by done. by apply geta_window.
Qed.

(** A frame of 12 registers at window 3. *)
Definition ex_frame : cpu :=
  Cpu (fun j => if j =? 13 then 0x3FFDE100 else if j =? 25 then 0x3FFDE000 else j mod 64)
    (fun s => match s with WINDOWBASE => 3 | WINDOWSTART => 0x48 | PS => 0x60610 | EPC1 => 0x40090000 | _ => 0 end)
    (store_le 4 (0x3FFDE100 - 12) 0x3FFDE200 (fun _ => 0)).

Lemma window_roundtrip_witness :
  wp (window_overflow 3) (fun next c1 => next = 0x40090000 /\ sr c1 WINDOWBASE = 6 /\
    wp (window_underflow 3) (fun _ c3 => forall j, 0 <= j < 12 -> rel 3 c3 j = rel 3 ex_frame j)
      (Cpu (fun j => if j =? 25 then 0x3FFDE000 else 0) (fun s => match s with WINDOWBASE => 3 | _ => 0 end) (mem c1))) ex_frame.
Proof.
  eapply wp_mono; [apply (window_roundtrip 3 0x3FFDE000 0x3FFDE100 0x3FFDE200 ex_frame)|].
  - intros j Hj. cbn. destruct (j =? 13); [lia|]. destruct (j =? 25); [lia|]. Z.to_euclidean_division_equations. lia.
  - done.
  - constructor; done.
  - reflexivity.
  - reflexivity.
  - intros _. vm_compute. reflexivity.
  - intros next c1 (-> & _ & W & H). split; [done|]. split; [exact W|].
    eapply wp_mono; [apply H; [reflexivity|reflexivity|done]|]. by intros _ c3 (_ & _ & _ & H3).
Defined.
