(* ===== verification/Preempt.v ===== *)
(** * Preemption, down to the registers of the processor

    The entries of Entry.v around the kernel of Running.v: the frame in memory is the frame of
    the kernel's state. A task that is interrupted on a processor in some state, or that makes
    a system call there, goes on later, after any others had the CPU, on a processor that
    shows it the same registers, if the register that the exit takes for the window base
    agrees; if not, the exit goes astray. *)
From Stdlib Require Import ZArith Lia.
From stdpp Require Import base tactics numbers list relations gmap.
From S2P Require Import Prelude Umem Mmu Timg Console Task TaskSpec Scheduler SchedSpec SchedThm Syscall SyscallSpec Interrupts Layout InterruptsSpec Loader.
From S2P Require Import Vm Running RunningSpec Xtensa Entry EntrySave EntryRestore EntrySpec EntryThm.

#[local] Opaque geta seta sets setm rel.

Section Preempt.
Context (weak_fails : nat -> bool) (fuel sleeps : nat) (call : Z -> Z -> M kernel unit).
Context (txfifo_cnt : nat -> Z) (polls : nat) (__FILE__ : list Z).
Hypothesis (Hends : cas_ends weak_fails fuel) (Hcall : forall f x, keeps_layout (call f x)).

Abbreviation enter_syscall := (enter_syscall weak_fails fuel sleeps call txfifo_cnt polls __FILE__).
Abbreviation enter_interrupt := (enter_interrupt weak_fails fuel sleeps txfifo_cnt polls).
Abbreviation run_step := (run_step weak_fails fuel sleeps call txfifo_cnt polls __FILE__).
Abbreviation others p := (rtc (fun x y => run_step x y /\ current_task (kernel_of x) <> Some p)).

Context (g_kernel_stacks g_fast_interrupts base PIDCTRL_PID_CONFIRM : Z) (back : Z -> Z) (windows : nat).
Context (addr : entry -> Z) (handler : entry -> M cpu unit) (jx : Z -> M cpu Z).
Hypothesis (Hbase : 256 <= base < 2 ^ 32 - 292) (Hfuel : (16 <= windows)%nat)
  (Hback : forall i, 16 <= back i < 2 ^ 32)
  (Hpid : 0 <= PIDCTRL_PID_CONFIRM < 2 ^ 32 - 4 /\
    (PIDCTRL_PID_CONFIRM + 4 <= base \/ base + 292 <= PIDCTRL_PID_CONFIRM))
  (Haddr : forall e, 0 <= addr e < 2 ^ 32)
  (Hjx : forall e, jx (addr e) = entry_code PIDCTRL_PID_CONFIRM back windows handler e).

Abbreviation user_exception := (user_exception g_kernel_stacks g_fast_interrupts jx).
Abbreviation leave := (leave PIDCTRL_PID_CONFIRM back windows).
Abbreviation frames b c := (next_frame (window_mask (sr c WINDOWSTART) b)).

(** User code at window [b] of a processor takes the entry [e]. *)
Record taking (b : Z) (e : entry) (c : cpu) : Prop := {
  tk_faulting : faulting g_kernel_stacks g_fast_interrupts base b c;
  tk_vectored : vectored g_fast_interrupts addr c e;
}.
(** The frame that it leaves can be restored: the frame right above the current one is not the
    oldest that is live, and if there is no other live frame, the word of the stack that is
    then taken for the number of frames is at most 14. *)
Record resumable (b : Z) (c : cpu) : Prop := {
  ru_sar : sr c SAR < 64;
  ru_frames : 2 <= frames b c;
  ru_size : frames b c = 16 -> 0 <= half base (mem c) 290 <= 14;
}.

(** The C function of the entry does to the frame in memory what the kernel of the model does to
    its own: it ends with the frame of the state [s]. *)
Definition ends_in (b : Z) (e : entry) (c : cpu) (s : system) : Prop :=
  turns base b handler e (user_frame base b (stopped_at e c)) (frame (kernel_of s)).

(** The register that the exit from this entry takes for the window base agrees with the window
    [x] that it goes to, or does not: see [agrees]. *)
Definition fits (b : Z) (e : entry) (c : cpu) (x : Z) : Prop :=
  agrees base b handler e (user_frame base b (stopped_at e c)) x.
Definition clashes (b : Z) (e : entry) (c : cpu) (x : Z) : Prop :=
  disagrees base b handler e (user_frame base b (stopped_at e c)) x.

(** The exit goes where no code of the kernel is, or ends in another window than [x]. *)
Definition astray (x : Z) (c : cpu) : Prop :=
  match user_exception c with
  | Ok _ c' => sr c' WINDOWBASE <> x
  | Stop w _ => w = Fault
  end.

Lemma resumes b c s :
  faulting g_kernel_stacks g_fast_interrupts base b c -> resumable b c -> frame (kernel_of s) = user_frame base b c ->
  forall b2 c2 e2, taking b2 e2 c2 -> ends_in b2 e2 c2 s -> fits b2 e2 c2 b ->
  wp user_exception (fun next c' => undisturbed b c c' /\ sr c' PS = sr c PS .& .~ 16 /\ next = sr c EPC1) c2.
Proof using Hbase Hfuel Hback Hpid Haddr Hjx.
  intros Hc [Hs Hfr Hst] E b2 c2 e2 [Hf2 Hv2] Ht Ha. unfold ends_in in Ht. rewrite E in Ht.
  pose proof (user_frame_size base b c Hfr Hst) as Hn.
  eapply wp_mono.
  - apply (exits_at g_kernel_stacks g_fast_interrupts base b2 PIDCTRL_PID_CONFIRM back windows addr handler jx
      Hbase Hfuel Hback Hpid Haddr Hjx c2 e2 (user_frame base b c)); try done; [|lia].
    apply (user_frame_restorable g_kernel_stacks g_fast_interrupts); [done|done|lia].
  - intros next c'. by apply (exited_undisturbed g_kernel_stacks g_fast_interrupts base).
Qed.

(** Whatever the first registers of the frame. *)
Lemma strays b c r s :
  restorable (set_ar r (user_frame base b c)) -> windowsize (user_frame base b c) <= 13 ->
  frame (kernel_of s) = set_ar r (user_frame base b c) ->
  forall b2 c2 e2, taking b2 e2 c2 -> ends_in b2 e2 c2 s -> clashes b2 e2 c2 b -> astray b c2.
Proof using Hbase Hfuel Hback Haddr Hjx.
  clear Hpid. intros Hr Hn E b2 c2 e2 [Hf2 Hv2] Ht Ha. unfold ends_in in Ht. rewrite E in Ht.
  exact (astray_at g_kernel_stacks g_fast_interrupts base b2 PIDCTRL_PID_CONFIRM back windows addr handler jx
    Hbase Hfuel Hback Haddr Hjx c2 e2 (set_ar r (user_frame base b c)) Hf2 Hv2 Ht Ha Hr Hn).
Qed.

Lemma resumable_frame b c r :
  faulting g_kernel_stacks g_fast_interrupts base b c -> resumable b c -> restorable (set_ar r (user_frame base b c)).
Proof using Type.
  intros Hc [Hs Hfr Hst]. pose proof (user_frame_size base b c Hfr Hst) as Hn.
  destruct (user_frame_restorable g_kernel_stacks g_fast_interrupts base b c Hc Hs (proj1 Hn)) as [].
  by constructor.
Qed.

(** C11: Preemption, down to the processor. The entry of an interrupt hands the registers of the
    task that runs to the kernel, whose handler returns. Whenever a later entry, after any
    others had the CPU, ends with this task as the current one, what the task gets depends on
    the register that the exit takes for the window base, which the entries do not set
    ([fits], [clashes]). If it agrees with the window of the task, as it does when the code
    that was stopped last ran in the same window, the exit goes on at the instruction
    that was interrupted, with every live register of all the task's frames, its window, its
    loop and shift registers. If it does not, and at most 13 frames are spilled, the exit
    goes astray, or ends in another window than the task's. The task's own frames are such
    that they can be restored at all ([resumable]). *)
Theorem preempted_task_resumes s t l status b c :
  drains txfifo_cnt polls -> running s t l -> length status = 3%nat ->
  taking b Interrupts.common_interrupt_entry c -> resumable b c -> frame (kernel_of s) = user_frame base b c ->
  (exists c3, called base b (frame (kernel_of s)) c3 /\
     user_exception c = (handler Interrupts.common_interrupt_entry;; leave) c3) /\
  exists s1, enter_interrupt status s = Ok tt s1 /\
    forall s2 b2 c2 e2, others t s1 s2 -> current_task (kernel_of s2) = Some t ->
      taking b2 e2 c2 -> ends_in b2 e2 c2 s2 ->
      (fits b2 e2 c2 b ->
       wp user_exception (fun next c' => undisturbed b c c' /\ sr c' PS = sr c PS .& .~ 16 /\ next = sr c EPC1) c2) /\
      (clashes b2 e2 c2 b -> windowsize (user_frame base b c) <= 13 -> astray b c2).
Proof using Hends Hcall Hbase Hfuel Hback Hpid Haddr Hjx.
  intros Hdr Hr Hst [Hf Hv] Hru E.
  destruct (interrupt_resumes weak_fails fuel sleeps call txfifo_cnt polls __FILE__ Hends Hcall s t l status Hdr Hr Hst)
    as (s1 & E1 & H1).
  split.
  - rewrite E. by apply (enters_at g_kernel_stacks g_fast_interrupts base b PIDCTRL_PID_CONFIRM back windows addr handler jx
      Hbase Hfuel Hback Haddr Hjx c Interrupts.common_interrupt_entry).
  - exists s1. split; [done|]. intros s2 b2 c2 e2 Ho Hc2 Ht He. destruct (H1 s2 Ho Hc2) as (Efr & _). rewrite E in Efr. split.
    + intros Ha. by apply (resumes b c s2 Hf Hru Efr b2 c2 e2).
    + intros Ha Hn. by apply (strays b c (ar (user_frame base b c)) s2 (resumable_frame b c _ Hf Hru) Hn Efr b2 c2 e2).
Qed.

(** A yield: the result is in [a2], all else is as after the instruction. *)
Lemma returns b c s :
  faulting g_kernel_stacks g_fast_interrupts base b c -> resumable b c ->
  frame (kernel_of s) = set_ar (<[SYSCALL_RET := 0]> (ar (user_frame base b c))) (user_frame base b c) ->
  forall b2 c2 e2, taking b2 e2 c2 -> ends_in b2 e2 c2 s -> fits b2 e2 c2 b ->
  wp user_exception (fun next c' => next = sr c EPC1 /\
    (forall j, 0 <= j < 64 -> live (window_mask (sr c WINDOWSTART) b) j -> rel b c' j = if j =? 2 then 0 else rel b c j) /\
    (forall s, s ∈ [SAR; LBEG; LEND; LCOUNT; WINDOWBASE; WINDOWSTART] -> sr c' s = sr c s)) c2.
Proof using Hbase Hfuel Hback Hpid Haddr Hjx.
  intros Hc Hru E b2 c2 e2 [Hf2 Hv2] Ht Ha. unfold ends_in in Ht. rewrite E in Ht.
  pose proof (user_frame_size base b c (ru_frames _ _ Hru) (ru_size _ _ Hru)) as Hn. set (r := set_ar _ _) in Ht.
  eapply wp_mono.
  - apply (exits_at g_kernel_stacks g_fast_interrupts base b2 PIDCTRL_PID_CONFIRM back windows addr handler jx
      Hbase Hfuel Hback Hpid Haddr Hjx c2 e2 r Hf2 Hv2 Ht Ha); [by apply resumable_frame|exact (proj2 Hn)].
  - intros next c' He. split; [by rewrite (ex_pc _ _ _ He)|]. split.
    + intros j Hj Hl. rewrite (exited_live base b c r next c' j) by done. unfold r. cbn [set_ar ar].
      destruct (Z.eqb_spec j 2) as [->|N].
      * apply list_lookup_total_correct. change (Z.to_nat 2) with SYSCALL_RET. apply list_lookup_insert_eq.
        cbn [user_frame ar]. rewrite length_fmap, length_seq. unfold SYSCALL_RET. lia.
      * rewrite list_lookup_total_insert_ne by (unfold SYSCALL_RET; lia). by apply user_ar.
    + apply (exited_specials g_kernel_stacks g_fast_interrupts base b c r next c' Hc He). by intros [].
Qed.

(** C24: A yield, down to the processor. The kernel runs the next task. Whenever a later entry
    ends with the task that yielded as the current one, what the task gets depends on the same
    register ([fits], [clashes]). If it agrees with the window of the task, the task goes on
    behind its system call, or at the beginning of the loop that the call ends, and every live
    register of its frames is what it was, but for the result, zero, in [a2]. If it does not,
    and at most 13 frames are spilled, the exit goes astray, or ends in another window than
    the task's. The task's own frames are such that they can be restored at all
    ([resumable]). *)
Theorem yielding_task_resumes s t p l b c :
  running s t (p :: l) -> taking b Interrupts.syscall_entry c -> resumable b (behind_syscall c) ->
  frame (kernel_of s) = user_frame base b (behind_syscall c) -> geta 2 c = SYSCALL_SCHED_YIELD ->
  (exists c3, called base b (frame (kernel_of s)) c3 /\
     user_exception c = (handler Interrupts.syscall_entry;; leave) c3) /\
  exists s1, enter_syscall s = Ok tt s1 /\ running s1 p (l ++ [t]) /\
    forall s2 b2 c2 e2, others t s1 s2 -> current_task (kernel_of s2) = Some t ->
      taking b2 e2 c2 -> ends_in b2 e2 c2 s2 ->
      (fits b2 e2 c2 b ->
       wp user_exception (fun next c' => next = sr (behind_syscall c) EPC1 /\
         (forall j, 0 <= j < 64 -> live (window_mask (sr c WINDOWSTART) b) j ->
            rel b c' j = if j =? 2 then 0 else rel b c j) /\
         (forall s, s ∈ [SAR; LBEG; LEND; LCOUNT; WINDOWBASE; WINDOWSTART] -> sr c' s = sr (behind_syscall c) s)) c2) /\
      (clashes b2 e2 c2 b -> windowsize (user_frame base b (behind_syscall c)) <= 13 -> astray b c2).
Proof using Hends Hcall Hbase Hfuel Hback Hpid Haddr Hjx.
  intros Hr [Hf Hv] Hru E Hy.
  pose proof (faulting_behind g_kernel_stacks g_fast_interrupts base b c Hf) as Hfb.
  destruct (behind_same b c) as [Hws Hrel].
  destruct (yield_resumes weak_fails fuel sleeps call txfifo_cnt polls __FILE__ Hends Hcall s t p l Hr)
    as (s1 & E1 & Hr1 & H1).
  { rewrite E. cbn [user_frame ar]. rewrite list_lookup_fmap, lookup_seq_lt by (unfold SYSCALL_NUM; lia).
    cbn [fmap option_fmap option_map]. rewrite decide_True by (left; done). rewrite Hrel. f_equal. rewrite <- Hy.
    symmetry. apply geta_window; apply Hf. }
  split.
  - rewrite E. by apply (enters_at g_kernel_stacks g_fast_interrupts base b PIDCTRL_PID_CONFIRM back windows addr handler jx
      Hbase Hfuel Hback Haddr Hjx c Interrupts.syscall_entry).
  - exists s1. split; [done|]. split; [done|]. intros s2 b2 c2 e2 Ho Hc2 Ht He. destruct (H1 s2 Ho Hc2) as (Efr & _).
    change (frame (returning 0 (kernel_of s))) with
      (set_ar (<[SYSCALL_RET := 0]> (ar (frame (kernel_of s)))) (frame (kernel_of s))) in Efr. rewrite E in Efr. split.
    + intros Ha. eapply wp_mono; [by apply (returns b (behind_syscall c) s2 Hfb Hru Efr b2 c2 e2)|].
      intros next c' (H2 & H3 & H4). rewrite Hws in H3. split; [done|]. split; [|done]. intros j Hj Hlj.
      rewrite H3 by done. by rewrite Hrel.
    + intros Ha Hn. by apply (strays b (behind_syscall c) _ s2 (resumable_frame _ _ _ Hfb Hru) Hn Efr b2 c2 e2).
Qed.
End Preempt.

(** ** Concrete systems *)
Definition ex_idle : timg := Timg (fun _ => 0) [].

Lemma ex_running_with r w :
  length (ar r) = 64%nat -> exists s, running s 1 [2%positive] /\ frame (kernel_of s) = r /\ wdt (kernel_of s) = w.
Proof.
  intros Hr. destruct ex_two_running as [s H].
  destruct (frame_running s _ _ r w (put_kernel (put_wdt w (put_frame r (kernel_of s))) s) H Hr eq_refl eq_refl)
    as (H' & _). eexists. by split_and!.
Qed.

Lemma length_user_frame base b c : length (ar (user_frame base b c)) = 64%nat.
Proof. cbn [user_frame ar]. by rewrite length_fmap, length_seq. Qed.

Abbreviation ex_enter_syscall := (Running.enter_syscall never_fails 1 3 no_callback ex_fifo 1 []).
Abbreviation ex_enter_interrupt := (Running.enter_interrupt never_fails 1 3 ex_fifo 1 [0; 0; 0]).
Abbreviation ex_others p := (rtc (fun x y => ex_step x y /\ current_task (kernel_of x) <> Some p)).

(** The end of the time slice: the other task. *)
Lemma ex_preempted s s1 :
  running s 1 [2%positive] -> wdt (kernel_of s) = ex_expired -> ex_enter_interrupt s = Ok tt s1 -> running s1 2 [1%positive].
Proof.
  intros Hr Hw E. destruct (enter_interrupt_cases never_fails 1 3 ex_fifo 1 never_fails_ends s 1 [2%positive] [0; 0; 0] s1 Hr E)
    as (Hm & Hlay & Hcb & _).
  destruct (interrupt_cases never_fails 1 no_wakeup 3 ex_fifo 1 (sys s) [2%positive] 1 [0; 0; 0]
    never_fails_ends ex_drains (rn_sched _ _ _ Hr) eq_refl) as (H & _).
  destruct H as (p & l & k & Hq & E' & Hwf & Hho); [unfold slice_over; by rewrite Hw|apply (rn_current _ _ _ Hr)|].
  injection Hq as <- <-. unfold Running.enter_interrupt in E. rewrite (zoom_ok (H := system_machine) _ s tt _ E') in E.
  injection E as <-.
  apply (handed_over_running s 1 [2%positive] 2 [1%positive] TASK_STATUS_RUNNABLE (frame (kernel_of s)) _ Hr (rn_frame _ _ _ Hr));
    try done. cbn. by destruct (kernel_of s).
Qed.

(** The other task computes something, makes the system call, and the first has its turn. *)
Lemma ex_turn s : running s 2 [1%positive] -> exists s2, ex_others 1%positive s s2 /\ running s2 1 [2%positive].
Proof.
  intros Hr. set (r := TaskRegs (replicate 64 SYSCALL_SCHED_YIELD) 0 0 0 0 0 0 0 0 0 0).
  set (s' := put_kernel (put_frame r (kernel_of s)) s).
  destruct (frame_running s 2 [1%positive] r (wdt (kernel_of s)) s' Hr eq_refl) as (Hr' & _);
    [by destruct (kernel_of s)|done|].
  destruct (yield_resumes never_fails 1 3 no_callback ex_fifo 1 [] never_fails_ends no_callback_layout s' 2 1 [] Hr' eq_refl)
    as (s2 & E2 & Hr2 & _).
  exists s2. split; [|done]. apply (rtc_l _ s s'); [|apply rtc_once]; split.
  - by apply run_compute.
  - by rewrite (rn_current _ _ _ Hr).
  - by apply run_syscall.
  - by rewrite (rn_current _ _ _ Hr').
Qed.

(** A C function of the system call that ends with the frame [r], and leaves [v] elsewhere. *)
Definition ex_writes (r : task_regs) (m : Z -> Z) : Z -> Z :=
  fun a => if bool_decide (ex_base <= a < ex_base + TASK_REGS_SIZE) then regs_bytes r !!! Z.to_nat (a - ex_base) else m a.
Definition ex_switches (v : Z) (r : task_regs) (e : entry) : M cpu unit :=
  match e with Interrupts.syscall_entry => ex_leaves v (ex_writes r) | _ => ex_clears (fun m => m) end.

Lemma ex_writes_frame r m : regs_typed r -> length (regs_bytes r) = 292%nat -> frame_of ex_base (ex_writes r m) = r.
Proof.
  intros Hr Hlen. unfold frame_of. rewrite <- (regs_bytes_roundtrip r Hr) at 2. f_equal. apply list_eq. intros i.
  rewrite list_lookup_fmap. destruct (decide (i < 292)%nat) as [Hi|Hi].
  - rewrite lookup_seqZ_lt by (unfold TASK_REGS_SIZE; lia). cbn [fmap option_fmap option_map]. unfold ex_writes.
    rewrite bool_decide_true by (unfold TASK_REGS_SIZE; lia). replace (Z.to_nat _) with i by lia.
    symmetry. apply list_lookup_lookup_total_lt. lia.
  - rewrite lookup_seqZ_ge by (unfold TASK_REGS_SIZE; lia). symmetry. apply lookup_ge_None_2. lia.
Qed.

(** The processor on which the other task makes its system call, in the window [b]. *)
Definition ex_yielder (b : Z) : cpu := seta 2 SYSCALL_SCHED_YIELD (sets WINDOWBASE b (ex_cpu 0xAAAA SyscallCause)).
Abbreviation ex_c := (ex_cpu 0xAAAA Level1InterruptCause).
Abbreviation ex_yield := (ex_yielder 3).
Abbreviation ex_taking := (taking ex_stacks ex_causes ex_base ex_addr).

Lemma ex_yielder_taking b :
  0 <= b < 16 -> Z.testbit 0xAAAA b = true -> ex_taking b Interrupts.syscall_entry (ex_yielder b).
Proof.
  intros Hb Hl. split; [|split; vm_compute; reflexivity].
  destruct (ex_faulting 0xAAAA SyscallCause) as []; [done..|]. constructor; try done.
  - apply regs_ok_seta; [|done]. exact fa_regs.
  - intros s. with_strategy transparent [seta sets] (cbn). unfold upd. case_decide as E; [subst; cbn; lia|]. exact (fa_special s).
Qed.

(** It ends with the frame, and with an agreeing register when [v] is the window base or the
    code was stopped there. *)
Lemma ex_switches_ends b v r s :
  0 <= b < 16 -> 0 <= v < 2 ^ 32 -> regs_typed r -> length (regs_bytes r) = 292%nat -> frame (kernel_of s) = r ->
  ends_in ex_base (ex_switches v r) b Interrupts.syscall_entry (ex_yielder b) s /\
  (b = windowbase r \/ v mod 16 = windowbase r -> 0 <= windowbase r < 16 ->
   fits ex_base (ex_switches v r) b Interrupts.syscall_entry (ex_yielder b) (windowbase r)).
Proof.
  intros Hb Hv Hr Hlen E. destruct ex_hyps as (H1 & _). split.
  - intros c Hc. rewrite E. eapply wp_mono; [exact (ex_leaves_ok ex_base b v (ex_writes r) _ c H1 Hb Hv Hc)|].
    intros [] c' (H & _). by rewrite ex_writes_frame in H.
  - intros Ha Hw c Hc. eapply wp_mono; [exact (ex_leaves_ok ex_base b v (ex_writes r) _ c H1 Hb Hv Hc)|].
    intros [] c' (_ & W & H). destruct (decide (windowbase r = b)) as [->|N].
    + unfold leftover. rewrite decide_True by done. by apply Z.mod_small.
    + rewrite H by done. destruct Ha; [by subst|done].
Qed.

(** The watchdog takes the processor away in the window 3, the other task computes and yields in
    the same window, and the first goes on. *)
Lemma preempted_task_resumes_witness :
  let r := user_frame ex_base 3 ex_c in
  exists s s1 s2, running s 1 [2%positive] /\ frame (kernel_of s) = r /\ ex_enter_interrupt s = Ok tt s1 /\
    running s1 2 [1%positive] /\ ex_others 1%positive s1 s2 /\ running s2 1 [2%positive] /\
    wp (user_exception ex_stacks ex_causes (ex_jx (ex_switches 0 r)))
      (fun next c' => undisturbed 3 ex_c c' /\ sr c' PS = 0x50000 /\ next = 0x40090040) (ex_yielder 3).
Proof.
  intros r. destruct (ex_running_with r ex_expired (length_user_frame _ _ _)) as (s & Hr & Hfr & Hw).
  destruct ex_hyps as (H1 & H2 & H3 & H4 & H5 & H6). set (h := ex_switches 0 r).
  assert (ex_taking 3 Interrupts.common_interrupt_entry ex_c) as Ht by (split; [by apply ex_faulting|split; vm_compute; reflexivity]).
  assert (resumable ex_base 3 ex_c) as Hru by (split; [done|vm_compute; discriminate|discriminate]).
  destruct (preempted_task_resumes never_fails 1 3 no_callback ex_fifo 1 [] never_fails_ends no_callback_layout
    ex_stacks ex_causes ex_base ex_confirm ex_back 16 ex_addr h (ex_jx h) H1 H2 H3 H4 H5 (H6 h)
    s 1 [2%positive] [0; 0; 0] 3 ex_c ex_drains Hr eq_refl Ht Hru Hfr) as (_ & s1 & E & H).
  pose proof (ex_preempted s s1 Hr Hw E) as Hr1. destruct (ex_turn s1 Hr1) as (s2 & Ho & Hr2).
  exists s, s1, s2. do 6 (split; [done|]).
  assert (length (regs_bytes r) = 292%nat) as Hlen by (vm_compute; reflexivity).
  assert (regs_typed r) as Hty by (apply (bool_decide_unpack _); vm_compute; exact I).
  assert (frame (kernel_of s2) = r) as Hfr2.
  { destruct (interrupt_resumes never_fails 1 3 no_callback ex_fifo 1 [] never_fails_ends no_callback_layout s 1 [2%positive]
      [0; 0; 0] ex_drains Hr eq_refl) as (x & Ex & Hx). rewrite E in Ex. injection Ex as <-.
    destruct (Hx s2 Ho (rn_current _ _ _ Hr2)) as [-> _]. exact Hfr. }
  destruct (ex_switches_ends 3 0 r s2 ltac:(done) ltac:(done) Hty Hlen Hfr2) as [He Ha].
  destruct (H s2 3 (ex_yielder 3) Interrupts.syscall_entry Ho (rn_current _ _ _ Hr2)
    (ex_yielder_taking 3 ltac:(done) eq_refl) He) as [Hf _].
  exact (Hf (Ha (or_introl eq_refl) ltac:(done))).
Defined.

(** The task yields in the window 3, the other one computes and yields in the window 5, with 3
    where the exit looks for the window base, and the first goes on with zero in [a2]. *)
Lemma yielding_task_resumes_witness :
  let f := user_frame ex_base 3 (behind_syscall ex_yield) in
  let r := set_ar (<[SYSCALL_RET := 0]> (ar f)) f in
  exists s s1 s2, running s 1 [2%positive] /\ frame (kernel_of s) = f /\ ex_enter_syscall s = Ok tt s1 /\
    running s1 2 [1%positive] /\ ex_others 1%positive s1 s2 /\ running s2 1 [2%positive] /\
    wp (user_exception ex_stacks ex_causes (ex_jx (ex_switches 3 r)))
      (fun next c' => next = 0x40090000 /\ sr c' WINDOWBASE = 3 /\ rel 3 c' 2 = 0 /\ rel 3 c' 3 = 15) (ex_yielder 5).
Proof.
  intros f r. destruct (ex_running_with f ex_expired (length_user_frame _ _ _)) as (s & Hr & Hfr & _).
  destruct ex_hyps as (H1 & H2 & H3 & H4 & H5 & H6). set (h := ex_switches 3 r).
  assert (resumable ex_base 3 (behind_syscall ex_yield)) as Hru by (split; [done|vm_compute; discriminate|discriminate]).
  destruct (yielding_task_resumes never_fails 1 3 no_callback ex_fifo 1 [] never_fails_ends no_callback_layout
    ex_stacks ex_causes ex_base ex_confirm ex_back 16 ex_addr h (ex_jx h) H1 H2 H3 H4 H5 (H6 h)
    s 1 2 [] 3 ex_yield Hr (ex_yielder_taking 3 ltac:(done) eq_refl) Hru Hfr eq_refl) as (_ & s1 & E & Hr1 & H).
  destruct (ex_turn s1 Hr1) as (s2 & Ho & Hr2).
  exists s, s1, s2. do 6 (split; [done|]).
  assert (length (regs_bytes r) = 292%nat) as Hlen by (vm_compute; reflexivity).
  assert (regs_typed r) as Hty by (apply (bool_decide_unpack _); vm_compute; exact I).
  assert (frame (kernel_of s2) = r) as Hfr2.
  { destruct (yield_resumes never_fails 1 3 no_callback ex_fifo 1 [] never_fails_ends no_callback_layout s 1 2 [] Hr)
      as (x & Ex & _ & Hx); [by rewrite Hfr|]. rewrite E in Ex. injection Ex as <-.
    destruct (Hx s2 Ho (rn_current _ _ _ Hr2)) as [-> _].
    change (frame (returning 0 (kernel_of s))) with
      (set_ar (<[SYSCALL_RET := 0]> (ar (frame (kernel_of s)))) (frame (kernel_of s))). by rewrite Hfr. }
  destruct (ex_switches_ends 5 3 r s2 ltac:(done) ltac:(done) Hty Hlen Hfr2) as [He Ha].
  destruct (H s2 5 (ex_yielder 5) Interrupts.syscall_entry Ho (rn_current _ _ _ Hr2)
    (ex_yielder_taking 5 ltac:(done) eq_refl) He) as [Hf _].
  eapply wp_mono; [exact (Hf (Ha (or_intror eq_refl) ltac:(done)))|]. intros next c' (E1 & E2 & E3).
  split; [exact E1|]. split; [|split].
  - rewrite E3 by (do 4 right; left). vm_compute. reflexivity.
  - exact (E2 2 ltac:(done) ltac:(by left)).
  - rewrite (E2 3 ltac:(done) ltac:(by left)). vm_compute. reflexivity.
Defined.
