(* ===== verification/User.v ===== *)
(** * User programs (apps/shared/syscall.h, kernel/src/vdso/vdso.c, apps/init/main.c)

    A user program is the sequence of what it does that others can see: writes to memory and
    system calls; what it does with its registers is left open ([user_step]). The wrappers of
    the system calls, the trampoline of the vDSO that every task starts in, and the
    demonstration application. *)
From Stdlib Require Import ZArith Lia Ascii String.
From stdpp Require Import base tactics numbers list gmap.
From S2P Require Import Prelude Umem Mmu Timg Printf Console Task Scheduler SchedSpec Syscall.
From S2P Require Import Interrupts Loader Running.

(** ** Programs *)
Inductive program (A : Type) : Type :=
  | Return (a : A)
  | Forever
  | Store (addr byte : Z) (k : program A)
  | Trap (registers : list (nat * Z)) (k : Z -> program A).
Arguments Return {A} a.
Arguments Forever {A}.
Arguments Store {A} addr byte k.
Arguments Trap {A} registers k.

#[export] Instance program_ret : MRet program := @Return.
#[export] Instance program_bind : MBind program :=
  fix bind {A B} (f : A -> program B) (m : program A) :=
    match m with
    | Return a => f a
    | Forever => Forever
    | Store addr byte k => Store addr byte (bind f k)
    | Trap registers k => Trap registers (fun v => bind f (k v))
    end.

(** ** syscall.h: the numbers (with those of Scheduler.v), and the registers at the SYSCALL
    instruction *)
Definition SYSCALL_SPILL : Z := 0x00.
Definition SYSCALL_XTENSA : Z := 0x01.

Definition syscall0 (syscall : Z) : program Z :=
  Trap [(2%nat, syscall)] Return.
Definition syscall2 (syscall : Z) (arg0 arg1 : Z) : program Z :=
  Trap [(2%nat, syscall); (6%nat, arg0); (3%nat, arg1)] Return.

Definition sys_sched_park : program unit := _ ← syscall0 SYSCALL_SCHED_PARK; mret tt.
Definition sys_sched_yield : program unit := _ ← syscall0 SYSCALL_SCHED_YIELD; mret tt.
Definition sys_sched_drop : program unit := _ ← syscall0 SYSCALL_SCHED_DROP; mret tt.
Definition sys_log (str size : Z) : program unit := _ ← syscall2 SYSCALL_LOG str size; mret tt.

(** ** vdso.c *)
Definition task_trampoline (entry : program unit) : program unit :=
  _ ← entry; sys_sched_drop.

(** ** The demonstration application; [buffer] is where its static buffer is linked to *)
Definition put (addr byte : Z) : program unit := Store addr byte (mret tt).
Definition _start (buffer : Z) : program unit :=
  _ ← put (buffer + 0) 72;
  _ ← put (buffer + 1) 101;
  _ ← put (buffer + 2) 108;
  _ ← put (buffer + 3) 108;
  _ ← put (buffer + 4) 111;
  _ ← put (buffer + 5) 33;
  _ ← sys_log buffer 6;
  Forever.

(** ** Running a program as the task [c] *)

(** It runs, or it waits for the result of a system call. *)
Inductive thread : Type := Runs (p : program unit) | Waits (k : Z -> program unit).

Definition set_args (registers : list (nat * Z)) (r : task_regs) : task_regs :=
  foldl (fun r x => set_ar (<[x.1 := u32 x.2]> (ar r)) r) r registers.

Definition with_frame (r : task_regs) (s : system) : system := put_kernel (put_frame r (kernel_of s)) s.

Section User.
Context (weak_fails : nat -> bool) (fuel sleeps : nat) (call : Z -> Z -> M kernel unit).
Context (txfifo_cnt : nat -> Z) (polls : nat) (__FILE__ : list Z) (c : loc).

Abbreviation enter_syscall := (enter_syscall weak_fails fuel sleeps call txfifo_cnt polls __FILE__).
Abbreviation enter_interrupt := (enter_interrupt weak_fails fuel sleeps txfifo_cnt polls).
Abbreviation run_step := (run_step weak_fails fuel sleeps call txfifo_cnt polls __FILE__).

(** The task goes on with its program when it is the current one; the others do anything. The
    registers that a program does not name may hold anything when it runs, but between a
    system call and its return they are the kernel's. *)
Inductive user_step : system * thread -> system * thread -> Prop :=
  | user_compute s p r : current_task (kernel_of s) = Some c -> length (ar r) = 64%nat ->
      user_step (s, Runs p) (with_frame r s, Runs p)
  | user_write s s' addr byte k : current_task (kernel_of s) = Some c ->
      user_store addr byte s = Ok true s' -> user_step (s, Runs (Store addr byte k)) (s', Runs k)
  | user_trap s s' registers k r : current_task (kernel_of s) = Some c -> length (ar r) = 64%nat ->
      enter_syscall (with_frame (set_args registers r) s) = Ok tt s' ->
      user_step (s, Runs (Trap registers k)) (s', Waits k)
  | user_return s k v : current_task (kernel_of s) = Some c -> ar (frame (kernel_of s)) !! 2%nat = Some v ->
      user_step (s, Waits k) (s, Runs (k v))
  | user_interrupt s s' status th : current_task (kernel_of s) = Some c -> length status = 3%nat ->
      enter_interrupt status s = Ok tt s' -> user_step (s, th) (s', th)
  | user_time s w th : user_step (s, th) (put_kernel (put_wdt w (kernel_of s)) s, th)
  | user_other s s' th : current_task (kernel_of s) <> Some c -> run_step s s' -> user_step (s, th) (s', th).
End User.
