(* ===== verification/UserSpec.v ===== *)
(** * What user programs can rely on

    The pages a program writes to are its own; a system call comes back to its caller with
    the registers it was made with; the demonstration application greets, whatever other
    tasks do meanwhile; a task whose entry returns takes the kernel with it. *)
From Stdlib Require Import ZArith Lia Ascii String.
From stdpp Require Import base tactics numbers list gmap.
From S2P Require Import Prelude Umem Mmu MmuInv MmuSpec Dport Timg Printf PrintfSpec Console Task.
From S2P Require Import TaskSpec Scheduler SchedSpec SchedThm Syscall SyscallSpec Interrupts Layout.
From S2P Require Import InterruptsSpec Loader LoaderSpec Vm Running RunningSpec User.

(** ** Writes of user code *)
Lemma hw_page_complete t pid v q : grants t pid v q -> is_Some (hw_page t pid (Z.of_nat v)).
Proof.
  intros [_ Hq]. unfold hw_page. apply fmap_is_Some. by apply list_find_elem_of with (TableReg (Z.of_nat v) pid);
    [eapply list_elem_of_lookup_2|].
Qed.

Lemma hw_page_of s c l ty v :
  running s c l ->
  hw_page (match ty with MMU_SPACE_CODE => immu_table | MMU_SPACE_DATA => dmmu_table end (mmu (kernel_of s)))
    (pid_new_reg (mmu (kernel_of s))) (Z.of_nat v) = page_of (kernel_of s) c ty v.
Proof.
  intros Hr. pose proof (fun q => granted_page s c l ty v q Hr) as Hg.
  destruct (hw_page _ _ _) as [q|] eqn:E.
  - apply hw_page_grants in E; [|lia]. rewrite Nat2Z.id in E. symmetry. by apply Hg.
  - destruct (page_of _ c ty v) as [q|]; [|done]. destruct (hw_page_complete _ _ _ _ (proj2 (Hg q) eq_refl)) as [? H].
    by rewrite E in H.
Qed.

Lemma page_offset_data i o : 0 <= i < 16 -> 0 <= o < USER_PAGE_SIZE -> page_offset USER_DATA_BASE (DATA_PAGE_ADDR i + o) = o.
Proof.
  unfold page_offset, DATA_PAGE_ADDR, USER_PAGE_SIZE, USER_DATA_BASE. intros Hi Ho.
  rewrite (wrapu_small 32 (i * _ + _)), wrapu_small by lia.
  replace (i * 8192 + 1073479680 + o - 1073479680) with (o + i * 8192) by lia.
  rewrite Z.mod_add by lia. apply Z.mod_small. lia.
Qed.

Lemma user_store_data s c l v o b :
  running s c l -> (v < 16)%nat -> 0 <= o < USER_PAGE_SIZE ->
  user_store (DATA_PAGE_ADDR (Z.of_nat v) + o) b s =
    match page_of (kernel_of s) c MMU_SPACE_DATA v with
    | Some q => Ok true (store_data q o (u8 b) s)
    | None => Ok false s
    end.
Proof.
  intros Hr Hv Ho. unfold user_store. rewrite data_page_index, page_offset_data by lia.
  rewrite (proj2 (Z.ltb_lt _ _)) by (unfold MAX_PAGE_COUNT; lia).
  by rewrite (hw_page_of s c l MMU_SPACE_DATA v Hr).
Qed.

(** ** Reading what a task wrote *)
Lemma private_load s c v q o :
  page_of (kernel_of s) c MMU_SPACE_DATA v = Some q -> (v < 15)%nat -> 0 <= o < USER_PAGE_SIZE ->
  private_byte s c MMU_SPACE_DATA v o = load_data q o s.
Proof.
  intros Hq Hv Ho. unfold private_byte. rewrite Hq. cbn.
  rewrite bool_decide_true by done. unfold saved_area. rewrite bool_decide_false by lia. done.
Qed.

Lemma private_name s cur l c t u o :
  running s cur l -> tasks (kernel_of s) !! c = Some t -> ucontexts (kernel_of s) !! ucontext t = Some u ->
  0 <= o < 64 -> private_byte s c MMU_SPACE_DATA 15 (STACK_SIZE + o) = name u !! Z.to_nat o.
Proof.
  intros Hr Ht Hu Ho. pose proof (sc_memory _ _ _ (rn_sched _ _ _ Hr)) as Hmem.
  destruct (kw_ucontext _ Hmem c t Ht) as (q & sp & Hsp & Hm & Ha & _).
  assert (page_of (kernel_of s) c MMU_SPACE_DATA 15 = Some q) as Hq by (apply page_of_maps; eauto).
  destruct (rn_shape _ _ _ Hr c u) as (H1 & H2 & _); [unfold task_context; by rewrite Ht|].
  unfold private_byte. rewrite Hq. cbn [mbind option_bind]. unfold STACK_SIZE in *.
  rewrite bool_decide_true by (unfold USER_PAGE_SIZE; lia). unfold saved_area.
  rewrite bool_decide_false by (unfold STACK_SIZE; lia). cbn [andb negb page_byte]. unfold load_data.
  rewrite <- Ha, Hu. rewrite (proj2 (Z.ltb_lt _ _)) by (unfold sizeof_task_ucontext, STACK_SIZE, TASK_REGS_SIZE; lia).
  unfold context_bytes. rewrite lookup_app_r by lia. rewrite lookup_app_l by lia. f_equal. lia.
Qed.

Lemma bytes_from_prefix s q bs : forall o n,
  0 <= q < 16 -> 0 <= o -> o + len bs <= USER_PAGE_SIZE -> (length bs <= n)%nat ->
  (forall j b, bs !! j = Some b -> load_data q (o + Z.of_nat j) s = Some b) ->
  exists rest, bytes_from n (DATA_PAGE_ADDR q + o) s = bs ++ rest.
Proof.
  induction bs as [|b bs IH]; intros o n Hq Ho Hlen Hn Hb; [by eexists|].
  unfold len in *. cbn [length] in *. destruct n as [|n]; [lia|]. cbn [bytes_from].
  rewrite data_page_index, page_offset_data by lia. pose proof (Hb 0%nat b eq_refl) as H0.
  rewrite Z.add_0_r in H0. rewrite H0. rewrite <- Z.add_assoc.
  destruct (IH (o + 1) n) as [rest ->]; [done|lia|lia|lia| |by exists rest].
  intros j x Hj. rewrite <- (Hb (S j) x Hj). f_equal. lia.
Qed.

Lemma user_data_frame r s a : user_data (with_frame r s) a = user_data s a.
Proof.
  unfold user_data. generalize (Z.to_nat (0x3FFE0000 - a)) as n. intros n. revert a.
  induction n as [|n IH]; intros a; [done|]. cbn [bytes_from]. by rewrite IH.
Qed.

(** ** Programs on the running system *)
Section User.
Context (weak_fails : nat -> bool) (fuel sleeps : nat) (call : Z -> Z -> M kernel unit).
Context (txfifo_cnt : nat -> Z) (polls : nat) (__FILE__ : list Z) (c : loc).
Hypothesis (Hends : cas_ends weak_fails fuel) (Hcall : forall f x, keeps_layout (call f x)).

Abbreviation enter_syscall := (enter_syscall weak_fails fuel sleeps call txfifo_cnt polls __FILE__).
Abbreviation enter_interrupt := (enter_interrupt weak_fails fuel sleeps txfifo_cnt polls).
Abbreviation run_step := (run_step weak_fails fuel sleeps call txfifo_cnt polls __FILE__).
Abbreviation user_step := (user_step weak_fails fuel sleeps call txfifo_cnt polls __FILE__ c).

Lemma length_set_args registers r : length (ar (set_args registers r)) = length (ar r).
Proof using Type.
  revert r. induction registers as [|x registers IH]; intros r; [done|]. etransitivity; [apply IH|apply length_insert].
Qed.

(** A program's step is one or two of the system's. *)
Lemma user_step_runs s s' th th' : user_step (s, th) (s', th') -> rtc run_step s s'.
Proof using Type.
  intros Hs. inversion Hs as [? p r Hc Hlen|? ? addr byte k Hc E|? ? registers k r Hc Hlen E|? k v Hc Hv
    |? ? status ? Hc Hst E|? w|? ? ? Hc Hrun]; subst.
  - by apply rtc_once, run_compute.
  - by eapply rtc_once, run_store.
  - apply (rtc_l _ _ (with_frame (set_args registers r) s)); [apply run_compute; by rewrite length_set_args|].
    by apply rtc_once, run_syscall.
  - done.
  - by eapply rtc_once, Running.run_interrupt.
  - apply rtc_once, run_time.
  - by apply rtc_once.
Qed.

(** What the task [c] finds in its memory after a step that does not write. *)
Definition same_for (s s' : system) : Prop :=
  forall ty v, (is_Some (page_of (kernel_of s') c ty v) <-> is_Some (page_of (kernel_of s) c ty v)) /\
    forall o, private_byte s' c ty v o = private_byte s c ty v o.

Lemma same_memory_for s s' : same_memory s s' -> same_for s s'.
Proof using Type. intros H ty v. destruct (H c ty v) as [-> Ho]. by split. Qed.

Lemma with_frame_running s cur l r :
  running s cur l -> length (ar r) = 64%nat -> running (with_frame r s) cur l /\ same_memory s (with_frame r s).
Proof using Type.
  intros Hr Hlen. destruct (frame_running s cur l r (wdt (kernel_of s)) (with_frame r s) Hr Hlen) as (H1 & H2 & _);
    [unfold with_frame; by destruct (kernel_of s)|done|done].
Qed.

Lemma user_step_cases s s' th th' cur l :
  running s cur l -> user_step (s, th) (s', th') ->
  (exists cur' l', running s' cur' l') /\
  ((same_for s s' /\
    (th' = th \/ (exists registers k, th = Runs (Trap registers k) /\ th' = Waits k) \/
      (exists k v, th = Waits k /\ th' = Runs (k v)))) \/
   (exists addr byte k, cur = c /\ th = Runs (Store addr byte k) /\ th' = Runs k /\
      user_store addr byte s = Ok true s')).
Proof using Hends Hcall.
  intros Hr Hs. inversion Hs as [? p r Hc Hlen|? ? addr byte k Hc E|? ? registers k r Hc Hlen E|? k v Hc Hv
    |? ? status ? Hc Hst E|? w|? ? ? Hc Hrun]; subst.
  - destruct (with_frame_running s cur l r Hr Hlen) as [Hr' Hsm]. split; [eauto|].
    left. split; [by apply same_memory_for|auto].
  - assert (cur = c) as -> by (pose proof (rn_current _ _ _ Hr); congruence). split; [|right; eauto 10].
    destruct (user_store_page s c l addr byte s' Hr E) as (ty & v & q & o & Hq & _ & ->).
    destruct (store_running s c l ty v q o (u8 byte) Hr Hq) as [Hr' _]. eauto.
  - destruct (with_frame_running s cur l (set_args registers r) Hr) as [Hr1 Hsm1]; [by rewrite length_set_args|].
    destruct (enter_syscall_running weak_fails fuel sleeps call txfifo_cnt polls __FILE__ Hends Hcall
      _ _ _ s' Hr1 E) as [Hsm2 Hr2].
    split; [done|]. left. split; [|eauto 10]. intros ty v.
    destruct (same_memory_for _ _ Hsm1 ty v) as [A1 A2], (same_memory_for _ _ Hsm2 ty v) as [B1 B2].
    split; [by rewrite B1|]. intros o. by rewrite B2.
  - split; [eauto|]. left. split; [by intros ? ?|eauto 10].
  - destruct (enter_interrupt_running weak_fails fuel sleeps txfifo_cnt polls Hends _ _ _ status s' Hr E) as (Hsm & Hr' & _).
    split; [done|]. left. split; [by apply same_memory_for|auto].
  - destruct (frame_running s cur l (frame (kernel_of s)) w (put_kernel (put_wdt w (kernel_of s)) s) Hr (rn_frame _ _ _ Hr))
      as (Hr' & Hsm & _); [by destruct (kernel_of s)|done|]. split; [eauto|]. left. split; [by apply same_memory_for|auto].
  - destruct (step_away weak_fails fuel sleeps call txfifo_cnt polls __FILE__ Hends Hcall s s' cur l c Hr Hrun)
      as [Hr' Hsame]; [intros ->; apply Hc, (rn_current _ _ _ Hr)|]. split; [done|]. left. split; [exact Hsame|auto].
Qed.

(** ** The greeting of the demonstration application *)
Definition hello : list Z := txt "Hello!".
Definition log_registers (buffer : Z) : list (nat * Z) :=
  [(2%nat, SYSCALL_LOG); (6%nat, buffer); (3%nat, 6)].

(** The program from its [i]-th write on. *)
Definition greeting (buffer : Z) (i : nat) : program unit :=
  foldr (fun x k => Store (buffer + x.1) x.2 k) (Trap (log_registers buffer) (fun _ => Forever))
    (drop i (zip (seqZ 0 6) hello)).

Lemma start_greeting buffer : task_trampoline (_start buffer) = greeting buffer 0.
Proof using Type. reflexivity. Qed.

Lemma greeting_end buffer : greeting buffer 6 = Trap (log_registers buffer) (fun _ => Forever).
Proof using Type. reflexivity. Qed.

Lemma greeting_next buffer i :
  (i < 6)%nat -> exists b, hello !! i = Some b /\ 0 <= b < 256 /\
    greeting buffer i = Store (buffer + Z.of_nat i) b (greeting buffer (S i)).
Proof using Type.
  intros Hi. do 6 (destruct i as [|i]; [eexists; split; [vm_compute; reflexivity|split; [lia|reflexivity]]|]). lia.
Qed.

(** How many writes are left. *)
Fixpoint stores (p : program unit) : nat :=
  match p with Store _ _ k => S (stores k) | _ => 0 end.

Lemma stores_greeting buffer i : (i <= 6)%nat -> stores (greeting buffer i) = (6 - i)%nat.
Proof using Type. intros Hi. do 7 (destruct i as [|i]; [reflexivity|]). lia. Qed.

Section Greeting.
Context (v : nat) (nm pad : list Z) (x : Z).
Hypothesis (Hv : (v < 15)%nat) (Hnm : Forall (fun z => z <> 0) nm) (Hnl : len nm < 64)
  (Hpad : length (nm ++ 0 :: pad) = 64%nat).

Abbreviation buffer := (DATA_PAGE_ADDR (Z.of_nat v)).

(** The invariant: which letters are written, the name, and some byte behind the buffer. *)
Record greets (s : system) (th : thread) : Prop := {
  gr_page : is_Some (page_of (kernel_of s) c MMU_SPACE_DATA v);
  gr_name : forall o, 0 <= o < 64 ->
    private_byte s c MMU_SPACE_DATA 15 (STACK_SIZE + o) = (nm ++ 0 :: pad) !! Z.to_nat o;
  gr_behind : private_byte s c MMU_SPACE_DATA v 6 = Some x;
  gr_stage : (exists i, (i <= 6)%nat /\ th = Runs (greeting buffer i) /\ forall j, (j < i)%nat ->
      private_byte s c MMU_SPACE_DATA v (Z.of_nat j) = hello !! j) \/
    (exists k, th = Waits k /\ forall z, k z = Forever) \/ th = Runs Forever;
}.

Lemma greets_same s s' th : same_for s s' -> greets s th -> greets s' th.
Proof using Type.
  intros Hs [H1 H2 H3 H4]. constructor.
  - by apply Hs.
  - intros o Ho. destruct (Hs MMU_SPACE_DATA 15%nat) as [_ ->]. by apply H2.
  - destruct (Hs MMU_SPACE_DATA v) as [_ ->]. done.
  - destruct H4 as [(i & Hi & -> & Hb)|H4]; [left; exists i|by right].
    split; [done|]. split; [done|]. intros j Hj. destruct (Hs MMU_SPACE_DATA v) as [_ ->]. by apply Hb.
Qed.

Lemma greeting_inj i j : (i <= 6)%nat -> (j <= 6)%nat -> greeting buffer i = greeting buffer j -> i = j.
Proof using Type.
  clear Hv Hnl Hpad. intros Hi Hj E. apply (f_equal stores) in E. rewrite !stores_greeting in E by done. lia.
Qed.

(** What is written, from the stage; and the one system call. *)
Lemma greets_written s i j :
  greets s (Runs (greeting buffer i)) -> (i <= 6)%nat -> (j < i)%nat ->
  private_byte s c MMU_SPACE_DATA v (Z.of_nat j) = hello !! j.
Proof using Type.
  clear Hv Hnl Hpad. intros Hg Hi Hj. destruct (gr_stage _ _ Hg) as [(i' & Hi' & E & Hb)|[(k & E & _)|E]]; [|done|].
  - injection E as E. apply greeting_inj in E as <-; [|done..]. by apply Hb.
  - injection E as E. apply (f_equal stores) in E as E'. rewrite stores_greeting in E' by done. cbn in E'.
    assert (i = 6%nat) as -> by lia. by rewrite greeting_end in E.
Qed.

Lemma greets_trap s registers k :
  greets s (Runs (Trap registers k)) -> Trap registers k = greeting buffer 6.
Proof using Type.
  clear Hv Hnl Hpad. intros Hg. destruct (gr_stage _ _ Hg) as [(i & Hi & E & _)|[(z & E & _)|E]]; [|done..].
  injection E as E. apply (f_equal stores) in E as E'. rewrite stores_greeting in E' by done. cbn in E'.
  by replace i with 6%nat in E by lia.
Qed.

Lemma greets_store s l i b s' :
  running s c l -> greets s (Runs (greeting buffer i)) -> (i < 6)%nat -> hello !! i = Some b -> 0 <= b < 256 ->
  (forall j, (j < i)%nat -> private_byte s c MMU_SPACE_DATA v (Z.of_nat j) = hello !! j) ->
  user_store (buffer + Z.of_nat i) b s = Ok true s' -> greets s' (Runs (greeting buffer (S i))).
Proof using Hv Hpad.
  intros Hr Hg Hi Hb Hbr Hj E.
  assert (0 <= Z.of_nat i < USER_PAGE_SIZE) as Ho by (unfold USER_PAGE_SIZE; lia).
  rewrite (user_store_data s c l) in E by (done || lia).
  destruct (page_of (kernel_of s) c MMU_SPACE_DATA v) as [q|] eqn:Hq; [|done]. injection E as <-.
  rewrite (wrapu_small 8) by lia. change (store_data q (Z.of_nat i) b s) with (store_page MMU_SPACE_DATA q (Z.of_nat i) b s).
  pose proof (fun ty' v' o' => store_private s c l MMU_SPACE_DATA v q (Z.of_nat i) b c ty' v' o' Hr Hq Ho) as Hp.
  assert (saved_area MMU_SPACE_DATA v (Z.of_nat i) = false) as Hsv
    by (unfold saved_area; apply bool_decide_eq_false; lia).
  destruct (store_running s c l MMU_SPACE_DATA v q (Z.of_nat i) b Hr Hq) as (_ & _ & Hmmu).
  constructor.
  - unfold page_of. rewrite Hmmu. fold (page_of (kernel_of s) c MMU_SPACE_DATA v). by rewrite Hq.
  - intros o Ho'. rewrite Hp, decide_False by lia. by apply Hg.
  - rewrite Hp, decide_False by lia. apply Hg.
  - left. exists (S i). split; [lia|]. split; [done|]. intros j Hji. rewrite Hp. destruct (decide (j = i)) as [->|Hne].
    + by rewrite decide_True.
    + rewrite decide_False by lia. apply Hj. lia.
Qed.

Lemma greets_step s s' th th' cur l :
  running s cur l -> greets s th -> user_step (s, th) (s', th') ->
  greets s' th' /\ exists cur' l', running s' cur' l'.
Proof using Hends Hcall Hv Hpad.
  intros Hr Hg Hs. destruct (user_step_cases s s' th th' cur l Hr Hs) as [Hr' [[Hsame Hth]|(a & b & k & -> & -> & -> & E)]];
    (split; [|done]).
  - pose proof (greets_same _ _ _ Hsame Hg) as [H1 H2 H3 H4].
    destruct Hth as [->|[(registers & k & -> & ->)|(k & z & -> & ->)]]; constructor; try done.
    + right. left. exists k. split; [done|]. destruct H4 as [(i & Hi & E & _)|[(k' & E & _)|E]]; [|done..].
      destruct (decide (i = 6%nat)) as [->|]; [rewrite greeting_end in E; by injection E as -> ->|].
      destruct (greeting_next buffer i ltac:(lia)) as (y & _ & _ & E'). rewrite E' in E. done.
    + right. right. destruct H4 as [(i & Hi & E & _)|[(k' & E & Hk)|E]]; [done| |done].
      injection E as ->. by rewrite Hk.
  - destruct (gr_stage _ _ Hg) as [(i & Hi & E' & Hb)|[(k' & E' & _)|E']]; [|done..].
    destruct (decide (i = 6%nat)) as [->|Hne]; [done|].
    destruct (greeting_next buffer i ltac:(lia)) as (y & Hy & Hyr & En). rewrite En in E'. injection E' as -> -> ->.
    rewrite <- En in Hg. apply (greets_store s l i y s'); try done. lia.
Qed.

Lemma greets_steps st st' cur l :
  running st.1 cur l -> greets st.1 st.2 -> rtc user_step st st' ->
  greets st'.1 st'.2 /\ exists cur' l', running st'.1 cur' l'.
Proof using Hends Hcall Hv Hpad.
  intros Hr Hg Hs. revert cur l Hr Hg. induction Hs as [st|[s th] [s1 th1] st' Hstep _ IH]; intros cur l Hr Hg; [eauto|].
  destruct (greets_step s s1 th th1 cur l Hr Hg Hstep) as (Hg1 & cur1 & l1 & Hr1). by apply (IH cur1 l1).
Qed.

(** The text it has written, as the kernel reads it. *)
Lemma greets_text s cur l q :
  running s cur l -> greets s (Runs (greeting buffer 6)) ->
  page_of (kernel_of s) c MMU_SPACE_DATA v = Some q ->
  exists rest, user_data s (DATA_PAGE_ADDR q) = hello ++ x :: rest.
Proof using Hv Hpad.
  intros Hr Hg Hq.
  destruct (page_of_range _ (sc_memory _ _ _ (rn_sched _ _ _ Hr)) c MMU_SPACE_DATA v q Hq) as [Hqr _].
  assert (forall j b, (hello ++ [x]) !! j = Some b -> load_data q (0 + Z.of_nat j) s = Some b) as Hb.
  { intros j b Hj. pose proof (lookup_lt_Some _ _ _ Hj) as Hlt. change (j < 7)%nat in Hlt.
    assert (0 <= Z.of_nat j < USER_PAGE_SIZE) as Ho by (unfold USER_PAGE_SIZE; lia).
    rewrite Z.add_0_l, <- (private_load s c v q) by done.
    destruct (decide (j = 6%nat)) as [->|Hne]; [change (Z.of_nat 6) with 6; rewrite (gr_behind _ _ Hg); exact Hj|].
    destruct (gr_stage _ _ Hg) as [(i & Hi & E & Hbs)|[(k & E & _)|E]]; [|done..].
    assert (i = 6%nat) as ->.
    { destruct (decide (i = 6%nat)) as [|Hi6]; [done|].
      destruct (greeting_next buffer i ltac:(lia)) as (y & _ & _ & E'). by rewrite E' in E. }
    rewrite Hbs by lia. rewrite lookup_app_l in Hj by (change (length hello) with 6%nat; lia). done. }
  destruct (bytes_from_prefix s q (hello ++ [x]) 0 (Z.to_nat (0x3FFE0000 - DATA_PAGE_ADDR q))) as [rest E].
  - done.
  - lia.
  - unfold len. change (length (hello ++ [x])) with 7%nat. unfold USER_PAGE_SIZE. lia.
  - change (length (hello ++ [x])) with 7%nat. unfold DATA_PAGE_ADDR, USER_PAGE_SIZE, USER_DATA_BASE.
    rewrite wrapu_small by lia. lia.
  - exact Hb.
  - exists rest. unfold user_data. rewrite Z.add_0_r in E. by rewrite E, <- (assoc_L (++)).
Qed.

(** The call with which it prints. *)
Lemma greets_log s l r :
  drains txfifo_cnt polls -> running s c l -> greets s (Runs (greeting buffer 6)) -> length (ar r) = 64%nat ->
  exists s2, enter_syscall (with_frame (set_args (log_registers buffer) r) s) = Ok tt s2 /\
    kernel_of s2 = returning 0 (put_frame (set_args (log_registers buffer) r) (kernel_of s)) /\
    printed (txt "[*] " ++ nm ++ txt ": Hello!" ++ [10; 13]) (console (sys s)) (console (sys s2)).
Proof using Hv Hnm Hnl Hpad.
  intros Hdrains Hr Hg Hlen. pose proof (sc_memory _ _ _ (rn_sched _ _ _ Hr)) as Hmem.
  destruct (gr_page _ _ Hg) as [q Hq].
  destruct (page_of_range _ Hmem c MMU_SPACE_DATA v q Hq) as [Hqr _].
  destruct (greets_text s c l q Hr Hg Hq) as [rest Htext].
  destruct (current_task_data _ _ c (rn_sched _ _ _ Hr) (rn_current _ _ _ Hr)) as (t & u & Ht & _ & Hu & _).
  assert (name u = nm ++ 0 :: pad) as Hname.
  { destruct (rn_shape _ _ _ Hr c u) as (_ & H2 & _); [unfold task_context; by rewrite Ht|].
    apply list_eq. intros i. destruct (decide (i < 64)%nat) as [Hi|Hi].
    - rewrite <- (Nat2Z.id i), <- (gr_name _ _ Hg) by lia. symmetry. by apply (private_name s c l c t u); try lia.
    - rewrite !lookup_ge_None_2 by lia. done. }
  set (r' := set_args (log_registers buffer) r).
  assert (u32 buffer = buffer) as Hbuf
    by (apply wrapu_small; unfold DATA_PAGE_ADDR; by apply wrapu_range).
  apply page_of_maps in Hq as (sp & Hsp & Hm).
  destruct (handler_log weak_fails fuel no_wakeup sleeps call txfifo_cnt polls (user_data (with_frame r' s)) __FILE__
    Hdrains (sys (with_frame r' s)) c t u nm pad (Z.of_nat v) 0 6 {| phys := q; type := PAGE_MAPPED |} hello x rest)
    as (u' & E & Hp); try done.
  - cbn. apply (memory_wf_frame (kernel_of s)); try done. apply Hmem.
  - apply (rn_current _ _ _ Hr).
  - unfold r', log_registers, set_args. cbn. rewrite !list_lookup_insert_ne by done.
    apply list_lookup_insert_eq. lia.
  - unfold r', log_registers, set_args. cbn. rewrite list_lookup_insert_ne by done. rewrite Hbuf, Z.add_0_r.
    apply list_lookup_insert_eq. rewrite length_insert. lia.
  - unfold r', log_registers, set_args. cbn. apply list_lookup_insert_eq. rewrite !length_insert. lia.
  - lia.
  - cbn. rewrite Hsp. cbn. by rewrite Nat2Z.id.
  - by rewrite user_data_frame.
  - by repeat constructor.
  - by left.
  - exists (System (Machine (returning 0 (put_frame r' (kernel_of s))) u') (user_mem s)).
    split; [|split; [done|exact Hp]]. unfold Running.enter_syscall.
    by rewrite (zoom_ok (H := system_machine) _ (with_frame r' s) tt _ E).
Qed.

(** Left alone, it comes to that call. *)
Lemma greets_reaches n : forall i s l,
  running s c l -> greets s (Runs (greeting buffer i)) -> (i + n = 6)%nat ->
  exists s1, rtc user_step (s, Runs (greeting buffer i)) (s1, Runs (greeting buffer 6)) /\ running s1 c l.
Proof using Hv Hpad.
  induction n as [|n IH]; intros i s l Hr Hg Hi.
  { replace i with 6%nat by lia. by exists s. }
  destruct (greeting_next buffer i ltac:(lia)) as (b & Hb & Hbr & E).
  destruct (gr_page _ _ Hg) as [q Hq].
  assert (user_store (buffer + Z.of_nat i) b s = Ok true (store_data q (Z.of_nat i) (u8 b) s)) as Es.
  { rewrite (user_store_data s c l) by (done || unfold USER_PAGE_SIZE; lia). by rewrite Hq. }
  destruct (store_running s c l MMU_SPACE_DATA v q (Z.of_nat i) (u8 b) Hr Hq) as (Hr1 & _).
  assert (greets (store_data q (Z.of_nat i) (u8 b) s) (Runs (greeting buffer (S i)))) as Hg1.
  { apply (greets_store s l i b); try done; [lia|]. intros j Hj. apply (greets_written s i); [done|lia|done]. }
  destruct (IH (S i) _ l Hr1 Hg1 ltac:(lia)) as (s1 & Hs & Hr2). exists s1. split; [|done].
  eapply rtc_l; [|exact Hs]. rewrite E. apply user_write; [apply (rn_current _ _ _ Hr)|exact Es].
Qed.
End Greeting.

(** The start of the greeting. *)
Lemma name_length s l u nm pad :
  running s c l -> task_context (kernel_of s) c = Some u -> name u = nm ++ 0 :: pad ->
  len nm < 64 /\ length (nm ++ 0 :: pad) = 64%nat.
Proof using Type.
  intros Hr Hu Hname. destruct (rn_shape _ _ _ Hr c u Hu) as (_ & Hn & _). rewrite Hname in Hn.
  split; [|done]. rewrite length_app in Hn. cbn [length] in Hn. unfold len. lia.
Qed.

Lemma greets_start s l v u nm pad x :
  running s c l -> is_Some (page_of (kernel_of s) c MMU_SPACE_DATA v) ->
  private_byte s c MMU_SPACE_DATA v 6 = Some x -> task_context (kernel_of s) c = Some u -> name u = nm ++ 0 :: pad ->
  greets v nm pad x s (Runs (task_trampoline (_start (DATA_PAGE_ADDR (Z.of_nat v))))).
Proof using Type.
  intros Hr Hpage Hx Hu Hname. constructor; [done| |done|].
  - intros o Ho. unfold task_context in Hu. destruct (tasks (kernel_of s) !! c) as [t|] eqn:Ht; [|done].
    rewrite <- Hname. by apply (private_name s c l c t u).
  - left. exists 0%nat. split; [lia|]. split; [by rewrite start_greeting|]. intros j Hj. lia.
Qed.

(** C4: The demonstration application, run among others. From its start in the trampoline it
    can come to its system call; whatever the other tasks do, whatever interrupts and
    whenever, the only system call it ever makes is the one that logs, with its buffer; and
    when it makes it the console shows its name and the greeting, and nothing else of the
    kernel changes but the result, zero. *)
Theorem init_greets s l v u nm pad x :
  drains txfifo_cnt polls -> running s c l -> (v < 15)%nat ->
  is_Some (page_of (kernel_of s) c MMU_SPACE_DATA v) -> private_byte s c MMU_SPACE_DATA v 6 = Some x ->
  task_context (kernel_of s) c = Some u -> name u = nm ++ 0 :: pad -> Forall (fun z => z <> 0) nm ->
  let buffer := DATA_PAGE_ADDR (Z.of_nat v) in
  let init := Runs (task_trampoline (_start buffer)) in
  (exists s1 k, rtc user_step (s, init) (s1, Runs (Trap (log_registers buffer) k)) /\ running s1 c l) /\
  forall s1 registers k r, rtc user_step (s, init) (s1, Runs (Trap registers k)) ->
    registers = log_registers buffer /\
    (current_task (kernel_of s1) = Some c -> length (ar r) = 64%nat ->
     exists s2, enter_syscall (with_frame (set_args registers r) s1) = Ok tt s2 /\
       kernel_of s2 = returning 0 (put_frame (set_args registers r) (kernel_of s1)) /\
       printed (txt "[*] " ++ nm ++ txt ": Hello!" ++ [10; 13]) (console (sys s1)) (console (sys s2))).
Proof using Hends Hcall.
  intros Hdrains Hr Hv Hpage Hx Hu Hname Hnm buffer init. subst buffer init.
  destruct (name_length s l u nm pad Hr Hu Hname) as [Hnl Hpad].
  pose proof (greets_start s l v u nm pad x Hr Hpage Hx Hu Hname) as Hg. split.
  - destruct (greets_reaches v nm pad x Hv Hpad 6 0 s l Hr Hg eq_refl) as (s1 & Hs & Hr1).
    exists s1, (fun _ => Forever). rewrite <- greeting_end. by split.
  - intros s1 registers k r Hs.
    destruct (greets_steps v nm pad x Hv Hpad
      (s, Runs (task_trampoline (_start (DATA_PAGE_ADDR (Z.of_nat v))))) (s1, Runs (Trap registers k)) c l Hr Hg Hs) as (Hg1 & c1 & l1 & Hr1).
    cbn [fst snd] in *.
    assert (Trap registers k = greeting (DATA_PAGE_ADDR (Z.of_nat v)) 6) as Ht by (by apply (greets_trap v nm pad x s1)).
    pose proof Ht as Hi. rewrite greeting_end in Hi. injection Hi as -> _. split; [done|].
    intros Hc Hlen. pose proof (rn_current _ _ _ Hr1) as Hc1. rewrite Hc in Hc1. injection Hc1 as <-.
    apply (greets_log v nm pad x Hv Hnm Hnl Hpad s1 l1 r Hdrains Hr1); [|done]. by rewrite <- Ht.
Qed.

(** C36: A task whose entry returns takes the kernel with it. The trampoline then makes the
    drop system call, and the kernel, whatever the registers, fails an assertion: the
    release of a task is not implemented. *)
Theorem trampoline_stops s l r :
  running s c l -> length (ar r) = 64%nat ->
  exists registers k s', task_trampoline (Return tt) = Trap registers k /\
    registers = [(2%nat, SYSCALL_SCHED_DROP)] /\
    enter_syscall (with_frame (set_args registers r) s) = Stop AssertFailed s' /\
    task_status (kernel_of s') c = Some TASK_STATUS_DEAD.
Proof using Hends.
  intros Hr Hlen.
  destruct (with_frame_running s c l (set_args [(2%nat, SYSCALL_SCHED_DROP)] r) Hr) as [Hr1 _];
    [by rewrite length_set_args|].
  destruct (on_drop_current weak_fails fuel no_wakeup sleeps Hends
    (returning 0 (kernel_of (with_frame (set_args [(2%nat, SYSCALL_SCHED_DROP)] r) s))) l c) as (k' & Ek & Hst);
    [apply put_frame_wf, Hr1|apply (rn_current _ _ _ Hr1)|].
  eexists _, _, (System (Machine k' (console (sys s))) (user_mem s)).
  split; [reflexivity|]. split; [reflexivity|]. split; [|exact Hst].
  set (s1 := with_frame (set_args [(2%nat, SYSCALL_SCHED_DROP)] r) s) in *.
  apply (zoom_stop (H := system_machine) _ s1 AssertFailed (Machine k' (console (sys s1)))).
  eapply (handler_stop _ _ _ _ _ _ _ _ _ SYSCALL_SCHED_DROP).
  - cbn. apply list_lookup_insert_eq. lia.
  - unfold syscall_dispatch. cbn [Z.eqb Pos.eqb SYSCALL_SCHED_DROP SYSCALL_SCHED_PARK SYSCALL_SCHED_YIELD].
    apply bind_stop.
    exact (zoom_stop (H := machine_kernel) _ (Machine (returning 0 (kernel_of s1)) (console (sys s1))) AssertFailed k' Ek).
Qed.
End User.

(** ** Examples *)

(** The demonstration application loaded from an image, with a buffer in the first data
    page, and started. *)
Definition ex_buffer : list Z := replicate 7 0.

Lemma ex_init_running :
  exists s x, running s 1 [] /\ is_Some (page_of (kernel_of s) 1 MMU_SPACE_DATA 0) /\
    private_byte s 1 MMU_SPACE_DATA 0 6 = Some x /\
    task_context (kernel_of s) 1 = Some (fresh_ucontext 0x4009E000 USER_CODE_BASE ex_text).
Proof.
  destruct (load_app_ok never_fails 1 ex_fifo 1 0x4009E000 [] never_fails_ends ex_drains
    1 None [] 4096 ex_text [] ex_code ex_buffer [] 0 USER_CODE_BASE 31 (ex_system ex_kernel))
    as (page & qc & qd & k' & u' & mem' & text & _ & _ & Hqd & H & _); cycle -1.
  { destruct H as [Hwf Hctx Hown (Hc & _ & Hcb) Hoth (sp & Hsp & _ & Hd) _ _ Hdata _].
    assert (exists q, qd !! 0%nat = Some q) as [q Hq].
    { apply lookup_lt_is_Some_2. change (pages_for (len ex_buffer + 0)) with 1 in Hqd. lia. }
    assert (contexts_owned k') as Hown'.
    { apply Hown. intros a Ha. by destruct Ha. }
    destruct (first_running never_fails 1 no_wakeup 3 k' 1 [] u' mem' never_fails_ends Hwf)
      as (k2 & _ & Hr & Htab & Hctx2); [by rewrite Hc|by rewrite Hcb|done|..].
    { intros r x Hx. destruct (decide (r = 1%positive)) as [->|Hne].
      - rewrite Hctx in Hx. injection Hx as <-. apply fresh_context_shape.
      - exfalso. unfold task_context in Hx. destruct (Hoth r Hne) as (Hst & _).
        unfold task_status in Hst. destruct (tasks k' !! r); [done|done]. }
    assert (page_of k2 1 MMU_SPACE_DATA 0 = Some q) as Hpage.
    { rewrite (page_of_tables k' k2 _ _ _ Htab). apply page_of_maps. exists sp. split; [exact Hsp|]. apply Hd. by left. }
    exists (System (Machine k2 u') mem'), 0. split; [done|]. split; [by exists q|].
    split; [|by rewrite Hctx2].
    rewrite (private_load _ 1 0 q 6) by (done || unfold USER_PAGE_SIZE; lia). unfold load_data.
    destruct (ucontexts _ !! DATA_PAGE_ADDR q) as [u|] eqn:Hu.
    - destruct (context_page k2 (sc_memory _ _ _ (rn_sched _ _ _ Hr)) 1 0 q (rn_owned _ _ _ Hr) Hpage) as [? _]; [|done].
      by exists u.
    - apply (Hdata 0%nat q 6%nat); [done|..]; vm_compute; lia. }
  all: try exact ex_kernel_sched.
  all: try (vm_compute; reflexivity).
  all: try (split; vm_compute; (reflexivity || discriminate)).
  all: try (vm_compute; discriminate).
  all: try (repeat constructor; discriminate).
Qed.

Lemma init_greets_witness :
  exists s s1 s2 k, running s 1 [] /\
    rtc (user_step never_fails 1 3 no_callback ex_fifo 1 [] 1)
      (s, Runs (task_trampoline (_start (DATA_PAGE_ADDR 0)))) (s1, Runs (Trap (log_registers (DATA_PAGE_ADDR 0)) k)) /\
    enter_syscall never_fails 1 3 no_callback ex_fifo 1 []
      (with_frame (set_args (log_registers (DATA_PAGE_ADDR 0)) zero_regs) s1) = Ok tt s2 /\
    printed (txt "[*] init: Hello!" ++ [10; 13]) (console (sys s1)) (console (sys s2)).
Proof.
  destruct ex_init_running as (s & x & Hr & Hpage & Hx & Hu).
  destruct (init_greets never_fails 1 3 no_callback ex_fifo 1 [] 1 never_fails_ends no_callback_layout
    s [] 0 (fresh_ucontext 0x4009E000 USER_CODE_BASE ex_text) ex_text (replicate 59 0) x ex_drains Hr
    ltac:(lia) Hpage Hx Hu eq_refl ltac:(repeat constructor; discriminate)) as ((s1 & k & Hs & Hr1) & Hlog).
  destruct (Hlog s1 (log_registers (DATA_PAGE_ADDR 0)) k zero_regs Hs) as (_ & Hgo).
  destruct (Hgo (rn_current _ _ _ Hr1) eq_refl) as (s2 & E & _ & Hp).
  exists s, s1, s2, k. split; [done|]. split; [exact Hs|]. split; [exact E|exact Hp].
Defined.

Lemma trampoline_stops_witness :
  exists s s', running s 1 [2%positive] /\
    enter_syscall never_fails 1 3 no_callback ex_fifo 1 []
      (with_frame (set_args [(2%nat, SYSCALL_SCHED_DROP)] zero_regs) s) = Stop AssertFailed s'.
Proof.
  destruct ex_two_running as [s Hr].
  destruct (trampoline_stops never_fails 1 3 no_callback ex_fifo 1 [] 1 never_fails_ends
    s [2%positive] zero_regs Hr eq_refl) as (registers & k & s' & _ & -> & E & _).
  exists s, s'. by split.
Defined.
