(* ===== verification/Initrd.v ===== *)
(** * The initial ramdisk (kernel/src/initrd.h)

    The boot loader writes it and the kernel reads it: a header of eight bytes (the total
    size, the number of entries and three bytes of padding), then each entry, a size and a
    name of 64 bytes, with the contents behind it. Here it is a list of bytes, and a pointer
    into it is what is left of the list from there on. *)
From Stdlib Require Import ZArith Lia Ascii String.
From stdpp Require Import base tactics numbers list gmap.
From S2P Require Import Prelude Syscall Loader.

Definition sizeof_initrd_header : Z := 8.
Definition sizeof_initrd_entry : Z := 68.

Section Fields.
Context {S : Type}.

Definition initrd_total_size (header : list Z) : M S Z := read_word header 0.
Definition initrd_count (header : list Z) : M S Z := deref (header !! 4%nat).
Definition entry_size (entry : list Z) : M S Z := read_word entry 0.

(** [entry->name], given to printf and to the loader: the bytes from there on. *)
Definition entry_name (entry : list Z) : list Z := drop 4 entry.

(** [entry + 1] *)
Definition entry_data (entry : list Z) : list Z := drop (Z.to_nat sizeof_initrd_entry) entry.

Definition INITRD_NEXT_ENTRY (entry : list Z) : M S (list Z) :=
  size ← entry_size entry;
  mret (drop (Z.to_nat (sizeof_initrd_entry + size)) entry).
End Fields.
