(* ===== verification/BootLoader.v ===== *)
(** * The boot loader (loader/src/main.c)

    The program that the ROM starts: it reads the root file system in flash, puts the initial
    ramdisk and the kernel in memory and jumps to the kernel. littlefs, the ROM's functions
    and the flash chip are the environment: the operations that the loader calls are an
    interface, [Littlefs], and what the loader asks of the ROM is in a log of events. *)
From Stdlib Require Import ZArith Lia Ascii String.
From stdpp Require Import base tactics numbers list gmap.
From S2P Require Import Prelude Printf PrintfSpec Console Loader Initrd.

(** What the ROM is asked to do: to print, to attach the flash and to configure it. *)
Inductive rom_event : Type :=
  | ets_printf (fmt : list Z) (va : list va_value)
  | esp_rom_spiflash_attach (ishspi : Z) (legacy : bool)
  | esp_rom_spiflash_config_param (params : list Z).

(** The state: the bytes of memory that the loader fills, by address; the state of the file
    system library, [fs]; the events so far; and the configuration registers of the three
    watchdogs. *)
Record rom {fs : Type} := Rom {
  memory : gmap Z Z;
  m_lfs : fs;
  events : list rom_event;
  TIMG0_Tx_WDTCONFIG0 : Z;
  TIMG1_Tx_WDTCONFIG0 : Z;
  RTC_CNTL_WDTCONFIG0 : Z;
}.
Arguments rom : clear implicits.
Arguments Rom {fs}.

Section Machine.
Context {fs : Type}.
Implicit Types (r : rom fs).

Definition set_memory (mem : gmap Z Z) r : rom fs :=
  Rom mem (m_lfs r) (events r) (TIMG0_Tx_WDTCONFIG0 r) (TIMG1_Tx_WDTCONFIG0 r) (RTC_CNTL_WDTCONFIG0 r).
Definition set_lfs (l : fs) r : rom fs :=
  Rom (memory r) l (events r) (TIMG0_Tx_WDTCONFIG0 r) (TIMG1_Tx_WDTCONFIG0 r) (RTC_CNTL_WDTCONFIG0 r).
Definition add_event (e : rom_event) r : rom fs :=
  Rom (memory r) (m_lfs r) (events r ++ [e]) (TIMG0_Tx_WDTCONFIG0 r) (TIMG1_Tx_WDTCONFIG0 r)
    (RTC_CNTL_WDTCONFIG0 r).

Definition rom_printf (fmt : list Z) (va : list va_value) : M (rom fs) unit :=
  modify (add_event (ets_printf fmt va)).

(** The macros of loader/src/trace.h. *)
Definition TRACE (fmt : list Z) (va : list va_value) : M (rom fs) unit :=
  rom_printf (txt "[*] " ++ fmt ++ [10; 13]) va.
Definition ERROR (fmt : list Z) (va : list va_value) : M (rom fs) unit :=
  rom_printf (txt "[-] " ++ fmt ++ [10; 13]) va.

(** Where a failed assertion is: the expression, the function and the line. *)
Record site := Site { site_check : string; site_function : string; site_line : Z }.

(** [ASSERT(check)]: a message, and then a loop without end. *)
Definition ASSERT (__FILE__ : list Z) (s : site) (check : bool) : M (rom fs) unit :=
  if check then mret tt
  else
    ERROR (txt "Assert `%s` failed at %s (%s:%d)")
      [literal (txt (site_check s)); literal (txt (site_function s)); literal __FILE__; VWord (site_line s)];;
    stop_with Spin.

(** Memory that the loader reads back: it has to be there. *)
Definition load_bytes (a n : Z) : M (rom fs) (list Z) :=
  mem ← gets memory; deref (mapM (fun i => mem !! i) (seqZ a n)).
Definition store_bytes (a : Z) (bs : list Z) : M (rom fs) unit :=
  modify (fun r => set_memory (write_bytes a bs (memory r)) r).
Definition store_word (a v : Z) : M (rom fs) unit := store_bytes a (Syscall.le_bytes 4 v).
Definition load_word (a : Z) : M (rom fs) Z := bs ← load_bytes a 4; read_word bs 0.

(** [xthal_memcpy] of the ROM, between places that do not overlap. *)
Definition xthal_memcpy (dst src n : Z) : M (rom fs) unit := bs ← load_bytes src n; store_bytes dst bs.
End Machine.

(** ** The configuration of the file system *)
Record lfs_config {fs : Type} := LfsConfig {
  read : Z -> Z -> Z -> M (rom fs) (Z * list Z);
  read_size : Z;
  prog_size : Z;
  block_size : Z;
  block_count : Z;
  block_cycles : Z;
  cache_size : Z;
  lookahead_size : Z;
}.
Arguments lfs_config : clear implicits.
Arguments LfsConfig {fs}.

(** The operations of littlefs. A read returns the number of bytes or an error, and the bytes
    that it put into the buffer it was given. *)
Class Littlefs (fs file : Type) := {
  lfs_mount : lfs_config fs -> M (rom fs) Z;
  lfs_stat : list Z -> M (rom fs) (Z * Z);
  lfs_file_opencfg : list Z -> M (rom fs) (Z * file);
  lfs_file_seek : file -> Z -> M (rom fs) (Z * file);
  lfs_file_read : file -> Z -> M (rom fs) (Z * list Z * file);
}.

Definition LFS_ERR_OK : Z := 0.
Definition LFS_ERR_IO : Z := -5.

(** ** Strings of the C library *)

(** [strrchr(s, c)]: the string from the last [c] on. *)
Fixpoint strrchr (s : list Z) (c : Z) : option (list Z) :=
  match s with
  | [] => None
  | x :: s' =>
      match strrchr s' c with
      | Some t => Some t
      | None => if x =? c then Some s else None
      end
  end.

(** ** The header of the kernel *)
Definition KERNEL_MAGIC : Z := 0x4c4e524b.
Definition KERNEL_CODE_BASE : Z := 0x400A0000.
Definition KERNEL_DATA_BASE : Z := 0x3FFE0000.
Definition KERNEL_VDSO_BASE : Z := 0x4009E000.
Definition m_temp_buffer : Z := 0x3FFD0000.
Definition m_initrd_buffer : Z := 0x3FFC2000.
Definition UINT16_MAX : Z := 65535.

Record kernel_header := KernelHeader {
  magic : Z;
  code_size : Z;
  data_size : Z;
  vdso_size : Z;
  entry_point : Z;
}.
Definition sizeof_kernel_header : Z := 20.

(** The bytes of the header, as the fields of the structure. *)
Definition read_kernel_header {S} (bs : list Z) : M S kernel_header :=
  m ← read_word bs 0;
  c ← read_word bs 4;
  d ← read_word bs 8;
  v ← read_word bs 12;
  e ← read_word bs 16;
  mret (KernelHeader m (s32 c) (s32 d) (s32 v) e).

(** A sum of two [int32_t]: no result when it does not fit. *)
Definition add_int {S} (a b : Z) : M S Z :=
  if (- 2 ^ 31 <=? a + b) && (a + b <? 2 ^ 31) then mret (a + b) else stop_with Fault.

Section BootLoader.
Context {fs file : Type} `{!Littlefs fs file}.
(** The ROM: reading the flash (an error code and the bytes), the result of configuring it,
    and what the calls for a character from the serial port return. *)
Context (esp_rom_spiflash_read : Z -> Z -> Z * list Z) (config_param : Z).
Context (uart_rx_one_char : nat -> Z) (polls : nat).
Context (__FILE__ : list Z).

Abbreviation ASSERT := (ASSERT (fs := fs) __FILE__).

(** ** spi_flash_read *)
Definition spi_flash_read (c_block_count c_block_size block off size : Z) : M (rom fs) (Z * list Z) :=
  ASSERT (Site "(off % 4) == 0" "spi_flash_read" 66) (off mod 4 =? 0);;
  ASSERT (Site "(size % 4) == 0" "spi_flash_read" 67) (size mod 4 =? 0);;
  ASSERT (Site "block + 4 < c->block_count + 4" "spi_flash_read" 68)
    (u32 (block + 4) <? u32 (c_block_count + 4));;
  let addr := u32 (u32 (block + 4) * c_block_size + off) in
  let '(err, bytes) := esp_rom_spiflash_read addr (s32 size) in
  mret (if err =? 0 then LFS_ERR_OK else LFS_ERR_IO, bytes).

Definition m_lfs_config : lfs_config fs := {|
  read := spi_flash_read (4096 - 4) 4096;
  read_size := 4;
  prog_size := 256;
  block_size := 4096;
  block_count := 4096 - 4;
  block_cycles := 500;
  cache_size := 256;
  lookahead_size := 16;
|}.

Definition disable_watchdogs : M (rom fs) unit :=
  modify (fun r => Rom (memory r) (m_lfs r) (events r) 0 (TIMG1_Tx_WDTCONFIG0 r) (RTC_CNTL_WDTCONFIG0 r));;
  modify (fun r => Rom (memory r) (m_lfs r) (events r) (TIMG0_Tx_WDTCONFIG0 r) 0 (RTC_CNTL_WDTCONFIG0 r));;
  modify (fun r => Rom (memory r) (m_lfs r) (events r) (TIMG0_Tx_WDTCONFIG0 r) (TIMG1_Tx_WDTCONFIG0 r) 0).

(** ** The ramdisk. [entry] is an address; the size is its first word, the name is behind. *)
Definition load_initrd_file (name : list Z) (entry : Z) : M (rom fs) unit :=
  st ← lfs_stat name;
  ASSERT (Site "lfs_stat(&m_lfs, name, &file_info) == 0" "load_initrd_file" 116) (st.1 =? 0);;
  let size := st.2 in
  TRACE (9 :: txt "Loading %s (%d bytes)") [literal name; VWord size];;
  store_word entry size;;
  let filename := match strrchr name 47 with None => name | Some t => drop 1 t end in
  store_bytes (entry + 4) (filename ++ [0]);;
  op ← lfs_file_opencfg name;
  ASSERT (Site "lfs_file_opencfg(&m_lfs, &file, name, LFS_O_RDONLY, &file_config) == 0" "load_initrd_file" 128)
    (op.1 =? 0);;
  rd ← lfs_file_read op.2 size;
  store_bytes (entry + sizeof_initrd_entry) rd.1.2;;
  ASSERT (Site "lfs_file_read(&m_lfs, &file, entry + 1, file_info.size) == file_info.size" "load_initrd_file" 129)
    (u32 rd.1.1 =? size).

(** [INITRD_NEXT_ENTRY(entry)], on the address of an entry in memory. *)
Definition next_entry (entry : Z) : M (rom fs) Z :=
  size ← load_word entry; mret (u32 (entry + sizeof_initrd_entry + size)).

Definition load_initrd : M (rom fs) unit :=
  TRACE (txt "Loading initrd") [];;
  let header := m_initrd_buffer in
  store_bytes (header + 4) [1];;
  let entry := header + sizeof_initrd_header in
  load_initrd_file (txt "/apps/init") entry;;
  entry ← next_entry entry;
  store_word header (u32 (entry - header));;
  total_size ← load_word header;
  TRACE (txt "Total size: %d bytes") [VWord total_size].

(** ** The kernel *)

(** [lfs_file_seek(...) == off] and [lfs_file_read(...) == size], then the copy to its place:
    what the code does for the code, the vDSO and the data. *)
Definition load_region (kernel_file : file) (what : string) (dst offset size : Z) (seek read : site) :
    M (rom fs) file :=
  TRACE (9 :: txt "Loading " ++ txt what ++ txt " %p (%d bytes)") [VWord dst; VWord size];;
  sk ← lfs_file_seek kernel_file offset;
  ASSERT seek (u32 sk.1 =? offset);;
  rd ← lfs_file_read sk.2 (u32 size);
  store_bytes m_temp_buffer rd.1.2;;
  ASSERT read (rd.1.1 =? size);;
  xthal_memcpy dst m_temp_buffer (u32 size);;
  mret rd.2.

(** The header is not initialised but by the read, whose result is not looked at: the
    variable is static, so that what was not read is zero. *)
Definition read_header (kernel_file : file) : M (rom fs) (kernel_header * file) :=
  rd ← lfs_file_read kernel_file sizeof_kernel_header;
  let bytes := rd.1.2 ++ drop (length rd.1.2) (replicate (Z.to_nat sizeof_kernel_header) 0) in
  h ← read_kernel_header bytes;
  mret (h, rd.2).

Definition check_header (h : kernel_header) : M (rom fs) unit :=
  ASSERT (Site "kernel_header.magic == KERNEL_MAGIC" "load_kernel" 162) (magic h =? KERNEL_MAGIC);;
  ASSERT (Site "kernel_header.magic == KERNEL_MAGIC" "load_kernel" 169) (magic h =? KERNEL_MAGIC);;
  total ← add_int (code_size h) (data_size h);
  ASSERT (Site "kernel_header.code_size + kernel_header.data_size <= 128 * 1024" "load_kernel" 170)
    (total <=? 128 * 1024);;
  ASSERT (Site "kernel_header.code_size % 4 == 0" "load_kernel" 171) (Z.rem (code_size h) 4 =? 0);;
  ASSERT (Site "kernel_header.data_size % 4 == 0" "load_kernel" 172) (Z.rem (data_size h) 4 =? 0);;
  ASSERT (Site "kernel_header.vdso_size % 4 == 0" "load_kernel" 173) (Z.rem (vdso_size h) 4 =? 0);;
  ASSERT (Site "(uintptr_t)KERNEL_CODE_BASE <= kernel_header.entry_point" "load_kernel" 174)
    (KERNEL_CODE_BASE <=? entry_point h);;
  ASSERT (Site "kernel_header.entry_point < (uintptr_t)KERNEL_CODE_BASE + kernel_header.code_size"
    "load_kernel" 175) (entry_point h <? u32 (KERNEL_CODE_BASE + code_size h));;
  ASSERT (Site "kernel_header.code_size <= UINT16_MAX" "load_kernel" 178) (code_size h <=? UINT16_MAX);;
  ASSERT (Site "kernel_header.data_size <= UINT16_MAX" "load_kernel" 179) (data_size h <=? UINT16_MAX);;
  ASSERT (Site "kernel_header.vdso_size <= UINT16_MAX" "load_kernel" 180) (vdso_size h <=? UINT16_MAX).

Definition code_seek := Site "lfs_file_seek(&m_lfs, &kernel_file, code_offset, LFS_SEEK_SET) == code_offset" "load_kernel" 183.
Definition code_read := Site "lfs_file_read(&m_lfs, &kernel_file, m_temp_buffer, kernel_header.code_size) == kernel_header.code_size" "load_kernel" 184.
Definition vdso_seek := Site "lfs_file_seek(&m_lfs, &kernel_file, vdso_offset, LFS_SEEK_SET) == vdso_offset" "load_kernel" 188.
Definition vdso_read := Site "lfs_file_read(&m_lfs, &kernel_file, m_temp_buffer, kernel_header.vdso_size) == kernel_header.vdso_size" "load_kernel" 189.
Definition data_seek := Site "lfs_file_seek(&m_lfs, &kernel_file, data_offset, LFS_SEEK_SET) == data_offset" "load_kernel" 193.
Definition data_read := Site "lfs_file_read(&m_lfs, &kernel_file, m_temp_buffer, kernel_header.data_size) == kernel_header.data_size" "load_kernel" 194.

(** Here the text of the check has quotes around the name of the file. *)
Definition kernel_open := Site (append "lfs_file_opencfg(&m_lfs, &kernel_file, " (String "034"%char (append "/kernel"
  (String "034"%char ", LFS_O_RDONLY, &kernel_file_config) == 0")))) "load_kernel" 156.

(** It ends with the jump: the result is the address it jumps to. *)
Definition load_kernel : M (rom fs) Z :=
  TRACE (txt "Loading kernel") [];;
  op ← lfs_file_opencfg (txt "/kernel");
  ASSERT kernel_open (op.1 =? 0);;
  hd ← read_header op.2;
  let h := hd.1 in
  let code_offset := sizeof_kernel_header in
  let data_offset := u32 (code_offset + code_size h) in
  let vdso_offset := u32 (data_offset + data_size h) in
  check_header h;;
  f ← load_region hd.2 "code" KERNEL_CODE_BASE code_offset (code_size h) code_seek code_read;
  f ← load_region f "vdso" KERNEL_VDSO_BASE vdso_offset (vdso_size h) vdso_seek vdso_read;
  f ← load_region f "data" KERNEL_DATA_BASE data_offset (data_size h) data_seek data_read;
  mret (entry_point h).

(** ** The entry point of the loader: what it returns is where it jumps *)
Definition _start : M (rom fs) Z :=
  disable_watchdogs;;
  _ ← mwhile polls (fun i => mret (negb (uart_rx_one_char i =? 0))) (fun i => mret (S i)) 0%nat;
  TRACE (txt "Welcome from the loader!") [];;
  TRACE (9 :: txt "Configuring flash") [];;
  modify (add_event (esp_rom_spiflash_attach 0 false));;
  modify (add_event (esp_rom_spiflash_config_param [0; 16 * 0x100000; 0x10000; 0x1000; 0x100; 0xffff]));;
  ASSERT (Site "esp_rom_spiflash_config_param( 0, 16 * 0x100000, 0x10000, 0x1000, 0x100, 0xffff ) == 0" "_start" 221)
    (config_param =? 0);;
  TRACE (9 :: txt "Mounting rootfs") [];;
  e ← lfs_mount m_lfs_config;
  ASSERT (Site "lfs_mount(&m_lfs, &m_lfs_config) == 0" "_start" 231) (e =? 0);;
  load_initrd;;
  load_kernel.
End BootLoader.
