(* ===== verification/RomTrace.v ===== *)
(** * The tracing of the boot loader (loader/src/trace.c)

    The dump of Hexdump.v over the printf of the ROM, and the hook that the file system calls
    when an assertion of its own fails. The ROM is not in the repository: [rom_text] is what
    it sends for a format, [RomPrintf] what its documentation (that of printf) promises. *)
From Stdlib Require Import ZArith Lia Ascii String.
From stdpp Require Import base tactics numbers list gmap.
From S2P Require Import Prelude Printf PrintfSpec Text Console Hexdump BootLoader.

Section RomTrace.
Context {fs : Type}.

Definition trace_hex (data : list Z) (size : Z) : M (rom fs) unit := dump rom_printf [10] data size.

(** It prints and loops. *)
Definition __assert_func (filename : list Z) (line : Z) (func expression : list Z) : M (rom fs) unit :=
  ERROR (txt "Assert `%s` failed at %s (%s:%d)") [literal expression; literal func; literal filename; VWord line];;
  stop_with Spin.

(** ** What the ROM sends *)
Class RomPrintf (rom_text : list Z -> list va_value -> list Z) := {
  rom_literal s : Forall (fun c => c <> 0 /\ c <> 37) s -> rom_text s [] = s;
  rom_byte c : 0 <= c < 256 -> rom_text (txt "%02x ") [VWord c] = hex2 c ++ [32];
  rom_string s rest : Forall (fun c => c <> 0) s -> len s < 2 ^ 32 - 1 ->
    rom_text (row_format [10]) [VStr 1 (s ++ 0 :: rest)] = txt "|  " ++ s ++ txt " " ++ [10];
}.

Context (rom_text : list Z -> list va_value -> list Z).

Definition said (e : rom_event) : list Z :=
  match e with ets_printf fmt va => rom_text fmt va | _ => [] end.

(** Nothing but text, and this text. *)
Definition sent (text : list Z) (r r' : rom fs) : Prop :=
  exists l, r' = foldl (fun r e => add_event e r) r l /\ Forall (fun e => exists fmt va, e = ets_printf fmt va) l /\
    concat (said <$> l) = text.

Lemma sent_one fmt va r text :
  rom_text fmt va = text -> exists r', rom_printf fmt va r = Ok tt r' /\ sent text r r'.
Proof using.
  intros <-. eexists. split; [done|]. exists [ets_printf fmt va]. split; [done|].
  split; [constructor; [by exists fmt, va|done]|]. cbn. by rewrite app_nil_r.
Qed.

#[export] Instance rom_printer `{!RomPrintf rom_text} : Printer rom_printf [10] sent.
Proof using.
  split.
  - intros r. by exists [].
  - intros t1 t2 r1 r2 r3 (l1 & -> & H1 & <-) (l2 & -> & H2 & <-). exists (l1 ++ l2).
    rewrite foldl_app, fmap_app, concat_app. split; [done|]. split; [by apply Forall_app|done].
  - intros s r Hs. by apply sent_one, rom_literal.
  - intros c r Hc. by apply sent_one, rom_byte.
  - intros s rest r Hs Hl. by apply sent_one, rom_string.
Qed.

(** The dump of the boot loader sends the reference dump too, with its own end of a line. *)
Theorem rom_hexdump `{!RomPrintf rom_text} data r :
  Forall (fun c => 0 <= c < 256) data -> data <> [] ->
  exists r', trace_hex data (len data) r = Ok tt r' /\ sent (hexdump [10] data) r r'.
Proof using. intros Hb Hne. by apply (shows_dump rom_printf [10] sent). Qed.
End RomTrace.

(** A printf like the kernel's keeps what the ROM's promises. *)
Definition kernel_like (fmt : list Z) (va : list va_value) : list Z :=
  match render (fmt ++ [0]) va with Ok _ t => t | Stop _ _ => [] end.

#[export] Instance kernel_like_printf : RomPrintf kernel_like.
Proof.
  split; unfold kernel_like.
  - intros s Hs. by destruct (render_literal s Hs) as [k ->].
  - intros c Hc. by destruct (render_byte c Hc) as [k ->].
  - intros s rest Hs Hl. destruct (render_row [10] s rest) as [k E]; [by right|done|done|]. by rewrite E.
Qed.

Lemma rom_hexdump_witness :
  exists r', trace_hex [72; 105; 33; 200] 4 (Rom (fs := unit) ∅ tt [] 0 0 0) = Ok tt r' /\
    concat (said kernel_like <$> events r') =
    txt "[*] 48 69 21 c8                                       |  Hi!. " ++ [10].
Proof.
  destruct (rom_hexdump kernel_like [72; 105; 33; 200] (Rom (fs := unit) ∅ tt [] 0 0 0)) as (r' & E & _);
    [repeat constructor; lia|done|]. exists r'. split; [exact E|]. vm_compute in E. injection E as <-.
  vm_compute. reflexivity.
Defined.
