(* ===== verification/Boot.v ===== *)
(** * Booting the kernel (kernel/src/main.c, mem/mem.c, init_pid of drivers/pid.c and
      get_cpu_index of arch/cpu.c)

    The whole board as the kernel sees it: the system of Loader.v, the DPORT registers, the
    PID controller and the special registers of the CPU. kmain initialises all of it, loads
    the applications that the boot loader left in memory, and gives the CPU to the first of
    them with the drop system call, which does not come back. *)
From Stdlib Require Import ZArith Lia Ascii String.
From stdpp Require Import base tactics numbers list gmap.
From S2P Require Import Prelude Umem Mmu Dport Timg Printf PrintfSpec Console Task Scheduler.
From S2P Require Import Syscall Loader Initrd.

(** ** State *)

(** PIDCTRL registers; the register that takes the new PID is in the state of Mmu.v. *)
Record pid_control := PidControl {
  PIDCTRL_INTERRUPT_ENABLE : Z;
  PIDCTRL_INTERRUPT_ADDR : list Z;
  PIDCTRL_PID_DELAY : Z;
  PIDCTRL_LEVEL : Z;
  PIDCTRL_FROM : list Z;
}.

(** The special registers PS and INTENABLE, and the interrupts cleared so far. *)
Record special_regs := SpecialRegs { PS : Z; INTENABLE : Z; INTCLEAR : list Z }.

Record board := Board {
  board_system : system;
  board_dport : dport;
  board_pid : pid_control;
  board_special : special_regs;
  UMM_MALLOC_CFG_HEAP : Z * Z;
}.

Definition put_system (x : system) (b : board) : board :=
  Board x (board_dport b) (board_pid b) (board_special b) (UMM_MALLOC_CFG_HEAP b).
Definition put_dport (x : dport) (b : board) : board :=
  Board (board_system b) x (board_pid b) (board_special b) (UMM_MALLOC_CFG_HEAP b).
Definition put_pid (x : pid_control) (b : board) : board :=
  Board (board_system b) (board_dport b) x (board_special b) (UMM_MALLOC_CFG_HEAP b).
Definition put_special (x : special_regs) (b : board) : board :=
  Board (board_system b) (board_dport b) (board_pid b) x (UMM_MALLOC_CFG_HEAP b).
Definition put_heap (x : Z * Z) (b : board) : board :=
  Board (board_system b) (board_dport b) (board_pid b) (board_special b) x.

#[export] Instance lens_system : Lens board system.
Proof. refine {| view := board_system; update := put_system |}; [done|by intros []|done]. Defined.
#[export] Instance lens_dport : Lens board dport.
Proof. refine {| view := board_dport; update := put_dport |}; [done|by intros []|done]. Defined.
#[export] Instance lens_pid : Lens board pid_control.
Proof. refine {| view := board_pid; update := put_pid |}; [done|by intros []|done]. Defined.
#[export] Instance lens_special : Lens board special_regs.
Proof. refine {| view := board_special; update := put_special |}; [done|by intros []|done]. Defined.

(** The parts of the system. *)
#[export] Instance lens_through {T} `{Lens system T} : Lens board T.
Proof.
  refine {| view := fun b => view (board_system b);
    update := fun t b => put_system (update t (board_system b)) b |}.
  - intros t b. apply view_update.
  - intros []. cbn. by rewrite update_view.
  - intros t t' b. cbn. by rewrite update_update.
Defined.
#[export] Instance system_timg : Lens system timg.
Proof.
  refine {| view := fun s => wdt (kern (sys s));
    update := fun t s => System (Machine (put_wdt t (kern (sys s))) (console (sys s))) (user_mem s) |};
    [done|by intros [[[]]]|done].
Defined.
#[export] Instance system_sys : Lens system machine.
Proof.
  refine {| view := sys; update := fun m s => System m (user_mem s) |}; [done|by intros []|done].
Defined.
#[export] Instance board_wdt_disjoint : LensDisjoint board dport timg.
Proof. by constructor. Defined.

(** ** The PS register: position and width of the fields that kmain sets *)
Definition ps_intlevel : Z * Z := (0, 4).
Definition ps_excm : Z * Z := (4, 1).
Definition ps_um : Z * Z := (5, 1).
Definition ps_woe : Z * Z := (18, 1).
Definition set_ps_field (f : Z * Z) (v : Z) (ps : Z) : Z := field_set f.1 f.2 v ps.

Definition __read_ps : M special_regs Z := gets PS.
Definition __write_ps (ps : Z) : M special_regs unit :=
  modify (fun r => SpecialRegs ps (INTENABLE r) (INTCLEAR r)).

Definition get_cpu_index (PRID : Z) : Z := (PRID .>> 13) .& 1.

Definition ALIGN_DOWN (x align : Z) : Z := u32 (x - (x .& u32 (align - 1))).

(** ** init_pid: the exception vectors that the controller watches *)
Definition pid_vectors : list Z := [0x340; 0x180; 0x1c0; 0x200; 0x240; 0x280; 0x2c0].

Definition init_pid_regs (vecbase : Z) : M pid_control unit :=
  mfor (seq 0 7) (fun i =>
    off ← deref (pid_vectors !! i);
    modify (fun r => PidControl (PIDCTRL_INTERRUPT_ENABLE r)
      (<[i := u32 (vecbase + off)]> (PIDCTRL_INTERRUPT_ADDR r)) (PIDCTRL_PID_DELAY r)
      (PIDCTRL_LEVEL r) (PIDCTRL_FROM r)));;
  modify (fun r => PidControl (PIDCTRL_INTERRUPT_ENABLE r) (PIDCTRL_INTERRUPT_ADDR r)
    (PIDCTRL_PID_DELAY r) 0 (PIDCTRL_FROM r));;
  mfor (seq 0 7) (fun i => modify (fun r => PidControl (PIDCTRL_INTERRUPT_ENABLE r)
    (PIDCTRL_INTERRUPT_ADDR r) (PIDCTRL_PID_DELAY r) (PIDCTRL_LEVEL r) (<[i := 0]> (PIDCTRL_FROM r))));;
  modify (fun r => PidControl 0xFE (PIDCTRL_INTERRUPT_ADDR r) (PIDCTRL_PID_DELAY r)
    (PIDCTRL_LEVEL r) (PIDCTRL_FROM r));;
  modify (fun r => PidControl (PIDCTRL_INTERRUPT_ENABLE r) (PIDCTRL_INTERRUPT_ADDR r) 0
    (PIDCTRL_LEVEL r) (PIDCTRL_FROM r)).

Definition init_pid (vecbase : Z) : M board unit :=
  zoom (init_pid_regs vecbase);;
  zoom init_pid_bindings.

(** Where the boot loader leaves the initial ramdisk. *)
Definition initrd_handoff : Z := 0x3FFC2000.

Section Boot.
(** The environment of the scheduler, of the console and of init_dport. *)
Context (weak_fails : nat -> bool) (fuel : nat) (interrupt : nat -> M kernel unit) (sleeps : nat)
  (call : Z -> Z -> M kernel unit).
Context (txfifo_cnt : nat -> Z) (polls : nat).
Context (pro_flush_done app_flush_done : nat -> bool) (flushes : nat).
Context (user_data : Z -> list Z).
(** Linker symbols, the processor's identity, and the paths given to the compiler. *)
Context (vecbase task_trampoline _heap_start _heap_size PRID : Z).
Context (main_FILE loader_FILE syscall_FILE dport_FILE timg_FILE : list Z).
(** The allocator of the kernel heap (a library), and the locations of the tasks it makes. *)
Context (umm_init : M board unit) (umm_malloc : Z -> M board (option Z)) (umm_free : Z -> M board unit).
Context (task_heap : nat -> option loc).
(** What the stack holds where the loader's variable [task] is, when it is not set. *)
Context (task_stack : nat -> option loc).
(** The registers at the system call that leaves kmain. *)
Context (at_syscall : task_regs).

Abbreviation TRACE fmt va := (zoom (S := board) (TRACE txfifo_cnt polls (txt fmt) va)).

(** ** mem/mem.c *)
Definition init_mem : M board err :=
  let tmp_start := ALIGN_UP _heap_start 4 in
  let added := u32 (tmp_start - _heap_start) in
  let heap_size := ALIGN_DOWN (u32 (_heap_size - added)) 4 in
  modify (put_heap (tmp_start, heap_size));;
  TRACE "Kernel heap: %p (%S)" [VWord tmp_start; VWord heap_size];;
  umm_init;;
  mret NO_ERROR.

Definition malloc (size : Z) : M board (option Z) := umm_malloc size.
Definition free (ptr : Z) : M board unit := umm_free ptr.

(** ** main.c *)

(** Reading [n] bytes of the user data memory. *)
Definition read_user (a n : Z) : M board (list Z) :=
  mem ← gets (fun b => user_mem (board_system b));
  deref (mapM (fun i => mem !! i) (seqZ a n)).

(** The round for entry [i] at [entry], which lies at the address [addr]; the rest of the
    rounds follow when there was no error. *)
Fixpoint load_entries (n : nat) (i : nat) (addr : Z) (entry : list Z) : M board err :=
  match n with
  | O => mret NO_ERROR
  | S n' =>
      TRACE "LOL" [];;
      size ← entry_size entry;
      zoom (Console.TRACE txfifo_cnt polls (9 :: txt "Loading %s - %d bytes")
        [VStr (addr + 4) (entry_name entry); VWord size]);;
      e ← zoom (loader_load_app weak_fails fuel txfifo_cnt polls task_trampoline loader_FILE
             (task_heap i) (task_stack i) (addr + 4) (entry_name entry) (entry_data entry) size);
      if IS_ERROR e then zoom (rethrown txfifo_cnt polls (txt "load_from_initrd") main_FILE 54);; mret e
      else
        next ← INITRD_NEXT_ENTRY entry;
        load_entries n' (S i) (addr + sizeof_initrd_entry + size) next
  end.

Definition load_from_initrd : M board err :=
  handoff ← read_user initrd_handoff sizeof_initrd_header;
  count ← initrd_count handoff;
  total_size ← initrd_total_size handoff;
  TRACE "Loading from initrd (%d entries - %d bytes)" [VWord count; VWord total_size];;
  header ← malloc total_size;
  match header with
  | None =>
      zoom (check_failed txfifo_cnt polls (txt "load_from_initrd") main_FILE ERROR_OUT_OF_RESOURCES 46);;
      mret ERROR_OUT_OF_RESOURCES
  | Some ptr =>
      copy ← read_user initrd_handoff total_size;
      let entry := drop (Z.to_nat sizeof_initrd_header) copy in
      TRACE "IN HERE - %s" [VStr (ptr + sizeof_initrd_header + 4) (entry_name entry)];;
      count ← initrd_count copy;
      err ← load_entries (Z.to_nat count) 0 (ptr + sizeof_initrd_header) entry;
      free ptr;;
      mret err
  end.

(** The SYSCALL instruction with [n] in a2: the entry saves the registers, and its exit
    restores those the handler leaves in the frame. *)
Definition SYSCALL (n : Z) : M board unit :=
  zoom (T := kernel) (modify (put_frame (set_ar (<[2%nat := n]> (ar at_syscall)) at_syscall)));;
  zoom (T := machine) (common_syscall_handler weak_fails fuel interrupt sleeps call txfifo_cnt polls
    user_data syscall_FILE).

(** The messages of dport_map_interrupt and init_wdt. *)
Definition driver_says (m : driver_message) : M board unit :=
  match m with
  | Mapping source free => TRACE "Mapping %d -> %d" [VWord source; VWord free]
  | CheckFailed e line => zoom (check_failed txfifo_cnt polls (txt "dport_map_interrupt") dport_FILE e line)
  | Rethrown line => zoom (rethrown txfifo_cnt polls (txt "init_wdt") timg_FILE line)
  end.

(** [cleanup]: an error fails the assertion, and then there is nothing left to do. *)
Definition kmain_cleanup (e : err) : M board unit :=
  ASSERT (negb (IS_ERROR e));;
  stop_with Spin.

Definition kmain_rethrow (e : err) (line : Z) (k : M board unit) : M board unit :=
  if IS_ERROR e then zoom (rethrown txfifo_cnt polls (txt "kmain") main_FILE line);; kmain_cleanup e
  else k.

(** It is left by the system call, which runs the first task instead of coming back. *)
Definition kmain : M board unit :=
  ps ← zoom __read_ps;
  zoom (__write_ps (set_ps_field ps_woe 1 (set_ps_field ps_um 1
    (set_ps_field ps_intlevel 0xF (set_ps_field ps_excm 0 ps)))));;
  zoom init_uart;;
  TRACE "Hello from kernel!" [];;
  ASSERT (get_cpu_index PRID =? 0);;
  zoom (init_dport vecbase pro_flush_done app_flush_done flushes);;
  _ ← zoom init_mmu;
  init_pid vecbase;;
  e ← init_mem;
  kmain_rethrow e 90 (
  ps ← zoom __read_ps;
  zoom (__write_ps (set_ps_field ps_intlevel 0 ps));;
  zoom (modify (fun r => SpecialRegs (PS r) (INTENABLE r) (INTCLEAR r ++ [1])));;
  zoom (modify (fun r => SpecialRegs (PS r) 1 (INTCLEAR r)));;
  e ← load_from_initrd;
  kmain_rethrow e 107 (
  e ← init_wdt (S := board) driver_says;
  kmain_rethrow e 110 (scheduler_drop_current SYSCALL))).
End Boot.
