(* ===== verification/BootSpec.v ===== *)
(** * What booting promises

    The applications of the ramdisk are loaded one after the other, each next to those before
    it; kmain takes the board from its reset state to the first of them running, with the
    hardware set up. *)
From Stdlib Require Import ZArith Lia Ascii String.
From stdpp Require Import base tactics numbers list gmap.
From S2P Require Import Prelude Umem Mmu MmuInv MmuSpec Dport Timg Printf PrintfSpec Console.
From S2P Require Import Text Task TaskSpec Scheduler SchedSpec SchedThm Syscall SyscallSpec.
From S2P Require Import Layout Loader LoaderSpec Running RunningSpec Initrd Boot.

(** ** The bytes at an address of memory *)
Definition in_memory (mem : gmap Z Z) (addr : Z) (bytes : list Z) : Prop :=
  forall i, (i < length bytes)%nat -> mem !! (addr + Z.of_nat i) = bytes !! i.

Lemma mapM_in_memory mem addr bytes n :
  in_memory mem addr bytes -> 0 <= n <= len bytes ->
  mapM (fun i => mem !! i) (seqZ addr n) = Some (take (Z.to_nat n) bytes).
Proof.
  intros Hin Hn. apply mapM_Some. apply Forall2_same_length_lookup_2.
  - rewrite length_seqZ, length_take. unfold len in Hn. lia.
  - intros i x y Hx Hy. apply lookup_seqZ in Hx as [-> Hi]. apply lookup_take_Some in Hy as [Hy Hlt].
    rewrite Hin; [done|]. by apply lookup_lt_Some in Hy.
Qed.

Lemma in_memory_write addr bytes mem : in_memory (write_bytes addr bytes mem) addr bytes.
Proof.
  intros i Hi. rewrite write_bytes_lookup, decide_True by (unfold len; lia). f_equal. lia.
Qed.

Lemma in_memory_other addr bytes addr' bytes' mem :
  addr' + len bytes' <= addr \/ addr + len bytes <= addr' ->
  in_memory mem addr bytes -> in_memory (write_bytes addr' bytes' mem) addr bytes.
Proof.
  intros Ho Hin i Hi. rewrite write_bytes_lookup, decide_False by (unfold len in *; lia). by apply Hin.
Qed.

Lemma in_memory_app mem addr b1 b2 :
  in_memory mem addr (b1 ++ b2) <-> in_memory mem addr b1 /\ in_memory mem (addr + len b1) b2.
Proof.
  split.
  - intros H. split; intros i Hi.
    + rewrite H by (rewrite length_app; lia). by apply lookup_app_l.
    + replace (addr + len b1 + Z.of_nat i) with (addr + Z.of_nat (length b1 + i)) by (unfold len; lia).
      rewrite H by (rewrite length_app; lia). rewrite lookup_app_r by lia. f_equal. lia.
  - intros [H1 H2] i Hi. rewrite length_app in Hi. destruct (decide (i < length b1)%nat).
    + rewrite lookup_app_l by done. by apply H1.
    + rewrite lookup_app_r by lia. rewrite <- H2 by lia. f_equal. unfold len. lia.
Qed.

(** ** The applications in a ramdisk *)
Record app := App {
  app_name : list Z;
  app_junk : list Z;
  app_code : list Z;
  app_data : list Z;
  app_tail : list Z;
  app_bss : Z;
  app_entry : Z;
}.

(** The file, and its entry: the size, the name in its 64 bytes, the file. *)
Definition app_file (a : app) : list Z :=
  app_image (len (app_code a)) (len (app_data a)) (app_bss a) (app_entry a)
    (app_code a ++ app_data a ++ app_tail a).
Definition app_bytes (a : app) : list Z :=
  le_bytes 4 (len (app_file a)) ++ (app_name a ++ 0 :: app_junk a) ++ app_file a.

Record app_ok (a : app) : Prop := {
  ao_name : Forall (fun c => c <> 0 /\ c <> 37) (app_name a);
  ao_field : len (app_name a ++ 0 :: app_junk a) = 64;
  ao_code : len (app_code a) <= 15 * USER_PAGE_SIZE;
  ao_bss : 0 <= app_bss a;
  ao_data : len (app_data a) + app_bss a <= 15 * USER_PAGE_SIZE;
  ao_entry : USER_CODE_BASE <= app_entry a < USER_CODE_BASE + len (app_code a);
  ao_size : len (app_file a) < 2 ^ 31;
}.

Definition code_need (a : app) : Z := pages_for (len (app_code a)).
Definition data_need (a : app) : Z := pages_for (len (app_data a) + app_bss a) + 1.
Definition total (need : app -> Z) (apps : list app) : Z := foldr (fun a n => need a + n) 0 apps.

(** The task [p] holds the application [a], ready to start. *)
Record holds_app (trampoline : Z) (k : kernel) (mem : gmap Z Z) (p : loc) (a : app) : Prop := {
  ha_context : task_context k p = Some (fresh_ucontext trampoline (app_entry a) (app_name a));
  ha_space : exists sp page qc qd, spaces (mmu k) !! p = Some sp /\
    (forall v q, maps (immu sp) v q <-> qc !! v = Some q) /\
    (forall v q, maps (dmmu sp) v q <-> qd !! v = Some q \/ (v = 15%nat /\ q = page)) /\
    Z.of_nat (length qc) = code_need a /\ Z.of_nat (length qd) + 1 = data_need a /\
    holds CODE_PAGE_ADDR qc (app_code a) mem /\ holds DATA_PAGE_ADDR qd (app_data a) mem;
}.

Lemma len_app_bytes a : app_ok a -> len (app_bytes a) = 68 + len (app_file a) /\ 20 <= len (app_file a).
Proof.
  intros Ha. pose proof (ao_field a Ha) as H. unfold app_bytes. rewrite (len_app (le_bytes _ _)), len_app, H.
  change (len (le_bytes 4 _)) with 4. split; [lia|]. unfold app_file, app_image, raw_image.
  rewrite !(len_app (le_bytes _ _)). change (len (le_bytes 4 _)) with 4. unfold len. lia.
Qed.

(** Loading another application keeps the ones that are there. *)
Lemma holds_app_kept tr k k' mem mem' l p entry code data page qc qd r a nm :
  app_started p l tr entry nm code data page qc qd k k' mem mem' -> memory_wf k ->
  r <> p -> is_Some (tasks k !! r) -> holds_app tr k mem r a -> holds_app tr k' mem' r a.
Proof.
  intros Hst Hwf Hr Ht [Hregs (sp & pg & qc0 & qd0 & Hsp & Hic & Hid & Hlc & Hld & Hc & Hd)].
  destruct (as_others _ _ _ _ _ _ _ _ _ _ _ _ _ _ Hst r Hr) as (_ & Hrg & Hs).
  destruct (as_pages _ _ _ _ _ _ _ _ _ _ _ _ _ _ Hst) as (_ & _ & Hcf & Hdf & _).
  pose proof (mw_space _ (kw_mmu k Hwf) r sp Hsp) as Hspw.
  destruct (sw_immu sp Hspw) as (_ & Hb & _). destruct (sw_dmmu sp Hspw) as (_ & Hb' & _).
  assert (forall q, q ∈ qc -> 0 <= q < 16) as Bc
    by (intros q Hq; apply Hcf in Hq; by apply (pa_bounded (PageAllocator := code_pages)) in Hq).
  assert (forall q, q ∈ qd -> 0 <= q < 16) as Bd.
  { intros q Hq. apply (pa_bounded (PageAllocator := data_pages) (pages k)), Hdf. by right. }
  split; [by rewrite Hrg|]. exists sp, pg, qc0, qd0. split; [by rewrite Hs|]. split; [done|].
  split; [done|]. split; [done|]. split; [done|].
  pose proof page_bytes_Z as Hpb. unfold VDSO_PAGE_INDEX, MAX_PAGE_COUNT in *.
  split; intros j q x Hj Hx Hl.
  - rewrite <- (Hc j q x Hj Hx Hl). assert (maps (immu sp) j q) as Hm by by apply Hic.
    pose proof (Hb j q Hm). apply (as_memory _ _ _ _ _ _ _ _ _ _ _ _ _ _ Hst); intros q' Hq'.
    + specialize (Bc q' Hq'). apply Hcf in Hq'. intros Hin.
      destruct (page_addresses_apart q q' (Z.of_nat x) (CODE_PAGE_ADDR q + Z.of_nat x - CODE_PAGE_ADDR q'))
        as (H1 & _); [lia..|unfold USER_PAGE_SIZE; lia|lia|].
      rewrite <- H1 in Hq' by lia. by apply (kw_owned_code k Hwf r sp j q Hsp Hm).
    + specialize (Bd q' Hq'). intros Hin.
      destruct (page_addresses_apart q q' (Z.of_nat x) (CODE_PAGE_ADDR q + Z.of_nat x - DATA_PAGE_ADDR q'))
        as (_ & _ & H1); [lia..|unfold USER_PAGE_SIZE; lia|lia|]. apply H1. lia.
  - rewrite <- (Hd j q x Hj Hx Hl). assert (maps (dmmu sp) j q) as Hm by (apply Hid; by left).
    pose proof (Hb' j q Hm). apply (as_memory _ _ _ _ _ _ _ _ _ _ _ _ _ _ Hst); intros q' Hq'.
    + specialize (Bc q' Hq'). intros Hin.
      destruct (page_addresses_apart q' q (DATA_PAGE_ADDR q + Z.of_nat x - CODE_PAGE_ADDR q') (Z.of_nat x))
        as (_ & _ & H1); [lia..|lia|unfold USER_PAGE_SIZE; lia|]. apply H1. lia.
    + specialize (Bd q' Hq'). intros Hin.
      destruct (page_addresses_apart q q' (Z.of_nat x) (DATA_PAGE_ADDR q + Z.of_nat x - DATA_PAGE_ADDR q'))
        as (_ & H1 & _); [lia..|unfold USER_PAGE_SIZE; lia|lia|].
      assert (q' ∈ free_pages MMU_SPACE_DATA k) as Hfree by (apply Hdf; by right).
      rewrite <- H1 in Hfree by lia. by apply (kw_owned k Hwf r sp j q Hsp Hm).
Qed.

Lemma size_take_list (X : gset Z) qs :
  NoDup qs -> (forall q, q ∈ qs -> q ∈ X) ->
  Z.of_nat (size (X ∖ list_to_set qs)) = Z.of_nat (size X) - Z.of_nat (length qs).
Proof.
  intros Hn Hs. assert (list_to_set qs ⊆ X) as Hsub by (intros q Hq%elem_of_list_to_set; auto).
  rewrite size_difference by done. rewrite size_list_to_set by done.
  pose proof (subseteq_size _ _ Hsub) as H. rewrite size_list_to_set in H by done. lia.
Qed.

(** ** The ramdisk *)
Section Ramdisk.
Context (weak_fails : nat -> bool) (fuel : nat) (txfifo_cnt : nat -> Z) (polls : nat).
Context (trampoline : Z) (main_FILE loader_FILE : list Z).
Context (task_heap task_stack : nat -> option loc).
Hypothesis (Hends : cas_ends weak_fails fuel) (Hdrains : drains txfifo_cnt polls).

Abbreviation load_entries :=
  (load_entries weak_fails fuel txfifo_cnt polls trampoline main_FILE loader_FILE task_heap task_stack).
Abbreviation ksys b := (kern (sys (board_system b))).
Abbreviation bmem b := (user_mem (board_system b)).

(** A board on which only the kernel's state, the console and the user memory differ. *)
Definition with_system (k : kernel) (u : uart) (mem : gmap Z Z) (b : board) : board :=
  put_system (System (Machine k u) mem) b.

Lemma console_ok (m : M uart unit) t b :
  prints m t -> exists u', zoom m b = Ok tt (with_system (ksys b) u' (bmem b) b) /\
    printed t (console (sys (board_system b))) u'.
Proof using.
  intros H. destruct (H (console (sys (board_system b)))) as (u' & E & P). exists u'. split; [|done].
  unfold zoom. cbn [view lens_through system_console]. by rewrite E.
Qed.

(** What loading a list of applications achieves. *)
Record apps_loaded (apps : list app) (ps l : list loc) (k k' : kernel) (mem mem' : gmap Z Z) : Prop := {
  al_sched : sched_wf k' (l ++ ps) None;
  al_apps : Forall2 (holds_app trampoline k' mem') ps apps;
  al_current : current_task k' = current_task k /\ frame k' = frame k /\ park_callback k' = park_callback k;
  al_contexts : contexts_owned k -> contexts_owned k';
  al_kept : forall p a, p ∉ ps -> is_Some (tasks k !! p) ->
    holds_app trampoline k mem p a -> holds_app trampoline k' mem' p a;
  al_others : forall p, p ∉ ps -> task_status k' p = task_status k p;
}.

Lemma apps_loaded_nil l k mem : sched_wf k l None -> apps_loaded [] [] l k k mem mem.
Proof using. intros H. constructor; try done. by rewrite app_nil_r. Qed.

Lemma task_none k k' p : task_status k' p = task_status k p -> tasks k' !! p = None <-> tasks k !! p = None.
Proof using. unfold task_status. intros H. destruct (tasks k !! p), (tasks k' !! p); done. Qed.

Lemma apps_loaded_cons a apps p ps l k k1 k2 mem mem1 mem2 page qc qd :
  sched_wf k l None -> tasks k !! p = None -> p ∉ ps ->
  Z.of_nat (length qc) = code_need a -> Z.of_nat (length qd) + 1 = data_need a ->
  app_started p l trampoline (app_entry a) (app_name a) (app_code a) (app_data a) page qc qd k k1 mem mem1 ->
  apps_loaded apps ps (l ++ [p]) k1 k2 mem1 mem2 ->
  apps_loaded (a :: apps) (p :: ps) l k k2 mem mem2.
Proof using.
  intros Hwf Hp Hnin Hlc Hld Hst Hl.
  assert (forall r, r ∉ p :: ps -> task_status k2 r = task_status k r) as Hothers.
  { intros r [Hr1 Hr2]%not_elem_of_cons. rewrite (al_others _ _ _ _ _ _ _ Hl) by done.
    by apply (as_others _ _ _ _ _ _ _ _ _ _ _ _ _ _ Hst). }
  constructor; try done.
  - replace (l ++ p :: ps) with ((l ++ [p]) ++ ps) by (by rewrite <- (assoc_L (++))). apply Hl.
  - constructor; [|apply Hl]. apply (al_kept _ _ _ _ _ _ _ Hl); [done| |].
    + pose proof (as_sched _ _ _ _ _ _ _ _ _ _ _ _ _ _ Hst) as [_ _ _ Hrun _ _].
      specialize (Hrun p). unfold task_status in Hrun.
      destruct (tasks k1 !! p) eqn:E; [by eexists|]. cbn in Hrun.
      destruct Hrun as [_ Hrun]. discriminate Hrun. left. apply elem_of_app. right. by left.
    + split; [apply Hst|]. destruct (as_space _ _ _ _ _ _ _ _ _ _ _ _ _ _ Hst) as (sp & Hsp & Hi & Hd).
      exists sp, page, qc, qd. split; [done|]. split; [done|]. split; [done|]. split; [done|]. split; [done|].
      split; apply Hst.
  - destruct (al_current _ _ _ _ _ _ _ Hl) as (-> & -> & ->). apply Hst.
  - intros Hk. apply Hl, Hst, Hk.
  - intros r b [Hr1 Hr2]%not_elem_of_cons Ht Hb. apply (al_kept _ _ _ _ _ _ _ Hl); [done| |].
    + assert (task_status k1 r = task_status k r) as H by by apply (as_others _ _ _ _ _ _ _ _ _ _ _ _ _ _ Hst).
      apply task_none in H. destruct (tasks k1 !! r); [by eexists|]. destruct Ht as [x Hx].
      rewrite Hx in H. by destruct H as [H _]; specialize (H eq_refl).
    + eapply holds_app_kept; try done. apply Hwf.
Qed.

(** ** Reading the fields of an entry *)
Lemma read_word_le {S} v rest (s : S) :
  0 <= v < 2 ^ 32 -> read_word (le_bytes 4 v ++ rest) 0 s = Ok v s.
Proof using. intros Hv. rewrite <- (le_word v Hv) at 2. reflexivity. Qed.

Section Entry.
Context (a : app) (rest : list Z).
Hypothesis (Ha : app_ok a).
Abbreviation entry := (app_bytes a ++ rest).

Lemma entry_size_ok {S} (s : S) : entry_size entry s = Ok (len (app_file a)) s.
Proof using Ha.
  pose proof (len_app_bytes a Ha). pose proof (ao_size a Ha). unfold entry_size, app_bytes.
  rewrite <- (assoc_L (++)). apply read_word_le. lia.
Qed.

Lemma entry_name_ok : entry_name entry = app_name a ++ 0 :: app_junk a ++ app_file a ++ rest.
Proof using.
  unfold entry_name, app_bytes. rewrite <- !(assoc_L (++)).
  change 4%nat with (length (le_bytes 4 (len (app_file a)))). by rewrite drop_app_length.
Qed.

Lemma entry_data_ok :
  entry_data entry = app_image (len (app_code a)) (len (app_data a)) (app_bss a) (app_entry a)
    (app_code a ++ app_data a ++ app_tail a ++ rest).
Proof using Ha.
  unfold entry_data, app_bytes. rewrite (assoc_L (++) (le_bytes _ _)), <- (assoc_L (++) _ (app_file a)).
  rewrite drop_app_length'.
  - unfold app_file, app_image, raw_image. by rewrite <- !(assoc_L (++)).
  - pose proof (ao_field a Ha) as H. unfold len in H. rewrite length_app.
    change (length (le_bytes 4 _)) with 4%nat. unfold sizeof_initrd_entry. lia.
Qed.

Lemma entry_next_ok {S} (s : S) : INITRD_NEXT_ENTRY entry s = Ok rest s.
Proof using Ha.
  unfold INITRD_NEXT_ENTRY. mrun entry_size_ok. rewrite drop_app_length'; [done|].
  pose proof (len_app_bytes a Ha) as [H _]. unfold len, sizeof_initrd_entry in *. lia.
Qed.
End Entry.

Lemma piece_loading nm rest a c :
  Forall (fun c => c <> 0) nm -> len nm < 2 ^ 32 - 1 -> u32 a <> 0 -> 0 <= c < 2 ^ 31 ->
  exists t, piece (9 :: txt "Loading %s - %d bytes") [VStr a (nm ++ 0 :: rest); VWord c] t.
Proof using.
  intros Hnm Hlen Ha Hc. destruct (piece_decimal c Hc) as (d & _ & P & _). eexists.
  change (9 :: txt "Loading %s - %d bytes") with
    ((9 :: txt "Loading ") ++ txt "%s" ++ txt " - " ++ txt "%d" ++ txt " bytes").
  apply (piece_app _ _ []); [by apply piece_literal|]. apply (piece_app _ _ [_]); [by apply piece_string|].
  apply (piece_app _ _ []); [by apply piece_literal|]. apply (piece_app _ _ [_] []); [exact P|].
  by apply piece_literal.
Qed.

Lemma total_cons need a apps : total need (a :: apps) = need a + total need apps.
Proof using. done. Qed.

Lemma total_nonneg need apps : Forall (fun a => 0 <= need a) apps -> 0 <= total need apps.
Proof using. induction 1; [done|]. rewrite total_cons. lia. Qed.

Lemma needs_nonneg a : app_ok a -> 0 <= code_need a /\ 0 < data_need a.
Proof using.
  intros Ha. unfold code_need, data_need. pose proof (ao_code a Ha). pose proof (ao_data a Ha). pose proof (ao_bss a Ha).
  assert (0 <= len (app_code a) /\ 0 <= len (app_data a)) as [? ?] by (unfold len; lia).
  pose proof (pages_for_bounds (len (app_code a)) ltac:(lia)).
  pose proof (pages_for_bounds (len (app_data a) + app_bss a) ltac:(lia)). lia.
Qed.

(** All entries are loaded, in order, when there are pages for all of them. *)
Lemma load_entries_ok apps : forall ps i addr rest l b,
  let k := ksys b in
  sched_wf k l None -> Forall app_ok apps -> length ps = length apps -> NoDup ps ->
  (forall j p, ps !! j = Some p -> task_heap (i + j)%nat = Some p /\ tasks k !! p = None) ->
  0 < addr -> addr + len (concat (app_bytes <$> apps)) < 2 ^ 32 ->
  total code_need apps <= Z.of_nat (size (free_pages MMU_SPACE_CODE k)) ->
  total data_need apps <= Z.of_nat (size (free_pages MMU_SPACE_DATA k)) ->
  exists k' u' mem' t,
    load_entries (length apps) i addr (concat (app_bytes <$> apps) ++ rest) b =
      Ok NO_ERROR (with_system k' u' mem' b) /\
    apps_loaded apps ps l k k' (bmem b) mem' /\ printed t (console (sys (board_system b))) u'.
Proof using Hends Hdrains.
  induction apps as [|a apps IH]; intros [|p ps] i addr rest l b k Hwf Hok Hlen Hnd Hps Haddr Hlast Hcode Hdata;
    try done.
  - exists k, (console (sys (board_system b))), (bmem b), []. split; [|split].
    + destruct b as [[[]] ? ? ? ?]. done.
    + by apply apps_loaded_nil.
    + split; [done|]. by rewrite app_nil_r.
  - apply Forall_cons in Hok as [Ha Hok]. apply NoDup_cons in Hnd as [Hnin Hnd].
    destruct (Hps 0%nat p eq_refl) as [Hheap Hp]. rewrite Nat.add_0_r in Hheap.
    cbn [fmap list_fmap concat length] in *. rewrite len_app in Hlast. rewrite <- (assoc_L (++)).
    set (more := concat (app_bytes <$> apps) ++ rest).
    pose proof (len_app_bytes a Ha) as [Hla Hlf]. pose proof (ao_size a Ha) as Hsz.
    assert (0 <= len (concat (app_bytes <$> apps))) as Hlr by (unfold len; lia).
    rewrite !total_cons in Hcode, Hdata.
    assert (0 <= total code_need apps /\ 0 <= total data_need apps) as [Hc0 Hd0].
    { split; apply total_nonneg; eapply Forall_impl; try exact Hok; intros x Hx;
        pose proof (needs_nonneg x Hx); lia. }
    pose proof (needs_nonneg a Ha) as [Hca Hda].
    assert (Forall (fun c => c <> 0) (app_name a)) as Hnz
      by (eapply Forall_impl; [apply Ha|]; by intros c []).
    assert (len (app_name a) < 2 ^ 32 - 1) as Hnl.
    { pose proof (ao_field a Ha) as H. rewrite len_app in H. unfold len in *. lia. }
    assert (u32 (addr + 4) <> 0) as Hna by (rewrite wrapu_small; lia).
    destruct (console_ok (Console.TRACE txfifo_cnt polls (txt "LOL") []) _ b
      (prints_message txfifo_cnt polls "[*] " _ _ _ Hdrains eq_refl (piece_literal (txt "LOL") eq_refl))) as (u1 & E1 & P1).
    destruct (piece_loading (app_name a) (app_junk a ++ app_file a ++ more) (addr + 4) (len (app_file a)))
      as (t2 & Ht2); [done|done|done|lia|].
    set (b1 := with_system k u1 (bmem b) b) in *.
    destruct (console_ok _ _ b1 (prints_message txfifo_cnt polls "[*] " _ _ _ Hdrains eq_refl Ht2)) as (u2 & E2 & P2).
    set (b2 := with_system k u2 (bmem b) b).
    destruct (load_app_ok weak_fails fuel txfifo_cnt polls trampoline loader_FILE Hends Hdrains
      p (task_stack i) l (addr + 4) (app_name a) (app_junk a ++ app_file a ++ more)
      (app_code a) (app_data a) (app_tail a ++ more) (app_bss a) (app_entry a) (len (app_file a))
      (board_system b2)) as (page & qc & qd & k1 & u3 & mem1 & t3 & E3 & Lc & Ld & Hst & P3);
      try done; try apply Ha.
    { split; [unfold sizeof_app_header; lia|]. unfold app_file, app_image, raw_image. rewrite !len_app.
      change (len (le_bytes 4 _)) with 4. unfold len. lia. }
    { change (kern (sys (board_system b2))) with k. unfold code_need in *. lia. }
    { change (kern (sys (board_system b2))) with k. unfold data_need in *. lia. }
    change (kern (sys (board_system b2))) with k in Hst.
    change (user_mem (board_system b2)) with (bmem b) in Hst.
    set (b3 := with_system k1 u3 mem1 b).
    pose proof (as_pages _ _ _ _ _ _ _ _ _ _ _ _ _ _ Hst) as (Nc & Nd & Fc & Fd & Ec & Ed).
    destruct (IH ps (S i) (addr + 68 + len (app_file a)) rest (l ++ [p]) b3) as (k2 & u4 & mem2 & t4 & E4 & Hl & P4);
      try done; try lia.
    { apply Hst. }
    { intros j r Hj. destruct (Hps (S j) r Hj) as [H1 H2]. rewrite Nat.add_succ_r in H1. split; [done|].
      assert (r <> p) as Hrp by (intros ->; apply Hnin; by eapply list_elem_of_lookup_2).
      destruct (as_others _ _ _ _ _ _ _ _ _ _ _ _ _ _ Hst r Hrp) as (H & _). by apply task_none in H; apply H. }
    { change (ksys b3) with k1. rewrite Ec, size_take_list by done. unfold code_need in *. lia. }
    { change (ksys b3) with k1. rewrite Ed, size_take_list by done. cbn [length]. unfold data_need in *. lia. }
    exists k2, u4, mem2. eexists. split; [|split].
    + cbn [Boot.load_entries]. mrun E1. mrun (entry_size_ok a). { done. }
      rewrite entry_name_ok, entry_data_ok by done. mrun E2.
      mrun (zoom_ok (H := lens_system)).
      { change (view b2) with (board_system b2) in *. rewrite Hheap. exact E3. }
      cbn [IS_ERROR err_code Z.eqb negb]. mrun (entry_next_ok a). { done. }
      unfold sizeof_initrd_entry. exact E4.
    + eapply apps_loaded_cons; try done; unfold code_need, data_need; lia.
    + exact (printed_trans _ _ _ _ _ (printed_trans _ _ _ _ _ (printed_trans _ _ _ _ _ P1 P2) P3) P4).
Qed.

(** ** load_from_initrd *)
Section Initrd.
Context (umm_malloc : Z -> M board (option Z)) (umm_free : Z -> M board unit).

Abbreviation load := (load_from_initrd weak_fails fuel txfifo_cnt polls trampoline main_FILE loader_FILE
  umm_malloc umm_free task_heap task_stack).

Definition initrd_image (pad : list Z) (apps : list app) : list Z :=
  le_bytes 4 (sizeof_initrd_header + len (concat (app_bytes <$> apps))) ++
  Z.of_nat (length apps) :: pad ++ concat (app_bytes <$> apps).

Lemma len_initrd_image pad apps :
  length pad = 3%nat -> len (initrd_image pad apps) = 8 + len (concat (app_bytes <$> apps)).
Proof using.
  intros Hpad. unfold initrd_image. set (body := concat _). rewrite len_app. change (len (le_bytes 4 _)) with 4.
  change (Z.of_nat (length apps) :: pad ++ body) with ([Z.of_nat (length apps)] ++ pad ++ body).
  rewrite !len_app. unfold len. rewrite Hpad. cbn [length]. lia.
Qed.

Lemma take_initrd_image pad apps :
  length pad = 3%nat -> take 8 (initrd_image pad apps) =
    le_bytes 4 (len (initrd_image pad apps)) ++ Z.of_nat (length apps) :: pad.
Proof using.
  intros Hpad. rewrite len_initrd_image by done. unfold initrd_image. by destruct pad as [|? [|? [|? [|]]]].
Qed.

Lemma read_user_ok addr bytes n b :
  in_memory (bmem b) addr bytes -> 0 <= n <= len bytes ->
  read_user addr n b = Ok (take (Z.to_nat n) bytes) b.
Proof using. intros Hin Hn. unfold read_user. mrun. by rewrite (mapM_in_memory _ _ bytes). Qed.

Lemma piece_from_initrd c n :
  0 <= c < 2 ^ 31 -> 0 <= n < 2 ^ 31 ->
  exists t, piece (txt "Loading from initrd (%d entries - %d bytes)") [VWord c; VWord n] t.
Proof using.
  intros Hc Hn. destruct (piece_decimal c Hc) as (d1 & _ & P1 & _).
  destruct (piece_decimal n Hn) as (d2 & _ & P2 & _). eexists.
  change (txt "Loading from initrd (%d entries - %d bytes)") with
    (txt "Loading from initrd (" ++ txt "%d" ++ txt " entries - " ++ txt "%d" ++ txt " bytes)").
  apply (piece_app _ _ []); [by apply piece_literal|]. apply (piece_app _ _ [_]); [exact P1|].
  apply (piece_app _ _ []); [by apply piece_literal|]. apply (piece_app _ _ [_] []); [exact P2|].
  by apply piece_literal.
Qed.

Lemma piece_in_here nm rest a :
  Forall (fun c => c <> 0) nm -> len nm < 2 ^ 32 - 1 -> u32 a <> 0 ->
  exists t, piece (txt "IN HERE - %s") [VStr a (nm ++ 0 :: rest)] t.
Proof using.
  intros Hnm Hlen Ha. eexists. change (txt "IN HERE - %s") with (txt "IN HERE - " ++ txt "%s").
  apply (piece_app _ _ []); [by apply piece_literal|by apply piece_string].
Qed.

(** The image in memory, with room in the heap for the copy, at [ptr]. *)
Lemma load_from_initrd_ok pad a apps ps l ptr b :
  let k := ksys b in let image := initrd_image pad (a :: apps) in
  length pad = 3%nat -> (length (a :: apps) < 256)%nat ->
  in_memory (bmem b) initrd_handoff image ->
  (forall n b, umm_malloc n b = Ok (Some ptr) b) -> (forall b, umm_free ptr b = Ok tt b) ->
  sched_wf k l None -> Forall app_ok (a :: apps) -> length ps = length (a :: apps) -> NoDup ps ->
  (forall j p, ps !! j = Some p -> task_heap j = Some p /\ tasks k !! p = None) ->
  0 < ptr -> ptr + len image < 2 ^ 32 -> len image < 2 ^ 31 ->
  total code_need (a :: apps) <= Z.of_nat (size (free_pages MMU_SPACE_CODE k)) ->
  total data_need (a :: apps) <= Z.of_nat (size (free_pages MMU_SPACE_DATA k)) ->
  exists k' u' mem' t,
    load b = Ok NO_ERROR (with_system k' u' mem' b) /\
    apps_loaded (a :: apps) ps l k k' (bmem b) mem' /\ printed t (console (sys (board_system b))) u'.
Proof using Hends Hdrains.
  intros k image Hpad Hcount Hmem Hmalloc Hfree Hwf Hok Hlen Hnd Hps Hptr Hp32 Hi31 Hcode Hdata.
  set (body := concat (app_bytes <$> a :: apps)) in *.
  assert (len image = 8 + len body) as Hli by by apply len_initrd_image.
  assert (88 <= len body) as Hb0.
  { pose proof (len_app_bytes a (proj1 (proj1 (Forall_cons _ _ _) Hok))) as H. unfold body.
    cbn [fmap list_fmap concat]. rewrite len_app. assert (0 <= len (concat (app_bytes <$> apps))) by (unfold len; lia). lia. }
  assert (drop 8 image = body) as Hdrop.
  { unfold image, initrd_image. destruct pad as [|? [|? [|? [|]]]]; try done. }
  assert (forall s : board, initrd_count image s = Ok (Z.of_nat (length (a :: apps))) s) as Ec by done.
  assert (forall s : board, initrd_total_size image s = Ok (len image) s) as Et.
  { intros s. rewrite Hli. apply read_word_le. lia. }
  pose proof (take_initrd_image pad (a :: apps) Hpad) as Htake. fold image in Htake.
  pose proof (proj1 (proj1 (Forall_cons _ _ _) Hok)) as Ha.
  assert (Forall (fun c => c <> 0) (app_name a)) as Hnz
    by (eapply Forall_impl; [apply Ha|]; by intros c []).
  assert (len (app_name a) < 2 ^ 32 - 1) as Hnl.
  { pose proof (ao_field a Ha) as H. rewrite len_app in H. unfold len in *. lia. }
  destruct (piece_from_initrd (Z.of_nat (length (a :: apps))) (len image)) as (t1 & Ht1); [lia|lia|].
  destruct (console_ok _ _ b (prints_message txfifo_cnt polls "[*] " _ _ _ Hdrains eq_refl Ht1)) as (u1 & E1 & P1).
  set (b1 := with_system k u1 (bmem b) b) in *.
  destruct (piece_in_here (app_name a) (app_junk a ++ app_file a ++ concat (app_bytes <$> apps))
    (ptr + sizeof_initrd_header + 4)) as (t2 & Ht2);
    [done|done|rewrite wrapu_small; unfold sizeof_initrd_header; lia|].
  destruct (console_ok _ _ b1 (prints_message txfifo_cnt polls "[*] " _ _ _ Hdrains eq_refl Ht2)) as (u2 & E2 & P2).
  set (b2 := with_system k u2 (bmem b) b).
  destruct (load_entries_ok (a :: apps) ps 0 (ptr + sizeof_initrd_header) [] l b2)
    as (k' & u' & mem' & t3 & E3 & Hl & P3); try done.
  { unfold sizeof_initrd_header. lia. } { fold body. unfold sizeof_initrd_header. lia. }
  exists k', u', mem'. eexists. split; [|split; [done|]].
  - unfold load_from_initrd. mrun (read_user_ok initrd_handoff image). { done. }
    { unfold sizeof_initrd_header. lia. }
    change (Z.to_nat sizeof_initrd_header) with 8%nat. rewrite Htake.
    mrun. mrun read_word_le. { lia. } mrun E1. mrun Hmalloc. cbv beta iota.
    mrun (read_user_ok initrd_handoff image). { done. } { lia. }
    rewrite take_ge by (unfold len; lia). rewrite Hdrop. unfold body. cbn [fmap list_fmap concat].
    rewrite entry_name_ok. mrun E2. mrun Ec. rewrite Nat2Z.id.
    rewrite app_nil_r in E3. cbn [fmap list_fmap concat] in E3. mrun E3. mrun Hfree. done.
  - exact (printed_trans _ _ _ _ _ (printed_trans _ _ _ _ _ P1 P2) P3).
Qed.

(** Without heap for the copy. *)
Lemma load_from_initrd_no_heap pad a apps b :
  let image := initrd_image pad (a :: apps) in
  length pad = 3%nat -> (length (a :: apps) < 256)%nat ->
  in_memory (bmem b) initrd_handoff image -> len image < 2 ^ 31 ->
  Forall (fun c => c <> 0) main_FILE -> len main_FILE < 2 ^ 32 - 1 ->
  (forall n b, umm_malloc n b = Ok None b) ->
  exists u', load b = Ok ERROR_OUT_OF_RESOURCES (with_system (ksys b) u' (bmem b) b).
Proof using Hdrains.
  clear Hends. intros image Hpad Hcount Hmem Hi31 Hmf Hml Hmalloc. set (k := ksys b).
  set (n := Z.of_nat (length (a :: apps))). set (body := concat (app_bytes <$> a :: apps)).
  assert (len image = 8 + len body) as Hli by by apply len_initrd_image.
  assert (0 <= len body) as Hb0 by (unfold len; lia).
  destruct (piece_from_initrd n (len image)) as (t1 & Ht1); [lia|lia|].
  destruct (console_ok _ _ b (prints_message txfifo_cnt polls "[*] " _ _ _ Hdrains eq_refl Ht1)) as (u1 & E1 & _).
  destruct (prints_check_failed txfifo_cnt polls (txt "load_from_initrd") main_FILE 46 Hdrains
    ltac:(by repeat constructor) ltac:(done) Hmf Hml ltac:(lia) ERROR_OUT_OF_RESOURCES) as (t2 & Ht2).
  destruct (console_ok _ _ (with_system k u1 (bmem b) b) Ht2) as (u2 & E2 & _).
  exists u2. unfold load_from_initrd. mrun (read_user_ok initrd_handoff image). { done. }
  { unfold sizeof_initrd_header. lia. }
  change (Z.to_nat sizeof_initrd_header) with 8%nat. unfold image. rewrite take_initrd_image by done.
  fold image. mrun. mrun read_word_le. { lia. } mrun E1. mrun Hmalloc. cbv beta iota. mrun E2. done.
Qed.

(** C21: Loading the ramdisk. When the heap holds a copy of it and there are pages for all its
    applications, each of them becomes a task at the end of the run queue, in the order of
    the ramdisk, with its code and data in pages of its own (which the ramdisk may have
    occupied: that is why it is copied), and nothing else changes. Without heap the error is
    returned and only the console has changed. *)
Theorem load_from_initrd_spec pad a apps ps l ptr b :
  let k := ksys b in let image := initrd_image pad (a :: apps) in
  length pad = 3%nat -> (length (a :: apps) < 256)%nat ->
  in_memory (bmem b) initrd_handoff image -> len image < 2 ^ 31 ->
  Forall (fun c => c <> 0) main_FILE -> len main_FILE < 2 ^ 32 - 1 ->
  ((forall n b, umm_malloc n b = Ok (Some ptr) b) -> (forall b, umm_free ptr b = Ok tt b) ->
   sched_wf k l None -> Forall app_ok (a :: apps) -> length ps = length (a :: apps) -> NoDup ps ->
   (forall j p, ps !! j = Some p -> task_heap j = Some p /\ tasks k !! p = None) ->
   0 < ptr -> ptr + len image < 2 ^ 32 ->
   total code_need (a :: apps) <= Z.of_nat (size (free_pages MMU_SPACE_CODE k)) ->
   total data_need (a :: apps) <= Z.of_nat (size (free_pages MMU_SPACE_DATA k)) ->
   exists k' u' mem', load b = Ok NO_ERROR (with_system k' u' mem' b) /\
     apps_loaded (a :: apps) ps l k k' (bmem b) mem') /\
  ((forall n b, umm_malloc n b = Ok None b) ->
   exists u', load b = Ok ERROR_OUT_OF_RESOURCES (with_system k u' (bmem b) b)).
Proof using Hends Hdrains.
  intros k image Hpad Hcount Hmem Hi31 Hmf Hml. split.
  - intros. destruct (load_from_initrd_ok pad a apps ps l ptr b) as (k' & u' & mem' & t & E & H' & _); try done.
    by exists k', u', mem'.
  - by apply (load_from_initrd_no_heap pad a apps).
Qed.
End Initrd.
End Ramdisk.

(** ** Initialisation *)
Lemma init_pid_regs_ok vecbase r :
  length (PIDCTRL_INTERRUPT_ADDR r) = 7%nat -> length (PIDCTRL_FROM r) = 7%nat ->
  init_pid_regs vecbase r = Ok tt (PidControl 0xFE ((fun off => u32 (vecbase + off)) <$> pid_vectors) 0 0
    (replicate 7 0)).
Proof.
  destruct r as [e a d v f]. cbn [PIDCTRL_INTERRUPT_ADDR PIDCTRL_FROM]. intros Ha Hf.
  destruct a as [|? [|? [|? [|? [|? [|? [|? [|]]]]]]]]; try done.
  destruct f as [|? [|? [|? [|? [|? [|? [|? [|]]]]]]]]; try done.
Qed.

(** The kernel's variables before anything runs, on the MMU tables as the reset leaves them. *)
Definition reset_kernel (it dt : list table_reg) (amt alt : list Z) (w : timg) (f : task_regs) : kernel :=
  Kernel (boot_state it dt amt alt) umem_init w ∅ ∅ 0 (TaskQueue None None) 0 0 None None 0 f.

Definition fresh_kernel (it dt : list table_reg) (amt alt : list Z) (w : timg) (f : task_regs) : kernel :=
  put_mmu (booted it dt amt alt) (reset_kernel it dt amt alt w f).

Lemma fresh_kernel_sched it dt amt alt w f :
  reset_table it -> reset_table dt -> sched_wf (fresh_kernel it dt amt alt w f) [] None.
Proof.
  intros Hi Hd. assert (memory_wf (fresh_kernel it dt amt alt w f)) as Hwf.
  { constructor; cbn [mmu pages tasks fresh_kernel put_mmu reset_kernel];
      change (spaces (booted it dt amt alt)) with (∅ : gmap loc mmu_t).
    - by apply booted_wf.
    - split; by vm_compute.
    - intros p. split; intros [x H]; by rewrite lookup_empty in H.
    - intros p sp v q H. by rewrite lookup_empty in H.
    - intros p sp v q H. by rewrite lookup_empty in H.
    - intros H%elem_of_page_set. by destruct H.
    - intros p t H. by rewrite lookup_empty in H. }
  constructor; try done.
  - split; [done|]. split; [done|]. split; [constructor|]. intros i p H. by rewrite lookup_nil in H.
  - intros p. split; [done|]. intros [H|H]; [by apply not_elem_of_nil in H|done].
Qed.

(** The two halves of [init_address_spaces], as kmain calls them. *)
Lemma init_address_spaces_split it dt amt alt :
  length it = 16%nat -> exists e s1, init_mmu (boot_state it dt amt alt) = Ok e s1 /\
    init_pid_bindings s1 = Ok tt (booted it dt amt alt).
Proof.
  intros Hl. pose proof (init_address_spaces_ok it dt amt alt Hl) as E.
  apply bind_ok_inv in E as (e & s1 & E1 & E2). eauto.
Qed.

Lemma piece_heap a n :
  0 <= a < 2 ^ 32 -> 0 <= n < 2 ^ 32 -> exists t, piece (txt "Kernel heap: %p (%S)") [VWord a; VWord n] t.
Proof.
  intros Ha Hn. destruct (piece_ptr a Ha) as (d1 & _ & P1). destruct (piece_size n Hn) as (d2 & P2).
  eexists. change (txt "Kernel heap: %p (%S)") with
    (txt "Kernel heap: " ++ txt "%p" ++ txt " (" ++ txt "%S" ++ txt ")").
  apply (piece_app _ _ []); [by apply piece_literal|]. apply (piece_app _ _ [_]); [exact P1|].
  apply (piece_app _ _ []); [by apply piece_literal|]. apply (piece_app _ _ [_] []); [exact P2|].
  by apply piece_literal.
Qed.

Lemma piece_line source free :
  0 <= source < 2 ^ 31 -> 0 <= free < 2 ^ 31 -> exists t, piece (txt "Mapping %d -> %d") [VWord source; VWord free] t.
Proof.
  intros Hs Hf. destruct (piece_decimal source Hs) as (d1 & _ & P1 & _). destruct (piece_decimal free Hf) as (d2 & _ & P2 & _).
  eexists. change (txt "Mapping %d -> %d") with (txt "Mapping " ++ txt "%d" ++ txt " -> " ++ txt "%d").
  apply (piece_app _ _ []); [by apply piece_literal|]. apply (piece_app _ _ [_]); [exact P1|].
  apply (piece_app _ _ []); [by apply piece_literal|exact P2].
Qed.

(** init_wdt on the interrupt lines as init_dport leaves them: the lowest level line is 0,
    the one that kmain enables. *)
Lemma map_interrupt_boot txfifo_cnt polls dport_FILE timg_FILE b :
  drains txfifo_cnt polls ->
  m_free_peripheral_interrupt (board_dport b) = free_peripheral_interrupt_init ->
  length (pro_int_map (board_dport b)) = 69%nat ->
  exists d u', dport_map_interrupt_on (fun A => zoom) (driver_says txfifo_cnt polls dport_FILE timg_FILE)
      TG_WDT_LEVEL_INT false b =
      Ok NO_ERROR (put_dport d (with_system (kern (sys (board_system b))) u' (user_mem (board_system b)) b)) /\
    pro_int_map d = <[16%nat := 0]> (pro_int_map (board_dport b)) /\
    vecbase_set d = vecbase_set (board_dport b).
Proof.
  intros Hdrains Hf Hl. destruct b as [[[k u] mem] d p sp hp]. cbn [board_dport] in Hf, Hl.
  destruct (piece_line 16 0) as (t & Ht); [done..|].
  pose (mask := u32 (free_peripheral_interrupt_init .& .~ (1 .<< 0))).
  set (d1 := put_int_map (pro_int_map d) mask d).
  destruct (console_ok _ _ (Board (System (Machine k u) mem) d1 p sp hp)
    (prints_message txfifo_cnt polls "[*] " _ _ _ Hdrains eq_refl Ht)) as (u' & Eu & _).
  destruct (lookup_lt_is_Some_2 (pro_int_map d) 16) as [old Hold]; [lia|].
  exists (put_int_map (<[16%nat := 0]> (pro_int_map d)) mask d), u'. split; [|split; reflexivity].
  assert (class_mask false free_peripheral_interrupt_init =? 0 = false) as Hm by done.
  assert (ffs (class_mask false free_peripheral_interrupt_init) - 1 = 0) as Hffs by done.
  unfold dport_map_interrupt_on. change (0 <=? TG_WDT_LEVEL_INT) with true. change (TG_WDT_LEVEL_INT <=? 68) with true.
  cbn [negb]. mrun zoom_ok. { reflexivity. } cbn [view lens_dport board_dport]. rewrite Hf, Hm, Hffs. cbv zeta.
  fold mask. mrun zoom_ok. { reflexivity. } mrun Eu.
  mrun zoom_ok. { change (Z.to_nat _) with 16%nat. rewrite Hold. reflexivity. }
  mrun zoom_ok. { reflexivity. } reflexivity.
Qed.

Lemma init_wdt_boot txfifo_cnt polls dport_FILE timg_FILE b :
  drains txfifo_cnt polls ->
  m_free_peripheral_interrupt (board_dport b) = free_peripheral_interrupt_init ->
  length (pro_int_map (board_dport b)) = 69%nat ->
  exists w d u', init_wdt (driver_says txfifo_cnt polls dport_FILE timg_FILE) b =
      Ok NO_ERROR (put_dport d (with_system (put_wdt w (kern (sys (board_system b)))) u' (user_mem (board_system b)) b)) /\
    pro_int_map d = <[16%nat := 0]> (pro_int_map (board_dport b)) /\
    vecbase_set d = vecbase_set (board_dport b).
Proof.
  intros Hdrains Hf Hl. destruct (map_interrupt_boot txfifo_cnt polls dport_FILE timg_FILE b Hdrains Hf Hl) as (d & u' & Em & Hd).
  assert (exists w, wdt_configure (wdt (kern (sys (board_system b)))) = Ok tt w) as [w Ew] by (eexists; reflexivity).
  exists w, d, u'. split; [|done]. unfold init_wdt. mrun Em. cbn [IS_ERROR err_code Z.eqb negb].
  mrun zoom_ok. { exact Ew. } by destruct b as [[[k u] mem] d0 p sp hp].
Qed.

Lemma align_up_4 x : ALIGN_UP x 4 mod 4 = 0 /\ 0 <= ALIGN_UP x 4 < 2 ^ 32.
Proof.
  unfold ALIGN_UP. change (.~ (4 - 1)) with (Z.lnot (Z.ones 2)).
  rewrite <- Z.ldiff_land, Z.ldiff_ones_r, Z.shiftl_mul_pow2, Z.shiftr_div_pow2 by lia. change (2 ^ 2) with 4.
  pose proof (wrapu_range 32 (x + (4 - 1)) ltac:(lia)) as Hr.
  split; [apply Z_mod_mult|]. pose proof (Z.div_mod (u32 (x + (4 - 1))) 4 ltac:(lia)).
  pose proof (Z.mod_pos_bound (u32 (x + (4 - 1))) 4 ltac:(lia)). lia.
Qed.

Lemma align_down_4 x : 0 <= x < 2 ^ 32 -> ALIGN_DOWN x 4 mod 4 = 0 /\ 0 <= ALIGN_DOWN x 4 < 2 ^ 32.
Proof.
  intros Hx. unfold ALIGN_DOWN. change (u32 (4 - 1)) with (Z.ones 2). rewrite Z.land_ones by lia.
  change (2 ^ 2) with 4. pose proof (Z.mod_pos_bound x 4 ltac:(lia)). pose proof (Z.div_mod x 4 ltac:(lia)).
  assert (0 <= x / 4) by (apply Z.div_pos; lia).
  rewrite wrapu_small by lia. split; [|lia].
  replace (x - x mod 4) with (x / 4 * 4) by lia. apply Z_mod_mult.
Qed.

Lemma kmain_ps ps :
  let ps1 := set_ps_field ps_woe 1 (set_ps_field ps_um 1
    (set_ps_field ps_intlevel 15 (set_ps_field ps_excm 0 ps))) in
  let ps2 := set_ps_field ps_intlevel 0 ps1 in
  get_field 0 4 ps2 = 0 /\ get_field 4 1 ps2 = 0 /\ get_field 5 1 ps2 = 1 /\ get_field 18 1 ps2 = 1.
Proof.
  cbv zeta. unfold set_ps_field, ps_woe, ps_um, ps_intlevel, ps_excm. cbn [fst snd].
  split; [|split; [|split]]; repeat first [rewrite get_field_same by lia | rewrite get_field_other by lia]; done.
Qed.

(** ** kmain *)
Section Kmain.
Context (weak_fails : nat -> bool) (fuel : nat) (interrupt : nat -> M kernel unit) (sleeps : nat)
  (call : Z -> Z -> M kernel unit).
Context (txfifo_cnt : nat -> Z) (polls : nat).
Context (pro_flush_done app_flush_done : nat -> bool) (flushes : nat).
Context (user_data : Z -> list Z).
Context (vecbase trampoline heap_start heap_size PRID : Z).
Context (main_FILE loader_FILE syscall_FILE dport_FILE timg_FILE : list Z).
Context (umm_init : M board unit) (umm_malloc : Z -> M board (option Z)) (umm_free : Z -> M board unit).
Context (task_heap task_stack : nat -> option loc) (at_syscall : task_regs).
Hypothesis (Hends : cas_ends weak_fails fuel) (Hdrains : drains txfifo_cnt polls).

Abbreviation SYSCALL := (SYSCALL weak_fails fuel interrupt sleeps call txfifo_cnt polls user_data
  syscall_FILE at_syscall).
Abbreviation init_mem := (init_mem txfifo_cnt polls heap_start heap_size umm_init).
Abbreviation kmain := (kmain weak_fails fuel interrupt sleeps call txfifo_cnt polls pro_flush_done
  app_flush_done flushes user_data vecbase trampoline heap_start heap_size PRID main_FILE loader_FILE
  syscall_FILE dport_FILE timg_FILE umm_init umm_malloc umm_free task_heap task_stack at_syscall).
Abbreviation load := (load_from_initrd weak_fails fuel txfifo_cnt polls trampoline main_FILE loader_FILE
  umm_malloc umm_free task_heap task_stack).
Abbreviation ksys b := (kern (sys (board_system b))).
Abbreviation bmem b := (user_mem (board_system b)).

(** The drop system call of kmain starts the first task. *)
Lemma drop_syscall_ok l p b :
  length (ar at_syscall) = 64%nat -> sched_wf (ksys b) (p :: l) None -> current_task (ksys b) = None ->
  exists k', scheduler_drop_current SYSCALL b =
      Ok tt (with_system k' (console (sys (board_system b))) (bmem b) b) /\
    sched_wf k' l None /\ current_task k' = Some p /\ Some (frame k') = saved_regs k' p /\
    layout k' = layout (ksys b) /\ (forall r, task_context k' r = task_context (ksys b) r) /\
    switched_to p (mmu k') /\ wdt_enabled (wdt k') = true /\ park_callback k' = park_callback (ksys b) /\
    same_tables (ksys b) k'.
Proof using Hends.
  intros Har Hwf Hc. destruct b as [[[k u] mem] d pc sp hp]. cbn [sys kern console user_mem board_system] in *.
  set (f := set_ar (<[2%nat := SYSCALL_SCHED_DROP]> (ar at_syscall)) at_syscall).
  set (m := Machine (put_frame f k) u).
  assert (sched_wf (returning 0 (kern m)) (p :: l) None) as Hwf0 by (by apply put_frame_wf, put_frame_wf).
  destruct (on_drop_start weak_fails fuel interrupt sleeps Hends _ l p Hwf0 Hc)
    as (k' & E & Hwf' & Hc' & Hf' & Hrg & Hsw & Hon & Hcb & Htab).
  pose proof (on_drop_start_layout weak_fails fuel interrupt sleeps _ l p Hends Hwf0 Hc) as Hlay.
  rewrite E in Hlay. cbn [outcome_state] in Hlay.
  exists k'. split; [|split; [done|split; [done|split; [done|split; [exact Hlay|split; [|done]]]]]];
    [|intros r; exact (layout_context _ k' r Hlay (Hrg r))].
  unfold scheduler_drop_current, Boot.SYSCALL. mrun zoom_ok. { reflexivity. }
  etransitivity; [apply (zoom_ok (H := lens_through) _ _ tt (Machine k' u))|reflexivity].
  change (view _) with m.
  rewrite (handler_dispatch _ _ _ _ _ _ _ _ _ SYSCALL_SCHED_DROP m (Machine k' u) NO_ERROR); [done| |].
  - cbn [m kern frame put_frame f set_ar ar]. apply list_lookup_insert_eq. unfold SYSCALL_NUM. lia.
  - unfold syscall_dispatch. cbn [Z.eqb Pos.eqb SYSCALL_SCHED_DROP SYSCALL_SCHED_PARK SYSCALL_SCHED_YIELD].
    mrun (zoom_ok (H := machine_kernel)). { exact E. } done.
Qed.

Lemma init_mem_ok b :
  (forall b, umm_init b = Ok tt b) -> exists hp u', init_mem b =
    Ok NO_ERROR (put_heap hp (with_system (ksys b) u' (bmem b) b)) /\ hp.1 mod 4 = 0 /\ hp.2 mod 4 = 0.
Proof using Hdrains.
  intros Hinit. unfold Boot.init_mem.
  set (a := ALIGN_UP heap_start 4). set (n := ALIGN_DOWN _ 4).
  destruct (align_up_4 heap_start) as [Ha Har]. fold a in Ha, Har.
  destruct (align_down_4 (u32 (heap_size - u32 (a - heap_start)))) as [Hn Hnr]; [apply wrapu_range; lia|].
  fold n in Hn, Hnr.
  destruct (piece_heap a n Har Hnr) as (t & Ht).
  destruct (console_ok _ _ (put_heap (a, n) b) (prints_message txfifo_cnt polls "[*] " _ _ _ Hdrains eq_refl Ht))
    as (u' & E & _).
  exists (a, n), u'. split; [|done]. mrun. mrun E. mrun Hinit. by destruct b.
Qed.

(** The applications are still in place once the first of them runs. *)
Lemma holds_app_tables k k' mem p a :
  (forall r, task_context k' r = task_context k r) -> same_tables k k' ->
  holds_app trampoline k mem p a -> holds_app trampoline k' mem p a.
Proof using.
  intros Hrg Htab [H1 (sp & page & qc & qd & Hsp & Hi & Hd & H2)]. split; [by rewrite Hrg|].
  specialize (Htab p). rewrite Hsp in Htab. destruct (spaces (mmu k') !! p) as [sp'|] eqn:Hsp'; [|done].
  injection Htab as E1 E2.
  exists sp', page, qc, qd. rewrite E1, E2. done.
Qed.

(** The hardware is set up: interrupts reach the kernel's vectors, and the line of the
    watchdog is the one that is enabled. *)
Record hardware_ready (d : dport) (pc : pid_control) (sp : special_regs) (hp : Z * Z) : Prop := {
  hr_vectors : vecbase_set d = (u32 vecbase .>> 10, u32 vecbase .>> 10);
  hr_lines : pro_int_map d = <[16%nat := 0]> (replicate 69 16);
  hr_enabled : INTENABLE sp = 1;
  hr_ps : get_field 0 4 (PS sp) = 0 /\ get_field 4 1 (PS sp) = 0 /\ get_field 5 1 (PS sp) = 1 /\
    get_field 18 1 (PS sp) = 1;
  hr_pid : pc = PidControl 0xFE ((fun off => u32 (vecbase + off)) <$> pid_vectors) 0 0 (replicate 7 0);
  hr_heap : hp.1 mod 4 = 0 /\ hp.2 mod 4 = 0;
}.

Section Reset.
Context (it dt : list table_reg) (amt alt : list Z) (w : timg) (f : task_regs) (u : uart) (mem : gmap Z Z)
  (d : dport) (pc : pid_control) (sp : special_regs) (hp : Z * Z).
Context (pad : list Z) (a : app) (apps : list app).

(** The board as the boot loader leaves it. *)
Definition reset_board : board :=
  Board (System (Machine (reset_kernel it dt amt alt w f) u) mem) d pc sp hp.

Hypothesis (Hit : reset_table it) (Hdt : reset_table dt).
Hypothesis (Hdport : length (pro_int_map d) = 69%nat /\ length (app_int_map d) = 69%nat /\
  length (intr_from_cpu d) = 4%nat /\ m_free_peripheral_interrupt d = free_peripheral_interrupt_init).
Hypothesis (Hpidr : length (PIDCTRL_INTERRUPT_ADDR pc) = 7%nat /\ length (PIDCTRL_FROM pc) = 7%nat).
Hypothesis (Hvec : vecbase mod 2 ^ 10 = 0).
Hypothesis (Hflush : exists n m, (n < flushes)%nat /\ pro_flush_done n = true /\
  (m < flushes)%nat /\ app_flush_done m = true).
Hypothesis (Hinit : forall b, umm_init b = Ok tt b).
Hypothesis (Hpad : length pad = 3%nat) (Hcount : (length (a :: apps) < 256)%nat).
Hypothesis (Hmem : in_memory mem initrd_handoff (initrd_image pad (a :: apps))).
Hypothesis (Hsize : len (initrd_image pad (a :: apps)) < 2 ^ 31).
(** Up to the ramdisk: the board on which it is loaded, whatever comes of it. *)
Definition ready_board (u' : uart) (hp' : Z * Z) : board :=
  let ps1 := set_ps_field ps_woe 1 (set_ps_field ps_um 1
    (set_ps_field ps_intlevel 15 (set_ps_field ps_excm 0 (PS sp)))) in
  let cache := CACHE_FLUSH_ENA .| CACHE_ENABLE in
  Board (System (Machine (fresh_kernel it dt amt alt w f) u') mem)
    (Dport (0, 0) (cache, cache) 0 (replicate 4 0) (replicate 69 16) (replicate 69 16)
      (u32 vecbase .>> 10, u32 vecbase .>> 10) ((vecbase_ctrl d).1 .| 3, (vecbase_ctrl d).2 .| 3)
      free_peripheral_interrupt_init)
    (PidControl 0xFE ((fun off => u32 (vecbase + off)) <$> pid_vectors) 0 0 (replicate 7 0))
    (SpecialRegs (set_ps_field ps_intlevel 0 ps1) 1 (INTCLEAR sp ++ [1])) hp'.

Lemma kmain_init :
  get_cpu_index PRID = 0 -> exists u' hp', hp'.1 mod 4 = 0 /\ hp'.2 mod 4 = 0 /\
    kmain reset_board = (e ← load;
      kmain_rethrow txfifo_cnt polls main_FILE e 107 (
      e ← init_wdt (S := board) (driver_says txfifo_cnt polls dport_FILE timg_FILE);
      kmain_rethrow txfifo_cnt polls main_FILE e 110 (scheduler_drop_current SYSCALL))) (ready_board u' hp').
Proof using Hdrains Hit Hdport Hpidr Hvec Hflush Hinit.
  intros Hcpu. destruct Hdport as (D1 & D2 & D3 & D4). destruct Hpidr as (P1 & P2).
  destruct Hflush as (n & m & Hn & Hpro & Hm & Happ).
  destruct (init_dport_spec vecbase pro_flush_done app_flush_done d flushes D1 D2 D3) as (Hd & _).
  specialize (Hd n ltac:(eauto 6) Hvec). rewrite D4 in Hd. set (d1 := Dport _ _ _ _ _ _ _ _ _) in Hd.
  destruct (init_address_spaces_split it dt amt alt) as (e & m1 & Em & Eb); [apply Hit|].
  set (ps1 := set_ps_field ps_woe 1 (set_ps_field ps_um 1 (set_ps_field ps_intlevel 15 (set_ps_field ps_excm 0 (PS sp))))).
  set (sp1 := SpecialRegs ps1 (INTENABLE sp) (INTCLEAR sp)).
  set (k0 := reset_kernel it dt amt alt w f).
  destruct (console_ok _ _ (Board (System (Machine k0 (Uart 0 (UART0_FIFO u) (status_reads u))) mem) d pc sp1 hp)
    (prints_message txfifo_cnt polls "[*] " _ _ _ Hdrains eq_refl
      (piece_literal (txt "Hello from kernel!") eq_refl))) as (u1 & E1 & _).
  set (pc1 := PidControl 0xFE ((fun off => u32 (vecbase + off)) <$> pid_vectors) 0 0 (replicate 7 0)).
  destruct (init_mem_ok (Board (System (Machine (fresh_kernel it dt amt alt w f) u1) mem) d1 pc1 sp1 hp) Hinit)
    as (hp1 & u2 & E2 & H1 & H2).
  exists u2, hp1. split; [done|]. split; [done|].
  unfold Boot.kmain, reset_board. fold k0. mrun. mrun. mrun.
  mrun E1. rewrite Hcpu. mrun. mrun zoom_ok. { exact Hd. } mrun zoom_ok. { exact Em. }
  mfirst.
  { unfold init_pid. mrun zoom_ok. { by apply init_pid_regs_ok. }
    etransitivity; [apply zoom_ok; exact Eb|]. reflexivity. }
  mrun E2. unfold kmain_rethrow at 1. cbn [IS_ERROR err_code Z.eqb negb].
  mrun. mrun. mrun. mrun. reflexivity.
Qed.

(** Errors while booting stop the kernel, with nothing running. On the second CPU kmain
    fails an assertion before it touches any device but the console; without heap for the
    ramdisk the error reaches the assertion at its end. *)
Theorem kmain_stops :
  Forall (fun c => c <> 0) main_FILE -> len main_FILE < 2 ^ 32 - 1 ->
  (get_cpu_index PRID <> 0 -> exists u' sp',
     kmain reset_board =
       Stop AssertFailed (Board (System (Machine (reset_kernel it dt amt alt w f) u') mem) d pc sp' hp)) /\
  (get_cpu_index PRID = 0 -> (forall n b, umm_malloc n b = Ok None b) -> exists u' hp',
     kmain reset_board = Stop AssertFailed (ready_board u' hp')).
Proof using Hdrains Hit Hdport Hpidr Hvec Hflush Hinit Hpad Hcount Hmem Hsize.
  intros Hmf Hml. split.
  - intros Hcpu. set (k0 := reset_kernel it dt amt alt w f).
    set (sp1 := SpecialRegs (set_ps_field ps_woe 1 (set_ps_field ps_um 1 (set_ps_field ps_intlevel 15
      (set_ps_field ps_excm 0 (PS sp))))) (INTENABLE sp) (INTCLEAR sp)).
    destruct (console_ok _ _ (Board (System (Machine k0 (Uart 0 (UART0_FIFO u) (status_reads u))) mem) d pc sp1 hp)
      (prints_message txfifo_cnt polls "[*] " _ _ _ Hdrains eq_refl
        (piece_literal (txt "Hello from kernel!") eq_refl))) as (u1 & E1 & _).
    exists u1, sp1. unfold Boot.kmain, reset_board. fold k0. mrun. mrun. mrun. mrun E1.
    apply bind_stop. by rewrite (proj2 (Z.eqb_neq _ _) Hcpu).
  - intros Hcpu Hmalloc. destruct (kmain_init Hcpu) as (u2 & hp1 & _ & _ & E). rewrite E.
    destruct (load_from_initrd_no_heap weak_fails fuel txfifo_cnt polls trampoline main_FILE loader_FILE
      task_heap task_stack Hdrains umm_malloc umm_free pad a apps (ready_board u2 hp1)) as (u3 & E3); try done.
    destruct (prints_rethrown txfifo_cnt polls (txt "kmain") main_FILE 107 Hdrains
      ltac:(by repeat constructor) ltac:(done) Hmf Hml ltac:(lia)) as (t2 & Ht2).
    destruct (console_ok _ _ (ready_board u3 hp1) Ht2) as (u4 & E4 & _).
    exists u4, hp1. mrun E3. unfold kmain_rethrow at 1. cbn [IS_ERROR err_code Z.eqb negb].
    mrun E4. unfold kmain_cleanup. apply bind_stop. reflexivity.
Qed.

Section Success.
Context (p : loc) (ps : list loc) (ptr : Z).
Hypothesis (Hcpu : get_cpu_index PRID = 0).
Hypothesis (Hmalloc : forall n b, umm_malloc n b = Ok (Some ptr) b) (Hfree : forall b, umm_free ptr b = Ok tt b).
Hypothesis (Hptr : 0 < ptr) (Hptr32 : ptr + len (initrd_image pad (a :: apps)) < 2 ^ 32).
Hypothesis (Hok : Forall app_ok (a :: apps)) (Hcode : total code_need (a :: apps) <= 15)
  (Hdata : total data_need (a :: apps) <= 16).
Hypothesis (Hlen : length ps = length apps) (Hnodup : NoDup (p :: ps))
  (Hheap : forall j q, (p :: ps) !! j = Some q -> task_heap j = Some q).
Hypothesis (Har : length (ar at_syscall) = 64%nat).

(** C1: Booting. From the reset state, on the CPU that may boot, with the vectors aligned, the
    caches flushed, and a ramdisk in memory that the heap can copy and whose applications fit
    in the user pages, kmain ends in its system call with the first application running: the
    frame that the exit restores starts the trampoline with the entry point of the
    application, its address space is the active one, and the PID that is entered is granted
    exactly the pages of that space. Every application of the ramdisk is in its pages, the
    others wait in the run queue in their order. Interrupts are enabled and go to the
    kernel's vectors, and the line of the watchdog, which preempts, is the one enabled. The
    system is then [running]: all that RunningSpec.v shows holds from there on. *)
Theorem kmain_boots :
  exists k u' mem' d' pc' sp' hp',
    kmain reset_board = Ok tt (Board (System (Machine k u') mem') d' pc' sp' hp') /\
    hardware_ready d' pc' sp' hp' /\ wdt_enabled (wdt k) = true /\
    sched_wf k ps None /\ current_task k = Some p /\
    frame k = initial_regs trampoline (app_entry a) /\ switched_to p (mmu k) /\
    running (System (Machine k u') mem') p ps /\
    (exists space, spaces (mmu k) !! p = Some space /\ forall v q,
       (grants (immu_table (mmu k)) (pid_new_reg (mmu k)) v q <-> maps (immu space) v q) /\
       (grants (dmmu_table (mmu k)) (pid_new_reg (mmu k)) v q <-> maps (dmmu space) v q)) /\
    Forall2 (holds_app trampoline k mem') (p :: ps) (a :: apps).
Proof using All.
  destruct (kmain_init Hcpu) as (u2 & hp1 & H1 & H2 & E). rewrite E. set (b2 := ready_board u2 hp1).
  pose proof (fresh_kernel_sched it dt amt alt w f Hit Hdt) as Hwf1.
  destruct (load_from_initrd_ok weak_fails fuel txfifo_cnt polls trampoline main_FILE loader_FILE task_heap task_stack
    Hends Hdrains umm_malloc umm_free pad a apps (p :: ps) [] ptr b2)
    as (k3 & u3 & mem3 & t3 & E3 & Hl & _); try done.
  { by simpl; f_equal. }
  { intros j q Hj. split; [by apply Hheap|apply lookup_empty]. }
  set (b3 := with_system k3 u3 mem3 b2).
  destruct (init_wdt_boot txfifo_cnt polls dport_FILE timg_FILE b3 Hdrains) as (w4 & d4 & u4 & E4 & Hline & Hvecs); [done|done|].
  set (b4 := put_dport d4 (with_system (put_wdt w4 k3) u4 mem3 b3)).
  assert (sched_wf (ksys b4) (p :: ps) None) as Hwf4 by (apply put_wdt_wf, Hl).
  destruct (drop_syscall_ok ps p b4 Har Hwf4) as (k5 & E5 & Hwf5 & Hc5 & Hf5 & Hlay5 & Hrg5 & Hsw5 & Hon5 & Hcb5 & Htab5).
  { change (current_task k3 = None). destruct (al_current _ _ _ _ _ _ _ _ Hl) as [-> _]. done. }
  pose proof (al_apps _ _ _ _ _ _ _ _ Hl) as Happs.
  assert (Forall2 (holds_app trampoline k5 mem3) (p :: ps) (a :: apps)) as Happs5.
  { eapply Forall2_impl; [exact Happs|]. intros q x Hq. eapply (holds_app_tables k3); try done. }
  pose proof (Forall2_cons_1 _ _ _ _ _ Happs5) as [Ha _].
  eexists k5, u4, mem3, d4, _, _, _.
  assert (frame k5 = initial_regs trampoline (app_entry a)) as Hf
    by (rewrite saved_regs_context, (ha_context _ _ _ _ _ Ha) in Hf5; by injection Hf5).
  split; [|split; [|split; [done|split; [done|split; [done|split; [done|split; [done|split; [|split; [|done]]]]]]]]].
  - mrun E3. unfold kmain_rethrow. cbn [IS_ERROR err_code Z.eqb negb]. mrun E4.
    cbn [IS_ERROR err_code Z.eqb negb]. exact E5.
  - constructor; try done. apply kmain_ps.
  - constructor; try done.
    + cbn. rewrite Hcb5. change (park_callback k3 = None).
      by destruct (al_current _ _ _ _ _ _ _ _ Hl) as (_ & _ & ->).
    + apply (contexts_owned_layout (ksys b4)); [exact Hlay5|]. apply (al_contexts _ _ _ _ _ _ _ _ Hl).
      intros x [y Hx]. change ((∅ : gmap Z task_ucontext) !! x = Some y) in Hx. by rewrite lookup_empty in Hx.
    + intros q x Hx. destruct (decide (q ∈ p :: ps)) as [[j Hj]%list_elem_of_lookup|Hq].
      * destruct (Forall2_lookup_l _ _ _ _ _ Happs5 Hj) as (y & _ & Hy).
        change (task_context k5 q = Some x) in Hx.
        rewrite (ha_context _ _ _ _ _ Hy) in Hx. injection Hx as <-. apply fresh_context_shape.
      * exfalso. change (task_context k5 q = Some x) in Hx. rewrite Hrg5 in Hx.
        pose proof (al_others _ _ _ _ _ _ _ _ Hl q Hq) as Hno. unfold task_context in Hx.
        change (tasks (ksys b4)) with (tasks k3) in Hx. unfold task_status in Hno.
        change (tasks (kern (sys (board_system b2)))) with (∅ : gmap loc task) in Hno.
        rewrite lookup_empty in Hno. by destruct (tasks k3 !! q).
    + cbn. by rewrite Hf.
  - destruct (ha_space _ _ _ _ _ Ha) as (space & _ & _ & _ & Hs & _). exists space. split; [done|].
    intros v q. destruct Hsw5 as (i & b & _ & Hb & Hbound & ->).
    eapply wf_grants; [apply Hwf5|done|done|done].
Qed.

End Success.
End Reset.
End Kmain.

(** ** Examples: a ramdisk with one application *)
Definition ex_app : app := App ex_text (replicate 59 0) ex_code ex_data [] 0 USER_CODE_BASE.

Lemma ex_app_ok : app_ok ex_app.
Proof.
  constructor; try (vm_compute; discriminate); try (vm_compute; reflexivity).
  - by repeat constructor.
  - split; vm_compute; (reflexivity || discriminate).
Qed.

Definition ex_mem : gmap Z Z := write_bytes initrd_handoff (initrd_image [0; 0; 0] [ex_app]) ∅.
Definition ex_pid_control : pid_control := PidControl 0 (replicate 7 0) 0 0 (replicate 7 0).
Definition ex_special : special_regs := SpecialRegs 0x1F 0 [].
Definition ex_board (k : kernel) : board :=
  Board (System (Machine k (Uart 0 [] 0)) ex_mem) ex_dport ex_pid_control ex_special (0, 0).

(** The heap gives the same answers always. *)
Definition ex_init : M board unit := fun b => Ok tt b.
Definition ex_malloc (o : option Z) : Z -> M board (option Z) := fun _ b => Ok o b.
Definition ex_free : Z -> M board unit := fun _ b => Ok tt b.
Definition ex_heap : nat -> option loc := fun i => if (i =? 0)%nat then Some 1%positive else None.

Abbreviation ex_image := (initrd_image [0; 0; 0] [ex_app]).

Lemma ex_image_len : len ex_image = 102.
Proof. vm_compute. reflexivity. Qed.

Lemma ex_needs : total code_need [ex_app] = 1 /\ total data_need [ex_app] = 2.
Proof. split; vm_compute; reflexivity. Qed.

Lemma ex_kernel_room :
  size (free_pages MMU_SPACE_CODE ex_kernel) = 15%nat /\ size (free_pages MMU_SPACE_DATA ex_kernel) = 16%nat.
Proof. split; vm_compute; reflexivity. Qed.

Lemma ex_in_memory : in_memory ex_mem initrd_handoff ex_image.
Proof. apply in_memory_write. Qed.

Lemma ex_heap_fresh {A} (m : gmap loc A) j q :
  m = ∅ -> [1%positive] !! j = Some q -> ex_heap j = Some q /\ m !! q = None.
Proof. intros ->. destruct j as [|j]; [|done]. intros [= <-]. split; [done|apply lookup_empty]. Qed.

Lemma load_from_initrd_spec_witness :
  (exists k' u' mem', load_from_initrd never_fails 1 ex_fifo 1 0x4009E000 [] [] (ex_malloc (Some 4096)) ex_free
      ex_heap (fun _ => None) (ex_board ex_kernel) = Ok NO_ERROR (with_system k' u' mem' (ex_board ex_kernel)) /\
    apps_loaded 0x4009E000 [ex_app] [1%positive] [] ex_kernel k' ex_mem mem') /\
  exists u', load_from_initrd never_fails 1 ex_fifo 1 0x4009E000 [] [] (ex_malloc None) ex_free
      ex_heap (fun _ => None) (ex_board ex_kernel) =
    Ok ERROR_OUT_OF_RESOURCES (with_system ex_kernel u' ex_mem (ex_board ex_kernel)).
Proof.
  pose proof ex_image_len as Hl. destruct ex_needs as [Hc Hd]. destruct ex_kernel_room as [Rc Rd].
  split.
  - apply (load_from_initrd_spec never_fails 1 ex_fifo 1 0x4009E000 [] [] ex_heap (fun _ => None)
      never_fails_ends ex_drains (ex_malloc (Some 4096)) ex_free [0; 0; 0] ex_app [] [1%positive] [] 4096
      (ex_board ex_kernel) eq_refl ltac:(cbn; lia) ex_in_memory ltac:(rewrite Hl; lia)
      ltac:(constructor) ltac:(reflexivity)).
    + reflexivity.
    + reflexivity.
    + exact ex_kernel_sched.
    + constructor; [apply ex_app_ok|constructor].
    + reflexivity.
    + apply NoDup_singleton.
    + intros j q. by apply ex_heap_fresh.
    + lia.
    + rewrite Hl. lia.
    + change (kern (sys (board_system (ex_board ex_kernel)))) with ex_kernel. rewrite Hc, Rc. lia.
    + change (kern (sys (board_system (ex_board ex_kernel)))) with ex_kernel. rewrite Hd, Rd. lia.
  - apply (load_from_initrd_spec never_fails 1 ex_fifo 1 0x4009E000 [] [] ex_heap (fun _ => None)
      never_fails_ends ex_drains (ex_malloc None) ex_free [0; 0; 0] ex_app [] [1%positive] [] 4096
      (ex_board ex_kernel) eq_refl ltac:(cbn; lia) ex_in_memory ltac:(rewrite Hl; lia)
      ltac:(constructor) ltac:(reflexivity)).
    reflexivity.
Defined.

(** Reset with the first CPU and with the second; the caches are flushed at once. *)
Abbreviation ex_reset := (reset_board ex_table ex_table [0; 0] (replicate 47 0) ex_timg zero_regs
  (Uart 0 [] 0) ex_mem ex_dport ex_pid_control ex_special (0, 0)).
Abbreviation ex_kmain PRID malloc := (kmain never_fails 1 no_interrupt 0 no_callback ex_fifo 1
  (fun _ => true) (fun _ => true) 1 (fun _ => []) 0x40080400 0x4009E000 0x3FFAE6E0 0x10000 PRID [] [] [] [] []
  ex_init malloc ex_free ex_heap (fun _ => None) zero_regs).

Lemma ex_flush : exists n m, (n < 1)%nat /\ (fun _ : nat => true) n = true /\
  (m < 1)%nat /\ (fun _ : nat => true) m = true.
Proof. exists 0%nat, 0%nat. repeat split; lia. Qed.

Lemma ex_dport_lengths : length (pro_int_map ex_dport) = 69%nat /\ length (app_int_map ex_dport) = 69%nat /\
  length (intr_from_cpu ex_dport) = 4%nat /\
  m_free_peripheral_interrupt ex_dport = free_peripheral_interrupt_init.
Proof. repeat split. Qed.

Lemma kmain_stops_witness :
  (exists b, ex_kmain (2 ^ 13) (ex_malloc (Some 4096)) ex_reset = Stop AssertFailed b) /\
  (exists b, ex_kmain 0 (ex_malloc None) ex_reset = Stop AssertFailed b).
Proof.
  pose proof ex_image_len as Hl.
  split.
  - destruct (kmain_stops never_fails 1 no_interrupt 0 no_callback ex_fifo 1 (fun _ => true) (fun _ => true) 1
      (fun _ => []) 0x40080400 0x4009E000 0x3FFAE6E0 0x10000 (2 ^ 13) [] [] [] [] [] ex_init (ex_malloc (Some 4096))
      ex_free ex_heap (fun _ => None) zero_regs ex_drains ex_table ex_table [0; 0] (replicate 47 0) ex_timg
      zero_regs (Uart 0 [] 0) ex_mem ex_dport ex_pid_control ex_special (0, 0) [0; 0; 0] ex_app []
      ex_table_reset ex_dport_lengths (conj eq_refl eq_refl) eq_refl ex_flush (fun _ => eq_refl) eq_refl
      ltac:(cbn; lia) ex_in_memory ltac:(rewrite Hl; lia) ltac:(constructor) ltac:(reflexivity)) as [H _].
    destruct H as (u' & sp' & E); [discriminate|]. eexists. exact E.
  - destruct (kmain_stops never_fails 1 no_interrupt 0 no_callback ex_fifo 1 (fun _ => true) (fun _ => true) 1
      (fun _ => []) 0x40080400 0x4009E000 0x3FFAE6E0 0x10000 0 [] [] [] [] [] ex_init (ex_malloc None)
      ex_free ex_heap (fun _ => None) zero_regs ex_drains ex_table ex_table [0; 0] (replicate 47 0) ex_timg
      zero_regs (Uart 0 [] 0) ex_mem ex_dport ex_pid_control ex_special (0, 0) [0; 0; 0] ex_app []
      ex_table_reset ex_dport_lengths (conj eq_refl eq_refl) eq_refl ex_flush (fun _ => eq_refl) eq_refl
      ltac:(cbn; lia) ex_in_memory ltac:(rewrite Hl; lia) ltac:(constructor) ltac:(reflexivity)) as [_ H].
    destruct H as (u' & hp' & E); [reflexivity|reflexivity|]. eexists. exact E.
Defined.

Lemma kmain_boots_witness :
  exists k u' mem' d' pc' sp' hp',
    ex_kmain 0 (ex_malloc (Some 4096)) ex_reset =
      Ok tt (Board (System (Machine k u') mem') d' pc' sp' hp') /\
    current_task k = Some 1%positive /\ frame k = initial_regs 0x4009E000 USER_CODE_BASE.
Proof.
  pose proof ex_image_len as Hl. destruct ex_needs as [Hc Hd].
  destruct (kmain_boots never_fails 1 no_interrupt 0 no_callback ex_fifo 1 (fun _ => true) (fun _ => true) 1
      (fun _ => []) 0x40080400 0x4009E000 0x3FFAE6E0 0x10000 0 [] [] [] [] [] ex_init (ex_malloc (Some 4096))
      ex_free ex_heap (fun _ => None) zero_regs never_fails_ends ex_drains ex_table ex_table [0; 0]
      (replicate 47 0) ex_timg
      zero_regs (Uart 0 [] 0) ex_mem ex_dport ex_pid_control ex_special (0, 0) [0; 0; 0] ex_app []
      ex_table_reset ex_table_reset ex_dport_lengths (conj eq_refl eq_refl) eq_refl ex_flush (fun _ => eq_refl)
      eq_refl ltac:(cbn; lia) ex_in_memory ltac:(rewrite Hl; lia) 1%positive [] 4096 eq_refl
      (fun _ _ => eq_refl) (fun _ => eq_refl) ltac:(lia) ltac:(rewrite Hl; lia)
      ltac:(constructor; [apply ex_app_ok|constructor]) ltac:(rewrite Hc; lia) ltac:(rewrite Hd; lia)
      eq_refl (NoDup_singleton _) (fun j q H => proj1 (ex_heap_fresh (∅ : gmap loc task) j q eq_refl H)) eq_refl)
    as (k & u' & mem' & d' & pc' & sp' & hp' & E & _ & _ & _ & Hcur & Hf & _).
  exists k, u', mem', d', pc', sp', hp'. split; [exact E|]. split; [exact Hcur|exact Hf].
Defined.
