(* ===== verification/Headers.v ===== *)
(** * Enumerations, bit fields and static assertions of the headers

    The constants that the C files share, against the numbers and offsets that the model uses:
    the causes of exceptions (kernel/arch/interrupts.h), the peripherals of the memory protection
    (kernel/drivers/dport.h), the registers with bit fields (kernel/arch/intrin.h, drivers/uart.c,
    drivers/timg.c, drivers/rtc_cntl.c), constants (util/defs.h), and what the compiler is asked
    to check (drivers/dport.c, task/task.h). *)
From Stdlib Require Import ZArith Lia Ascii String.
From stdpp Require Import base tactics numbers list sets strings.
From S2P Require Import Prelude Mmu Dport Timg Printf Console Task TaskSpec Interrupts Running RunningSpec Xtensa Entry Boot.

(** ** Causes of exceptions *)
(** Two of the names are those of the numbers in Interrupts.v, and have a prefix here. *)
Inductive exception_cause : Set :=
  | IllegalInstructionCause | Cause_SyscallCause | InstructionFetchErrorCause
  | LoadStoreErrorCause | Cause_Level1InterruptCause | AllocaCause | IntegerDivideByZero
  | PrivilegedCause | LoadStoreAlignmentCause | InstrPIFDataErrorCause
  | LoadStorePIFDataErrorCause | InstrPIFAddrErrorCause | LoadStorePIFAddrErrorCause
  | InstTLBMissCause | InstTLBMultiHitCause | InstFetchPrivilegeCause
  | InstFetchProhibitedCause | LoadStoreTLBMissCause | LoadStoreTLBMultiHitCause
  | LoadStorePrivilegeCause | LoadProhibitedCause | StoreProhibitedCause | Coprocessor0Disabled
  | Coprocessor1Disabled | Coprocessor2Disabled | Coprocessor3Disabled | Coprocessor4Disabled
  | Coprocessor5Disabled | Coprocessor6Disabled | Coprocessor7Disabled.

Definition exception_number (c : exception_cause) : Z :=
  match c with
  | IllegalInstructionCause => 0 | Cause_SyscallCause => 1 | InstructionFetchErrorCause => 2
  | LoadStoreErrorCause => 3 | Cause_Level1InterruptCause => 4 | AllocaCause => 5
  | IntegerDivideByZero => 6 | PrivilegedCause => 8 | LoadStoreAlignmentCause => 9
  | InstrPIFDataErrorCause => 12 | LoadStorePIFDataErrorCause => 13
  | InstrPIFAddrErrorCause => 14 | LoadStorePIFAddrErrorCause => 15 | InstTLBMissCause => 16
  | InstTLBMultiHitCause => 17 | InstFetchPrivilegeCause => 18 | InstFetchProhibitedCause => 20
  | LoadStoreTLBMissCause => 24 | LoadStoreTLBMultiHitCause => 25
  | LoadStorePrivilegeCause => 26 | LoadProhibitedCause => 28 | StoreProhibitedCause => 29
  | Coprocessor0Disabled => 32 | Coprocessor1Disabled => 33 | Coprocessor2Disabled => 34
  | Coprocessor3Disabled => 35 | Coprocessor4Disabled => 36 | Coprocessor5Disabled => 37
  | Coprocessor6Disabled => 38 | Coprocessor7Disabled => 39
  end.
Definition exception_name (c : exception_cause) : string :=
  match c with
  | IllegalInstructionCause => "IllegalInstructionCause" | Cause_SyscallCause => "SyscallCause"
  | InstructionFetchErrorCause => "InstructionFetchErrorCause"
  | LoadStoreErrorCause => "LoadStoreErrorCause"
  | Cause_Level1InterruptCause => "Level1InterruptCause" | AllocaCause => "AllocaCause"
  | IntegerDivideByZero => "IntegerDivideByZero" | PrivilegedCause => "PrivilegedCause"
  | LoadStoreAlignmentCause => "LoadStoreAlignmentCause"
  | InstrPIFDataErrorCause => "InstrPIFDataErrorCause"
  | LoadStorePIFDataErrorCause => "LoadStorePIFDataErrorCause"
  | InstrPIFAddrErrorCause => "InstrPIFAddrErrorCause"
  | LoadStorePIFAddrErrorCause => "LoadStorePIFAddrErrorCause"
  | InstTLBMissCause => "InstTLBMissCause" | InstTLBMultiHitCause => "InstTLBMultiHitCause"
  | InstFetchPrivilegeCause => "InstFetchPrivilegeCause"
  | InstFetchProhibitedCause => "InstFetchProhibitedCause"
  | LoadStoreTLBMissCause => "LoadStoreTLBMissCause"
  | LoadStoreTLBMultiHitCause => "LoadStoreTLBMultiHitCause"
  | LoadStorePrivilegeCause => "LoadStorePrivilegeCause"
  | LoadProhibitedCause => "LoadProhibitedCause"
  | StoreProhibitedCause => "StoreProhibitedCause"
  | Coprocessor0Disabled => "Coprocessor0Disabled"
  | Coprocessor1Disabled => "Coprocessor1Disabled"
  | Coprocessor2Disabled => "Coprocessor2Disabled"
  | Coprocessor3Disabled => "Coprocessor3Disabled"
  | Coprocessor4Disabled => "Coprocessor4Disabled"
  | Coprocessor5Disabled => "Coprocessor5Disabled"
  | Coprocessor6Disabled => "Coprocessor6Disabled"
  | Coprocessor7Disabled => "Coprocessor7Disabled"
  end.

(** ** Peripherals *)
Inductive mpu_peripheral : Set :=
  | MPU_UART | MPU_SPI1 | MPU_SPI0 | MPU_GPIO | MPU_RTC | MPU_IO_MUX | MPU_HINF | MPU_UHCI1
  | MPU_I2S0 | MPU_UART1 | MPU_I2C_EXT0 | MPU_UHCI0 | MPU_SLCHOST | MPU_RMT | MPU_PCNT
  | MPU_SLC | MPU_LEDC | MPU_EFUSE | MPU_SPI_ENCRYPT | MPU_PWM0 | MPU_TIMERGROUP
  | MPU_TIMERGROUP1 | MPU_SPI2 | MPU_SPI3 | MPU_APB_CTRL | MPU_I2C_EXT1 | MPU_SDIO_HOST
  | MPU_EMAC | MPU_PWM1 | MPU_I2S1 | MPU_UART2 | MPU_PWR.

Definition mpu_number (p : mpu_peripheral) : Z :=
  match p with
  | MPU_UART => 0 | MPU_SPI1 => 1 | MPU_SPI0 => 2 | MPU_GPIO => 3 | MPU_RTC => 7
  | MPU_IO_MUX => 8 | MPU_HINF => 10 | MPU_UHCI1 => 11 | MPU_I2S0 => 14 | MPU_UART1 => 15
  | MPU_I2C_EXT0 => 18 | MPU_UHCI0 => 19 | MPU_SLCHOST => 20 | MPU_RMT => 21 | MPU_PCNT => 22
  | MPU_SLC => 23 | MPU_LEDC => 24 | MPU_EFUSE => 25 | MPU_SPI_ENCRYPT => 26 | MPU_PWM0 => 28
  | MPU_TIMERGROUP => 29 | MPU_TIMERGROUP1 => 30 | MPU_SPI2 => 31 | MPU_SPI3 => 32
  | MPU_APB_CTRL => 33 | MPU_I2C_EXT1 => 34 | MPU_SDIO_HOST => 35 | MPU_EMAC => 36
  | MPU_PWM1 => 38 | MPU_I2S1 => 39 | MPU_UART2 => 40 | MPU_PWR => 46
  end.

(** The register of each, as the assertions have it. *)
Definition mpu_assertions : list (mpu_peripheral * Z) :=
  [(MPU_UART, 0x32C); (MPU_SPI1, 0x330); (MPU_SPI0, 0x334); (MPU_GPIO, 0x338);
   (MPU_RTC, 0x348); (MPU_IO_MUX, 0x34c); (MPU_HINF, 0x354); (MPU_UHCI1, 0x358);
   (MPU_I2S0, 0x364); (MPU_UART1, 0x368); (MPU_I2C_EXT0, 0x374); (MPU_UHCI0, 0x378);
   (MPU_SLCHOST, 0x37c); (MPU_RMT, 0x380); (MPU_PCNT, 0x384); (MPU_SLC, 0x388);
   (MPU_LEDC, 0x38c); (MPU_EFUSE, 0x390); (MPU_SPI_ENCRYPT, 0x394); (MPU_PWM0, 0x39c);
   (MPU_TIMERGROUP, 0x3a0); (MPU_TIMERGROUP1, 0x3a4); (MPU_SPI2, 0x3a8); (MPU_SPI3, 0x3ac);
   (MPU_APB_CTRL, 0x3b0); (MPU_I2C_EXT1, 0x3b4); (MPU_SDIO_HOST, 0x3b8); (MPU_EMAC, 0x3bc);
   (MPU_PWM1, 0x3c4); (MPU_I2S1, 0x3c8); (MPU_UART2, 0x3cc); (MPU_PWR, 0x3e4)].

(** ** Bit fields: names and widths, the lowest first *)
(** The mode of the processor. *)
Definition ps_t : list (string * Z) :=
  [("intlevel", 4); ("excm", 1); ("um", 1); ("ring", 2); ("owb", 4); ("_reserved0", 4);
   ("callinc", 2); ("woe", 1); ("_reserved1", 13)]%string.

(** The status of the serial port. *)
Definition UART_STATUS_REG : list (string * Z) :=
  [("rxfifo_cnt", 8); ("st_urx_out", 4); ("_reserved0", 1); ("dsrn", 1); ("ctsn", 1);
   ("rxd", 1); ("txfifo_cnt", 8); ("st_utx_out", 4); ("_reserved1", 1); ("dtrn", 1);
   ("rtsn", 1); ("txd", 1)]%string.

(** Its interrupts. *)
Definition UART_INT_REG : list (string * Z) :=
  [("rxfifo_full", 1); ("txfifo_empty", 1); ("parity_err", 1); ("frm_err", 1);
   ("rxfifo_ovf", 1); ("dsr_chg", 1); ("cts_chg", 1); ("brk_det", 1); ("rxfifo_tout", 1);
   ("sw_xon", 1); ("sw_xoff", 1); ("glitch_det", 1); ("tx_brk_done", 1); ("tx_brk_idle", 1);
   ("tx_done", 1); ("rs485_parity_err", 1); ("rs485_frm_err", 1); ("rs485_clash", 1);
   ("at_cmd_char_det", 1); ("_reserved", 13)]%string.

(** The configuration of a timer. *)
Definition TIMG_CONFIG_REG : list (string * Z) :=
  [("_reserved0", 10); ("alarm_en", 1); ("level_int_en", 1); ("edge_int_en", 1);
   ("divider", 16); ("autoreload", 1); ("increase", 1); ("en", 1)]%string.

(** Of the watchdog, and of the timers its interrupts. *)
Definition TIMG_WDTCONFIG_REG : list (string * Z) :=
  [("_reserved", 14); ("flashboot_mod_en", 1); ("sys_reset_length", 3); ("cpu_reset_length", 3);
   ("level_int_en", 1); ("edge_int_en", 1); ("stg3", 2); ("stg2", 2); ("stg1", 2); ("stg0", 2);
   ("en", 1)]%string.
Definition TIMG_INT_REG : list (string * Z) :=
  [("t0_int", 1); ("t1_int", 1); ("wdt_int", 1); ("_reserved", 29)]%string.

(** The real time clock: the source declares its registers, and does not use them. *)
Definition RTC_CNTL_SLP_TIMER1_REG : list (string * Z) :=
  [("slp_val_hi", 16); ("main_timer_alarm_en", 1); ("_reserved", 15)]%string.
Definition RTC_CNTL_INT_REG : list (string * Z) :=
  [("slp_wakeup_int", 1); ("slp_reject_int", 1); ("sdio_idle_int", 1); ("wdt_int", 1);
   ("time_valid_int", 1); ("ulp_cp_int", 1); ("touch_int", 1); ("brown_out_int", 1);
   ("main_timer_int", 1); ("_reserved", 23)]%string.
Definition RTC_CNTL_TIME_UPDATE_REG : list (string * Z) :=
  [("_reserved", 30); ("time_valid", 1); ("time_update", 1)]%string.
Definition RTC_CNTL_WDTCONFIG0_REG : list (string * Z) :=
  [("_reserved0", 7); ("pause_in_slp", 1); ("appcpu_reset_en", 1); ("procpu_reset_en", 1);
   ("fashboot_mod_en", 1); ("sys_reset_length", 3); ("cpu_reset_length", 3); ("_reserved1", 1);
   ("_reserved2", 1); ("stg3", 3); ("stg2", 3); ("stg1", 3); ("stg0", 3); ("en", 1)]%string.

Definition size_of_fields (fs : list (string * Z)) : Z := foldr (fun f n => f.2 + n) 0 fs.

(** The values of the fields, and the word with given values. *)
Fixpoint unpack (fs : list (string * Z)) (v : Z) : list Z :=
  match fs with
  | [] => []
  | (_, w) :: fs' => v .& Z.ones w :: unpack fs' (v .>> w)
  end.
Fixpoint pack (fs : list (string * Z)) (vs : list Z) : Z :=
  match fs, vs with
  | (_, w) :: fs', v :: vs' => v .& Z.ones w .| pack fs' vs' .<< w
  | _, _ => 0
  end.
Fixpoint field (fs : list (string * Z)) (name : string) (v : Z) : option Z :=
  match fs with
  | [] => None
  | (f, w) :: fs' => if decide (f = name) then Some (v .& Z.ones w) else field fs' name (v .>> w)
  end.
(** The lowest bit of a field, and its width. *)
Fixpoint position (fs : list (string * Z)) (name : string) : option (Z * Z) :=
  match fs with
  | [] => None
  | (f, w) :: fs' => if decide (f = name) then Some (0, w) else '(lo, n) ← position fs' name; Some (w + lo, n)
  end.

Definition registers : list (list (string * Z)) :=
  [ps_t; UART_STATUS_REG; UART_INT_REG; TIMG_CONFIG_REG; TIMG_WDTCONFIG_REG; TIMG_INT_REG;
   RTC_CNTL_SLP_TIMER1_REG; RTC_CNTL_INT_REG; RTC_CNTL_TIME_UPDATE_REG; RTC_CNTL_WDTCONFIG0_REG].

(** The fields that the code assigns, as Timg.v and Boot.v have them. *)
Definition assigned : list (list (string * Z) * string * (Z * Z)) :=
  [(TIMG_WDTCONFIG_REG, "level_int_en", WDTCONFIG_level_int_en); (TIMG_WDTCONFIG_REG, "stg1", WDTCONFIG_stg1);
   (TIMG_WDTCONFIG_REG, "stg0", WDTCONFIG_stg0); (TIMG_WDTCONFIG_REG, "en", WDTCONFIG_en);
   (TIMG_INT_REG, "wdt_int", INT_wdt_int);
   (ps_t, "intlevel", ps_intlevel); (ps_t, "excm", ps_excm); (ps_t, "um", ps_um); (ps_t, "woe", ps_woe)]%string.

(** ** The frame: the fields of task_regs_t and their sizes *)
Definition task_regs_fields : list (string * Z) :=
  [("ar", 256); ("sar", 4); ("lbeg", 4); ("lend", 4); ("lcount", 4); ("pc", 4); ("ps", 4); ("windowbase", 4);
   ("windowstart", 4); ("windowmask", 2); ("windowsize", 2)]%string.
Fixpoint offsetof (fs : list (string * Z)) (name : string) : Z :=
  match fs with
  | [] => 0
  | (f, n) :: fs' => if decide (f = name) then 0 else n + offsetof fs' name
  end.
Definition task_regs_assertions : list (string * Z) :=
  [("sar", TASK_REGS_SAR); ("lbeg", TASK_REGS_LBEG); ("lend", TASK_REGS_LEND); ("lcount", TASK_REGS_LCOUNT);
   ("pc", TASK_REGS_PC); ("ps", TASK_REGS_PS); ("windowbase", TASK_REGS_WINDOWBASE);
   ("windowstart", TASK_REGS_WINDOWSTART); ("windowmask", TASK_REGS_WINDOWMASK)]%string.

(** ** Powers of two (util/defs.h), the sizes under their names without SIZE_ and BASE_ *)
Definition BIT : list Z :=
  [0x1; 0x2; 0x4; 0x8; 0x10; 0x20; 0x40; 0x80; 0x100; 0x200; 0x400; 0x800; 0x1000; 0x2000; 0x4000;
   0x8000; 0x10000; 0x20000; 0x40000; 0x80000; 0x100000; 0x200000; 0x400000; 0x800000; 0x1000000;
   0x2000000; 0x4000000; 0x8000000; 0x10000000; 0x20000000; 0x40000000; 0x80000000; 0x100000000;
   0x200000000; 0x400000000; 0x800000000; 0x1000000000; 0x2000000000; 0x4000000000; 0x8000000000;
   0x10000000000; 0x20000000000; 0x40000000000; 0x80000000000; 0x100000000000; 0x200000000000;
   0x400000000000; 0x800000000000; 0x1000000000000; 0x2000000000000; 0x4000000000000;
   0x8000000000000; 0x10000000000000; 0x20000000000000; 0x40000000000000; 0x80000000000000;
   0x100000000000000; 0x200000000000000; 0x400000000000000; 0x800000000000000; 0x1000000000000000;
   0x2000000000000000; 0x4000000000000000; 0x8000000000000000].
Definition SIZE : list (string * Z) :=
  [("1KB", 0x400); ("2KB", 0x800); ("4KB", 0x1000); ("8KB", 0x2000); ("16KB", 0x4000);
   ("32KB", 0x8000); ("64KB", 0x10000); ("128KB", 0x20000); ("256KB", 0x40000);
   ("512KB", 0x80000); ("1MB", 0x100000); ("2MB", 0x200000); ("4MB", 0x400000); ("8MB", 0x800000);
   ("16MB", 0x1000000); ("32MB", 0x2000000); ("64MB", 0x4000000); ("128MB", 0x8000000);
   ("256MB", 0x10000000); ("512MB", 0x20000000); ("1GB", 0x40000000); ("2GB", 0x80000000);
   ("4GB", 0x100000000); ("8GB", 0x200000000); ("16GB", 0x400000000); ("32GB", 0x800000000);
   ("64GB", 0x1000000000); ("128GB", 0x2000000000); ("256GB", 0x4000000000);
   ("512GB", 0x8000000000); ("1TB", 0x10000000000); ("2TB", 0x20000000000);
   ("4TB", 0x40000000000); ("8TB", 0x80000000000); ("16TB", 0x100000000000);
   ("32TB", 0x200000000000); ("64TB", 0x400000000000); ("128TB", 0x800000000000);
   ("256TB", 0x1000000000000); ("512TB", 0x2000000000000); ("1PB", 0x4000000000000);
   ("2PB", 0x8000000000000); ("4PB", 0x10000000000000); ("8PB", 0x20000000000000);
   ("16PB", 0x40000000000000); ("32PB", 0x80000000000000); ("64PB", 0x100000000000000);
   ("128PB", 0x200000000000000); ("256PB", 0x400000000000000); ("512PB", 0x800000000000000);
   ("1EB", 0x1000000000000000); ("2EB", 0x2000000000000000); ("4EB", 0x4000000000000000);
   ("8EB", 0x8000000000000000)]%string.
Definition BASE : list (string * Z) :=
  [("1KB", 0x400); ("2KB", 0x800); ("4KB", 0x1000); ("8KB", 0x2000); ("16KB", 0x4000);
   ("32KB", 0x8000); ("64KB", 0x10000); ("128KB", 0x20000); ("256KB", 0x40000);
   ("512KB", 0x80000); ("1MB", 0x100000); ("2MB", 0x200000); ("4MB", 0x400000); ("8MB", 0x800000);
   ("16MB", 0x1000000); ("32MB", 0x2000000); ("64MB", 0x4000000); ("128MB", 0x8000000);
   ("256MB", 0x10000000); ("512MB", 0x20000000); ("1GB", 0x40000000); ("2GB", 0x80000000);
   ("4GB", 0x100000000); ("8GB", 0x200000000); ("16GB", 0x400000000); ("32GB", 0x800000000);
   ("64GB", 0x1000000000); ("128GB", 0x2000000000); ("256GB", 0x4000000000);
   ("512GB", 0x8000000000); ("1TB", 0x10000000000); ("2TB", 0x20000000000);
   ("4TB", 0x40000000000); ("8TB", 0x80000000000); ("16TB", 0x100000000000);
   ("32TB", 0x200000000000); ("64TB", 0x400000000000); ("128TB", 0x800000000000);
   ("256TB", 0x1000000000000); ("512TB", 0x2000000000000); ("1PB", 0x4000000000000);
   ("2PB", 0x8000000000000); ("4PB", 0x10000000000000); ("8PB", 0x20000000000000);
   ("16PB", 0x40000000000000); ("32PB", 0x80000000000000); ("64PB", 0x100000000000000);
   ("128PB", 0x200000000000000); ("256PB", 0x400000000000000); ("512PB", 0x800000000000000);
   ("1EB", 0x1000000000000000); ("2EB", 0x2000000000000000); ("4EB", 0x4000000000000000);
   ("8EB", 0x8000000000000000)]%string.

(** What a name like 16KB says. *)
Definition unit_size (u : string) : option Z :=
  '(i, _) ← list_find (u =.) ["KB"; "MB"; "GB"; "TB"; "PB"; "EB"]%string; Some (2 ^ (10 * (Z.of_nat i + 1))).
Definition char (c : Ascii.ascii) : Z := Z.of_nat (Ascii.nat_of_ascii c).
Fixpoint named_size (n : Z) (s : string) : option Z :=
  match s with
  | EmptyString => None
  | String c s' =>
      if _is_digit (char c) then named_size (10 * n + (char c - 48)) s'
      else size ← unit_size s; Some (n * size)
  end.

(** ** What holds of them *)
Lemma cause_named c : m_cause_str !! Z.to_nat (exception_number c) = Some (Some (exception_name c)).
Proof. by destruct c. Qed.

(** The table of names has no others. *)
Definition all_causes : list exception_cause :=
   [IllegalInstructionCause; Cause_SyscallCause; InstructionFetchErrorCause;
    LoadStoreErrorCause; Cause_Level1InterruptCause; AllocaCause; IntegerDivideByZero;
    PrivilegedCause; LoadStoreAlignmentCause; InstrPIFDataErrorCause;
    LoadStorePIFDataErrorCause; InstrPIFAddrErrorCause; LoadStorePIFAddrErrorCause;
    InstTLBMissCause; InstTLBMultiHitCause; InstFetchPrivilegeCause; InstFetchProhibitedCause;
    LoadStoreTLBMissCause; LoadStoreTLBMultiHitCause; LoadStorePrivilegeCause;
    LoadProhibitedCause; StoreProhibitedCause; Coprocessor0Disabled; Coprocessor1Disabled;
    Coprocessor2Disabled; Coprocessor3Disabled; Coprocessor4Disabled; Coprocessor5Disabled;
    Coprocessor6Disabled; Coprocessor7Disabled].

Lemma named_cause i name :
  m_cause_str !! i = Some (Some name) -> exists c, exception_number c = Z.of_nat i /\ exception_name c = name.
Proof.
  intros H. assert (i < 40)%nat as Hi by (change 40%nat with (length m_cause_str); by apply lookup_lt_Some in H).
  assert (forallb (fun j => match m_cause_str !! j with
    | Some (Some n) => existsb (fun c => (exception_number c =? Z.of_nat j) && String.eqb (exception_name c) n) all_causes
    | _ => true end) (seq 0 40) = true) as Hall by (vm_compute; reflexivity).
  rewrite forallb_forall in Hall. specialize (Hall i). rewrite H in Hall.
  specialize (Hall ltac:(apply in_seq; lia)). apply existsb_exists in Hall as (c & _ & [Hc Hn]%andb_prop).
  exists c. split; [by apply Z.eqb_eq|by apply String.eqb_eq].
Qed.

Lemma mpu_number_inj p q : mpu_number p = mpu_number q -> p = q.
Proof. by destruct p, q. Qed.

Lemma mpu_registers : Forall (fun '(p, a) => 0x32C + mpu_number p * 4 = a) mpu_assertions.
Proof. by repeat constructor. Qed.
Lemma mpu_last p : mpu_number p < Z.of_nat MPU_LAST.
Proof. by destruct p. Qed.

Lemma registers_are_words : Forall (fun fs => size_of_fields fs = 32 /\ Forall (fun f => 0 <= f.2) fs) registers.
Proof. repeat (constructor; [split; [reflexivity|repeat (constructor; [cbn; lia|]); constructor]|]). constructor. Qed.

Lemma bits_are_powers : BIT = (fun i => 2 ^ i) <$> seqZ 0 64.
Proof. reflexivity. Qed.
Lemma edge_triggered_bits : Some PERIPHERALS_EDGE_TRIGGERED =
  foldr Z.lor 0 <$> mapM (fun i => BIT !! i) [10; 22; 28; 30]%nat.
Proof. reflexivity. Qed.
Lemma free_interrupt_bits : Some free_peripheral_interrupt_init =
  foldr Z.lor 0 <$> mapM (fun i => BIT !! i) [0; 1; 2; 3; 4; 5; 8; 9; 10; 12; 13; 17; 18]%nat.
Proof. reflexivity. Qed.
Lemma sizes_as_named : Forall (fun '(name, v) => named_size 0 name = Some v) (SIZE ++ BASE).
Proof. by repeat constructor. Qed.

Lemma task_regs_offsets : Forall (fun '(f, o) => offsetof task_regs_fields f = o) task_regs_assertions.
Proof. by repeat constructor. Qed.
(** The source does not ask for this one, and its comment has another number. *)
Lemma windowsize_offset : offsetof task_regs_fields "windowsize" = TASK_REGS_WINDOWSIZE.
Proof. done. Qed.
Lemma task_regs_size : size_of_fields task_regs_fields = TASK_REGS_SIZE.
Proof. done. Qed.

Lemma initial_ps_fields : initial_ps = pack ps_t [0; 0; 1; 0; 0; 0; 0; 1; 0].
Proof. done. Qed.
Lemma PS_OWB_field v : field ps_t "owb" v = Some (PS_OWB v).
Proof.
  change (Some (((((v .>> 4) .>> 1) .>> 1) .>> 2) .& Z.ones 4) = Some (PS_OWB v)). unfold PS_OWB.
  by rewrite !Z.shiftr_shiftr.
Qed.

Lemma size_nonneg fs : Forall (fun f => 0 <= f.2) fs -> 0 <= size_of_fields fs.
Proof. unfold size_of_fields. induction 1; cbn in *; lia. Qed.

(** A word is its fields. *)
Lemma pack_unpack fs : forall v,
  Forall (fun f => 0 <= f.2) fs -> 0 <= v < 2 ^ size_of_fields fs -> pack fs (unpack fs v) = v.
Proof.
  induction fs as [|[n w] fs IH]; intros v Hfs Hv.
  - cbn in *. lia.
  - inversion Hfs as [|? ? Hw Hfs']; subst. pose proof (size_nonneg fs Hfs') as Hs. cbn [size_of_fields foldr snd] in *.
    fold (size_of_fields fs) in Hv. cbn [unpack pack]. rewrite IH; [|done|].
    + apply Z.bits_inj'. intros i Hi. rewrite Z.lor_spec, !Z.land_spec, Z.shiftl_spec by done.
      destruct (Z.lt_ge_cases i w) as [H|H].
      * rewrite Z.ones_spec_low, (Z.testbit_neg_r _ (i - w)) by lia. by rewrite !andb_true_r, orb_false_r.
      * rewrite Z.ones_spec_high, Z.shiftr_spec by lia. rewrite !andb_false_r, Z.sub_add. done.
    + rewrite Z.shiftr_div_pow2 by done. rewrite Z.pow_add_r in Hv by lia.
      split; [apply Z.div_pos; lia|]. apply Z.div_lt_upper_bound; lia.
Qed.

(** ** Fields and assignments *)
Lemma position_range fs name lo w :
  Forall (fun f => 0 <= f.2) fs -> position fs name = Some (lo, w) -> 0 <= lo /\ 0 <= w /\ lo + w <= size_of_fields fs.
Proof.
  intros Hfs. revert lo. induction Hfs as [|[f n] fs Hn Hfs IH]; intros lo H; [done|]. cbn in *.
  pose proof (size_nonneg fs Hfs) as Hs. fold (size_of_fields fs). case_decide as Hf.
  - injection H as <- <-. lia.
  - destruct (position fs name) as [[lo' w']|]; [|done]. cbn in H. injection H as <- <-.
    destruct (IH lo' eq_refl) as (H1 & H2 & H3). lia.
Qed.

(** A field is the bits at its position. *)
Lemma field_position fs name v lo w :
  Forall (fun f => 0 <= f.2) fs -> position fs name = Some (lo, w) -> field fs name v = Some (get_field lo w v).
Proof.
  intros Hfs. revert lo v. induction Hfs as [|[f n] fs Hn Hfs IH]; intros lo v H; [done|]. cbn in *.
  case_decide as Hf.
  - injection H as <- <-. done.
  - destruct (position fs name) as [[lo' w']|] eqn:E; [|done]. cbn in H. injection H as <- <-.
    rewrite (IH lo') by done. unfold get_field.
    rewrite Z.shiftr_shiftr by (pose proof (position_range _ _ _ _ Hfs E); lia). done.
Qed.

Lemma field_none fs name v : position fs name = None <-> field fs name v = None.
Proof.
  revert v. induction fs as [|[f n] fs IH]; intros v; cbn; [done|]. case_decide; [done|].
  rewrite <- (IH (v .>> n)). destruct (position fs name) as [[]|]; done.
Qed.

(** Two fields have no bit in common. *)
Lemma position_apart fs name other lo w lo' w' :
  Forall (fun f => 0 <= f.2) fs -> name <> other ->
  position fs name = Some (lo, w) -> position fs other = Some (lo', w') -> lo + w <= lo' \/ lo' + w' <= lo.
Proof.
  intros Hfs Hne. revert lo lo'. induction Hfs as [|[f n] fs Hn Hfs IH]; intros lo lo' H H'; [done|]. cbn in *.
  repeat case_decide; subst; try done.
  - injection H' as <- <-. destruct (position fs name) as [[]|] eqn:E; [|done]. cbn in H. injection H as <- <-.
    pose proof (position_range _ _ _ _ Hfs E). lia.
  - injection H as <- <-. destruct (position fs other) as [[]|] eqn:E; [|done]. cbn in H'. injection H' as <- <-.
    pose proof (position_range _ _ _ _ Hfs E). lia.
  - destruct (position fs name) as [[]|], (position fs other) as [[]|]; try done. cbn in *.
    injection H as <- <-. injection H' as <- <-. destruct (IH _ _ eq_refl eq_refl); lia.
Qed.

Lemma assigned_positions : Forall (fun '(fs, name, p) => fs ∈ registers /\ position fs name = Some p) assigned.
Proof. repeat (constructor; [split; [unfold registers; set_solver|reflexivity]|]). constructor. Qed.

(** Every assignment to a bit field that the code makes, of the watchdog's registers and of the
    mode of the processor, gives that field of the header's register the value, cut to its
    width, leaves every other field as it is, and the register is a word again. *)
Theorem assignment_sets_field fs name p x v :
  (fs, name, p) ∈ assigned -> 0 <= v < 2 ^ 32 ->
  0 <= field_set p.1 p.2 x v < 2 ^ 32 /\
  field fs name (field_set p.1 p.2 x v) = Some (x mod 2 ^ p.2) /\
  forall other, other <> name -> field fs other (field_set p.1 p.2 x v) = field fs other v.
Proof.
  intros Ha Hv. pose proof assigned_positions as Hp. rewrite Forall_forall in Hp. destruct (Hp _ Ha) as [Hr E].
  destruct p as [lo w]. cbn [fst snd]. pose proof registers_are_words as H. rewrite Forall_forall in H.
  destruct (H _ Hr) as [H32 Hfs]. pose proof (position_range _ _ _ _ Hfs E) as Hlo. rewrite H32 in Hlo.
  split; [|split].
  - apply range_of_testbit; [lia|]. intros i Hi. rewrite field_set_testbit by lia.
    rewrite (proj2 (Z.ltb_ge i (lo + w))), andb_false_r by lia. by apply (testbit_of_range 32).
  - rewrite (field_position _ _ _ lo w) by done. rewrite get_field_same by lia. by rewrite Z.land_ones by lia.
  - intros other Hne. destruct (position fs other) as [[lo' w']|] eqn:E'.
    + rewrite !(field_position _ _ _ lo' w') by done. f_equal. pose proof (position_range _ _ _ _ Hfs E').
      apply get_field_other; try lia. by apply (position_apart fs other name).
    + by rewrite !(proj1 (field_none fs other _) E').
Qed.

(** The watchdog is enabled: only the highest bit changes. *)
Lemma assignment_sets_field_witness :
  field TIMG_WDTCONFIG_REG "en" (field_set 31 1 1 0x38200000) = Some 1 /\
  field TIMG_WDTCONFIG_REG "stg0" (field_set 31 1 1 0x38200000) = Some 1.
Proof.
  destruct (assignment_sets_field TIMG_WDTCONFIG_REG "en" WDTCONFIG_en 1 0x38200000) as (_ & H1 & H2);
    [unfold assigned; set_solver|lia|].
  split; [exact H1|]. etransitivity; [by apply (H2 "stg0"%string)|reflexivity].
Defined.
