(* ===== verification/BootLoaderSpec.v ===== *)
(** * What the boot loader promises

    The kernel and the ramdisk are read from the file system to where the kernel is linked
    and to where it looks for the ramdisk; anything missing stops the loader with a message.
    littlefs is specified by the class [LittlefsLaws]: the files of a disk, and a position in
    every open file. *)
From Stdlib Require Import ZArith Lia Ascii String.
From stdpp Require Import base tactics numbers list gmap.
From S2P Require Import Prelude Umem Printf PrintfSpec Console Text Syscall Loader LoaderSpec Initrd.
From S2P Require Import Boot BootSpec BootLoader.

(** ** The file system library, as its documentation has it *)
Class LittlefsLaws {fs file : Type} `{!Littlefs fs file} (disk : list Z -> option (list Z))
    (config : lfs_config fs) := {
  mounted : fs -> Prop;
  opened : fs -> file -> list Z -> Z -> Prop;
  opened_mounted : forall l f c pos, opened l f c pos -> mounted l;
  mount_ok : forall r, exists l, lfs_mount config r = Ok 0 (set_lfs l r) /\ mounted l;
  stat_ok : forall r name c, mounted (m_lfs r) -> disk name = Some c ->
    exists l, lfs_stat name r = Ok (0, len c) (set_lfs l r) /\ mounted l;
  stat_missing : forall r name, mounted (m_lfs r) -> disk name = None ->
    exists e n l, lfs_stat name r = Ok (e, n) (set_lfs l r) /\ e < 0 /\ mounted l;
  open_ok : forall r name c, mounted (m_lfs r) -> disk name = Some c ->
    exists f l, lfs_file_opencfg name r = Ok (0, f) (set_lfs l r) /\ mounted l /\ opened l f c 0;
  open_missing : forall r name, mounted (m_lfs r) -> disk name = None ->
    exists e f l, lfs_file_opencfg name r = Ok (e, f) (set_lfs l r) /\ e < 0 /\ mounted l;
  seek_ok : forall r f c pos off, opened (m_lfs r) f c pos -> 0 <= off < 2 ^ 31 ->
    exists f' l, lfs_file_seek f off r = Ok (off, f') (set_lfs l r) /\ opened l f' c off;
  read_ok : forall r f c pos n, opened (m_lfs r) f c pos -> 0 <= pos -> 0 <= n < 2 ^ 31 ->
    let bytes := take (Z.to_nat n) (drop (Z.to_nat pos) c) in
    exists f' l, lfs_file_read f n r = Ok (len bytes, bytes, f') (set_lfs l r) /\
      opened l f' c (pos + len bytes);
}.

(** ** What a step of the loader changes: memory, the library and the log *)
Record goes {fs} (mem : gmap Z Z) (r r' : rom fs) : Prop := {
  go_memory : memory r' = mem;
  go_watchdogs : TIMG0_Tx_WDTCONFIG0 r' = TIMG0_Tx_WDTCONFIG0 r /\
    TIMG1_Tx_WDTCONFIG0 r' = TIMG1_Tx_WDTCONFIG0 r /\ RTC_CNTL_WDTCONFIG0 r' = RTC_CNTL_WDTCONFIG0 r;
  go_events : exists evs, events r' = events r ++ evs;
}.

Lemma goes_refl {fs} (r : rom fs) : goes (memory r) r r.
Proof. split; [done|done|]. exists []. by rewrite app_nil_r. Qed.

Lemma goes_trans {fs} m m' (r1 r2 r3 : rom fs) : goes m r1 r2 -> goes m' r2 r3 -> goes m' r1 r3.
Proof.
  intros [_ (A1 & A2 & A3) [e1 E1]] [M (B1 & B2 & B3) [e2 E2]]. split; [done| |].
  - rewrite B1, B2, B3. done.
  - exists (e1 ++ e2). rewrite E2, E1. by rewrite (assoc_L (++)).
Qed.

Lemma goes_lfs {fs} (l : fs) (r : rom fs) : goes (memory r) r (set_lfs l r).
Proof. split; [done|done|]. exists []. by rewrite app_nil_r. Qed.
Lemma goes_event {fs} e (r : rom fs) : goes (memory r) r (add_event e r).
Proof. split; [done|done|]. by exists [e]. Qed.
Lemma goes_memory {fs} m (r : rom fs) : goes m r (set_memory m r).
Proof. split; [done|done|]. exists []. by rewrite app_nil_r. Qed.

Lemma load_bytes_ok {fs} a bytes (r : rom fs) :
  in_memory (memory r) a bytes -> load_bytes a (len bytes) r = Ok bytes r.
Proof.
  intros H. unfold load_bytes. mrun. rewrite (mapM_in_memory _ _ bytes) by (unfold len; lia || done).
  unfold len. rewrite Nat2Z.id, firstn_all. done.
Qed.

Lemma load_word_ok {fs} a v (r : rom fs) :
  0 <= v < 2 ^ 32 -> in_memory (memory r) a (le_bytes 4 v) -> load_word a r = Ok v r.
Proof.
  intros Hv H. unfold load_word. mrun (load_bytes_ok a (le_bytes 4 v)). { done. }
  rewrite <- (app_nil_r (le_bytes 4 v)). by apply read_word_le.
Qed.

(** ** Failed assertions *)
Section Spec.
Context {fs file : Type} `{!Littlefs fs file}.
Context (esp_rom_spiflash_read : Z -> Z -> Z * list Z) (config_param : Z).
Context (uart_rx_one_char : nat -> Z) (polls : nat) (__FILE__ : list Z).

Definition assert_message (s : site) : rom_event :=
  ets_printf (txt "[-] Assert `%s` failed at %s (%s:%d)" ++ [10; 13])
    [literal (txt (site_check s)); literal (txt (site_function s)); literal __FILE__; VWord (site_line s)].

(** The loader loops for ever behind the message, on the state [r'] before it. *)
Definition asserts {A} (m : M (rom fs) A) (s : site) (r r' : rom fs) : Prop :=
  m r = Stop Spin (add_event (assert_message s) r').

Lemma assert_fails s r : asserts (ASSERT __FILE__ s false) s r r.
Proof using. reflexivity. Qed.

Lemma asserts_bind {A B} (m : M (rom fs) A) (f : A -> M (rom fs) B) s r r' :
  asserts m s r r' -> asserts (m ≫= f) s r r'.
Proof using. apply bind_stop. Qed.

Lemma asserts_after {A B} (m : M (rom fs) A) (f : A -> M (rom fs) B) a s r r1 r' :
  m r = Ok a r1 -> asserts (f a) s r1 r' -> asserts (m ≫= f) s r r'.
Proof using. intros E H. unfold asserts. etransitivity; [by eapply bind_ok|]. exact H. Qed.

(** ** Reading the flash *)

(** The block device of the file system. A read inside a block of the file system goes to
    its place behind the first four blocks of the flash, inside the 16 MB of the chip, and
    different places are read for different blocks; the result is OK exactly when the ROM
    reports no error. A read that is not in words, or of a block behind the last, stops the
    loader. The check adds before it compares, though: for the four highest block numbers the
    sum wraps around, they pass and the blocks of the boot loader are read. *)
Theorem spi_flash_read_spec block off size (r : rom fs) :
  0 <= block < 2 ^ 32 -> 0 <= off < 4096 -> 0 <= size -> off + size <= 4096 ->
  let addr := (block + 4) * 4096 + off in
  let read := spi_flash_read esp_rom_spiflash_read __FILE__ (4096 - 4) 4096 in
  (block < 4096 - 4 -> off mod 4 = 0 -> size mod 4 = 0 ->
     4 * 4096 <= addr /\ addr + size <= 16 * 2 ^ 20 /\ addr / 4096 = block + 4 /\ addr mod 4096 = off /\
     exists v, read block off size r = Ok (v, (esp_rom_spiflash_read addr size).2) r /\
       (v = LFS_ERR_OK <-> (esp_rom_spiflash_read addr size).1 = 0) /\ (v = LFS_ERR_OK \/ v = LFS_ERR_IO)) /\
  (4096 - 4 <= block < 2 ^ 32 - 4 \/ off mod 4 <> 0 \/ size mod 4 <> 0 ->
     exists s, site_function s = "spi_flash_read"%string /\ asserts (read block off size) s r r) /\
  (2 ^ 32 - 4 <= block -> off mod 4 = 0 -> size mod 4 = 0 ->
     exists v, read block off size r =
       Ok (v, (esp_rom_spiflash_read ((block + 4 - 2 ^ 32) * 4096 + off) size).2) r).
Proof using.
  intros Hb Ho Hs Hos addr read. subst read. unfold spi_flash_read.
  assert (addr = (block + 4) * 4096 + off) as Ha by done. clearbody addr.
  change (u32 (4096 - 4 + 4)) with 4096.
  assert (s32 size = size) as Hs32 by (apply wraps_small; lia).
  split; [|split].
  - intros Hlt Ho4 Hs4. split; [lia|]. split; [lia|].
    split; [by rewrite Ha, Z.div_add_l, (Z.div_small off) by lia; lia|].
    split; [by rewrite Ha, Z.add_comm, Z.mod_add, Z.mod_small by lia|].
    rewrite Ho4, Hs4, Hs32. assert (u32 (block + 4) = block + 4) as -> by (rewrite wrapu_small; lia).
    rewrite (proj2 (Z.ltb_lt (block + 4) 4096)) by lia.
    assert (u32 ((block + 4) * 4096 + off) = addr) as -> by (rewrite wrapu_small; lia).
    destruct (esp_rom_spiflash_read addr size) as [e bytes]. cbn [fst snd].
    exists (if e =? 0 then LFS_ERR_OK else LFS_ERR_IO). split; [reflexivity|].
    destruct (Z.eqb_spec e 0); split; auto; split; done.
  - intros H. destruct (Z.eqb_spec (off mod 4) 0) as [Ho4|Ho4].
    2:{ eexists. split; [|by apply asserts_bind, assert_fails]. done. }
    destruct (Z.eqb_spec (size mod 4) 0) as [Hs4|Hs4].
    2:{ eexists. split; [|eapply asserts_after; [reflexivity|]; by apply asserts_bind, assert_fails]. done. }
    assert (u32 (block + 4) = block + 4) as -> by (rewrite wrapu_small; lia).
    rewrite (proj2 (Z.ltb_ge (block + 4) 4096)) by lia.
    eexists. split; [|eapply asserts_after; [reflexivity|]; eapply asserts_after; [reflexivity|];
      by apply asserts_bind, assert_fails]. done.
  - intros Hge Ho4 Hs4. rewrite Ho4, Hs4, Hs32.
    assert (u32 (block + 4) = block + 4 - 2 ^ 32) as -> by (symmetry; apply (Z.mod_unique_pos _ _ 1); lia).
    rewrite (proj2 (Z.ltb_lt (block + 4 - 2 ^ 32) 4096)) by lia.
    assert (u32 ((block + 4 - 2 ^ 32) * 4096 + off) = (block + 4 - 2 ^ 32) * 4096 + off) as ->
      by (apply wrapu_small; lia).
    destruct (esp_rom_spiflash_read _ size) as [e bytes]. by eexists.
Qed.

(** ** The header of the kernel *)
Definition kernel_header_bytes (h : kernel_header) : list Z :=
  le_bytes 4 (magic h) ++ le_bytes 4 (u32 (code_size h)) ++ le_bytes 4 (u32 (data_size h)) ++
  le_bytes 4 (u32 (vdso_size h)) ++ le_bytes 4 (entry_point h).

(** The fields hold what their types allow. *)
Definition header_typed (h : kernel_header) : Prop :=
  0 <= magic h < 2 ^ 32 /\ - 2 ^ 31 <= code_size h < 2 ^ 31 /\ - 2 ^ 31 <= data_size h < 2 ^ 31 /\
  - 2 ^ 31 <= vdso_size h < 2 ^ 31 /\ 0 <= entry_point h < 2 ^ 32.

Lemma s32_u32 z : - 2 ^ 31 <= z < 2 ^ 31 -> s32 (u32 z) = z.
Proof using.
  intros H. unfold wraps, wrapu. rewrite Z.add_mod_idemp_l by lia. rewrite Z.mod_small; lia.
Qed.

Definition word_of (bs : list Z) : Z :=
  match bs with
  | [b0; b1; b2; b3] => b0 .| b1 .<< 8 .| b2 .<< 16 .| b3 .<< 24
  | _ => 0
  end.

Lemma word_of_le v : 0 <= v < 2 ^ 32 -> word_of (le_bytes 4 v) = v.
Proof using. exact (le_word v). Qed.

(** The header that a file starts with; what the file does not have is zero. *)
Definition header_of (p : list Z) : kernel_header :=
  KernelHeader (word_of (take 4 p)) (s32 (word_of (take 4 (drop 4 p)))) (s32 (word_of (take 4 (drop 8 p))))
    (s32 (word_of (take 4 (drop 12 p)))) (word_of (take 4 (drop 16 p))).
Definition file_header (c : list Z) : kernel_header := header_of (take 20 (c ++ replicate 20 0)).

Lemma read_kernel_header_ok {S} p (s : S) :
  length p = 20%nat -> read_kernel_header p s = Ok (header_of p) s.
Proof using. intros H. do 20 (destruct p as [|? p]; [done|]). by destruct p. Qed.

Lemma file_header_of h rest : header_typed h -> file_header (kernel_header_bytes h ++ rest) = h.
Proof using.
  intros (Hm & Hc & Hd & Hv & He). unfold file_header. rewrite <- (assoc_L (++)).
  change 20%nat with (length (kernel_header_bytes h)) at 1. rewrite take_app_length.
  assert (forall v, 0 <= u32 v < 2 ^ 32) as Hr by (intros; apply wrapu_range; lia).
  transitivity (KernelHeader (word_of (le_bytes 4 (magic h))) (s32 (word_of (le_bytes 4 (u32 (code_size h)))))
    (s32 (word_of (le_bytes 4 (u32 (data_size h))))) (s32 (word_of (le_bytes 4 (u32 (vdso_size h)))))
    (word_of (le_bytes 4 (entry_point h)))); [reflexivity|].
  rewrite !word_of_le, !s32_u32 by auto. by destruct h.
Qed.

(** The header is the part that the loader checks. *)
Definition header_ok (h : kernel_header) : bool :=
  (magic h =? KERNEL_MAGIC) && (code_size h + data_size h <=? 128 * 1024) && (Z.rem (code_size h) 4 =? 0) &&
  (Z.rem (data_size h) 4 =? 0) && (Z.rem (vdso_size h) 4 =? 0) && (KERNEL_CODE_BASE <=? entry_point h) &&
  (entry_point h <? u32 (KERNEL_CODE_BASE + code_size h)) && (code_size h <=? UINT16_MAX) &&
  (data_size h <=? UINT16_MAX) && (vdso_size h <=? UINT16_MAX).

Ltac check_fails :=
  eexists; split;
  [|repeat first [by apply assert_fails | by apply asserts_bind, assert_fails
                 | eapply asserts_after; [reflexivity|]; cbv beta]];
  reflexivity.

Lemma check_header_spec h (r : rom fs) :
  - 2 ^ 31 <= code_size h + data_size h < 2 ^ 31 ->
  if header_ok h then check_header __FILE__ h r = Ok tt r
  else exists s, site_function s = "load_kernel"%string /\ asserts (check_header __FILE__ h) s r r.
Proof using.
  intros Hsum. unfold header_ok, check_header, add_int.
  rewrite (proj2 (Z.leb_le (- 2 ^ 31) _)), (proj2 (Z.ltb_lt _ (2 ^ 31))) by lia. cbn [andb].
  match goal with |- context [mret ?x ≫= ?f] => change (mret x ≫= f) with (f x) end. cbv beta.
  rewrite <- !andb_assoc.
  repeat match goal with
  | |- if ?b && _ then _ else _ => destruct b; cbn [andb]; [|check_fails]
  | |- if ?b then _ else _ => destruct b; [reflexivity|check_fails]
  end.
Qed.

Context (disk : list Z -> option (list Z)).
Abbreviation config := (m_lfs_config esp_rom_spiflash_read __FILE__).
Context `{!LittlefsLaws disk config}.

(** One part of the kernel: through the buffer to its place. *)
Definition region (dst : Z) (part : list Z) (mem : gmap Z Z) : gmap Z Z :=
  write_bytes dst part (write_bytes m_temp_buffer part mem).

Lemma load_region_ok f c pos what dst off seek rd r part :
  opened (m_lfs r) f c pos -> 0 <= off < 2 ^ 31 -> len part < 2 ^ 31 ->
  take (length part) (drop (Z.to_nat off) c) = part ->
  exists f' r', load_region __FILE__ f what dst off (len part) seek rd r = Ok f' r' /\
    opened (m_lfs r') f' c (off + len part) /\ goes (region dst part (memory r)) r r'.
Proof using.
  intros Hf Hoff Hlen Hpart. unfold load_region.
  assert (0 <= len part) as Hn by (unfold len; lia).
  set (r0 := add_event (ets_printf (txt "[*] " ++ (9 :: txt "Loading " ++ txt what ++ txt " %p (%d bytes)") ++ [10; 13])
    [VWord dst; VWord (len part)]) r).
  destruct (seek_ok r0 f c pos off Hf Hoff) as (f1 & l1 & E1 & Hf1).
  destruct (read_ok (set_lfs l1 r0) f1 c off (len part) Hf1 ltac:(lia) ltac:(lia)) as (f2 & l2 & E2 & Hf2).
  cbv zeta in E2, Hf2. replace (Z.to_nat (len part)) with (length part) in * by (unfold len; lia).
  rewrite Hpart in E2, Hf2.
  exists f2. eexists. split; [|split].
  - mrun. mrun E1. cbn [fst snd]. rewrite (wrapu_small 32 off), Z.eqb_refl by lia. mrun.
    rewrite (wrapu_small 32 (len part)) by lia. mrun E2. cbn [fst snd]. mrun. rewrite Z.eqb_refl. mrun.
    mfirst.
    { unfold xthal_memcpy. mrun (load_bytes_ok m_temp_buffer part).
      { apply in_memory_write. } reflexivity. }
    reflexivity.
  - exact Hf2.
  - split; [done|done|]. eexists. reflexivity.
Qed.

(** ** The ramdisk *)
Abbreviation ramdisk_entry := (m_initrd_buffer + sizeof_initrd_header).

Definition ramdisk_memory (name content : list Z) (mem : gmap Z Z) : gmap Z Z :=
  write_bytes m_initrd_buffer (le_bytes 4 (76 + len content))
    (write_bytes (ramdisk_entry + sizeof_initrd_entry) content
      (write_bytes (ramdisk_entry + 4) (name ++ [0])
        (write_bytes ramdisk_entry (le_bytes 4 (len content)) (write_bytes (m_initrd_buffer + 4) [1] mem)))).

Lemma len_le_bytes v : len (le_bytes 4 v) = 4.
Proof using. reflexivity. Qed.

Lemma load_initrd_file_ok name content entry (r : rom fs) :
  mounted (m_lfs r) -> disk name = Some content -> len content < 2 ^ 31 ->
  let filename := match strrchr name 47 with None => name | Some t => drop 1 t end in
  exists r', load_initrd_file __FILE__ name entry r = Ok tt r' /\ mounted (m_lfs r') /\
    goes (write_bytes (entry + sizeof_initrd_entry) content (write_bytes (entry + 4) (filename ++ [0])
      (write_bytes entry (le_bytes 4 (len content)) (memory r)))) r r'.
Proof using All.
  intros Hm Hd Hlen filename. assert (0 <= len content) as Hn by (unfold len; lia).
  destruct (stat_ok r name content Hm Hd) as (l1 & E1 & Hm1).
  set (r1 := set_memory (write_bytes (entry + 4) (filename ++ [0])
      (write_bytes entry (le_bytes 4 (len content)) (memory r)))
    (add_event (ets_printf (txt "[*] " ++ (9 :: txt "Loading %s (%d bytes)") ++ [10; 13])
      [literal name; VWord (len content)]) (set_lfs l1 r))).
  destruct (open_ok r1 name content Hm1 Hd) as (f & l2 & E2 & Hm2 & Hf).
  destruct (read_ok (set_lfs l2 r1) f content 0 (len content) Hf ltac:(lia) ltac:(lia)) as (f3 & l3 & E3 & Hf3).
  cbv zeta in E3. change (Z.to_nat 0) with 0%nat in E3.
  rewrite drop_0, firstn_all2 in E3 by (unfold len; lia).
  eexists. split; [|split].
  - unfold load_initrd_file. mrun E1. cbn [fst snd]. mrun. mrun. mrun. mrun.
    mrun E2. cbn [fst snd]. mrun. mrun E3. cbn [fst snd]. mrun.
    rewrite (wrapu_small 32 (len content)), Z.eqb_refl by lia. reflexivity.
  - exact (opened_mounted _ _ _ _ Hf3).
  - split; [done|done|]. eexists. reflexivity.
Qed.

Lemma load_initrd_ok content (r : rom fs) :
  mounted (m_lfs r) -> disk (txt "/apps/init") = Some content -> len content < 2 ^ 28 ->
  exists r', load_initrd __FILE__ r = Ok tt r' /\ mounted (m_lfs r') /\
    goes (ramdisk_memory (txt "init") content (memory r)) r r'.
Proof using All.
  intros Hm Hd Hlen. assert (0 <= len content) as Hn by (unfold len; lia).
  set (r0 := set_memory (write_bytes (m_initrd_buffer + 4) [1] (memory r))
    (add_event (ets_printf (txt "[*] " ++ txt "Loading initrd" ++ [10; 13]) []) r)).
  destruct (load_initrd_file_ok (txt "/apps/init") content ramdisk_entry r0 Hm Hd ltac:(lia)) as (r1 & E1 & Hm1 & G1).
  set (size := u32 (m_initrd_buffer + 8 + 68 + len content)).
  assert (size = m_initrd_buffer + 76 + len content) as Hsize
    by (unfold size, m_initrd_buffer; rewrite wrapu_small by lia; lia).
  assert (u32 (size - m_initrd_buffer) = 76 + len content) as Htotal
    by (rewrite Hsize, wrapu_small by lia; lia).
  set (r2 := set_memory (write_bytes m_initrd_buffer (le_bytes 4 (76 + len content)) (memory r1)) r1).
  exists (add_event (ets_printf (txt "[*] " ++ txt "Total size: %d bytes" ++ [10; 13]) [VWord (76 + len content)]) r2).
  split; [|split].
  - unfold load_initrd. mrun. mrun. mrun E1. mfirst.
    { unfold next_entry. mrun (load_word_ok ramdisk_entry (len content)); [lia| |reflexivity].
      rewrite (go_memory _ _ _ G1). apply in_memory_other; [right; rewrite len_le_bytes; unfold sizeof_initrd_entry; lia|].
      apply in_memory_other; [right; rewrite len_le_bytes; lia|]. apply in_memory_write. }
    unfold sizeof_initrd_header, sizeof_initrd_entry. fold size. rewrite Htotal. mrun.
    mrun (load_word_ok m_initrd_buffer (76 + len content)).
    { lia. } { apply in_memory_write. }
    reflexivity.
  - exact Hm1.
  - destruct G1 as [M1 W1 [evs Ev]]. split; [|exact W1|].
    + unfold r2. cbn [add_event set_memory memory]. by rewrite M1.
    + eexists. unfold r2. cbn [add_event set_memory events]. rewrite Ev. cbn [r0 add_event set_memory events].
      rewrite <- !(assoc_L (++)). reflexivity.
Qed.

(** ** The kernel *)
Definition kernel_memory (code vdso data : list Z) (mem : gmap Z Z) : gmap Z Z :=
  region KERNEL_DATA_BASE data (region KERNEL_VDSO_BASE vdso (region KERNEL_CODE_BASE code mem)).

(** A kernel as the build puts it into a file. *)
Record kernel_file_ok (h : kernel_header) (code data vdso : list Z) : Prop := {
  kf_typed : header_typed h;
  kf_ok : header_ok h = true;
  kf_code : code_size h = len code;
  kf_data : data_size h = len data;
  kf_vdso : vdso_size h = len vdso;
}.
Definition kernel_file (h : kernel_header) (code data vdso : list Z) : list Z :=
  kernel_header_bytes h ++ code ++ data ++ vdso.

Lemma kernel_file_sizes h code data vdso :
  kernel_file_ok h code data vdso ->
  len code <= UINT16_MAX /\ len data <= UINT16_MAX /\ len vdso <= UINT16_MAX.
Proof using.
  intros [_ H <- <- <-]. unfold header_ok in H. rewrite !andb_true_iff, !Z.leb_le in H.
  destruct H as [[[_ Hc] Hd] Hv]. done.
Qed.

Lemma read_header_ok f c (r : rom fs) :
  opened (m_lfs r) f c 0 -> exists f' l pos, read_header f r = Ok (file_header c, f') (set_lfs l r) /\
    opened l f' c pos.
Proof using All.
  intros Hf. destruct (read_ok r f c 0 sizeof_kernel_header Hf) as (f' & l & E & Hf'); [done|done|].
  cbv zeta in E. change (Z.to_nat 0) with 0%nat in E. change (Z.to_nat sizeof_kernel_header) with 20%nat in E.
  rewrite drop_0 in E. eexists f', l, _. split; [|exact Hf'].
  unfold read_header. mrun E. cbn [fst snd]. change (Z.to_nat sizeof_kernel_header) with 20%nat.
  assert (take 20 c ++ drop (length (take 20 c)) (replicate 20 0) = take 20 (c ++ replicate 20 0)) as ->.
  { rewrite take_app, take_replicate, drop_replicate, length_take. f_equal. f_equal. lia. }
  mrun read_kernel_header_ok; [|reflexivity]. rewrite length_take, length_app, length_replicate. lia.
Qed.

Lemma load_kernel_ok h code data vdso (r : rom fs) :
  mounted (m_lfs r) -> disk (txt "/kernel") = Some (kernel_file h code data vdso) ->
  kernel_file_ok h code data vdso ->
  exists r', load_kernel __FILE__ r = Ok (entry_point h) r' /\ goes (kernel_memory code vdso data (memory r)) r r'.
Proof using All.
  intros Hm Hd Hk. pose proof (kernel_file_sizes _ _ _ _ Hk) as (Lc & Ld & Lv). unfold UINT16_MAX in *.
  set (c := kernel_file h code data vdso) in *.
  assert (file_header c = h) as Hh by (apply file_header_of, Hk).
  assert (0 <= len code /\ 0 <= len data /\ 0 <= len vdso) as (Nc & Nd & Nv) by (unfold len; lia).
  assert (length (kernel_header_bytes h) = 20%nat) as Hl by reflexivity.
  set (r0 := add_event (ets_printf (txt "[*] " ++ txt "Loading kernel" ++ [10; 13]) []) r).
  destruct (open_ok r0 (txt "/kernel") c Hm Hd) as (f1 & l1 & E1 & _ & Hf1).
  destruct (read_header_ok f1 c (set_lfs l1 r0) Hf1) as (f2 & l2 & pos & E2 & Hf2). rewrite Hh in E2.
  pose proof (check_header_spec h (set_lfs l2 r0)) as E3. rewrite (kf_ok _ _ _ _ Hk) in E3.
  rewrite (kf_code _ _ _ _ Hk), (kf_data _ _ _ _ Hk) in E3. specialize (E3 ltac:(lia)).
  destruct (load_region_ok f2 c pos "code" KERNEL_CODE_BASE 20 code_seek code_read (set_lfs l2 r0) code Hf2)
    as (f4 & r4 & E4 & Hf4 & G4); [lia|lia| |].
  { unfold c, kernel_file. change (Z.to_nat 20) with (length (kernel_header_bytes h)).
    by rewrite drop_app_length, take_app_length. }
  destruct (load_region_ok f4 c _ "vdso" KERNEL_VDSO_BASE (20 + len code + len data) vdso_seek vdso_read r4 vdso Hf4)
    as (f5 & r5 & E5 & Hf5 & G5); [lia|lia| |].
  { unfold c, kernel_file. rewrite !(assoc_L (++)). rewrite drop_app_length'.
    - by rewrite firstn_all.
    - rewrite !length_app, Hl. unfold len. lia. }
  destruct (load_region_ok f5 c _ "data" KERNEL_DATA_BASE (20 + len code) data_seek data_read r5 data Hf5)
    as (f6 & r6 & E6 & Hf6 & G6); [lia|lia| |].
  { unfold c, kernel_file. rewrite (assoc_L (++)). rewrite drop_app_length'.
    - by rewrite take_app_length.
    - rewrite !length_app, Hl. unfold len. lia. }
  exists r6. split.
  - unfold load_kernel. mrun. mrun E1. cbn [fst snd]. mrun. mrun E2. cbn [fst snd].
    rewrite (kf_code _ _ _ _ Hk), (kf_data _ _ _ _ Hk), (kf_vdso _ _ _ _ Hk). unfold sizeof_kernel_header.
    rewrite (wrapu_small 32 (20 + len code)), (wrapu_small 32 (20 + len code + len data)) by lia.
    mrun E3. mrun E4. mrun E5. mrun E6. reflexivity.
  - destruct G4 as [M4 (A4 & B4 & C4) [e4 V4]], G5 as [M5 (A5 & B5 & C5) [e5 V5]], G6 as [M6 (A6 & B6 & C6) [e6 V6]].
    split.
    + rewrite M6, M5, M4. reflexivity.
    + rewrite A6, A5, A4, B6, B5, B4, C6, C5, C4. done.
    + eexists. rewrite V6, V5, V4. cbn [set_lfs r0 add_event events]. rewrite <- !(assoc_L (++)). reflexivity.
Qed.

(** Without a kernel, or with a header that does not pass, nothing is put in place. *)
Lemma load_kernel_stops (r : rom fs) :
  mounted (m_lfs r) ->
  match disk (txt "/kernel") with
  | None => True
  | Some c => let h := file_header c in
      - 2 ^ 31 <= code_size h + data_size h < 2 ^ 31 /\ header_ok h = false
  end ->
  exists s r', site_function s = "load_kernel"%string /\ asserts (load_kernel __FILE__) s r r' /\
    memory r' = memory r.
Proof using All.
  intros Hm H. set (r0 := add_event (ets_printf (txt "[*] " ++ txt "Loading kernel" ++ [10; 13]) []) r).
  destruct (disk (txt "/kernel")) as [c|] eqn:Hd.
  - cbv zeta in H. destruct H as [Hsum Hbad].
    destruct (open_ok r0 (txt "/kernel") c Hm Hd) as (f1 & l1 & E1 & _ & Hf1).
    destruct (read_header_ok f1 c (set_lfs l1 r0) Hf1) as (f2 & l2 & pos & E2 & Hf2).
    pose proof (check_header_spec (file_header c) (set_lfs l2 r0) Hsum) as E3. rewrite Hbad in E3.
    destruct E3 as (s & Hs & E3). exists s, (set_lfs l2 r0). split; [done|]. split; [|done].
    unfold load_kernel. eapply asserts_after; [reflexivity|]. eapply asserts_after; [exact E1|].
    eapply asserts_after; [reflexivity|]. eapply asserts_after; [exact E2|].
    apply asserts_bind. exact E3.
  - destruct (open_missing r0 (txt "/kernel") Hm Hd) as (e & f & l & E1 & He & _).
    exists kernel_open, (set_lfs l r0). split; [done|]. split; [|done].
    unfold load_kernel. eapply asserts_after; [reflexivity|]. eapply asserts_after; [exact E1|].
    cbn [fst snd]. rewrite (proj2 (Z.eqb_neq e 0)) by lia. apply asserts_bind, assert_fails.
Qed.

(** ** Waiting for a character *)
Abbreviation wait fuel i := (mwhile fuel (fun i => mret (negb (uart_rx_one_char i =? 0))) (fun i => mret (S i)) i).

Lemma wait_ends n : forall i fuel (r : rom fs),
  (n < fuel)%nat -> uart_rx_one_char (i + n) = 0 -> exists j, wait fuel i r = Ok j r.
Proof using.
  induction n as [|n IH]; intros i [|fuel] r Hf Hn; try lia;
    destruct (Z.eqb_spec (uart_rx_one_char i) 0) as [Hz|Hz].
  - eexists. cbn [mwhile]. mrun. by rewrite Hz.
  - rewrite Nat.add_0_r in Hn. done.
  - eexists. cbn [mwhile]. mrun. by rewrite Hz.
  - destruct (IH (S i) fuel r) as [j E]; [lia|by rewrite <- Nat.add_succ_comm in Hn|].
    exists j. cbn [mwhile]. mrun. rewrite (proj2 (Z.eqb_neq _ _) Hz). mrun. exact E.
Qed.

Lemma wait_for_ever fuel : forall i (r : rom fs),
  (forall i, uart_rx_one_char i <> 0) -> wait fuel i r = Stop Spin r.
Proof using.
  induction fuel as [|fuel IH]; intros i r Hn; [done|]. cbn [mwhile]. mrun.
  rewrite (proj2 (Z.eqb_neq _ _) (Hn i)). mrun. by apply IH.
Qed.

(** ** The whole loader *)
Abbreviation start := (_start esp_rom_spiflash_read config_param uart_rx_one_char polls __FILE__).

Definition watchdogs_off (r : rom fs) : Prop :=
  TIMG0_Tx_WDTCONFIG0 r = 0 /\ TIMG1_Tx_WDTCONFIG0 r = 0 /\ RTC_CNTL_WDTCONFIG0 r = 0.

Lemma watchdogs_stay mem (r r' : rom fs) : goes mem r r' -> watchdogs_off r -> watchdogs_off r'.
Proof using. intros [_ (A & B & C) _] (H1 & H2 & H3). unfold watchdogs_off. by rewrite A, B, C. Qed.

Lemma start_mounts (r : rom fs) :
  (exists n, (n < polls)%nat /\ uart_rx_one_char n = 0) -> config_param = 0 ->
  exists r1, start r = (load_initrd __FILE__;; load_kernel __FILE__) r1 /\ mounted (m_lfs r1) /\
    memory r1 = memory r /\ watchdogs_off r1.
Proof using All.
  intros (n & Hn & Hz) Hc. set (r0 := Rom (memory r) (m_lfs r) (events r) 0 0 0).
  destruct (wait_ends n 0 polls r0 Hn Hz) as (j & E0).
  set (r1 := Rom (memory r) (m_lfs r) (((((events r ++ [ets_printf (txt "[*] " ++ txt "Welcome from the loader!" ++ [10; 13]) []])
    ++ [ets_printf (txt "[*] " ++ (9 :: txt "Configuring flash") ++ [10; 13]) []])
    ++ [esp_rom_spiflash_attach 0 false])
    ++ [esp_rom_spiflash_config_param [0; 16 * 0x100000; 0x10000; 0x1000; 0x100; 0xffff]])
    ++ [ets_printf (txt "[*] " ++ (9 :: txt "Mounting rootfs") ++ [10; 13]) []]) 0 0 0).
  destruct (mount_ok (config := config) r1) as (l & E1 & Hm).
  exists (set_lfs l r1). split; [|done].
  unfold _start. etransitivity; [eapply (bind_ok _ _ tt r r0); reflexivity|]. cbv beta.
  mrun E0. mrun. mrun. mrun. mrun. rewrite Hc. mrun. mrun. mrun E1. mrun. reflexivity.
Qed.

(** The loader on good files, whatever overlaps. *)
Lemma start_ok content h code data vdso (r : rom fs) :
  (exists n, (n < polls)%nat /\ uart_rx_one_char n = 0) -> config_param = 0 ->
  disk (txt "/apps/init") = Some content -> len content < 2 ^ 28 ->
  disk (txt "/kernel") = Some (kernel_file h code data vdso) -> kernel_file_ok h code data vdso ->
  exists r', start r = Ok (entry_point h) r' /\ watchdogs_off r' /\
    memory r' = kernel_memory code vdso data (ramdisk_memory (txt "init") content (memory r)).
Proof using All.
  intros Hrx Hc Hi Hlen Hd Hk. destruct (start_mounts r Hrx Hc) as (r1 & E1 & Hm1 & M1 & W1).
  destruct (load_initrd_ok content r1 Hm1 Hi Hlen) as (r2 & E2 & Hm2 & G2).
  destruct (load_kernel_ok h code data vdso r2 Hm2 Hd Hk) as (r3 & E3 & G3).
  exists r3. split; [|split].
  - rewrite E1. mrun E2. exact E3.
  - eapply watchdogs_stay; [exact G3|]. by eapply watchdogs_stay.
  - by rewrite (go_memory _ _ _ G3), (go_memory _ _ _ G2), M1.
Qed.

Lemma in_region_other dst part mem addr bytes :
  dst + len part <= addr \/ addr + len bytes <= dst ->
  m_temp_buffer + len part <= addr \/ addr + len bytes <= m_temp_buffer ->
  in_memory mem addr bytes -> in_memory (region dst part mem) addr bytes.
Proof using. intros H1 H2 H. apply in_memory_other; [done|]. by apply in_memory_other. Qed.

(** The ramdisk has the form that the kernel reads (Boot.v): what is behind the name and the
    number of entries is what memory held. *)
Lemma ramdisk_image pad a mem :
  length pad = 3%nat -> app_name a = txt "init" -> length (app_junk a) = 59%nat ->
  in_memory mem (m_initrd_buffer + 5) pad -> in_memory mem (ramdisk_entry + 9) (app_junk a) ->
  in_memory (ramdisk_memory (txt "init") (app_file a) mem) initrd_handoff (initrd_image pad [a]).
Proof using.
  intros Hpad Hname Hjunk Hp Hj. unfold initrd_image. cbn [fmap list_fmap concat].
  rewrite app_nil_r. unfold app_bytes. rewrite Hname.
  assert (len pad = 3) as Lp by (unfold len; lia). assert (len (app_junk a) = 59) as Lj by (unfold len; lia).
  set (body := app_file a) in *. set (junk := app_junk a) in *.
  assert (0 <= len body) as Lf by (unfold len; lia).
  change (txt "init" ++ 0 :: junk) with ((txt "init" ++ [0]) ++ junk).
  change (Z.of_nat (length [a]) :: ?l) with ([1] ++ l).
  assert (sizeof_initrd_header + len (le_bytes 4 (len body) ++ ((txt "init" ++ [0]) ++ junk) ++ body) = 76 + len body) as ->.
  { rewrite !len_app, len_le_bytes, Lj. change (len (txt "init")) with 4. change (len [0]) with 1.
    unfold sizeof_initrd_header. lia. }
  unfold ramdisk_memory. set (nm := txt "init" ++ [0]). assert (len nm = 5) as Ln by done.
  rewrite !in_memory_app, !len_app, !len_le_bytes, Lp, Lj, Ln. change (len [1]) with 1.
  repeat split;
    repeat first [exact (in_memory_write _ _ _)
      | apply in_memory_other;
        [rewrite ?len_le_bytes, ?Lp, ?Lj, ?Ln; unfold initrd_handoff, m_initrd_buffer, sizeof_initrd_header,
           sizeof_initrd_entry; change (len [1]) with 1; lia|]]; assumption.
Qed.

Lemma kernel_in_place code data vdso mem :
  len code <= UINT16_MAX -> len data <= UINT16_MAX -> len vdso <= 0x2000 ->
  in_memory (kernel_memory code vdso data mem) KERNEL_CODE_BASE code /\
  in_memory (kernel_memory code vdso data mem) KERNEL_VDSO_BASE vdso /\
  in_memory (kernel_memory code vdso data mem) KERNEL_DATA_BASE data.
Proof using.
  unfold UINT16_MAX, kernel_memory, KERNEL_CODE_BASE, KERNEL_VDSO_BASE, KERNEL_DATA_BASE. intros Lc Ld Lv.
  assert (0 <= len code /\ 0 <= len data /\ 0 <= len vdso) as (Nc & Nd & Nv) by (unfold len; lia).
  unfold m_temp_buffer in *. split; [|split].
  - do 2 (apply in_region_other; [lia|unfold m_temp_buffer; lia|]). apply in_memory_write.
  - apply in_region_other; [lia|unfold m_temp_buffer; lia|]. apply in_memory_write.
  - apply in_memory_write.
Qed.

Lemma kernel_memory_below code data vdso mem addr bytes :
  len code <= UINT16_MAX -> len data <= UINT16_MAX -> len vdso <= UINT16_MAX ->
  addr + len bytes <= m_temp_buffer ->
  in_memory mem addr bytes -> in_memory (kernel_memory code vdso data mem) addr bytes.
Proof using.
  unfold UINT16_MAX, m_temp_buffer. intros Lc Ld Lv Hb H. unfold kernel_memory.
  do 3 (apply in_region_other;
    [unfold KERNEL_DATA_BASE, KERNEL_VDSO_BASE, KERNEL_CODE_BASE; lia|unfold m_temp_buffer; lia|]). exact H.
Qed.

(** C12: From the flash to the kernel. With a kernel and an application on the disk, a vDSO of at
    most 8 KB and a ramdisk of at most 56 KB, the loader ends with the jump to the kernel's
    entry point, inside the code. The watchdogs are off, the code, the vDSO and the data are
    at the addresses the kernel is linked for, and the ramdisk with the application is where
    the kernel looks for it, in the form that it reads. *)
Theorem start_hands_over pad a h code data vdso (r : rom fs) :
  (exists n, (n < polls)%nat /\ uart_rx_one_char n = 0) -> config_param = 0 ->
  disk (txt "/apps/init") = Some (app_file a) -> app_name a = txt "init" -> length (app_junk a) = 59%nat ->
  disk (txt "/kernel") = Some (kernel_file h code data vdso) -> kernel_file_ok h code data vdso ->
  len vdso <= 0x2000 -> 76 + len (app_file a) <= 0xE000 ->
  length pad = 3%nat -> in_memory (memory r) (m_initrd_buffer + 5) pad ->
  in_memory (memory r) (ramdisk_entry + 9) (app_junk a) ->
  exists r', start r = Ok (entry_point h) r' /\ watchdogs_off r' /\
    KERNEL_CODE_BASE <= entry_point h < KERNEL_CODE_BASE + len code /\
    in_memory (memory r') KERNEL_CODE_BASE code /\ in_memory (memory r') KERNEL_VDSO_BASE vdso /\
    in_memory (memory r') KERNEL_DATA_BASE data /\
    in_memory (memory r') initrd_handoff (initrd_image pad [a]).
Proof using All.
  intros Hrx Hc Hi Hname Hjunk Hd Hk Hv Hlen Hpad Hp Hj.
  destruct (kernel_file_sizes _ _ _ _ Hk) as (Lc & Ld & Lv).
  destruct (start_ok (app_file a) h code data vdso r Hrx Hc Hi ltac:(lia) Hd Hk) as (r' & E & W & M).
  destruct (kernel_in_place code data vdso (ramdisk_memory (txt "init") (app_file a) (memory r)) Lc Ld Hv)
    as (I1 & I2 & I3).
  exists r'. rewrite M. split; [exact E|]. split; [exact W|]. split; [|split; [exact I1|split; [exact I2|split; [exact I3|]]]].
  - pose proof (kf_ok _ _ _ _ Hk) as H. unfold header_ok in H. rewrite (kf_code _ _ _ _ Hk) in H.
    assert (0 <= len code) by (unfold len; lia). unfold KERNEL_CODE_BASE, UINT16_MAX in *.
    rewrite (wrapu_small 32 (0x400A0000 + len code)) in H by lia.
    rewrite !andb_true_iff in H. destruct H as [[[[[_ H1] H2] _] _] _].
    apply Z.leb_le in H1. apply Z.ltb_lt in H2. lia.
  - apply kernel_memory_below; [done|done|done| |].
    + rewrite len_initrd_image by done. cbn [fmap list_fmap concat]. rewrite app_nil_r. unfold app_bytes.
      rewrite Hname, !len_app, len_le_bytes. assert (len (0 :: app_junk a) = 60) as -> by (unfold len; cbn; lia).
      change (len (txt "init")) with 4. unfold initrd_handoff, m_temp_buffer. lia.
    + by apply ramdisk_image.
Qed.

(** What the size checks let through. They accept a vDSO of up to 65535 bytes, but it is
    loaded 8 KB in front of the code that is already in place: the entry of the kernel's code
    is then a byte of the vDSO. Nothing checks the size of the ramdisk, which the buffer for
    the kernel overwrites from 56 KB on. In both cases the loader jumps to the kernel as if
    all was well. *)
Theorem start_overlaps content h code data vdso (r : rom fs) :
  (exists n, (n < polls)%nat /\ uart_rx_one_char n = 0) -> config_param = 0 ->
  disk (txt "/apps/init") = Some content -> len content < 2 ^ 28 ->
  disk (txt "/kernel") = Some (kernel_file h code data vdso) -> kernel_file_ok h code data vdso ->
  exists r', start r = Ok (entry_point h) r' /\
    (0x2000 < len vdso -> memory r' !! KERNEL_CODE_BASE = vdso !! 0x2000%nat) /\
    (0xE000 < 76 + len content -> 0 < len data -> memory r' !! (m_initrd_buffer + 0xE000) = data !! 0%nat).
Proof using All.
  intros Hrx Hc Hi Hlen Hd Hk. destruct (kernel_file_sizes _ _ _ _ Hk) as (Lc & Ld & Lv).
  destruct (start_ok content h code data vdso r Hrx Hc Hi Hlen Hd Hk) as (r' & E & W & M).
  exists r'. split; [exact E|]. rewrite M. unfold kernel_memory, region, UINT16_MAX in *.
  assert (0 <= len data /\ 0 <= len vdso) as [Nd Nv] by (unfold len; lia).
  unfold KERNEL_DATA_BASE, KERNEL_VDSO_BASE, KERNEL_CODE_BASE, m_temp_buffer, m_initrd_buffer. split; intros Hbig.
  - rewrite !write_bytes_lookup. rewrite !decide_False by lia. rewrite decide_True by lia. f_equal.
  - intros Hdata. rewrite !write_bytes_lookup. rewrite decide_False by lia. rewrite decide_True by lia. f_equal.
Qed.

(** The ways the loader stops. It waits for ever when no character comes over the serial
    port. When the flash cannot be configured, or the application or the kernel is missing,
    or the header of the kernel is short or does not pass the checks, it prints which
    assertion failed and loops; nothing of the kernel is in memory then. *)
Theorem start_stops (r : rom fs) :
  ((forall n, uart_rx_one_char n <> 0) -> exists r', start r = Stop Spin r' /\
     memory r' = memory r /\ events r' = events r /\ watchdogs_off r') /\
  ((exists n, (n < polls)%nat /\ uart_rx_one_char n = 0) ->
   (config_param <> 0 -> exists s r', site_function s = "_start"%string /\ asserts start s r r' /\
      memory r' = memory r) /\
   (config_param = 0 -> disk (txt "/apps/init") = None ->
      exists s r', site_function s = "load_initrd_file"%string /\ asserts start s r r' /\
        memory r' = write_bytes (m_initrd_buffer + 4) [1] (memory r)) /\
   (config_param = 0 -> forall content, disk (txt "/apps/init") = Some content -> len content < 2 ^ 28 ->
      match disk (txt "/kernel") with
      | None => True
      | Some c => let h := file_header c in
          - 2 ^ 31 <= code_size h + data_size h < 2 ^ 31 /\ header_ok h = false
      end ->
      exists s r', site_function s = "load_kernel"%string /\ asserts start s r r' /\
        memory r' = ramdisk_memory (txt "init") content (memory r))).
Proof using All.
  set (r0 := Rom (memory r) (m_lfs r) (events r) 0 0 0). split; [|intros Hrx; split; [|split]].
  - intros Hn. exists r0. split; [|done]. unfold _start.
    etransitivity; [eapply (bind_ok _ _ tt r r0); reflexivity|]. cbv beta.
    apply bind_stop. by apply wait_for_ever.
  - intros Hc. destruct Hrx as (n & Hn & Hz). destruct (wait_ends n 0 polls r0 Hn Hz) as (j & E0).
    eexists _, _. split; [|split].
    2:{ unfold _start. eapply (asserts_after _ _ tt _ r r0); [reflexivity|]. cbv beta.
        eapply asserts_after; [exact E0|]. do 4 (eapply asserts_after; [reflexivity|]).
        rewrite (proj2 (Z.eqb_neq _ _) Hc). apply asserts_bind, assert_fails. }
    + reflexivity.
    + reflexivity.
  - intros Hc Hi. destruct (start_mounts r Hrx Hc) as (r1 & E1 & Hm1 & M1 & W1).
    set (r2 := set_memory (write_bytes (m_initrd_buffer + 4) [1] (memory r1))
      (add_event (ets_printf (txt "[*] " ++ txt "Loading initrd" ++ [10; 13]) []) r1)).
    destruct (stat_missing r2 (txt "/apps/init") Hm1 Hi) as (e & n & l & E2 & He & _).
    eexists _, (set_lfs l r2). split; [|split].
    2:{ unfold asserts. rewrite E1. apply asserts_bind. unfold load_initrd.
        do 2 (eapply asserts_after; [reflexivity|]). apply asserts_bind.
        unfold load_initrd_file. eapply asserts_after; [exact E2|]. cbn [fst].
        rewrite (proj2 (Z.eqb_neq e 0)) by lia. apply asserts_bind, assert_fails. }
    + reflexivity.
    + cbn. by rewrite M1.
  - intros Hc content Hi Hlen Hbad. destruct (start_mounts r Hrx Hc) as (r1 & E1 & Hm1 & M1 & W1).
    destruct (load_initrd_ok content r1 Hm1 Hi Hlen) as (r2 & E2 & Hm2 & G2).
    destruct (load_kernel_stops r2 Hm2 Hbad) as (s & r3 & Hs & E3 & M3).
    exists s, r3. split; [exact Hs|]. split.
    + unfold asserts. rewrite E1. by eapply asserts_after.
    + by rewrite M3, (go_memory _ _ _ G2), M1.
Qed.
End Spec.

(** ** Examples: a file system that keeps nothing but the disk *)
Section Disk.
Context (init kernel : option (list Z)).

Definition ex_disk (name : list Z) : option (list Z) :=
  if decide (name = txt "/apps/init") then init
  else if decide (name = txt "/kernel") then kernel else None.

(** An open file is its contents and the position. *)
Definition ex_lfs : Littlefs unit (list Z * Z) := {|
  lfs_mount := fun _ r => Ok 0 r;
  lfs_stat := fun name r =>
    match ex_disk name with Some c => Ok (0, len c) r | None => Ok (-2, 0) r end;
  lfs_file_opencfg := fun name r =>
    match ex_disk name with Some c => Ok (0, (c, 0)) r | None => Ok (-2, ([], 0)) r end;
  lfs_file_seek := fun f off r => Ok (off, (f.1, off)) r;
  lfs_file_read := fun f n r =>
    let bytes := take (Z.to_nat n) (drop (Z.to_nat f.2) f.1) in
    Ok (len bytes, bytes, (f.1, f.2 + len bytes)) r;
|}.

Lemma set_lfs_unit (r : rom unit) l : set_lfs l r = r.
Proof using. by destruct l, r as [? []]. Qed.

Definition ex_lfs_laws config : LittlefsLaws (Littlefs0 := ex_lfs) ex_disk config.
Proof using.
  refine {| mounted := fun _ => True; opened := fun _ f c pos => f = (c, pos) |}; intros; try done.
  - exists tt. by rewrite set_lfs_unit.
  - exists tt. rewrite set_lfs_unit. cbn. by rewrite H0.
  - exists (-2), 0, tt. rewrite set_lfs_unit. cbn. by rewrite H0.
  - exists (c, 0), tt. rewrite set_lfs_unit. cbn. by rewrite H0.
  - exists (-2), ([], 0), tt. rewrite set_lfs_unit. cbn. by rewrite H0.
  - exists (c, off), tt. rewrite set_lfs_unit. subst f. done.
  - subst f. eexists (c, _), tt. rewrite set_lfs_unit. done.
Defined.
End Disk.

Definition ex_rom (mem : gmap Z Z) : rom unit := Rom mem tt [] 1 1 1.
Definition ex_header (vdso : Z) : kernel_header := KernelHeader KERNEL_MAGIC 4 4 vdso KERNEL_CODE_BASE.
Definition ex_kernel_code : list Z := [1; 2; 3; 4].
Definition ex_kernel_data : list Z := [5; 6; 7; 8].
Definition ex_big_vdso : list Z := replicate (Z.to_nat 0x2004) 9.
Definition ex_big_app : list Z := replicate (Z.to_nat 0xE000) 10.
Definition ex_kernel_file (vdso : list Z) : list Z :=
  kernel_file (ex_header (len vdso)) ex_kernel_code ex_kernel_data vdso.
Definition ex_init_app : app := App (txt "init") (replicate 59 0) [1; 2; 3; 4] [5; 6] [] 0 USER_CODE_BASE.

Lemma ex_kernel_file_ok vdso :
  len vdso <= UINT16_MAX -> Z.rem (len vdso) 4 = 0 ->
  kernel_file_ok (ex_header (len vdso)) ex_kernel_code ex_kernel_data vdso.
Proof.
  unfold UINT16_MAX. intros Hv H4. assert (0 <= len vdso) by (unfold len; lia).
  constructor; try done.
  - repeat split; try done; cbn; lia.
  - unfold header_ok. cbn [ex_header magic code_size data_size vdso_size entry_point].
    rewrite H4, (proj2 (Z.leb_le (len vdso) UINT16_MAX)) by done. reflexivity.
Qed.

Lemma ex_receives : exists n, (n < 1)%nat /\ (fun _ : nat => 0) n = 0.
Proof. exists 0%nat. split; [lia|done]. Qed.

Abbreviation ex_start init kernel :=
  (_start (Littlefs0 := ex_lfs init kernel) (fun _ _ => (0, [])) 0 (fun _ => 0) 1 []).
Definition ex_ram : gmap Z Z :=
  write_bytes (m_initrd_buffer + 5) [0; 0; 0] (write_bytes (m_initrd_buffer + 17) (replicate 59 0) ∅).

Lemma spi_flash_read_spec_witness :
  (exists v, spi_flash_read (fun a n => (0, [a; n])) [] (4096 - 4) 4096 7 8 4 (ex_rom ∅) =
     Ok (v, [11 * 4096 + 8; 4]) (ex_rom ∅)) /\
  (exists v, spi_flash_read (fun a n => (0, [a; n])) [] (4096 - 4) 4096 (2 ^ 32 - 1) 8 4 (ex_rom ∅) =
     Ok (v, [3 * 4096 + 8; 4]) (ex_rom ∅)).
Proof.
  split.
  - destruct (spi_flash_read_spec (fun a n => (0, [a; n])) [] 7 8 4 (ex_rom ∅)) as [H _]; try lia.
    destruct H as (_ & _ & _ & _ & v & E & _); [lia|reflexivity|reflexivity|]. exists v. exact E.
  - destruct (spi_flash_read_spec (fun a n => (0, [a; n])) [] (2 ^ 32 - 1) 8 4 (ex_rom ∅)) as (_ & _ & H); try lia.
    apply H; [lia|reflexivity|reflexivity].
Defined.

Lemma start_hands_over_witness :
  exists r', ex_start (Some (app_file ex_init_app)) (Some (ex_kernel_file [1; 1; 1; 1])) (ex_rom ex_ram) =
      Ok KERNEL_CODE_BASE r' /\
    in_memory (memory r') initrd_handoff (initrd_image [0; 0; 0] [ex_init_app]).
Proof.
  destruct (start_hands_over (Littlefs0 := ex_lfs (Some (app_file ex_init_app)) (Some (ex_kernel_file [1; 1; 1; 1])))
    (fun _ _ => (0, [])) 0 (fun _ => 0) 1 [] (ex_disk (Some (app_file ex_init_app)) (Some (ex_kernel_file [1; 1; 1; 1])))
    (LittlefsLaws0 := ex_lfs_laws _ _ _)
    [0; 0; 0] ex_init_app (ex_header 4) ex_kernel_code ex_kernel_data [1; 1; 1; 1] (ex_rom ex_ram)
    ex_receives eq_refl eq_refl eq_refl eq_refl eq_refl (ex_kernel_file_ok [1; 1; 1; 1] ltac:(done) eq_refl)
    ltac:(done) ltac:(apply Z.leb_le; vm_compute; reflexivity) eq_refl) as (r' & E & _ & _ & _ & _ & _ & H).
  - apply in_memory_write.
  - apply in_memory_other; [left; apply Z.leb_le; vm_compute; reflexivity|]. apply in_memory_write.
  - exists r'. split; [exact E|exact H].
Defined.

Lemma start_overlaps_witness :
  exists r', ex_start (Some ex_big_app) (Some (ex_kernel_file ex_big_vdso)) (ex_rom ∅) =
      Ok KERNEL_CODE_BASE r' /\
    memory r' !! KERNEL_CODE_BASE = Some 9 /\ memory r' !! (m_initrd_buffer + 0xE000) = Some 5.
Proof.
  assert (len ex_big_vdso = 0x2004) as Hv by (vm_compute; reflexivity).
  assert (len ex_big_app = 0xE000) as Ha by (vm_compute; reflexivity).
  destruct (start_overlaps (Littlefs0 := ex_lfs (Some ex_big_app) (Some (ex_kernel_file ex_big_vdso)))
    (fun _ _ => (0, [])) 0 (fun _ => 0) 1 [] (ex_disk (Some ex_big_app) (Some (ex_kernel_file ex_big_vdso)))
    (LittlefsLaws0 := ex_lfs_laws _ _ _)
    ex_big_app (ex_header (len ex_big_vdso)) ex_kernel_code ex_kernel_data ex_big_vdso (ex_rom ∅)
    ex_receives eq_refl eq_refl ltac:(rewrite Ha; lia) eq_refl
    (ex_kernel_file_ok ex_big_vdso ltac:(rewrite Hv; done) ltac:(rewrite Hv; reflexivity))) as (r' & E & H1 & H2).
  exists r'. split; [exact E|]. split.
  - rewrite H1 by (rewrite Hv; lia). vm_compute. reflexivity.
  - rewrite H2 by (rewrite ?Ha; done). reflexivity.
Defined.

Lemma start_stops_witness :
  (exists s r', asserts [] (ex_start None None) s (ex_rom ∅) r' /\ site_function s = "load_initrd_file"%string) /\
  (exists s r', asserts [] (ex_start (Some []) (Some [1; 2])) s (ex_rom ∅) r' /\
     site_function s = "load_kernel"%string).
Proof.
  split.
  - destruct (start_stops (Littlefs0 := ex_lfs None None) (fun _ _ => (0, [])) 0 (fun _ => 0) 1 [] (ex_disk None None)
      (LittlefsLaws0 := ex_lfs_laws _ _ _) (ex_rom ∅)) as (_ & H).
    destruct (H ex_receives) as (_ & H1 & _). destruct (H1 eq_refl eq_refl) as (s & r' & Hs & E & _).
    exists s, r'. split; [exact E|exact Hs].
  - destruct (start_stops (Littlefs0 := ex_lfs (Some []) (Some [1; 2])) (fun _ _ => (0, [])) 0 (fun _ => 0) 1 []
      (ex_disk (Some []) (Some [1; 2])) (LittlefsLaws0 := ex_lfs_laws _ _ _) (ex_rom ∅)) as (_ & H).
    destruct (H ex_receives) as (_ & _ & H1). destruct (H1 eq_refl [] eq_refl) as (s & r' & Hs & E & _).
    + reflexivity.
    + cbv zeta. split; [|vm_compute; reflexivity]. split; vm_compute; [discriminate|reflexivity].
    + exists s, r'. split; [exact E|exact Hs].
Defined.
